(* ===== verification/_CoqProject ===== *)
-Q . S2P
Prelude.v
CLib.v
Vsprintf.v
VsprintfFacts.v
Machine.v
Events.v
Keeps.v
TestId.v
DiagCore.v
DiagCoreFacts.v
DiagReports.v
BoardDiag.v
BoardDiagFacts.v
Memory.v
MemoryFacts.v
Gpio.v
I2cUclass.v
I2cUtils.v
I2cFacts.v
Eeprom.v
Rtc.v
I2cProbe.v
PowerRail.v
Mii.v
MiiFacts.v
Eth.v
NetUtils.v
EthUclass.v
EthMac.v
NetCore.v
EthFacts.v
NetFacts.v
NetEcho.v
Ping.v
BlkCache.v
BlkCacheFacts.v
MmcCore.v
MmcFacts.v
Mmc.v
SpiMem.v
SpiNor.v
SpiNorFacts.v
NorFlash.v
QSort.v
Crc32.v
Clock.v
HashTable.v
HashFacts.v
HashText.v
HashTextFacts.v
Environ.v
EnvironFacts.v
EnvMac.v
Command.v
Safety.v
Platforms.v
BeagleBone.v
