(* ===== verification/Prelude.v ===== *)
(** * eBBTF: a board bring-up test framework on U-Boot

    ** The program

    eBBTF adds a shell command, [boarddiag], to U-Boot.  The command lists and
    runs diagnostic tests of a board: memory, GPIO, I2C devices (EEPROM, clock,
    power controller), Ethernet, ping, MMC and SPI NOR flash.  Its parts are
    the command and the test executive ([test-framework/common]), the tests
    ([test-framework/testsuite]), helpers ([test-framework/utils]), one table
    of tests per board ([test-framework/supported-platforms]), and the U-Boot
    code they run on ([u-boot/lib], [u-boot/common], [u-boot/drivers],
    [u-boot/net], [u-boot/env], [u-boot/cmd]).

    A board's file declares its tests with [INVOKE_TEST_WITH_PARAM]; the linker
    sorts the declarations into a list; the executive selects the list of the
    configured board at its first use, names each test by a hash, runs the
    tests a request lists and counts the runs and failures; each test drives
    its device through U-Boot and reports events to the console.

    ** How it is modelled

    The target is the 32-bit ARM build of [am335x_evm_defconfig].  Integers are
    [Z] with their wrap-around written out ([wrap8] .. [wrap64], [sign]),
    buffers are [list Z], C strings are [string].  A C function that touches
    state is a function of [M S A := S -> outcome S A]: it returns ([Ret]),
    stops at an undefined behaviour ([Crash], with the kind of [fault]), or
    runs out of the bound of a loop ([NoFuel]).  [wp m Q w] says that [m] run
    in [w] returns in a state satisfying [Q]; a theorem with [wp] or with
    [= Ret ..] therefore includes termination and the absence of faults.

    The state of the machine is the record [world] (Machine.v): the console,
    the globals of each component, and the hardware, of an abstract type [HW].
    What a component does not model itself (controller drivers, the driver
    model, the environment, malloc, the keyboard, the timer, the chips) is
    reached only through the classes [MemBus], [I2cDriver], [Mdio], [Env],
    [EthDriver], [EthPlat], [Timer], [Keyboard], [Heap], [MmcHost], [SpiBus],
    [EnvHooks], [EnvConfig], [Slre], [TimerRegs] and [TimerDm].  The class
    [Env] has the modelled environment as an instance (EnvMac.v).
    What a theorem needs of the hardware is a record of laws of a chip or board
    ([DecodedRam], [GpioBank], [I2cMemory], [I2cScan], [EthPhy], [MmcCard],
    [NorDescription], [NorChip], [NorBoard], [EthPort], [NetPort], [EchoLink],
    [MacStore], [PlatLaw], [HooksLaw], [Counter], [SaneBoard]), and each has a
    simulated instance on which the theorem's witness applies it.

    ** Files

    - Prelude.v: machine integers, C strings, the monad, loops, [wp] and its
      tactics ([wp_step], [wp_run]), byte regions ([load_bytes],
      [store_bytes]).
    - CLib.v, Vsprintf.v, VsprintfFacts.v: [lib/ctype.c], [lib/string.c],
      [lib/strto.c], [include/bcd.h], [lib/vsprintf.c].
    - Machine.v: the [world].  Events.v: [common/eventlog.c],
      [common/consolelog.c], [common/eventId.h].  Keeps.v: invariants of the
      machine and the code that keeps them ([keeps]).
    - TestId.v: [common/generateTestId.c].
    - DiagCore.v, DiagCoreFacts.v, DiagReports.v:
      [common/process_diagtest_cmds.c]; the globals are the record [core].
    - BoardDiag.v, BoardDiagFacts.v: [common/cmd_boarddiag.c].
    - Memory.v, MemoryFacts.v: [testsuite/test_memory.c].
    - Gpio.v: [testsuite/test_gpio.c].
    - I2cUclass.v, I2cUtils.v, I2cFacts.v: [drivers/i2c/i2c-uclass.c],
      [utils/i2c_utils.c]; Eeprom.v, Rtc.v, I2cProbe.v, PowerRail.v: the tests
      of the I2C devices.
    - Mii.v, MiiFacts.v, Eth.v: [common/miiphyutil.c], [testsuite/test_eth.c].
    - NetUtils.v: [lib/net_utils.c].  EthUclass.v, EthMac.v:
      [net/eth-uclass.c], [net/eth_common.c], the address variables of
      [cmd/nvedit.c].  NetCore.v: [net/net.c], [net/arp.c], [net/ping.c] and
      the inline functions of [include/net.h], for [net_loop(PING)].
    - EthFacts.v: the uclass keeps the invariants of a port ([EthPort],
      [PortInv]) and the time its accesses take.  NetFacts.v: what a received
      packet does ([classify], [perform]), the invariant of the stack
      ([stack_ok]), and that the packet loop ends.  NetEcho.v: the frames of a
      ping, and that a host which answers is found.
    - Ping.v: [testsuite/test_ping.c], [test_memmap.c].
    - BlkCache.v, BlkCacheFacts.v: [drivers/block/blkcache.c]; MmcCore.v,
      MmcFacts.v: [drivers/mmc/mmc.c], [mmc_write.c], [drivers/block/blk-uclass.c];
      Mmc.v: [testsuite/test_mmc.c].
    - SpiMem.v, SpiNor.v, SpiNorFacts.v: [drivers/spi/spi-mem.c],
      [drivers/mtd/spi/spi-nor-core.c], [sf_probe.c], [sf-uclass.c];
      NorFlash.v: [testsuite/test_w25q32_norflash.c].
    - The environment, whose globals are the record [env_globals].
      HashTable.v, HashFacts.v: the hash table of [lib/hashtable.c] and
      [include/search.h], and the predicate [holds] that relates a table to
      the map of its variables.  QSort.v: [lib/qsort.c].  HashText.v,
      HashTextFacts.v: [hexport_r] and [himport_r].  Crc32.v: [lib/crc32.c].
      Environ.v, EnvironFacts.v: [cmd/nvedit.c], [env/common.c].  EnvMac.v:
      the Ethernet uclass over this environment.
    - Clock.v: [drivers/timer/omap-timer.c], [drivers/timer/timer-uclass.c],
      [lib/time.c]; the globals are the record [time_globals].
    - Command.v: the shell's command table, [common/command.c].
    - Safety.v: what a board must give for no test to fault or hang
      ([SaneBoard]), the invariant of the program's globals ([machine_ok]), and
      that every test keeps it.
    - Platforms.v: [supported-platforms/], the declaring macros and the sorting
      of the linker lists.  BeagleBone.v: the BeagleBone image from power-up.

    ** What is proved

    - The executive refines its specification (a fold of single runs over the
      schedule of the request), counts exactly what it runs, stops at the first
      failure when asked to, rejects bad requests, and loops for ever on the
      largest loop count.  What it asks of the tests is only that each, run
      with its own argument on a machine satisfying an invariant, returns and
      keeps the invariant ([DiagCoreFacts.able]).
    - The command: which words it accepts, what [list], [run] and [runAll] do,
      from power-up on; test names of the tables have distinct ids; the arguments
      of the tables have the types the tests read.  For the Raspberry Pi 2 these
      compose to a theorem about the whole image.
    - The whole BeagleBone image: on a board whose accesses return and whose
      clock runs, whatever the devices answer, [boarddiag runAll] runs the
      sixteen tests once each and returns ([bbb_runAll_from_boot]): no
      undefined behaviour, no endless loop, no test that spoils the state for
      the next.  The same holds of the line given to the shell
      ([bbb_shell_runAll]).
    - The shell: which command a word selects ([find_cmd_tbl_spec]), that a
      refused line only prints ([cmd_process_rejects]), and that the help lists
      the commands in order ([help_list_sorted]).
    - Each test: the verdict as an equivalence with a property of the device
      (which faults a memory test detects, which cells an EEPROM test covers,
      which modes the Ethernet test compares), and behaviour that differs from
      what the test is for.
    - The network: the receive path does one action per packet, chosen by a
      function of the packet and the board's addresses ([receive_refines]);
      [net_loop(PING)] returns on every port, whatever is received and when
      ([ping_loop_returns]), and reports success only when an echo reply was
      received; two boards that run this stack find each other, frame by frame
      ([ping_finds_board]); an echo request with a wrong length makes the board
      read outside its packet buffer ([short_echo_crash]).  The address of a
      device is kept in the environment ([eth_probe_address]).
    - The environment: open addressing with double hashing and deleted slots,
      on a table of prime size, refines a finite map ([env_refines_map]); the
      sorted, escaped and checksummed image that is stored is read back
      ([env_export_import_roundtrip]), and is refused when a byte has changed
      ([env_import_rejects_changed_byte]); the export writes past its buffer
      when backslashes leave no room ([env_export_overruns]).  Through the
      uclass, the table, the callback of the variable, the image and the next
      start, the address of a device stays what it was
      ([mac_survives_reboot]).
    - The clock: [get_timer] counts over the turns of the 32-bit counter, and
      [udelay] ends and waits as long as it should ([get_timer_counts],
      [udelay_waits]), but not before the driver model is up
      ([udelay_early]).
    - The U-Boot layers below them: round trips through the I2C, MMC and NOR
      stacks, coherence and bound of the block cache, the invariant of the MII
      registry, printing and parsing of numbers and addresses, the internet
      checksum and the CRC-32 ([crc32_is_remainder]).

    ** Bounds

    A C loop whose bound is visible has that bound as fuel ([for_loop],
    [for_index]).  [ExecuteAllTestListed] takes its fuel as an argument: one
    more than the [loopCnt + 1] passes is enough ([execute_refines]), and for
    the largest [loopCnt] none is ([execute_endless]).  The loops over a
    transfer ([read_data_loop], [erase_loop], [write_loop], [bread_loop], ..)
    have the length as fuel, since every round makes progress.  Polling
    the flash is bounded in C by its 40 s timeout; [POLLS] (SpiNor.v), 10^8
    rounds, is more than fit in it when a transfer takes at least a
    microsecond, which is all [SaneBoard] says about readiness; the laws of a
    working chip ([NorChip]) say that it becomes ready within 6,000 rounds.
    The packet loop of [net_loop] has no bound in C; [NET_ROUNDS] (NetCore.v),
    10^10 rounds, is more than fit in the ten tries of ARP and the ten seconds
    of the ping when a round takes at least a microsecond and an access at
    most two seconds ([NetPort]).  The bound is a binary number ([forever]).
    The loops over the Ethernet devices have their number as fuel.
    A search of the hash table visits each slot once; the text of an import
    and the gaps of the sort shrink in every round; the prime search of
    [hcreate_r] succeeds for every size [himport_r] asks for
    ([hcreate_spec]).  A delay polls the counter without a bound in C;
    [poll_bound] (Clock.v), 2^128 polls, is more than a 64-bit count of ticks
    of up to 2^32 cycles takes.

    ** Not modelled

    The rest of U-Boot: the shell's parser, the driver-model core, the controller
    drivers, the drivers of the environment's storage and its redundant
    copy, which the framework only calls; the lists that bind callbacks and
    flags to variables, the regular expressions, and the commands that edit,
    grep and copy the environment;
    the protocols of [net_loop] other than ping, which the framework does
    not use; the defragmentation of IP packets and the network console,
    which are not configured; the PHY library, and the functions of
    [miiphyutil.c] that need it; card initialisation ([mmc_init]) and flash
    identification ([spi_nor_scan]), whose results are parameters; flash
    locking; I2C bus recovery; the conversions of [vsprintf] the framework
    does not use (EFI strings, UUIDs, [%n]); the Linux-only branches that
    are not compiled.  For the tests the delays and the timer are calls to
    the hardware ([Mdio], [Timer]): what Clock.v proves of them needs a
    reading in every turn of the counter, which the laws of a single access
    do not promise.
    Headers that only declare, Makefiles and documents have no counterpart.
    The verdicts of the single tests are stated with the laws of their own
    device: the theorem about the whole BeagleBone says that every test runs
    and returns, not which of them pass. *)

From stdpp Require Export base list list_numbers strings gmap.
From Stdlib Require Export ZArith Lia Ascii.
#[global] Open Scope string_scope.
#[global] Open Scope list_scope.
#[global] Open Scope Z_scope.

(** [lia] decides division and remainder by constants. *)
Ltac Zify.zify_post_hook ::= Z.to_euclidean_division_equations.

(** * Machine integers *)

(** The target is 32-bit ARM: [int], [unsigned] and [unsigned long] have 32
    bits, [short] 16, [char] 8 (and [char] is unsigned). *)
Definition wrap8 (z : Z) : Z := z mod 2 ^ 8.
Definition wrap16 (z : Z) : Z := z mod 2 ^ 16.
Definition wrap32 (z : Z) : Z := z mod 2 ^ 32.
Definition wrap64 (z : Z) : Z := z mod 2 ^ 64.

(** Conversion to a signed type of [n] bits (two's complement). *)
Definition sign (n z : Z) : Z :=
  let m := z mod 2 ^ n in if m <? 2 ^ (n - 1) then m else m - 2 ^ n.

(** The C truth value of an integer. *)
Definition nonzero (z : Z) : bool := negb (z =? 0).

(** * Characters and C strings *)

Definition ord (c : ascii) : Z := Z.of_N (N_of_ascii c).
Definition chr (z : Z) : ascii := ascii_of_N (Z.to_N (wrap8 z)).

Definition NUL : ascii := "000"%char.
Definition newline : string := String "010"%char "".
(** The double quote. *)
Definition quote : string := String "034"%char "".

(** [s[i]] of a NUL-terminated string: the terminator, then nothing. *)
Fixpoint str_at (s : string) (i : nat) : option ascii :=
  match s, i with
  | "", O => Some NUL
  | "", S _ => None
  | String c _, O => Some c
  | String _ s', S i' => str_at s' i'
  end.

(** What a reader that stops at the first NUL sees. *)
Fixpoint c_str (s : string) : string :=
  match s with
  | "" => ""
  | String c s' => if Ascii.eqb c NUL then "" else String c (c_str s')
  end.

Definition slen (s : string) : Z := Z.of_nat (String.length s).

Fixpoint str_drop (n : nat) (s : string) : string :=
  match n, s with
  | S n', String _ s' => str_drop n' s'
  | _, _ => s
  end.

Fixpoint str_take (n : nat) (s : string) : string :=
  match n, s with
  | S n', String c s' => String c (str_take n' s')
  | _, _ => ""
  end.

Fixpoint str_repeat (n : nat) (c : ascii) : string :=
  match n with
  | O => ""
  | S n' => String c (str_repeat n' c)
  end.

Fixpoint str_of_list (l : list ascii) : string :=
  match l with
  | [] => ""
  | c :: l' => String c (str_of_list l')
  end.

Fixpoint list_of_str (s : string) : list ascii :=
  match s with
  | "" => []
  | String c s' => c :: list_of_str s'
  end.

(** * Effects: state, undefined behaviour, fuel *)

(** The ways the C program can leave its defined behaviour. *)
Inductive fault :=
| NULL_DEREF
| OUT_OF_BOUNDS
| UNINITIALISED
| BAD_VARARGS
| BAD_SHIFT
| DIV_BY_ZERO
| BAD_CAST.

(** [Ret] is a normal return, [Crash] undefined behaviour, [NoFuel] a run
    that a step bound of the model cut off. *)
Inductive outcome (S A : Type) :=
| Ret (a : A) (s : S)
| Crash (f : fault) (s : S)
| NoFuel.
Arguments Ret {S A} a s.
Arguments Crash {S A} f s.
Arguments NoFuel {S A}.

Definition M (S A : Type) : Type := S -> outcome S A.

#[export] Instance M_ret S : MRet (M S) := fun A a s => Ret a s.
#[export] Instance M_bind S : MBind (M S) := fun A B f m s =>
  match m s with
  | Ret a s' => f a s'
  | Crash e s' => Crash e s'
  | NoFuel => NoFuel
  end.

Definition crash {S A} (f : fault) : M S A := fun s => Crash f s.
Definition get {S} : M S S := fun s => Ret s s.
Definition gets {S A} (f : S -> A) : M S A := fun s => Ret (f s) s.
Definition modify {S} (f : S -> S) : M S unit := fun s => Ret tt (f s).

(** Reading through a pointer that may be [NULL]. *)
Definition deref {S A} (p : option A) : M S A :=
  match p with
  | Some a => mret a
  | None => crash NULL_DEREF
  end.

(** How one iteration of a loop body ends. *)
Inductive ctl (X R : Type) :=
| Continue (x : X)
| Break (x : X)
| Return (r : R).
Arguments Continue {X R} x.
Arguments Break {X R} x.
Arguments Return {X R} r.

(** [for (x; cond x; x = next x) body]; [inl] when the loop was left by its
    condition or a break, [inr] when the body returned from the function. *)
Fixpoint for_loop {S X R} (fuel : nat) (cond : X -> bool) (next : X -> X)
    (body : X -> M S (ctl X R)) (x : X) : M S (X + R) :=
  match fuel with
  | O => fun _ => NoFuel
  | Datatypes.S fuel' =>
      if cond x then
        c ← body x;
        match c with
        | Continue x' => for_loop fuel' cond next body (next x')
        | Break x' => mret (inl x')
        | Return r => mret (inr r)
        end
      else mret (inl x)
  end.

(** [for (;;) body], for at most [p] rounds; the body gives the value with
    which the loop ends.  The bound is binary, so that a large one can be
    run. *)
Fixpoint rounds {S R} (p : positive) (body : M S (option R)) : M S (option R) :=
  match p with
  | xH => body
  | xO p' =>
      r ← rounds p' body;
      match r with None => rounds p' body | Some r => mret (Some r) end
  | xI p' =>
      r ← body;
      match r with
      | None =>
          r ← rounds p' body;
          match r with None => rounds p' body | Some r => mret (Some r) end
      | Some r => mret (Some r)
      end
  end.

Definition forever {S R} (p : positive) (body : M S (option R)) : M S R :=
  r ← rounds p body;
  match r with None => fun _ => NoFuel | Some r => mret r end.

(** ** Records of global variables *)

(** A record written out with its projections, and the assignment to one of
    its fields. *)
Class Eta (R : Type) := eta : R → R.
Class FieldUpdate {R T : Type} (field : R → T) := update : T → R → R.
#[export] Hint Mode FieldUpdate + + + : typeclass_instances.
#[export] Hint Extern 0 (@FieldUpdate ?R ?T ?field) =>
  let v := fresh "v" in let r := fresh "r" in
  refine (λ (v : T) (r : R), _);
  let e := eval hnf in (eta r) in
  lazymatch eval pattern (field r) in e with
  | ?f _ => let t := eval cbv beta in (f v) in exact t
  end : typeclass_instances.
#[warnings="-postfix-notation-not-level-1"]
Notation "r <| field := v |>" := (update (field := field) v r)
  (at level 12, left associativity, format "r  <| field  :=  v |>").

(** Weakest precondition, total correctness: the run returns, and its result
    and final state satisfy [Q]. *)
Definition wp {S A} (m : M S A) (Q : A -> S -> Prop) (s : S) : Prop :=
  match m s with
  | Ret a s' => Q a s'
  | _ => False
  end.

(** * Lemmas *)

(** ** Integers *)

Lemma wrap8_range z : 0 ≤ wrap8 z < 256.
Proof. apply Z.mod_pos_bound. lia. Qed.

Lemma wrap32_range z : 0 ≤ wrap32 z < 2 ^ 32.
Proof. apply Z.mod_pos_bound. lia. Qed.

Lemma wrap8_small z : 0 ≤ z < 256 → wrap8 z = z.
Proof. apply Z.mod_small. Qed.

Lemma wrap16_small z : 0 ≤ z < 2 ^ 16 → wrap16 z = z.
Proof. apply Z.mod_small. Qed.

Lemma wrap32_small z : 0 ≤ z < 2 ^ 32 → wrap32 z = z.
Proof. apply Z.mod_small. Qed.

Lemma wrap64_small z : 0 ≤ z < 2 ^ 64 → wrap64 z = z.
Proof. apply Z.mod_small. Qed.

Lemma wrap32_idemp z : wrap32 (wrap32 z) = wrap32 z.
Proof. apply Z.mod_mod. lia. Qed.

Lemma nonzero_true z : nonzero z = true ↔ z ≠ 0.
Proof. unfold nonzero. rewrite negb_true_iff, Z.eqb_neq. done. Qed.

Lemma nonzero_false z : nonzero z = false ↔ z = 0.
Proof. unfold nonzero. rewrite negb_false_iff, Z.eqb_eq. done. Qed.

Lemma testbit_high a n i : 0 ≤ n → 0 ≤ a < 2 ^ n → n ≤ i → Z.testbit a i = false.
Proof.
  intros Hn Ha Hi. rewrite <- (Z.mod_small a (2 ^ n)) by done.
  by apply Z.mod_pow2_bits_high.
Qed.

(** Bounded integers of [n] bits are equal when their low [n] bits are. *)
Lemma bits_eq n a b :
  0 ≤ n → 0 ≤ a < 2 ^ n → 0 ≤ b < 2 ^ n →
  (∀ i, 0 ≤ i < n → Z.testbit a i = Z.testbit b i) → a = b.
Proof.
  intros Hn Ha Hb Hbits. apply Z.bits_inj'. intros i Hi.
  destruct (decide (i < n)); [by apply Hbits|].
  rewrite (testbit_high a n), (testbit_high b n); auto with lia.
Qed.

Lemma sign32_small z : 0 ≤ z < 2 ^ 31 → sign 32 z = z.
Proof. intros Hz. unfold sign. rewrite Z.mod_small by lia. by destruct (Z.ltb_spec z (2 ^ (32 - 1))); [|lia]. Qed.

Lemma land_pow2 a k : 0 ≤ k → Z.land a (2 ^ k) = if Z.testbit a k then 2 ^ k else 0.
Proof.
  intros Hk. apply Z.bits_inj'. intros i Hi. rewrite Z.land_spec.
  destruct (decide (i = k)) as [->|Hne].
  - rewrite Z.pow2_bits_true by done.
    destruct (Z.testbit a k); [by rewrite Z.pow2_bits_true|by rewrite Z.bits_0].
  - rewrite (Z.pow2_bits_false k i) by lia. rewrite andb_false_r.
    destruct (Z.testbit a k); [by rewrite Z.pow2_bits_false by lia|by rewrite Z.bits_0].
Qed.

Lemma nonzero_land_pow2 a k : 0 ≤ k → nonzero (Z.land a (2 ^ k)) = Z.testbit a k.
Proof.
  intros Hk. rewrite land_pow2 by done. destruct (Z.testbit a k); [|done].
  apply nonzero_true. pose proof (Z.pow_pos_nonneg 2 k). lia.
Qed.

(** ** Characters and strings *)

#[global] Arguments String.append : simpl nomatch.

Lemma ord_range c : 0 ≤ ord c < 256.
Proof. unfold ord. pose proof (N_ascii_bounded c). lia. Qed.

Lemma ord_chr z : 0 ≤ z < 256 → ord (chr z) = z.
Proof.
  intros Hz. unfold ord, chr. rewrite wrap8_small by done.
  rewrite N_ascii_embedding by lia. lia.
Qed.

Lemma chr_ord c : chr (ord c) = c.
Proof.
  unfold chr. rewrite wrap8_small by apply ord_range.
  unfold ord. rewrite N2Z.id. apply ascii_N_embedding.
Qed.

#[export] Instance ord_inj : Inj (=) (=) ord.
Proof. intros a b H. by rewrite <- (chr_ord a), <- (chr_ord b), H. Qed.

Lemma str_app_assoc (a b c : string) : ((a +:+ b) +:+ c = a +:+ (b +:+ c))%string.
Proof. induction a; simpl; congruence. Qed.

Lemma str_app_nil_r (a : string) : (a +:+ "" = a)%string.
Proof. induction a; simpl; congruence. Qed.

Lemma str_length_app (a b : string) :
  String.length (a +:+ b) = (String.length a + String.length b)%nat.
Proof. induction a; simpl; auto. Qed.

Lemma slen_app (a b : string) : slen (a +:+ b) = slen a + slen b.
Proof. unfold slen. rewrite str_length_app. lia. Qed.

Lemma slen_repeat n c : slen (str_repeat n c) = Z.of_nat n.
Proof. unfold slen. induction n; simpl; lia. Qed.

Lemma str_of_list_app l k : str_of_list (l ++ k) = (str_of_list l +:+ str_of_list k)%string.
Proof. induction l; simpl; congruence. Qed.

Lemma list_of_str_of_list l : list_of_str (str_of_list l) = l.
Proof. induction l; simpl; congruence. Qed.

Lemma slen_of_list l : slen (str_of_list l) = Z.of_nat (length l).
Proof. unfold slen. induction l; simpl; lia. Qed.

(** ** Total correctness rules *)

Section wp_rules.
Context {S : Type}.
Implicit Types s : S.

Lemma wp_run {A} (m : M S A) Q s :
  wp m Q s ↔ ∃ a s', m s = Ret a s' ∧ Q a s'.
Proof.
  unfold wp. destruct (m s) as [a s'|f s'|].
  - split; [intros HQ; by exists a, s'|intros (? & ? & [= -> ->] & HQ); done].
  - split; [done|by intros (? & ? & ? & _)].
  - split; [done|by intros (? & ? & ? & _)].
Qed.

Lemma wp_ret {A} (a : A) (Q : A → S → Prop) s : Q a s → wp (mret a) Q s.
Proof. done. Qed.

Lemma wp_bind {A B} (m : M S A) (f : A → M S B) Q s :
  wp m (λ a s', wp (f a) Q s') s → wp (m ≫= f) Q s.
Proof. unfold wp, mbind, M_bind. by destruct (m s). Qed.

Lemma M_bind_Ret {A B} (m : M S A) (f : A → M S B) s a s' :
  m s = Ret a s' → (m ≫= f) s = f a s'.
Proof. unfold mbind, M_bind. by intros ->. Qed.

Lemma wp_mono {A} (m : M S A) (P Q : A → S → Prop) s :
  wp m P s → (∀ a s', P a s' → Q a s') → wp m Q s.
Proof. unfold wp. destruct (m s); auto. Qed.

(** The run ends in the fault [e]. *)
Definition crashes {A} (m : M S A) (e : fault) (s : S) : Prop := ∃ s', m s = Crash e s'.

Lemma crashes_bind {A B} (m : M S A) (f : A → M S B) e s :
  wp m (λ a s', crashes (f a) e s') s → crashes (m ≫= f) e s.
Proof.
  intros (a & s1 & Hm & s2 & Hf)%wp_run. exists s2. by erewrite M_bind_Ret by exact Hm.
Qed.

Lemma crashes_first {A B} (m : M S A) (f : A → M S B) e s s' :
  m s = Crash e s' → crashes (m ≫= f) e s.
Proof. intros Hm. exists s'. unfold mbind, M_bind. by rewrite Hm. Qed.

Lemma wp_same {A} (m m' : M S A) (Q : A → S → Prop) s s' :
  m s = m' s' → wp m' Q s' → wp m Q s.
Proof. unfold wp. by intros ->. Qed.

Lemma wp_modify f (Q : unit → S → Prop) s : Q tt (f s) → wp (modify f) Q s.
Proof. done. Qed.

Lemma wp_gets {A} (f : S → A) (Q : A → S → Prop) s : Q (f s) s → wp (gets f) Q s.
Proof. done. Qed.

Lemma wp_deref {A} (a : A) (Q : A → S → Prop) s : Q a s → wp (deref (Some a)) Q s.
Proof. done. Qed.

(** One iteration of a loop. *)
Lemma for_loop_step {X R} fuel cond next (body : X → M S (ctl X R)) x s x' s' :
  cond x = true → body x s = Ret (Continue x') s' →
  for_loop (Datatypes.S fuel) cond next body x s = for_loop fuel cond next body (next x') s'.
Proof. intros Hc Hb. simpl. rewrite Hc. by erewrite M_bind_Ret by exact Hb. Qed.

Lemma for_loop_break {X R} fuel cond next (body : X → M S (ctl X R)) x s x' s' :
  cond x = true → body x s = Ret (Break x') s' →
  for_loop (Datatypes.S fuel) cond next body x s = Ret (inl x') s'.
Proof. intros Hc Hb. simpl. rewrite Hc. by erewrite M_bind_Ret by exact Hb. Qed.

Lemma for_loop_return {X R} fuel cond next (body : X → M S (ctl X R)) x s r s' :
  cond x = true → body x s = Ret (Return r) s' →
  for_loop (Datatypes.S fuel) cond next body x s = Ret (inr r) s'.
Proof. intros Hc Hb. simpl. rewrite Hc. by erewrite M_bind_Ret by exact Hb. Qed.

Lemma for_loop_exit {X R} fuel cond next (body : X → M S (ctl X R)) x s :
  cond x = false → for_loop (Datatypes.S fuel) cond next body x s = Ret (inl x) s.
Proof. intros Hc. simpl. by rewrite Hc. Qed.

(** A loop whose variant [v] decreases returns within any fuel above it. *)
Lemma wp_for_loop {X R} (I : X → S → Prop) (v : X → nat)
    fuel cond next (body : X → M S (ctl X R)) x (Q : X + R → S → Prop) s :
  (v x < fuel)%nat →
  I x s →
  (∀ x s, I x s → cond x = true →
     wp (body x) (λ c s', match c with
       | Continue x' => I (next x') s' ∧ (v (next x') < v x)%nat
       | Break x' => Q (inl x') s'
       | Return r => Q (inr r) s'
       end) s) →
  (∀ x s, I x s → cond x = false → Q (inl x) s) →
  wp (for_loop fuel cond next body x) Q s.
Proof.
  intros Hfuel HI Hbody Hexit. revert x s Hfuel HI.
  induction fuel as [|fuel IH]; intros x s Hfuel HI; [lia|]. simpl.
  destruct (cond x) eqn:Hc; [|by apply wp_ret, Hexit].
  apply wp_bind. eapply wp_mono; [by apply Hbody|].
  intros [x'|x'|r] s'; [|done|done]. intros [HI' Hv]. apply IH; [lia|done].
Qed.

(** An endless loop that brings the measure [v] down in every round ends
    within any bound above it. *)
Lemma wp_rounds {R} (J : S → Prop) (v : S → Z) p (body : M S (option R)) (Q : R → S → Prop) s :
  J s →
  (∀ s, J s → wp body (λ r s', match r with
     | None => J s' ∧ v s' < v s | Some r => Q r s' end) s) →
  wp (rounds p body) (λ r s', match r with
    | None => J s' ∧ v s' + Z.pos p ≤ v s | Some r => Q r s' end) s.
Proof.
  intros Hs Hbody.
  assert (∀ p', (∀ s, J s → wp (rounds p' body) (λ r s', match r with
      | None => J s' ∧ v s' + Z.pos p' ≤ v s | Some r => Q r s' end) s) →
    ∀ s, J s → wp (r ← rounds p' body;
      match r with None => rounds p' body | Some r => mret (Some r) end) (λ r s', match r with
      | None => J s' ∧ v s' + 2 * Z.pos p' ≤ v s | Some r => Q r s' end) s) as Htwice.
  { intros p' IH s1 Hs1. apply wp_bind. eapply wp_mono; [by apply IH|].
    intros [r|] s2; [intros HQ; by apply wp_ret|]. intros [Hs2 Hv2].
    eapply wp_mono; [by apply IH|]. intros [r|] s3; [done|]. intros [Hs3 Hv3]. split; [done|lia]. }
  revert s Hs. induction p as [p IH|p IH|]; intros s Hs; cbn [rounds].
  - apply wp_bind. eapply wp_mono; [by apply Hbody|].
    intros [r|] s1; [intros HQ; by apply wp_ret|]. intros [Hs1 Hv1].
    eapply wp_mono; [by apply (Htwice p IH)|]. intros [r|] s2; [done|]. intros [Hs2 Hv2].
    split; [done|lia].
  - eapply wp_mono; [by apply (Htwice p IH)|]. intros [r|] s2; [done|]. intros [Hs2 Hv2].
    split; [done|lia].
  - eapply wp_mono; [by apply Hbody|]. intros [r|] s2; [done|]. intros [Hs2 Hv2].
    split; [done|lia].
Qed.

Lemma wp_forever {R} (J : S → Prop) (v : S → Z) p (body : M S (option R)) (Q : R → S → Prop) s :
  J s → v s < Z.pos p → (∀ s, J s → 0 ≤ v s) →
  (∀ s, J s → wp body (λ r s', match r with
     | None => J s' ∧ v s' < v s | Some r => Q r s' end) s) →
  wp (forever p body) Q s.
Proof.
  intros Hs Hp Hv Hbody. apply wp_bind. eapply wp_mono; [by apply wp_rounds|].
  intros [r|] s'; [intros HQ; by apply wp_ret|]. intros [Hs' Hle]. specialize (Hv _ Hs'). lia.
Qed.

(** A loop that runs through the values [xs 0 .. xs m]. *)
Lemma wp_for_seq {X R} (xs : nat → X) (m : nat) (I : nat → S → Prop)
    fuel cond next (body : X → M S (ctl X R)) (Q : X + R → S → Prop) s :
  (m < fuel)%nat →
  (∀ k, (k ≤ m)%nat → cond (xs k) = (k <? m)%nat) →
  I 0%nat s →
  (∀ k s, (k < m)%nat → I k s →
     wp (body (xs k)) (λ c s', match c with
       | Continue x' => next x' = xs (Datatypes.S k) ∧ I (Datatypes.S k) s'
       | Break x' => Q (inl x') s'
       | Return r => Q (inr r) s'
       end) s) →
  (∀ s, I m s → Q (inl (xs m)) s) →
  wp (for_loop fuel cond next body (xs 0%nat)) Q s.
Proof.
  intros Hfuel Hcond HI Hbody Hexit.
  assert (∀ j fuel k s, (k + j = m)%nat → (j < fuel)%nat → I k s →
    wp (for_loop fuel cond next body (xs k)) Q s) as Haux; [|by apply (Haux m)].
  clear fuel s Hfuel HI.
  induction j as [|j IH]; intros [|fuel] k s Hk Hf HI; [lia| |lia|]; cbn [for_loop];
    rewrite Hcond by lia.
  - replace k with m in * by lia. rewrite Nat.ltb_irrefl. by apply wp_ret, Hexit.
  - rewrite (proj2 (Nat.ltb_lt k m)) by lia. apply wp_bind.
    eapply wp_mono; [apply Hbody; [lia|done]|].
    intros [x'|x'|r] s'; [|done|done]. intros [-> HI']. apply IH; [lia|lia|done].
Qed.
End wp_rules.

(** ** Automation *)

Create HintDb diag.
#[export] Hint Resolve wrap8_range wrap32_range ord_range : diag.

(** One step of a straight-line weakest-precondition goal. *)
Ltac wp_step :=
  lazymatch goal with
  | |- wp (mbind _ _) _ _ => apply wp_bind
  | |- wp (mret _) _ _ => apply wp_ret
  | |- wp (modify _) _ _ => apply wp_modify
  | |- wp (gets _) _ _ => apply wp_gets
  | |- wp (deref (Some _)) _ _ => apply wp_deref
  end.

(** * Byte ranges *)

(** The bytes [mem off .. mem (off + n - 1)]. *)
Definition load_bytes (off n : Z) (mem : Z → Z) : list Z :=
  (λ k, mem (off + Z.of_nat k)) <$> seq 0 (Z.to_nat n).

Lemma load_bytes_ext off n mem mem' :
  (∀ x, mem x = mem' x) → load_bytes off n mem = load_bytes off n mem'.
Proof. intros H. apply list_fmap_ext. intros ???. apply H. Qed.

Lemma load_bytes_length off n mem : length (load_bytes off n mem) = Z.to_nat n.
Proof. unfold load_bytes. by rewrite length_fmap, length_seq. Qed.

Lemma load_bytes_app off n k mem :
  0 ≤ n → 0 ≤ k → load_bytes off (n + k) mem = load_bytes off n mem ++ load_bytes (off + n) k mem.
Proof.
  intros Hn Hk. unfold load_bytes. rewrite Z2Nat.inj_add, seq_app, fmap_app by lia. f_equal.
  rewrite Nat.add_comm, <- fmap_add_seq, <- list_fmap_compose.
  apply list_fmap_ext. intros i x _. simpl. f_equal. lia.
Qed.

Lemma load_bytes_sub off n a k mem :
  0 ≤ a → 0 ≤ k → a + k ≤ n →
  take (Z.to_nat k) (drop (Z.to_nat a) (load_bytes off n mem)) = load_bytes (off + a) k mem.
Proof.
  intros Ha Hk Hn. replace n with (a + (k + (n - a - k))) by lia.
  rewrite !load_bytes_app by lia. rewrite drop_app_length', take_app_length'
    by (by rewrite load_bytes_length). done.
Qed.

(** [mem] with the bytes [data] stored from [off] on; a cell [x] that holds [o]
    and is told to hold [b] ends up with [keep x o b]. *)
Definition store_bytes (keep : Z → Z → Z → Z) (off : Z) (data : list Z) (mem : Z → Z) (x : Z) : Z :=
  if off <=? x then
    match data !! Z.to_nat (x - off) with Some b => keep x (mem x) b | None => mem x end
  else mem x.

(** A cell that holds what it is told to. *)
Definition keep_new (_ _ b : Z) : Z := b.

Lemma store_bytes_app keep off bs cs mem x :
  store_bytes keep (off + Z.of_nat (length bs)) cs (store_bytes keep off bs mem) x =
  store_bytes keep off (bs ++ cs) mem x.
Proof.
  unfold store_bytes. set (n := Z.of_nat (length bs)).
  destruct (Z.leb_spec off x); [|by replace (off + n <=? x) with false by lia].
  destruct (Z.leb_spec (off + n) x).
  - rewrite (lookup_app_r bs), (lookup_ge_None_2 bs) by lia.
    by replace (Z.to_nat (x - (off + n))) with (Z.to_nat (x - off) - length bs)%nat by lia.
  - by rewrite (lookup_app_l bs) by lia.
Qed.

Lemma store_bytes_nil keep off mem x : store_bytes keep off [] mem x = mem x.
Proof. unfold store_bytes. by destruct (off <=? x). Qed.

Lemma store_bytes_ext keep off data mem mem' x :
  (∀ x, mem x = mem' x) → store_bytes keep off data mem x = store_bytes keep off data mem' x.
Proof. intros H. unfold store_bytes. by rewrite H. Qed.

(** What was stored is what is loaded. *)
Lemma load_store off data mem :
  load_bytes off (Z.of_nat (length data)) (store_bytes keep_new off data mem) = data.
Proof.
  unfold load_bytes. rewrite Nat2Z.id. apply list_eq. intros i. rewrite list_lookup_fmap.
  destruct (decide (i < length data)%nat).
  - rewrite lookup_seq_lt by done. simpl. unfold store_bytes.
    replace (off <=? off + Z.of_nat i) with true by lia.
    replace (Z.to_nat (off + Z.of_nat i - off)) with i by lia.
    destruct (lookup_lt_is_Some_2 data i) as [b Hb]; [done|]. by rewrite Hb.
  - rewrite lookup_seq_ge by lia. by rewrite lookup_ge_None_2 by lia.
Qed.
