(* ===== verification/CLib.v ===== *)
(** The pieces of U-Boot's C library the test framework calls: character
    classes ([lib/ctype.c], [include/linux/ctype.h]), string and memory
    comparison ([lib/string.c]), number parsing ([lib/strto.c]) and BCD
    conversion ([include/bcd.h]).  A NUL-terminated string is a [string]; a
    byte array is a [list Z] of values below 256. *)

From S2P Require Import Prelude.

(** * Character classes *)

Module ctype.
Definition _U : Z := 0x01.
Definition _L : Z := 0x02.
Definition _D : Z := 0x04.
Definition _C : Z := 0x08.
Definition _P : Z := 0x10.
Definition _S : Z := 0x20.
Definition _X : Z := 0x40.
Definition _SP : Z := 0x80.

Definition _ctype : list Z :=
  replicate 8 _C ++
  [_C; Z.lor _C _S; Z.lor _C _S; Z.lor _C _S; Z.lor _C _S; Z.lor _C _S; _C; _C] ++
  replicate 16 _C ++
  Z.lor _S _SP :: replicate 15 _P ++
  replicate 10 _D ++ replicate 6 _P ++
  _P :: replicate 6 (Z.lor _U _X) ++ replicate 20 _U ++ replicate 5 _P ++
  _P :: replicate 6 (Z.lor _L _X) ++ replicate 20 _L ++ replicate 4 _P ++ [_C] ++
  replicate 32 0 ++
  Z.lor _S _SP :: replicate 31 _P ++
  replicate 23 _U ++ [_P] ++ replicate 7 _U ++ [_L] ++
  replicate 23 _L ++ [_P] ++ replicate 8 _L.

Definition __ismask (c : ascii) : Z := default 0 (_ctype !! Z.to_nat (ord c)).

Definition isdigit (c : ascii) : bool := nonzero (Z.land (__ismask c) _D).
Definition islower (c : ascii) : bool := nonzero (Z.land (__ismask c) _L).
Definition isupper (c : ascii) : bool := nonzero (Z.land (__ismask c) _U).
Definition isspace (c : ascii) : bool := nonzero (Z.land (__ismask c) _S).
Definition isxdigit (c : ascii) : bool := nonzero (Z.land (__ismask c) (Z.lor _D _X)).
Definition isalnum (c : ascii) : bool :=
  nonzero (Z.land (__ismask c) (Z.lor (Z.lor _U _L) _D)).

Definition tolower (c : ascii) : ascii :=
  if isupper c then chr (ord c - (ord "A" - ord "a")) else c.
Definition toupper (c : ascii) : ascii :=
  if islower c then chr (ord c - (ord "a" - ord "A")) else c.
End ctype.
Import ctype.

(** * Strings and memory areas *)

Definition strlen (s : string) : Z := slen (c_str s).

(** [__res] is a [signed char]: the difference is truncated to 8 bits. *)
Fixpoint strcmp (cs ct : string) : Z :=
  match cs, ct with
  | "", "" => 0
  | "", String d _ => sign 8 (0 - ord d)
  | String c _, "" => sign 8 (ord c - 0)
  | String c cs', String d ct' =>
      let __res := sign 8 (ord c - ord d) in
      if nonzero __res || (ord c =? 0) then __res else strcmp cs' ct'
  end.

Fixpoint strncmp (cs ct : string) (count : nat) {struct count} : Z :=
  match count with
  | O => 0
  | S count' =>
      let c := match cs with "" => 0 | String c _ => ord c end in
      let d := match ct with "" => 0 | String d _ => ord d end in
      let __res := sign 8 (c - d) in
      if nonzero __res || (c =? 0) then __res
      else
        match cs, ct with
        | String _ cs', String _ ct' => strncmp cs' ct' count'
        | _, _ => 0
        end
  end.

Fixpoint strnlen (s : string) (count : nat) {struct count} : Z :=
  match count, s with
  | S count', String c s' => if Ascii.eqb c NUL then 0 else 1 + strnlen s' count'
  | _, _ => 0
  end.

(** The rest of the string from the character on. *)
Fixpoint strchr (s : string) (c : ascii) : option string :=
  match s with
  | "" => if Ascii.eqb NUL c then Some "" else None
  | String a s' =>
      if Ascii.eqb a c then Some s else if Ascii.eqb a NUL then None else strchr s' c
  end.

(** [None] when [count] runs past the end of a buffer. *)
Fixpoint memcmp (cs ct : list Z) (count : nat) {struct count} : option Z :=
  match count with
  | O => Some 0
  | S count' =>
      match cs, ct with
      | a :: cs', b :: ct' =>
          let res := a - b in
          if nonzero res then Some res else memcmp cs' ct' count'
      | _, _ => None
      end
  end.

Definition memset (s : list Z) (c : Z) (count : nat) : option (list Z) :=
  if (count <=? length s)%nat
  then Some (replicate count (wrap8 c) ++ drop count s) else None.

(** * Parsing numbers *)

Definition _parse_integer_fixup_radix (s : string) (base : Z) : string * Z :=
  let is_0x :=
    match s with
    | String c0 (String c1 _) => Ascii.eqb c0 "0" && Ascii.eqb (tolower c1) "x"
    | _ => false
    end in
  let base' :=
    if base =? 0 then
      match s with
      | String c0 rest =>
          if Ascii.eqb c0 "0" then
            match rest with
            | String c1 (String c2 _) =>
                if Ascii.eqb (tolower c1) "x" && isxdigit c2 then 16 else 8
            | _ => 8
            end
          else 10
      | _ => 10
      end
    else base in
  if (base' =? 16) && is_0x then
    match s with
    | String _ (String _ s') => (s', base')
    | _ => (s, base')
    end
  else (s, base').

Definition xdigit_value (c : ascii) : Z :=
  if isdigit c then ord c - ord "0"
  else ord (if islower c then toupper c else c) - ord "A" + 10.

(** The loop of [simple_strtoul] and [simple_strtoull] at a result width. *)
Fixpoint strtoul_loop (wrap : Z -> Z) (base result : Z) (cp : string) : Z * string :=
  match cp with
  | "" => (result, cp)
  | String c cp' =>
      if isxdigit c && (xdigit_value c <? base)
      then strtoul_loop wrap base (wrap (result * base + xdigit_value c)) cp'
      else (result, cp)
  end.

(** The result and what [*endp] points at. *)
Definition simple_strtoul (cp : string) (base : Z) : Z * string :=
  let '(cp, base) := _parse_integer_fixup_radix cp base in
  strtoul_loop wrap32 base 0 cp.

Definition simple_strtoull (cp : string) (base : Z) : Z * string :=
  let '(cp, base) := _parse_integer_fixup_radix cp base in
  strtoul_loop wrap64 base 0 cp.

Definition EINVAL : Z := 22.

(** The return code and [*res]. *)
Definition strict_strtoul (cp : string) (base : Z) : Z * Z :=
  let len := strlen cp in
  if len =? 0 then (- EINVAL, 0)
  else
    let '(val, tail) := simple_strtoul cp base in
    let consumed := strlen cp - strlen tail in
    if consumed =? 0 then (- EINVAL, 0)
    else
      match c_str tail with
      | "" => (0, val)
      | String c _ =>
          if (len =? consumed + 1) && Ascii.eqb c "010" then (0, val) else (- EINVAL, 0)
      end.

Definition simple_strtol (cp : string) (base : Z) : Z * string :=
  match cp with
  | String c cp' =>
      if Ascii.eqb c "-" then
        let '(v, e) := simple_strtoul cp' base in (sign 32 (- v), e)
      else let '(v, e) := simple_strtoul cp base in (sign 32 v, e)
  | _ => let '(v, e) := simple_strtoul cp base in (sign 32 v, e)
  end.

(** * Binary-coded decimal *)

Definition bcd2bin (val : Z) : Z :=
  wrap32 (Z.land val 0x0f + Z.shiftr (Z.land val 0xff) 4 * 10).

Definition bin2bcd (val : Z) : Z :=
  wrap32 (Z.lor (Z.shiftl (val / 10) 4) (val mod 10)).

(** * Specification *)

(** A character that a parse at [base] consumes. *)
Definition base_digit (base : Z) (c : ascii) : Prop :=
  isxdigit c = true ∧ 0 ≤ xdigit_value c < base.

(** The number a digit string denotes, continuing from [acc]. *)
Definition digits_value (base : Z) (cs : list ascii) (acc : Z) : Z :=
  fold_left (λ a c, a * base + xdigit_value c) cs acc.

(** A parse at [base] stops at the head of [s]. *)
Definition parse_stops (base : Z) (s : string) : Prop :=
  match s with
  | "" => True
  | String c _ => isxdigit c && (xdigit_value c <? base) = false
  end.

(** * Lemmas *)

(** A property of the numbers below a literal bound, by evaluation. *)
Lemma forall_below (n : nat) (P : Z → Prop) :
  Forall P (seqZ 0 (Z.of_nat n)) → ∀ z, 0 ≤ z < Z.of_nat n → P z.
Proof. intros H z Hz. rewrite Forall_forall in H. apply H, elem_of_seqZ. lia. Qed.

Lemma dec_char_digit d : 0 ≤ d < 10 → base_digit 10 (chr (d + 48)) ∧ xdigit_value (chr (d + 48)) = d.
Proof.
  revert d. apply (forall_below 10). unfold base_digit.
  repeat (constructor; [vm_compute; repeat split; congruence|]). constructor.
Qed.

Lemma digits_value_snoc base cs c a :
  digits_value base (cs ++ [c]) a = digits_value base cs a * base + xdigit_value c.
Proof. unfold digits_value. by rewrite fold_left_app. Qed.

Lemma digits_value_mod base cs m a :
  0 < m → digits_value base cs (a mod m) mod m = digits_value base cs a mod m.
Proof.
  intros Hm. revert a. induction cs as [|c cs IH]; intros a; simpl.
  - by apply Z.mod_mod; lia.
  - rewrite <- IH, <- (IH (a * base + _)). f_equal. f_equal.
    by rewrite <- Zplus_mod_idemp_l, Zmult_mod_idemp_l, Zplus_mod_idemp_l.
Qed.

Lemma strtoul_loop_digits (wrap : Z → Z) m base cs rest r :
  (∀ z, wrap z = z mod m) → 0 < m → 0 ≤ r < m →
  Forall (base_digit base) cs → parse_stops base rest →
  strtoul_loop wrap base r (str_of_list cs +:+ rest) = (digits_value base cs r mod m, rest).
Proof.
  intros Hw Hm Hr Hcs Hrest. revert r Hr.
  induction Hcs as [|c cs [Hx Hv] Hcs IH]; intros r Hr; simpl.
  - rewrite Z.mod_small by done. destruct rest as [|c rest]; simpl in *; [done|].
    by rewrite Hrest.
  - rewrite Hx. replace (xdigit_value c <? base) with true by lia. simpl.
    rewrite IH by (rewrite Hw; apply Z.mod_pos_bound; lia).
    by rewrite Hw, digits_value_mod.
Qed.

Lemma fixup_radix_10 s : _parse_integer_fixup_radix s 10 = (s, 10).
Proof. done. Qed.

(** Parsing decimal digits yields their value, reduced modulo 2^32. *)
Lemma simple_strtoul_digits cs rest :
  Forall (base_digit 10) cs → parse_stops 10 rest →
  simple_strtoul (str_of_list cs +:+ rest) 10 = (wrap32 (digits_value 10 cs 0), rest).
Proof.
  intros Hcs Hrest. unfold simple_strtoul. rewrite fixup_radix_10.
  by apply strtoul_loop_digits.
Qed.

Lemma sign8_diff c d : nonzero (sign 8 (ord c - ord d)) = negb (Ascii.eqb c d).
Proof.
  destruct (Ascii.eqb_spec c d) as [->|Hne]; [by rewrite Z.sub_diag|].
  apply nonzero_true. assert (ord c ≠ ord d) by (by intros ?%ord_inj).
  pose proof (ord_range c). pose proof (ord_range d). unfold sign.
  change (2 ^ 8) with 256. change (2 ^ (8 - 1)) with 128.
  destruct (Z.ltb_spec ((ord c - ord d) mod 256) 128); lia.
Qed.

Lemma sign8_nul c : nonzero (sign 8 (ord c - 0)) = negb (Ascii.eqb c NUL).
Proof. apply (sign8_diff c NUL). Qed.

Lemma sign8_nul' c : nonzero (sign 8 (0 - ord c)) = negb (Ascii.eqb c NUL).
Proof. rewrite Ascii.eqb_sym. apply (sign8_diff NUL c). Qed.

(** [strcmp] is zero exactly on strings equal up to their terminator. *)
Lemma strcmp_zero cs ct : nonzero (strcmp cs ct) = false ↔ c_str cs = c_str ct.
Proof.
  revert ct. induction cs as [|c cs IH]; intros [|d ct]; simpl.
  - done.
  - rewrite sign8_nul'. by destruct (Ascii.eqb d NUL).
  - rewrite sign8_nul. by destruct (Ascii.eqb c NUL).
  - rewrite sign8_diff. destruct (Ascii.eqb_spec c d) as [<-|Hne]; simpl.
    + destruct (Ascii.eqb_spec c NUL) as [->|Hc]; simpl; [done|].
      replace (ord c =? 0) with false; [rewrite IH; split; congruence|].
      symmetry. apply Z.eqb_neq. intros H. by apply Hc, (inj ord).
    + rewrite sign8_diff. destruct (Ascii.eqb_spec c d); [done|]. simpl.
      destruct (Ascii.eqb_spec c NUL), (Ascii.eqb_spec d NUL); split; congruence.
Qed.

Lemma memcmp_total cs ct n :
  (n ≤ length cs)%nat → (n ≤ length ct)%nat → is_Some (memcmp cs ct n).
Proof.
  revert cs ct. induction n as [|n IH]; intros [|a cs] [|b ct] Hcs Hct; cbn in *; try lia; try by eexists.
  destruct (nonzero (a - b)); [by eexists|]. apply IH; lia.
Qed.

(** [memcmp] is zero exactly on equal areas. *)
Lemma memcmp_zero cs ct n :
  (n ≤ length cs)%nat → (n ≤ length ct)%nat →
  ∃ r, memcmp cs ct n = Some r ∧ (r = 0 ↔ take n cs = take n ct).
Proof.
  revert cs ct. induction n as [|n IH]; intros cs ct Hc Ht; simpl.
  { exists 0. split; [reflexivity|]. by rewrite !take_0. }
  destruct cs as [|a cs], ct as [|b ct]; simpl in *; [lia..|].
  destruct (nonzero (a - b)) eqn:Hr.
  - apply nonzero_true in Hr. exists (a - b). split; [done|]. split; [lia|intros [= -> _]; lia].
  - apply nonzero_false in Hr. destruct (IH cs ct) as (r & -> & Hr0); [lia..|].
    exists r. split; [done|]. rewrite Hr0. assert (a = b) as -> by lia.
    split; congruence.
Qed.

Lemma bcd2bin_digits hi lo :
  0 ≤ hi < 16 → 0 ≤ lo < 16 → bcd2bin (hi * 16 + lo) = hi * 10 + lo.
Proof.
  intros Hhi Hlo. unfold bcd2bin.
  change 0x0f with (Z.ones 4). change 0xff with (Z.ones 8).
  rewrite !Z.land_ones, Z.shiftr_div_pow2 by lia. rewrite wrap32_small; lia.
Qed.

Lemma bin2bcd_digits v : 0 ≤ v < 100 → bin2bcd v = v / 10 * 16 + v mod 10.
Proof.
  revert v. apply (forall_below 100).
  repeat (constructor; [reflexivity|]). constructor.
Qed.
