(* ===== verification/Vsprintf.v ===== *)
(** Formatted output: [lib/vsprintf.c] of U-Boot, the formatter behind every
    [printf] and [sprintf] of the test framework.  A routine that writes
    through a [char *buf] cursor is a function that returns the characters it
    adds; the bound check of the macro [ADDCH] (characters past the end of
    the buffer are counted and dropped) is applied once, in
    [vsnprintf_internal].  [None] is a conversion whose argument is missing
    or of another kind, which is undefined behaviour in C. *)

From S2P Require Import Prelude CLib.
Import ctype.

(** A variadic argument.  On the 32-bit targets [int], [unsigned],
    [unsigned long], [size_t] and [ptrdiff_t] are passed alike.  A pointer
    comes with the bytes it points at. *)
Inductive va_arg :=
| VInt (z : Z)
| VLLong (z : Z)
| VStr (s : option string)
| VPtr (addr : Z) (bytes : list Z).

Definition is_digit (c : ascii) : bool := (ord "0" <=? ord c) && (ord c <=? ord "9").

Fixpoint skip_atoi_loop (i : Z) (s : string) : Z * string :=
  match s with
  | String c s' => if is_digit c then skip_atoi_loop (i * 10 + ord c - ord "0") s' else (i, s)
  | "" => (i, s)
  end.

Definition skip_atoi (s : string) : Z * string := skip_atoi_loop 0 s.

(** * Decimal digits without division *)

(** Formats any integer in [0, 99999], least significant digit first. *)
Definition put_dec_trunc (q : Z) : list ascii :=
  let d1 := Z.land (Z.shiftr q 4) 0xf in
  let d2 := Z.land (Z.shiftr q 8) 0xf in
  let d3 := Z.shiftr q 12 in
  let d0 := wrap32 (6 * (d3 + d2 + d1) + Z.land q 0xf) in
  let q := Z.shiftr (wrap32 (d0 * 0xcd)) 11 in
  let d0 := wrap32 (d0 - 10 * q) in
  let d1 := wrap32 (q + 9 * d3 + 5 * d2 + d1) in
  chr (d0 + ord "0") ::
  (if nonzero d1 then
     let q := Z.shiftr (wrap32 (d1 * 0xcd)) 11 in
     let d1 := wrap32 (d1 - 10 * q) in
     let d2 := wrap32 (q + 2 * d2) in
     chr (d1 + ord "0") ::
     (if nonzero d2 || nonzero d3 then
        let q := Z.shiftr (wrap32 (d2 * 0xd)) 7 in
        let d2 := wrap32 (d2 - 10 * q) in
        let d3 := wrap32 (q + 4 * d3) in
        chr (d2 + ord "0") ::
        (if nonzero d3 then
           let q := Z.shiftr (wrap32 (d3 * 0xcd)) 11 in
           let d3 := wrap32 (d3 - 10 * q) in
           chr (d3 + ord "0") :: (if nonzero q then [chr (q + ord "0")] else [])
         else [])
      else [])
   else []).

(** The same with the tests removed: always five digits. *)
Definition put_dec_full (q : Z) : list ascii :=
  let d1 := Z.land (Z.shiftr q 4) 0xf in
  let d2 := Z.land (Z.shiftr q 8) 0xf in
  let d3 := Z.shiftr q 12 in
  let d0 := wrap32 (6 * (d3 + d2 + d1) + Z.land q 0xf) in
  let q := Z.shiftr (wrap32 (d0 * 0xcd)) 11 in
  let d0 := wrap32 (d0 - 10 * q) in
  let d1 := wrap32 (q + 9 * d3 + 5 * d2 + d1) in
  let q := Z.shiftr (wrap32 (d1 * 0xcd)) 11 in
  let d1 := wrap32 (d1 - 10 * q) in
  let d2 := wrap32 (q + 2 * d2) in
  let q := Z.shiftr (wrap32 (d2 * 0xd)) 7 in
  let d2 := wrap32 (d2 - 10 * q) in
  let d3 := wrap32 (q + 4 * d3) in
  let q := Z.shiftr (wrap32 (d3 * 0xcd)) 11 in
  let d3 := wrap32 (d3 - 10 * q) in
  [chr (d0 + ord "0"); chr (d1 + ord "0"); chr (d2 + ord "0"); chr (d3 + ord "0");
   chr (q + ord "0")].

(** The [while (1)] loop; a 64-bit number needs at most four rounds. *)
Fixpoint put_dec_loop (fuel : nat) (num : Z) : option (list ascii) :=
  match fuel with
  | O => None
  | S fuel' =>
      if num <? 100000 then Some (put_dec_trunc num)
      else rest ← put_dec_loop fuel' (num / 100000);
           Some (put_dec_full (num mod 100000) ++ rest)
  end.

Definition put_dec (num : Z) : option (list ascii) := put_dec_loop 4 num.

(** * Numbers *)

Definition ZEROPAD : Z := 1.
Definition SIGN : Z := 2.
Definition PLUS : Z := 4.
Definition SPACE : Z := 8.
Definition LEFT : Z := 16.
Definition SMALL : Z := 32.
Definition SPECIAL : Z := 64.

Definition has (type flag : Z) : bool := nonzero (Z.land type flag).

Definition digits : string := "0123456789ABCDEF".

(** [do { tmp[i++] = digits[num & mask] | locase; num >>= shift; } while (num)] *)
Fixpoint digits_loop (fuel : nat) (mask shift locase num : Z) : option (list ascii) :=
  match fuel with
  | O => None
  | S fuel' =>
      d ← str_at digits (Z.to_nat (Z.land (wrap8 num) mask));
      let num' := Z.shiftr num shift in
      let c := chr (Z.lor (ord d) locase) in
      if nonzero num'
      then rest ← digits_loop fuel' mask shift locase num'; Some (c :: rest)
      else Some [c]
  end.

(** [while (--size >= 0) ADDCH(buf, c);] and what it leaves in [size]. *)
Definition pad_loop (size : Z) (c : ascii) : string * Z :=
  (str_repeat (Z.to_nat size) c, Z.min size 0 - 1).

Definition number (num base size precision type : Z) : option string :=
  let need_pfx := has type SPECIAL && negb (base =? 10) in
  let locase := Z.land type SMALL in
  let type := if has type LEFT then Z.land type (Z.lnot ZEROPAD) else type in
  let '(sgn, num, size) :=
    if has type SIGN then
      if sign 64 num <? 0 then ("-", wrap64 (- sign 64 num), size - 1)
      else if has type PLUS then ("+", num, size - 1)
      else if has type SPACE then (" ", num, size - 1)
      else ("", num, size)
    else ("", num, size) in
  let size := if need_pfx then (if base =? 16 then size - 2 else size - 1) else size in
  tmp ← (if num =? 0 then Some [("0")%char]
         else if negb (base =? 10)
         then digits_loop 22 (base - 1) (if base =? 16 then 4 else 3) locase num
         else put_dec num);
  let i := Z.of_nat (length tmp) in
  let precision := if i >? precision then i else precision in
  let size := size - precision in
  let '(lead, size) :=
    if has type (ZEROPAD + LEFT) then ("", size) else pad_loop size " " in
  let pfx :=
    if need_pfx
    then "0" +:+ (if base =? 16 then String (chr (Z.lor (ord "X") locase)) "" else "")
    else "" in
  let '(mid, size) :=
    if has type LEFT then ("", size)
    else pad_loop size (if has type ZEROPAD then "0" else " ")%char in
  let zeros := str_repeat (Z.to_nat (precision - i)) "0" in
  let '(trail, _) := pad_loop size " " in
  Some (lead +:+ sgn +:+ pfx +:+ mid +:+ zeros +:+ str_of_list (rev tmp) +:+ trail).

(** * Strings and pointers *)

(** [while (len < field_width--) ADDCH(buf, ' ');] *)
Definition field_loop (len field_width : Z) : string * Z :=
  (str_repeat (Z.to_nat (field_width - len)) " ", Z.min field_width len - 1).

(** A negative precision is a huge [size_t] limit. *)
Definition string_ (s : option string) (field_width precision flags : Z) : string :=
  let s := default "<NULL>" s in
  let len :=
    if precision <? 0 then strlen s else strnlen s (Z.to_nat precision) in
  let '(lead, field_width) :=
    if has flags LEFT then ("", field_width) else field_loop len field_width in
  let '(trail, _) := field_loop len field_width in
  lead +:+ str_take (Z.to_nat len) s +:+ trail.

Definition hex_asc : string := "0123456789abcdef".

Definition hex_byte_pack (byte : Z) : option string :=
  hi ← str_at hex_asc (Z.to_nat (Z.shiftr (Z.land byte 0xf0) 4));
  lo ← str_at hex_asc (Z.to_nat (Z.land byte 0x0f));
  Some (String hi (String lo "")).

Fixpoint mac_loop (i : nat) (flags : Z) (addr : list Z) : option string :=
  match i with
  | O => Some ""
  | S i' =>
      match addr with
      | b :: addr' =>
          h ← hex_byte_pack b;
          rest ← mac_loop i' flags addr';
          Some (h +:+ (if negb (has flags SPECIAL) && negb (i =? 1)%nat then ":" else "") +:+ rest)
      | [] => None
      end
  end.

Definition mac_address_string (addr : list Z) (field_width precision flags : Z) :
    option string :=
  mac ← mac_loop 6 flags addr;
  Some (string_ (Some mac) field_width precision (Z.land flags (Z.lnot SPECIAL))).

Fixpoint ip6_loop (i : nat) (flags : Z) (addr : list Z) : option string :=
  match i with
  | O => Some ""
  | S i' =>
      match addr with
      | b0 :: b1 :: addr' =>
          h0 ← hex_byte_pack b0;
          h1 ← hex_byte_pack b1;
          rest ← ip6_loop i' flags addr';
          Some (h0 +:+ h1 +:+
                (if negb (has flags SPECIAL) && negb (i =? 1)%nat then ":" else "") +:+ rest)
      | _ => None
      end
  end.

Definition ip6_addr_string (addr : list Z) (field_width precision flags : Z) :
    option string :=
  ip6 ← ip6_loop 8 flags addr;
  Some (string_ (Some ip6) field_width precision (Z.land flags (Z.lnot SPECIAL))).

Fixpoint ip4_loop (i : nat) (addr : list Z) : option string :=
  match i with
  | O => Some ""
  | S i' =>
      match addr with
      | b :: addr' =>
          rest ← ip4_loop i' addr';
          Some (str_of_list (rev (put_dec_trunc b)) +:+
                (if negb (i =? 1)%nat then "." else "") +:+ rest)
      | [] => None
      end
  end.

Definition ip4_addr_string (addr : list Z) (field_width precision flags : Z) :
    option string :=
  ip4 ← ip4_loop 4 addr;
  Some (string_ (Some ip4) field_width precision (Z.land flags (Z.lnot SPECIAL))).

(** Little-endian value of a [phys_addr_t] (32 bits). *)
Definition le32 (bytes : list Z) : option Z :=
  match bytes with
  | b0 :: b1 :: b2 :: b3 :: _ =>
      Some (wrap32 (Z.lor b0 (Z.lor (Z.shiftl b1 8)
                     (Z.lor (Z.shiftl b2 16) (Z.shiftl b3 24)))))
  | _ => None
  end.

(** [fmt] is what follows the [p].  The EFI and UUID extensions ([%pD],
    [%pU]) are not modelled: [None]. *)
Definition pointer (fmt : string) (addr : Z) (bytes : list Z)
    (field_width precision flags : Z) : option string :=
  let tail num field_width flags :=
    let flags := Z.lor flags SMALL in
    let '(field_width, flags) :=
      if field_width =? -1 then (2 * 4, Z.lor flags ZEROPAD) else (field_width, flags) in
    number num 16 field_width precision flags in
  match fmt with
  | String c fmt' =>
      if Ascii.eqb c "D" || Ascii.eqb c "U" then None
      else if Ascii.eqb c "a" then
        num ← le32 bytes;
        tail num (4 * 2 + 2) (Z.lor flags (Z.lor SPECIAL ZEROPAD))
      else if Ascii.eqb c "m" || Ascii.eqb c "M" then
        let flags := if Ascii.eqb c "m" then Z.lor flags SPECIAL else flags in
        mac_address_string bytes field_width precision flags
      else if Ascii.eqb c "i" || Ascii.eqb c "I" then
        let flags := if Ascii.eqb c "i" then Z.lor flags SPECIAL else flags in
        let c1 := default NUL (str_at fmt' 0) in
        if Ascii.eqb c1 "6" then ip6_addr_string bytes field_width precision flags
        else if Ascii.eqb c1 "4" then ip4_addr_string bytes field_width precision flags
        else tail (wrap32 addr) field_width (Z.land flags (Z.lnot SPECIAL))
      else tail (wrap32 addr) field_width flags
  | "" => tail (wrap32 addr) field_width flags
  end.

(** * The format interpreter *)

(** The [repeat:] loop over flag characters. *)
Fixpoint parse_flags (fmt : string) (flags : Z) : string * Z :=
  match fmt with
  | String c fmt' =>
      if Ascii.eqb c "-" then parse_flags fmt' (Z.lor flags LEFT)
      else if Ascii.eqb c "+" then parse_flags fmt' (Z.lor flags PLUS)
      else if Ascii.eqb c " " then parse_flags fmt' (Z.lor flags SPACE)
      else if Ascii.eqb c "#" then parse_flags fmt' (Z.lor flags SPECIAL)
      else if Ascii.eqb c "0" then parse_flags fmt' (Z.lor flags ZEROPAD)
      else (fmt, flags)
  | "" => (fmt, flags)
  end.

(** The next argument, read as an [int]. *)
Definition next_int (args : list va_arg) : option (Z * list va_arg) :=
  match args with
  | VInt z :: args' => Some (z, args')
  | _ => None
  end.

Definition parse_width (fmt : string) (flags : Z) (args : list va_arg) :
    option (string * Z * Z * list va_arg) :=
  match fmt with
  | String c fmt' =>
      if is_digit c then let '(w, rest) := skip_atoi fmt in Some (rest, w, flags, args)
      else if Ascii.eqb c "*" then
        '(z, args') ← next_int args;
        let w := sign 32 z in
        if w <? 0 then Some (fmt', - w, Z.lor flags LEFT, args')
        else Some (fmt', w, flags, args')
      else Some (fmt, -1, flags, args)
  | "" => Some (fmt, -1, flags, args)
  end.

Definition parse_precision (fmt : string) (args : list va_arg) :
    option (string * Z * list va_arg) :=
  match fmt with
  | String c0 fmt' =>
      if Ascii.eqb c0 "." then
        match fmt' with
        | String c fmt'' =>
            if is_digit c then let '(p, rest) := skip_atoi fmt' in Some (rest, p, args)
            else if Ascii.eqb c "*" then
              '(z, args') ← next_int args;
              Some (fmt'', Z.max (sign 32 z) 0, args')
            else Some (fmt', 0, args)
        | "" => Some (fmt', 0, args)
        end
      else Some (fmt, -1, args)
  | "" => Some (fmt, -1, args)
  end.

Inductive qual := QNone | Qh | Ql | QL | QZ | Qt.

Definition parse_qualifier (fmt : string) : string * qual :=
  match fmt with
  | String "h" fmt' => (fmt', Qh)
  | String "l" (String "l" fmt') => (fmt', QL)
  | String "l" fmt' => (fmt', Ql)
  | String "L" fmt' => (fmt', QL)
  | String "Z" fmt' => (fmt', QZ)
  | String "z" fmt' => (fmt', QZ)
  | String "t" fmt' => (fmt', Qt)
  | _ => (fmt, QNone)
  end.

(** The 64-bit value [num] of an integer conversion. *)
Definition fetch_num (q : qual) (flags : Z) (args : list va_arg) :
    option (Z * list va_arg) :=
  match q, args with
  | QL, VLLong z :: args' => Some (wrap64 z, args')
  | QL, _ => None
  | Ql, VInt z :: args' =>
      Some (if has flags SIGN then wrap64 (sign 32 z) else wrap32 z, args')
  | QZ, VInt z :: args' => Some (wrap32 z, args')
  | Qt, VInt z :: args' => Some (wrap64 (sign 32 z), args')
  | Qh, VInt z :: args' =>
      Some (if has flags SIGN then wrap64 (sign 16 z) else wrap16 z, args')
  | QNone, VInt z :: args' =>
      Some (if has flags SIGN then wrap64 (sign 32 z) else wrap32 z, args')
  | _, _ => None
  end.

(** [while (isalnum(fmt[1])) fmt++;] *)
Fixpoint skip_alnum (fmt : string) : string :=
  match fmt with
  | String c fmt' => if isalnum c then skip_alnum fmt' else fmt
  | "" => fmt
  end.

(** The integer conversions: base and flag set by the conversion character. *)
Definition int_conv (c : ascii) : option (Z * Z) :=
  if Ascii.eqb c "o" then Some (8, 0)
  else if Ascii.eqb c "x" then Some (16, SMALL)
  else if Ascii.eqb c "X" then Some (16, 0)
  else if Ascii.eqb c "d" || Ascii.eqb c "i" then Some (10, SIGN)
  else if Ascii.eqb c "u" then Some (10, 0)
  else None.

(** One conversion, from its conversion character on: the text it adds, the
    rest of the format and of the arguments.  [%n] (a store through an
    argument) and [%ls] (UTF-16, EFI only) are not modelled: [None]. *)
Definition convert (fmt : string) (q : qual) (field_width precision flags : Z)
    (args : list va_arg) : option (string * string * list va_arg) :=
  match fmt with
  | "" => Some ("%", "", args)
  | String c fmt' =>
      match int_conv c with
      | Some (base, f) =>
          '(num, args') ← fetch_num q (Z.lor flags f) args;
          s ← number num base field_width precision (Z.lor flags f);
          Some (s, fmt', args')
      | None =>
          if Ascii.eqb c "c" then
            '(z, args') ← next_int args;
            let pad := str_repeat (Z.to_nat (field_width - 1)) " " in
            let ch := String (chr z) "" in
            Some (if has flags LEFT then ch +:+ pad else pad +:+ ch, fmt', args')
          else if Ascii.eqb c "s" then
            match q, args with
            | Ql, _ => None
            | _, VStr s :: args' =>
                Some (string_ s field_width precision flags, fmt', args')
            | _, _ => None
            end
          else if Ascii.eqb c "p" then
            match args with
            | VPtr addr bytes :: args' =>
                s ← pointer fmt' addr bytes field_width precision flags;
                Some (s, skip_alnum fmt', args')
            | _ => None
            end
          else if Ascii.eqb c "n" then None
          else if Ascii.eqb c "%" then Some ("%", fmt', args)
          else Some (String "%" (String c ""), fmt', args)
      end
  end.

(** A whole conversion specification, from after its [%]. *)
Definition conv_spec (fmt : string) (args : list va_arg) :
    option (string * string * list va_arg) :=
  let '(fmt, flags) := parse_flags fmt 0 in
  '(fmt, field_width, flags, args) ← parse_width fmt flags args;
  '(fmt, precision, args) ← parse_precision fmt args;
  let '(fmt, q) := parse_qualifier fmt in
  convert fmt q field_width precision flags args.

(** The [for (; *fmt; ++fmt)] loop. *)
Fixpoint vformat (fuel : nat) (fmt : string) (args : list va_arg) : option string :=
  match fuel with
  | O => None
  | S fuel' =>
      match fmt with
      | "" => Some ""
      | String c fmt' =>
          if Ascii.eqb c "%" then
            '(s, rest, args') ← conv_spec fmt' args;
            tail ← vformat fuel' rest args';
            Some (s +:+ tail)
          else tail ← vformat fuel' fmt' args; Some (String c tail)
      end
  end.

(** The characters of an unbounded run: every iteration consumes format. *)
Definition format (fmt : string) (args : list va_arg) : option string :=
  vformat (S (String.length (c_str fmt))) (c_str fmt) args.

(** The buffer (up to its NUL) and the length an unbounded buffer would get. *)
Definition vsnprintf_internal (size : Z) (fmt : string) (args : list va_arg) :
    option (string * Z) :=
  out ← format fmt args;
  Some (str_take (Z.to_nat (size - 1)) out, slen out).

Definition vsnprintf := vsnprintf_internal.

(** The buffer and the number of characters really written to it. *)
Definition vscnprintf (size : Z) (fmt : string) (args : list va_arg) :
    option (string * Z) :=
  '(buf, i) ← vsnprintf size fmt args;
  Some (buf, if i <? size then i else if negb (size =? 0) then size - 1 else 0).

Definition snprintf := vsnprintf.
Definition scnprintf := vscnprintf.

Definition INT_MAX : Z := 2 ^ 31 - 1.

Definition vsprintf (fmt : string) (args : list va_arg) : option (string * Z) :=
  vsnprintf_internal INT_MAX fmt args.

Definition sprintf := vsprintf.

(** * Specification *)

Definition dec_char (d : Z) : ascii := chr (d + 48).

(** Decimal digits by repeated division, least significant first. *)
Fixpoint dec_rev (fuel : nat) (n : Z) : list ascii :=
  match fuel with
  | O => []
  | S fuel' =>
      dec_char (n mod 10) :: (if n / 10 =? 0 then [] else dec_rev fuel' (n / 10))
  end.

(** The decimal numeral of a number below 10^20. *)
Definition decimal (n : Z) : string := str_of_list (rev (dec_rev 20 n)).

(** The kind of a variadic argument. *)
Inductive va_kind := KInt | KLLong | KStr | KPtr (bytes : nat).

Definition kind_of (a : va_arg) : va_kind :=
  match a with
  | VInt _ => KInt
  | VLLong _ => KLLong
  | VStr _ => KStr
  | VPtr _ bytes => KPtr (length bytes)
  end.

(** * Lemmas *)

(** ** Decimal digits *)

(** The multiply-and-shift divisions by ten are exact on the ranges in use. *)
Lemma div10_cd x : 0 ≤ x ≤ 400 → Z.shiftr (wrap32 (x * 0xcd)) 11 = x / 10.
Proof. intros Hx. rewrite Z.shiftr_div_pow2, wrap32_small by lia. lia. Qed.

Lemma div10_d x : 0 ≤ x ≤ 63 → Z.shiftr (wrap32 (x * 0xd)) 7 = x / 10.
Proof. intros Hx. rewrite Z.shiftr_div_pow2, wrap32_small by lia. lia. Qed.

(** The intermediate values both digit routines compute. *)
Lemma put_dec_steps q :
  0 ≤ q < 100000 →
  let r0 := Z.land q 0xf in
  let d1 := Z.land (Z.shiftr q 4) 0xf in
  let d2 := Z.land (Z.shiftr q 8) 0xf in
  let d3 := Z.shiftr q 12 in
  let e0 := wrap32 (6 * (d3 + d2 + d1) + r0) in
  let q1 := Z.shiftr (wrap32 (e0 * 0xcd)) 11 in
  let e1 := wrap32 (q1 + 9 * d3 + 5 * d2 + d1) in
  let q2 := Z.shiftr (wrap32 (e1 * 0xcd)) 11 in
  let e2 := wrap32 (q2 + 2 * d2) in
  let q3 := Z.shiftr (wrap32 (e2 * 0xd)) 7 in
  let e3 := wrap32 (q3 + 4 * d3) in
  let q4 := Z.shiftr (wrap32 (e3 * 0xcd)) 11 in
  wrap32 (e0 - 10 * q1) = q mod 10 ∧
  wrap32 (e1 - 10 * q2) = q / 10 mod 10 ∧
  wrap32 (e2 - 10 * q3) = q / 100 mod 10 ∧
  wrap32 (e3 - 10 * q4) = q / 1000 mod 10 ∧
  q4 = q / 10000 ∧ (e1 = 0 ↔ q / 10 = 0) ∧
  (e2 = 0 ∧ d3 = 0 ↔ q / 100 = 0) ∧ (e3 = 0 ↔ q / 1000 = 0).
Proof.
  intros Hq r0 d1 d2 d3.
  assert (r0 = q mod 16) as E0 by (apply (Z.land_ones q 4); lia).
  assert (d1 = q / 16 mod 16) as E1.
  { unfold d1. rewrite (Z.land_ones _ 4), Z.shiftr_div_pow2 by lia. done. }
  assert (d2 = q / 256 mod 16) as E2.
  { unfold d2. rewrite (Z.land_ones _ 4), Z.shiftr_div_pow2 by lia. done. }
  assert (d3 = q / 4096) as E3 by (apply Z.shiftr_div_pow2; lia).
  clearbody r0 d1 d2 d3. assert (q = 4096 * d3 + 256 * d2 + 16 * d1 + r0) as Eq by lia.
  assert (0 ≤ r0 < 16 ∧ 0 ≤ d1 < 16 ∧ 0 ≤ d2 < 16 ∧ 0 ≤ d3 ≤ 24) as (B0 & B1 & B2 & B3) by lia.
  clear E0 E1 E2 E3. intros e0.
  assert (e0 = 6 * (d3 + d2 + d1) + r0) as F0 by (apply wrap32_small; lia). clearbody e0.
  intros q1. assert (q1 = e0 / 10) as G1 by (apply div10_cd; lia). clearbody q1.
  assert (0 ≤ e0 - 10 * q1 < 10) as R0 by lia.
  intros e1. assert (e1 = q1 + 9 * d3 + 5 * d2 + d1) as F1 by (apply wrap32_small; lia).
  clearbody e1. assert (q / 10 = e1 + 400 * d3 + 20 * d2) as Q1 by lia.
  intros q2. assert (q2 = e1 / 10) as G2 by (apply div10_cd; lia). clearbody q2.
  assert (0 ≤ e1 - 10 * q2 < 10) as R1 by lia.
  intros e2. assert (e2 = q2 + 2 * d2) as F2 by (apply wrap32_small; lia).
  clearbody e2. assert (q / 100 = e2 + 40 * d3) as Q2 by lia.
  intros q3. assert (q3 = e2 / 10) as G3 by (apply div10_d; lia). clearbody q3.
  assert (0 ≤ e2 - 10 * q3 < 10) as R2 by lia.
  intros e3. assert (e3 = q3 + 4 * d3) as F3 by (apply wrap32_small; lia).
  clearbody e3. assert (q / 1000 = e3) as Q3 by lia.
  intros q4. assert (q4 = e3 / 10) as G4 by (apply div10_cd; lia). clearbody q4.
  rewrite !wrap32_small by lia. rewrite Q1, Q2, Q3. repeat split; lia.
Qed.

Lemma put_dec_full_spec q :
  0 ≤ q < 100000 →
  put_dec_full q =
    [dec_char (q mod 10); dec_char (q / 10 mod 10); dec_char (q / 100 mod 10);
     dec_char (q / 1000 mod 10); dec_char (q / 10000)].
Proof.
  intros Hq. destruct (put_dec_steps q Hq) as (H0 & H1 & H2 & H3 & H4 & _).
  cbv zeta in *. unfold put_dec_full, dec_char. change (ord "0") with 48.
  rewrite H0, H1, H2, H3, H4. done.
Qed.

Lemma put_dec_trunc_spec q : 0 ≤ q < 100000 → put_dec_trunc q = dec_rev 5 q.
Proof.
  intros Hq. destruct (put_dec_steps q Hq) as (H0 & H1 & H2 & H3 & H4 & N1 & N2 & N3).
  cbv zeta in *. unfold put_dec_trunc. cbv zeta. cbn [dec_rev]. unfold dec_char.
  change (ord "0") with 48. rewrite H0, H1, H2, H3, H4.
  replace (q / 10 / 10) with (q / 100) by (by rewrite Z.div_div by done).
  replace (q / 100 / 10) with (q / 1000) by (by rewrite Z.div_div by done).
  replace (q / 1000 / 10) with (q / 10000) by (by rewrite Z.div_div by done).
  replace (q / 10000 / 10) with 0 by (by rewrite Z.div_div, Z.div_small by done).
  rewrite (Z.mod_small (q / 10000)) by (split; [apply Z.div_pos; lia|apply Z.div_lt_upper_bound; lia]).
  unfold nonzero.
  repeat match goal with
  | |- context [Z.eqb ?a 0] => destruct (Z.eqb_spec a 0); cbn [negb orb]
  end; first [reflexivity|exfalso; tauto].
Qed.

Lemma dec_rev_fuel f g n :
  0 ≤ n < 10 ^ Z.of_nat (S f) → dec_rev (S f + g) n = dec_rev (S f) n.
Proof.
  revert n. induction f as [|f IH]; intros n Hn; cbn [dec_rev Nat.add].
  - by replace (n / 10 =? 0) with true by lia.
  - destruct (n / 10 =? 0); [done|]. f_equal. apply IH.
    rewrite (Nat2Z.inj_succ (S f)), Z.pow_succ_r in Hn by lia. lia.
Qed.

Lemma dec_rev_split f n :
  100000 ≤ n →
  dec_rev (5 + f) n =
    [dec_char (n mod 10); dec_char (n / 10 mod 10); dec_char (n / 100 mod 10);
     dec_char (n / 1000 mod 10); dec_char (n / 10000 mod 10)] ++ dec_rev f (n / 100000).
Proof.
  intros Hn. cbn [dec_rev Nat.add app].
  replace (n / 10 / 10) with (n / 100) by lia.
  replace (n / 100 / 10) with (n / 1000) by lia.
  replace (n / 1000 / 10) with (n / 10000) by lia.
  replace (n / 10000 / 10) with (n / 100000) by lia.
  repeat match goal with
  | |- context [?a =? 0] => replace (a =? 0) with false by lia
  end. done.
Qed.

Lemma put_dec_loop_spec f n :
  0 ≤ n < 100000 ^ Z.of_nat (S f) →
  put_dec_loop (S f) n = Some (dec_rev (5 * S f) n).
Proof.
  revert n. induction f as [|f IH]; intros n Hn.
  - cbn [put_dec_loop]. replace (n <? 100000) with true by lia.
    by rewrite put_dec_trunc_spec by lia.
  - change (put_dec_loop (S (S f)) n) with
      (if n <? 100000 then Some (put_dec_trunc n)
       else rest ← put_dec_loop (S f) (n / 100000);
            Some (put_dec_full (n mod 100000) ++ rest)).
    replace (5 * S (S f))%nat with (5 + 5 * S f)%nat by lia.
    destruct (Z.ltb_spec n 100000).
    + rewrite put_dec_trunc_spec by lia. f_equal. symmetry. apply (dec_rev_fuel 4). lia.
    + rewrite IH.
      2:{ rewrite (Nat2Z.inj_succ (S f)), Z.pow_succ_r in Hn by lia. lia. }
      cbn [mbind option_bind]. f_equal.
      rewrite put_dec_full_spec by lia. rewrite dec_rev_split by lia.
      replace (n mod 100000 mod 10) with (n mod 10) by lia.
      replace (n mod 100000 / 10 mod 10) with (n / 10 mod 10) by lia.
      replace (n mod 100000 / 100 mod 10) with (n / 100 mod 10) by lia.
      replace (n mod 100000 / 1000 mod 10) with (n / 1000 mod 10) by lia.
      by replace (n mod 100000 / 10000) with (n / 10000 mod 10) by lia.
Qed.

(** Enough rounds for any 64-bit number, and the digits are the reference's. *)
Lemma put_dec_spec n : 0 ≤ n < 2 ^ 64 → put_dec n = Some (dec_rev 20 n).
Proof. intros Hn. apply (put_dec_loop_spec 3). simpl. lia. Qed.

Lemma dec_rev_nonempty f n : dec_rev (S f) n ≠ [].
Proof. done. Qed.

Lemma dec_rev_base_digits f n : 0 ≤ n → Forall (base_digit 10) (dec_rev f n).
Proof.
  revert n. induction f as [|f IH]; intros n Hn; simpl; constructor.
  - apply dec_char_digit. lia.
  - destruct (n / 10 =? 0); [done|]. apply IH. lia.
Qed.

Lemma digits_value_dec f n :
  0 ≤ n < 10 ^ Z.of_nat (S f) → digits_value 10 (rev (dec_rev (S f) n)) 0 = n.
Proof.
  revert n. induction f as [|f IH]; intros n Hn;
    match goal with |- context [dec_rev (S ?k) n] =>
      change (dec_rev (S k) n) with
        (dec_char (n mod 10) :: (if n / 10 =? 0 then [] else dec_rev k (n / 10))) end;
    cbn [rev]; rewrite digits_value_snoc;
    unfold dec_char; rewrite (proj2 (dec_char_digit (n mod 10) ltac:(lia))).
  - replace (n / 10 =? 0) with true by lia. cbn. lia.
  - destruct (Z.eqb_spec (n / 10) 0) as [E|E]; [cbn; lia|].
    rewrite IH; [lia|].
    rewrite (Nat2Z.inj_succ (S f)), Z.pow_succ_r in Hn by lia. lia.
Qed.

(** A numeral printed in decimal and parsed again. *)
Lemma strtoul_decimal n rest :
  0 ≤ n < 2 ^ 64 → parse_stops 10 rest →
  simple_strtoul (decimal n +:+ rest) 10 = (wrap32 n, rest).
Proof.
  intros Hn Hrest. unfold decimal. rewrite simple_strtoul_digits; [|..|done].
  - by rewrite (digits_value_dec 19) by (simpl; lia).
  - apply Forall_rev, dec_rev_base_digits. lia.
Qed.
