(* ===== verification/VsprintfFacts.v ===== *)
(** Facts about formatted output: the digit strings of [%x] and [%o], field
    widths, and when a format accepts an argument list. *)

From S2P Require Import Prelude CLib Vsprintf.
Import ctype.

(** ** Octal and hexadecimal digits *)

Lemma hex_char_digit d locase :
  0 ≤ d < 16 → locase = 0 ∨ locase = SMALL →
  ∃ c, str_at digits (Z.to_nat d) = Some c ∧
       isxdigit (chr (Z.lor (ord c) locase)) = true ∧
       xdigit_value (chr (Z.lor (ord c) locase)) = d.
Proof.
  intros Hd Hl. revert d Hd. apply (forall_below 16).
  destruct Hl as [-> | ->];
    repeat (constructor; [eexists; split; [reflexivity|split; reflexivity]|]); constructor.
Qed.

Lemma digits_loop_spec fuel shift locase num :
  shift = 3 ∨ shift = 4 → locase = 0 ∨ locase = SMALL →
  0 ≤ num < 2 ^ (shift * Z.of_nat (S fuel)) →
  ∃ cs, digits_loop (S fuel) (2 ^ shift - 1) shift locase num = Some cs ∧
    cs ≠ [] ∧ (length cs ≤ S fuel)%nat ∧ Forall (base_digit (2 ^ shift)) cs ∧
    digits_value (2 ^ shift) (rev cs) 0 = num.
Proof.
  intros Hs Hl. revert num. induction fuel as [|fuel IH]; intros num Hn.
  all: assert (Hmask : Z.land (wrap8 num) (2 ^ shift - 1) = num mod 2 ^ shift).
  1,3: destruct Hs as [-> | ->];
       [change (2 ^ 3 - 1) with (Z.ones 3)|change (2 ^ 4 - 1) with (Z.ones 4)];
       rewrite Z.land_ones by lia; unfold wrap8; simpl; lia.
  all: assert (Hd : 0 ≤ num mod 2 ^ shift < 16 ∧ num mod 2 ^ shift < 2 ^ shift)
    by (destruct Hs as [-> | ->]; simpl; lia).
  all: destruct (hex_char_digit (num mod 2 ^ shift) locase) as (c & Hc & Hx & Hv); [lia|done|].
  all: assert (Hbd : base_digit (2 ^ shift) (chr (Z.lor (ord c) locase)))
    by (split; [done|rewrite Hv; lia]).
  all: match goal with |- context [digits_loop (S ?k)] =>
    change (digits_loop (S k) (2 ^ shift - 1) shift locase num) with
      (d ← str_at digits (Z.to_nat (Z.land (wrap8 num) (2 ^ shift - 1)));
       if nonzero (Z.shiftr num shift)
       then rest ← digits_loop k (2 ^ shift - 1) shift locase (Z.shiftr num shift);
            Some (chr (Z.lor (ord d) locase) :: rest)
       else Some [chr (Z.lor (ord d) locase)]) end;
    rewrite Hmask, Hc; cbn [mbind option_bind];
    rewrite Z.shiftr_div_pow2 by lia.
  - assert (num / 2 ^ shift = 0) as -> by (destruct Hs as [-> | ->]; simpl in *; lia).
    simpl. eexists. split_and!; [done|done|simpl; lia|by constructor|].
    cbn. rewrite Hv. destruct Hs as [-> | ->]; simpl in *; lia.
  - destruct (nonzero (num / 2 ^ shift)) eqn:Hnz.
    + destruct (IH (num / 2 ^ shift)) as (cs & -> & Hne & Hlen & Hf & Hval).
      { rewrite (Nat2Z.inj_succ (S fuel)) in Hn.
        replace (shift * Z.succ (Z.of_nat (S fuel))) with
          (shift + shift * Z.of_nat (S fuel)) in Hn by lia.
        rewrite Z.pow_add_r in Hn by lia. destruct Hs as [-> | ->]; simpl in *; lia. }
      cbn [mbind option_bind]. eexists. split_and!; [done|done|simpl; lia|by constructor|].
      cbn [rev]. rewrite digits_value_snoc, Hval, Hv.
      destruct Hs as [-> | ->]; simpl; lia.
    + apply nonzero_false in Hnz. eexists. split_and!; [done|done|simpl; lia|by constructor|].
      cbn. rewrite Hv. destruct Hs as [-> | ->]; simpl in *; lia.
Qed.

(** ** Numbers *)

Definition valid_base (base : Z) : Prop := base = 8 ∨ base = 10 ∨ base = 16.

(** The digits [number] generates for the magnitude [num]. *)
Definition number_digits (num base locase : Z) : option (list ascii) :=
  if num =? 0 then Some [("0")%char]
  else if negb (base =? 10)
  then digits_loop 22 (base - 1) (if base =? 16 then 4 else 3) locase num
  else put_dec num.

Lemma number_digits_spec num base locase :
  valid_base base → locase = 0 ∨ locase = SMALL → 0 ≤ num < 2 ^ 64 →
  ∃ cs, number_digits num base locase = Some cs ∧ cs ≠ [] ∧
    Forall (base_digit base) cs ∧ digits_value base (rev cs) 0 = num.
Proof.
  intros Hb Hl Hn. unfold number_digits. destruct (Z.eqb_spec num 0) as [->|Hnz].
  { eexists. split_and!; [done|done| |done]. apply Forall_singleton.
    destruct Hb as [-> | [-> | ->]]; (split; [reflexivity|change (xdigit_value "0") with 0; lia]). }
  destruct Hb as [-> | [-> | ->]]; cbn -[digits_loop put_dec].
  - destruct (digits_loop_spec 21 3 locase num) as (cs & Hcs & ? & _ & ? & ?);
      [by left|done|simpl; lia|]. by exists cs.
  - rewrite put_dec_spec by done. eexists. split_and!; [done|done| |].
    + apply dec_rev_base_digits. lia.
    + apply (digits_value_dec 19). simpl. lia.
  - destruct (digits_loop_spec 21 4 locase num) as (cs & Hcs & ? & _ & ? & ?);
      [by right|done|simpl; lia|]. by exists cs.
Qed.

Lemma small_cases type : Z.land type SMALL = 0 ∨ Z.land type SMALL = SMALL.
Proof.
  unfold SMALL. change 32 with (2 ^ 5). rewrite land_pow2 by lia.
  destruct (Z.testbit type 5); auto.
Qed.

Lemma pad_loop_fst size c : slen (pad_loop size c).1 = Z.max size 0.
Proof. simpl. rewrite slen_repeat. lia. Qed.

(** The sign character and the magnitude of a conversion. *)
Definition number_sign (num type : Z) : string * Z :=
  if has type SIGN then
    if sign 64 num <? 0 then ("-", wrap64 (- sign 64 num))
    else if has type PLUS then ("+", num)
    else if has type SPACE then (" ", num) else ("", num)
  else ("", num).

Definition number_prefix (base type : Z) : string :=
  if has type SPECIAL && negb (base =? 10) then
    "0" +:+ (if base =? 16 then String (chr (Z.lor (ord "X") (Z.land type SMALL))) "" else "")
  else "".

Lemma has_clear type flag :
  flag = SIGN ∨ flag = PLUS ∨ flag = SPACE →
  has (Z.land type (Z.lnot ZEROPAD)) flag = has type flag.
Proof.
  intros Hf. unfold has. f_equal. rewrite <- Z.land_assoc. f_equal.
  destruct Hf as [-> | [-> | ->]]; done.
Qed.

Lemma number_sign_clear num type :
  number_sign num (if has type LEFT then Z.land type (Z.lnot ZEROPAD) else type)
    = number_sign num type.
Proof. unfold number_sign. destruct (has type LEFT); [|done]. rewrite !has_clear; auto. Qed.

Lemma number_sign_size num type size :
  (if has type SIGN then
     if sign 64 num <? 0 then ("-", wrap64 (- sign 64 num), size - 1)
     else if has type PLUS then ("+", num, size - 1)
     else if has type SPACE then (" ", num, size - 1)
     else ("", num, size)
   else ("", num, size))
  = ((number_sign num type).1, (number_sign num type).2, size - slen (number_sign num type).1).
Proof.
  unfold number_sign. destruct (has type SIGN); [|cbn; by rewrite Z.sub_0_r].
  destruct (sign 64 num <? 0); [done|]. destruct (has type PLUS); [done|].
  destruct (has type SPACE); [done|]. cbn. by rewrite Z.sub_0_r.
Qed.

(** [number] lays out sign, prefix, padding and digits; its result has the
    field width or, when that is too small, exactly what it needs. *)
Lemma number_spec num base size precision type cs :
  number_digits (number_sign num type).2 base (Z.land type SMALL) = Some cs →
  let digs := Z.max precision (Z.of_nat (length cs)) in
  let body := slen (number_sign num type).1 + slen (number_prefix base type) + digs in
  ∃ s, number num base size precision type = Some s ∧ slen s = Z.max size body.
Proof.
  intros Hcs. unfold number. cbv zeta.
  rewrite number_sign_size, number_sign_clear. cbv beta iota.
  fold (number_digits (number_sign num type).2 base (Z.land type SMALL)). rewrite Hcs.
  cbn [mbind option_bind]. set (sg := slen (number_sign num type).1).
  set (n := Z.of_nat (length cs)).
  replace (if n >? precision then n else precision) with (Z.max precision n)
    by (destruct (Z.gtb_spec n precision); lia).
  set (p := Z.max precision n).
  assert (Hpfx : (if has type SPECIAL && negb (base =? 10)
             then if base =? 16 then size - sg - 2 else size - sg - 1
             else size - sg) = size - sg - slen (number_prefix base type)).
  { unfold number_prefix. destruct (has type SPECIAL && _).
    - destruct (base =? 16); [change (slen _) with 2|change (slen _) with 1]; lia.
    - change (slen "") with 0. lia. }
  rewrite Hpfx. fold (number_prefix base type). set (pf := slen (number_prefix base type)).
  set (sz := size - sg - pf - p). unfold pad_loop.
  set (type' := if has type LEFT then _ else _).
  destruct (has type' (ZEROPAD + LEFT)), (has type' LEFT); eexists; (split; [reflexivity|]);
    rewrite !slen_app, !slen_repeat, slen_of_list, length_rev; fold n sg pf;
    change (slen "") with 0; subst sz p; lia.
Qed.

Lemma sign64_range z : - 2 ^ 63 ≤ sign 64 z < 2 ^ 63.
Proof.
  unfold sign. pose proof (Z.mod_pos_bound z (2 ^ 64)).
  destruct (Z.ltb_spec (z mod 2 ^ 64) (2 ^ (64 - 1))); lia.
Qed.

Lemma number_sign_range num type :
  0 ≤ num < 2 ^ 64 → 0 ≤ (number_sign num type).2 < 2 ^ 64.
Proof.
  intros Hn. unfold number_sign. pose proof (sign64_range num).
  destruct (has type SIGN); [|done].
  destruct (sign 64 num <? 0); [apply Z.mod_pos_bound; lia|].
  destruct (has type PLUS); [done|]. by destruct (has type SPACE).
Qed.

Lemma number_total num base size precision type :
  valid_base base → 0 ≤ num < 2 ^ 64 →
  ∃ s, number num base size precision type = Some s.
Proof.
  intros Hb Hn.
  destruct (number_digits_spec (number_sign num type).2 base (Z.land type SMALL))
    as (cs & Hcs & _); [done|apply small_cases|by apply number_sign_range|].
  destruct (number_spec num base size precision type cs Hcs) as (s & Hs & _). by exists s.
Qed.

(** ** Which argument lists a format accepts *)

(** Whether a run is defined depends on the kinds of the arguments only. *)
Definition kinds : list va_arg → list va_kind := map kind_of.

Definition sample (k : va_kind) : va_arg :=
  match k with
  | KInt => VInt 0
  | KLLong => VLLong 0
  | KStr => VStr None
  | KPtr n => VPtr 0 (replicate n 0)
  end.

Definition fmt_accepts (fmt : string) (ks : list va_kind) : bool :=
  match format fmt (map sample ks) with
  | Some _ => true
  | None => false
  end.

(** Two runs that go on alike: both undefined, or at the same rest of the
    format with arguments of the same kinds. *)
Definition alike {A} (x y : option (A * string * list va_arg)) : Prop :=
  match x, y with
  | Some (_, f, a), Some (_, f', a') => f = f' ∧ kinds a = kinds a'
  | None, None => True
  | _, _ => False
  end.

Lemma kinds_cons_inv a args args' :
  kinds (a :: args) = kinds args' →
  ∃ a' rest, args' = a' :: rest ∧ kind_of a = kind_of a' ∧ kinds args = kinds rest.
Proof. destruct args' as [|a' rest]; [done|]. intros [= Hk Hks]. by exists a', rest. Qed.

Lemma next_int_kinds args args' :
  kinds args = kinds args' →
  match next_int args, next_int args' with
  | Some (_, r), Some (_, r') => kinds r = kinds r'
  | None, None => True
  | _, _ => False
  end.
Proof.
  destruct args as [|[] args], args' as [|[] args']; simpl; try done;
    by intros [=].
Qed.

Lemma fetch_num_kinds q flags flags' args args' :
  kinds args = kinds args' →
  match fetch_num q flags args, fetch_num q flags' args' with
  | Some (n, r), Some (n', r') =>
      kinds r = kinds r' ∧ 0 ≤ n < 2 ^ 64 ∧ 0 ≤ n' < 2 ^ 64
  | None, None => True
  | _, _ => False
  end.
Proof.
  assert (∀ z, 0 ≤ wrap64 z < 2 ^ 64) as H64 by (intros; apply Z.mod_pos_bound; lia).
  assert (∀ z, 0 ≤ wrap32 z < 2 ^ 64) as H32.
  { intros z. pose proof (wrap32_range z). lia. }
  assert (∀ z, 0 ≤ wrap16 z < 2 ^ 64) as H16.
  { intros z. pose proof (Z.mod_pos_bound z (2 ^ 16)). unfold wrap16. lia. }
  destruct args as [|[] args], args' as [|[] args']; try (by intros [=]); intros Hk;
    destruct q; simpl; try done; injection Hk as Hk; refine (conj Hk (conj _ _));
    destruct (has flags SIGN), (has flags' SIGN); auto.
Qed.

Lemma hex_byte_pack_total b : ∃ s, hex_byte_pack b = Some s.
Proof.
  assert (∀ d, 0 ≤ d < 16 → ∃ c, str_at hex_asc (Z.to_nat d) = Some c) as H.
  { apply (forall_below 16). repeat (constructor; [by eexists|]). constructor. }
  unfold hex_byte_pack.
  destruct (H (Z.shiftr (Z.land b 0xf0) 4)) as [hi ->].
  { rewrite Z.shiftr_land. change (Z.shiftr 0xf0 4) with (Z.ones 4).
    rewrite Z.land_ones by lia. apply Z.mod_pos_bound. lia. }
  destruct (H (Z.land b 0x0f)) as [lo ->]; [|by eexists].
  change 0x0f with (Z.ones 4). rewrite Z.land_ones by lia. apply Z.mod_pos_bound. lia.
Qed.

Lemma mac_loop_length n flags flags' b b' :
  length b = length b' → is_Some (mac_loop n flags b) → is_Some (mac_loop n flags' b').
Proof.
  revert b b'. induction n as [|n IH]; intros b b' Hl; [by eexists|].
  destruct b as [|x b], b' as [|x' b']; try done. injection Hl as Hl.
  cbn [mac_loop]. destruct (hex_byte_pack_total x) as [h ->], (hex_byte_pack_total x') as [h' ->].
  cbn [mbind option_bind]. intros [s Hs]. apply bind_Some in Hs as (r & Hr & _).
  destruct (IH b b' Hl) as [r' ->]; by eexists.
Qed.

Lemma ip6_loop_length n flags flags' b b' :
  length b = length b' → is_Some (ip6_loop n flags b) → is_Some (ip6_loop n flags' b').
Proof.
  revert b b'. induction n as [|n IH]; intros b b' Hl; [by eexists|].
  destruct b as [|x [|y b]], b' as [|x' [|y' b']]; try done;
    try (by intros [? [=]]). injection Hl as Hl.
  cbn [ip6_loop]. destruct (hex_byte_pack_total x) as [h ->], (hex_byte_pack_total x') as [h' ->].
  destruct (hex_byte_pack_total y) as [k ->], (hex_byte_pack_total y') as [k' ->].
  cbn [mbind option_bind]. intros [s Hs]. apply bind_Some in Hs as (r & Hr & _).
  destruct (IH b b' Hl) as [r' ->]; by eexists.
Qed.

Lemma ip4_loop_length n b b' :
  length b = length b' → is_Some (ip4_loop n b) → is_Some (ip4_loop n b').
Proof.
  revert b b'. induction n as [|n IH]; intros b b' Hl; [by eexists|].
  destruct b as [|x b], b' as [|x' b']; try done. injection Hl as Hl.
  cbn [ip4_loop]. intros [s Hs]. apply bind_Some in Hs as (r & Hr & _).
  destruct (IH b b' Hl) as [r' ->]; by eexists.
Qed.

Lemma le32_length b b' : length b = length b' → is_Some (le32 b) → is_Some (le32 b').
Proof.
  destruct b as [|? [|? [|? [|? b]]]]; try (by intros _ [? [=]]).
  by destruct b' as [|? [|? [|? [|? b']]]].
Qed.

Lemma pointer_length fmt a a' b b' fw fw' pr pr' fl fl' :
  length b = length b' →
  is_Some (pointer fmt a b fw pr fl) → is_Some (pointer fmt a' b' fw' pr' fl').
Proof.
  intros Hl. unfold pointer.
  assert (∀ n w p f, is_Some (let flags := Z.lor f SMALL in
            let '(fw, flags) := if w =? -1 then (2 * 4, Z.lor flags ZEROPAD) else (w, flags) in
            number (wrap32 n) 16 fw p flags)) as Htail.
  { intros n w p f. cbv zeta. pose proof (wrap32_range n).
    destruct (w =? -1); apply number_total; try (right; by right); lia. }
  destruct fmt as [|c fmt]; [done|].
  destruct (Ascii.eqb c "D" || _); [done|]. destruct (Ascii.eqb c "a").
  { intros [s Hs]. apply bind_Some in Hs as (n & Hn & _).
    destruct (le32_length b b' Hl) as [n' Hn']; [by eexists|]. rewrite Hn'.
    unfold le32 in Hn'. destruct b' as [|? [|? [|? [|? ?]]]]; try done.
    injection Hn' as <-. apply Htail. }
  destruct (Ascii.eqb c "m" || _).
  { unfold mac_address_string. intros [s Hs]. apply bind_Some in Hs as (m & Hm & _).
    destruct (mac_loop_length 6 (if Ascii.eqb c "m" then Z.lor fl SPECIAL else fl)
      (if Ascii.eqb c "m" then Z.lor fl' SPECIAL else fl') b b' Hl) as [m' ->]; by eexists. }
  destruct (Ascii.eqb c "i" || _); [|done].
  destruct (Ascii.eqb _ "6").
  { unfold ip6_addr_string. intros [s Hs]. apply bind_Some in Hs as (m & Hm & _).
    destruct (ip6_loop_length 8 (if Ascii.eqb c "i" then Z.lor fl SPECIAL else fl)
      (if Ascii.eqb c "i" then Z.lor fl' SPECIAL else fl') b b' Hl) as [m' ->]; by eexists. }
  destruct (Ascii.eqb _ "4"); [|done].
  unfold ip4_addr_string. intros [s Hs]. apply bind_Some in Hs as (m & Hm & _).
  destruct (ip4_loop_length 4 b b' Hl) as [m' ->]; by eexists.
Qed.

(** Case analysis on an option under an [is_Some] equivalence. *)
Lemma is_Some_cases {A B} (x : option A) (y : option B) :
  (is_Some x → is_Some y) → (is_Some y → is_Some x) →
  (x = None ∧ y = None) ∨ (∃ a b, x = Some a ∧ y = Some b).
Proof.
  destruct x as [a|], y as [b|]; intros H1 H2.
  - right. by exists a, b.
  - by destruct (H1 (ex_intro _ a eq_refl)).
  - by destruct (H2 (ex_intro _ b eq_refl)).
  - by left.
Qed.

Lemma convert_alike fmt q fw fw' pr pr' fl fl' args args' :
  kinds args = kinds args' →
  alike (convert fmt q fw pr fl args) (convert fmt q fw' pr' fl' args').
Proof.
  intros Hk. destruct fmt as [|c fmt]; [done|]. cbn [convert].
  destruct (int_conv c) as [[base f]|] eqn:Hic.
  { assert (valid_base base) as Hb.
    { unfold int_conv in Hic. unfold valid_base.
      repeat case_match; simplify_eq; auto. }
    pose proof (fetch_num_kinds q (Z.lor fl f) (Z.lor fl' f) args args' Hk) as Hf.
    destruct (fetch_num q (Z.lor fl f) args) as [[n r]|],
      (fetch_num q (Z.lor fl' f) args') as [[n' r']|]; try done.
    destruct Hf as (Hr & Hn & Hn'). cbn [mbind option_bind].
    destruct (number_total n base fw pr (Z.lor fl f) Hb Hn) as [s ->].
    by destruct (number_total n' base fw' pr' (Z.lor fl' f) Hb Hn') as [s' ->]. }
  destruct (Ascii.eqb c "c").
  { pose proof (next_int_kinds args args' Hk) as Hn.
    by destruct (next_int args) as [[z r]|], (next_int args') as [[z' r']|]. }
  destruct (Ascii.eqb c "s").
  { destruct q, args as [|[] args], args' as [|[] args']; try done; by injection Hk as Hk. }
  destruct (Ascii.eqb c "p").
  { destruct args as [|[] args], args' as [|[] args']; try done. injection Hk as Hl Hk.
    destruct (is_Some_cases (pointer fmt addr bytes fw pr fl)
      (pointer fmt addr0 bytes0 fw' pr' fl')) as [[-> ->]|(s & s' & -> & ->)]; try done;
      by apply pointer_length. }
  destruct (Ascii.eqb c "n"); [done|]. by destruct (Ascii.eqb c "%").
Qed.

Lemma conv_spec_alike fmt args args' :
  kinds args = kinds args' → alike (conv_spec fmt args) (conv_spec fmt args').
Proof.
  intros Hk. unfold conv_spec. destruct (parse_flags fmt 0) as [f1 flags].
  assert (match parse_width f1 flags args, parse_width f1 flags args' with
    | Some (f, _, _, a), Some (f', _, _, a') => f = f' ∧ kinds a = kinds a'
    | None, None => True | _, _ => False end) as Hw.
  { unfold parse_width. destruct f1 as [|c f1]; [done|]. destruct (is_digit c).
    { by destruct (skip_atoi _). }
    destruct (Ascii.eqb c "*"); [|done]. pose proof (next_int_kinds args args' Hk) as Hn.
    destruct (next_int args) as [[z r]|], (next_int args') as [[z' r']|]; try done.
    cbn [mbind option_bind]. by destruct (sign 32 z <? 0), (sign 32 z' <? 0). }
  destruct (parse_width f1 flags args) as [[[[f2 w] fl] a]|],
    (parse_width f1 flags args') as [[[[f2' w'] fl'] a']|]; try done.
  destruct Hw as [<- Ha]. cbn [mbind option_bind]. clear Hk f1 flags args args'.
  assert (match parse_precision f2 a, parse_precision f2 a' with
    | Some (f, _, a), Some (f', _, a') => f = f' ∧ kinds a = kinds a'
    | None, None => True | _, _ => False end) as Hp.
  { unfold parse_precision. destruct f2 as [|c f2]; [done|].
    destruct (Ascii.eqb c "."); [|done]. destruct f2 as [|d f2]; [done|].
    destruct (is_digit d); [by destruct (skip_atoi _)|].
    destruct (Ascii.eqb d "*"); [|done]. pose proof (next_int_kinds a a' Ha) as Hn.
    by destruct (next_int a) as [[z r]|], (next_int a') as [[z' r']|]. }
  destruct (parse_precision f2 a) as [[[f3 p] b]|],
    (parse_precision f2 a') as [[[f3' p'] b']|]; try done.
  destruct Hp as [<- Hb]. cbn [mbind option_bind].
  destruct (parse_qualifier f3) as [f4 q]. by apply convert_alike.
Qed.

Lemma vformat_kinds fuel fmt args args' :
  kinds args = kinds args' → is_Some (vformat fuel fmt args) → is_Some (vformat fuel fmt args').
Proof.
  revert fmt args args'. induction fuel as [|fuel IH]; intros fmt args args' Hk; [done|].
  cbn [vformat]. destruct fmt as [|c fmt]; [done|]. destruct (Ascii.eqb c "%").
  - pose proof (conv_spec_alike fmt args args' Hk) as Ha.
    destruct (conv_spec fmt args) as [[[s f] a]|], (conv_spec fmt args') as [[[s' f'] a']|];
      try done. destruct Ha as [<- Ha]. cbn [mbind option_bind].
    intros [t Ht]. apply bind_Some in Ht as (r & Hr & _).
    destruct (IH f a a' Ha) as [r' ->]; by eexists.
  - intros [t Ht]. apply bind_Some in Ht as (r & Hr & _).
    destruct (IH fmt args args' Hk) as [r' ->]; by eexists.
Qed.

Lemma kind_of_sample k : kind_of (sample k) = k.
Proof. destruct k; simpl; [done..|]. by rewrite length_replicate. Qed.

(** A format that accepts the kinds of its arguments prints something. *)
Lemma format_accepts fmt args :
  fmt_accepts fmt (kinds args) = true → ∃ s, format fmt args = Some s.
Proof.
  unfold fmt_accepts. destruct (format fmt (map sample (kinds args))) eqn:Hf; [|done].
  intros _. eapply vformat_kinds; [|by eexists].
  unfold kinds. rewrite map_map. erewrite map_ext; [apply map_id|]. apply kind_of_sample.
Qed.

(** * Exact output *)

(** The decimal text of a number below 100. *)
Definition dec2 (v : Z) : string :=
  if v <? 10 then String (chr (48 + v)) ""
  else String (chr (48 + v / 10)) (String (chr (48 + v mod 10)) "").

(** A string the C functions see whole. *)
Definition no_nul (s : string) : Prop := c_str s = s.

Lemma c_str_app s t : no_nul s → c_str (s +:+ t) = s +:+ c_str t.
Proof.
  unfold no_nul. induction s as [|c s IH]; simpl; [done|].
  destruct (Ascii.eqb c NUL); [done|]. intros [= H]. by rewrite IH.
Qed.

Lemma no_nul_app s t : no_nul s → no_nul t → no_nul (s +:+ t).
Proof. intros Hs Ht. unfold no_nul. by rewrite c_str_app, Ht. Qed.

Lemma no_nul_cons c s : Ascii.eqb c NUL = false → no_nul s → no_nul (String c s).
Proof. unfold no_nul. simpl. by intros -> ->. Qed.

Lemma str_take_all s n : slen s ≤ Z.of_nat n → str_take n s = s.
Proof.
  revert n. induction s as [|c s IH]; intros [|n] H; try done; unfold slen in H;
    cbn [str_take String.length] in *. by rewrite IH by (unfold slen; lia).
Qed.

Lemma dec2_spec v :
  0 ≤ v < 100 →
  number (wrap64 (sign 32 v)) 10 (-1) (-1) SIGN = Some (dec2 v) ∧ no_nul (dec2 v) ∧
  slen (dec2 v) ≤ 2.
Proof.
  revert v. apply (forall_below 100).
  repeat (constructor; [split; [vm_compute; reflexivity|split; [reflexivity|by vm_compute]]|]).
  constructor.
Qed.

(** One iteration of the format loop, for a literal, [%d] and [%s]. *)
Lemma vformat_lit fuel c fmt args :
  Ascii.eqb c "%" = false →
  vformat (S fuel) (String c fmt) args = String c <$> vformat fuel fmt args.
Proof. intros H. cbn [vformat]. rewrite H. by destruct (vformat fuel fmt args). Qed.

Lemma vformat_dec2 fuel fmt v args :
  0 ≤ v < 100 →
  vformat (S fuel) (String "%" (String "d" fmt)) (VInt v :: args)
    = (λ t, dec2 v +:+ t) <$> vformat fuel fmt args.
Proof.
  intros Hv. destruct (dec2_spec v Hv) as [Hn _].
  transitivity (s ← number (wrap64 (sign 32 v)) 10 (-1) (-1) SIGN;
                tail ← vformat fuel fmt args; Some (s +:+ tail)).
  { cbn [vformat]. change (Ascii.eqb "%" "%") with true. cbv iota.
    change (conv_spec (String "d" fmt) (VInt v :: args)) with
      (s ← number (wrap64 (sign 32 v)) 10 (-1) (-1) SIGN; Some (s, fmt, args)).
    by rewrite Hn. }
  rewrite Hn. simpl. by destruct (vformat fuel fmt args).
Qed.

(** [%s] without width and precision. *)
Lemma string_plain s : no_nul s → string_ (Some s) (-1) (-1) 0 = s.
Proof.
  intros Hs. unfold string_. change (default "<NULL>" (Some s)) with s. change (-1 <? 0) with true.
  cbv iota. unfold strlen. rewrite Hs. change (has 0 LEFT) with false. cbv iota.
  assert (0 ≤ slen s) by (unfold slen; lia).
  assert (∀ w, w < 0 → field_loop (slen s) w = ("", w - 1)) as Hfl.
  { intros w Hw. unfold field_loop. by replace (Z.to_nat (w - slen s)) with 0%nat by lia;
    rewrite Z.min_l by lia. }
  rewrite !Hfl by lia. rewrite str_take_all by lia. apply str_app_nil_r.
Qed.

Lemma vformat_str fuel fmt s args :
  no_nul s →
  vformat (S fuel) (String "%" (String "s" fmt)) (VStr (Some s) :: args)
    = (λ t, s +:+ t) <$> vformat fuel fmt args.
Proof.
  intros Hs. cbn [vformat]. change (Ascii.eqb "%" "%") with true. cbv iota.
  change (conv_spec (String "s" fmt) (VStr (Some s) :: args)) with
    (Some (string_ (Some s) (-1) (-1) 0, fmt, args)).
  rewrite string_plain by done. simpl. by destruct (vformat fuel fmt args).
Qed.

(** ** Printing and parsing *)

(** [%u], [%o], [%x], [%X] and their [#] forms, without width and precision. *)
Definition plain_type (small alt : bool) : Z :=
  Z.lor (if small then SMALL else 0) (if alt then SPECIAL else 0).

Lemma number_plain num base (small alt : bool) cs :
  number_digits num base (if small then SMALL else 0) = Some cs →
  number num base (-1) (-1) (plain_type small alt) =
    Some (number_prefix base (plain_type small alt) +:+ str_of_list (rev cs)).
Proof.
  intros Hcs. unfold number. cbv zeta.
  assert (has (plain_type small alt) LEFT = false ∧ has (plain_type small alt) SIGN = false ∧
    has (plain_type small alt) (ZEROPAD + LEFT) = false ∧
    has (plain_type small alt) ZEROPAD = false ∧
    Z.land (plain_type small alt) SMALL = if small then SMALL else 0) as (H1 & H2 & H3 & H4 & H5)
    by (by destruct small, alt).
  unfold number_prefix. rewrite !H1, !H2, !H3, !H4, !H5. cbv beta iota.
  fold (number_digits num base (if small then SMALL else 0)). rewrite Hcs.
  cbn [mbind option_bind]. set (n := Z.of_nat (length cs)).
  assert (0 ≤ n) by (unfold n; lia).
  replace (n >? -1) with true by lia. rewrite Z.sub_diag.
  destruct (has _ SPECIAL && negb (base =? 10)), (base =? 16); unfold pad_loop;
    repeat (replace (Z.to_nat _) with 0%nat by lia); cbn [str_repeat String.append];
    by rewrite ?str_app_nil_r.
Qed.

Lemma xdigit_not_x c : isxdigit c = true → Ascii.eqb (tolower c) "x" = false.
Proof. destruct c as [[] [] [] [] [] [] [] []]; vm_compute; congruence. Qed.

Lemma fixup_radix_16 cs : Forall (base_digit 16) cs →
  _parse_integer_fixup_radix (str_of_list cs) 16 = (str_of_list cs, 16).
Proof.
  intros Hcs. unfold _parse_integer_fixup_radix. destruct Hcs as [|c0 cs H0 Hcs]; [done|].
  destruct Hcs as [|c1 cs [H1 _] _]; [done|]. simpl. by rewrite (xdigit_not_x c1 H1), andb_false_r.
Qed.

Lemma simple_strtoull_prefix base small alt cs :
  valid_base base → Forall (base_digit base) cs →
  simple_strtoull (number_prefix base (plain_type small alt) +:+ str_of_list cs) base =
    (wrap64 (digits_value base cs 0), "").
Proof.
  intros Hb Hcs. unfold simple_strtoull.
  assert (∀ b ds, Forall (base_digit b) ds →
    strtoul_loop wrap64 b 0 (str_of_list ds) = (wrap64 (digits_value b ds 0), "")) as Hloop.
  { intros b ds Hds. rewrite <- (str_app_nil_r (str_of_list ds)).
    by apply (strtoul_loop_digits wrap64 (2 ^ 64)). }
  assert (number_prefix base (plain_type false false) = "") as Hno by (by destruct Hb as [-> | [-> | ->]]).
  assert (number_prefix base (plain_type true false) = "") as Hno' by (by destruct Hb as [-> | [-> | ->]]).
  destruct Hb as [-> | [-> | ->]].
  - destruct alt, small; rewrite ?Hno, ?Hno'; [|by apply Hloop..|by apply Hloop];
      apply (Hloop 8 ("0"%char :: cs)); by constructor.
  - destruct alt, small; by apply Hloop.
  - destruct alt, small; rewrite ?Hno, ?Hno'; [by apply Hloop..| |];
      cbn [String.append]; rewrite fixup_radix_16 by done; by apply Hloop.
Qed.

(** C23. What [%u], [%o], [%x], [%X] and their [#] forms print for a 64-bit number
    is parsed back to that number by [simple_strtoull] with the same base,
    all of it consumed. *)
Theorem number_parse_roundtrip num base small alt :
  valid_base base → 0 ≤ num < 2 ^ 64 →
  ∃ s, number num base (-1) (-1) (plain_type small alt) = Some s ∧
       simple_strtoull s base = (num, "").
Proof.
  intros Hb Hn.
  destruct (number_digits_spec num base (if small then SMALL else 0)) as (cs & Hcs & _ & Hf & Hv);
    [done|destruct small; auto|done|].
  eexists. split; [by apply number_plain|].
  rewrite simple_strtoull_prefix by (done || by apply Forall_rev).
  rewrite Hv. unfold wrap64. by rewrite Z.mod_small.
Qed.

Lemma number_parse_roundtrip_witness :
  ∃ s, number 0xBEEF 16 (-1) (-1) (plain_type true true) = Some s ∧
       simple_strtoull s 16 = (0xBEEF, "").
Proof.
  apply (number_parse_roundtrip 0xBEEF 16 true true); [by right; right|lia].
Defined.

(** Every conversion of a number gives the digits of its magnitude, with sign
    and prefix, and is exactly as long as the larger of the field width and
    what has to be shown: no flag, width or precision truncates it. *)
Theorem number_width num base size precision type :
  valid_base base → 0 ≤ num < 2 ^ 64 →
  ∃ cs s, number num base size precision type = Some s ∧
    digits_value base (rev cs) 0 = (number_sign num type).2 ∧
    slen s = Z.max size (slen (number_sign num type).1 + slen (number_prefix base type)
                         + Z.max precision (Z.of_nat (length cs))).
Proof.
  intros Hb Hn.
  destruct (number_digits_spec (number_sign num type).2 base (Z.land type SMALL))
    as (cs & Hcs & _ & _ & Hv); [done|apply small_cases|by apply number_sign_range|].
  destruct (number_spec num base size precision type cs Hcs) as (s & Hs & Hl). by exists cs, s.
Qed.

Lemma number_width_witness :
  ∃ cs s, number (2 ^ 64 - 5) 10 6 (-1) SIGN = Some s ∧ digits_value 10 (rev cs) 0 = 5 ∧
    slen s = Z.max 6 (1 + 0 + Z.max (-1) (Z.of_nat (length cs))).
Proof. apply (number_width (2 ^ 64 - 5) 10 6 (-1) SIGN); [by right; left|lia]. Defined.

(** Whether a call of [printf] is well defined depends only on the kinds of
    its arguments: a format that accepts the kinds formats every argument
    list of those kinds. *)
Theorem format_type_sound fmt args args' :
  kinds args = kinds args' → is_Some (format fmt args) → is_Some (format fmt args').
Proof. apply vformat_kinds. Qed.

Lemma format_type_sound_witness : is_Some (format "%s: %d" [VStr None; VInt (-3)]).
Proof.
  apply (format_type_sound "%s: %d" [VStr (Some "a"); VInt 0]); [done|]. vm_compute. by eexists.
Defined.
