(* ===== verification/Machine.v ===== *)
(** The machine the tests run on: the global variables of the framework and
    of the U-Boot layers it calls, the serial console, and the hardware.  The
    hardware is a type [HW]; what software can do to it is stated by the
    interface classes of the components ([MemBus], [I2cDriver], ...). *)

From S2P Require Import Prelude CLib Vsprintf VsprintfFacts.

(** * Global state *)

(** [common/eventlog.h]: the only logging mode. *)
Inductive LogMode_e := CONSOLE_LOG_MODE.

(** The static variables of [common/eventlog.c] and [common/consolelog.c]. *)
Record log_state := mkLog {
  curTestId : Z;
  s_logMode : LogMode_e;
  s_logMask : Z;
}.

(** [struct dm_i2c_chip] of [include/i2c.h], the per-child data of a bus. *)
Record dm_i2c_chip := mkChip {
  chip_addr : Z;
  offset_len : Z;
  flags : Z;
  chip_addr_offset_mask : Z;
}.

(** The I2C driver-model data: the current bus of [utils/i2c_utils.c], the
    chips bound to each bus and each bus's [speed_hz]. *)
Record i2c_state := mkI2c {
  i2c_cur_bus : option Z;
  i2c_chips : gmap Z (list dm_i2c_chip);
  i2c_speed_hz : gmap Z Z;
}.

(** The buffers of [testsuite/test_at24c_eeprom.c]. *)
Record eeprom_state := mkEeprom {
  i2c_eeprom_testbuf1 : list Z;
  i2c_eeprom_testbuf2 : list Z;
}.

(** [struct spi_nor] as far as the code uses it, with its [mtd.erasesize] and
    the [mode], [max_read_size] and [max_write_size] of its [spi] slave. *)
Record spi_nor := mkSpiNor {
  nor_size : Z;
  erasesize : Z;
  page_size : Z;
  addr_width : Z;
  read_opcode : Z;
  read_dummy : Z;
  program_opcode : Z;
  erase_opcode : Z;
  read_proto : Z;
  write_proto : Z;
  nor_flags : Z;
  sst_write_second : bool;
  slave_mode : Z;
  max_read_size : Z;
  max_write_size : Z;
}.

(** [flash] (the structure it points to) and the buffers of
    [testsuite/test_w25q32_norflash.c]. *)
Record nor_state := mkNor {
  flash : option spi_nor;
  data_test_buf1 : list Z;
  data_test_buf2 : list Z;
}.

(** [struct mmc_param_s]; [pmmc] is a device handle or [NULL]. *)
Record mmc_param_s := mkMmcParam {
  curr_device : Z;
  block_start : Z;
  block_cnt : Z;
  dev_id : Z;
  pmmc : option Z;
}.

(** The globals of [testsuite/test_mmc.c]. *)
Record mmc_state := mkMmc {
  ommc_param : mmc_param_s;
  test_buffer_1 : list Z;
  test_buffer_2 : list Z;
}.

(** [struct mii_dev] of [include/phy.h]: its address, its name and whether the
    driver provides the two methods. *)
Record mii_dev := mkMii {
  mii_id : Z;
  mii_name : string;
  mii_has_read : bool;
  mii_has_write : bool;
}.

(** The static variables of [common/miiphyutil.c]. *)
Record mii_state := mkMiiState {
  mii_devs : list mii_dev;
  current_mii : option mii_dev;
}.

(** [struct block_cache_node] of [drivers/block/blkcache.c]. *)
Record block_cache_node := mkNode {
  iftype : Z;
  devnum : Z;
  start : Z;
  blkcnt : Z;
  blksz : Z;
  cache : list Z;
}.

Record block_cache_stats := mkStats {
  hits : Z;
  misses : Z;
  entries : Z;
  max_blocks_per_entry : Z;
  max_entries : Z;
}.

(** The static variables of [drivers/block/blkcache.c]: the list from the most
    to the least recently used node. *)
Record blkcache_state := mkBlkCache {
  block_cache : list block_cache_node;
  _stats : block_cache_stats;
}.

(** [enum eth_state_t] *)
Inductive eth_state_t := ETH_STATE_INIT | ETH_STATE_PASSIVE | ETH_STATE_ACTIVE.

#[global] Instance eth_state_t_eq_dec : EqDecision eth_state_t.
Proof. solve_decision. Defined.

(** The uclass data and the static variables of [net/eth-uclass.c] and
    [net/eth_common.c]: the current device, the state of each device, the last
    error, [first_failed], [act] and [env_changed_id]; of [net/net.c] the flag
    [net_restart_wrap]. *)
Record eth_globals := mkEth {
  eth_current : option Z;
  eth_states : gmap Z eth_state_t;
  eth_errno : Z;
  first_failed : option Z;
  act : option string;
  env_changed_id : Z;
  net_restart_wrap : Z;
}.

#[export] Instance eta_eth_globals : Eta eth_globals := λ e,
  mkEth (eth_current e) (eth_states e) (eth_errno e) (first_failed e) (act e) (env_changed_id e)
    (net_restart_wrap e).

(** [enum env_op] *)
Inductive env_op := env_op_create | env_op_delete | env_op_overwrite.

(** [enum net_loop_state] *)
Inductive net_loop_state := NETLOOP_CONTINUE | NETLOOP_RESTART | NETLOOP_SUCCESS | NETLOOP_FAIL.

#[global] Instance net_loop_state_eq_dec : EqDecision net_loop_state.
Proof. solve_decision. Defined.

(** The timeout handlers and the receive handlers of the ping protocol. *)
Inductive thand_f := ping_timeout_handler | start_again_timeout_handler.
Inductive rxhand_f := dummy_handler.

(** The global variables of [net/net.c], [net/arp.c] and [net/ping.c], and
    those of other files that the packet loop uses.  An address is the
    [s_addr] of its [struct in_addr], and a packet buffer is [None] until
    [net_init] has set its pointer; [arp_wait_packet_ethaddr] is the array it
    points at. *)
Record net_globals := mkNet {
  net_ip : Z;
  net_netmask : Z;
  net_gateway : Z;
  net_ping_ip : Z;
  net_ethaddr : list Z;
  net_our_vlan : Z;
  net_native_vlan : Z;
  net_ip_id : Z;
  ping_seq_number : Z;
  net_rx_packet : option (list Z);
  net_rx_packet_len : Z;
  net_tx_packet : option (list Z);
  arp_tx_packet : option (list Z);
  net_arp_wait_packet_ip : Z;
  net_arp_wait_reply_ip : Z;
  arp_wait_tx_packet_size : Z;
  arp_wait_timer_start : Z;
  arp_wait_try : Z;
  arp_wait_packet_ethaddr : option (list Z);
  udp_packet_handler : option rxhand_f;
  arp_packet_handler : option rxhand_f;
  time_handler : option thand_f;
  time_start : Z;
  time_delta : Z;
  net_state : net_loop_state;
  net_restarted : Z;
  net_dev_exists : Z;
  net_try_count : Z;
  net_boot_file_size : Z;
  first_call : bool;
  net_server_ip : Z;
  image_load_addr : Z;
  ctrlc_disabled : Z;
  ctrlc_was_pressed : Z;
}.

#[export] Instance eta_net_globals : Eta net_globals := λ n,
  mkNet (net_ip n) (net_netmask n) (net_gateway n) (net_ping_ip n) (net_ethaddr n)
    (net_our_vlan n) (net_native_vlan n) (net_ip_id n) (ping_seq_number n) (net_rx_packet n)
    (net_rx_packet_len n) (net_tx_packet n) (arp_tx_packet n) (net_arp_wait_packet_ip n)
    (net_arp_wait_reply_ip n) (arp_wait_tx_packet_size n) (arp_wait_timer_start n)
    (arp_wait_try n) (arp_wait_packet_ethaddr n) (udp_packet_handler n) (arp_packet_handler n)
    (time_handler n) (time_start n) (time_delta n) (net_state n) (net_restarted n)
    (net_dev_exists n) (net_try_count n) (net_boot_file_size n) (first_call n)
    (net_server_ip n) (image_load_addr n) (ctrlc_disabled n) (ctrlc_was_pressed n).

Record world (HW : Type) := mkWorld {
  console : string;
  log : log_state;
  i2c : i2c_state;
  eeprom : eeprom_state;
  nor : nor_state;
  mmc : mmc_state;
  mii : mii_state;
  blk : blkcache_state;
  eth : eth_globals;
  net : net_globals;
  hw : HW;
}.
Arguments mkWorld {HW}.
Arguments console {HW}.
Arguments log {HW}.
Arguments i2c {HW}.
Arguments eeprom {HW}.
Arguments nor {HW}.
Arguments mmc {HW}.
Arguments mii {HW}.
Arguments blk {HW}.
Arguments eth {HW}.
Arguments net {HW}.
Arguments hw {HW}.

(** The values the C runtime gives the globals. *)
Definition boot_world {HW} (h : HW) : world HW :=
  mkWorld "" (mkLog 0 CONSOLE_LOG_MODE 0xFFFF) (mkI2c None ∅ ∅)
    (mkEeprom (replicate 128 0) (replicate 128 0))
    (mkNor None (replicate (Z.to_nat 131072) 0) (replicate (Z.to_nat 131072) 0))
    (mkMmc (mkMmcParam 0 0 0 0 None) (replicate (Z.to_nat 8192) 0) (replicate (Z.to_nat 8192) 0))
    (mkMiiState [] None) (mkBlkCache [] (mkStats 0 0 0 8 32))
    (mkEth None ∅ 0 None None 0 0)
    (mkNet 0 0 0 0 (replicate 6 0) 0xFFFF 0xFFFF 0 0 None 0 None None 0 0 0 0 0 None None None None 0 0
       NETLOOP_CONTINUE 0 0 0 0 true 0 0x82000000 0 0)
    h.

Section updates.
Context {HW : Type}.
Implicit Types w : world HW.

Definition with_console (s : string) w : world HW :=
  mkWorld s (log w) (i2c w) (eeprom w) (nor w) (mmc w) (mii w) (blk w) (eth w) (net w) (hw w).
Definition with_log (l : log_state) w : world HW :=
  mkWorld (console w) l (i2c w) (eeprom w) (nor w) (mmc w) (mii w) (blk w) (eth w) (net w) (hw w).
Definition with_i2c (i : i2c_state) w : world HW :=
  mkWorld (console w) (log w) i (eeprom w) (nor w) (mmc w) (mii w) (blk w) (eth w) (net w) (hw w).
Definition with_eeprom (e : eeprom_state) w : world HW :=
  mkWorld (console w) (log w) (i2c w) e (nor w) (mmc w) (mii w) (blk w) (eth w) (net w) (hw w).
Definition with_nor (n : nor_state) w : world HW :=
  mkWorld (console w) (log w) (i2c w) (eeprom w) n (mmc w) (mii w) (blk w) (eth w) (net w) (hw w).
Definition with_mmc (m : mmc_state) w : world HW :=
  mkWorld (console w) (log w) (i2c w) (eeprom w) (nor w) m (mii w) (blk w) (eth w) (net w) (hw w).
Definition with_mii (m : mii_state) w : world HW :=
  mkWorld (console w) (log w) (i2c w) (eeprom w) (nor w) (mmc w) m (blk w) (eth w) (net w) (hw w).
Definition with_blk (b : blkcache_state) w : world HW :=
  mkWorld (console w) (log w) (i2c w) (eeprom w) (nor w) (mmc w) (mii w) b (eth w) (net w) (hw w).
Definition with_eth (e : eth_globals) w : world HW :=
  mkWorld (console w) (log w) (i2c w) (eeprom w) (nor w) (mmc w) (mii w) (blk w) e (net w) (hw w).
Definition with_net (n : net_globals) w : world HW :=
  mkWorld (console w) (log w) (i2c w) (eeprom w) (nor w) (mmc w) (mii w) (blk w) (eth w) n (hw w).
Definition with_hw (h : HW) w : world HW :=
  mkWorld (console w) (log w) (i2c w) (eeprom w) (nor w) (mmc w) (mii w) (blk w) (eth w) (net w) h.
End updates.

(** A hardware operation that only changes the hardware. *)
Definition hw_do {HW} (f : HW → HW) : M (world HW) unit :=
  modify (λ w, with_hw (f (hw w)) w).
(** A hardware operation that returns a value. *)
Definition hw_call {HW A} (f : HW → A * HW) : M (world HW) A :=
  λ w, let '(a, h) := f (hw w) in Ret a (with_hw h w).

(** [get_timer], in milliseconds from the given base. *)
Class Timer (HW : Type) := {
  get_timer : Z → HW → Z * HW;
}.

(** * Console output *)

(** The text is appended to what the terminal received. *)
Definition emit {HW} (s : string) (w : world HW) : world HW :=
  with_console (console w +:+ s) w.

(** [CONFIG_SYS_PBSIZE] of [include/config_fallbacks.h] for the AM335x
    configuration: command buffer, prompt ["=> "] and 16. *)
Definition CONFIG_SYS_CBSIZE : Z := 1024.
Definition CONFIG_SYS_PBSIZE : Z := CONFIG_SYS_CBSIZE + 4 + 16.

Definition puts {HW} (s : string) : M (world HW) unit := modify (emit (c_str s)).

Definition printf {HW} (fmt : string) (args : list va_arg) : M (world HW) unit :=
  match vscnprintf CONFIG_SYS_PBSIZE fmt args with
  | None => crash BAD_VARARGS
  | Some (printbuffer, i) => if i =? 0 then mret tt else puts printbuffer
  end.

Definition vprintf {HW} := @printf HW.

(** [sprintf] into an array of [cap] bytes. *)
Definition sprintf_to {HW} (cap : Z) (fmt : string) (args : list va_arg) :
    M (world HW) string :=
  match sprintf fmt args with
  | None => crash BAD_VARARGS
  | Some (buf, i) => if i <? cap then mret (c_str buf) else crash OUT_OF_BOUNDS
  end.

(** * Lemmas *)

Lemma emit_emit {HW} s t (w : world HW) : emit t (emit s w) = emit (s +:+ t) w.
Proof. unfold emit, with_console. simpl. by rewrite str_app_assoc. Qed.

Lemma emit_nil {HW} (w : world HW) : emit "" w = w.
Proof. unfold emit, with_console. rewrite str_app_nil_r. by destruct w. Qed.

Lemma printf_emits {HW} fmt args (w : world HW) :
  fmt_accepts fmt (kinds args) = true → ∃ s, printf fmt args w = Ret tt (emit s w).
Proof.
  intros Ha. destruct (format_accepts fmt args Ha) as [out Hout].
  unfold printf, vscnprintf, vsnprintf, vsnprintf_internal. rewrite Hout.
  cbn [mbind option_bind].
  match goal with |- context [?i =? 0] => destruct (i =? 0) end.
  - exists "". by rewrite emit_nil.
  - by eexists.
Qed.

(** Any [printf] whose format accepts its arguments returns, and changes
    nothing but the console. *)
Lemma wp_printf {HW} fmt args Q (w : world HW) :
  fmt_accepts fmt (kinds args) = true →
  (∀ s, Q tt (emit s w)) → wp (printf fmt args) Q w.
Proof. intros Ha HQ. unfold wp. destruct (printf_emits fmt args w Ha) as [s ->]. apply HQ. Qed.

Lemma wp_hw_do {HW} f Q (w : world HW) : Q tt (with_hw (f (hw w)) w) → wp (hw_do f) Q w.
Proof. done. Qed.

Lemma wp_hw_call {HW A} (f : HW → A * HW) Q (w : world HW) :
  Q (f (hw w)).1 (with_hw (f (hw w)).2 w) → wp (hw_call f) Q w.
Proof. unfold wp, hw_call. by destruct (f (hw w)). Qed.

(** What [printf] and [sprintf] do when the text is known. *)
Lemma printf_exact {HW} fmt args out (w : world HW) :
  format fmt args = Some out → no_nul out → 0 < slen out < CONFIG_SYS_PBSIZE →
  printf fmt args w = Ret tt (emit out w).
Proof.
  intros Hf Hn Hl. unfold printf, vscnprintf, vsnprintf, vsnprintf_internal. rewrite Hf.
  cbn [mbind option_bind]. rewrite (proj2 (Z.ltb_lt _ _)) by lia.
  rewrite (proj2 (Z.eqb_neq _ _)) by lia. rewrite str_take_all by lia.
  unfold puts, modify. by rewrite Hn.
Qed.

Lemma sprintf_exact {HW} cap fmt args out (w : world HW) :
  format fmt args = Some out → no_nul out → slen out < cap → slen out < INT_MAX →
  sprintf_to cap fmt args w = Ret out w.
Proof.
  intros Hf Hn Hl Hm. unfold sprintf_to, sprintf, vsprintf, vsnprintf_internal. rewrite Hf.
  cbn [mbind option_bind]. rewrite (proj2 (Z.ltb_lt _ _)) by lia.
  rewrite str_take_all by lia. by rewrite Hn.
Qed.
