(* ===== verification/Events.v ===== *)
(** Event and result reporting: [common/eventId.h], [common/eventlog.c] and
    [common/consolelog.c].  Every report goes to the serial console, filtered
    by the log mask. *)

From S2P Require Import Prelude CLib Vsprintf VsprintfFacts Machine.

(** * Data *)

Inductive DiagErrEventIDTypes_e :=
| DIAG_INFO_EVENT
| DIAG_GENERIC_ERR_EVENT
| DIAG_ASSERT_ERR_EVENT
| DIAG_COM_ASSERT_ERR_EVENT
| DIAG_TEST_NOT_FOUND_ERR_EVENT
| DIAG_BUS_INIT_ERR_EVENT
| DIAG_BUS_READ_ERR_EVENT
| DIAG_BUS_WRITE_ERR_EVENT
| DIAG_BUS_NOT_FOUND_ERR_EVENT
| DIAG_BUS_BUFFER_OVERRUN_ERR_EVENT
| DIAG_BUS_BUFFER_UNDERRUN_ERR_EVENT
| DIAG_BUS_CONFIG_ERR_EVENT
| DIAG_BUS_DATA_MISMATCH_ERR_EVENT
| DIAG_BUS_TIMEOUT_ERR_EVENT
| DIAG_DEV_INIT_ERR_EVENT
| DIAG_DEV_NOT_PRESENT_ERR_EVENT
| DIAG_DEV_READ_ERR_EVENT
| DIAG_DEV_WRITE_ERR_EVENT
| DIAG_DEV_DATA_MISMATCH_ERR_EVENT
| DIAG_DEV_DATA_TIMEOUT_ERR_EVENT
| DIAG_DEV_COMMAND_ERR_EVENT
| DIAG_DEV_ID_MISMATCH_ERR_EVENT
| DIAG_DEV_ADDR_ERR_EVENT
| DIAG_DEV_RESET_ERR_EVENT
| DIAG_DEV_CONFIG_ERR_EVENT
| DIAG_DEV_BUFFER_OVERRUN_ERR_EVENT
| DIAG_DEV_BUFFER_UNDERRUN_ERR_EVENT
| DIAG_DEV_UNEXPECTED_DEVICE_ERR_EVENT
| DIAG_DEV_TIMEOUT_ERR_EVENT
| DIAG_DEV_ERASE_ERR_EVENT
| DIAG_VALUE_NOT_EXPECTED_ERR_EVENT
| DIAG_VALUE_TOO_SMALL_ERR_EVENT
| DIAG_VALUE_TOO_LARGE_ERR_EVENT
| DIAG_VALUE_NOT_IN_RANGE_ERR_EVENT
| DIAG_MODE_PROTECTED_ERR_EVENT
| DIAG_MEMORY_ALLOC_ERR_EVENT
| DIAG_MEMORY_FREE_ERR_EVENT.

Definition all_events : list DiagErrEventIDTypes_e :=
  [DIAG_INFO_EVENT; DIAG_GENERIC_ERR_EVENT; DIAG_ASSERT_ERR_EVENT;
   DIAG_COM_ASSERT_ERR_EVENT; DIAG_TEST_NOT_FOUND_ERR_EVENT; DIAG_BUS_INIT_ERR_EVENT;
   DIAG_BUS_READ_ERR_EVENT; DIAG_BUS_WRITE_ERR_EVENT; DIAG_BUS_NOT_FOUND_ERR_EVENT;
   DIAG_BUS_BUFFER_OVERRUN_ERR_EVENT; DIAG_BUS_BUFFER_UNDERRUN_ERR_EVENT;
   DIAG_BUS_CONFIG_ERR_EVENT; DIAG_BUS_DATA_MISMATCH_ERR_EVENT; DIAG_BUS_TIMEOUT_ERR_EVENT;
   DIAG_DEV_INIT_ERR_EVENT; DIAG_DEV_NOT_PRESENT_ERR_EVENT; DIAG_DEV_READ_ERR_EVENT;
   DIAG_DEV_WRITE_ERR_EVENT; DIAG_DEV_DATA_MISMATCH_ERR_EVENT;
   DIAG_DEV_DATA_TIMEOUT_ERR_EVENT; DIAG_DEV_COMMAND_ERR_EVENT;
   DIAG_DEV_ID_MISMATCH_ERR_EVENT; DIAG_DEV_ADDR_ERR_EVENT; DIAG_DEV_RESET_ERR_EVENT;
   DIAG_DEV_CONFIG_ERR_EVENT; DIAG_DEV_BUFFER_OVERRUN_ERR_EVENT;
   DIAG_DEV_BUFFER_UNDERRUN_ERR_EVENT; DIAG_DEV_UNEXPECTED_DEVICE_ERR_EVENT;
   DIAG_DEV_TIMEOUT_ERR_EVENT; DIAG_DEV_ERASE_ERR_EVENT; DIAG_VALUE_NOT_EXPECTED_ERR_EVENT;
   DIAG_VALUE_TOO_SMALL_ERR_EVENT; DIAG_VALUE_TOO_LARGE_ERR_EVENT;
   DIAG_VALUE_NOT_IN_RANGE_ERR_EVENT; DIAG_MODE_PROTECTED_ERR_EVENT;
   DIAG_MEMORY_ALLOC_ERR_EVENT; DIAG_MEMORY_FREE_ERR_EVENT].

#[export] Instance DiagErrEventIDTypes_e_eq_dec : EqDecision DiagErrEventIDTypes_e.
Proof. solve_decision. Defined.

(** The enumeration starts at 2 and counts up. *)
Fixpoint index_of (e : DiagErrEventIDTypes_e) (l : list DiagErrEventIDTypes_e) : Z :=
  match l with
  | [] => 0
  | x :: l' => if decide (x = e) then 0 else 1 + index_of e l'
  end.

Definition event_code (e : DiagErrEventIDTypes_e) : Z := 2 + index_of e all_events.

Inductive ControlRunTypes_e :=
| DIAG_CONTROLRUN_IDLE
| DIAG_CONTROLRUN_START
| DIAG_CONTROLRUN_STOP
| DIAG_CONTROLRUN_ABORT.

Inductive TestResultTypes_e :=
| DIAG_TEST_RESULT_NOT_STARTED
| DIAG_TEST_RESULT_IN_PROGRESS
| DIAG_TEST_RESULT_PASS
| DIAG_TEST_RESULT_ABORTED
| DIAG_TEST_RESULT_TIMEOUT
| DIAG_TEST_RESULT_FAIL.

#[export] Instance TestResultTypes_e_eq_dec : EqDecision TestResultTypes_e.
Proof. solve_decision. Defined.

Definition DIAG_DIM_ADDRESS_SET_EVENT : nat := 6.
Definition DIAG_DIM_STRING_EVENT : Z := 256.

(** [eventType] holds an integer: a zeroed struct has no enumerator in it. *)
Record DiagEventParams_s := mkEvent {
  eventType : Z;
  sequence : Z;
  tv_sec : Z;
  tv_nsec : Z;
  objectId : Z;
  addressDim : Z;
  address : list Z;
  evt_string : string;
}.

(** * consolelog.h, consolelog.c *)

Notation LOG_MASK_PASS := 0x01%Z (only parsing).
Notation LOG_MASK_ERROR := 0x02%Z (only parsing).
Notation LOG_MASK_INFO := 0x04%Z (only parsing).
Notation LOG_MASK_DEBUG := 0x08%Z (only parsing).
Notation LOG_MASK_STATUS := 0x10%Z (only parsing).
Notation LOG_MASK_LIST := 0x20%Z (only parsing).
Notation LOG_MASK_COM := 0x40%Z (only parsing).
Notation LOG_MASK_COM_ERROR := 0x80%Z (only parsing).
Definition LOG_MASK_ALL : Z := 0xFFFF.

(** The spelling of an enumerator: [#x] of the macro. *)
Definition event_name (e : DiagErrEventIDTypes_e) : string :=
  match e with
  | DIAG_INFO_EVENT => "DIAG_INFO_EVENT"
  | DIAG_GENERIC_ERR_EVENT => "DIAG_GENERIC_ERR_EVENT"
  | DIAG_ASSERT_ERR_EVENT => "DIAG_ASSERT_ERR_EVENT"
  | DIAG_COM_ASSERT_ERR_EVENT => "DIAG_COM_ASSERT_ERR_EVENT"
  | DIAG_TEST_NOT_FOUND_ERR_EVENT => "DIAG_TEST_NOT_FOUND_ERR_EVENT"
  | DIAG_BUS_INIT_ERR_EVENT => "DIAG_BUS_INIT_ERR_EVENT"
  | DIAG_BUS_READ_ERR_EVENT => "DIAG_BUS_READ_ERR_EVENT"
  | DIAG_BUS_WRITE_ERR_EVENT => "DIAG_BUS_WRITE_ERR_EVENT"
  | DIAG_BUS_NOT_FOUND_ERR_EVENT => "DIAG_BUS_NOT_FOUND_ERR_EVENT"
  | DIAG_BUS_BUFFER_OVERRUN_ERR_EVENT => "DIAG_BUS_BUFFER_OVERRUN_ERR_EVENT"
  | DIAG_BUS_BUFFER_UNDERRUN_ERR_EVENT => "DIAG_BUS_BUFFER_UNDERRUN_ERR_EVENT"
  | DIAG_BUS_CONFIG_ERR_EVENT => "DIAG_BUS_CONFIG_ERR_EVENT"
  | DIAG_BUS_DATA_MISMATCH_ERR_EVENT => "DIAG_BUS_DATA_MISMATCH_ERR_EVENT"
  | DIAG_BUS_TIMEOUT_ERR_EVENT => "DIAG_BUS_TIMEOUT_ERR_EVENT"
  | DIAG_DEV_INIT_ERR_EVENT => "DIAG_DEV_INIT_ERR_EVENT"
  | DIAG_DEV_NOT_PRESENT_ERR_EVENT => "DIAG_DEV_NOT_PRESENT_ERR_EVENT"
  | DIAG_DEV_READ_ERR_EVENT => "DIAG_DEV_READ_ERR_EVENT"
  | DIAG_DEV_WRITE_ERR_EVENT => "DIAG_DEV_WRITE_ERR_EVENT"
  | DIAG_DEV_DATA_MISMATCH_ERR_EVENT => "DIAG_DEV_DATA_MISMATCH_ERR_EVENT"
  | DIAG_DEV_DATA_TIMEOUT_ERR_EVENT => "DIAG_DEV_DATA_TIMEOUT_ERR_EVENT"
  | DIAG_DEV_COMMAND_ERR_EVENT => "DIAG_DEV_COMMAND_ERR_EVENT"
  | DIAG_DEV_ID_MISMATCH_ERR_EVENT => "DIAG_DEV_ID_MISMATCH_ERR_EVENT"
  | DIAG_DEV_ADDR_ERR_EVENT => "DIAG_DEV_ADDR_ERR_EVENT"
  | DIAG_DEV_RESET_ERR_EVENT => "DIAG_DEV_RESET_ERR_EVENT"
  | DIAG_DEV_CONFIG_ERR_EVENT => "DIAG_DEV_CONFIG_ERR_EVENT"
  | DIAG_DEV_BUFFER_OVERRUN_ERR_EVENT => "DIAG_DEV_BUFFER_OVERRUN_ERR_EVENT"
  | DIAG_DEV_BUFFER_UNDERRUN_ERR_EVENT => "DIAG_DEV_BUFFER_UNDERRUN_ERR_EVENT"
  | DIAG_DEV_UNEXPECTED_DEVICE_ERR_EVENT => "DIAG_DEV_UNEXPECTED_DEVICE_ERR_EVENT"
  | DIAG_DEV_TIMEOUT_ERR_EVENT => "DIAG_DEV_TIMEOUT_ERR_EVENT"
  | DIAG_DEV_ERASE_ERR_EVENT => "DIAG_DEV_ERASE_ERR_EVENT"
  | DIAG_VALUE_NOT_EXPECTED_ERR_EVENT => "DIAG_VALUE_NOT_EXPECTED_ERR_EVENT"
  | DIAG_VALUE_TOO_SMALL_ERR_EVENT => "DIAG_VALUE_TOO_SMALL_ERR_EVENT"
  | DIAG_VALUE_TOO_LARGE_ERR_EVENT => "DIAG_VALUE_TOO_LARGE_ERR_EVENT"
  | DIAG_VALUE_NOT_IN_RANGE_ERR_EVENT => "DIAG_VALUE_NOT_IN_RANGE_ERR_EVENT"
  | DIAG_MODE_PROTECTED_ERR_EVENT => "DIAG_MODE_PROTECTED_ERR_EVENT"
  | DIAG_MEMORY_ALLOC_ERR_EVENT => "DIAG_MEMORY_ALLOC_ERR_EVENT"
  | DIAG_MEMORY_FREE_ERR_EVENT => "DIAG_MEMORY_FREE_ERR_EVENT"
  end.

Definition result_name (r : TestResultTypes_e) : string :=
  match r with
  | DIAG_TEST_RESULT_NOT_STARTED => "DIAG_TEST_RESULT_NOT_STARTED"
  | DIAG_TEST_RESULT_IN_PROGRESS => "DIAG_TEST_RESULT_IN_PROGRESS"
  | DIAG_TEST_RESULT_PASS => "DIAG_TEST_RESULT_PASS"
  | DIAG_TEST_RESULT_ABORTED => "DIAG_TEST_RESULT_ABORTED"
  | DIAG_TEST_RESULT_TIMEOUT => "DIAG_TEST_RESULT_TIMEOUT"
  | DIAG_TEST_RESULT_FAIL => "DIAG_TEST_RESULT_FAIL"
  end.

Definition GetEventName {HW} (event : Z) : M (world HW) string :=
  match List.find (λ e, event_code e =? event) all_events with
  | Some e => mret (event_name e)
  | None => sprintf_to 32 "Status_%03d " [VInt event]
  end.

(** [&s[n]] *)
Fixpoint str_drop (n : nat) (s : string) : string :=
  match n, s with
  | S n', String _ s' => str_drop n' s'
  | _, _ => s
  end.

(** [&(#x[10])]: the enumerator without its leading [DIAG_TEST_]. *)
Definition GetTestResult (result : TestResultTypes_e) : string :=
  str_drop 10 (result_name result).

Section logging.
Context {HW : Type}.
Notation M := (M (world HW)).

Definition SetLogMask (lm : Z) : M unit :=
  modify (λ w, with_log (mkLog (curTestId (log w)) (s_logMode (log w)) lm) w).

Definition GetLogMask : M Z := gets (λ w, s_logMask (log w)).

(** [if (!(s_logMask & mask)) return; body] *)
Definition when_logged (mask : Z) (body : M unit) : M unit :=
  lm ← GetLogMask;
  if nonzero (Z.land lm mask) then body else mret tt.

Definition console_showevent (event : DiagEventParams_s) : M unit :=
  name ← GetEventName (eventType event);
  _ ← printf ("  %08X  Evt: %s" +:+ newline) [VInt (objectId event); VStr (Some name)];
  _ ← (if nonzero (addressDim event) then
         _ ← printf "  %08X       Address" [VInt (objectId event)];
         _ ← for_loop (R := unit) (S (Z.to_nat (addressDim event)))
               (λ index, index <? addressDim event) (λ index, index + 1)
               (λ index,
                  match address event !! Z.to_nat index with
                  | Some a => _ ← printf " - %X" [VInt a]; mret (Continue index)
                  | None => crash OUT_OF_BOUNDS
                  end) 0;
         printf newline []
       else mret tt);
  printf ("  %08X       %s" +:+ newline)
    [VInt (objectId event); VStr (Some (evt_string event))].

Definition console_showresult (testId : Z) (result : TestResultTypes_e) : M unit :=
  lm ← GetLogMask;
  if bool_decide (result = DIAG_TEST_RESULT_PASS) && negb (nonzero (Z.land lm LOG_MASK_PASS))
  then mret tt
  else printf ("  %08X  Res: %s" +:+ newline) [VInt testId; VStr (Some (GetTestResult result))].

Definition console_showerrevent (testId error_code : Z) : M unit :=
  when_logged LOG_MASK_ERROR
    (name ← GetEventName error_code;
     printf ("  %08X  Err: %s" +:+ newline) [VInt testId; VStr (Some name)]).

Definition console_showerroreventmessage (testId error_code : Z) (fmt : string)
    (vl : list va_arg) : M unit :=
  when_logged LOG_MASK_ERROR
    (name ← GetEventName error_code;
     _ ← printf "  %08X  Emg: %s " [VInt testId; VStr (Some name)];
     _ ← vprintf fmt vl;
     printf newline []).

Definition console_showinfo (testId : Z) (fmt : string) (vl : list va_arg) : M unit :=
  when_logged LOG_MASK_INFO
    (_ ← printf "  %08X  Inf: " [VInt testId];
     _ ← vprintf fmt vl;
     printf newline []).

Definition console_showdebuginfo (testId : Z) (fmt : string) (vl : list va_arg) : M unit :=
  when_logged LOG_MASK_ERROR
    (_ ← printf "  %08X  Dbg: " [VInt testId];
     _ ← vprintf fmt vl;
     printf newline []).

(** * eventlog.c *)

Definition in_console_mode (body : M unit) : M unit :=
  mode ← gets (λ w, s_logMode (log w));
  match mode with CONSOLE_LOG_MODE => body end.

Definition SetLoggingMode (logMode : LogMode_e) : M unit :=
  modify (λ w, with_log (mkLog (curTestId (log w)) logMode (s_logMask (log w))) w).

Definition ReportResult (testId : Z) (result : TestResultTypes_e) : M unit :=
  _ ← modify (λ w, with_log (mkLog 0 (s_logMode (log w)) (s_logMask (log w))) w);
  in_console_mode (console_showresult testId result).

(** The initialised event. *)
Definition Event_Init (testId : Z) : M DiagEventParams_s :=
  cur ← gets (λ w, curTestId (log w));
  let testId := if testId =? 0 then cur else testId in
  mret (mkEvent 0 0 0 0 testId 0 (replicate DIAG_DIM_ADDRESS_SET_EVENT 0) "").

Definition ReportEvent (event : DiagEventParams_s) : M unit :=
  in_console_mode (console_showevent event).

Definition ReportErrEventMsg (testId : Z) (type : DiagErrEventIDTypes_e) (fmt : string)
    (vl : list va_arg) : M unit :=
  in_console_mode (console_showerroreventmessage testId (event_code type) fmt vl).

Definition ReportErrEvent (testId : Z) (type : DiagErrEventIDTypes_e) : M unit :=
  in_console_mode (console_showerrevent testId (event_code type)).

(** The macro, with [__FILE__] and [__LINE__] of its use. *)
Definition DEBUG_ASSERT (file : string) (line : Z) : M unit :=
  ReportErrEventMsg 0 DIAG_ASSERT_ERR_EVENT ("### ASSERT ### %s  %d" +:+ newline)
    [VStr (Some file); VInt line].

(** How the tests fill and send an event: [eventType], [addressDim] and the
    leading [address] entries are assigned, the rest stays zero. *)
Definition fill_event (event : DiagEventParams_s) (type : DiagErrEventIDTypes_e)
    (addrs : list Z) (str : string) : DiagEventParams_s :=
  mkEvent (event_code type) (sequence event) (tv_sec event) (tv_nsec event)
    (objectId event) (Z.of_nat (length addrs))
    (addrs ++ drop (length addrs) (address event)) str.
End logging.

(** * Lemmas *)

(** A computation that only writes to the console. *)
Definition emits {HW} (m : M (world HW) unit) : Prop :=
  ∀ w, ∃ s, m w = Ret tt (emit s w).

Lemma wp_emits {HW} (m : M (world HW) unit) Q w :
  emits m → (∀ s, Q tt (emit s w)) → wp m Q w.
Proof. intros Hm HQ. unfold wp. destruct (Hm w) as [s ->]. apply HQ. Qed.

Section emits.
Context {HW : Type}.
Implicit Types m : M (world HW) unit.

Lemma emits_ret : emits (HW := HW) (mret tt).
Proof. intros w. exists "". by rewrite emit_nil. Qed.

Lemma emits_seq m m' : emits m → emits m' → emits (_ ← m; m').
Proof.
  intros H H' w. unfold mbind, M_bind. destruct (H w) as [s ->].
  destruct (H' (emit s w)) as [t ->]. rewrite emit_emit. by eexists.
Qed.

Lemma emits_printf fmt args :
  fmt_accepts fmt (kinds args) = true → emits (HW := HW) (printf fmt args).
Proof. intros Ha w. by apply printf_emits. Qed.

Lemma emits_read {A} (f : world HW → A) (k : A → M (world HW) unit) :
  (∀ a, emits (k a)) → emits (a ← gets f; k a).
Proof. intros H w. apply H. Qed.

Lemma emits_if (b : bool) m m' : emits m → emits m' → emits (if b then m else m').
Proof. by destruct b. Qed.

Lemma emits_console_mode m : emits m → emits (in_console_mode m).
Proof. intros H. apply emits_read. by intros []. Qed.

Lemma emits_logged mask m : emits m → emits (when_logged mask m).
Proof.
  intros H. apply emits_read. intros lm. apply emits_if; [done|apply emits_ret].
Qed.

Lemma GetEventName_code e : GetEventName (HW := HW) (event_code e) = mret (event_name e).
Proof. by destruct e. Qed.

Lemma emits_showerrevent testId e :
  emits (HW := HW) (console_showerrevent testId (event_code e)).
Proof. apply emits_logged. rewrite GetEventName_code. by apply emits_printf. Qed.

Lemma emits_ReportErrEvent testId e : emits (HW := HW) (ReportErrEvent testId e).
Proof. apply emits_console_mode, emits_showerrevent. Qed.

Lemma emits_DEBUG_ASSERT file line : emits (HW := HW) (DEBUG_ASSERT file line).
Proof.
  apply emits_console_mode, emits_logged. rewrite GetEventName_code.
  apply (emits_seq (printf _ _)); [by apply emits_printf|].
  apply emits_seq; by apply emits_printf.
Qed.

Lemma emits_showresult testId r : emits (HW := HW) (console_showresult testId r).
Proof.
  apply emits_read. intros lm. apply emits_if; [apply emits_ret|by apply emits_printf].
Qed.

(** The address loop of [console_showevent] stays inside the array. *)
Lemma address_loop_emits (ev : DiagEventParams_s) fuel i :
  (Z.to_nat (addressDim ev) ≤ length (address ev))%nat → 0 ≤ i →
  (Z.to_nat (addressDim ev - i) < fuel)%nat →
  ∀ w : world HW, ∃ s x,
    for_loop (R := unit) fuel (λ index, index <? addressDim ev) (λ index, index + 1)
      (λ index, match address ev !! Z.to_nat index with
                | Some a => _ ← printf " - %X" [VInt a]; mret (Continue index)
                | None => crash OUT_OF_BOUNDS
                end) i w = Ret x (emit s w).
Proof.
  intros Hlen. revert i. induction fuel as [|fuel IH]; intros i Hi Hf w; [lia|].
  cbn [for_loop]. destruct (Z.ltb_spec i (addressDim ev)).
  - destruct (lookup_lt_is_Some_2 (address ev) (Z.to_nat i)) as [a Ha]; [lia|].
    rewrite Ha. destruct (printf_emits " - %X" [VInt a] w) as [s Hs]; [done|].
    destruct (IH (i + 1)) with (w := emit s w) as (t & x & Hx); [lia..|].
    exists (s +:+ t), x. rewrite <- emit_emit, <- Hx.
    erewrite M_bind_Ret; [|erewrite M_bind_Ret by exact Hs; reflexivity]. done.
  - exists "". rewrite emit_nil. by eexists.
Qed.

Lemma emits_ReportEvent ev e :
  eventType ev = event_code e →
  (Z.to_nat (addressDim ev) ≤ length (address ev))%nat →
  emits (HW := HW) (ReportEvent ev).
Proof.
  intros He Hlen. apply emits_console_mode. unfold console_showevent.
  rewrite He, GetEventName_code.
  apply (emits_seq (printf _ _)); [by apply emits_printf|].
  apply emits_seq; [|by apply emits_printf].
  apply emits_if; [|apply emits_ret].
  apply emits_seq; [by apply emits_printf|].
  intros w.
  destruct (address_loop_emits ev (S (Z.to_nat (addressDim ev))) 0 Hlen)
    with (w := w) as (s & x & Hx); [lia..|]. erewrite M_bind_Ret by exact Hx.
  destruct (printf_emits newline [] (emit s w)) as [t ->]; [done|].
  rewrite emit_emit. by eexists.
Qed.

Lemma emits_report_filled ev type addrs str :
  emits (HW := HW) (ReportEvent (fill_event ev type addrs str)).
Proof.
  eapply emits_ReportEvent; [done|]. cbn. rewrite length_app. lia.
Qed.

(** The log state [ReportResult] leaves behind. *)
Definition clear_current (l : log_state) : log_state := mkLog 0 (s_logMode l) (s_logMask l).

Lemma wp_ReportResult testId r Q (w : world HW) :
  (∀ s, Q tt (emit s (with_log (clear_current (log w)) w))) → wp (ReportResult testId r) Q w.
Proof.
  intros HQ. unfold ReportResult. apply wp_bind, wp_modify.
  apply wp_emits; [apply emits_console_mode, emits_showresult|]. intros s. apply HQ.
Qed.

Lemma wp_Event_Init testId Q (w : world HW) :
  Q (mkEvent 0 0 0 0 (if testId =? 0 then curTestId (log w) else testId) 0
       (replicate DIAG_DIM_ADDRESS_SET_EVENT 0) "") w →
  wp (Event_Init testId) Q w.
Proof. done. Qed.
End emits.

#[export] Hint Resolve emits_ret emits_printf emits_ReportErrEvent emits_DEBUG_ASSERT
  emits_report_filled : diag.

(** Steps through straight-line code, including console output. *)
Ltac wp_log :=
  lazymatch goal with
  | |- wp (printf _ _) _ _ => apply wp_printf; [reflexivity|intros ?]
  | |- wp (ReportEvent _) _ _ => apply wp_emits; [solve [auto with diag]|intros ?]
  | |- wp (ReportErrEvent _ _) _ _ => apply wp_emits; [solve [auto with diag]|intros ?]
  | |- wp (DEBUG_ASSERT _ _) _ _ => apply wp_emits; [solve [auto with diag]|intros ?]
  | |- wp (Event_Init _) _ _ => apply wp_Event_Init
  | |- wp (hw_do _) _ _ => apply wp_hw_do
  | |- wp (hw_call _) _ _ => apply wp_hw_call
  | _ => wp_step
  end.
Ltac wp_run := repeat wp_log.
