(* ===== verification/Keeps.v ===== *)
(** Invariants of the machine: properties that printing and logging do not
    touch, and the code that keeps them.  [keeps I m P] says that [m], run on a
    machine satisfying [I], returns a value satisfying [P] on a machine that
    satisfies [I] again; it is total, so code that keeps an invariant neither
    faults nor loops. *)

From S2P Require Import Prelude CLib Vsprintf VsprintfFacts Machine Events.

(** A property of the machine that does not depend on the console nor on the
    log settings. *)
Class Quiet {HW : Type} (I : world HW → Prop) : Prop := {
  quiet_emit : ∀ s w, I w → I (emit s w);
  quiet_log : ∀ l w, I w → I (with_log l w);
}.

#[global] Instance quiet_True {HW : Type} : Quiet (λ _ : world HW, True).
Proof. by split. Qed.

(** Nothing is claimed of the value. *)
Notation anything := (λ _, True).

Section keeps.
Context {HW : Type} (I : world HW → Prop) `{!Quiet I}.
Notation M := (M (world HW)).

Definition keeps {A} (m : M A) (P : A → Prop) : Prop :=
  ∀ w, I w → wp m (λ a w', I w' ∧ P a) w.

Lemma keeps_at {A} (m : M A) P w : I w → keeps m P → wp m (λ a w', I w' ∧ P a) w.
Proof. auto. Qed.

Lemma keeps_ret {A} (a : A) (P : A → Prop) : P a → keeps (mret a) P.
Proof. intros Ha w Hw. by apply wp_ret. Qed.

Lemma keeps_bind {A B} (m : M A) (f : A → M B) P Q :
  keeps m P → (∀ a, P a → keeps (f a) Q) → keeps (m ≫= f) Q.
Proof.
  intros Hm Hf w Hw. apply wp_bind. eapply wp_mono; [by apply Hm|].
  intros a w' [Hw' Ha]. by apply Hf.
Qed.

Lemma keeps_mono {A} (m : M A) (P Q : A → Prop) :
  keeps m P → (∀ a, P a → Q a) → keeps m Q.
Proof.
  intros Hm HPQ w Hw. eapply wp_mono; [by apply Hm|]. intros a w' [Hw' Ha]. auto.
Qed.

Lemma keeps_anything {A} (m : M A) P : keeps m P → keeps m anything.
Proof. intros Hm. by eapply keeps_mono. Qed.

Lemma keeps_if {A} (b : bool) (m m' : M A) P :
  (b = true → keeps m P) → (b = false → keeps m' P) → keeps (if b then m else m') P.
Proof. destruct b; auto. Qed.

Lemma keeps_gets {A} (f : world HW → A) (P : A → Prop) :
  (∀ w, I w → P (f w)) → keeps (gets f) P.
Proof. intros Hf w Hw. apply wp_gets. auto. Qed.

Lemma keeps_read {A} (f : world HW → A) : keeps (gets f) anything.
Proof. by apply keeps_gets. Qed.

Lemma keeps_modify (f : world HW → world HW) :
  (∀ w, I w → I (f w)) → keeps (modify f) anything.
Proof. intros Hf w Hw. apply wp_modify. auto. Qed.

Lemma keeps_deref {A} (a : A) : keeps (deref (Some a)) anything.
Proof. by apply keeps_ret. Qed.

Lemma keeps_emits (m : M unit) : emits m → keeps m anything.
Proof. intros Hm w Hw. apply wp_emits; [done|]. intros s. split; [by apply quiet_emit|done]. Qed.

Lemma keeps_printf fmt args :
  fmt_accepts fmt (kinds args) = true → keeps (printf fmt args) anything.
Proof. intros H. by apply keeps_emits, emits_printf. Qed.

Lemma keeps_puts s : keeps (puts s) anything.
Proof. apply keeps_modify. intros w. apply quiet_emit. Qed.

Lemma keeps_Event_Init testId : keeps (Event_Init testId) anything.
Proof. intros w Hw. by apply wp_Event_Init. Qed.

Lemma keeps_sprintf cap fmt args s :
  format fmt args = Some s → no_nul s → slen s < cap → slen s < INT_MAX →
  keeps (sprintf_to cap fmt args) anything.
Proof.
  intros Hf Hn Hl Hm w Hw. unfold wp. by erewrite sprintf_exact.
Qed.

Lemma keeps_hw_call {A} (f : HW → A * HW) P :
  (∀ w, I w → I (with_hw (f (hw w)).2 w) ∧ P (f (hw w)).1) → keeps (hw_call f) P.
Proof. intros Hf w Hw. apply wp_hw_call. auto. Qed.

Lemma keeps_hw_do (f : HW → HW) :
  (∀ w, I w → I (with_hw (f (hw w)) w)) → keeps (hw_do f) anything.
Proof. intros Hf w Hw. apply wp_hw_do. auto. Qed.

(** A loop with the invariant [J] of its variable and the variant [v]; [E]
    holds of the variable at the end, [PR] of a returned value. *)
Lemma keeps_for_loop {X R} (J E : X → Prop) (PR : R → Prop) (v : X → nat) fuel cond next
    (body : X → M (ctl X R)) x :
  (v x < fuel)%nat → J x →
  (∀ x, J x → cond x = true → keeps (body x) (λ c, match c with
     | Continue x' => J (next x') ∧ (v (next x') < v x)%nat
     | Break x' => E x'
     | Return r => PR r
     end)) →
  (∀ x, J x → cond x = false → E x) →
  keeps (for_loop fuel cond next body x) (λ r, match r with inl x => E x | inr r => PR r end).
Proof.
  intros Hfuel Hx Hbody Hexit w Hw.
  apply (wp_for_loop (λ x w, J x ∧ I w) v); [done|done| |].
  - intros y w' [Hy Hw'] Hc. eapply wp_mono; [by apply Hbody|].
    intros [x'|x'|r] w'' [Hw'' H]; [|done|done]. destruct H. done.
  - intros y w' [Hy Hw'] Hc. auto.
Qed.
End keeps.

(** ** Time *)

(** The time a hardware access takes, in microseconds: at most two seconds. *)
Definition takes (lo t t' : Z) : Prop := t + lo ≤ t' ≤ t + 2000000.

Section within.
Context {HW : Type} (I : world HW → Prop) `{!Quiet I} (ticks : HW → Z).
Notation M := (M (world HW)).

(** Code that keeps an invariant and makes at most [n] accesses. *)
Definition within {A} (n : Z) (m : M A) (P : A → Prop) : Prop :=
  ∀ w, I w →
  wp m (λ a w', I w' ∧ P a ∧ 0 ≤ ticks (hw w') - ticks (hw w) ≤ n * 2000000) w.

Lemma within_keeps {A} n (m : M A) P : within n m P → keeps I m P.
Proof. intros Hm w Hw. eapply wp_mono; [by apply Hm|]. by intros a w' (Hw' & Ha & _). Qed.

Lemma within_mono {A} n n' (m : M A) (P Q : A → Prop) :
  within n m P → n ≤ n' → (∀ a, P a → Q a) → within n' m Q.
Proof.
  intros Hm Hn HPQ w Hw. eapply wp_mono; [by apply Hm|]. intros a w' (Hw' & Ha & Ht).
  split_and!; [done|by apply HPQ|lia..].
Qed.

Lemma within_ret {A} n (a : A) (P : A → Prop) : 0 ≤ n → P a → within n (mret a) P.
Proof. intros Hn Ha w Hw. apply wp_ret. split_and!; [done|done|lia..]. Qed.

Lemma within_bind {A B} k n (m : M A) (f : A → M B) P Q :
  within k m P → (∀ a, P a → within (n - k) (f a) Q) → within n (m ≫= f) Q.
Proof.
  intros Hm Hf w Hw. apply wp_bind. eapply wp_mono; [by apply Hm|]. intros a w1 (Hw1 & Ha & Ht1).
  eapply wp_mono; [by apply (Hf a)|]. intros b w2 (Hw2 & Hb & Ht2). split_and!; [done|done|lia..].
Qed.

Lemma within_if {A} n (b : bool) (m m' : M A) P :
  (b = true → within n m P) → (b = false → within n m' P) → within n (if b then m else m') P.
Proof. destruct b; auto. Qed.

Lemma within_gets {A} (f : world HW → A) (P : A → Prop) :
  (∀ w, I w → P (f w)) → within 0 (gets f) P.
Proof. intros Hf w Hw. apply wp_gets. split_and!; [done|by apply Hf|lia..]. Qed.

Lemma within_modify (f : world HW → world HW) :
  (∀ w, I w → I (f w) ∧ hw (f w) = hw w) → within 0 (modify f) anything.
Proof.
  intros Hf w Hw. apply wp_modify. destruct (Hf w Hw) as [Hf' ->]. split_and!; [done|done|lia..].
Qed.

Lemma within_hw_call {A} (f : HW → A * HW) (P : A → Prop) :
  (∀ w, I w → I (with_hw (f (hw w)).2 w) ∧ P (f (hw w)).1 ∧
    takes 0 (ticks (hw w)) (ticks (f (hw w)).2)) → within 1 (hw_call f) P.
Proof.
  intros Hf w Hw. apply wp_hw_call. destruct (Hf w Hw) as (Hf' & HP & Ht). unfold takes in Ht.
  split_and!; [done|done|cbn [hw with_hw]; lia..].
Qed.

Lemma within_hw_do (f : HW → HW) :
  (∀ w, I w → I (with_hw (f (hw w)) w) ∧ takes 0 (ticks (hw w)) (ticks (f (hw w)))) →
  within 1 (hw_do f) anything.
Proof.
  intros Hf w Hw. apply wp_hw_do. destruct (Hf w Hw) as (Hf' & Ht). unfold takes in Ht.
  split_and!; [done|done|cbn [hw with_hw]; lia..].
Qed.

Lemma within_emits (m : M unit) : emits m → within 0 m anything.
Proof.
  intros Hm w Hw. apply wp_emits; [done|]. intros s.
  split_and!; [by apply quiet_emit|done|cbn [hw emit with_console]; lia..].
Qed.

Lemma within_printf fmt args :
  fmt_accepts fmt (kinds args) = true → within 0 (printf fmt args) anything.
Proof. intros H. by apply within_emits, emits_printf. Qed.

Lemma within_puts s : within 0 (puts s) anything.
Proof. apply within_modify. intros w Hw. split; [by apply quiet_emit|done]. Qed.
End within.

Create HintDb keeps.
#[export] Hint Resolve keeps_Event_Init keeps_puts keeps_read keeps_deref : keeps.
#[export] Hint Extern 0 (Quiet _) => apply _ : keeps.
#[export] Hint Extern 1 (keeps _ (printf _ _) _) => apply keeps_printf; solve [reflexivity | apply _] : keeps.
#[export] Hint Extern 1 (keeps _ (ReportEvent _) _) =>
  apply keeps_emits; [apply _|solve [auto with diag]] : keeps.
#[export] Hint Extern 1 (keeps _ (DEBUG_ASSERT _ _) _) =>
  apply keeps_emits; [apply _|solve [auto with diag]] : keeps.

(** One step through code that keeps an invariant. *)
Ltac keep_step :=
  lazymatch goal with
  | |- keeps _ (mbind _ _) _ =>
      eapply keeps_bind; [solve [eauto with keeps]|intros ? ?; cbv beta in *]
  | |- keeps _ (mret _) _ => apply keeps_ret
  | |- keeps _ (if ?b then _ else _) _ => apply keeps_if; intros ?
  | |- keeps _ _ _ => first [solve [eauto with keeps] | eapply keeps_anything; solve [eauto with keeps]]
  end.
Ltac keep_run := repeat keep_step.

(** The same for code whose accesses are counted. *)
Create HintDb within.
#[export] Hint Resolve within_puts : within.
#[export] Hint Extern 0 (Quiet _) => apply _ : within.
#[export] Hint Extern 1 (within _ _ _ (printf _ _) _) =>
  apply within_printf; solve [reflexivity | apply _] : within.

Ltac within_count :=
  lazymatch goal with
  | |- within _ _ ?n _ _ => let n' := eval vm_compute in n in change n with n'
  end.
Ltac within_step :=
  lazymatch goal with
  | |- within _ _ _ (mbind _ _) _ =>
      eapply within_bind; [solve [eauto with within]|intros ? ?; cbv beta in *; within_count]
  | |- within _ _ _ (mret _) _ => apply within_ret; [lia|]
  | |- within _ _ _ (if ?b then _ else _) _ => apply within_if; intros ?
  | |- within _ _ _ _ _ =>
      eapply within_mono; [solve [eauto with within]|lia|try (intros; done)]
  end.
Ltac within_run := repeat within_step.
