(* ===== verification/TestId.v ===== *)
(** Test identifiers: the FNV-1a hash of [common/generateTestId.c] that turns
    a test's name into the 32-bit id it is listed, located and logged by. *)

From S2P Require Import Prelude CLib.

Definition FNV_PRIME_32 : Z := 16777619.
Definition FNV_OFFSET_32 : Z := 2166136261.

(** One round: xor the byte in, multiply by the prime. *)
Definition fnv_round (hash b : Z) : Z := wrap32 (Z.lxor hash b * FNV_PRIME_32).

Fixpoint fnv_loop (hash : Z) (ptr : list Z) (len : nat) : option Z :=
  match len with
  | O => Some hash
  | S len' =>
      match ptr with
      | b :: ptr' => fnv_loop (fnv_round hash b) ptr' len'
      | [] => None
      end
  end.

(** [None] when [len] runs past the bytes at [ptr]. *)
Definition FNV32 (ptr : list Z) (len : Z) : option Z :=
  fnv_loop FNV_OFFSET_32 ptr (Z.to_nat len).

Definition bytes_of (s : string) : list Z := map ord (list_of_str s).

Definition CalculateTestIdHash (name : string) : Z :=
  let len := strlen name in
  default 0 (FNV32 (bytes_of (c_str name)) len).

(** * Specification *)

(** The hash of a whole byte sequence. *)
Definition fnv (bytes : list Z) : Z := fold_left fnv_round bytes FNV_OFFSET_32.

(** The inverse of the prime modulo 2^32. *)
Definition FNV_INVERSE_32 : Z := 899433627.

(** * Lemmas *)

Lemma fnv_loop_all h bs : fnv_loop h bs (length bs) = Some (fold_left fnv_round bs h).
Proof. revert h. induction bs; intros h; simpl; auto. Qed.

Lemma length_bytes_of s : length (bytes_of s) = String.length s.
Proof. unfold bytes_of. rewrite length_map. induction s; simpl; auto. Qed.

(** The pointer walk of the code hashes exactly the characters of the name. *)
Lemma CalculateTestIdHash_fnv name : CalculateTestIdHash name = fnv (bytes_of (c_str name)).
Proof.
  unfold CalculateTestIdHash, FNV32, strlen, slen.
  rewrite Nat2Z.id, <- length_bytes_of, fnv_loop_all. done.
Qed.

Lemma fnv_round_range h b : 0 ≤ fnv_round h b < 2 ^ 32.
Proof. apply wrap32_range. Qed.

Lemma fold_round_range bs h : 0 ≤ h < 2 ^ 32 → 0 ≤ fold_left fnv_round bs h < 2 ^ 32.
Proof.
  revert h. induction bs as [|b bs IH]; intros h Hh; simpl; [done|].
  apply IH, fnv_round_range.
Qed.

Lemma lxor_range a b n : 0 ≤ n → 0 ≤ a < 2 ^ n → 0 ≤ b < 2 ^ n → 0 ≤ Z.lxor a b < 2 ^ n.
Proof.
  intros Hn Ha Hb. assert (0 ≤ Z.lxor a b) by (apply Z.lxor_nonneg; lia).
  split; [done|]. destruct (decide (Z.lxor a b = 0)) as [->|Hx]; [lia|].
  apply Z.log2_lt_pow2; [lia|]. apply Z.le_lt_trans with (Z.max (Z.log2 a) (Z.log2 b)).
  { apply Z.log2_lxor; lia. }
  assert (∀ x, 0 ≤ x < 2 ^ n → x ≠ 0 → Z.log2 x < n) as Hlog.
  { intros x ? ?. apply Z.log2_lt_pow2; lia. }
  destruct (decide (a = 0)) as [->|], (decide (b = 0)) as [->|].
  - done.
  - change (Z.log2 0) with 0. pose proof (Z.log2_nonneg b).
    specialize (Hlog b Hb). lia.
  - change (Z.log2 0) with 0. pose proof (Z.log2_nonneg a).
    specialize (Hlog a Ha). lia.
  - pose proof (Hlog a Ha). pose proof (Hlog b Hb). lia.
Qed.

(** Multiplication by the prime is undone by its inverse. *)
Lemma mul_prime_inj x y :
  0 ≤ x < 2 ^ 32 → 0 ≤ y < 2 ^ 32 →
  wrap32 (x * FNV_PRIME_32) = wrap32 (y * FNV_PRIME_32) → x = y.
Proof.
  intros Hx Hy H. rewrite <- (wrap32_small x Hx), <- (wrap32_small y Hy).
  assert (∀ z, wrap32 z = wrap32 (wrap32 (z * FNV_PRIME_32) * FNV_INVERSE_32)) as Hinv.
  { intros z. unfold wrap32. rewrite Zmult_mod_idemp_l, <- Z.mul_assoc.
    rewrite <- (Zmult_mod_idemp_r (FNV_PRIME_32 * FNV_INVERSE_32)).
    change ((FNV_PRIME_32 * FNV_INVERSE_32) mod 2 ^ 32) with 1. by rewrite Z.mul_1_r. }
  by rewrite (Hinv x), (Hinv y), H.
Qed.

Lemma lxor_inj_r a b c : Z.lxor a c = Z.lxor b c → a = b.
Proof.
  intros H. rewrite <- (Z.lxor_0_r a), <- (Z.lxor_0_r b), <- (Z.lxor_nilpotent c).
  by rewrite <- !Z.lxor_assoc, H.
Qed.

Lemma fnv_round_inj h h' b :
  0 ≤ h < 2 ^ 32 → 0 ≤ h' < 2 ^ 32 → 0 ≤ b < 256 →
  fnv_round h b = fnv_round h' b → h = h'.
Proof.
  intros Hh Hh' Hb H. apply mul_prime_inj in H; [by apply lxor_inj_r in H|..];
    apply lxor_range; lia.
Qed.

Lemma fnv_round_byte_inj h b b' :
  0 ≤ h < 2 ^ 32 → 0 ≤ b < 256 → 0 ≤ b' < 256 →
  fnv_round h b = fnv_round h b' → b = b'.
Proof.
  intros Hh Hb Hb' H. apply mul_prime_inj in H; [|apply lxor_range; lia..].
  rewrite (Z.lxor_comm h b), (Z.lxor_comm h b') in H. by apply lxor_inj_r in H.
Qed.

Lemma fold_round_inj bs h h' :
  0 ≤ h < 2 ^ 32 → 0 ≤ h' < 2 ^ 32 → Forall (λ b, 0 ≤ b < 256) bs →
  fold_left fnv_round bs h = fold_left fnv_round bs h' → h = h'.
Proof.
  intros Hh Hh' Hbs. revert h h' Hh Hh'.
  induction Hbs as [|b bs Hb Hbs IH]; intros h h' Hh Hh' H; simpl in *; [done|].
  apply IH in H; [by apply fnv_round_inj in H|apply fnv_round_range..].
Qed.

Lemma bytes_of_range s : Forall (λ b, 0 ≤ b < 256) (bytes_of s).
Proof. induction s; simpl; constructor; [apply ord_range|done]. Qed.

Lemma bytes_of_app s t : bytes_of (s +:+ t) = bytes_of s ++ bytes_of t.
Proof. unfold bytes_of. induction s; simpl; [done|]. by f_equal. Qed.

(** * Properties *)

(** C27. Test ids are 32-bit numbers, and two test names that differ in one
    character only (same prefix, same suffix) never get the same id. *)
Theorem testid_one_char_differs (p s : string) (c d : ascii) :
  c_str (p +:+ String c s) = p +:+ String c s →
  c_str (p +:+ String d s) = p +:+ String d s →
  0 ≤ CalculateTestIdHash (p +:+ String c s) < 2 ^ 32 ∧
  (CalculateTestIdHash (p +:+ String c s) = CalculateTestIdHash (p +:+ String d s) → c = d).
Proof.
  intros Hc Hd. rewrite !CalculateTestIdHash_fnv, Hc, Hd. unfold fnv.
  split; [apply fold_round_range; done|]. rewrite !bytes_of_app, !fold_left_app. simpl.
  set (h := fold_left fnv_round (bytes_of p) FNV_OFFSET_32).
  assert (0 ≤ h < 2 ^ 32) by (by apply fold_round_range).
  intros He. apply fold_round_inj in He; [|apply fnv_round_range..|apply bytes_of_range].
  apply fnv_round_byte_inj in He; [by apply (inj ord)|done|apply ord_range..].
Qed.

Lemma testid_one_char_differs_witness :
  0 ≤ CalculateTestIdHash "ping_test" < 2 ^ 32 ∧
  (CalculateTestIdHash "ping_test" = CalculateTestIdHash "ring_test" → ("p")%char = "r"%char).
Proof. apply (testid_one_char_differs "" "ing_test" "p" "r"); reflexivity. Defined.
