(* ===== verification/DiagCore.v ===== *)
(** The test executive: [common/process_diagtest_cmds.c] and its header.  The
    linker-generated test table, the lookup of tests by id, running a test
    and keeping its counters, and the two reports. *)

From S2P Require Import Prelude CLib Vsprintf VsprintfFacts Machine Events TestId.

Definition DIM_TEST_LIST : Z := 200.

(** [testList_s] *)
Record testList_s := mkTestList {
  testIdCount : Z;
  testIdList : list Z;
  loopCnt : Z;
  exitOnErr : Z;
  logLevel : Z;
}.

(** [memset(&obj, 0, sizeof(obj))] *)
Definition zero_testList : testList_s :=
  mkTestList 0 (replicate (Z.to_nat DIM_TEST_LIST) 0) 0 0 0.

Record request_s := mkRequest {
  prevcontrol : ControlRunTypes_e;
  control : ControlRunTypes_e;
}.

Record status_s := mkStatus {
  runCount : Z;
  totalFailCount : Z;
  newFailCount : Z;
  ResultFromSingleRun : TestResultTypes_e;
  ResultFromLoopedRun : TestResultTypes_e;
  bInProgress : Z;
}.

(** The boards of the [switch] in [ProcessTestList]. *)
Inductive board := bcm2836_rpi2 | am335x_bbb.
#[export] Instance board_eq_dec : EqDecision board.
Proof. solve_decision. Defined.

Definition BCM2836_RPI2 : Z := 0.
Definition AM335X_BBB : Z := 1.

Definition board_name (b : board) : string :=
  match b with
  | bcm2836_rpi2 => "bcm2836_rpi2"
  | am335x_bbb => "am335x_bbb"
  end.

Section core.
(** [Arg] is what a [void *] test argument points at. *)
Context {HW Arg : Type}.

Definition TestFunction : Type := Z → option Arg → M (world HW) TestResultTypes_e.

Record testParamEntry_s := mkEntry {
  description : string;
  name : string;
  testFunction : option TestFunction;
  testArgs : option Arg;
  testId : Z;
  request : request_s;
  status : status_s;
}.

(** The globals of the file, the two linker lists and the machine. *)
Record core := mkCore {
  wld : world HW;
  list_rpi2 : list testParamEntry_s;
  list_bbb : list testParamEntry_s;
  testList_g : option board;
  testListDim_g : Z;
  testNameList_g : option string;
  exitOnErr_g : Z;
  repeatCnt_g : Z;
}.

Definition table (b : board) (c : core) : list testParamEntry_s :=
  match b with
  | bcm2836_rpi2 => list_rpi2 c
  | am335x_bbb => list_bbb c
  end.

Definition with_table (b : board) (t : list testParamEntry_s) (c : core) : core :=
  match b with
  | bcm2836_rpi2 =>
      mkCore (wld c) t (list_bbb c) (testList_g c) (testListDim_g c)
        (testNameList_g c) (exitOnErr_g c) (repeatCnt_g c)
  | am335x_bbb =>
      mkCore (wld c) (list_rpi2 c) t (testList_g c) (testListDim_g c)
        (testNameList_g c) (exitOnErr_g c) (repeatCnt_g c)
  end.

Definition with_wld (w : world HW) (c : core) : core :=
  mkCore w (list_rpi2 c) (list_bbb c) (testList_g c) (testListDim_g c)
    (testNameList_g c) (exitOnErr_g c) (repeatCnt_g c).

Definition with_list (l : option board) (dim : Z) (nm : option string) (c : core) : core :=
  mkCore (wld c) (list_rpi2 c) (list_bbb c) l dim nm (exitOnErr_g c) (repeatCnt_g c).

Definition set_status (s : status_s) (e : testParamEntry_s) : testParamEntry_s :=
  mkEntry (description e) (name e) (testFunction e) (testArgs e) (testId e) (request e) s.

(** Code that does not touch the globals of this file. *)
Definition lift {A} (m : M (world HW) A) : M core A := λ c,
  match m (wld c) with
  | Ret a w => Ret a (with_wld w c)
  | Crash f w => Crash f (with_wld w c)
  | NoFuel => NoFuel
  end.

(** [testList_g[i]], read and write. *)
Definition entry_at (i : Z) : M core testParamEntry_s := λ c,
  match testList_g c with
  | None => Crash NULL_DEREF c
  | Some b =>
      match table b c !! Z.to_nat i with
      | Some e => Ret e c
      | None => Crash OUT_OF_BOUNDS c
      end
  end.

Definition entry_update (i : Z) (f : testParamEntry_s → testParamEntry_s) : M core unit :=
  e ← entry_at i;
  modify (λ c, match testList_g c with
               | Some b => with_table b (<[Z.to_nat i := f e]> (table b c)) c
               | None => c
               end).

(** [for (i = 0; i < dim; ++i) body], [i] a [uint32_t]; [Some r] when the
    body returned [r] from the function. *)
Definition for_index {R} (dim : Z) (body : Z → M core (option R)) : M core (option R) :=
  r ← for_loop (S (Z.to_nat dim)) (λ i, i <? dim) (λ i, wrap32 (i + 1))
        (λ i, o ← body i;
              match o with
              | Some r => mret (Return r)
              | None => mret (Continue i)
              end) 0;
  match r with
  | inl _ => mret None
  | inr r => mret (Some r)
  end.

(** The loop body of [ProcessTestList]. *)
Definition init_entry (e : testParamEntry_s) : testParamEntry_s :=
  mkEntry (description e) (name e) (testFunction e) (testArgs e)
    (CalculateTestIdHash (name e))
    (mkRequest DIAG_CONTROLRUN_IDLE DIAG_CONTROLRUN_IDLE)
    (mkStatus 0 0 0 DIAG_TEST_RESULT_NOT_STARTED DIAG_TEST_RESULT_NOT_STARTED 0).

Definition caseSetTestList (b : board) (c : core) : core :=
  with_list (Some b) (Z.of_nat (length (table b c))) (Some (board_name b)) c.

Definition ProcessTestList (board_index : Z) : M core unit :=
  _ ← modify (λ c,
        if board_index =? BCM2836_RPI2 then caseSetTestList bcm2836_rpi2 c
        else if board_index =? AM335X_BBB then caseSetTestList am335x_bbb c
        else with_list None 0 (testNameList_g c) c);
  tl ← gets testList_g;
  match tl with
  | Some _ =>
      dim ← gets testListDim_g;
      _ ← for_index (R := unit) dim (λ testIndex,
            _ ← entry_update testIndex init_entry; mret None);
      mret tt
  | None => lift (printf ("Test list %d not found" +:+ newline) [VInt board_index])
  end.

(** [BOARD_DEFAULT] comes from the U-Boot Makefile. *)
Context (BOARD_DEFAULT : Z).

Definition init_if_needed : M core unit :=
  tl ← gets testList_g;
  match tl with
  | None => ProcessTestList BOARD_DEFAULT
  | Some _ => mret tt
  end.

Definition RequestTestList : M core (option board) :=
  _ ← init_if_needed; gets testList_g.

Definition RequestTestListDim : M core Z :=
  _ ← init_if_needed; gets testListDim_g.

Definition RequestTestListName : M core string :=
  _ ← init_if_needed;
  nm ← gets testNameList_g;
  match nm with
  | None => mret "not found"
  | Some s => mret s
  end.

Definition ProcessTestLoopCount (value : Z) : M core unit :=
  modify (λ c, mkCore (wld c) (list_rpi2 c) (list_bbb c) (testList_g c) (testListDim_g c)
                 (testNameList_g c) (exitOnErr_g c) value).
Definition RequestTestLoopCount : M core Z := gets repeatCnt_g.
Definition ProcessExitOnErr (value : Z) : M core unit :=
  modify (λ c, mkCore (wld c) (list_rpi2 c) (list_bbb c) (testList_g c) (testListDim_g c)
                 (testNameList_g c) value (repeatCnt_g c)).
Definition RequestExitOnErr : M core Z := gets exitOnErr_g.

Definition clear_new (e : testParamEntry_s) : testParamEntry_s :=
  let s := status e in
  set_status (mkStatus (runCount s) (totalFailCount s) 0 (ResultFromSingleRun s)
                (ResultFromLoopedRun s) (bInProgress s)) e.

Definition ClearFailureCounts : M core unit :=
  testListDim ← RequestTestListDim;
  _ ← for_index (R := unit) testListDim (λ testIndex,
        _ ← RequestTestList; _ ← entry_update testIndex clear_new; mret None);
  mret tt.

(** The index of the entry, or [None] for the [NULL] result. *)
Definition LocateTest (searchTestId : Z) : M core (option Z) :=
  testListDim ← RequestTestListDim;
  for_index testListDim (λ testIndex,
    _ ← RequestTestList;
    testEntry ← entry_at testIndex;
    if testId testEntry =? searchTestId then mret (Some testIndex) else mret None).

(** [common/consolelog.c], the only function of it that needs the table. *)
Definition GetTestName (testId : Z) : M core string :=
  testEntry ← LocateTest testId;
  match testEntry with
  | Some i => e ← entry_at i; mret (name e)
  | None => lift (sprintf_to 32 "Test_%03d " [VInt testId])
  end.

Definition this_file : string := "../test-framework/common/process_diagtest_cmds.c".

(** The list the caller's [*options] holds afterwards. *)
Definition GetAvailableListOfTest (options : option testList_s) : M core (option testList_s) :=
  testListDim ← RequestTestListDim;
  match options with
  | None => _ ← lift (DEBUG_ASSERT this_file 207); mret options
  | Some o =>
      if testListDim >? DIM_TEST_LIST then
        _ ← lift (DEBUG_ASSERT this_file 213); mret options
      else
        r ← for_loop (R := unit) (S (Z.to_nat testListDim))
              (λ '(testIndex, _), testIndex <? testListDim)
              (λ '(testIndex, l), (wrap32 (testIndex + 1), l))
              (λ '(testIndex, l),
                 _ ← RequestTestList;
                 testEntry ← entry_at testIndex;
                 if (Z.to_nat testIndex <? length l)%nat
                 then mret (Continue (testIndex, <[Z.to_nat testIndex := testId testEntry]> l))
                 else crash OUT_OF_BOUNDS)
              (0, testIdList o);
        match r with
        | inl (_, l) =>
            mret (Some (mkTestList testListDim l (loopCnt o) (exitOnErr o) (logLevel o)))
        | inr _ => mret options
        end
  end.

Definition count_run (e : testParamEntry_s) : testParamEntry_s :=
  let s := status e in
  set_status (mkStatus (wrap32 (runCount s + 1)) (totalFailCount s) (newFailCount s)
                (ResultFromSingleRun s) (ResultFromLoopedRun s) (bInProgress s)) e.

Definition set_result (r : TestResultTypes_e) (e : testParamEntry_s) : testParamEntry_s :=
  let s := status e in
  set_status (mkStatus (runCount s) (totalFailCount s) (newFailCount s)
                r (ResultFromLoopedRun s) (bInProgress s)) e.

Definition count_failure (e : testParamEntry_s) : testParamEntry_s :=
  let s := status e in
  set_status (mkStatus (runCount s) (wrap32 (totalFailCount s + 1)) (wrap32 (newFailCount s + 1))
                (ResultFromSingleRun s) (ResultFromLoopedRun s) (bInProgress s)) e.

Definition RunDeviceTest (testId : Z) : M core TestResultTypes_e :=
  testEntry ← LocateTest testId;
  match testEntry with
  | None =>
      _ ← lift (ReportErrEvent testId DIAG_TEST_NOT_FOUND_ERR_EVENT);
      _ ← lift (ReportResult testId DIAG_TEST_RESULT_ABORTED);
      mret DIAG_TEST_RESULT_ABORTED
  | Some i =>
      e ← entry_at i;
      match testFunction e with
      | None =>
          _ ← lift (DEBUG_ASSERT this_file 265);
          _ ← lift (ReportResult testId DIAG_TEST_RESULT_ABORTED);
          mret DIAG_TEST_RESULT_ABORTED
      | Some fn =>
          _ ← entry_update i count_run;
          _ ← lift (printf ("%08X -- %s -- %s" +:+ newline)
                      [VInt testId; VStr (Some (description e)); VStr (Some (name e))]);
          r ← lift (fn testId (testArgs e));
          _ ← entry_update i (set_result r);
          _ ← (if bool_decide (r = DIAG_TEST_RESULT_PASS) then mret tt
               else entry_update i count_failure);
          _ ← lift (ReportResult testId r);
          mret r
      end
  end.

(** One pass over the listed tests; [Some tt] when it returns early. *)
Definition execute_pass (o : testList_s) : M core (option unit) :=
  for_index (testIdCount o) (λ testIndex,
    match testIdList o !! Z.to_nat testIndex with
    | None => crash OUT_OF_BOUNDS
    | Some testId =>
        result ← RunDeviceTest testId;
        if negb (bool_decide (result = DIAG_TEST_RESULT_PASS)) && nonzero (exitOnErr o)
        then mret (Some tt) else mret None
    end).

(** [fuel] bounds the passes of the outer loop. *)
Definition ExecuteAllTestListed (fuel : nat) (options : option testList_s) : M core unit :=
  _ ← lift (SetLoggingMode CONSOLE_LOG_MODE);
  match options with
  | None => lift (DEBUG_ASSERT this_file 166)
  | Some o =>
      _ ← lift (SetLogMask (logLevel o));
      if testIdCount o =? 0 then lift (DEBUG_ASSERT this_file 173)
      else if testIdCount o >? DIM_TEST_LIST then lift (DEBUG_ASSERT this_file 178)
      else
        _ ← ClearFailureCounts;
        _ ← for_loop fuel (λ loopCount, loopCount <=? loopCnt o)
              (λ loopCount, wrap32 (loopCount + 1))
              (λ loopCount,
                 early ← execute_pass o;
                 match early with
                 | Some r => mret (Return r)
                 | None => mret (Continue loopCount)
                 end) 0;
        mret tt
  end.

(** The search for further entries with the same id in [DisplayTestList]. *)
Definition show_duplicates (testId0 : Z) : M core unit :=
  searchListDim ← RequestTestListDim;
  _ ← RequestTestList;
  _ ← for_loop (R := unit) (S (Z.to_nat searchListDim))
        (λ '(searchIndex, _), searchIndex <? searchListDim)
        (λ '(searchIndex, foundCount), (wrap32 (searchIndex + 1), foundCount))
        (λ '(searchIndex, foundCount),
           e ← entry_at searchIndex;
           if testId e =? testId0 then
             let foundCount := wrap32 (foundCount + 1) in
             _ ← (if foundCount >? 1 then
                    lift (printf ("%20sError: %s has the same TestId" +:+ newline)
                            [VStr (Some ""); VStr (Some (name e))])
                  else mret tt);
             mret (Continue (searchIndex, foundCount))
           else mret (Continue (searchIndex, foundCount))) (0, 0);
  mret tt.

Definition DisplayTestList (options : testList_s) (showIndex showFlags : Z) : M core unit :=
  if testIdCount options =? 0 then lift (DEBUG_ASSERT this_file 290)
  else if testIdCount options >? DIM_TEST_LIST then lift (DEBUG_ASSERT this_file 296)
  else
    _ ← (if nonzero showFlags && nonzero (exitOnErr options)
         then lift (printf ("    Exit" +:+ newline) []) else mret tt);
    _ ← (if nonzero showFlags && nonzero (loopCnt options)
         then lift (printf ("    repeat %d times" +:+ newline) [VInt (loopCnt options)])
         else mret tt);
    _ ← for_index (R := unit) (testIdCount options) (λ testIndex,
      match testIdList options !! Z.to_nat testIndex with
      | None => crash OUT_OF_BOUNDS
      | Some tid =>
          testEntry ← LocateTest tid;
          _ ← (if nonzero showIndex then lift (printf "%4d -- " [VInt testIndex]) else mret tt);
          match testEntry with
          | None =>
              _ ← lift (printf ("%08X -- Error: Test not found" +:+ newline) [VInt tid]);
              mret None
          | Some i =>
              e ← entry_at i;
              _ ← lift (printf ("%08X -- %s -- %s" +:+ newline)
                          [VInt tid; VStr (Some (description e)); VStr (Some (name e))]);
              let calculatedTestId := CalculateTestIdHash (name e) in
              _ ← (if negb (calculatedTestId =? tid) then
                     lift (printf ("%20sError: TestId is 0x%08X but calculated 0x%08X" +:+ newline)
                             [VStr (Some ""); VInt (testId e); VInt calculatedTestId])
                   else mret tt);
              _ ← show_duplicates tid;
              mret None
          end
      end);
    mret tt.

Definition INDENT_1 : string := "    ".
Definition INDENT_2 : string := "           - ".

(** The verdict line of one test. *)
Definition show_verdict (run newFail totalFail : Z) : M (world HW) unit :=
  if run =? 0 then printf (INDENT_2 +:+ "Not run" +:+ newline) []
  else if run =? 1 then
    if totalFail =? 0 then printf (INDENT_2 +:+ "Passed" +:+ newline) []
    else printf (INDENT_2 +:+ "Failed" +:+ newline) []
  else if totalFail =? 0 then
    printf (INDENT_2 +:+ "Passed %d times" +:+ newline) [VInt run]
  else if run =? totalFail then
    printf (INDENT_2 +:+ "Failed %d times" +:+ newline) [VInt totalFail]
  else if newFail =? 0 then
    printf (INDENT_2 +:+ "Failed %d of %d times" +:+ newline) [VInt totalFail; VInt run]
  else if newFail =? 1 then
    printf (INDENT_2 +:+ "Failed %d of %d times. (%d new failure)" +:+ newline)
      [VInt totalFail; VInt run; VInt newFail]
  else
    printf (INDENT_2 +:+ "Failed %d of %d times. (%d new failures)" +:+ newline)
      [VInt totalFail; VInt run; VInt newFail].

Definition DisplayTestResults (options : testList_s) : M core unit :=
  if testIdCount options =? 0 then lift (DEBUG_ASSERT this_file 358)
  else if testIdCount options >? DIM_TEST_LIST then lift (DEBUG_ASSERT this_file 364)
  else
    _ ← for_index (R := unit) (testIdCount options) (λ testIndex,
      match testIdList options !! Z.to_nat testIndex with
      | None => crash OUT_OF_BOUNDS
      | Some tid =>
          testEntry ← LocateTest tid;
          match testEntry with
          | None =>
              _ ← lift (printf ("*** Error: Unknown test" +:+ newline) []);
              _ ← lift (printf (INDENT_1 +:+ "TestId - %08X" +:+ newline) [VInt tid]);
              _ ← lift (printf (INDENT_1 +:+ "Not found" +:+ newline) []);
              mret None
          | Some i =>
              e ← entry_at i;
              let s := status e in
              if negb (nonzero (Z.land (logLevel options) LOG_MASK_PASS))
                 && negb (nonzero (totalFailCount s))
              then mret None
              else
                _ ← lift (printf (INDENT_1 +:+ "Name   - %s" +:+ newline) [VStr (Some (name e))]);
                _ ← lift (printf (INDENT_1 +:+ "Desc   - %s" +:+ newline)
                            [VStr (Some (description e))]);
                _ ← lift (printf (INDENT_1 +:+ "TestId - %08X" +:+ newline) [VInt tid]);
                _ ← lift (show_verdict (runCount s) (newFailCount s) (totalFailCount s));
                mret None
          end
      end);
    mret tt.

(** * Specification *)

(** The table is set up and the globals describe it. *)
Definition ready (b : board) (c : core) : Prop :=
  testList_g c = Some b ∧ testListDim_g c = Z.of_nat (length (table b c)) ∧
  Z.of_nat (length (table b c)) < 2 ^ 32.

(** The first entry with a given id. *)
Definition first_index (tid : Z) (t : list testParamEntry_s) : option nat :=
  fst <$> list_find (λ e, testId e = tid) t.

(** What a run with result [r] does to an entry. *)
Definition after_run (r : TestResultTypes_e) (e : testParamEntry_s) : testParamEntry_s :=
  let e := set_result r (count_run e) in
  if bool_decide (r = DIAG_TEST_RESULT_PASS) then e else count_failure e.

(** * Lemmas *)

Lemma table_with_table b t c : table b (with_table b t c) = t.
Proof. by destruct b. Qed.

Lemma with_table_id b c : with_table b (table b c) c = c.
Proof. by destruct b, c. Qed.

Lemma with_table_twice b t t' c : with_table b t' (with_table b t c) = with_table b t' c.
Proof. by destruct b. Qed.

Lemma testList_g_with_table b t c : testList_g (with_table b t c) = testList_g c.
Proof. by destruct b. Qed.

Lemma testListDim_g_with_table b t c : testListDim_g (with_table b t c) = testListDim_g c.
Proof. by destruct b. Qed.

Lemma wld_with_table b t c : wld (with_table b t c) = wld c.
Proof. by destruct b. Qed.

Lemma table_with_wld b w c : table b (with_wld w c) = table b c.
Proof. by destruct b. Qed.

Lemma with_wld_with_table b w t c : with_wld w (with_table b t c) = with_table b t (with_wld w c).
Proof. by destruct b. Qed.

Lemma with_wld_id c : with_wld (wld c) c = c.
Proof. by destruct c. Qed.

Lemma ready_with_table b t c :
  ready b c → length t = length (table b c) → ready b (with_table b t c).
Proof.
  intros (H1 & H2 & H3) Hl. unfold ready.
  rewrite testList_g_with_table, testListDim_g_with_table, table_with_table, Hl. done.
Qed.

Lemma ready_with_wld b w c : ready b c → ready b (with_wld w c).
Proof. unfold ready. by rewrite table_with_wld. Qed.

Lemma entry_at_ready b c i e :
  ready b c → table b c !! Z.to_nat i = Some e → entry_at i c = Ret e c.
Proof. intros (H1 & _) He. unfold entry_at. by rewrite H1, He. Qed.

Lemma entry_update_ready b c i e f :
  ready b c → table b c !! Z.to_nat i = Some e →
  entry_update i f c = Ret tt (with_table b (<[Z.to_nat i := f e]> (table b c)) c).
Proof.
  intros Hr He. unfold entry_update. erewrite M_bind_Ret by (by eapply entry_at_ready).
  destruct Hr as (H1 & _). unfold modify. by rewrite H1.
Qed.

Lemma init_if_needed_ready b c : ready b c → init_if_needed c = Ret tt c.
Proof.
  intros (H1 & _). unfold init_if_needed. erewrite M_bind_Ret by reflexivity. by rewrite H1.
Qed.

Lemma RequestTestListDim_ready b c :
  ready b c → RequestTestListDim c = Ret (Z.of_nat (length (table b c))) c.
Proof.
  intros Hr. unfold RequestTestListDim.
  erewrite M_bind_Ret by (by eapply init_if_needed_ready).
  destruct Hr as (_ & H2 & _). unfold gets. by rewrite H2.
Qed.

Lemma RequestTestList_ready b c : ready b c → RequestTestList c = Ret (Some b) c.
Proof.
  intros Hr. unfold RequestTestList.
  erewrite M_bind_Ret by (by eapply init_if_needed_ready).
  destruct Hr as (H1 & _). unfold gets. by rewrite H1.
Qed.

(** A loop over the whole table that applies [f] to every entry. *)
Lemma for_index_update b f (body : Z → M core (option unit)) c :
  ready b c →
  (∀ c' i e, ready b c' → table b c' !! Z.to_nat i = Some e →
     body i c' = Ret None (with_table b (<[Z.to_nat i := f e]> (table b c')) c')) →
  for_index (Z.of_nat (length (table b c))) body c = Ret None (with_table b (f <$> table b c) c).
Proof.
  intros Hr Hbody. set (t := table b c). unfold for_index.
  assert (∀ k i, (k + i = length t)%nat → ∀ fuel, (k < fuel)%nat →
    for_loop fuel (λ i, i <? Z.of_nat (length t)) (λ i, wrap32 (i + 1))
      (λ i, o ← body i; match o with Some r => mret (Return r) | None => mret (Continue i) end)
      (Z.of_nat i) (with_table b ((f <$> take i t) ++ drop i t) c)
    = Ret (inl (Z.of_nat (length t))) (with_table b (f <$> t) c)) as Hloop.
  { induction k as [|k IH]; intros i Hi [|fuel] Hf; [lia| |lia|]; cbn [for_loop].
    - replace (Z.of_nat i <? _) with false by lia.
      rewrite take_ge, drop_ge, app_nil_r by lia. by replace i with (length t) by lia.
    - replace (Z.of_nat i <? _) with true by lia.
      destruct (lookup_lt_is_Some_2 t i) as [e He]; [lia|].
      set (t' := (f <$> take i t) ++ drop i t).
      assert (length (f <$> take i t) = i) as Hl by (rewrite length_fmap, length_take; lia).
      assert (t' !! i = Some e) as He'.
      { unfold t'. rewrite lookup_app_r, Hl, Nat.sub_diag, lookup_drop by lia.
        by rewrite Nat.add_0_r. }
      assert (ready b (with_table b t' c)) as Hr'.
      { apply ready_with_table; [done|]. fold t. unfold t'.
        rewrite length_app, Hl, length_drop. lia. }
      pose proof (Hbody (with_table b t' c) (Z.of_nat i) e Hr') as Hb.
      rewrite table_with_table, with_table_twice, Nat2Z.id in Hb. specialize (Hb He').
      erewrite M_bind_Ret by (erewrite M_bind_Ret by exact Hb; reflexivity). cbv beta iota.
      replace (wrap32 (Z.of_nat i + 1)) with (Z.of_nat (S i)).
      2:{ rewrite wrap32_small; [lia|]. destruct Hr as (_ & _ & Hr). fold t in Hr. lia. }
      replace (<[i:=f e]> t') with ((f <$> take (S i) t) ++ drop (S i) t); [apply IH; lia|].
      unfold t'. rewrite (take_S_r t i e), fmap_app, <- app_assoc by done.
      rewrite (drop_S t e i) by done.
      rewrite insert_app_r_alt, Hl, Nat.sub_diag by lia. done. }
  erewrite M_bind_Ret.
  2:{ rewrite <- (with_table_id b c) at 1. apply (Hloop (length t) 0%nat); lia. }
  done.
Qed.

Lemma ClearFailureCounts_ready b c :
  ready b c → ClearFailureCounts c = Ret tt (with_table b (clear_new <$> table b c) c).
Proof.
  intros Hr. unfold ClearFailureCounts.
  erewrite M_bind_Ret by (by eapply RequestTestListDim_ready).
  erewrite M_bind_Ret; [reflexivity|]. apply for_index_update; [done|].
  intros c' i e Hr' He. erewrite M_bind_Ret by (by eapply RequestTestList_ready).
  erewrite M_bind_Ret by (by eapply entry_update_ready). done.
Qed.

Lemma ProcessTestList_ready b c :
  Z.of_nat (length (table b c)) < 2 ^ 32 →
  ProcessTestList (match b with bcm2836_rpi2 => BCM2836_RPI2 | am335x_bbb => AM335X_BBB end) c
    = Ret tt (with_table b (init_entry <$> table b c) (caseSetTestList b c)).
Proof.
  intros Hlen. unfold ProcessTestList.
  erewrite M_bind_Ret by reflexivity.
  replace (if _ =? BCM2836_RPI2 then _ else _) with (caseSetTestList b c) by (by destruct b).
  erewrite M_bind_Ret by reflexivity. cbn [caseSetTestList with_list testList_g].
  erewrite M_bind_Ret by reflexivity. cbn [caseSetTestList with_list testListDim_g].
  assert (table b (caseSetTestList b c) = table b c) as Ht by (by destruct b).
  rewrite <- Ht at 1. erewrite M_bind_Ret; [by rewrite <- Ht at 1|].
  apply for_index_update; [by unfold ready; rewrite Ht|].
  intros c' i e Hr' He. erewrite M_bind_Ret by (by eapply entry_update_ready). done.
Qed.

Lemma first_index_cons tid e t :
  first_index tid (e :: t) = if decide (testId e = tid) then Some 0%nat
                             else S <$> first_index tid t.
Proof.
  unfold first_index. simpl. destruct (decide (testId e = tid)); [done|].
  by destruct (list_find _ t) as [[]|].
Qed.

Lemma LocateTest_ready b c tid :
  ready b c → LocateTest tid c = Ret (Z.of_nat <$> first_index tid (table b c)) c.
Proof.
  intros Hr. unfold LocateTest. erewrite M_bind_Ret by (by eapply RequestTestListDim_ready).
  set (t := table b c). unfold for_index.
  set (body := λ testIndex : Z, _ ← RequestTestList; testEntry ← entry_at testIndex;
    if testId testEntry =? tid then mret (Some testIndex) else mret None).
  assert (∀ k i, (k + i = length t)%nat → ∀ fuel, (k < fuel)%nat →
    for_loop fuel (λ i, i <? Z.of_nat (length t)) (λ i, wrap32 (i + 1))
      (λ i, o ← body i; match o with Some r => mret (Return r) | None => mret (Continue i) end)
      (Z.of_nat i) c
    = Ret (match first_index tid (drop i t) with
           | Some j => inr (Z.of_nat (i + j)) | None => inl (Z.of_nat (length t)) end) c) as Hloop.
  { induction k as [|k IH]; intros i Hi [|fuel] Hf; [lia| |lia|]; cbn [for_loop].
    - replace (Z.of_nat i <? _) with false by lia. rewrite drop_ge by lia.
      by replace i with (length t) by lia.
    - replace (Z.of_nat i <? _) with true by lia.
      destruct (lookup_lt_is_Some_2 t i) as [e He]; [lia|].
      rewrite (drop_S t e i), first_index_cons by done.
      assert (body (Z.of_nat i) c = Ret (if decide (testId e = tid) then Some (Z.of_nat i)
                                          else None) c) as Hb.
      { unfold body. erewrite M_bind_Ret by (by eapply RequestTestList_ready).
        erewrite M_bind_Ret by (eapply entry_at_ready; [done|by rewrite Nat2Z.id]).
        destruct (decide (testId e = tid)) as [->|Hne]; [by rewrite Z.eqb_refl|].
        by rewrite (proj2 (Z.eqb_neq _ _) Hne). }
      destruct (decide (testId e = tid)) as [Heq|Hne].
      + erewrite M_bind_Ret by (erewrite M_bind_Ret by exact Hb; reflexivity).
        by rewrite Nat.add_0_r.
      + erewrite M_bind_Ret by (erewrite M_bind_Ret by exact Hb; reflexivity). cbv beta iota.
        replace (wrap32 (Z.of_nat i + 1)) with (Z.of_nat (S i)).
        2:{ rewrite wrap32_small; [lia|]. destruct Hr as (_ & _ & Hr). fold t in Hr. lia. }
        rewrite IH by lia. destruct (first_index tid (drop (S i) t)); [|done].
        simpl. do 2 f_equal. lia. }
  erewrite M_bind_Ret by (apply (Hloop (length t) 0%nat); lia).
  rewrite drop_0. by destruct (first_index tid t).
Qed.
End core.
