(* ===== verification/DiagCoreFacts.v ===== *)
(** Facts about the test executive: what running one test does to the table,
    and how [ExecuteAllTestListed] sequences the tests. *)

From S2P Require Import Prelude CLib Vsprintf VsprintfFacts Machine Events Keeps TestId DiagCore.

Section facts.
Context {HW Arg : Type} (BOARD_DEFAULT : Z).
Notation core := (@core HW Arg).
Notation entry := (@testParamEntry_s HW Arg).
Notation RunDeviceTest := (RunDeviceTest BOARD_DEFAULT).
Implicit Types c : core.
Implicit Types t : list entry.

(** * Specification *)

(** Run the given ids in order; with [stop], return at the first result that
    is not a pass. *)
Fixpoint run_list (stop : bool) (ids : list Z) : M core (option unit) :=
  match ids with
  | [] => mret None
  | id :: ids' =>
      r ← RunDeviceTest id;
      if negb (bool_decide (r = DIAG_TEST_RESULT_PASS)) && stop then mret (Some tt)
      else run_list stop ids'
  end.

(** The ids a request runs: the listed ones, [loopCnt + 1] times over. *)
Definition schedule (o : testList_s) : list Z :=
  concat (replicate (Z.to_nat (loopCnt o + 1)) (take (Z.to_nat (testIdCount o)) (testIdList o))).

(** What happens before the first test. *)
Definition prepare (o : testList_s) : M core unit :=
  _ ← lift (SetLoggingMode CONSOLE_LOG_MODE);
  _ ← lift (SetLogMask (logLevel o));
  ClearFailureCounts BOARD_DEFAULT.

(** A well-formed request. *)
Definition valid_request (o : testList_s) : Prop :=
  0 < testIdCount o ≤ DIM_TEST_LIST ∧ testIdCount o ≤ Z.of_nat (length (testIdList o)).

(** The line printed before a test runs. *)
Definition announce (tid : Z) (e : entry) : M (world HW) unit :=
  printf ("%08X -- %s -- %s" +:+ newline)
    [VInt tid; VStr (Some (description e)); VStr (Some (name e))].

(** Everything of an entry but its counters and last result. *)
Definition same_test (e e' : entry) : Prop :=
  description e' = description e ∧ name e' = name e ∧ testFunction e' = testFunction e ∧
  testArgs e' = testArgs e ∧ testId e' = testId e ∧ request e' = request e.

(** [e'] is [e] after [n] runs, [f] of which did not pass. *)
Definition ran (n f : Z) (e e' : entry) : Prop :=
  same_test e e' ∧ 0 ≤ f ≤ n ∧
  wrap32 (runCount (status e')) = wrap32 (runCount (status e) + n) ∧
  wrap32 (totalFailCount (status e')) = wrap32 (totalFailCount (status e) + f) ∧
  wrap32 (newFailCount (status e')) = wrap32 (newFailCount (status e) + f).

(** How often a list of ids runs the test at index [i]. *)
Definition hits t (i : nat) (ids : list Z) : Z :=
  match t !! i with
  | Some e =>
      match testFunction e with
      | Some _ => Z.of_nat (length (filter (λ id, first_index id t = Some i) ids))
      | None => 0
      end
  | None => 0
  end.

(** * Lemmas *)

Lemma bind_assoc {A B C} (m : M core A) (f : A → M core B) (g : B → M core C) c :
  ((m ≫= f) ≫= g) c = (m ≫= λ a, f a ≫= g) c.
Proof. unfold mbind, M_bind. by destruct (m c). Qed.

Lemma bind_ext {A B} (m : M core A) (f g : A → M core B) c :
  (∀ a c', f a c' = g a c') → (m ≫= f) c = (m ≫= g) c.
Proof. intros H. unfold mbind, M_bind. by destruct (m c). Qed.

Lemma bind_cong {A B} (m m' : M core A) (f g : A → M core B) c :
  m c = m' c → (∀ a c', f a c' = g a c') → (m ≫= f) c = (m' ≫= g) c.
Proof. intros Hm H. unfold mbind, M_bind. rewrite Hm. by destruct (m' c). Qed.

Lemma lift_Ret {A} (m : M (world HW) A) a w c :
  m (wld c) = Ret a w → lift m c = Ret a (with_wld w c).
Proof. intros H. unfold lift. by rewrite H. Qed.

Lemma lift_emits (m : M (world HW) unit) c :
  emits m → ∃ s, lift m c = Ret tt (with_wld (emit s (wld c)) c).
Proof. intros H. destruct (H (wld c)) as [s Hs]. exists s. by apply lift_Ret. Qed.

Lemma lift_ReportResult tid r c :
  ∃ s, lift (ReportResult tid r) c =
         Ret tt (with_wld (emit s (with_log (clear_current (log (wld c))) (wld c))) c).
Proof.
  pose proof (wp_ReportResult tid r (λ _ w', ∃ s,
    w' = emit s (with_log (clear_current (log (wld c))) (wld c))) (wld c)) as H.
  apply wp_run in H as ([] & w' & Hm & s & ->); [|by intros s; exists s].
  exists s. by apply lift_Ret.
Qed.

Lemma first_index_lookup tid t i :
  first_index tid t = Some i → ∃ e, t !! i = Some e ∧ testId e = tid.
Proof.
  unfold first_index. intros H. apply fmap_Some in H as ([j e] & Hf & ->).
  apply list_find_Some in Hf as (He & Hid & _). by exists e.
Qed.

(** Updating an entry without changing its id keeps the lookup. *)
Lemma first_index_insert tid t i e e' :
  t !! i = Some e → testId e' = testId e → first_index tid (<[i := e']> t) = first_index tid t.
Proof.
  revert i. induction t as [|x t IH]; intros i Hi Hid; [done|].
  destruct i as [|i]; simpl in *; simplify_eq; rewrite !first_index_cons.
  - by rewrite Hid.
  - by rewrite IH.
Qed.

Lemma after_run_testId r e : testId (after_run r e) = testId (HW := HW) (Arg := Arg) e.
Proof. unfold after_run. by destruct (bool_decide _). Qed.

(** Running a test that exists: its function runs once, in the world where it
    was announced; its entry is updated; nothing else of the table is. *)
Lemma RunDeviceTest_found b c tid i e fn s0 r w1 :
  ready b c → first_index tid (table b c) = Some i → table b c !! i = Some e →
  testFunction e = Some fn →
  announce tid e (wld c) = Ret tt (emit s0 (wld c)) →
  fn tid (testArgs e) (emit s0 (wld c)) = Ret r w1 →
  ∃ s1, RunDeviceTest tid c =
    Ret r (with_table b (<[i := after_run r e]> (table b c))
             (with_wld (emit s1 (with_log (clear_current (log w1)) w1)) c)).
Proof.
  intros Hr Hi He Hfn Hs0 Hrun. unfold DiagCore.RunDeviceTest.
  erewrite M_bind_Ret by (by eapply LocateTest_ready). rewrite Hi. cbn [fmap option_fmap option_map].
  erewrite M_bind_Ret by (eapply entry_at_ready; [done|by rewrite Nat2Z.id]).
  rewrite Hfn. erewrite M_bind_Ret by (eapply entry_update_ready; [done|by rewrite Nat2Z.id]).
  rewrite Nat2Z.id. set (t1 := <[i := count_run e]> (table b c)).
  assert (length t1 = length (table b c)) as Hl1 by apply length_insert.
  erewrite M_bind_Ret; [|apply lift_Ret; rewrite wld_with_table; exact Hs0].
  erewrite M_bind_Ret; [|apply lift_Ret; cbn [with_wld wld]; exact Hrun].
  rewrite !with_wld_with_table. set (c1 := with_wld w1 _).
  assert (ready b (with_table b t1 c1)) as Hr1.
  { apply ready_with_table; [by repeat apply ready_with_wld|].
    unfold c1. by rewrite !table_with_wld. }
  assert (t1 !! i = Some (count_run e)) as He1.
  { apply list_lookup_insert_eq. by eapply lookup_lt_Some. }
  erewrite M_bind_Ret.
  2:{ eapply entry_update_ready; [done|]. by rewrite Nat2Z.id, table_with_table. }
  rewrite Nat2Z.id, table_with_table, with_table_twice.
  unfold t1 at 1. rewrite list_insert_insert_eq.
  set (t2 := <[i := set_result r (count_run e)]> (table b c)).
  assert ((if bool_decide (r = DIAG_TEST_RESULT_PASS) then mret tt
           else entry_update (Z.of_nat i) count_failure) (with_table b t2 c1)
    = Ret tt (with_table b (<[i := after_run r e]> (table b c)) c1)) as Hcount.
  { unfold after_run. destruct (bool_decide (r = DIAG_TEST_RESULT_PASS)); [done|].
    erewrite entry_update_ready.
    - rewrite Nat2Z.id, table_with_table, with_table_twice. unfold t2.
      by rewrite list_insert_insert_eq.
    - apply ready_with_table; [by repeat apply ready_with_wld|].
      unfold c1, t2. by rewrite length_insert, !table_with_wld.
    - rewrite Nat2Z.id, table_with_table. apply list_lookup_insert_eq. by eapply lookup_lt_Some. }
  erewrite M_bind_Ret by exact Hcount.
  destruct (lift_ReportResult tid r (with_table b (<[i:=after_run r e]> (table b c)) c1))
    as [s1 Hs1].
  exists s1. erewrite M_bind_Ret by exact Hs1.
  rewrite with_wld_with_table. unfold c1. by rewrite !wld_with_table.
Qed.

Lemma same_test_refl e : same_test e e.
Proof. done. Qed.

Lemma same_test_trans e1 e2 e3 : same_test e1 e2 → same_test e2 e3 → same_test e1 e3.
Proof. unfold same_test. intuition congruence. Qed.

Lemma ran_refl e : ran 0 0 e e.
Proof. split; [apply same_test_refl|]. rewrite !Z.add_0_r. lia. Qed.

Lemma ran_trans n f m g e1 e2 e3 :
  ran n f e1 e2 → ran m g e2 e3 → ran (n + m) (f + g) e1 e3.
Proof.
  intros (S1 & B1 & R1 & T1 & N1) (S2 & B2 & R2 & T2 & N2).
  split; [by eapply same_test_trans|]. split; [lia|].
  unfold wrap32 in *. rewrite R2, T2, N2, !Z.add_assoc.
  rewrite <- !(Zplus_mod_idemp_l (_ (status e2))), R1, T1, N1, !Zplus_mod_idemp_l. done.
Qed.

Lemma after_run_ran r e :
  ran 1 (if bool_decide (r = DIAG_TEST_RESULT_PASS) then 0 else 1) e (after_run r e).
Proof.
  unfold after_run. destruct (bool_decide _); (split; [done|]); split; [lia| |lia|];
    cbn; rewrite ?wrap32_idemp, ?Z.add_0_r; done.
Qed.

Lemma first_index_shape tid t t' :
  Forall2 same_test t t' → first_index tid t' = first_index tid t.
Proof.
  induction 1 as [|e e' t t' (_ & _ & _ & _ & Hid & _) _ IH]; [done|].
  by rewrite !first_index_cons, Hid, IH.
Qed.

Lemma hits_shape t t' i ids : Forall2 same_test t t' → hits t' i ids = hits t i ids.
Proof.
  intros H. unfold hits. destruct (t !! i) as [e|] eqn:He.
  - destruct (Forall2_lookup_l _ _ _ _ _ H He) as (e' & -> & _ & _ & Hfn & _).
    rewrite Hfn. destruct (testFunction e); [|done]. do 2 f_equal.
    apply list_filter_iff. intros id. by rewrite (first_index_shape id t t').
  - destruct (t' !! i) as [e'|] eqn:He'; [|done].
    destruct (Forall2_lookup_r _ _ _ _ _ H He') as (x & Hx & _). congruence.
Qed.

Lemma hits_app t i ids ids' : hits t i (ids ++ ids') = hits t i ids + hits t i ids'.
Proof.
  unfold hits. destruct (t !! i) as [e|]; [|done]. destruct (testFunction e); [|done].
  rewrite filter_app, length_app. lia.
Qed.

(** With no early exit, a list of ids runs to its end. *)
Lemma run_list_false_None ids c o c' : run_list false ids c = Ret o c' → o = None.
Proof.
  revert c. induction ids as [|id ids IH]; intros c; [by intros [= <- _]|].
  cbn [run_list]. unfold mbind, M_bind. destruct (RunDeviceTest id c); [|done..].
  rewrite andb_false_r. apply IH.
Qed.

Lemma run_list_app stop ids ids' c :
  run_list stop (ids ++ ids') c =
    (o ← run_list stop ids; match o with Some r => mret (Some r) | None => run_list stop ids' end) c.
Proof.
  revert c. induction ids as [|id ids IH]; intros c; [done|]. cbn [run_list app].
  rewrite bind_assoc. apply bind_ext. intros r c'. destruct (negb _ && stop); [done|apply IH].
Qed.

(** * The loops of [ExecuteAllTestListed] *)

Lemma execute_pass_list o c :
  valid_request o →
  execute_pass BOARD_DEFAULT o c =
    run_list (nonzero (exitOnErr o)) (take (Z.to_nat (testIdCount o)) (testIdList o)) c.
Proof.
  intros [Hc Hl]. unfold execute_pass, for_index. set (n := Z.to_nat (testIdCount o)).
  set (body := λ testIndex : Z, match testIdList o !! Z.to_nat testIndex return M core (option unit) with
    | None => crash OUT_OF_BOUNDS
    | Some testId =>
        result ← RunDeviceTest testId;
        if negb (bool_decide (result = DIAG_TEST_RESULT_PASS)) && nonzero (exitOnErr o)
        then mret (Some tt) else mret None end).
  assert (∀ k i fuel c, (k + i = n)%nat → (k < fuel)%nat →
    (r ← for_loop fuel (λ i, i <? testIdCount o) (λ i, wrap32 (i + 1))
      (λ i, o ← body i; match o with Some r => mret (Return r) | None => mret (Continue i) end)
      (Z.of_nat i); match r with inl _ => mret None | inr r => mret (Some r) end) c
    = run_list (nonzero (exitOnErr o)) (drop i (take n (testIdList o))) c) as Hloop.
  { induction k as [|k IH]; intros i [|fuel] c' Hi Hf; [lia| |lia|]; cbn [for_loop].
    - replace (Z.of_nat i <? _) with false by lia.
      rewrite drop_ge by (rewrite length_take; lia). done.
    - replace (Z.of_nat i <? _) with true by lia.
      destruct (lookup_lt_is_Some_2 (testIdList o) i) as [tid Htid]; [lia|].
      rewrite (drop_S _ tid i) by (rewrite lookup_take_lt by lia; done).
      assert (body (Z.of_nat i) = (result ← RunDeviceTest tid;
        if negb (bool_decide (result = DIAG_TEST_RESULT_PASS)) && nonzero (exitOnErr o)
        then mret (Some tt) else mret None)) as -> by (unfold body; by rewrite Nat2Z.id, Htid).
      cbn [run_list]. rewrite !bind_assoc.
      apply bind_ext. intros r c''. destruct (negb _ && _); [done|].
      rewrite <- (IH (S i) fuel c'') by lia.
      replace (Z.of_nat (S i)) with (wrap32 (Z.of_nat i + 1)); [reflexivity|].
      unfold DIM_TEST_LIST in Hc. rewrite wrap32_small; lia. }
  apply (Hloop n 0%nat); lia.
Qed.

(** The outer loop, with [k] passes left. *)
Lemma outer_loop o k i fuel c :
  valid_request o → loopCnt o < 2 ^ 32 - 1 → 0 ≤ i → i + Z.of_nat k = loopCnt o + 1 →
  (k < fuel)%nat →
  (_ ← for_loop fuel (λ n, n <=? loopCnt o) (λ n, wrap32 (n + 1))
         (λ n, early ← execute_pass BOARD_DEFAULT o;
               match early with Some r => mret (Return r) | None => mret (Continue n) end) i;
   mret tt) c =
  (_ ← run_list (nonzero (exitOnErr o))
         (concat (replicate k (take (Z.to_nat (testIdCount o)) (testIdList o)))); mret tt) c.
Proof.
  intros Hv Hmax. revert i fuel c.
  induction k as [|k IH]; intros i [|fuel] c Hi Hk Hf; [lia| |lia|]; cbn [for_loop].
  - by replace (i <=? loopCnt o) with false by lia.
  - replace (i <=? loopCnt o) with true by lia. cbn [replicate concat]. rewrite !bind_assoc.
    symmetry. etransitivity; [apply bind_cong; [apply run_list_app|done]|].
    rewrite bind_assoc. symmetry. apply bind_cong; [by apply execute_pass_list|].
    intros [r|] c'; [done|].
    etransitivity; [|apply (IH (i + 1) fuel c'); lia].
    erewrite M_bind_Ret by reflexivity. cbv beta iota. by rewrite wrap32_small by lia.
Qed.

Lemma execute_unfold fuel o c :
  valid_request o →
  ExecuteAllTestListed BOARD_DEFAULT fuel (Some o) c =
  (_ ← prepare o;
   _ ← for_loop fuel (λ n, n <=? loopCnt o) (λ n, wrap32 (n + 1))
         (λ n, early ← execute_pass BOARD_DEFAULT o;
               match early with Some r => mret (Return r) | None => mret (Continue n) end) 0;
   mret tt) c.
Proof.
  intros [Hc Hl]. unfold ExecuteAllTestListed, prepare. rewrite !bind_assoc.
  apply bind_ext. intros _ c1. rewrite !bind_assoc. apply bind_ext. intros _ c2.
  replace (testIdCount o =? 0) with false by lia.
  by replace (testIdCount o >? DIM_TEST_LIST) with false by lia.
Qed.

Lemma execute_schedule fuel o c :
  valid_request o → 0 ≤ loopCnt o < 2 ^ 32 - 1 → (Z.to_nat (loopCnt o + 1) < fuel)%nat →
  ExecuteAllTestListed BOARD_DEFAULT fuel (Some o) c =
  (_ ← prepare o; _ ← run_list (nonzero (exitOnErr o)) (schedule o); mret tt) c.
Proof.
  intros Hv Hl Hf. rewrite execute_unfold by done. apply bind_ext. intros _ c'.
  unfold schedule. rewrite outer_loop with (k := Z.to_nat (loopCnt o + 1)) by (done || lia). done.
Qed.

Lemma clear_new_shape t : Forall2 same_test t (clear_new <$> t).
Proof. apply Forall2_fmap_r, Forall_Forall2_diag, Forall_forall. done. Qed.

(** C2. [ExecuteAllTestListed] on a well-formed request is: set up the log and
    clear the new-failure counters, then run the listed tests in order,
    [loopCnt + 1] times over, returning at the first result that is not a
    pass when [exitOnErr] is set.  The run needs one pass of fuel more than
    it makes. *)
Theorem execute_refines fuel o c :
  valid_request o → 0 ≤ loopCnt o < 2 ^ 32 - 1 → (Z.to_nat (loopCnt o + 1) < fuel)%nat →
  ExecuteAllTestListed BOARD_DEFAULT fuel (Some o) c =
  (_ ← prepare o; _ ← run_list (nonzero (exitOnErr o)) (schedule o); mret tt) c.
Proof. apply execute_schedule. Qed.

(** A request that is missing, empty or too long runs no test and changes
    nothing but the console and the log settings. *)
Theorem execute_rejects fuel c options :
  (∀ o, options = Some o → testIdCount o = 0 ∨ DIM_TEST_LIST < testIdCount o) →
  ∃ w, ExecuteAllTestListed BOARD_DEFAULT fuel options c = Ret tt (with_wld w c) ∧
       hw w = hw (wld c).
Proof.
  intros Hbad. unfold ExecuteAllTestListed. erewrite M_bind_Ret by reflexivity.
  destruct options as [o|].
  - erewrite M_bind_Ret by reflexivity. specialize (Hbad o eq_refl).
    destruct (testIdCount o =? 0) eqn:H0.
    + edestruct (lift_emits (DEBUG_ASSERT this_file 173)) as [s ->]; [auto with diag|by eexists].
    + replace (testIdCount o >? DIM_TEST_LIST) with true by lia.
      edestruct (lift_emits (DEBUG_ASSERT this_file 178)) as [s ->]; [auto with diag|by eexists].
  - edestruct (lift_emits (DEBUG_ASSERT this_file 166)) as [s ->]; [auto with diag|by eexists].
Qed.

(** The first use of the table sets it up: the list of the configured board
    is selected, every entry gets the hash of its name as id, idle control
    and zero counters, and the executive is ready to run. *)
Theorem first_request_sets_up b c :
  BOARD_DEFAULT = match b with bcm2836_rpi2 => BCM2836_RPI2 | am335x_bbb => AM335X_BBB end →
  testList_g c = None → Z.of_nat (length (table b c)) < 2 ^ 32 →
  ∃ c', RequestTestList BOARD_DEFAULT c = Ret (Some b) c' ∧ ready b c' ∧
    wld c' = wld c ∧ testNameList_g c' = Some (board_name b) ∧
    ∀ i e, table b c !! i = Some e →
      ∃ e', table b c' !! i = Some e' ∧ name e' = name e ∧ testFunction e' = testFunction e ∧
        testArgs e' = testArgs e ∧ testId e' = CalculateTestIdHash (name e) ∧
        status e' = mkStatus 0 0 0 DIAG_TEST_RESULT_NOT_STARTED DIAG_TEST_RESULT_NOT_STARTED 0.
Proof.
  intros Hb Hnone Hlen. unfold RequestTestList, init_if_needed.
  set (c' := with_table b (init_entry <$> table b c) (caseSetTestList b c)).
  assert (table b (caseSetTestList b c) = table b c) as Ht by (by destruct b).
  assert (ready b (caseSetTestList b c)) as Hr by (unfold ready; by rewrite Ht).
  exists c'. split_and!.
  - erewrite M_bind_Ret; [|erewrite M_bind_Ret by reflexivity; rewrite Hnone, Hb;
      by apply ProcessTestList_ready]. fold c'. unfold gets, c'. by destruct b.
  - apply ready_with_table; [done|]. by rewrite length_fmap, Ht.
  - by destruct b.
  - by destruct b.
  - intros i e He. exists (init_entry e). unfold c'.
    rewrite table_with_table, list_lookup_fmap, He. done.
Qed.

(** A board number the framework has no list for leaves the list unset:
    the executive reports zero tests, and running any id is aborted. *)
Theorem unknown_board_has_no_tests c tid :
  BOARD_DEFAULT ≠ BCM2836_RPI2 → BOARD_DEFAULT ≠ AM335X_BBB →
  testList_g c = None →
  ∃ c', RunDeviceTest tid c = Ret DIAG_TEST_RESULT_ABORTED c' ∧
        testList_g c' = None ∧ list_rpi2 c' = list_rpi2 c ∧ list_bbb c' = list_bbb c ∧
        hw (wld c') = hw (wld c).
Proof.
  intros Hr Hb Hnone.
  assert (∃ s, RequestTestListDim BOARD_DEFAULT c =
            Ret 0 (with_wld (emit s (wld c)) (with_list None 0 (testNameList_g c) c)))
    as [s Hdim].
  { unfold RequestTestListDim, init_if_needed, ProcessTestList.
    set (c1 := with_list None 0 (testNameList_g c) c).
    edestruct (lift_emits (printf ("Test list %d not found" +:+ newline) [VInt BOARD_DEFAULT]) c1)
      as [s Hs]; [by apply emits_printf|]. exists s.
    erewrite M_bind_Ret; [|erewrite M_bind_Ret by reflexivity; rewrite Hnone;
      erewrite M_bind_Ret by reflexivity;
      rewrite (proj2 (Z.eqb_neq _ _) Hr), (proj2 (Z.eqb_neq _ _) Hb);
      erewrite M_bind_Ret by reflexivity; exact Hs]. done. }
  unfold DiagCore.RunDeviceTest, LocateTest.
  erewrite M_bind_Ret by (erewrite M_bind_Ret by exact Hdim; reflexivity). cbv iota.
  match type of Hdim with _ = Ret 0 ?c1 => 
    destruct (lift_emits (ReportErrEvent tid DIAG_TEST_NOT_FOUND_ERR_EVENT) c1) as [s1 Hs1];
    [auto with diag|] end.
  erewrite M_bind_Ret by exact Hs1.
  match type of Hs1 with _ = Ret tt ?c1 => 
    destruct (lift_ReportResult tid DIAG_TEST_RESULT_ABORTED c1) as [s2 Hs2] end.
  erewrite M_bind_Ret by exact Hs2. eexists. by split_and!.
Qed.

(** * Running the tests *)

(** What is known of the tests: an invariant [I] of the machine that they
    keep, and the results [R nm] that the test called [nm] may give. *)
Context (I : world HW → Prop) (R : string → TestResultTypes_e → Prop) `{!Quiet I}.

(** Every test of the table, run with its own argument on a machine that
    satisfies [I], returns one of its results and keeps [I]. *)
Definition total_tests t : Prop :=
  Forall (λ e, ∀ fn, testFunction e = Some fn → ∀ tid w, I w →
    ∃ r w', fn tid (testArgs e) w = Ret r w' ∧ I w' ∧ R (name e) r) t.

(** The executive, set up for board [b], on a machine that can run its tests. *)
Definition able b c : Prop := ready b c ∧ I (wld c) ∧ total_tests (table b c).

(** What one run of [tid] with result [r] does to the table. *)
Definition table_step (tid : Z) (r : TestResultTypes_e) t t' : Prop :=
  match first_index tid t with
  | None => r = DIAG_TEST_RESULT_ABORTED ∧ t' = t
  | Some i =>
      ∃ e, t !! i = Some e ∧
        match testFunction e with
        | None => r = DIAG_TEST_RESULT_ABORTED ∧ t' = t
        | Some _ => R (name e) r ∧ t' = <[i := after_run r e]> t
        end
  end.

(** The same, where the number of failures also agrees with the results the
    test may give. *)
Definition counted (n f : Z) (e e' : entry) : Prop :=
  ran n f e e' ∧ ((∀ r, R (name e) r → r = DIAG_TEST_RESULT_PASS) → f = 0) ∧
  (¬ R (name e) DIAG_TEST_RESULT_PASS → f = n).

Lemma RunDeviceTest_step b c tid :
  able b c →
  ∃ r c', RunDeviceTest tid c = Ret r c' ∧ ready b c' ∧ I (wld c') ∧
          table_step tid r (table b c) (table b c').
Proof.
  intros (Hr & HI & Ht). unfold table_step.
  destruct (first_index tid (table b c)) as [i|] eqn:Hi.
  - destruct (first_index_lookup tid (table b c) i Hi) as (e & He & _).
    destruct (testFunction e) as [fn|] eqn:Hfn.
    + destruct (emits_printf (HW := HW) ("%08X -- %s -- %s" +:+ newline)
        [VInt tid; VStr (Some (description e)); VStr (Some (name e))] eq_refl (wld c))
        as [s0 Hs0].
      assert (∃ r w', fn tid (testArgs e) (emit s0 (wld c)) = Ret r w' ∧ I w' ∧ R (name e) r)
        as (r & w' & Hrun & HI' & HR).
      { unfold total_tests in Ht. rewrite Forall_forall in Ht.
        eapply Ht; [|done|by apply quiet_emit]. by eapply list_elem_of_lookup_2. }
      destruct (RunDeviceTest_found b c tid i e fn s0 r w') as [s1 Hs1]; [done..|].
      eexists r, _. split; [exact Hs1|]. rewrite table_with_table, wld_with_table.
      split_and!; [|by apply quiet_emit, quiet_log|exists e; by rewrite Hfn].
      apply ready_with_table; [by apply ready_with_wld|].
      by rewrite length_insert, table_with_wld.
    + unfold DiagCore.RunDeviceTest.
      erewrite M_bind_Ret by (by eapply LocateTest_ready). rewrite Hi.
      cbn [fmap option_fmap option_map].
      erewrite M_bind_Ret by (eapply entry_at_ready; [done|by rewrite Nat2Z.id]).
      rewrite Hfn. destruct (lift_emits (DEBUG_ASSERT this_file 265) c) as [s0 Hs0].
      { apply emits_DEBUG_ASSERT. }
      erewrite M_bind_Ret by exact Hs0.
      destruct (lift_ReportResult tid DIAG_TEST_RESULT_ABORTED
        (with_wld (emit s0 (wld c)) c)) as [s1 Hs1].
      erewrite M_bind_Ret by exact Hs1. eexists _, _. split; [reflexivity|].
      split; [by repeat apply ready_with_wld|]. rewrite !table_with_wld.
      split; [by apply quiet_emit, quiet_log, quiet_emit|]. exists e. by rewrite Hfn.
  - unfold DiagCore.RunDeviceTest.
    erewrite M_bind_Ret by (by eapply LocateTest_ready). rewrite Hi.
    cbn [fmap option_fmap option_map].
    destruct (lift_emits (ReportErrEvent tid DIAG_TEST_NOT_FOUND_ERR_EVENT) c) as [s0 Hs0].
    { apply emits_ReportErrEvent. }
    erewrite M_bind_Ret by exact Hs0.
    destruct (lift_ReportResult tid DIAG_TEST_RESULT_ABORTED
      (with_wld (emit s0 (wld c)) c)) as [s1 Hs1].
    erewrite M_bind_Ret by exact Hs1. eexists _, _. split; [reflexivity|].
    split; [by repeat apply ready_with_wld|]. rewrite !table_with_wld.
    split; [by apply quiet_emit, quiet_log, quiet_emit|done].
Qed.

Lemma counted_refl e : counted 0 0 e e.
Proof. split; [apply ran_refl|done]. Qed.

Lemma counted_trans n f m g e1 e2 e3 :
  counted n f e1 e2 → counted m g e2 e3 → counted (n + m) (f + g) e1 e3.
Proof.
  intros (R1 & P1 & N1) (R2 & P2 & N2). split; [by eapply ran_trans|].
  assert (name e2 = name e1) as Hnm by apply R1. rewrite Hnm in *.
  split; intros H; [rewrite P1, P2|rewrite N1, N2]; done.
Qed.

(** One run counts for the entry it found, and for no other. *)
Lemma table_step_ran tid r t t' i e :
  table_step tid r t t' → t !! i = Some e →
  ∃ e', t' !! i = Some e' ∧
    counted (hits t i [tid])
      (if bool_decide (r = DIAG_TEST_RESULT_PASS) then 0 else hits t i [tid]) e e'.
Proof.
  unfold table_step, hits. intros Hs He. rewrite He.
  destruct (first_index tid t) as [j|] eqn:Hj.
  - destruct Hs as (x & Hx & Hs). destruct (decide (i = j)) as [->|Hne].
    + simplify_eq. destruct (testFunction x) as [fn|].
      * destruct Hs as [HR ->]. eexists.
        split; [by apply list_lookup_insert_eq, lookup_lt_is_Some_1; eexists|].
        rewrite (filter_cons_True _ tid []) by done. split; [apply after_run_ran|].
        case_bool_decide as Hp; (split; intros H; [|]); try done; [by subst|].
        by specialize (H r HR).
      * destruct Hs as [-> ->]. eexists. split; [done|]. apply counted_refl.
    + assert (t' !! i = Some e) as He'.
      { destruct (testFunction x); [|by destruct Hs as [_ ->]].
        destruct Hs as [_ ->]. by rewrite list_lookup_insert_ne. }
      eexists. split; [done|].
      rewrite (filter_cons_False _ tid []) by congruence.
      destruct (testFunction e), (bool_decide _); apply counted_refl.
  - destruct Hs as [-> ->]. eexists. split; [done|].
    rewrite (filter_cons_False _ tid []) by congruence.
    destruct (testFunction e); apply counted_refl.
Qed.

Lemma table_step_shape tid r t t' : table_step tid r t t' → Forall2 same_test t t'.
Proof.
  assert (Forall2 same_test t t) as Hrefl by (apply Forall_Forall2_diag, Forall_forall; done).
  unfold table_step. destruct (first_index tid t) as [j|]; [|by intros [_ ->]].
  intros (x & Hx & Hs). destruct (testFunction x); [|by destruct Hs as [_ ->]].
  destruct Hs as [_ ->]. rewrite <- (list_insert_id t j x Hx) at 1. apply Forall2_insert; [done|].
  apply after_run_ran.
Qed.

Lemma total_tests_shape t t' : Forall2 same_test t t' → total_tests t → total_tests t'.
Proof.
  intros H Ht. induction H as [|e e' t t' (_ & Hnm & Hfn & Harg & _) _ IH]; [done|].
  inversion Ht; subst. constructor; [by rewrite Hfn, Harg, Hnm|by apply IH].
Qed.

Lemma able_shape b c c' :
  able b c → ready b c' → I (wld c') → Forall2 same_test (table b c) (table b c') → able b c'.
Proof. intros (_ & _ & Ht) Hr HI Hsh. split_and!; [done|done|by eapply total_tests_shape]. Qed.

Lemma RunDeviceTest_able b c tid :
  able b c →
  ∃ r c', RunDeviceTest tid c = Ret r c' ∧ able b c' ∧ table_step tid r (table b c) (table b c').
Proof.
  intros Ha. destruct (RunDeviceTest_step b c tid Ha) as (r & c' & H & Hr & HI & Hs).
  exists r, c'. split_and!; [done| |done]. by eapply able_shape, table_step_shape.
Qed.

(** Running a list of ids returns, keeps the table in shape and, when it is
    not cut short, runs every test as often as the list names it. *)
Lemma run_list_ran b stop ids c :
  able b c →
  ∃ o c', run_list stop ids c = Ret o c' ∧ able b c' ∧
    Forall2 same_test (table b c) (table b c') ∧
    (o = None → ∀ i e, table b c !! i = Some e →
       ∃ e' f, table b c' !! i = Some e' ∧ counted (hits (table b c) i ids) f e e').
Proof.
  revert c. induction ids as [|tid ids IH]; intros c Ha.
  - exists None, c. split_and!; [done|done|by apply Forall_Forall2_diag, Forall_forall|].
    intros _ i e He. exists e, 0. split; [done|]. unfold hits. rewrite He.
    destruct (testFunction e); apply counted_refl.
  - cbn [run_list]. destruct (RunDeviceTest_able b c tid Ha) as (r & c1 & H1 & Ha1 & Hs1).
    pose proof (table_step_shape _ _ _ _ Hs1) as Hsh.
    erewrite M_bind_Ret by exact H1. destruct (negb _ && stop).
    + exists (Some tt), c1. by split_and!.
    + destruct (IH c1 Ha1) as (o & c2 & H2 & Ha2 & Hsh2 & Hran).
      exists o, c2. split_and!; [done|done|..].
      { eapply Forall2_trans; [|done|done]. intros ???. apply same_test_trans. }
      intros Ho i e He. destruct (table_step_ran _ _ _ _ i e Hs1 He) as (e1 & He1 & R1).
      destruct (Hran Ho i e1 He1) as (e2 & f2 & He2 & R2).
      eexists e2, _. split; [done|]. rewrite (hits_shape _ _ _ _ Hsh) in R2.
      change (tid :: ids) with ([tid] ++ ids). rewrite hits_app. by eapply counted_trans.
Qed.

(** With an early exit, the tests run are a prefix of the list; all of them
    passed, but the last one when the prefix is proper. *)
Lemma run_list_stops b ids c :
  able b c →
  ∃ o c' pre bad post, run_list true ids c = Ret o c' ∧ able b c' ∧
    ids = pre ++ bad ++ post ∧
    (if o then length bad = 1%nat else bad = [] ∧ post = []) ∧
    ∀ i e, table b c !! i = Some e → ∃ e', table b c' !! i = Some e' ∧
      counted (hits (table b c) i (pre ++ bad)) (hits (table b c) i bad) e e'.
Proof.
  revert c. induction ids as [|tid ids IH]; intros c Ha.
  - exists None, c, [], [], []. split_and!; try done. intros i e He. exists e. split; [done|].
    unfold hits. simpl. rewrite He. destruct (testFunction e); apply counted_refl.
  - cbn [run_list]. destruct (RunDeviceTest_able b c tid Ha) as (r & c1 & H1 & Ha1 & Hs1).
    pose proof (table_step_shape _ _ _ _ Hs1) as Hsh.
    erewrite M_bind_Ret by exact H1. rewrite andb_true_r.
    destruct (bool_decide (r = DIAG_TEST_RESULT_PASS)) eqn:Hpass.
    + destruct (IH c1 Ha1) as (o & c2 & pre & bad & post & H2 & Ha2 & -> & Ho & Hran).
      exists o, c2, (tid :: pre), bad, post. split_and!; try done. intros i e He.
      destruct (table_step_ran _ _ _ _ i e Hs1 He) as (e1 & He1 & R1). rewrite Hpass in R1.
      destruct (Hran i e1 He1) as (e2 & He2 & R2). exists e2. split; [done|].
      rewrite !(hits_shape _ _ _ _ Hsh) in R2. change (tid :: pre) with ([tid] ++ pre).
      rewrite <- app_assoc, (hits_app _ _ [tid]). by eapply counted_trans in R2; [|exact R1].
    + exists (Some tt), c1, [], [tid], ids. split_and!; try done. intros i e He.
      destruct (table_step_ran _ _ _ _ i e Hs1 He) as (e1 & He1 & R1). rewrite Hpass in R1.
      by exists e1.
Qed.

Lemma prepare_able b o c :
  able b c →
  ∃ c', prepare o c = Ret tt c' ∧ able b c' ∧ table b c' = clear_new <$> table b c.
Proof.
  intros Ha. pose proof Ha as (Hr & HI & _). unfold prepare. erewrite M_bind_Ret by reflexivity.
  erewrite M_bind_Ret by reflexivity. eexists. split.
  - apply ClearFailureCounts_ready. by repeat apply ready_with_wld.
  - rewrite table_with_table, !table_with_wld. split; [|done]. eapply able_shape; [exact Ha|..].
    + apply ready_with_table; [by repeat apply ready_with_wld|].
      by rewrite length_fmap, !table_with_wld.
    + rewrite wld_with_table. by apply quiet_log, quiet_log.
    + rewrite table_with_table. apply clear_new_shape.
Qed.

(** One full round of the endless loop keeps the table in shape. *)
Lemma outer_loop_endless b o fuel i c :
  valid_request o → loopCnt o = 2 ^ 32 - 1 → exitOnErr o = 0 → 0 ≤ i < 2 ^ 32 →
  able b c →
  for_loop (R := unit) fuel (λ n, n <=? loopCnt o) (λ n, wrap32 (n + 1))
    (λ n, early ← execute_pass BOARD_DEFAULT o;
          match early with Some r => mret (Return r) | None => mret (Continue n) end) i c
  = NoFuel.
Proof.
  intros Hv Hmax Hexit. revert i c.
  induction fuel as [|fuel IH]; intros i c Hi Ha; [done|]. cbn [for_loop].
  replace (i <=? loopCnt o) with true by lia.
  destruct (run_list_ran b false (take (Z.to_nat (testIdCount o)) (testIdList o)) c Ha)
    as (r & c' & Hrun & Ha' & Hsh & _).
  pose proof (run_list_false_None _ _ _ _ Hrun) as ->.
  assert (execute_pass BOARD_DEFAULT o c = Ret None c') as Hpass.
  { rewrite execute_pass_list by done. by rewrite Hexit. }
  erewrite M_bind_Ret by (erewrite M_bind_Ret by exact Hpass; reflexivity). cbv beta iota.
  by apply IH; [apply wrap32_range|].
Qed.

Lemma execute_ran b fuel o c :
  able b c → valid_request o → exitOnErr o = 0 →
  0 ≤ loopCnt o < 2 ^ 32 - 1 → (Z.to_nat (loopCnt o + 1) < fuel)%nat →
  ∃ c', ExecuteAllTestListed BOARD_DEFAULT fuel (Some o) c = Ret tt c' ∧ able b c' ∧
    ∀ i e, table b c !! i = Some e →
      ∃ e' f, table b c' !! i = Some e' ∧
        counted (hits (table b c) i (schedule o)) f (clear_new e) e'.
Proof.
  intros Ha Hv Hexit Hl Hf. rewrite execute_schedule by done.
  destruct (prepare_able b o c Ha) as (c1 & H1 & Ha1 & Ht1).
  pose proof (clear_new_shape (table b c)) as Hsh. rewrite <- Ht1 in Hsh.
  destruct (run_list_ran b false (schedule o) c1 Ha1) as (r & c2 & H2 & Ha2 & _ & Hran).
  pose proof (run_list_false_None _ _ _ _ H2) as ->.
  exists c2. split_and!; [|done|].
  - erewrite M_bind_Ret by exact H1. rewrite Hexit. by erewrite M_bind_Ret by exact H2.
  - intros i e He. rewrite <- (hits_shape _ _ _ _ Hsh). apply Hran; [done|].
    by rewrite Ht1, list_lookup_fmap, He.
Qed.

(** C5. Without [exitOnErr], [ExecuteAllTestListed] returns, and every entry of
    the table has been run exactly as often as the [loopCnt + 1] passes name
    its id (ids that are shadowed by an earlier entry run that one); the run
    counter grew by that number, both failure counters by the same number of
    failures, the new-failure counter from zero, and nothing else of the
    entry changed.  A test that can only pass has no failures, one that
    cannot pass fails on every run.  What is asked of the tests is that each,
    run with its own argument on a machine satisfying the invariant [I],
    returns and keeps [I]. *)
Theorem execute_counts b fuel o c :
  able b c → valid_request o → exitOnErr o = 0 →
  0 ≤ loopCnt o < 2 ^ 32 - 1 → (Z.to_nat (loopCnt o + 1) < fuel)%nat →
  ∃ c', ExecuteAllTestListed BOARD_DEFAULT fuel (Some o) c = Ret tt c' ∧ able b c' ∧
    ∀ i e, table b c !! i = Some e →
      ∃ e' f, table b c' !! i = Some e' ∧
        counted (hits (table b c) i (schedule o)) f (clear_new e) e'.
Proof. apply execute_ran. Qed.

(** C6. With [exitOnErr], [ExecuteAllTestListed] runs a prefix of the
    [loopCnt + 1] passes: either all of them, every test passing, or up to and
    including the first test that does not pass, which is the only one whose
    failure counters grow. *)
Theorem execute_stops_at_failure b fuel o c :
  able b c → valid_request o → exitOnErr o ≠ 0 →
  0 ≤ loopCnt o < 2 ^ 32 - 1 → (Z.to_nat (loopCnt o + 1) < fuel)%nat →
  ∃ c' pre bad post, ExecuteAllTestListed BOARD_DEFAULT fuel (Some o) c = Ret tt c' ∧
    able b c' ∧ schedule o = pre ++ bad ++ post ∧
    (length bad = 1%nat ∨ bad = [] ∧ post = []) ∧
    ∀ i e, table b c !! i = Some e → ∃ e', table b c' !! i = Some e' ∧
      counted (hits (table b c) i (pre ++ bad)) (hits (table b c) i bad) (clear_new e) e'.
Proof.
  intros Ha Hv Hexit Hl Hf. rewrite execute_schedule by done.
  destruct (prepare_able b o c Ha) as (c1 & H1 & Ha1 & Ht1).
  pose proof (clear_new_shape (table b c)) as Hsh. rewrite <- Ht1 in Hsh.
  destruct (run_list_stops b (schedule o) c1 Ha1)
    as (r & c2 & pre & bad & post & H2 & Ha2 & Hs & Hbad & Hran).
  exists c2, pre, bad, post. split_and!; [|done|done|destruct r; auto|].
  - erewrite M_bind_Ret by exact H1. rewrite (proj2 (nonzero_true _) Hexit).
    by erewrite M_bind_Ret by exact H2.
  - intros i e He. rewrite <- !(hits_shape _ _ _ _ Hsh). apply Hran.
    by rewrite Ht1, list_lookup_fmap, He.
Qed.

(** C32. With the largest loop count and no [exitOnErr] the loop condition never
    becomes false, because the 32-bit counter wraps to zero:
    [ExecuteAllTestListed] exhausts every amount of fuel. *)
Theorem execute_endless b fuel o c :
  able b c → valid_request o →
  loopCnt o = 2 ^ 32 - 1 → exitOnErr o = 0 →
  ExecuteAllTestListed BOARD_DEFAULT fuel (Some o) c = NoFuel.
Proof.
  intros Ha Hv Hl Hexit. rewrite execute_unfold by done.
  destruct (prepare_able b o c Ha) as (c1 & H1 & Ha1 & Ht1).
  erewrite M_bind_Ret by exact H1. unfold mbind, M_bind at 1.
  by erewrite outer_loop_endless.
Qed.

(** [RunDeviceTest] of a table whose tests return: it returns; the first
    entry with the id is the one that is run and counted, with the result
    returned; an unknown id or an entry without a function gives
    [DIAG_TEST_RESULT_ABORTED] and leaves the table as it was. *)
Theorem run_device_test_step b c tid :
  able b c →
  ∃ r c', RunDeviceTest tid c = Ret r c' ∧ able b c' ∧
          table_step tid r (table b c) (table b c').
Proof. apply RunDeviceTest_able. Qed.
End facts.

(** * Witnesses *)

(** A table with a passing test, a failing one, and one without a function. *)
Module DiagCoreDemo.
Definition verdict (r : TestResultTypes_e) : @TestFunction unit unit := λ _ _, mret r.
Definition entry (nm : string) (fn : option (@TestFunction unit unit)) (id : Z) :=
  mkEntry "demo" nm fn None id (mkRequest DIAG_CONTROLRUN_IDLE DIAG_CONTROLRUN_IDLE)
    (mkStatus 0 0 0 DIAG_TEST_RESULT_NOT_STARTED DIAG_TEST_RESULT_NOT_STARTED 0).
Definition tests :=
  [entry "good" (Some (verdict DIAG_TEST_RESULT_PASS)) 7;
   entry "bad" (Some (verdict DIAG_TEST_RESULT_FAIL)) 9;
   entry "gone" None 11].
Definition c0 : core := mkCore (boot_world tt) [] tests (Some am335x_bbb) 3 (Some "am335x_bbb") 0 0.
Definition fresh : core := mkCore (boot_world tt) [] tests None 0 None 0 0.
Definition req (loops exit : Z) : testList_s := mkTestList 3 [7; 9; 7] loops exit LOG_MASK_ALL.

Lemma c0_ready : ready am335x_bbb c0.
Proof. done. Qed.

(** Any machine will do; the results are known. *)
Definition any (_ : world unit) : Prop := True.
Definition known (nm : string) (r : TestResultTypes_e) : Prop :=
  (nm = "good" → r = DIAG_TEST_RESULT_PASS) ∧ (nm = "bad" → r = DIAG_TEST_RESULT_FAIL).

#[global] Instance any_quiet : Quiet any.
Proof. by split. Qed.

Lemma c0_able : able any known am335x_bbb c0.
Proof.
  split_and!; [done|done|].
  repeat (constructor; [by intros fn [= <-]; eexists _, _; split_and!|]). constructor.
Qed.

Lemma req_valid loops exit : valid_request (req loops exit).
Proof. unfold valid_request, DIM_TEST_LIST. simpl. lia. Qed.
End DiagCoreDemo.

Lemma execute_refines_witness :
  ExecuteAllTestListed AM335X_BBB 4 (Some (DiagCoreDemo.req 1 0)) DiagCoreDemo.c0 =
  (_ ← prepare AM335X_BBB (DiagCoreDemo.req 1 0);
   _ ← run_list AM335X_BBB false [7; 9; 7; 7; 9; 7]; mret tt) DiagCoreDemo.c0.
Proof.
  apply (execute_refines AM335X_BBB 4 (DiagCoreDemo.req 1 0)); simpl; [|lia..].
  apply DiagCoreDemo.req_valid.
Defined.

Lemma execute_counts_witness :
  ∃ c', ExecuteAllTestListed AM335X_BBB 4 (Some (DiagCoreDemo.req 1 0)) DiagCoreDemo.c0 = Ret tt c' ∧
    able DiagCoreDemo.any DiagCoreDemo.known am335x_bbb c' ∧
    ∀ i e, table am335x_bbb DiagCoreDemo.c0 !! i = Some e →
      ∃ e' f, table am335x_bbb c' !! i = Some e' ∧
        counted DiagCoreDemo.known (hits (table am335x_bbb DiagCoreDemo.c0) i [7; 9; 7; 7; 9; 7]) f (clear_new e) e'.
Proof.
  apply (execute_counts AM335X_BBB DiagCoreDemo.any DiagCoreDemo.known am335x_bbb 4 (DiagCoreDemo.req 1 0) DiagCoreDemo.c0);
    simpl; [apply DiagCoreDemo.c0_able|apply DiagCoreDemo.req_valid|lia..].
Defined.

Lemma execute_stops_at_failure_witness :
  ∃ c' pre bad post,
    ExecuteAllTestListed AM335X_BBB 4 (Some (DiagCoreDemo.req 1 1)) DiagCoreDemo.c0 = Ret tt c' ∧
    able DiagCoreDemo.any DiagCoreDemo.known am335x_bbb c' ∧ [7; 9; 7; 7; 9; 7] = pre ++ bad ++ post ∧
    (length bad = 1%nat ∨ bad = [] ∧ post = []) ∧
    ∀ i e, table am335x_bbb DiagCoreDemo.c0 !! i = Some e →
      ∃ e', table am335x_bbb c' !! i = Some e' ∧
        counted DiagCoreDemo.known (hits (table am335x_bbb DiagCoreDemo.c0) i (pre ++ bad))
          (hits (table am335x_bbb DiagCoreDemo.c0) i bad) (clear_new e) e'.
Proof.
  apply (execute_stops_at_failure AM335X_BBB DiagCoreDemo.any DiagCoreDemo.known am335x_bbb 4 (DiagCoreDemo.req 1 1) DiagCoreDemo.c0);
    simpl; [apply DiagCoreDemo.c0_able|apply DiagCoreDemo.req_valid|lia..].
Defined.

Lemma execute_endless_witness :
  ExecuteAllTestListed AM335X_BBB 1000 (Some (DiagCoreDemo.req 0xFFFFFFFF 0)) DiagCoreDemo.c0
    = NoFuel.
Proof.
  apply (execute_endless AM335X_BBB DiagCoreDemo.any DiagCoreDemo.known am335x_bbb 1000 (DiagCoreDemo.req 0xFFFFFFFF 0));
    [apply DiagCoreDemo.c0_able|apply DiagCoreDemo.req_valid|done..].
Defined.

Lemma execute_rejects_witness :
  ∃ w, ExecuteAllTestListed AM335X_BBB 9 (Some zero_testList) DiagCoreDemo.c0 =
         Ret tt (with_wld w DiagCoreDemo.c0) ∧ hw w = tt.
Proof.
  apply (execute_rejects AM335X_BBB 9 DiagCoreDemo.c0 (Some zero_testList)).
  intros o [= <-]. by left.
Defined.

Lemma run_device_test_step_witness :
  ∃ r c', RunDeviceTest AM335X_BBB 9 DiagCoreDemo.c0 = Ret r c' ∧
    able DiagCoreDemo.any DiagCoreDemo.known am335x_bbb c' ∧
    table_step DiagCoreDemo.known 9 r DiagCoreDemo.tests (table am335x_bbb c').
Proof.
  apply (run_device_test_step AM335X_BBB DiagCoreDemo.any DiagCoreDemo.known am335x_bbb DiagCoreDemo.c0 9).
  apply DiagCoreDemo.c0_able.
Defined.

Lemma first_request_sets_up_witness :
  ∃ c', RequestTestList AM335X_BBB DiagCoreDemo.fresh = Ret (Some am335x_bbb) c' ∧
        ready am335x_bbb c'.
Proof.
  destruct (first_request_sets_up AM335X_BBB am335x_bbb DiagCoreDemo.fresh) as (c' & H & Hr & _);
    [done|done|simpl; lia|by exists c'].
Defined.

Lemma unknown_board_has_no_tests_witness :
  ∃ c', RunDeviceTest 5 7 DiagCoreDemo.fresh = Ret DIAG_TEST_RESULT_ABORTED c' ∧
        testList_g c' = None.
Proof.
  destruct (unknown_board_has_no_tests 5 DiagCoreDemo.fresh 7) as (c' & H & Hn & _);
    [done|done|done|by exists c'].
Defined.
