(* ===== verification/DiagReports.v ===== *)
(** The read-only operations of the test executive: what the reports and
    [GetAvailableListOfTest] return, and that they change nothing but the
    console. *)

From S2P Require Import Prelude CLib Vsprintf VsprintfFacts Machine Events TestId DiagCore.
From S2P Require Import DiagCoreFacts.

Section reports.
Context {HW Arg : Type} (BOARD_DEFAULT : Z) (b : board).
Notation core := (@core HW Arg).
Notation entry := (@testParamEntry_s HW Arg).
Implicit Types t : list entry.

(** On a core that is ready with table [t], the computation returns a value
    that satisfies [P] and only writes to the console. *)
Definition prints t {A} (m : M core A) (P : A → Prop) : Prop :=
  ∀ c, ready b c → table b c = t →
  ∃ a s, m c = Ret a (with_wld (emit s (wld c)) c) ∧ P a.

Lemma prints_pure t {A} (m : M core A) (P : A → Prop) a :
  (∀ c, ready b c → table b c = t → m c = Ret a c) → P a → prints t m P.
Proof.
  intros Hm HP c Hr Ht. exists a, "". split; [|done].
  rewrite emit_nil, with_wld_id. by apply Hm.
Qed.

Lemma prints_ret t {A} (a : A) (P : A → Prop) : P a → prints t (mret a) P.
Proof. intros HP. by eapply prints_pure. Qed.

Lemma prints_seq t {A B} (m : M core A) (f : A → M core B) P Q :
  prints t m P → (∀ a, P a → prints t (f a) Q) → prints t (m ≫= f) Q.
Proof.
  intros Hm Hf c Hr Ht. destruct (Hm c Hr Ht) as (a & s & H1 & HP).
  destruct (Hf a HP (with_wld (emit s (wld c)) c)) as (r & s' & H2 & HQ).
  { by apply ready_with_wld. }
  { by rewrite table_with_wld. }
  exists r, (s +:+ s'). split; [|done]. erewrite M_bind_Ret by exact H1. rewrite H2.
  by rewrite <- emit_emit.
Qed.

Lemma prints_lift t m (P : unit → Prop) : emits m → P tt → prints t (lift m) P.
Proof.
  intros Hm HP c _ _. destruct (lift_emits m c Hm) as [s Hs]. by exists tt, s.
Qed.

Lemma prints_if t {A} (x : bool) (m m' : M core A) P :
  prints t m P → prints t m' P → prints t (if x then m else m') P.
Proof. by destruct x. Qed.

Lemma prints_entry_at t i e P :
  t !! Z.to_nat i = Some e → P e → prints t (entry_at i) P.
Proof.
  intros He HP. eapply prints_pure; [|done]. intros c Hr <-. by eapply entry_at_ready.
Qed.

Lemma prints_LocateTest t tid :
  prints t (LocateTest BOARD_DEFAULT tid) (λ r, r = Z.of_nat <$> first_index tid t).
Proof.
  eapply prints_pure; [|done]. intros c Hr <-. by apply LocateTest_ready.
Qed.

Lemma prints_RequestTestList t :
  prints t (RequestTestList BOARD_DEFAULT) (λ r, r = Some b).
Proof. eapply prints_pure; [|done]. intros c Hr _. by apply RequestTestList_ready. Qed.

Lemma prints_RequestTestListDim t :
  prints t (RequestTestListDim BOARD_DEFAULT) (λ r, r = Z.of_nat (length t)).
Proof. eapply prints_pure; [|done]. intros c Hr <-. by apply RequestTestListDim_ready. Qed.

(** Loops whose variant decreases. *)
Lemma prints_for_loop t {X R} (I : X → Prop) (v : X → nat) fuel cond next
    (body : X → M core (ctl X R)) x (Q : X + R → Prop) :
  (v x < fuel)%nat → I x →
  (∀ x, I x → cond x = true → prints t (body x) (λ k, match k with
     | Continue x' => I (next x') ∧ (v (next x') < v x)%nat
     | Break x' => Q (inl x')
     | Return r => Q (inr r)
     end)) →
  (∀ x, I x → cond x = false → Q (inl x)) →
  prints t (for_loop fuel cond next body x) Q.
Proof.
  intros Hf HI Hbody Hexit. revert x Hf HI. induction fuel as [|fuel IH]; intros x Hf HI; [lia|].
  cbn [for_loop]. destruct (cond x) eqn:Hc; [|by apply prints_ret, Hexit].
  eapply prints_seq; [by apply Hbody|]. intros [x'|x'|r]; [|by apply prints_ret..].
  intros [HI' Hv]. apply IH; [lia|done].
Qed.

Lemma prints_for_index t dim (body : Z → M core (option unit)) :
  dim < 2 ^ 32 →
  (∀ i, 0 ≤ i < dim → prints t (body i) (λ o, o = None)) →
  prints t (for_index dim body) (λ o, o = None).
Proof.
  intros Hdim Hbody. unfold for_index.
  eapply prints_seq.
  - apply (prints_for_loop t (λ i, 0 ≤ i) (λ i, Z.to_nat (dim - i)))
      with (Q := λ r, ∃ x, r = inl x); [lia|lia| |by eexists].
    intros i Hi Hc. eapply prints_seq; [apply Hbody; lia|].
    intros o ->. apply prints_ret. rewrite wrap32_small by lia. lia.
  - intros r [x ->]. by apply prints_ret.
Qed.

Lemma prints_show_duplicates t tid :
  Z.of_nat (length t) < 2 ^ 32 →
  prints t (show_duplicates BOARD_DEFAULT tid) (λ _, True).
Proof.
  intros Hlen. unfold show_duplicates.
  eapply prints_seq; [apply prints_RequestTestListDim|]. intros dim ->.
  eapply prints_seq; [apply prints_RequestTestList|]. intros _ _.
  eapply prints_seq; [|intros; by apply prints_ret].
  apply (prints_for_loop t (λ '(i, _), 0 ≤ i)
           (λ '(i, _), Z.to_nat (Z.of_nat (length t) - i))) with (Q := λ _, True);
    [lia|lia| |done].
  intros [i n] Hi Hc.
  destruct (lookup_lt_is_Some_2 t (Z.to_nat i)) as [e He]; [lia|].
  eapply prints_seq; [by apply (prints_entry_at t i e (λ x, x = e))|]. intros x ->.
  apply prints_if.
  - eapply (prints_seq t _ _ (λ _, True)).
    + apply prints_if; [by apply prints_lift; [apply emits_printf|]|by apply prints_ret].
    + intros _ _. apply prints_ret. rewrite wrap32_small by lia. lia.
  - apply prints_ret. rewrite wrap32_small by lia. lia.
Qed.

(** One console line in front of the rest. *)
Lemma prints_line t {B} m (k : unit → M core B) Q :
  emits m → prints t (k tt) Q → prints t (lift m ≫= k) Q.
Proof.
  intros Hm Hk. eapply prints_seq; [by apply (prints_lift t m (λ _, True))|]. by intros [] _.
Qed.

Lemma prints_opt_line t {B} (x : bool) m (k : unit → M core B) Q :
  emits m → prints t (k tt) Q → prints t ((if x then lift m else mret tt) ≫= k) Q.
Proof.
  intros Hm Hk. destruct x; [by apply prints_line|].
  eapply prints_seq; [by apply (prints_ret t tt (λ _, True))|]. by intros [] _.
Qed.

(** A lookup followed by reading the entry found. *)
Lemma prints_find t {B} tid (none : M core B) (some : entry → M core B) Q :
  prints t none Q → (∀ e, prints t (some e) Q) →
  prints t (r ← LocateTest BOARD_DEFAULT tid;
            match r with None => none | Some i => entry_at i ≫= some end) Q.
Proof.
  intros Hn Hs. eapply prints_seq; [apply prints_LocateTest|]. intros r ->.
  destruct (first_index tid t) as [i|] eqn:Hi; [|done]. cbn [fmap option_fmap option_map].
  destruct (first_index_lookup tid t i Hi) as (e & He & _).
  eapply prints_seq; [apply (prints_entry_at t (Z.of_nat i) e (λ x, x = e)); [|done]|].
  - by rewrite Nat2Z.id.
  - intros x ->. apply Hs.
Qed.

(** Reports loop over the ids of a request. *)
Lemma prints_each t o (body : Z → Z → M core (option unit)) :
  valid_request o →
  (∀ i tid, prints t (body i tid) (λ r, r = None)) →
  prints t (_ ← for_index (testIdCount o) (λ i,
              match testIdList o !! Z.to_nat i with
              | None => crash OUT_OF_BOUNDS
              | Some tid => body i tid
              end); mret tt) (λ _, True).
Proof.
  intros [Hc Hl] Hb. unfold DIM_TEST_LIST in Hc.
  eapply prints_seq; [|intros; by apply prints_ret].
  apply prints_for_index; [lia|]. intros i Hi.
  destruct (lookup_lt_is_Some_2 (testIdList o) (Z.to_nat i)) as [tid ->]; [lia|]. apply Hb.
Qed.

Lemma prints_DisplayTestList t o showIndex showFlags :
  Z.of_nat (length t) < 2 ^ 32 → valid_request o →
  prints t (DisplayTestList BOARD_DEFAULT o showIndex showFlags) (λ _, True).
Proof.
  intros Hlen Hv. pose proof Hv as [Hc _]. unfold DisplayTestList.
  replace (testIdCount o =? 0) with false by lia.
  replace (testIdCount o >? DIM_TEST_LIST) with false by lia.
  apply prints_opt_line; [by apply emits_printf|].
  apply prints_opt_line; [by apply emits_printf|].
  apply (prints_each t o (λ i tid, _)); [done|]. intros i tid.
  eapply prints_seq; [apply prints_LocateTest|]. intros r ->.
  apply prints_opt_line; [by apply emits_printf|].
  destruct (first_index tid t) as [j|] eqn:Hj; cbn [fmap option_fmap option_map].
  - destruct (first_index_lookup tid t j Hj) as (e & He & _).
    eapply prints_seq; [apply (prints_entry_at t (Z.of_nat j) e (λ x, x = e)); [|done]|].
    { by rewrite Nat2Z.id. }
    intros x ->. apply prints_line; [by apply emits_printf|].
    apply prints_opt_line; [by apply emits_printf|].
    eapply prints_seq; [by apply prints_show_duplicates|]. intros _ _. by apply prints_ret.
  - apply prints_line; [by apply emits_printf|]. by apply prints_ret.
Qed.

Lemma emits_show_verdict run newFail totalFail :
  emits (HW := HW) (show_verdict run newFail totalFail).
Proof. unfold show_verdict. repeat apply emits_if; by apply emits_printf. Qed.

Lemma prints_DisplayTestResults t o :
  valid_request o → prints t (DisplayTestResults BOARD_DEFAULT o) (λ _, True).
Proof.
  intros Hv. pose proof Hv as [Hc _]. unfold DisplayTestResults.
  replace (testIdCount o =? 0) with false by lia.
  replace (testIdCount o >? DIM_TEST_LIST) with false by lia.
  apply (prints_each t o (λ i tid, _)); [done|]. intros i tid.
  apply prints_find.
  - do 3 (apply prints_line; [by apply emits_printf|]). by apply prints_ret.
  - intros e. apply prints_if; [by apply prints_ret|].
    do 3 (apply prints_line; [by apply emits_printf|]).
    apply prints_line; [apply emits_show_verdict|]. by apply prints_ret.
Qed.

Lemma prints_empty_report t o showIndex showFlags :
  testIdCount o = 0 →
  prints t (DisplayTestList BOARD_DEFAULT o showIndex showFlags) (λ _, True) ∧
  prints t (DisplayTestResults BOARD_DEFAULT o) (λ _, True).
Proof.
  intros H0. unfold DisplayTestList, DisplayTestResults. rewrite H0. simpl.
  split; (apply prints_lift; [auto with diag|done]).
Qed.

(** The ids of the whole table, when it fits. *)
Lemma prints_GetAvailableListOfTest t o :
  Z.of_nat (length t) ≤ DIM_TEST_LIST → DIM_TEST_LIST ≤ Z.of_nat (length (testIdList o)) →
  prints t (GetAvailableListOfTest BOARD_DEFAULT (Some o)) (λ r, r =
    Some (mkTestList (Z.of_nat (length t))
            ((testId <$> t) ++ drop (length t) (testIdList o))
            (loopCnt o) (exitOnErr o) (logLevel o))).
Proof.
  intros Hlen Hcap. unfold DIM_TEST_LIST in *. unfold GetAvailableListOfTest.
  eapply prints_seq; [apply prints_RequestTestListDim|]. intros dim ->.
  unfold DIM_TEST_LIST. replace (Z.of_nat (length t) >? 200) with false by lia.
  set (arr := λ i : Z, (testId <$> take (Z.to_nat i) t) ++ drop (Z.to_nat i) (testIdList o)).
  eapply prints_seq.
  - apply (prints_for_loop t (λ '(i, l), 0 ≤ i ≤ Z.of_nat (length t) ∧ l = arr i)
             (λ '(i, _), Z.to_nat (Z.of_nat (length t) - i)))
      with (Q := λ r, ∃ i, r = inl (i, arr (Z.of_nat (length t)))).
    + lia.
    + split; [lia|]. done.
    + intros [i l] [Hi ->] Hc.
      destruct (lookup_lt_is_Some_2 t (Z.to_nat i)) as [e He]; [lia|].
      eapply prints_seq; [apply prints_RequestTestList|]. intros _ _.
      eapply prints_seq; [by apply (prints_entry_at t i e (λ x, x = e))|]. intros x ->.
      assert (length (testId <$> take (Z.to_nat i) t) = Z.to_nat i) as Hl.
      { rewrite length_fmap, length_take. lia. }
      replace (Z.to_nat i <? length (arr i))%nat with true.
      2:{ symmetry. apply Nat.ltb_lt. unfold arr. rewrite length_app, Hl, length_drop. lia. }
      apply prints_ret. rewrite wrap32_small by lia. split; [split; [lia|]|lia].
      unfold arr. rewrite insert_app_r_alt, Hl, Nat.sub_diag by lia.
      destruct (lookup_lt_is_Some_2 (testIdList o) (Z.to_nat i)) as [x Hx]; [lia|].
      rewrite (drop_S (testIdList o) x) by done. cbn [insert list_insert].
      replace (Z.to_nat (i + 1)) with (S (Z.to_nat i)) by lia.
      rewrite (take_S_r t _ e), fmap_app, <- app_assoc by done. done.
    + intros [i l] [Hi ->] Hc. exists i. do 2 f_equal. f_equal. lia.
  - intros r [i ->]. apply prints_ret. unfold arr. by rewrite Nat2Z.id, take_ge by lia.
Qed.
End reports.
