(* ===== verification/BoardDiag.v ===== *)
(** The [boarddiag] command: [common/cmd_boarddiag.c]. *)

From S2P Require Import Prelude CLib Vsprintf VsprintfFacts Machine Events TestId DiagCore.

(** [include/command.h] *)
Notation CMD_RET_SUCCESS := 0%Z (only parsing).
Notation CMD_RET_FAILURE := 1%Z (only parsing).
Notation CMD_RET_USAGE := (-1)%Z (only parsing).

(** * Sub-command names *)

Definition toLower (value : Z) : Z :=
  if (ord "A" <=? value) && (value <=? ord "Z") then value + ord "a" - ord "A" else value.

(** The loop of [isSubCmd] from index [i] on, [n] iterations before its
    limit; [None] is a read past the end of a string. *)
Fixpoint isSubCmd_loop (n : nat) (i : Z) (cmd : string) (minMatch : Z) (arg : string) :
    option bool :=
  match n with
  | O => Some true
  | S n' =>
      a ← str_at arg (Z.to_nat i);
      if Ascii.eqb a NUL then Some (i >=? minMatch)
      else
        c ← str_at cmd (Z.to_nat i);
        if toLower (ord a) =? toLower (ord c) then isSubCmd_loop n' (i + 1) cmd minMatch arg
        else Some false
  end.

Definition isSubCmd (cmd : string) (minMatch : Z) (arg : string) : option bool :=
  isSubCmd_loop 256 0 cmd minMatch arg.

Section boarddiag.
Context {HW Arg : Type} (BOARD_DEFAULT : Z).
Notation core := (@core HW Arg).

Definition set_options (exitOnErr loopCnt logLevel : Z) (o : testList_s) : testList_s :=
  mkTestList (testIdCount o) (testIdList o) loopCnt exitOnErr logLevel.

(** [memset(&obj, 0, sizeof(obj)); GetAvailableListOfTest(&obj);] *)
Definition available_tests : M core testList_s :=
  r ← GetAvailableListOfTest BOARD_DEFAULT (Some zero_testList); deref r.

Definition show_test_list : M core unit :=
  nm ← RequestTestListName BOARD_DEFAULT;
  _ ← lift (printf ("List available tests for %s" +:+ newline) [VStr (Some nm)]);
  tstlst_obj ← available_tests;
  let o := set_options (exitOnErr tstlst_obj) (loopCnt tstlst_obj) LOG_MASK_ALL tstlst_obj in
  DisplayTestList BOARD_DEFAULT o 1 0.

Definition run_all_tests (fuel : nat) (exitOnErr loopCnt logLevel : Z) : M core unit :=
  tstlst_obj ← available_tests;
  let tstlst_obj := set_options exitOnErr loopCnt logLevel tstlst_obj in
  _ ← (if nonzero (Z.land logLevel LOG_MASK_LIST) then
         _ ← DisplayTestList BOARD_DEFAULT tstlst_obj 1 1; lift (printf newline [])
       else mret tt);
  _ ← ExecuteAllTestListed BOARD_DEFAULT fuel (Some tstlst_obj);
  _ ← lift (printf newline []);
  DisplayTestResults BOARD_DEFAULT tstlst_obj.

(** The loop of [runtestByTestId] that translates indices to ids; the list
    built so far, or [Return] of the usage error. *)
Definition lookup_indices (count : Z) (testlistIndex : list Z) (lookup : testList_s) :
    M core (testList_s + Z) :=
  r ← for_loop (S (Z.to_nat count))
        (λ '(index, _), index <? count)
        (λ '(index, o), (index + 1, o))
        (λ '(index, o),
           match testlistIndex !! Z.to_nat index with
           | None => crash UNINITIALISED
           | Some v =>
               let testIndex := sign 32 v in
               if wrap32 testIndex >=? testIdCount lookup then
                 _ ← lift (printf ("Test %d out of range" +:+ newline) [VInt testIndex]);
                 mret (Return CMD_RET_USAGE)
               else
                 match testIdList lookup !! Z.to_nat testIndex with
                 | None => crash OUT_OF_BOUNDS
                 | Some id =>
                     if (Z.to_nat (testIdCount o) <? length (testIdList o))%nat then
                       mret (Continue (index,
                         mkTestList (wrap32 (testIdCount o + 1))
                           (<[Z.to_nat (testIdCount o) := id]> (testIdList o))
                           (loopCnt o) (exitOnErr o) (logLevel o)))
                     else crash OUT_OF_BOUNDS
                 end
           end) (0, zero_testList);
  match r with
  | inl (_, o) => mret (inl o)
  | inr e => mret (inr e)
  end.

Definition runtestByTestId (fuel : nat) (count : Z) (testlistIndex : list Z)
    (exitOnErr loopCnt logLevel : Z) : M core Z :=
  tstlstlookup_obj ← available_tests;
  r ← lookup_indices count testlistIndex tstlstlookup_obj;
  match r with
  | inr e => mret e
  | inl tstlst_obj =>
      let tstlst_obj := set_options exitOnErr loopCnt logLevel tstlst_obj in
      _ ← (if nonzero (Z.land logLevel LOG_MASK_LIST) then
             _ ← lift (printf ("Run the following tests" +:+ newline) []);
             _ ← DisplayTestList BOARD_DEFAULT tstlst_obj 0 1;
             lift (printf newline [])
           else mret tt);
      _ ← ExecuteAllTestListed BOARD_DEFAULT fuel (Some tstlst_obj);
      _ ← lift (printf newline []);
      _ ← DisplayTestResults BOARD_DEFAULT tstlst_obj;
      mret 0
  end.

(** [argv[i]] of an array of [argc] strings. *)
Definition argv_at (argv : list string) (i : Z) : M core string :=
  match argv !! Z.to_nat i with
  | Some s => mret s
  | None => crash OUT_OF_BOUNDS
  end.

(** The incremented index, and the argument or [NULL]. *)
Definition ProcessNextArg (CmdArgIndex CmdArgCount : Z) (argv : list string) :
    M core (Z * option string) :=
  let CmdArgIndex := CmdArgIndex + 1 in
  if CmdArgIndex >=? CmdArgCount then mret (CmdArgIndex, None)
  else s ← argv_at argv CmdArgIndex; mret (CmdArgIndex, Some s).

(** The incremented index, and [*val] or the error code. *)
Definition ProcessNextCmdArg (CmdArgIndex CmdArgCount : Z) (argv : list string) :
    M core (Z * (Z + Z)) :=
  let CmdArgIndex := CmdArgIndex + 1 in
  if CmdArgIndex >=? CmdArgCount then mret (CmdArgIndex, inr CMD_RET_USAGE)
  else
    s ← argv_at argv CmdArgIndex;
    mret (CmdArgIndex, inl (simple_strtoul s 10).1).

Definition is_sub_cmd (cmd : string) (minMatch : Z) (arg : string) : M core bool :=
  match isSubCmd cmd minMatch arg with
  | Some r => mret r
  | None => crash OUT_OF_BOUNDS
  end.

(** The [runAll] branch. *)
Definition do_runAll (fuel : nat) (argc : Z) (argv : list string) (CmdArgIndex : Z) : M core Z :=
  if argc =? 4 then
    '(CmdArgIndex, nextCmdArg) ← ProcessNextArg CmdArgIndex argc argv;
    match nextCmdArg with
    | None => mret CMD_RET_USAGE
    | Some _ =>
        '(_, r) ← ProcessNextCmdArg CmdArgIndex argc argv;
        match r with
        | inr e => mret e
        | inl loopCnt => _ ← run_all_tests fuel 0 loopCnt LOG_MASK_ALL; mret 0
        end
    end
  else _ ← run_all_tests fuel 0 0 LOG_MASK_ALL; mret 0.

(** The [run] branch; [testIdList[0]] is the only element it assigns. *)
Definition do_run (fuel : nat) (argc : Z) (argv : list string) (CmdArgIndex : Z) : M core Z :=
  if argc <=? CmdArgIndex then mret CMD_RET_USAGE
  else if argc =? 3 then
    '(_, r) ← ProcessNextCmdArg CmdArgIndex argc argv;
    match r with
    | inr e => mret e
    | inl v => runtestByTestId fuel 1 [v] 0 0 LOG_MASK_ALL
    end
  else mret CMD_RET_USAGE.

(** Every path through the [while (1)] body returns, so it runs once.  [fuel]
    bounds the passes of [ExecuteAllTestListed]. *)
Definition do_boarddiag (fuel : nat) (argc : Z) (argv : list string) : M core Z :=
  _ ← lift (printf (newline +:+ "   === Board Diagnostics Software ===" +:+ newline +:+ newline) []);
  '(CmdArgIndex, nextCmdArg) ← ProcessNextArg 0 argc argv;
  match nextCmdArg with
  | None => mret CMD_RET_USAGE
  | Some arg =>
      is_list ← is_sub_cmd "list" 1 arg;
      if is_list : bool then _ ← show_test_list; mret 0
      else
        is_runAll ← is_sub_cmd "runAll" 4 arg;
        if is_runAll : bool then do_runAll fuel argc argv CmdArgIndex
        else
          is_run ← is_sub_cmd "run" 2 arg;
          if is_run : bool then do_run fuel argc argv CmdArgIndex
          else
            _ ← lift (printf (" Invalid option %s" +:+ newline) [VStr (Some arg)]);
            mret CMD_RET_USAGE
  end.
End boarddiag.
