(* ===== verification/BoardDiagFacts.v ===== *)
(** Facts about the [boarddiag] command: sub-command matching, and what
    [list], [run] and [runAll] do to the test table. *)

From S2P Require Import Prelude CLib Vsprintf VsprintfFacts Machine Events TestId DiagCore.
From S2P Require Import Keeps DiagCoreFacts DiagReports BoardDiag.

(** * Sub-command names *)

(** The characters of a word, lower-cased. *)
Definition lower (s : string) : list Z := (λ c, toLower (ord c)) <$> list_of_str s.

(** [arg] abbreviates [cmd], ignoring case, with at least [n] letters. *)
Definition abbreviates (cmd : string) (n : Z) (arg : string) : bool :=
  bool_decide (lower arg `prefix_of` lower cmd) && (n <=? slen arg).

Definition nul_free (s : string) : Prop := Forall (λ c, c ≠ NUL) (list_of_str s).

Lemma toLower_zero a : a ≠ NUL → toLower (ord a) ≠ 0.
Proof.
  intros Ha. unfold toLower. change (ord "A") with 65. change (ord "Z") with 90.
  change (ord "a") with 97.
  assert (ord a ≠ 0) as H0 by (intros H; apply Ha, ord_inj; by rewrite H).
  pose proof (ord_range a). destruct (_ && _); lia.
Qed.

Lemma str_at_drop s i : str_at s i = if (i <=? String.length s)%nat
  then str_at (str_drop i s) 0 else None.
Proof.
  revert i. induction s as [|c s IH]; intros [|i]; try done. simpl. by rewrite IH.
Qed.

Lemma str_at_0 s : str_at s 0 = Some (match s with "" => NUL | String c _ => c end).
Proof. by destruct s. Qed.

Lemma str_drop_S i s c s' : str_drop i s = String c s' → str_drop (S i) s = s'.
Proof. revert i. induction s as [|d s IH]; intros [|i]; simpl; [done..| |]; [by intros [= -> ->]|apply IH]. Qed.

Lemma str_drop_length i s : String.length (str_drop i s) = (String.length s - i)%nat.
Proof. revert i. induction s as [|d s IH]; intros [|i]; simpl; auto. Qed.

Lemma isSubCmd_loop_spec n i cmd minMatch arg :
  nul_free (str_drop i arg) → (String.length cmd < n + i)%nat →
  (i ≤ String.length arg)%nat → (i ≤ String.length cmd)%nat →
  isSubCmd_loop n (Z.of_nat i) cmd minMatch arg =
    Some (bool_decide (lower (str_drop i arg) `prefix_of` lower (str_drop i cmd))
          && (minMatch <=? slen arg)).
Proof.
  revert i. induction n as [|n IH]; intros i Hnf Hn Ha Hc; [lia|]. cbn [isSubCmd_loop].
  rewrite Nat2Z.id, (str_at_drop arg), (str_at_drop cmd), (proj2 (Nat.leb_le _ _) Ha), (proj2 (Nat.leb_le _ _) Hc).
  rewrite !str_at_0. cbn [mbind option_bind].
  pose proof (str_drop_length i arg) as Hla. pose proof (str_drop_length i cmd) as Hlc.
  destruct (str_drop i arg) as [|a arg'] eqn:Hda.
  - cbn. rewrite bool_decide_true by apply prefix_nil. simpl in Hla. f_equal. unfold slen. lia.
  - inversion Hnf as [|? ? Hna Hnf']; subst. rewrite (proj2 (Ascii.eqb_neq _ _) Hna).
    destruct (str_drop i cmd) as [|d cmd'] eqn:Hdc.
    + change (toLower (ord NUL)) with 0. rewrite (proj2 (Z.eqb_neq _ _) (toLower_zero _ Hna)).
      rewrite bool_decide_false; [done|]. apply prefix_nil_not.
    + cbn [lower fmap list_fmap list_of_str].
      destruct (Z.eqb_spec (toLower (ord a)) (toLower (ord d))) as [Heq|Hne].
      * replace (Z.of_nat i + 1) with (Z.of_nat (S i)) by lia. simpl in Hla, Hlc.
        rewrite IH; [|by rewrite (str_drop_S _ _ _ _ Hda)|lia..].
        rewrite (str_drop_S _ _ _ _ Hda), (str_drop_S _ _ _ _ Hdc). do 2 f_equal.
        apply bool_decide_ext. split; [|by intros H%prefix_cons_inv_2].
        intros H. rewrite Heq. by apply prefix_cons.
      * rewrite bool_decide_false; [done|]. by intros H%prefix_cons_inv_1.
Qed.

Lemma isSubCmd_abbreviates cmd minMatch arg :
  nul_free arg → slen cmd < 256 →
  isSubCmd cmd minMatch arg = Some (abbreviates cmd minMatch arg).
Proof.
  intros Hnf Hlen. unfold slen in Hlen.
  apply (isSubCmd_loop_spec 256 0); [by destruct arg|lia..].
Qed.

(** C29. A sub-command is recognised exactly when the argument is an
    abbreviation of it, ignoring case, of at least the given length; no byte
    past the end of either string is read. *)
Theorem isSubCmd_spec cmd minMatch arg :
  nul_free arg → slen cmd < 256 →
  isSubCmd cmd minMatch arg = Some (abbreviates cmd minMatch arg).
Proof. apply isSubCmd_abbreviates. Qed.

Lemma isSubCmd_spec_witness : isSubCmd "runAll" 4 "RUNa" = Some true.
Proof.
  rewrite (isSubCmd_spec "runAll" 4 "RUNa"); [reflexivity|repeat constructor; discriminate|done].
Defined.

(** * The commands *)

Section commands.
Context {HW Arg : Type} (BOARD_DEFAULT : Z) (b : board).
Notation core := (@core HW Arg).
Notation entry := (@testParamEntry_s HW Arg).
Notation do_boarddiag := (do_boarddiag BOARD_DEFAULT).
Notation prints := (prints (HW := HW) (Arg := Arg) b).
Implicit Types c : core.
Implicit Types t : list entry.

(** The request that names the whole table. *)
Definition all_tests t (exitOnErr loopCnt logLevel : Z) : testList_s :=
  mkTestList (Z.of_nat (length t))
    ((testId <$> t) ++ replicate (Z.to_nat DIM_TEST_LIST - length t) 0)
    loopCnt exitOnErr logLevel.

(** The request that names one test. *)
Definition one_test (id loopCnt logLevel : Z) : testList_s :=
  mkTestList 1 (id :: replicate 199 0) loopCnt 0 logLevel.

Lemma prints_available t :
  Z.of_nat (length t) ≤ DIM_TEST_LIST →
  prints t (available_tests BOARD_DEFAULT) (λ o, o = all_tests t 0 0 0).
Proof.
  intros Hlen. unfold available_tests. eapply prints_seq.
  - apply prints_GetAvailableListOfTest; [done|].
    unfold zero_testList. cbn [testIdList]. rewrite length_replicate. unfold DIM_TEST_LIST. lia.
  - intros r ->. apply prints_ret. unfold all_tests, zero_testList. cbn [testIdList loopCnt exitOnErr logLevel].
    by rewrite drop_replicate.
Qed.

Lemma all_tests_valid t x n l :
  (0 < length t)%nat → Z.of_nat (length t) ≤ DIM_TEST_LIST → valid_request (all_tests t x n l).
Proof.
  intros H0 Hlen. unfold valid_request, all_tests. simpl.
  rewrite length_app, length_fmap. lia.
Qed.

Lemma one_test_valid id n l : valid_request (one_test id n l).
Proof. unfold valid_request, one_test, DIM_TEST_LIST. simpl. lia. Qed.

(** What the commands do with a request once its tests are chosen. *)
Definition run_and_report (fuel : nat) (o : testList_s) : M core unit :=
  _ ← ExecuteAllTestListed BOARD_DEFAULT fuel (Some o);
  _ ← lift (printf newline []);
  DisplayTestResults BOARD_DEFAULT o.

(** Only the console differs. *)
Definition printed c c' : Prop := ∃ s, c' = with_wld (emit s (wld c)) c.

Lemma printed_refl c : printed c c.
Proof. exists "". by rewrite emit_nil, with_wld_id. Qed.

Lemma printed_trans c1 c2 c3 : printed c1 c2 → printed c2 c3 → printed c1 c3.
Proof. intros [s ->] [s' ->]. exists (s +:+ s'). by rewrite <- emit_emit. Qed.

Lemma printed_ready c c' : printed c c' → ready b c → ready b c' ∧ table b c' = table b c.
Proof. intros [s ->] Hr. by split; [apply ready_with_wld|rewrite table_with_wld]. Qed.

Lemma lift_printed m c : emits m → ∃ c', lift m c = Ret tt c' ∧ printed c c'.
Proof. intros Hm. destruct (lift_emits m c Hm) as [s Hs]. eexists. split; [exact Hs|]. by exists s. Qed.

Lemma prints_printed {A} t (m : M core A) P c :
  prints t m P → ready b c → table b c = t → ∃ a c', m c = Ret a c' ∧ printed c c' ∧ P a.
Proof.
  intros Hm Hr Ht. destruct (Hm c Hr Ht) as (a & s & H & HP).
  exists a, (with_wld (emit s (wld c)) c). split_and!; [done|by exists s|done].
Qed.

Lemma wrap32_sign32 z : wrap32 (sign 32 z) = wrap32 z.
Proof. unfold sign, wrap32. destruct (_ <? _); lia. Qed.

Lemma lookup_one t v e c :
  0 ≤ v → t !! Z.to_nat v = Some e → Z.of_nat (length t) ≤ DIM_TEST_LIST →
  lookup_indices 1 [v] (all_tests t 0 0 0) c = Ret (inl (one_test (testId e) 0 0)) c.
Proof.
  intros Hv He Hlen. pose proof (lookup_lt_Some _ _ _ He). unfold DIM_TEST_LIST in Hlen.
  unfold lookup_indices.
  rewrite (M_bind_Ret _ _ _ (inl (1, one_test (testId e) 0 0)) c); [done|].
  change (S (Z.to_nat 1)) with 2%nat.
  rewrite (for_loop_step _ _ _ _ _ _ (0, one_test (testId e) 0 0) c);
    [by apply for_loop_exit|done|]. simpl.
  rewrite wrap32_sign32, wrap32_small, sign32_small by lia.
  replace (v >=? Z.of_nat (length t)) with false by lia.
  rewrite lookup_app_l, list_lookup_fmap, He by (rewrite length_fmap; lia). done.
Qed.

Lemma lookup_out_of_range t v c :
  Z.of_nat (length t) ≤ v < 2 ^ 32 →
  ∃ c', lookup_indices 1 [v] (all_tests t 0 0 0) c = Ret (inr CMD_RET_USAGE) c' ∧ printed c c'.
Proof.
  intros Hv. unfold lookup_indices.
  destruct (lift_printed (printf ("Test %d out of range" +:+ newline) [VInt (sign 32 v)]) c)
    as (c' & H & Hp); [by apply emits_printf|].
  exists c'. split; [|done].
  rewrite (M_bind_Ret _ _ _ (inr CMD_RET_USAGE) c'); [done|].
  apply for_loop_return; [done|]. simpl. rewrite wrap32_sign32, wrap32_small by lia.
  replace (v >=? Z.of_nat (length t)) with true by lia.
  by erewrite M_bind_Ret by exact H.
Qed.

Lemma hits_repeat t i k ids :
  hits t i (concat (replicate k ids)) = Z.of_nat k * hits t i ids.
Proof.
  induction k as [|k IH]; cbn [replicate concat].
  - unfold hits. destruct (t !! i) as [e|]; [by destruct (testFunction e)|done].
  - rewrite hits_app, IH. lia.
Qed.

(** With distinct ids, naming every test hits each of them once. *)
Lemma filter_index t i e l :
  t !! i = Some e → NoDup l → testId e ∈ l →
  (∀ id, id ∈ l → first_index id t = Some i → id = testId e) →
  first_index (testId e) t = Some i →
  length (filter (λ id, first_index id t = Some i) l) = 1%nat.
Proof.
  intros He Hnd Hin Huniq Hi. induction Hnd as [|id l Hid Hnd IH]; [by apply elem_of_nil in Hin|].
  rewrite filter_cons. destruct (decide (first_index id t = Some i)) as [Hf|Hf].
  - assert (id = testId e) as -> by (apply Huniq; [left|done]). simpl. f_equal.
    apply length_zero_iff_nil, elem_of_nil_inv. intros id' [Hf' Hin']%list_elem_of_filter.
    apply Hid. rewrite <- (Huniq id'); [done|by right|done].
  - apply IH; [|intros; apply Huniq; [by right|done]].
    apply elem_of_cons in Hin as [Heq|]; [congruence|done].
Qed.

Lemma first_index_NoDup t i e :
  NoDup (testId <$> t) → t !! i = Some e → first_index (testId e) t = Some i.
Proof.
  intros Hnd He. unfold first_index. apply fmap_Some. exists (i, e). split; [|done].
  apply list_find_Some. split_and!; [done|done|]. intros j y Hj Hlt Hid.
  enough (j = i) by lia. eapply (NoDup_lookup (testId <$> t)); [done|..];
    rewrite list_lookup_fmap; [by rewrite Hj|by rewrite He, Hid].
Qed.

Lemma hits_all t i e :
  NoDup (testId <$> t) → t !! i = Some e → testFunction e ≠ None →
  hits t i (testId <$> t) = 1.
Proof.
  intros Hnd He Hfn. unfold hits. rewrite He. destruct (testFunction e); [|done].
  rewrite (filter_index t i e); [done|done|done|..].
  - apply list_elem_of_fmap. exists e. split; [done|]. by eapply list_elem_of_lookup_2.
  - intros id _ Hi. apply first_index_lookup in Hi as (x & Hx & <-). congruence.
  - by apply first_index_NoDup.
Qed.

Lemma schedule_all t n l :
  schedule (all_tests t 0 n l) = concat (replicate (Z.to_nat (n + 1)) (testId <$> t)).
Proof.
  unfold schedule, all_tests. cbn [loopCnt testIdCount testIdList].
  by rewrite Nat2Z.id, take_app_le, take_ge by (rewrite length_fmap; lia).
Qed.

Lemma is_sub_cmd_spec cmd n word r c :
  nul_free word → slen cmd < 256 → abbreviates cmd n word = r →
  is_sub_cmd cmd n word c = Ret r c.
Proof. intros Hnf Hl <-. unfold is_sub_cmd. by rewrite isSubCmd_abbreviates. Qed.

(** The words of the command line, up to the chosen branch. *)
Lemma do_boarddiag_prefix fuel argc word rest c :
  1 < argc →
  ∃ c', printed c c' ∧
    do_boarddiag fuel argc ("boarddiag" :: word :: rest) c =
    (is_list ← is_sub_cmd "list" 1 word;
     if is_list : bool then _ ← show_test_list BOARD_DEFAULT; mret 0
     else
       is_runAll ← is_sub_cmd "runAll" 4 word;
       if is_runAll : bool
       then do_runAll BOARD_DEFAULT fuel argc ("boarddiag" :: word :: rest) 1
       else
         is_run ← is_sub_cmd "run" 2 word;
         if is_run : bool then do_run BOARD_DEFAULT fuel argc ("boarddiag" :: word :: rest) 1
         else
           _ ← lift (printf (" Invalid option %s" +:+ newline) [VStr (Some word)]);
           mret CMD_RET_USAGE) c'.
Proof.
  intros Hargc. unfold BoardDiag.do_boarddiag.
  edestruct (lift_printed (printf (newline +:+ "   === Board Diagnostics Software ===" +:+
    newline +:+ newline) []) c) as (c' & H & Hp); [by apply emits_printf|].
  exists c'. split; [done|]. erewrite M_bind_Ret by exact H.
  rewrite (M_bind_Ret _ _ _ (1, Some word) c'); [done|].
  unfold ProcessNextArg. by replace (0 + 1 >=? argc) with false by lia.
Qed.

Lemma strtoul_word n : 0 ≤ n < 2 ^ 64 → (simple_strtoul (decimal n) 10).1 = wrap32 n.
Proof.
  intros Hn. rewrite <- (str_app_nil_r (decimal n)), strtoul_decimal; done.
Qed.

Lemma ProcessNextCmdArg_decimal i argc argv n c :
  0 ≤ n < 2 ^ 64 → i + 1 < argc → argv !! Z.to_nat (i + 1) = Some (decimal n) →
  ProcessNextCmdArg i argc argv c = Ret (i + 1, inl (wrap32 n)) c.
Proof.
  intros Hn Hi Hargv. unfold ProcessNextCmdArg, argv_at.
  replace (i + 1 >=? argc) with false by lia. rewrite Hargv.
  erewrite M_bind_Ret by reflexivity. by rewrite strtoul_word.
Qed.

(** [boarddiag run <n>] with an index outside the list is a usage error
    that runs nothing. *)
Theorem run_rejects_bad_index fuel n c :
  ready b c → Z.of_nat (length (table b c)) ≤ DIM_TEST_LIST →
  Z.of_nat (length (table b c)) ≤ n < 2 ^ 32 →
  ∃ c', do_boarddiag fuel 3 ["boarddiag"; "run"; decimal n] c = Ret CMD_RET_USAGE c' ∧
        printed c c'.
Proof.
  intros Hr Hlen Hn.
  destruct (do_boarddiag_prefix fuel 3 "run" [decimal n] c) as (c0 & P0 & ->); [lia|].
  destruct (printed_ready _ _ P0 Hr) as [Hr0 Ht0].
  do 2 rewrite (M_bind_Ret _ _ _ false c0) by done.
  rewrite (M_bind_Ret _ _ _ true c0) by done.
  destruct (prints_printed (table b c) (available_tests BOARD_DEFAULT) _ c0
    (prints_available _ Hlen)) as (o0 & c1 & H1 & P1 & ->); [done..|].
  destruct (lookup_out_of_range (table b c) n c1 Hn) as (c2 & H2 & P2).
  exists c2. split; [|by eapply printed_trans, printed_trans].
  unfold do_run. change (3 <=? 1) with false. change (3 =? 3) with true. cbv iota.
  rewrite (M_bind_Ret _ _ _ (2, inl n) c0).
  - unfold runtestByTestId. erewrite M_bind_Ret by exact H1. by erewrite M_bind_Ret by exact H2.
  - rewrite <- (wrap32_small n) at 2 by lia. apply (ProcessNextCmdArg_decimal 1); [lia|lia|done].
Qed.

Lemma prints_show_test_list t :
  Z.of_nat (length t) < 2 ^ 32 → Z.of_nat (length t) ≤ DIM_TEST_LIST →
  prints t (show_test_list BOARD_DEFAULT) (λ _, True).
Proof.
  intros Hr Hlen. unfold show_test_list. apply (prints_seq b t _ _ (λ _, True)).
  { intros c1 Hr1 _. unfold RequestTestListName.
    destruct (testNameList_g c1) as [nm|] eqn:Hnm; [exists nm, ""|exists "not found", ""];
    rewrite emit_nil, with_wld_id; (split; [|done]);
    erewrite M_bind_Ret by (by eapply init_if_needed_ready);
    erewrite M_bind_Ret by reflexivity; by rewrite Hnm. }
  intros nm _. apply prints_line; [by apply emits_printf|].
  eapply prints_seq; [by apply prints_available|]. intros o ->. cbv zeta.
  destruct (decide (length t = 0%nat)) as [H0|H0].
  - destruct (prints_empty_report BOARD_DEFAULT b t
      (set_options 0 0 LOG_MASK_ALL (all_tests t 0 0 0)) 1 0) as [H _]; [|exact H].
    cbn [set_options all_tests testIdCount]. by rewrite H0.
  - apply prints_DisplayTestList; [done|].
    apply (all_tests_valid t 0 0 LOG_MASK_ALL); [lia|done].
Qed.

(** [boarddiag list], any abbreviation of it, prints the list and changes
    nothing else. *)
Theorem list_only_prints fuel word c :
  ready b c → Z.of_nat (length (table b c)) ≤ DIM_TEST_LIST →
  nul_free word → abbreviates "list" 1 word = true →
  ∃ c', do_boarddiag fuel 2 ["boarddiag"; word] c = Ret 0 c' ∧ printed c c'.
Proof.
  intros Hr Hlen Hnf Hab. set (t := table b c).
  destruct (do_boarddiag_prefix fuel 2 word [] c) as (c0 & P0 & ->); [lia|].
  destruct (printed_ready _ _ P0 Hr) as [Hr0 Ht0].
  rewrite (M_bind_Ret _ _ _ true c0) by (by apply is_sub_cmd_spec). cbv iota.
  pose proof (prints_show_test_list t (proj2 (proj2 Hr)) Hlen) as Hp.
  destruct (prints_printed t _ _ c0 Hp) as ([] & c1 & H1 & P1 & _); [done..|].
  exists c1. split; [|by eapply printed_trans]. by erewrite M_bind_Ret by exact H1.
Qed.

(** A word that abbreviates none of the sub-commands is a usage error that
    runs nothing. *)
Theorem unknown_command_is_usage fuel word rest argc c :
  1 < argc → nul_free word → abbreviates "list" 1 word = false →
  abbreviates "runAll" 4 word = false → abbreviates "run" 2 word = false →
  ∃ c', do_boarddiag fuel argc ("boarddiag" :: word :: rest) c = Ret CMD_RET_USAGE c' ∧
        printed c c'.
Proof.
  intros Hargc Hnf H1 H2 H3.
  destruct (do_boarddiag_prefix fuel argc word rest c) as (c0 & P0 & ->); [lia|].
  do 3 (rewrite (M_bind_Ret _ _ _ false c0) by (apply is_sub_cmd_spec; simpl; done || lia)).
  destruct (lift_printed (printf (" Invalid option %s" +:+ newline) [VStr (Some word)]) c0)
    as (c1 & H & P1); [by apply emits_printf|].
  exists c1. split; [by erewrite M_bind_Ret by exact H|by eapply printed_trans].
Qed.

(** The state [ProcessTestList] leaves at the first use of the table. *)
Definition set_up c : core := with_table b (init_entry <$> table b c) (caseSetTestList b c).

(** The executive before its first use, in an image built for board [b]. *)
Definition fresh c : Prop :=
  BOARD_DEFAULT = (match b with bcm2836_rpi2 => BCM2836_RPI2 | am335x_bbb => AM335X_BBB end) ∧
  testList_g c = None ∧ Z.of_nat (length (table b c)) ≤ DIM_TEST_LIST.

Lemma table_set_up c : table b (set_up c) = init_entry <$> table b c.
Proof. unfold set_up. apply table_with_table. Qed.

Lemma with_wld_set_up w c : with_wld w (set_up c) = set_up (with_wld w c).
Proof. unfold set_up. by rewrite with_wld_with_table, table_with_wld. Qed.

Lemma set_up_ready c : fresh c → ready b (set_up c).
Proof.
  intros (_ & _ & Hlen). unfold set_up, DIM_TEST_LIST in *.
  assert (table b (caseSetTestList b c) = table b c) as Ht by (by destruct b).
  apply ready_with_table; [|by rewrite length_fmap, Ht].
  unfold ready. rewrite Ht. split; [done|]. split; [done|]. lia.
Qed.

Lemma fresh_init c : fresh c → init_if_needed BOARD_DEFAULT c = init_if_needed BOARD_DEFAULT (set_up c).
Proof.
  intros Hf. etransitivity; [|symmetry; eapply init_if_needed_ready, set_up_ready, Hf].
  destruct Hf as (Hb & Hn & Hlen). unfold init_if_needed, DIM_TEST_LIST in *.
  erewrite M_bind_Ret by reflexivity. rewrite Hn, Hb. apply ProcessTestList_ready. lia.
Qed.

Lemma bind_start {A B} (m : M core A) (f : A → M core B) c c' :
  m c = m c' → (m ≫= f) c = (m ≫= f) c'.
Proof. intros H. unfold mbind, M_bind. by rewrite H. Qed.

Lemma fresh_available c :
  fresh c → available_tests BOARD_DEFAULT c = available_tests BOARD_DEFAULT (set_up c).
Proof. intros Hf. do 3 apply bind_start. by apply fresh_init. Qed.

(** The first [runAll] sets the table up and then runs as any other. *)
Lemma fresh_runAll fuel c :
  fresh c → do_boarddiag fuel 2 ["boarddiag"; "runAll"] c =
            do_boarddiag fuel 2 ["boarddiag"; "runAll"] (set_up c).
Proof.
  intros Hf. unfold BoardDiag.do_boarddiag.
  edestruct (emits_printf (HW := HW) (newline +:+ "   === Board Diagnostics Software ===" +:+
    newline +:+ newline) [] eq_refl (wld c)) as [s Hs].
  assert (wld (set_up c) = wld c) as Hw by (unfold set_up; by rewrite wld_with_table).
  erewrite M_bind_Ret by (by apply lift_Ret). symmetry.
  erewrite M_bind_Ret by (apply lift_Ret; by rewrite Hw). symmetry.
  set (c0 := with_wld _ c).
  rewrite with_wld_set_up. fold c0.
  assert (fresh c0) as Hf0 by (unfold fresh, c0; by rewrite table_with_wld).
  rewrite (M_bind_Ret _ _ c0 (1, Some "runAll") c0) by done.
  rewrite (M_bind_Ret _ _ (set_up c0) (1, Some "runAll") (set_up c0)) by done. cbv iota.
  rewrite (M_bind_Ret _ _ c0 false c0), (M_bind_Ret _ _ c0 true c0) by done.
  rewrite (M_bind_Ret _ _ (set_up c0) false (set_up c0)),
    (M_bind_Ret _ _ (set_up c0) true (set_up c0)) by done.
  unfold do_runAll. simpl (2 =? 4). cbv iota. do 2 apply bind_start. by apply fresh_available.
Qed.

(** The invariant of the machine and the results of the tests, as in
    [DiagCoreFacts]. *)
Context (I : world HW → Prop) (R : string → TestResultTypes_e → Prop) `{!Quiet I}.
Notation able := (able I R b).

Lemma able_emit s c : able c → able (with_wld (emit s (wld c)) c).
Proof.
  intros (Hr & HI & Ht). split_and!; [by apply ready_with_wld|by apply quiet_emit|].
  by rewrite table_with_wld.
Qed.

Lemma run_and_report_ran fuel o c :
  able c → valid_request o → exitOnErr o = 0 →
  0 ≤ loopCnt o < 2 ^ 32 - 1 → (Z.to_nat (loopCnt o + 1) < fuel)%nat →
  ∃ c', run_and_report fuel o c = Ret tt c' ∧ able c' ∧
    ∀ i e, table b c !! i = Some e → ∃ e' f, table b c' !! i = Some e' ∧
      counted R (hits (table b c) i (schedule o)) f (clear_new e) e'.
Proof.
  intros Ha Hv He Hl Hf.
  destruct (execute_ran BOARD_DEFAULT I R b fuel o c) as (c1 & H1 & Ha1 & Hran); [done..|].
  pose proof (proj1 Ha1) as Hr1.
  assert (prints (table b c1) (_ ← lift (printf newline []); DisplayTestResults BOARD_DEFAULT o)
            (λ _, True)) as Hp.
  { apply prints_line; [by apply emits_printf|]. by apply prints_DisplayTestResults. }
  destruct (Hp c1 Hr1 eq_refl) as ([] & s & H2 & _).
  exists (with_wld (emit s (wld c1)) c1). split_and!.
  - unfold run_and_report. erewrite M_bind_Ret by exact H1. exact H2.
  - by apply able_emit.
  - by rewrite table_with_wld.
Qed.

(** The tests with the given ids have been run, each id once. *)
Definition executed (ids : list Z) c c' : Prop :=
  able c' ∧ ∀ i e, table b c !! i = Some e → ∃ e' f, table b c' !! i = Some e' ∧
    counted R (hits (table b c) i ids) f (clear_new e) e'.

Lemma printed_able c c' : printed c c' → able c → able c'.
Proof. intros [s ->]. apply able_emit. Qed.

Lemma printed_executed ids c c' c'' : printed c c' → executed ids c' c'' → executed ids c c''.
Proof. intros [s ->]. unfold executed. by rewrite table_with_wld. Qed.

Lemma execute_report_executed fuel o c :
  able c → valid_request o → exitOnErr o = 0 →
  0 ≤ loopCnt o < 2 ^ 32 - 1 → (Z.to_nat (loopCnt o + 1) < fuel)%nat →
  ∃ c', run_and_report fuel o c = Ret tt c' ∧ executed (schedule o) c c'.
Proof.
  intros. destruct (run_and_report_ran fuel o c) as (c' & H' & Ha' & Hran); [done..|].
  by exists c'.
Qed.

(** Running one chosen test, after the lookup. *)
Lemma runtest_found fuel v e c :
  able c → Z.of_nat (length (table b c)) ≤ DIM_TEST_LIST →
  (1 < fuel)%nat → 0 ≤ v → table b c !! Z.to_nat v = Some e →
  ∃ c', runtestByTestId BOARD_DEFAULT fuel 1 [v] 0 0 LOG_MASK_ALL c = Ret 0 c' ∧
        executed [testId e] c c'.
Proof.
  intros Ha Hlen Hf Hv He. pose proof (proj1 Ha) as Hr. unfold runtestByTestId. set (t := table b c).
  set (o := one_test (testId e) 0 LOG_MASK_ALL).
  destruct (prints_printed t (available_tests BOARD_DEFAULT) _ c (prints_available t Hlen))
    as (o0 & c1 & H1 & P1 & ->); [done..|].
  destruct (printed_ready _ _ P1 Hr) as [Hr1 Ht1].
  erewrite M_bind_Ret by exact H1. erewrite M_bind_Ret by (by apply lookup_one). cbv iota.
  change (set_options 0 0 LOG_MASK_ALL (one_test (testId e) 0 0)) with o.
  change (nonzero (Z.land LOG_MASK_ALL LOG_MASK_LIST)) with true. cbv iota.
  assert (prints t (_ ← lift (printf ("Run the following tests" +:+ newline) []);
     _ ← DisplayTestList BOARD_DEFAULT o 0 1; lift (printf newline [])) (λ _, True)) as Hp.
  { apply prints_line; [by apply emits_printf|]. eapply prints_seq.
    - apply prints_DisplayTestList; [apply Hr|apply one_test_valid].
    - intros _ _. apply prints_lift; [by apply emits_printf|done]. }
  destruct (prints_printed t _ _ c1 Hp) as ([] & c2 & H2 & P2 & _); [done..|].
  destruct (printed_ready _ _ P2 Hr1) as [Hr2 Ht2]. erewrite M_bind_Ret by exact H2.
  destruct (execute_report_executed fuel o c2) as (c3 & H3 & E3);
    [by eapply printed_able, printed_able|apply one_test_valid|done|done|done|].
  exists c3. split; [|by eapply printed_executed, printed_executed].
  rewrite <- !bind_assoc. erewrite M_bind_Ret; [reflexivity|].
  rewrite bind_assoc. exact H3.
Qed.

(** C30. [boarddiag run <n>] runs the test at index [n mod 2^32] of the list,
    once, and returns success. *)
Theorem run_runs_indexed_test fuel n e c :
  able c → Z.of_nat (length (table b c)) ≤ DIM_TEST_LIST →
  (1 < fuel)%nat → 0 ≤ n < 2 ^ 64 → table b c !! Z.to_nat (wrap32 n) = Some e →
  ∃ c', do_boarddiag fuel 3 ["boarddiag"; "run"; decimal n] c = Ret 0 c' ∧
        executed [testId e] c c'.
Proof.
  intros Ha Hlen Hf Hn He. pose proof (proj1 Ha) as Hr.
  destruct (do_boarddiag_prefix fuel 3 "run" [decimal n] c) as (c0 & P0 & ->); [lia|].
  destruct (printed_ready _ _ P0 Hr) as [Hr0 Ht0].
  do 2 rewrite (M_bind_Ret _ _ _ false c0) by done.
  rewrite (M_bind_Ret _ _ _ true c0) by done.
  destruct (runtest_found fuel (wrap32 n) e c0) as (c1 & H1 & E1); rewrite ?Ht0; try done.
  { by eapply printed_able. }
  { apply wrap32_range. }
  exists c1. split; [|by eapply printed_executed].
  unfold do_run. change (3 <=? 1) with false. change (3 =? 3) with true. cbv iota.
  rewrite (M_bind_Ret _ _ _ (2, inl (wrap32 n)) c0); [exact H1|].
  by apply (ProcessNextCmdArg_decimal 1).
Qed.

(** Every test that has a function has been run [n] times. *)
Definition all_ran (n : Z) c c' : Prop :=
  able c' ∧ ∀ i e, table b c !! i = Some e → testFunction e ≠ None →
    ∃ e' f, table b c' !! i = Some e' ∧ counted R n f (clear_new e) e'.

Lemma printed_all_ran n c c' c'' : printed c c' → all_ran n c' c'' → all_ran n c c''.
Proof. intros [s ->]. unfold all_ran. by rewrite table_with_wld. Qed.

Lemma run_all_ran fuel n c :
  able c → NoDup (testId <$> table b c) →
  0 < Z.of_nat (length (table b c)) ≤ DIM_TEST_LIST →
  0 ≤ n < 2 ^ 32 - 1 → (Z.to_nat (n + 1) < fuel)%nat →
  ∃ c', run_all_tests BOARD_DEFAULT fuel 0 n LOG_MASK_ALL c = Ret tt c' ∧ all_ran (n + 1) c c'.
Proof.
  intros Ha Hnd Hlen Hn Hf. pose proof (proj1 Ha) as Hr. unfold run_all_tests. set (t := table b c).
  set (o := all_tests t 0 n LOG_MASK_ALL).
  fold t in Hlen. assert (valid_request o) as Hv by (apply all_tests_valid; lia).
  destruct (prints_printed t (available_tests BOARD_DEFAULT) (λ o, o = all_tests t 0 0 0) c)
    as (o0 & c1 & H1 & P1 & ->); [apply prints_available; lia|done|done|].
  destruct (printed_ready _ _ P1 Hr) as [Hr1 Ht1]. erewrite M_bind_Ret by exact H1.
  change (set_options 0 n LOG_MASK_ALL (all_tests t 0 0 0)) with o.
  change (nonzero (Z.land LOG_MASK_ALL LOG_MASK_LIST)) with true. cbv zeta iota.
  assert (prints t (_ ← DisplayTestList BOARD_DEFAULT o 1 1; lift (printf newline []))
            (λ _, True)) as Hp.
  { eapply prints_seq; [apply prints_DisplayTestList; [apply Hr|done]|].
    intros _ _. apply prints_lift; [by apply emits_printf|done]. }
  destruct (prints_printed t _ _ c1 Hp) as ([] & c2 & H2 & P2 & _); [done..|].
  destruct (printed_ready _ _ P2 Hr1) as [Hr2 Ht2]. erewrite M_bind_Ret by exact H2.
  destruct (execute_report_executed fuel o c2) as (c3 & H3 & Ha3 & E3);
    [by eapply printed_able, printed_able|done|done|done|done|].
  exists c3. split; [exact H3|]. eapply printed_all_ran; [done|]. eapply printed_all_ran; [done|].
  split; [done|]. intros i e He Hfn. destruct (E3 i e He) as (e' & f & He' & Hran).
  exists e', f. split; [done|]. unfold o in Hran.
  rewrite schedule_all, hits_repeat, Ht2, Ht1 in Hran. fold t in Hran.
  rewrite (hits_all t i e) in Hran; [|done|by unfold t; rewrite <- Ht1, <- Ht2|done].
  by replace (n + 1) with (Z.of_nat (Z.to_nat (n + 1)) * 1) by lia.
Qed.

Lemma run_all_once fuel c :
  able c → NoDup (testId <$> table b c) →
  0 < Z.of_nat (length (table b c)) ≤ DIM_TEST_LIST → (1 < fuel)%nat →
  ∃ c', do_boarddiag fuel 2 ["boarddiag"; "runAll"] c = Ret 0 c' ∧ all_ran 1 c c'.
Proof.
  intros Ha Hnd Hlen Hf. pose proof (proj1 Ha) as Hr.
  destruct (do_boarddiag_prefix fuel 2 "runAll" [] c) as (c0 & P0 & ->); [lia|].
  destruct (printed_ready _ _ P0 Hr) as [Hr0 Ht0].
  rewrite (M_bind_Ret _ _ _ false c0), (M_bind_Ret _ _ _ true c0) by done.
  destruct (run_all_ran fuel 0 c0) as (c1 & H1 & E1); rewrite ?Ht0;
    [by eapply printed_able|done|done|lia|lia|].
  exists c1. split; [|by eapply printed_all_ran]. unfold do_runAll. simpl (2 =? 4). cbv iota.
  by erewrite M_bind_Ret by exact H1.
Qed.

(** [boarddiag runAll] runs every test of the list that has a function
    once, and returns success. *)
Theorem runAll_runs_each_once fuel c :
  able c → NoDup (testId <$> table b c) →
  0 < Z.of_nat (length (table b c)) ≤ DIM_TEST_LIST → (1 < fuel)%nat →
  ∃ c', do_boarddiag fuel 2 ["boarddiag"; "runAll"] c = Ret 0 c' ∧ all_ran 1 c c'.
Proof. apply run_all_once. Qed.

Lemma run_all_boot fuel c :
  fresh c → I (wld c) → total_tests I R (table b c) →
  NoDup (CalculateTestIdHash ∘ name <$> table b c) →
  table b c ≠ [] → (1 < fuel)%nat →
  ∃ c', do_boarddiag fuel 2 ["boarddiag"; "runAll"] c = Ret 0 c' ∧ able c' ∧
    ∀ i e, table b c !! i = Some e → testFunction e ≠ None →
      ∃ e' f, table b c' !! i = Some e' ∧ counted R 1 f (init_entry e) e'.
Proof.
  intros Hf HI Ht Hnd Hne Hfuel. rewrite fresh_runAll by done.
  assert (able (set_up c)) as Ha.
  { split_and!; [by apply set_up_ready|unfold set_up; by rewrite wld_with_table|].
    rewrite table_set_up. apply Forall_fmap. by eapply Forall_impl. }
  destruct (run_all_once fuel (set_up c)) as (c' & H & Ha' & Hran); rewrite ?table_set_up; try done.
  { rewrite <- list_fmap_compose. exact Hnd. }
  { rewrite length_fmap. destruct Hf as (_ & _ & Hf), (table b c); simpl in *; [done|lia]. }
  exists c'. split_and!; [done|done|]. intros i e He Hfn.
  apply (Hran i (init_entry e)); [|done]. by rewrite table_set_up, list_lookup_fmap, He.
Qed.

(** C3. From power-up, [boarddiag runAll] sets the table up (ids from the names,
    zero counters), runs every test that has a function once, counts its
    failure when it did not pass, and returns success. *)
Theorem runAll_from_boot fuel c :
  fresh c → I (wld c) → total_tests I R (table b c) →
  NoDup (CalculateTestIdHash ∘ name <$> table b c) →
  table b c ≠ [] → (1 < fuel)%nat →
  ∃ c', do_boarddiag fuel 2 ["boarddiag"; "runAll"] c = Ret 0 c' ∧ able c' ∧
    ∀ i e, table b c !! i = Some e → testFunction e ≠ None →
      ∃ e' f, table b c' !! i = Some e' ∧ counted R 1 f (init_entry e) e'.
Proof. apply run_all_boot. Qed.

(** C31. [boarddiag runAll loop <n>] runs every test [n + 1] times, one more
    than its help text says. *)
Theorem runAll_loop_runs_one_more fuel n c :
  able c → NoDup (testId <$> table b c) →
  0 < Z.of_nat (length (table b c)) ≤ DIM_TEST_LIST →
  0 ≤ n < 2 ^ 32 - 1 → (Z.to_nat (n + 1) < fuel)%nat →
  ∃ c', do_boarddiag fuel 4 ["boarddiag"; "runAll"; "loop"; decimal n] c = Ret 0 c' ∧
        all_ran (n + 1) c c'.
Proof.
  intros Ha Hnd Hlen Hn Hf. pose proof (proj1 Ha) as Hr.
  destruct (do_boarddiag_prefix fuel 4 "runAll" ["loop"; decimal n] c) as (c0 & P0 & ->); [lia|].
  destruct (printed_ready _ _ P0 Hr) as [Hr0 Ht0].
  rewrite (M_bind_Ret _ _ _ false c0), (M_bind_Ret _ _ _ true c0) by done.
  destruct (run_all_ran fuel n c0) as (c1 & H1 & E1); rewrite ?Ht0;
    [by eapply printed_able|done..|].
  exists c1. split; [|by eapply printed_all_ran].
  unfold do_runAll. change (4 =? 4) with true. cbv iota.
  rewrite (M_bind_Ret _ _ _ (2, Some "loop") c0) by done. cbv iota.
  rewrite (M_bind_Ret _ _ _ (3, inl n) c0); [by erewrite M_bind_Ret by exact H1|].
  rewrite <- (wrap32_small n) at 2 by lia. apply (ProcessNextCmdArg_decimal 2); [lia|lia|done].
Qed.
End commands.

(** * Witnesses *)

Lemma demo_NoDup : NoDup (testId <$> table am335x_bbb DiagCoreDemo.c0).
Proof. by apply (bool_decide_unpack _). Qed.

Lemma run_runs_indexed_test_witness :
  ∃ c', do_boarddiag AM335X_BBB 2 3 ["boarddiag"; "run"; decimal 4294967297] DiagCoreDemo.c0
          = Ret 0 c' ∧ executed am335x_bbb DiagCoreDemo.any DiagCoreDemo.known [9] DiagCoreDemo.c0 c'.
Proof.
  apply (run_runs_indexed_test AM335X_BBB am335x_bbb DiagCoreDemo.any DiagCoreDemo.known 2 4294967297
    (DiagCoreDemo.entry "bad" (Some (DiagCoreDemo.verdict DIAG_TEST_RESULT_FAIL)) 9));
    [apply DiagCoreDemo.c0_able|unfold DIM_TEST_LIST; simpl; lia|lia
    |lia|done].
Defined.

Lemma run_rejects_bad_index_witness :
  ∃ c', do_boarddiag AM335X_BBB 2 3 ["boarddiag"; "run"; decimal 3] DiagCoreDemo.c0
          = Ret CMD_RET_USAGE c' ∧ printed DiagCoreDemo.c0 c'.
Proof.
  apply (run_rejects_bad_index AM335X_BBB am335x_bbb 2 3);
    [apply DiagCoreDemo.c0_ready|unfold DIM_TEST_LIST; simpl; lia|simpl; lia].
Defined.

Lemma runAll_runs_each_once_witness :
  ∃ c', do_boarddiag AM335X_BBB 2 2 ["boarddiag"; "runAll"] DiagCoreDemo.c0 = Ret 0 c' ∧
        all_ran am335x_bbb DiagCoreDemo.any DiagCoreDemo.known 1 DiagCoreDemo.c0 c'.
Proof.
  apply (runAll_runs_each_once AM335X_BBB am335x_bbb DiagCoreDemo.any DiagCoreDemo.known 2);
    [apply DiagCoreDemo.c0_able|apply demo_NoDup
    |unfold DIM_TEST_LIST; simpl; lia|lia].
Defined.

Lemma runAll_loop_runs_one_more_witness :
  ∃ c', do_boarddiag AM335X_BBB 9 4 ["boarddiag"; "runAll"; "loop"; decimal 5] DiagCoreDemo.c0
          = Ret 0 c' ∧ all_ran am335x_bbb DiagCoreDemo.any DiagCoreDemo.known 6 DiagCoreDemo.c0 c'.
Proof.
  apply (runAll_loop_runs_one_more AM335X_BBB am335x_bbb DiagCoreDemo.any DiagCoreDemo.known 9 5);
    [apply DiagCoreDemo.c0_able|apply demo_NoDup
    |unfold DIM_TEST_LIST; simpl; lia|lia|lia].
Defined.

Lemma list_only_prints_witness :
  ∃ c', do_boarddiag AM335X_BBB 0 2 ["boarddiag"; "LI"] DiagCoreDemo.c0 = Ret 0 c' ∧
        printed DiagCoreDemo.c0 c'.
Proof.
  apply (list_only_prints AM335X_BBB am335x_bbb 0 "LI");
    [apply DiagCoreDemo.c0_ready|unfold DIM_TEST_LIST; simpl; lia
    |repeat constructor; discriminate|done].
Defined.

Lemma unknown_command_is_usage_witness :
  ∃ c', do_boarddiag AM335X_BBB 0 2 ["boarddiag"; "r"] DiagCoreDemo.c0 = Ret CMD_RET_USAGE c' ∧
        printed DiagCoreDemo.c0 c'.
Proof.
  apply (unknown_command_is_usage AM335X_BBB 0 "r" [] 2);
    [lia|repeat constructor; discriminate|done..].
Defined.

Lemma runAll_from_boot_witness :
  ∃ c', do_boarddiag AM335X_BBB 2 2 ["boarddiag"; "runAll"] DiagCoreDemo.fresh = Ret 0 c' ∧
    able DiagCoreDemo.any DiagCoreDemo.known am335x_bbb c' ∧
    ∀ i e, table am335x_bbb DiagCoreDemo.fresh !! i = Some e → testFunction e ≠ None →
      ∃ e' f, table am335x_bbb c' !! i = Some e' ∧
        counted DiagCoreDemo.known 1 f (init_entry e) e'.
Proof.
  apply (runAll_from_boot AM335X_BBB am335x_bbb DiagCoreDemo.any DiagCoreDemo.known 2);
    [done|done|apply DiagCoreDemo.c0_able| |done|lia].
  apply (bool_decide_unpack _). by vm_compute.
Defined.
