(* ===== verification/Memory.v ===== *)
(** The memory tests: [testsuite/test_memory.c] and its header.  Memory is
    reached through the interface [MemBus]: volatile 32-bit loads and stores
    and the data-cache flush. *)

From S2P Require Import Prelude CLib Vsprintf VsprintfFacts Machine Events.

(** What software can do to memory and memory-mapped registers.  A load may
    change the hardware, so it returns the new state. *)
Class MemBus (HW : Type) := {
  mem_read32 : Z → HW → Z * HW;
  mem_write32 : Z → Z → HW → HW;
  flush_dcache_all : HW → HW;
}.

Record A_memory_data_line_test := mkDataLine {
  dl_mem_address : Z;
}.

Record A_memory_address_line_test := mkAddressLine {
  al_mem_address : Z;
  al_size : Z;
}.

Record A_memory_pattern_test := mkPattern {
  pt_mem_address : Z;
  pt_size : Z;
  pt_value : Z;
}.

Section memory_tests.
Context {HW : Type} `{!MemBus HW}.
Notation M := (M (world HW)).

Definition load (a : Z) : M Z := hw_call (mem_read32 a).
Definition store (a v : Z) : M unit := hw_do (mem_write32 a v).
Definition flush : M unit := hw_do flush_dcache_all.

(** [&addr[i]] for a [uint32_t *]. *)
Definition word_at (addr i : Z) : Z := wrap32 (addr + 4 * i).

Definition memory_file : string := "../test-framework/testsuite/test_memory.c".

(** The argument is dereferenced before the check for [NULL]. *)
Definition memory_data_line_test (testId : Z) (arg : option A_memory_data_line_test) :
    M TestResultTypes_e :=
  event ← Event_Init testId;
  p ← deref arg;
  let addr := dl_mem_address p in
  match arg with
  | None => _ ← DEBUG_ASSERT memory_file 45; mret DIAG_TEST_RESULT_ABORTED
  | Some a =>
      r ← for_loop (R := Empty_set) 33
            (λ '(pat, _), nonzero pat)
            (λ '(pat, status), (wrap32 (Z.shiftl pat 1), status))
            (λ '(pat, status),
               _ ← store addr pat;
               _ ← flush;
               read ← load addr;
               if negb (read =? pat) then
                 _ ← ReportEvent (fill_event event DIAG_DEV_DATA_MISMATCH_ERR_EVENT
                                    [dl_mem_address a; pat; read] "");
                 mret (Break (pat, DIAG_TEST_RESULT_FAIL))
               else mret (Continue (pat, status)))
            (1, DIAG_TEST_RESULT_PASS);
      match r with
      | inl (_, status) => mret status
      | inr e => match (e : Empty_set) with end
      end
  end.

(** [for (offset = 1; (offset & mask); offset <<= 1)]; [Some r] when the body
    returned [r]. *)
Definition for_offsets {R} (mask : Z) (body : Z → M (option R)) : M (option R) :=
  r ← for_loop 33 (λ offset, nonzero (Z.land offset mask))
        (λ offset, wrap32 (Z.shiftl offset 1))
        (λ offset, o ← body offset;
                   match o with
                   | Some r => mret (Return r)
                   | None => mret (Continue offset)
                   end) 1;
  match r with
  | inl _ => mret None
  | inr r => mret (Some r)
  end.

(** The mismatch report of the address-line test; the word is read again. *)
Definition report_mismatch (event : DiagEventParams_s) (addrs : list Z) (a : Z) :
    M (option TestResultTypes_e) :=
  v ← load a;
  _ ← ReportEvent (fill_event event DIAG_DEV_DATA_MISMATCH_ERR_EVENT (addrs ++ [v]) "");
  mret (Some DIAG_TEST_RESULT_FAIL).

(** The second half of the test, one offset at a time. *)
Definition address_line_pass2 (event : DiagEventParams_s) (addr mask patA patB offsetB : Z) :
    M (option TestResultTypes_e) :=
  _ ← store (word_at addr offsetB) patB;
  _ ← flush;
  v ← load (word_at addr 0);
  if negb (v =? patA) then
    report_mismatch event [word_at addr offsetB; patA] (word_at addr 0)
  else
    r ← for_offsets mask (λ offsetA,
          v ← load (word_at addr offsetA);
          if negb (v =? patA) && negb (offsetA =? offsetB)
          then report_mismatch event [word_at addr offsetB; patA] (word_at addr offsetA)
          else mret None);
    match r with
    | Some r => mret (Some r)
    | None => _ ← store (word_at addr offsetB) patA; mret None
    end.

Definition memory_address_line_test (testId : Z) (arg : option A_memory_address_line_test) :
    M TestResultTypes_e :=
  let patA := 0xAAAAAAAA in
  let patB := wrap32 (Z.lnot patA) in
  event ← Event_Init testId;
  p ← deref arg;
  let addr := al_mem_address p in
  let length := al_size p in
  match arg with
  | None => _ ← DEBUG_ASSERT memory_file 95; mret DIAG_TEST_RESULT_ABORTED
  | Some a =>
      let status := DIAG_TEST_RESULT_PASS in
      let mask := wrap32 (length / 4 - 1) in
      _ ← for_offsets (R := Empty_set) mask (λ offsetA,
            _ ← store (word_at addr offsetA) patA; mret None);
      _ ← store (word_at addr 0) patB;
      _ ← flush;
      r1 ← for_offsets mask (λ offsetA,
             v ← load (word_at addr offsetA);
             if negb (v =? patA)
             then report_mismatch event [patA] (word_at addr offsetA)
             else mret None);
      match r1 with
      | Some r => mret r
      | None =>
          _ ← store (word_at addr 0) patA;
          r2 ← for_offsets mask (address_line_pass2 event addr mask patA patB);
          match r2 with
          | Some r => mret r
          | None => mret status
          end
      end
  end.

Definition memory_pattern_test (testId : Z) (arg : option A_memory_pattern_test) :
    M TestResultTypes_e :=
  event ← Event_Init testId;
  match arg with
  | None => _ ← DEBUG_ASSERT memory_file 189; mret DIAG_TEST_RESULT_ABORTED
  | Some a =>
      let mem := pt_mem_address a in
      let value := pt_value a in
      let length := pt_size a in
      _ ← for_loop (R := Empty_set) (S (Z.to_nat (length / 4)))
            (λ i, i <? length / 4) (λ i, wrap32 (i + 1))
            (λ i, _ ← store (word_at mem i) value; mret (Continue i)) 0;
      r ← for_loop (R := Empty_set) (S (Z.to_nat (length / 4)))
            (λ '(i, _), i <? length / 4) (λ '(i, status), (wrap32 (i + 1), status))
            (λ '(i, status),
               readback ← load (word_at mem i);
               if negb (readback =? value) then
                 _ ← ReportEvent (fill_event event DIAG_DEV_DATA_MISMATCH_ERR_EVENT
                                    [mem; value; readback] "");
                 mret (Break (i, DIAG_TEST_RESULT_FAIL))
               else mret (Continue (i, status)))
            (0, DIAG_TEST_RESULT_PASS);
      match r with
      | inl (_, status) => mret status
      | inr e => match (e : Empty_set) with end
      end
  end.
End memory_tests.
