(* ===== verification/MemoryFacts.v ===== *)
(** Facts about the memory tests: on which memories each of them passes, and
    which faults of data and address lines they are sure to report. *)

From S2P Require Import Prelude CLib Vsprintf VsprintfFacts Machine Events Memory.

(** * Memories *)

(** A memory seen through its address decoder and its data path: address [a]
    selects [cell a]; a cell [x] told to hold [v] holds [keep x v].  [content]
    is what the cells hold; only addresses in [win] are described.  A working
    memory has an injective [cell], and [keep x v = v]. *)
Record DecodedRam {HW} `{!MemBus HW} (win : Z → Prop) (cell : Z → Z) (keep : Z → Z → Z)
    (content : HW → Z → Z) : Prop := {
  read_value a h : win a → (mem_read32 a h).1 = content h (cell a);
  read_keeps a h x : win a → content (mem_read32 a h).2 x = content h x;
  write_cell a v h x : win a →
    content (mem_write32 a v h) x = if x =? cell a then keep (cell a) v else content h x;
  flush_keeps h x : content (flush_dcache_all h) x = content h x;
}.

(** ** Faulty wires *)

Inductive wire_fault :=
| NoFault
| StuckLow (i : Z)
| StuckHigh (i : Z)
| ShortAnd (i j : Z)
| ShortOr (i j : Z).

Definition put_bit (v i : Z) (x : bool) : Z := if x then Z.setbit v i else Z.clearbit v i.

(** The value at the far end of a bundle of wires. *)
Definition through (f : wire_fault) (v : Z) : Z :=
  match f with
  | NoFault => v
  | StuckLow i => put_bit v i false
  | StuckHigh i => put_bit v i true
  | ShortAnd i j =>
      let x := Z.testbit v i && Z.testbit v j in put_bit (put_bit v i x) j x
  | ShortOr i j =>
      let x := Z.testbit v i || Z.testbit v j in put_bit (put_bit v i x) j x
  end.

(** A fault on wires [lo .. hi - 1]. *)
Definition faulty_between (lo hi : Z) (f : wire_fault) : Prop :=
  match f with
  | NoFault => False
  | StuckLow i | StuckHigh i => lo ≤ i < hi
  | ShortAnd i j | ShortOr i j => lo ≤ i < hi ∧ lo ≤ j < hi ∧ i ≠ j
  end.

(** ** A simulated memory *)

(** Cells in a map, read through the given decoder and data path. *)
Definition ram_bus (cell : Z → Z) (keep : Z → Z → Z) : MemBus (gmap Z Z) := {|
  mem_read32 a m := (default 0 (m !! cell a), m);
  mem_write32 a v m := <[cell a := keep (cell a) v]> m;
  flush_dcache_all m := m;
|}.

Definition ram_content (m : gmap Z Z) (x : Z) : Z := default 0 (m !! x).

Lemma ram_decoded win cell keep :
  @DecodedRam _ (ram_bus cell keep) win cell keep ram_content.
Proof.
  split; try done. intros a v h x _. unfold ram_content. simpl.
  destruct (Z.eqb_spec x (cell a)) as [->|Hne].
  - by rewrite lookup_insert_eq.
  - by rewrite lookup_insert_ne by done.
Qed.

(** * Loops over powers of two *)

(** The values of [offset], the last one being zero. *)
Definition pow (k : nat) : Z := wrap32 (2 ^ Z.of_nat k).

Lemma pow_small k : (k < 32)%nat → pow k = 2 ^ Z.of_nat k.
Proof.
  intros Hk. apply wrap32_small. split; [lia|].
  apply Z.pow_lt_mono_r; lia.
Qed.

Lemma pow_next k : wrap32 (Z.shiftl (pow k) 1) = pow (S k).
Proof.
  unfold pow, wrap32. rewrite Z.shiftl_mul_pow2, Z.mul_mod_idemp_l by lia.
  f_equal. rewrite Nat2Z.inj_succ, Z.pow_succ_r by lia. lia.
Qed.

Lemma pow_32 : pow 32 = 0.
Proof. done. Qed.

Lemma pow_inj j k : (j < 32)%nat → (k < 32)%nat → pow j = pow k → j = k.
Proof.
  intros Hj Hk. rewrite !pow_small by done. intros H.
  apply Z.pow_inj_r in H; lia.
Qed.

Lemma nonzero_pow k : (k ≤ 32)%nat → nonzero (pow k) = (k <? 32)%nat.
Proof.
  intros Hk. destruct (Nat.ltb_spec k 32).
  - rewrite pow_small by done. apply nonzero_true. pose proof (Z.pow_pos_nonneg 2 (Z.of_nat k)). lia.
  - replace k with 32%nat by lia. done.
Qed.

Lemma mask_pow m k :
  (m ≤ 32)%nat → (k ≤ m)%nat → nonzero (Z.land (pow k) (2 ^ Z.of_nat m - 1)) = (k <? m)%nat.
Proof.
  intros Hm Hk. destruct (decide (k = 32%nat)) as [->|Hne].
  - rewrite pow_32, Z.land_0_l. symmetry. apply Nat.ltb_ge. lia.
  - rewrite pow_small, Z.land_comm, nonzero_land_pow2 by lia.
    replace (2 ^ Z.of_nat m - 1) with (Z.ones (Z.of_nat m)) by (rewrite Z.ones_equiv; lia).
    rewrite Z.testbit_ones by lia. destruct (Nat.ltb_spec k m); lia.
Qed.

(** * What the tests return *)

Section on_ram.
Context {HW : Type} `{!MemBus HW} (win : Z → Prop) (cell : Z → Z) (keep : Z → Z → Z)
  (content : HW → Z → Z) (Hram : DecodedRam win cell keep content).
Notation world := (world HW).
Notation cells w x := (content (hw w) x).

Definition verdict (ok : bool) : TestResultTypes_e :=
  if ok then DIAG_TEST_RESULT_PASS else DIAG_TEST_RESULT_FAIL.

Lemma wp_load a Q (w : world) :
  win a → (∀ w', (∀ x, cells w' x = cells w x) → Q (cells w (cell a)) w') → wp (load a) Q w.
Proof.
  intros Ha HQ. apply wp_hw_call. rewrite (read_value _ _ _ _ Hram) by done.
  apply HQ. intros x. simpl. by apply (read_keeps _ _ _ _ Hram).
Qed.

Lemma wp_store a v Q (w : world) :
  win a →
  (∀ w', (∀ x, cells w' x = if x =? cell a then keep (cell a) v else cells w x) → Q tt w') →
  wp (store a v) Q w.
Proof. intros Ha HQ. apply wp_hw_do, HQ. intros x. simpl. by apply (write_cell _ _ _ _ Hram). Qed.

Lemma wp_flush Q (w : world) :
  (∀ w', (∀ x, cells w' x = cells w x) → Q tt w') → wp flush Q w.
Proof. intros HQ. apply wp_hw_do, HQ. intros x. simpl. apply (flush_keeps _ _ _ _ Hram). Qed.

(** The cell keeps every single-bit pattern. *)
Definition keeps_each_bit (x : Z) : bool :=
  forallb (λ k, keep x (2 ^ Z.of_nat k) =? 2 ^ Z.of_nat k) (seq 0 32).

Lemma keeps_each_bit_spec x :
  keeps_each_bit x = true ↔ ∀ k, (k < 32)%nat → keep x (pow k) = pow k.
Proof.
  unfold keeps_each_bit. rewrite forallb_forall. split.
  - intros H k Hk. rewrite pow_small by done. apply Z.eqb_eq, H, in_seq. lia.
  - intros H k Hk%in_seq. apply Z.eqb_eq. rewrite <- !pow_small by lia. apply H. lia.
Qed.

Lemma data_line_verdict tid a (w : world) :
  win (dl_mem_address a) →
  wp (memory_data_line_test tid (Some a))
    (λ r _, r = verdict (keeps_each_bit (cell (dl_mem_address a)))) w.
Proof.
  intros Ha. set (x := cell (dl_mem_address a)). set (addr := dl_mem_address a) in *.
  unfold memory_data_line_test. wp_run. fold addr.
  apply (wp_for_seq (λ k, (pow k, DIAG_TEST_RESULT_PASS)) 32
           (λ k _, ∀ j, (j < k)%nat → keep x (pow j) = pow j)); [lia|..].
  - intros k Hk. by apply nonzero_pow.
  - lia.
  - intros k s Hk HI. apply wp_bind, wp_store; [done|]. intros w1 H1.
    apply wp_bind, wp_flush. intros w2 H2. apply wp_bind, wp_load; [done|]. intros w3 _.
    rewrite H2, H1. fold x. rewrite Z.eqb_refl.
    destruct (Z.eqb_spec (keep x (pow k)) (pow k)) as [Heq|Hne]; cbn [negb].
    + wp_run. split; [by rewrite pow_next|]. intros j Hj.
      destruct (decide (j = k)) as [->|]; [done|apply HI; lia].
    + wp_run. unfold verdict. destruct (keeps_each_bit x) eqn:Hok; [|done].
      rewrite keeps_each_bit_spec in Hok. by rewrite Hok in Hne.
  - intros s HI. wp_run. by rewrite (proj2 (keeps_each_bit_spec x)).
Qed.

(** Every word of the area keeps the pattern. *)
Definition keeps_pattern (a : A_memory_pattern_test) : bool :=
  forallb (λ i, keep (cell (word_at (pt_mem_address a) (Z.of_nat i))) (pt_value a) =? pt_value a)
    (seq 0 (Z.to_nat (pt_size a / 4))).

Lemma pattern_verdict tid a (w : world) :
  0 ≤ pt_size a < 2 ^ 32 →
  (∀ i, 0 ≤ i < pt_size a / 4 → win (word_at (pt_mem_address a) i)) →
  wp (memory_pattern_test tid (Some a)) (λ r _, r = verdict (keeps_pattern a)) w.
Proof.
  intros Hsize Hwin. set (n := Z.to_nat (pt_size a / 4)).
  set (x := λ k : nat, cell (word_at (pt_mem_address a) (Z.of_nat k))). set (v := pt_value a).
  assert (∀ k, (k ≤ n)%nat → (Z.of_nat k <? pt_size a / 4) = (k <? n)%nat) as Hcond.
  { intros k Hk. destruct (Nat.ltb_spec k n); lia. }
  assert (∀ k, (k < n)%nat → wrap32 (Z.of_nat k + 1) = Z.of_nat (S k)) as Hnext.
  { intros k Hk. rewrite wrap32_small; lia. }
  unfold memory_pattern_test. wp_run. fold n v.
  apply (wp_for_seq Z.of_nat n (λ k w, ∀ j, (j < k)%nat → cells w (x j) = keep (x j) v)); [lia|..].
  - done.
  - lia.
  - intros k w1 Hk HI. apply wp_bind, wp_store; [apply Hwin; lia|]. intros w2 H2. wp_run.
    split; [by apply Hnext|]. intros j Hj. rewrite H2. fold (x k).
    destruct (Z.eqb_spec (x j) (x k)) as [->|Hne]; [done|]. apply HI.
    assert (j ≠ k) by congruence. lia.
  - intros w1 H1. wp_run.
    apply (wp_for_seq (λ k, (Z.of_nat k, DIAG_TEST_RESULT_PASS)) n
      (λ k w, (∀ j, (j < n)%nat → cells w (x j) = keep (x j) v) ∧
              ∀ j, (j < k)%nat → keep (x j) v = v)); [lia|..].
    + done.
    + split; [done|lia].
    + intros k w2 Hk [Hc HI]. apply wp_bind, wp_load; [apply Hwin; lia|]. intros w3 H3.
      fold (x k). rewrite Hc by done.
      destruct (Z.eqb_spec (keep (x k) v) v) as [Heq|Hne]; cbn [negb]; wp_run.
      * split; [by rewrite Hnext|]. split; [intros j Hj; rewrite H3; auto|].
        intros j Hj. destruct (decide (j = k)) as [->|]; [done|apply HI; lia].
      * unfold verdict. destruct (keeps_pattern a) eqn:Hok; [|done].
        unfold keeps_pattern in Hok. rewrite forallb_forall in Hok. destruct Hne.
        apply Z.eqb_eq, Hok, in_seq. lia.
    + intros w2 [_ HI]. wp_run. replace (keeps_pattern a) with true; [done|]. symmetry.
      apply forallb_forall. intros k Hk%in_seq. apply Z.eqb_eq, HI. lia.
Qed.

(** ** The address-line test *)

Lemma wp_for_offsets {R} m (I : nat → world → Prop) (body : Z → M world (option R)) Q w :
  (m ≤ 32)%nat → I 0%nat w →
  (∀ k w, (k < m)%nat → I k w →
     wp (body (pow k)) (λ o w', match o with None => I (S k) w' | Some r => Q (Some r) w' end) w) →
  (∀ w, I m w → Q None w) →
  wp (for_offsets (2 ^ Z.of_nat m - 1) body) Q w.
Proof.
  intros Hm HI Hbody Hexit. unfold for_offsets. apply wp_bind.
  apply (wp_for_seq pow m I); [lia|by intros; apply mask_pow|done|..].
  - intros k w' Hk HIk. apply wp_bind. eapply wp_mono; [by apply Hbody|].
    intros [r|] w'' H; apply wp_ret; [done|]. split; [apply pow_next|done].
  - done.
Qed.

(** The words the test writes: index 0 and the powers of two below [2^m]. *)
Definition tested_cells (addr : Z) (m : nat) : list Z :=
  cell (word_at addr 0) :: ((λ k, cell (word_at addr (2 ^ Z.of_nat k))) <$> seq 0 m).

(** No two of them share a cell. *)
Definition lines_distinct (addr : Z) (m : nat) : bool := bool_decide (NoDup (tested_cells addr m)).

Lemma lines_distinct_spec addr m :
  (m ≤ 32)%nat →
  lines_distinct addr m = true ↔
  (∀ k, (k < m)%nat → cell (word_at addr (pow k)) ≠ cell (word_at addr 0)) ∧
  (∀ j k, (j < m)%nat → (k < m)%nat →
     cell (word_at addr (pow j)) = cell (word_at addr (pow k)) → j = k).
Proof.
  intros Hm. unfold lines_distinct, tested_cells. rewrite bool_decide_eq_true, NoDup_cons.
  set (f := λ k : nat, cell (word_at addr (2 ^ Z.of_nat k))).
  assert (∀ k, (k < m)%nat → cell (word_at addr (pow k)) = f k) as Hf.
  { intros k Hk. rewrite pow_small by lia. done. }
  split.
  - intros [Hin Hnd]. split.
    + intros k Hk. rewrite Hf by done. intros Heq. apply Hin, list_elem_of_fmap.
      exists k. split; [done|]. apply elem_of_seq. lia.
    + intros j k Hj Hk. rewrite !Hf by done. intros Heq.
      apply (NoDup_lookup (f <$> seq 0 m) j k (f k) Hnd);
        rewrite list_lookup_fmap, lookup_seq_lt by done; simpl; congruence.
  - intros [H0 Hinj]. split.
    + intros (k & Heq & Hk)%list_elem_of_fmap. apply elem_of_seq in Hk.
      apply (H0 k); [lia|]. by rewrite Hf by lia.
    + apply NoDup_fmap_2_strong; [|apply NoDup_seq].
      intros j k Hj%elem_of_seq Hk%elem_of_seq Heq. apply Hinj; [lia|lia|]. by rewrite !Hf by lia.
Qed.

Section address_lines.
Context (addr : Z) (m : nat) (Hm : (m ≤ 32)%nat).
Notation c0 := (cell (word_at addr 0)).
Notation line k := (cell (word_at addr (pow k))).
Context (Hwin0 : win (word_at addr 0)) (Hwin : ∀ k, (k < m)%nat → win (word_at addr (pow k))).

(** The two patterns, which the tested cells keep. *)
Definition patterns_kept (patA patB : Z) : Prop :=
  ∀ x, x = c0 ∨ (∃ k, (k < m)%nat ∧ x = line k) → keep x patA = patA ∧ keep x patB = patB.

Context (patA patB : Z) (Hab : patA ≠ patB) (Hkeep : patterns_kept patA patB).

Lemma keep0 : keep c0 patA = patA ∧ keep c0 patB = patB.
Proof using Hkeep. apply Hkeep. by left. Qed.

Lemma keep_line k : (k < m)%nat → keep (line k) patA = patA ∧ keep (line k) patB = patB.
Proof using Hkeep. intros Hk. apply Hkeep. right. by exists k. Qed.

Lemma wp_report_mismatch event addrs a Q (w : world) :
  win a → (∀ w', Q (Some DIAG_TEST_RESULT_FAIL) w') → wp (report_mismatch event addrs a) Q w.
Proof using Hram.
  intros Ha HQ. apply wp_bind, wp_load; [done|]. intros w1 _. wp_run. apply HQ.
Qed.

(** All tested cells hold [patA]. *)
Definition all_A (w : world) : Prop := cells w c0 = patA ∧ ∀ k, (k < m)%nat → cells w (line k) = patA.

(** One offset of the second half: fails exactly when another tested word
    shares its cell. *)
Lemma wp_pass2 event j (Q : option TestResultTypes_e → world → Prop) (w : world) :
  (j < m)%nat → (∀ k, (k < m)%nat → line k ≠ c0) → all_A w →
  (∀ w', (∃ k, (k < m)%nat ∧ k ≠ j ∧ line k = line j) → Q (Some DIAG_TEST_RESULT_FAIL) w') →
  (∀ w', all_A w' → (∀ k, (k < m)%nat → line k = line j → k = j) → Q None w') →
  wp (address_line_pass2 event addr (2 ^ Z.of_nat m - 1) patA patB (pow j)) Q w.
Proof using All.
  intros Hj H0 [Hc0 Hc] Hfail Hok. unfold address_line_pass2.
  apply wp_bind, wp_store; [auto|]. intros w1 H1. rewrite (proj2 (keep_line j Hj)) in H1.
  apply wp_bind, wp_flush. intros w2 H2. apply wp_bind, wp_load; [done|]. intros w3 H3.
  assert (cells w2 c0 = patA) as ->.
  { rewrite H2, H1, (proj2 (Z.eqb_neq _ _)); [done|]. intros Heq. by apply (H0 j). }
  rewrite Z.eqb_refl. cbn [negb]. apply wp_bind.
  apply (wp_for_offsets m (λ i w, (∀ x, cells w x = cells w1 x) ∧
           ∀ k, (k < i)%nat → line k = line j → k = j)); [done|..].
  - split; [intros x; by rewrite H3, H2|lia].
  - intros k w4 Hk [H4 HI]. apply wp_bind, wp_load; [auto|]. intros w5 H5.
    rewrite H4, H1. destruct (Z.eqb_spec (line k) (line j)) as [Heq|Hne].
    + rewrite (proj2 (Z.eqb_neq _ _)) by congruence. cbn [negb andb].
      destruct (Z.eqb_spec (pow k) (pow j)) as [Hkj|Hkj]; cbn [negb].
      * apply pow_inj in Hkj as ->; [|lia..]. wp_run. split; [intros x; by rewrite H5, H4|].
        intros i Hi Hij. destruct (decide (i = j)) as [->|]; [done|apply HI; [lia|done]].
      * apply wp_report_mismatch; [auto|]. intros w6. wp_run. apply Hfail. exists k.
        split_and!; [done| |done]. intros ->. done.
    + rewrite Hc, Z.eqb_refl by done. cbn [negb andb]. wp_run.
      split; [intros x; by rewrite H5, H4|].
      intros i Hi Hij. destruct (decide (i = k)) as [->|]; [done|apply HI; [lia|done]].
  - intros w4 [H4 HI]. apply wp_bind, wp_store; [auto|]. intros w5 H5. wp_run.
    apply Hok; [|done]. rewrite (proj1 (keep_line j Hj)) in H5.
    assert (∀ x, cells w x = patA → cells w5 x = patA) as Hback.
    { intros x Hx. rewrite H5, H4, H1. by destruct (Z.eqb_spec x (line j)). }
    split; [by apply Hback|]. intros k Hk. by apply Hback, Hc.
Qed.

(** The first loop writes [patA] to every power of two. *)
Lemma wp_write_A (Q : option Empty_set → world → Prop) (w : world) :
  (∀ w', (∀ k, (k < m)%nat → cells w' (line k) = patA) → Q None w') →
  wp (for_offsets (2 ^ Z.of_nat m - 1) (λ o, _ ← store (word_at addr o) patA; mret None)) Q w.
Proof using All.
  intros HQ.
  apply (wp_for_offsets m (λ i w, ∀ k, (k < i)%nat → cells w (line k) = patA)); [done|lia|..|done].
  intros k w1 Hk HI. apply wp_bind, wp_store; [auto|]. intros w2 H2. wp_run. intros i Hi.
  rewrite H2, (proj1 (keep_line k Hk)).
  destruct (Z.eqb_spec (line i) (line k)) as [|Hne]; [done|].
  apply HI. assert (i ≠ k) by congruence. lia.
Qed.

(** The second loop fails exactly when a power of two shares the cell of
    offset 0, which holds [patB]. *)
Lemma wp_check_A event (Q : option TestResultTypes_e → world → Prop) (w : world) :
  (∀ k, (k < m)%nat → cells w (line k) = if line k =? c0 then patB else patA) →
  (∀ w', (∃ k, (k < m)%nat ∧ line k = c0) → Q (Some DIAG_TEST_RESULT_FAIL) w') →
  (∀ w', (∀ k, (k < m)%nat → line k ≠ c0 ∧ cells w' (line k) = patA) → Q None w') →
  wp (for_offsets (2 ^ Z.of_nat m - 1) (λ o,
        v ← load (word_at addr o);
        if negb (v =? patA) then report_mismatch event [patA] (word_at addr o)
        else mret None)) Q w.
Proof using All.
  intros Hw Hfail Hok.
  apply (wp_for_offsets m (λ i w, (∀ k, (k < m)%nat → cells w (line k) =
    if line k =? c0 then patB else patA) ∧ ∀ k, (k < i)%nat → line k ≠ c0)); [done|split; [done|lia]|..].
  - intros k w4 Hk [Hc HI]. wp_run. apply wp_load; [auto|]. intros w5 H5.
    rewrite Hc by done. destruct (Z.eqb_spec (line k) c0) as [Heq|Hne].
    + rewrite (proj2 (Z.eqb_neq _ _)) by congruence. cbn [negb].
      apply wp_report_mismatch; [auto|]. intros w6. apply Hfail. by exists k.
    + rewrite Z.eqb_refl. cbn [negb]. wp_run. split; [intros i Hi; rewrite H5; auto|].
      intros i Hi. destruct (decide (i = k)) as [->|]; [done|apply HI; lia].
  - intros w4 [Hc Hno]. apply Hok. intros k Hk. split; [auto|].
    rewrite Hc by done. by rewrite (proj2 (Z.eqb_neq _ _) (Hno k Hk)).
Qed.

(** The third loop fails exactly when two powers of two share a cell. *)
Lemma wp_check_B event (Q : option TestResultTypes_e → world → Prop) (w : world) :
  (∀ k, (k < m)%nat → line k ≠ c0) → all_A w →
  (∀ w', (∃ j k, (j < m)%nat ∧ (k < m)%nat ∧ k ≠ j ∧ line k = line j) →
     Q (Some DIAG_TEST_RESULT_FAIL) w') →
  (∀ w', (∀ j k, (j < m)%nat → (k < m)%nat → line j = line k → j = k) → Q None w') →
  wp (for_offsets (2 ^ Z.of_nat m - 1)
        (address_line_pass2 event addr (2 ^ Z.of_nat m - 1) patA patB)) Q w.
Proof using All.
  intros H0 HA Hfail Hok.
  apply (wp_for_offsets m (λ i w, all_A w ∧
    ∀ j k, (j < i)%nat → (k < m)%nat → line k = line j → k = j)); [done|split; [done|lia]|..].
  - intros j w6 Hj [HallA HI]. apply wp_pass2; [done..| |].
    + intros w7 (k & Hk & Hkj & Heq). apply Hfail. by exists j, k.
    + intros w7 HA7 Hj7. split; [done|]. intros j' k Hj' Hk Heq.
      destruct (decide (j' = j)) as [->|]; [by apply Hj7|]. apply HI; [lia|done|done].
  - intros w6 [_ Hinj]. apply Hok. intros j k Hj Hk Heq. by apply Hinj.
Qed.
End address_lines.

Lemma address_line_verdict tid a m (w : world) :
  let addr := al_mem_address a in
  (m < 30)%nat → al_size a = 4 * 2 ^ Z.of_nat m →
  win (word_at addr 0) → (∀ k, (k < m)%nat → win (word_at addr (pow k))) →
  patterns_kept addr m 0xAAAAAAAA 0x55555555 →
  wp (memory_address_line_test tid (Some a)) (λ r _, r = verdict (lines_distinct addr m)) w.
Proof using Hram.
  intros addr Hm Hsize Hwin0 Hwin Hkeep.
  assert (wrap32 (al_size a / 4 - 1) = 2 ^ Z.of_nat m - 1) as Hmask.
  { assert (2 ^ Z.of_nat m < 2 ^ 30) by (apply Z.pow_lt_mono_r; lia).
    assert (0 < 2 ^ Z.of_nat m) by (apply Z.pow_pos_nonneg; lia).
    rewrite Hsize, Z.mul_comm, Z.div_mul by lia. apply wrap32_small. lia. }
  unfold memory_address_line_test. wp_run. rewrite Hmask. fold addr.
  change (wrap32 (Z.lnot 0xAAAAAAAA)) with 0x55555555.
  destruct (keep0 addr m _ _ Hkeep) as [H0A H0B].
  assert (32 ≥ m)%nat as Hm' by lia. pose proof (lines_distinct_spec addr m Hm') as Hspec.
  apply wp_write_A with (patB := 0x55555555); [done..|]. intros w1 HA. wp_run.
  apply wp_store; [done|]. intros w2 H2. wp_run. apply wp_flush. intros w3 H3. wp_run.
  apply wp_check_A with (patB := 0x55555555); [done..| | |].
  - intros k Hk. by rewrite H3, H2, H0B, HA.
  - intros w4 (k & Hk & Heq). wp_run. destruct (lines_distinct addr m); [|done].
    by destruct (proj1 Hspec eq_refl) as [Hno%(λ H, H k Hk) _].
  - intros w4 Hno. wp_run. apply wp_store; [done|]. intros w5 H5. wp_run. rewrite H0A in H5.
    apply wp_check_B; try done.
    + intros k Hk. by apply Hno.
    + split; [by rewrite H5, Z.eqb_refl|]. intros k Hk. destruct (Hno k Hk) as [Hne HA4].
      by rewrite H5, (proj2 (Z.eqb_neq _ _) Hne).
    + intros w6 (j & k & Hj & Hk & Hkj & Heq). wp_run. destruct (lines_distinct addr m); [|done].
      destruct (proj1 Hspec eq_refl) as [_ Hinj]. destruct Hkj. by apply Hinj.
    + intros w6 Hinj. wp_run. rewrite (proj2 Hspec); [done|]. split; [|done].
      intros k Hk. by apply Hno.
Qed.

(** The data-line test returns, and passes exactly when the tested word
    keeps each of the 32 single-bit patterns. *)
Theorem data_line_result tid a (w : world) :
  win (dl_mem_address a) →
  ∃ w', memory_data_line_test tid (Some a) w =
          Ret (verdict (keeps_each_bit (cell (dl_mem_address a)))) w'.
Proof using Hram.
  intros Ha. pose proof (data_line_verdict tid a w Ha) as (r & w' & H & ->)%wp_run. by exists w'.
Qed.

(** The address-line test of [4 * 2^m] bytes returns, and passes exactly
    when the word at offset 0 and the [m] words at power-of-two offsets are
    in pairwise different cells. *)
Theorem address_line_result tid a m (w : world) :
  (m < 30)%nat → al_size a = 4 * 2 ^ Z.of_nat m →
  win (word_at (al_mem_address a) 0) →
  (∀ k, (k < m)%nat → win (word_at (al_mem_address a) (pow k))) →
  patterns_kept (al_mem_address a) m 0xAAAAAAAA 0x55555555 →
  ∃ w', memory_address_line_test tid (Some a) w =
          Ret (verdict (lines_distinct (al_mem_address a) m)) w'.
Proof using Hram.
  intros Hm Hs H0 Hk Hp.
  pose proof (address_line_verdict tid a m w Hm Hs H0 Hk Hp) as (r & w' & H & ->)%wp_run.
  by exists w'.
Qed.

(** The pattern test returns, and passes exactly when every word of the
    area keeps the pattern. *)
Theorem pattern_result tid a (w : world) :
  0 ≤ pt_size a < 2 ^ 32 →
  (∀ i, 0 ≤ i < pt_size a / 4 → win (word_at (pt_mem_address a) i)) →
  ∃ w', memory_pattern_test tid (Some a) w = Ret (verdict (keeps_pattern a)) w'.
Proof using Hram.
  intros Hs Hw. pose proof (pattern_verdict tid a w Hs Hw) as (r & w' & H & ->)%wp_run.
  by exists w'.
Qed.
End on_ram.

(** * Wire faults *)

Lemma testbit_put_bit v i x j :
  0 ≤ i → Z.testbit (put_bit v i x) j = if j =? i then x else Z.testbit v j.
Proof.
  intros Hi. unfold put_bit. rewrite Z.eqb_sym. destruct x.
  - rewrite Z.setbit_eqb by done. by destruct (i =? j).
  - rewrite Z.clearbit_eqb. destruct (i =? j); [by rewrite andb_false_r|by rewrite andb_true_r].
Qed.

Lemma testbit_pow2 k j : 0 ≤ k → Z.testbit (2 ^ k) j = (j =? k).
Proof.
  intros Hk. rewrite Z.eqb_sym. destruct (Z.eqb_spec k j) as [->|Hne].
  - by apply Z.pow2_bits_true.
  - by apply Z.pow2_bits_false.
Qed.

(** Some single-bit pattern shows a fault of the data lines. *)
Lemma data_fault_shows f :
  faulty_between 0 32 f → ∃ k, 0 ≤ k < 32 ∧ through f (2 ^ k) ≠ 2 ^ k.
Proof.
  assert (∀ a b : Z, (∃ j, Z.testbit a j ≠ Z.testbit b j) → a ≠ b) as Hbit
    by (intros a b (j & Hj) ->; done).
  destruct f as [|i|i|i j|i j]; cbn [faulty_between through]; [done|..].
  - intros Hi. exists i. split; [done|]. apply Hbit. exists i.
    rewrite testbit_put_bit, testbit_pow2, Z.eqb_refl by lia. done.
  - intros Hi. exists (if i =? 0 then 1 else 0). split; [by destruct (i =? 0)|].
    apply Hbit. exists i. rewrite testbit_put_bit, testbit_pow2, Z.eqb_refl by (destruct (i =? 0); lia).
    destruct (Z.eqb_spec i 0) as [->|]; [done|]. by rewrite (proj2 (Z.eqb_neq i 0)).
  - intros (Hi & Hj & Hij). exists i. split; [done|]. apply Hbit. exists i.
    rewrite !testbit_put_bit, !testbit_pow2, !Z.eqb_refl by lia.
    by rewrite (proj2 (Z.eqb_neq i j)), (proj2 (Z.eqb_neq j i)) by done.
  - intros (Hi & Hj & Hij). exists i. split; [done|]. apply Hbit. exists j.
    rewrite !testbit_put_bit, !testbit_pow2, !Z.eqb_refl by lia.
    by rewrite (proj2 (Z.eqb_neq j i)) by done.
Qed.

(** The address of a power-of-two offset differs from the base in one bit. *)
Lemma word_at_pow addr m k :
  0 ≤ addr < 2 ^ 32 → addr mod 2 ^ (Z.of_nat m + 2) = 0 → (k < m)%nat → (m < 30)%nat →
  word_at addr (2 ^ Z.of_nat k) = Z.setbit addr (Z.of_nat k + 2).
Proof.
  intros Ha Hal Hk Hm. set (n := Z.of_nat m + 2) in *. set (p := Z.of_nat k + 2).
  assert (2 ^ p * 2 ≤ 2 ^ n) as Hpn.
  { rewrite Z.mul_comm, <- Z.pow_succ_r by lia. apply Z.pow_le_mono_r; lia. }
  assert (0 < 2 ^ p) by (apply Z.pow_pos_nonneg; lia).
  assert (2 ^ 32 mod 2 ^ n = 0) as Hd.
  { replace 32 with ((32 - n) + n) by lia. rewrite Z.pow_add_r by lia.
    apply Z.mod_mul. lia. }
  unfold word_at. replace (4 * 2 ^ Z.of_nat k) with (2 ^ p).
  2:{ unfold p. rewrite Z.pow_add_r by lia. lia. }
  assert (Z.land addr (2 ^ p) = 0) as Hland.
  { rewrite land_pow2 by lia. rewrite <- (Z.mod_pow2_bits_low addr n p), Hal, Z.bits_0 by lia.
    done. }
  rewrite wrap32_small.
  - rewrite Z.add_nocarry_lxor, Z.lxor_lor by done. by rewrite Z.setbit_spec'.
  - split; [lia|].
    pose proof (Z.div_mod addr (2 ^ n) ltac:(lia)). pose proof (Z.div_mod (2 ^ 32) (2 ^ n) ltac:(lia)).
    assert (addr / 2 ^ n < 2 ^ 32 / 2 ^ n) by nia. nia.
Qed.

(** Setting one more bit of a base whose tested bits are clear. *)
Lemma bits_of_line addr lo hi p j :
  (∀ i, lo ≤ i < hi → Z.testbit addr i = false) → lo ≤ p < hi → 0 ≤ lo → lo ≤ j < hi →
  Z.testbit (Z.setbit addr p) j = (j =? p).
Proof.
  intros Hz Hp Hlo Hj. rewrite Z.setbit_eqb, Hz, orb_false_r, Z.eqb_sym by lia. done.
Qed.

(** Every fault of the tested address lines makes two tested words share a
    cell. *)
Lemma address_fault_aliases f addr lo hi :
  (∀ i, lo ≤ i < hi → Z.testbit addr i = false) → 0 ≤ lo → faulty_between lo hi f →
  (∃ p, lo ≤ p < hi ∧ through f (Z.setbit addr p) = through f addr) ∨
  (∃ p q, lo ≤ p < hi ∧ lo ≤ q < hi ∧ p ≠ q ∧
          through f (Z.setbit addr p) = through f (Z.setbit addr q)).
Proof.
  intros Hz Hlo. destruct f as [|i|i|i j|i j]; cbn [faulty_between through]; [done|..].
  - intros Hi. left. exists i. split; [done|]. apply Z.bits_inj'. intros n Hn.
    rewrite !testbit_put_bit, Z.setbit_eqb, (Z.eqb_sym i n) by lia. by destruct (n =? i).
  - intros Hi. left. exists i. split; [done|]. apply Z.bits_inj'. intros n Hn.
    rewrite !testbit_put_bit, Z.setbit_eqb, (Z.eqb_sym i n) by lia. by destruct (n =? i).
  - intros (Hi & Hj & Hij). left. exists i. split; [done|]. apply Z.bits_inj'. intros n Hn.
    rewrite !testbit_put_bit, (bits_of_line addr lo hi i j), !Hz, andb_false_r by (done || lia).
    rewrite (proj2 (Z.eqb_neq j i)), andb_false_r, Z.setbit_eqb, (Z.eqb_sym i n) by lia.
    by destruct (n =? j), (n =? i).
  - intros (Hi & Hj & Hij). right. exists i, j. split_and!; [lia..|]. apply Z.bits_inj'. intros n Hn.
    rewrite !testbit_put_bit, (bits_of_line addr lo hi i i), (bits_of_line addr lo hi j j),
      !Z.eqb_refl, orb_true_r, orb_true_l by (done || lia).
    rewrite !Z.setbit_eqb, (Z.eqb_sym i n), (Z.eqb_sym j n) by lia.
    by destruct (n =? j), (n =? i).
Qed.

Section wire_faults.
Context {HW : Type} `{!MemBus HW} (win : Z → Prop) (content : HW → Z → Z).

(** C17. Every data line that is stuck, and every pair of data lines that are
    shorted, makes the data-line test fail. *)
Theorem data_line_test_detects f cell tid a (w : world HW) :
  faulty_between 0 32 f → DecodedRam win cell (λ _, through f) content →
  win (dl_mem_address a) →
  ∃ w', memory_data_line_test tid (Some a) w = Ret DIAG_TEST_RESULT_FAIL w'.
Proof.
  intros Hf Hram Ha.
  pose proof (data_line_verdict win cell _ content Hram tid a w Ha) as (r & w' & H & ->)%wp_run.
  exists w'. rewrite H. f_equal. unfold verdict.
  match goal with |- (if ?x then _ else _) = _ => destruct x eqn:Hok end; [|done].
  destruct (data_fault_shows f Hf) as (k & Hk & Hne). destruct Hne.
  unfold keeps_each_bit in Hok. rewrite forallb_forall in Hok.
  specialize (Hok (Z.to_nat k) ltac:(apply in_seq; lia)).
  rewrite Z2Nat.id in Hok by lia. by apply Z.eqb_eq.
Qed.

(** C18. Every address line under test that is stuck, and every pair of them
    that are shorted, makes the address-line test fail, for an area of
    [4 * 2^m] bytes at a multiple of its size. *)
Theorem address_line_test_detects f tid a m (w : world HW) :
  faulty_between 2 (Z.of_nat m + 2) f → DecodedRam win (through f) (λ _ v, v) content →
  (m < 30)%nat → al_size a = 4 * 2 ^ Z.of_nat m →
  0 ≤ al_mem_address a < 2 ^ 32 → al_mem_address a mod 2 ^ (Z.of_nat m + 2) = 0 →
  win (word_at (al_mem_address a) 0) →
  (∀ k, (k < m)%nat → win (word_at (al_mem_address a) (pow k))) →
  ∃ w', memory_address_line_test tid (Some a) w = Ret DIAG_TEST_RESULT_FAIL w'.
Proof.
  intros Hf Hram Hm Hs Ha Hal H0 Hk. set (addr := al_mem_address a) in *.
  pose proof (address_line_verdict win (through f) _ content Hram tid a m w Hm Hs H0 Hk
    ltac:(done)) as (r & w' & H & ->)%wp_run.
  exists w'. rewrite H. f_equal. unfold verdict. fold addr.
  destruct (lines_distinct _ addr m) eqn:Hd; [|done]. exfalso.
  apply lines_distinct_spec in Hd as [Hno Hinj]; [|lia].
  assert (word_at addr 0 = addr) as Hw0 by (unfold word_at; rewrite wrap32_small; lia).
  assert (∀ p, 2 ≤ p < Z.of_nat m + 2 →
            word_at addr (pow (Z.to_nat (p - 2))) = Z.setbit addr p) as Hwp.
  { intros p Hp. rewrite pow_small, (word_at_pow addr m) by (done || lia). f_equal. lia. }
  assert (∀ i, 2 ≤ i < Z.of_nat m + 2 → Z.testbit addr i = false) as Hz.
  { intros i Hi. by rewrite <- (Z.mod_pow2_bits_low addr (Z.of_nat m + 2)), Hal, Z.bits_0 by lia. }
  destruct (address_fault_aliases f addr _ _ Hz) as [(p & Hp & Heq)|(p & q & Hp & Hq & Hpq & Heq)];
    [done|done|..].
  - apply (Hno (Z.to_nat (p - 2))); [lia|]. by rewrite Hwp, Hw0.
  - apply Hpq. rewrite <- !Hwp in Heq by done. apply Hinj in Heq; lia.
Qed.
End wire_faults.

(** * A write-back cache *)

(** Memory behind a write-back cache: stores stay in the cache until it is
    flushed, loads are served from it when they can be. *)
Record cached := mkCached {
  lines : gmap Z Z;
  behind : gmap Z Z;
}.

Definition cached_read (a : Z) (m : cached) : Z * cached :=
  (default (ram_content (behind m) a) (lines m !! a), m).

Definition cached_write (a v : Z) (m : cached) : cached :=
  mkCached (<[a := v]> (lines m)) (behind m).

(** Flushing writes every line back to cells that [keep] what they can. *)
Definition cached_flush (keep : Z → Z → Z) (m : cached) : cached :=
  mkCached ∅ (map_imap (λ a v, Some (keep a v)) (lines m) ∪ behind m).

Definition cached_bus (keep : Z → Z → Z) : MemBus cached := {|
  mem_read32 := cached_read;
  mem_write32 := cached_write;
  flush_dcache_all := cached_flush keep;
|}.

(** The cache alone, never flushed, is a working memory. *)
Definition unflushed_bus : MemBus cached := {|
  mem_read32 := cached_read;
  mem_write32 := cached_write;
  flush_dcache_all m := m;
|}.

Definition cached_content (m : cached) (x : Z) : Z :=
  default (ram_content (behind m) x) (lines m !! x).

Lemma unflushed_decoded :
  @DecodedRam _ unflushed_bus (λ _, True) (λ a, a) (λ _ v, v) cached_content.
Proof.
  split; try done. intros a v h x _. unfold cached_content. simpl.
  destruct (Z.eqb_spec x a) as [->|Hne].
  - by rewrite lookup_insert_eq.
  - by rewrite lookup_insert_ne by done.
Qed.

(** Behind a write-back cache the pattern test passes whatever the memory
    does to the data: it never flushes the cache, so it reads back the
    cache's copy. *)
Theorem pattern_test_never_leaves_cache keep tid a (w : world cached) :
  0 ≤ pt_size a < 2 ^ 32 →
  ∃ w', @memory_pattern_test _ (cached_bus keep) tid (Some a) w = Ret DIAG_TEST_RESULT_PASS w'.
Proof.
  intros Hs.
  pose proof (pattern_verdict (λ _, True) _ _ _ unflushed_decoded tid a w Hs ltac:(done))
    as (r & w' & H & ->)%wp_run.
  exists w'. change (@memory_pattern_test _ (cached_bus keep) tid (Some a) w)
    with (@memory_pattern_test _ unflushed_bus tid (Some a) w). rewrite H. f_equal.
  unfold verdict. replace (keeps_pattern (λ a, a) (λ _ v, v) a) with true; [done|].
  symmetry. apply forallb_forall. intros k _. apply Z.eqb_refl.
Qed.

(** A missing argument of the data-line or the address-line test is
    dereferenced before it is checked; the pattern test checks it first. *)
Theorem missing_argument {HW} `{!MemBus HW} tid (w : world HW) :
  memory_data_line_test tid None w = Crash NULL_DEREF w ∧
  memory_address_line_test tid None w = Crash NULL_DEREF w ∧
  ∃ w', memory_pattern_test tid None w = Ret DIAG_TEST_RESULT_ABORTED w' ∧ hw w' = hw w.
Proof.
  split_and!; [done|done|].
  assert (wp (memory_pattern_test tid None)
            (λ r w', r = DIAG_TEST_RESULT_ABORTED ∧ hw w' = hw w) w) as (r & w' & H & -> & Hw)%wp_run.
  { unfold memory_pattern_test. by wp_run. }
  by exists w'.
Qed.

(** * Witnesses *)

Module MemoryDemo.
(** A 2 KiB area of the BeagleBone's memory with a broken wire. *)
Definition area : Z := 0x88080000.
Definition start : world (gmap Z Z) := boot_world ∅.
End MemoryDemo.

Lemma data_line_result_witness :
  ∃ w', @memory_data_line_test _ (ram_bus (λ a, a) (λ _ v, v)) 1
          (Some (mkDataLine MemoryDemo.area)) MemoryDemo.start = Ret DIAG_TEST_RESULT_PASS w'.
Proof.
  apply (@data_line_result _ (ram_bus (λ a, a) (λ _ v, v)) (λ _, True) (λ a, a) (λ _ v, v)
    ram_content (ram_decoded _ _ _) 1 (mkDataLine MemoryDemo.area)). done.
Defined.

Lemma address_line_result_witness :
  ∃ w', @memory_address_line_test _ (ram_bus (λ a, a) (λ _ v, v)) 1
          (Some (mkAddressLine MemoryDemo.area 2048)) MemoryDemo.start
        = Ret (verdict (lines_distinct (λ a, a) MemoryDemo.area 9)) w'.
Proof.
  apply (@address_line_result _ (ram_bus (λ a, a) (λ _ v, v)) (λ _, True) (λ a, a) (λ _ v, v)
    ram_content (ram_decoded _ _ _) 1 (mkAddressLine MemoryDemo.area 2048) 9); [lia|done..].
Defined.

Lemma pattern_result_witness :
  ∃ w', @memory_pattern_test _ (ram_bus (λ a, a) (λ _ v, v)) 1
          (Some (mkPattern MemoryDemo.area 2048 0x55555555)) MemoryDemo.start
        = Ret (verdict (keeps_pattern (λ a, a) (λ _ v, v)
                 (mkPattern MemoryDemo.area 2048 0x55555555))) w'.
Proof.
  apply (@pattern_result _ (ram_bus (λ a, a) (λ _ v, v)) (λ _, True) (λ a, a) (λ _ v, v)
    ram_content (ram_decoded _ _ _) 1 (mkPattern MemoryDemo.area 2048 0x55555555)); [simpl; lia|done].
Defined.

Lemma data_line_test_detects_witness :
  ∃ w', @memory_data_line_test _ (ram_bus (λ a, a) (λ _, through (ShortOr 3 17))) 1
          (Some (mkDataLine MemoryDemo.area)) MemoryDemo.start = Ret DIAG_TEST_RESULT_FAIL w'.
Proof.
  apply (@data_line_test_detects _ (ram_bus (λ a, a) (λ _, through (ShortOr 3 17)))
    (λ _, True) ram_content (ShortOr 3 17) (λ a, a)); [simpl; lia|apply ram_decoded|done].
Defined.

Lemma address_line_test_detects_witness :
  ∃ w', @memory_address_line_test _ (ram_bus (through (StuckHigh 5)) (λ _ v, v)) 1
          (Some (mkAddressLine MemoryDemo.area 2048)) MemoryDemo.start
        = Ret DIAG_TEST_RESULT_FAIL w'.
Proof.
  apply (@address_line_test_detects _ (ram_bus (through (StuckHigh 5)) (λ _ v, v))
    (λ _, True) ram_content (StuckHigh 5) 1 (mkAddressLine MemoryDemo.area 2048) 9);
    [simpl; lia|apply ram_decoded|lia|done..].
Defined.

Lemma pattern_test_never_leaves_cache_witness :
  ∃ w', @memory_pattern_test _ (cached_bus (λ _ _, 0)) 1
          (Some (mkPattern MemoryDemo.area 2048 0x55555555)) (boot_world (mkCached ∅ ∅))
        = Ret DIAG_TEST_RESULT_PASS w'.
Proof. apply (pattern_test_never_leaves_cache (λ _ _, 0)). simpl. lia. Defined.
