(* ===== verification/Gpio.v ===== *)
(** The GPIO test: [testsuite/test_gpio.c].  The registers are reached through
    the memory bus; what the test needs of the GPIO bank is the record
    [GpioBank]. *)

From S2P Require Import Prelude CLib Vsprintf VsprintfFacts Machine Events Memory MemoryFacts.

Record A_GPIO_test := mkGpio {
  pad_ctrl_base_addr : Z;
  pad_ctrl_offset : Z;
  pad_ctrl_val : Z;
  gpio_bank_base_addr : Z;
  gpio_bank_enable_offset : Z;
  gpio_bank_enable_val : Z;
  gpio_direction : Z;
  gpio_bank_output_offset : Z;
  gpio_bank_datain_offset : Z;
  gpio_bank_dataout_offset : Z;
  gpio_pin : Z;
  enable : Z;
}.

Section gpio.
Context {HW : Type} `{!MemBus HW}.
Notation M := (M (world HW)).

Definition __raw_readl (a : Z) : M Z := hw_call (mem_read32 a).
Definition __raw_writel (v a : Z) : M unit := hw_do (mem_write32 a v).

Definition reg_addr (base offset : Z) : Z := wrap32 (base + offset).

(** [1 << n] of an [int]; shifting by the width or more is undefined. *)
Definition shift_one (n : Z) : M Z :=
  if n <? 32 then mret (Z.shiftl 1 n) else crash BAD_SHIFT.

Definition gpio_file : string := "../test-framework/testsuite/test_gpio.c".

Definition GPIO_test (testId : Z) (arg : option A_GPIO_test) : M TestResultTypes_e :=
  match arg with
  | None => _ ← DEBUG_ASSERT gpio_file 41; mret DIAG_TEST_RESULT_ABORTED
  | Some a =>
      let bank := reg_addr (gpio_bank_base_addr a) in
      _ ← __raw_writel (pad_ctrl_val a) (reg_addr (pad_ctrl_base_addr a) (pad_ctrl_offset a));
      _ ← __raw_writel (gpio_bank_enable_val a) (bank (gpio_bank_enable_offset a));
      if gpio_direction a =? 1 then
        reg ← __raw_readl (bank (gpio_bank_output_offset a));
        pin ← shift_one (gpio_pin a);
        _ ← __raw_writel (Z.land reg (wrap32 (Z.lnot pin))) (bank (gpio_bank_output_offset a));
        reg ← __raw_readl (bank (gpio_bank_datain_offset a));
        if nonzero (enable a) then
          if nonzero (Z.land reg pin) then mret DIAG_TEST_RESULT_FAIL
          else
            _ ← __raw_writel pin (bank (gpio_bank_dataout_offset a));
            reg ← __raw_readl (bank (gpio_bank_datain_offset a));
            if nonzero (Z.land reg pin) then mret DIAG_TEST_RESULT_PASS
            else mret DIAG_TEST_RESULT_FAIL
        else
          _ ← __raw_writel (wrap32 (Z.lnot pin)) (bank (gpio_bank_dataout_offset a));
          reg ← __raw_readl (bank (gpio_bank_datain_offset a));
          if nonzero (Z.land reg (wrap32 (Z.lnot pin))) then mret DIAG_TEST_RESULT_PASS
          else mret DIAG_TEST_RESULT_FAIL
      else mret DIAG_TEST_RESULT_PASS
  end.

(** * The bank *)

(** The registers of a bank: [oe] (0 = output), [out], and the pin levels
    [pins] that the input register shows.  An output pin [i] shows what its
    pad makes of its output bit; a working pad shows the bit itself. *)
Record GpioBank (a : A_GPIO_test) (oe out pins : HW → Z) (pad : Z → bool → bool) : Prop := {
  oe_read h : (mem_read32 (reg_addr (gpio_bank_base_addr a) (gpio_bank_output_offset a)) h).1 = oe h;
  oe_read_keeps h : let h' := (mem_read32 (reg_addr (gpio_bank_base_addr a)
                                (gpio_bank_output_offset a)) h).2 in oe h' = oe h ∧ out h' = out h;
  in_read h : (mem_read32 (reg_addr (gpio_bank_base_addr a) (gpio_bank_datain_offset a)) h).1 = pins h;
  in_read_keeps h : let h' := (mem_read32 (reg_addr (gpio_bank_base_addr a)
                                (gpio_bank_datain_offset a)) h).2 in
                    oe h' = oe h ∧ out h' = out h ∧ pins h' = pins h;
  oe_write v h : let h' := mem_write32 (reg_addr (gpio_bank_base_addr a)
                             (gpio_bank_output_offset a)) v h in oe h' = v ∧ out h' = out h;
  out_write v h : let h' := mem_write32 (reg_addr (gpio_bank_base_addr a)
                              (gpio_bank_dataout_offset a)) v h in oe h' = oe h ∧ out h' = v;
  pad_write v h : let h' := mem_write32 (reg_addr (pad_ctrl_base_addr a) (pad_ctrl_offset a)) v h in
                  oe h' = oe h ∧ out h' = out h;
  enable_write v h : let h' := mem_write32 (reg_addr (gpio_bank_base_addr a)
                                 (gpio_bank_enable_offset a)) v h in oe h' = oe h ∧ out h' = out h;
  driven i h : 0 ≤ i < 32 → Z.testbit (oe h) i = false →
               Z.testbit (pins h) i = pad i (Z.testbit (out h) i);
}.

Lemma testbit_not_pin pin i :
  0 ≤ pin < 32 → 0 ≤ i < 32 → Z.testbit (wrap32 (Z.lnot (2 ^ pin))) i = negb (i =? pin).
Proof.
  intros Hpin Hi. unfold wrap32. rewrite Z.mod_pow2_bits_low, Z.lnot_spec by lia.
  by rewrite testbit_pow2 by lia.
Qed.

Lemma testbit_clear_pin x pin i :
  0 ≤ pin < 32 → 0 ≤ i < 32 →
  Z.testbit (Z.land x (wrap32 (Z.lnot (2 ^ pin)))) i = Z.testbit x i && negb (i =? pin).
Proof. intros Hpin Hi. by rewrite Z.land_spec, testbit_not_pin. Qed.

Section facts.
Context (a : A_GPIO_test) (oe out pins : HW → Z) (pad : Z → bool → bool)
  (Hbank : GpioBank a oe out pins pad)
  (Hpin : 0 ≤ gpio_pin a < 32) (Hdir : gpio_direction a = 1).
Notation pin := (gpio_pin a).

(** The part both branches share: the pin becomes an output, the output
    register stays, and the levels are read. *)
Lemma wp_gpio_setup tid (w : world HW) (Q : TestResultTypes_e → world HW → Prop) :
  (∀ w', out (hw w') = out (hw w) → Z.testbit (oe (hw w')) pin = false →
     (∀ i, 0 ≤ i < 32 → Z.testbit (oe (hw w)) i = false → Z.testbit (oe (hw w')) i = false) →
     wp (let bank := reg_addr (gpio_bank_base_addr a) in
         if nonzero (enable a) then
           if nonzero (Z.land (pins (hw w')) (2 ^ pin)) then mret DIAG_TEST_RESULT_FAIL
           else
             _ ← __raw_writel (2 ^ pin) (bank (gpio_bank_dataout_offset a));
             reg ← __raw_readl (bank (gpio_bank_datain_offset a));
             if nonzero (Z.land reg (2 ^ pin)) then mret DIAG_TEST_RESULT_PASS
             else mret DIAG_TEST_RESULT_FAIL
         else
           _ ← __raw_writel (wrap32 (Z.lnot (2 ^ pin))) (bank (gpio_bank_dataout_offset a));
           reg ← __raw_readl (bank (gpio_bank_datain_offset a));
           if nonzero (Z.land reg (wrap32 (Z.lnot (2 ^ pin)))) then mret DIAG_TEST_RESULT_PASS
           else mret DIAG_TEST_RESULT_FAIL) Q w') →
  wp (GPIO_test tid (Some a)) Q w.
Proof using All.
  intros HQ. unfold GPIO_test. rewrite Hdir. change (1 =? 1) with true. cbv zeta iota.
  unfold __raw_writel, __raw_readl in *. wp_run.
  unfold shift_one. rewrite (proj2 (Z.ltb_lt _ _)) by lia. wp_run. simpl.
  rewrite Z.shiftl_1_l, (in_read _ _ _ _ _ Hbank), (oe_read _ _ _ _ _ Hbank). simpl.
  destruct (pad_write _ _ _ _ _ Hbank (pad_ctrl_val a) (hw w)) as [E1 O1].
  set (h1 := mem_write32 _ (pad_ctrl_val a) (hw w)) in *.
  destruct (enable_write _ _ _ _ _ Hbank (gpio_bank_enable_val a) h1) as [E2 O2].
  set (h2 := mem_write32 _ (gpio_bank_enable_val a) h1) in *.
  destruct (oe_read_keeps _ _ _ _ _ Hbank h2) as [E3 O3]. set (h3 := (mem_read32 _ h2).2) in *.
  set (v := Z.land (oe h2) _).
  destruct (oe_write _ _ _ _ _ Hbank v h3) as [E4 O4]. set (h4 := mem_write32 _ v h3) in *.
  destruct (in_read_keeps _ _ _ _ _ Hbank h4) as (E5 & O5 & P5).
  set (h5 := (mem_read32 _ h4).2) in *. rewrite <- P5.
  apply (HQ (with_hw h5 _)); simpl.
  - by rewrite O5, O4, O3, O2, O1.
  - rewrite E5, E4. unfold v. rewrite testbit_clear_pin by lia. by rewrite Z.eqb_refl, andb_false_r.
  - intros i Hi Hoe. rewrite E5, E4. unfold v. by rewrite testbit_clear_pin, E2, E1, Hoe by lia.
Qed.

(** The output-enable test passes exactly when the pin reads low before
    the test drives it and high after; when it gets to drive the pin, it
    leaves every other output of the bank low. *)
Theorem gpio_enable_result tid (w : world HW) :
  enable a ≠ 0 →
  let low_before := negb (pad pin (Z.testbit (out (hw w)) pin)) in
  ∃ w', GPIO_test tid (Some a) w = Ret (verdict (low_before && pad pin true)) w' ∧
        (low_before = true → out (hw w') = 2 ^ pin).
Proof using All.
  intros Hen low_before.
  assert (wp (GPIO_test tid (Some a)) (λ r w', r = verdict (low_before && pad pin true) ∧
    (low_before = true → out (hw w') = 2 ^ pin)) w) as (r & w' & H & -> & Hw)%wp_run;
    [|by exists w'].
  apply wp_gpio_setup. intros w1 Ho Hoe _. cbv zeta.
  rewrite (proj2 (nonzero_true _) Hen), nonzero_land_pow2 by lia.
  rewrite (driven _ _ _ _ _ Hbank), Ho by done. unfold low_before.
  destruct (pad pin (Z.testbit (out (hw w)) pin)); [by wp_run|].
  unfold __raw_writel, __raw_readl. wp_run. simpl.
  destruct (out_write _ _ _ _ _ Hbank (2 ^ pin) (hw w1)) as [E2 O2].
  rewrite (in_read _ _ _ _ _ Hbank), nonzero_land_pow2 by lia.
  rewrite (driven _ _ _ _ _ Hbank), O2, testbit_pow2, Z.eqb_refl by (lia || by rewrite E2).
  match goal with |- context [mem_read32 ?x ?h] =>
    destruct (in_read_keeps _ _ _ _ _ Hbank h) as (_ & O3 & _) end.
  destruct (pad pin true); wp_run; (split; [done|]); intros _; simpl; by rewrite O3, O2.
Qed.

(** The output-disable test does not depend on the pin it disables: it
    passes whenever some other output pin of the bank can be driven high. *)
Theorem gpio_disable_ignores_pin tid q (w : world HW) :
  enable a = 0 → 0 ≤ q < 32 → q ≠ pin →
  Z.testbit (oe (hw w)) q = false → pad q true = true →
  ∃ w', GPIO_test tid (Some a) w = Ret DIAG_TEST_RESULT_PASS w'.
Proof using All.
  intros Hen Hq Hne Hoe Hpad.
  assert (wp (GPIO_test tid (Some a)) (λ r _, r = DIAG_TEST_RESULT_PASS) w)
    as (r & w' & H & ->)%wp_run; [|by exists w'].
  apply wp_gpio_setup. intros w1 Ho _ Hkeep. cbv zeta. rewrite Hen.
  change (nonzero 0) with false. cbv iota. unfold __raw_writel, __raw_readl. wp_run. simpl.
  destruct (out_write _ _ _ _ _ Hbank (wrap32 (Z.lnot (2 ^ pin))) (hw w1)) as [E2 O2].
  rewrite (in_read _ _ _ _ _ Hbank).
  match goal with |- context [nonzero ?x] => replace (nonzero x) with true; [by wp_run|] end.
  symmetry. apply nonzero_true. intros H0. apply (f_equal (λ x, Z.testbit x q)) in H0.
  rewrite testbit_clear_pin, Z.bits_0, (proj2 (Z.eqb_neq _ _) Hne), andb_true_r in H0 by lia.
  rewrite (driven _ _ _ _ _ Hbank), O2, testbit_not_pin, (proj2 (Z.eqb_neq _ _) Hne) in H0;
    [simpl in H0; congruence|lia|lia|lia|]. rewrite E2. auto.
Qed.
End facts.

(** A pin configured as input is not tested: two registers are written
    and the test passes. *)
Theorem gpio_input_untested tid a (w : world HW) :
  gpio_direction a ≠ 1 →
  GPIO_test tid (Some a) w = Ret DIAG_TEST_RESULT_PASS
    (with_hw (mem_write32 (reg_addr (gpio_bank_base_addr a) (gpio_bank_enable_offset a))
                (gpio_bank_enable_val a)
                (mem_write32 (reg_addr (pad_ctrl_base_addr a) (pad_ctrl_offset a))
                   (pad_ctrl_val a) (hw w))) w).
Proof.
  intros Hdir. unfold GPIO_test. rewrite (proj2 (Z.eqb_neq _ _) Hdir). done.
Qed.
End gpio.

(** * Witnesses *)

(** A simulated bank at the addresses of the BeagleBone's GPIO1. *)
Module GpioDemo.
Record bank := mkBank { b_oe : Z; b_out : Z; b_ext : Z }.

(** The tested pin's pad may be broken: it shows [pad] of its output bit. *)
Definition levels (pin : Z) (pad : bool → bool) (b : bank) : Z :=
  let v := Z.lor (Z.land (b_out b) (Z.lnot (b_oe b))) (Z.land (b_ext b) (b_oe b)) in
  if Z.testbit (b_oe b) pin then v else put_bit v pin (pad (Z.testbit (b_out b) pin)).

Definition args (dir en : Z) : A_GPIO_test :=
  mkGpio 0x44E10000 0x814 0x17 0x4804c000 0x130 0 dir 0x134 0x138 0x13C 21 en.

#[export] Instance bus (pad : bool → bool) : MemBus bank := {|
  mem_read32 a b :=
    (if a =? 0x4804c134 then b_oe b
     else if a =? 0x4804c138 then levels 21 pad b
     else if a =? 0x4804c13C then b_out b else 0, b);
  mem_write32 a v b :=
    if a =? 0x4804c134 then mkBank v (b_out b) (b_ext b)
    else if a =? 0x4804c13C then mkBank (b_oe b) v (b_ext b) else b;
  flush_dcache_all b := b;
|}.

Lemma bank_ok pad dir en :
  @GpioBank _ (bus pad) (args dir en) b_oe b_out (levels 21 pad) (λ i, if i =? 21 then pad else id).
Proof.
  split; try done. intros i h Hi Hoe. unfold levels.
  assert (Z.testbit (Z.lor (Z.land (b_out h) (Z.lnot (b_oe h))) (Z.land (b_ext h) (b_oe h))) i
          = Z.testbit (b_out h) i) as Hv.
  { by rewrite Z.lor_spec, !Z.land_spec, Z.lnot_spec, Hoe, andb_true_r, andb_false_r, orb_false_r by lia. }
  destruct (Z.eqb_spec i 21) as [->|Hne].
  - rewrite Hoe, testbit_put_bit by lia. done.
  - destruct (Z.testbit (b_oe h) 21); [done|].
    by rewrite testbit_put_bit, (proj2 (Z.eqb_neq _ _) Hne) by lia.
Qed.

Definition idle : world bank := boot_world (mkBank 0xFFFFFFF0 0 0).
End GpioDemo.

Lemma gpio_enable_result_witness :
  ∃ w', @GPIO_test _ (GpioDemo.bus id) 1 (Some (GpioDemo.args 1 1)) GpioDemo.idle
          = Ret DIAG_TEST_RESULT_PASS w' ∧ (true = true → GpioDemo.b_out (hw w') = 2 ^ 21).
Proof.
  apply (@gpio_enable_result _ (GpioDemo.bus id) (GpioDemo.args 1 1) GpioDemo.b_oe GpioDemo.b_out
    (GpioDemo.levels 21 id) _ (GpioDemo.bank_ok id 1 1)); [simpl; lia|done|done].
Defined.

Lemma gpio_disable_ignores_pin_witness :
  ∃ w', @GPIO_test _ (GpioDemo.bus (λ _, true)) 1 (Some (GpioDemo.args 1 0)) GpioDemo.idle
          = Ret DIAG_TEST_RESULT_PASS w'.
Proof.
  apply (@gpio_disable_ignores_pin _ (GpioDemo.bus (λ _, true)) (GpioDemo.args 1 0) GpioDemo.b_oe
    GpioDemo.b_out (GpioDemo.levels 21 (λ _, true)) _ (GpioDemo.bank_ok (λ _, true) 1 0))
    with (q := 2); [simpl; lia|done|done|lia|done|done|done].
Defined.

Lemma gpio_input_untested_witness :
  ∃ w', @GPIO_test _ (GpioDemo.bus id) 1 (Some (GpioDemo.args 0 1)) GpioDemo.idle
          = Ret DIAG_TEST_RESULT_PASS w'.
Proof.
  eexists. apply (@gpio_input_untested _ (GpioDemo.bus id) 1 (GpioDemo.args 0 1)). done.
Defined.
