(* ===== verification/I2cUclass.v ===== *)
(** U-Boot's I2C uclass, [drivers/i2c/i2c-uclass.c]: offset messages, reads
    and writes of chips, probing, and the chips bound to a bus.  The host
    controller's driver and the driver-model core are the interface
    [I2cDriver]. *)

From S2P Require Import Prelude CLib Vsprintf VsprintfFacts Machine Events.

(** * Data *)

Notation ENOMEM := 12%Z (only parsing).
Notation ENODEV := 19%Z (only parsing).
Notation ENOSYS := 38%Z (only parsing).
Notation EADDRNOTAVAIL := 99%Z (only parsing).
Notation ETIMEDOUT := 110%Z (only parsing).
Notation EREMOTEIO := 121%Z (only parsing).

(** [enum dm_i2c_chip_flags] and [enum dm_i2c_msg_flags] *)
Notation DM_I2C_CHIP_10BIT := 1%Z (only parsing).
Notation DM_I2C_CHIP_RD_ADDRESS := 2%Z (only parsing).
Notation DM_I2C_CHIP_WR_ADDRESS := 4%Z (only parsing).
Notation I2C_M_TEN := 0x0010%Z (only parsing).
Notation I2C_M_RD := 0x0001%Z (only parsing).
Definition I2C_MAX_OFFSET_LEN : Z := 4.

(** [struct i2c_msg]; [m_buf] is what [buf] points at. *)
Record i2c_msg := mkMsg {
  m_addr : Z;
  m_flags : Z;
  m_len : Z;
  m_buf : list Z;
}.

(** [struct dm_i2c_ops]: a missing method is [None].  [xfer] returns its code
    and the contents of the message buffers afterwards. *)
Record dm_i2c_ops (HW : Type) := mkOps {
  xfer : option (Z → list i2c_msg → HW → (Z * list (list Z)) * HW);
  probe_chip : option (Z → Z → Z → HW → Z * HW);
  set_bus_speed : option (Z → Z → HW → Z * HW);
  get_bus_speed : option (Z → HW → Z * HW);
  set_flags : option (Z → dm_i2c_chip → Z → HW → Z * HW);
}.
Arguments mkOps {HW}.
Arguments xfer {HW}.
Arguments probe_chip {HW}.
Arguments set_bus_speed {HW}.
Arguments get_bus_speed {HW}.
Arguments set_flags {HW}.

(** What the uclass calls: the bus with a sequence number
    ([uclass_get_device_by_seq]), the driver's methods, the outcome of
    binding and probing a child device, and the allocator. *)
Class I2cDriver (HW : Type) := {
  uclass_get_device_by_seq : Z → HW → (Z + Z) * HW;
  i2c_get_ops : Z → dm_i2c_ops HW;
  device_bind_driver : Z → HW → Z * HW;
  device_probe : Z → dm_i2c_chip → HW → Z * HW;
  malloc_ok : Z → HW → bool * HW;
}.

(** A chip device: its bus and its position among the bus's children. *)
Record udevice := mkDev {
  dev_bus : Z;
  dev_index : nat;
}.

Section uclass.
Context {HW : Type} `{!I2cDriver HW}.
Notation M := (M (world HW)).

(** * Chips of a bus *)

Definition children (bus : Z) (w : world HW) : list dm_i2c_chip :=
  default [] (i2c_chips (i2c w) !! bus).

Definition set_children (bus : Z) (l : list dm_i2c_chip) (w : world HW) : world HW :=
  with_i2c (mkI2c (i2c_cur_bus (i2c w)) (<[bus := l]> (i2c_chips (i2c w)))
              (i2c_speed_hz (i2c w))) w.

(** [dev_get_parent_platdata(dev)] *)
Definition chip_of (dev : udevice) : M dm_i2c_chip := λ w,
  match children (dev_bus dev) w !! dev_index dev with
  | Some chip => Ret chip w
  | None => Crash OUT_OF_BOUNDS w
  end.

Definition chip_update (dev : udevice) (f : dm_i2c_chip → dm_i2c_chip) : M unit :=
  chip ← chip_of dev;
  modify (λ w, set_children (dev_bus dev)
                 (<[dev_index dev := f chip]> (children (dev_bus dev) w)) w).

(** * Messages *)

(** [*offset_buf++ = offset >> (8 * offset_len)], most significant first. *)
Fixpoint offset_bytes (offset_len : nat) (offset : Z) : list Z :=
  match offset_len with
  | O => []
  | S n => wrap8 (Z.shiftr offset (8 * Z.of_nat n)) :: offset_bytes n offset
  end.

(** The return code, and the message with the offset in its buffer. *)
Definition i2c_setup_offset (chip : dm_i2c_chip) (offset : Z) : M (Z * i2c_msg) :=
  let ol := offset_len chip in
  addr ← (if nonzero (chip_addr_offset_mask chip) then
            if 8 * ol <? 32
            then mret (Z.lor (chip_addr chip)
                         (Z.land (Z.shiftr offset (8 * ol)) (chip_addr_offset_mask chip)))
            else crash BAD_SHIFT
          else mret (chip_addr chip));
  let fl := if nonzero (Z.land (flags chip) DM_I2C_CHIP_10BIT) then I2C_M_TEN else 0 in
  if ol =? 0 then mret (- EADDRNOTAVAIL, mkMsg addr fl ol [])
  else if ol >? I2C_MAX_OFFSET_LEN then crash OUT_OF_BOUNDS
  else mret (0, mkMsg addr fl ol (offset_bytes (Z.to_nat ol) offset)).

(** [ops->xfer(bus, msg, n)], for a driver that has it. *)
Definition do_xfer (bus : Z) (msgs : list i2c_msg) : M (Z * list (list Z)) :=
  match xfer (i2c_get_ops bus) with
  | Some f => hw_call (f bus msgs)
  | None => crash NULL_DEREF
  end.

(** The return code and the buffer afterwards. *)
Definition i2c_read_bytewise (dev : udevice) (offset : Z) (buffer : list Z) (len : Z) :
    M (Z * list Z) :=
  chip ← chip_of dev;
  r ← for_loop (S (Z.to_nat len)) (λ '(i, _), i <? len) (λ '(i, buf), (i + 1, buf))
        (λ '(i, buf),
           '(ret, msg) ← i2c_setup_offset chip (wrap32 (offset + i));
           if nonzero ret then mret (Return (- EINVAL, buf))
           else
             match buf !! Z.to_nat i with
             | None => crash OUT_OF_BOUNDS
             | Some b =>
                 '(ret, out) ← do_xfer (dev_bus dev)
                                 [msg; mkMsg (m_addr msg) (Z.lor (m_flags msg) I2C_M_RD) 1 [b]];
                 let buf := match out with
                            | _ :: (b' :: _) :: _ => <[Z.to_nat i := b']> buf
                            | _ => buf
                            end in
                 if nonzero ret then mret (Return (ret, buf)) else mret (Continue (i, buf))
             end) (0, buffer);
  match r with
  | inl (_, buf) => mret (0, buf)
  | inr e => mret e
  end.

Definition i2c_write_bytewise (dev : udevice) (offset : Z) (buffer : list Z) (len : Z) : M Z :=
  chip ← chip_of dev;
  r ← for_loop (S (Z.to_nat len)) (λ i, i <? len) (λ i, i + 1)
        (λ i,
           '(ret, msg) ← i2c_setup_offset chip (wrap32 (offset + i));
           if nonzero ret then mret (Return (- EINVAL))
           else
             match buffer !! Z.to_nat i with
             | None => crash OUT_OF_BOUNDS
             | Some b =>
                 '(ret, _) ← do_xfer (dev_bus dev)
                               [mkMsg (m_addr msg) (m_flags msg) (m_len msg + 1) (m_buf msg ++ [b])];
                 if nonzero ret then mret (Return ret) else mret (Continue i)
             end) 0;
  match r with
  | inl _ => mret 0
  | inr e => mret e
  end.

Definition dm_i2c_read (dev : udevice) (offset : Z) (buffer : list Z) (len : Z) :
    M (Z * list Z) :=
  chip ← chip_of dev;
  match xfer (i2c_get_ops (dev_bus dev)) with
  | None => mret (- ENOSYS, buffer)
  | Some _ =>
      if nonzero (Z.land (flags chip) DM_I2C_CHIP_RD_ADDRESS)
      then i2c_read_bytewise dev offset buffer len
      else
        '(ret, msg) ← i2c_setup_offset chip offset;
        let head := if nonzero ret then [] else [msg] in
        if (Z.to_nat len <=? length buffer)%nat then
          let fl := if nonzero (Z.land (flags chip) DM_I2C_CHIP_10BIT) then I2C_M_TEN else 0 in
          let tail := if nonzero len
                      then [mkMsg (m_addr msg) (Z.lor fl I2C_M_RD) len (take (Z.to_nat len) buffer)]
                      else [] in
          '(ret, out) ← do_xfer (dev_bus dev) (head ++ tail);
          let buffer := match drop (length head) out with
                        | b :: _ => b ++ drop (Z.to_nat len) buffer
                        | [] => buffer
                        end in
          mret (ret, buffer)
        else crash OUT_OF_BOUNDS
  end.

Definition dm_i2c_write (dev : udevice) (offset : Z) (buffer : list Z) (len : Z) : M Z :=
  chip ← chip_of dev;
  match xfer (i2c_get_ops (dev_bus dev)) with
  | None => mret (- ENOSYS)
  | Some _ =>
      if nonzero (Z.land (flags chip) DM_I2C_CHIP_WR_ADDRESS)
      then i2c_write_bytewise dev offset buffer len
      else
        let send :=
          '(_, msg) ← i2c_setup_offset chip offset;
          if (Z.to_nat len <=? length buffer)%nat then
            '(ret, _) ← do_xfer (dev_bus dev)
                          [mkMsg (m_addr msg) (m_flags msg) (m_len msg + len)
                             (m_buf msg ++ take (Z.to_nat len) buffer)];
            mret ret
          else crash OUT_OF_BOUNDS in
        if len <? 64 then send
        else
          ok ← hw_call (malloc_ok (I2C_MAX_OFFSET_LEN + len));
          if ok : bool then send else mret (- ENOMEM)
  end.

Definition dm_i2c_xfer (dev : udevice) (msgs : list i2c_msg) : M (Z * list (list Z)) :=
  match xfer (i2c_get_ops (dev_bus dev)) with
  | None => mret (- ENOSYS, m_buf <$> msgs)
  | Some f => hw_call (f (dev_bus dev) msgs)
  end.

Definition dm_i2c_reg_read (dev : udevice) (offset : Z) : M Z :=
  '(ret, buf) ← dm_i2c_read dev offset [0] 1;
  if ret <? 0 then mret ret
  else match buf with val :: _ => mret val | [] => crash UNINITIALISED end.

Definition dm_i2c_reg_write (dev : udevice) (offset value : Z) : M Z :=
  dm_i2c_write dev offset [wrap8 value] 1.

(** * Probing and binding *)

Definition i2c_probe_chip (bus chip_addr chip_flags : Z) : M Z :=
  let ops := i2c_get_ops bus in
  let with_message :=
    match xfer ops with
    | None => mret (- ENOSYS)
    | Some _ =>
        let fl := if nonzero (Z.land chip_flags DM_I2C_CHIP_10BIT) then I2C_M_TEN else 0 in
        '(ret, _) ← do_xfer bus [mkMsg chip_addr fl 0 []];
        mret ret
    end in
  match probe_chip ops with
  | Some f =>
      ret ← hw_call (f bus chip_addr chip_flags);
      if (ret =? 0) || negb (ret =? - ENOSYS) then mret ret else with_message
  | None => with_message
  end.

(** The device, or the error code. *)
Definition i2c_bind_driver (bus chip_addr offset_len : Z) : M (udevice + Z) :=
  match snprintf 30 "generic_%x" [VInt chip_addr] with
  | None => crash BAD_VARARGS
  | Some (name, _) =>
      str ← hw_call (malloc_ok (strlen name + 1));
      if str : bool then
        ret ← hw_call (device_bind_driver bus);
        if nonzero ret then mret (inr ret)
        else
          let chip := mkChip chip_addr offset_len 0 0 in
          l ← gets (children bus);
          _ ← modify (set_children bus (l ++ [chip]));
          ret ← hw_call (device_probe bus chip);
          if nonzero ret then
            _ ← modify (set_children bus l);
            mret (inr ret)
          else mret (inl (mkDev bus (length l)))
      else mret (inr (- ENOMEM))
  end.

Definition chip_matches (chip_addr : Z) (chip : dm_i2c_chip) : Prop :=
  Machine.chip_addr chip = Z.land chip_addr (wrap32 (Z.lnot (chip_addr_offset_mask chip))).
#[global] Instance chip_matches_dec a chip : Decision (chip_matches a chip).
Proof. unfold chip_matches. apply _. Defined.

Definition i2c_get_chip (bus chip_addr offset_len : Z) : M (udevice + Z) :=
  l ← gets (children bus);
  match list_find (chip_matches chip_addr) l with
  | Some (i, chip) =>
      ret ← hw_call (device_probe bus chip);
      if nonzero ret then mret (inr ret) else mret (inl (mkDev bus i))
  | None => i2c_bind_driver bus chip_addr offset_len
  end.

Definition i2c_get_chip_for_busnum (busnum chip_addr offset_len : Z) : M (udevice + Z) :=
  r ← hw_call (uclass_get_device_by_seq busnum);
  match r with
  | inr ret => mret (inr ret)
  | inl bus =>
      ret ← i2c_probe_chip bus chip_addr 0;
      if nonzero ret then mret (inr ret) else i2c_get_chip bus chip_addr offset_len
  end.

Definition dm_i2c_probe (bus chip_addr chip_flags : Z) : M (udevice + Z) :=
  ret ← i2c_probe_chip bus chip_addr chip_flags;
  if nonzero ret then mret (inr ret) else i2c_get_chip bus chip_addr 1.

(** * Bus speed and chip settings *)

Definition set_speed_hz (bus speed : Z) (w : world HW) : world HW :=
  with_i2c (mkI2c (i2c_cur_bus (i2c w)) (i2c_chips (i2c w))
              (<[bus := speed]> (i2c_speed_hz (i2c w)))) w.

Definition dm_i2c_set_bus_speed (bus speed : Z) : M Z :=
  match set_bus_speed (i2c_get_ops bus) with
  | Some f =>
      ret ← hw_call (f bus speed);
      if nonzero ret then mret ret else _ ← modify (set_speed_hz bus speed); mret 0
  | None => _ ← modify (set_speed_hz bus speed); mret 0
  end.

Definition dm_i2c_get_bus_speed (bus : Z) : M Z :=
  match get_bus_speed (i2c_get_ops bus) with
  | None => gets (λ w, default 0 (i2c_speed_hz (i2c w) !! bus))
  | Some f => hw_call (f bus)
  end.

Definition i2c_set_chip_flags (dev : udevice) (fl : Z) : M Z :=
  let set := _ ← chip_update dev (λ c, mkChip (chip_addr c) (offset_len c) fl
                                          (chip_addr_offset_mask c)); mret 0 in
  match set_flags (i2c_get_ops (dev_bus dev)) with
  | Some f =>
      chip ← chip_of dev;
      ret ← hw_call (f (dev_bus dev) chip fl);
      if nonzero ret then mret ret else set
  | None => set
  end.

Definition i2c_get_chip_flags (dev : udevice) : M (Z * Z) :=
  chip ← chip_of dev; mret (0, flags chip).

Definition i2c_set_chip_offset_len (dev : udevice) (ol : Z) : M Z :=
  if ol >? I2C_MAX_OFFSET_LEN then mret (- EINVAL)
  else
    _ ← chip_update dev (λ c, mkChip (chip_addr c) ol (flags c) (chip_addr_offset_mask c));
    mret 0.

Definition i2c_get_chip_offset_len (dev : udevice) : M Z :=
  chip ← chip_of dev; mret (offset_len chip).

Definition i2c_set_chip_addr_offset_mask (dev : udevice) (mask : Z) : M Z :=
  _ ← chip_update dev (λ c, mkChip (chip_addr c) (offset_len c) (flags c) mask);
  mret 0.

Definition i2c_get_chip_addr_offset_mask (dev : udevice) : M Z :=
  chip ← chip_of dev; mret (chip_addr_offset_mask chip).
End uclass.
