(* ===== verification/I2cUtils.v ===== *)
(** The framework's I2C helpers: [utils/i2c_utils.c], built with
    [CONFIG_DM_I2C] and without [CONFIG_I2C_SET_DEFAULT_BUS_NUM]. *)

From S2P Require Import Prelude CLib Vsprintf VsprintfFacts Machine Events I2cUclass.

Notation I2C_BUS_0 := 0%Z (only parsing).
Notation I2C_BUS_1 := 1%Z (only parsing).
Definition I2C_SPEED_100Khz : Z := 100 * 1000.
Definition I2C_SPEED_400Khz : Z := 400 * 1000.

Section i2c_utils.
Context {HW : Type} `{!I2cDriver HW}.
Notation M := (M (world HW)).

Definition eBBTF_utils_set_i2c_bus (busnum : Z) : M Z :=
  r ← hw_call (uclass_get_device_by_seq busnum);
  match r with
  | inr ret => mret ret
  | inl bus =>
      _ ← modify (λ w, with_i2c (mkI2c (Some bus) (i2c_chips (i2c w)) (i2c_speed_hz (i2c w))) w);
      mret 0
  end.

(** The bus, or the error code. *)
Definition eBBTF_utils_get_i2c_bus : M (Z + Z) :=
  cur ← gets (λ w, i2c_cur_bus (i2c w));
  match cur with
  | None => _ ← puts ("No I2C bus selected" +:+ newline); mret (inr (- ENODEV))
  | Some bus => mret (inl bus)
  end.

Definition eBBTF_utils_i2c_bus_speed (bus_speed : Z) : M Z :=
  r ← eBBTF_utils_get_i2c_bus;
  match r with
  | inr _ => mret 1
  | inl bus =>
      cur_speed ← dm_i2c_get_bus_speed bus;
      _ ← printf ("Current bus speed=%d" +:+ newline) [VInt cur_speed];
      _ ← printf ("Setting bus speed to %d Hz" +:+ newline) [VInt bus_speed];
      ret ← dm_i2c_set_bus_speed bus (wrap32 bus_speed);
      _ ← (if nonzero ret
           then printf ("Failure changing bus speed (%d)" +:+ newline) [VInt ret] else mret tt);
      mret ret
  end.

(** The status is an [int8_t]; [i2c_speed] is not used. *)
Definition eBBTF_utils_i2c_bus_init (i2c_speed i2c_bus : Z) : M TestResultTypes_e :=
  ret ← eBBTF_utils_set_i2c_bus (wrap8 i2c_bus);
  let i2c_status := sign 8 ret in
  if i2c_status <? 0 then mret DIAG_TEST_RESULT_FAIL else mret DIAG_TEST_RESULT_PASS.

(** [Event_Init(0, &event)], the assignments, [ReportEvent]. *)
Definition report_bus_event (type : DiagErrEventIDTypes_e) (addrs : list Z) : M unit :=
  event ← Event_Init 0;
  ReportEvent (fill_event event type addrs "").

(** Selecting the bus, common to reading and writing: the bus, or the result
    to return. *)
Definition select_bus (bus_num : Z) : M (Z + TestResultTypes_e) :=
  ret ← eBBTF_utils_set_i2c_bus bus_num;
  let i2c_status := sign 8 ret in
  if negb (i2c_status =? 0) then
    _ ← report_bus_event DIAG_BUS_NOT_FOUND_ERR_EVENT [bus_num];
    mret (inr DIAG_TEST_RESULT_FAIL)
  else
    r ← eBBTF_utils_get_i2c_bus;
    match r with
    | inr ret => if negb (sign 8 ret =? 0) then mret (inr DIAG_TEST_RESULT_FAIL)
                 else crash UNINITIALISED
    | inl bus => mret (inl bus)
    end.

(** When [i2c_get_chip] fails, [dev] is used without having been set. *)
Definition eBBTF_utils_i2c_write (bus_num chip_address reg addr_offset_len : Z)
    (write_value : list Z) (dlen : Z) : M TestResultTypes_e :=
  let bus_num := wrap8 bus_num in
  let reg := wrap8 reg in
  let dlen := wrap8 dlen in
  b ← select_bus bus_num;
  match b with
  | inr r => mret r
  | inl bus =>
      r ← i2c_get_chip bus chip_address (wrap32 addr_offset_len);
      match r with
      | inr _ => crash UNINITIALISED
      | inl dev =>
          _ ← i2c_set_chip_offset_len dev (wrap32 addr_offset_len);
          _ ← chip_update dev (λ c, mkChip (chip_addr c) (offset_len c)
                                      (Z.lor (flags c) DM_I2C_CHIP_WR_ADDRESS)
                                      (chip_addr_offset_mask c));
          ret ← dm_i2c_write dev reg write_value dlen;
          if nonzero ret then
            _ ← report_bus_event DIAG_DEV_WRITE_ERR_EVENT [bus_num];
            mret DIAG_TEST_RESULT_FAIL
          else mret DIAG_TEST_RESULT_PASS
      end
  end.

(** The result and the buffer afterwards. *)
Definition eBBTF_utils_i2c_read (bus_num chip_address reg addr_offset_len : Z)
    (read_value : list Z) (dlen : Z) : M (TestResultTypes_e * list Z) :=
  let bus_num := wrap8 bus_num in
  let reg := wrap8 reg in
  let dlen := wrap8 dlen in
  b ← select_bus bus_num;
  match b with
  | inr r => mret (r, read_value)
  | inl bus =>
      r ← i2c_get_chip bus chip_address (wrap32 addr_offset_len);
      '(ret, buf) ← match r with
        | inr ret => mret (ret, read_value)
        | inl dev =>
            ret ← i2c_set_chip_offset_len dev (wrap32 addr_offset_len);
            if nonzero ret then mret (ret, read_value)
            else dm_i2c_read dev reg read_value dlen
        end;
      if nonzero ret then
        _ ← report_bus_event DIAG_DEV_READ_ERR_EVENT [bus_num; chip_address; reg];
        mret (DIAG_TEST_RESULT_FAIL, buf)
      else mret (DIAG_TEST_RESULT_PASS, buf)
  end.
End i2c_utils.
