(* ===== verification/I2cFacts.v ===== *)
(** Facts about the I2C uclass and the framework's I2C helpers: offsets on the
    wire, and reading and writing a chip that behaves as a memory. *)

From S2P Require Import Prelude CLib Vsprintf VsprintfFacts Machine Events I2cUclass I2cUtils.

(** * Offsets *)

(** The value of a big-endian byte string. *)
Definition be_value (bs : list Z) : Z := fold_left (λ acc b, acc * 256 + b) bs 0.

Lemma offset_bytes_length n offset : length (offset_bytes n offset) = n.
Proof. induction n; simpl; congruence. Qed.

Lemma be_value_acc bs acc :
  fold_left (λ acc b, acc * 256 + b) bs acc = acc * 256 ^ Z.of_nat (length bs) + be_value bs.
Proof.
  revert acc. induction bs as [|b bs IH]; intros acc; [unfold be_value; simpl; lia|].
  unfold be_value. cbn [fold_left length]. rewrite IH, (IH (0 * 256 + b)).
  rewrite Nat2Z.inj_succ, Z.pow_succ_r by lia. lia.
Qed.

Lemma be_value_offset n offset :
  0 ≤ offset → be_value (offset_bytes n offset) = offset mod 256 ^ Z.of_nat n.
Proof.
  intros Ho. induction n as [|n IH]; [by rewrite Z.mod_1_r|].
  cbn [offset_bytes]. unfold be_value. cbn [fold_left].
  rewrite be_value_acc, IH, offset_bytes_length. unfold wrap8.
  rewrite Z.shiftr_div_pow2 by lia.
  replace (2 ^ (8 * Z.of_nat n)) with (256 ^ Z.of_nat n) by (by rewrite Z.pow_mul_r by lia).
  rewrite Nat2Z.inj_succ, Z.pow_succ_r by lia.
  assert (0 < 256 ^ Z.of_nat n) by (apply Z.pow_pos_nonneg; lia).
  rewrite (Z.mul_comm 256), Z.rem_mul_r by lia. change (2 ^ 8) with 256. lia.
Qed.

(** The offset bytes the uclass sends before the data are the offset,
    most significant byte first, truncated to the chip's offset length. *)
Theorem offset_bytes_big_endian n offset :
  0 ≤ offset → be_value (offset_bytes n offset) = offset mod 256 ^ Z.of_nat n.
Proof. apply be_value_offset. Qed.

Lemma offset_bytes_big_endian_witness : be_value (offset_bytes 2 0x1234) = 0x1234.
Proof. rewrite (offset_bytes_big_endian 2 0x1234); [reflexivity|lia]. Defined.

(** * A chip that is a memory *)

(** On the bus with sequence number [seq] sits a chip at [addr] with [ol]
    offset bytes that takes single-byte writes and serves reads of any
    length from [mem].  The driver model finds, binds and probes it. *)
Record I2cMemory {HW} `{!I2cDriver HW} (seq bus addr ol : Z)
    (f : Z → list i2c_msg → HW → (Z * list (list Z)) * HW)
    (keep : Z → Z → Z → Z) (mem : HW → Z → Z) : Prop := {
  on_seq h : (uclass_get_device_by_seq seq h).1 = inl bus;
  on_seq_mem h x : mem (uclass_get_device_by_seq seq h).2 x = mem h x;
  on_bind h : (device_bind_driver bus h).1 = 0;
  on_bind_mem h x : mem (device_bind_driver bus h).2 x = mem h x;
  on_probe chip h : chip_addr chip = addr → (device_probe bus chip h).1 = 0;
  on_probe_mem chip h x : mem (device_probe bus chip h).2 x = mem h x;
  on_malloc n h : (malloc_ok n h).1 = true;
  on_malloc_mem n h x : mem (malloc_ok n h).2 x = mem h x;
  on_xfer : xfer (i2c_get_ops bus) = Some f;
  on_write off b h : 0 ≤ off < 256 ^ ol →
    let r := f bus [mkMsg addr 0 (ol + 1) (offset_bytes (Z.to_nat ol) off ++ [b])] h in
    r.1.1 = 0 ∧ ∀ x, mem r.2 x = store_bytes keep off [b] (mem h) x;
  on_read off n buf h : 0 ≤ off < 256 ^ ol → 0 < n → length buf = Z.to_nat n →
    let r := f bus [mkMsg addr 0 ol (offset_bytes (Z.to_nat ol) off);
                    mkMsg addr I2C_M_RD n buf] h in
    r.1 = (0, [offset_bytes (Z.to_nat ol) off; load_bytes off n (mem h)]) ∧
    ∀ x, mem r.2 x = mem h x;
}.

(** Only the I2C data and the hardware may differ. *)
Definition quiet {HW} (w w' : world HW) : Prop :=
  console w' = console w ∧ log w' = log w ∧ eeprom w' = eeprom w ∧ nor w' = nor w ∧
  mmc w' = mmc w ∧ eth w' = eth w ∧ net w' = net w.

Lemma quiet_refl {HW} (w : world HW) : quiet w w.
Proof. done. Qed.

Lemma quiet_trans {HW} (w1 w2 w3 : world HW) : quiet w1 w2 → quiet w2 w3 → quiet w1 w3.
Proof. unfold quiet. intuition congruence. Qed.

Section memory_chip.
Context {HW : Type} `{!I2cDriver HW} (seq bus addr ol : Z)
  (f : Z → list i2c_msg → HW → (Z * list (list Z)) * HW)
  (keep : Z → Z → Z → Z) (mem : HW → Z → Z)
  (Hchip : I2cMemory seq bus addr ol f keep mem) (Hol : 0 < ol ≤ 4).
Notation world := (world HW).
Notation cells w x := (mem (hw w) x).

(** A device bound for the chip is an ordinary one: seven-bit address, no
    address bits in the offset, no single-byte reads. *)
Definition ordinary (chip : dm_i2c_chip) : Prop :=
  chip_addr chip = addr ∧ chip_addr_offset_mask chip = 0 ∧
  Z.land (flags chip) DM_I2C_CHIP_10BIT = 0 ∧ Z.land (flags chip) DM_I2C_CHIP_RD_ADDRESS = 0.

Definition bus_ok (w : world) : Prop :=
  ∀ i chip, children bus w !! i = Some chip → chip_matches addr chip → ordinary chip.

Lemma children_with_hw h (w : world) : children bus (with_hw h w) = children bus w.
Proof. done. Qed.

Lemma children_set l (w : world) : children bus (set_children bus l w) = l.
Proof. unfold children, set_children. simpl. by rewrite lookup_insert_eq. Qed.

(** [dev] denotes an ordinary device for the chip. *)
Definition handle (dev : udevice) (chip : dm_i2c_chip) (w : world) : Prop :=
  dev_bus dev = bus ∧ children bus w !! dev_index dev = Some chip ∧ ordinary chip.

Lemma wp_get_chip n (w : world) (Q : udevice + Z → world → Prop) :
  bus_ok w →
  (∀ dev chip w', handle dev chip w' → bus_ok w' → quiet w w' →
     (∀ x, cells w' x = cells w x) → Q (inl dev) w') →
  wp (i2c_get_chip bus addr n) Q w.
Proof using Hchip.
  intros Hok HQ. unfold i2c_get_chip. wp_run.
  destruct (list_find (chip_matches addr) (children bus w)) as [[i chip]|] eqn:Hf.
  - apply list_find_Some in Hf as (Hi & Hm & _). pose proof (Hok i chip Hi Hm) as Hord. wp_run.
    rewrite (on_probe _ _ _ _ _ _ _ Hchip) by apply Hord. simpl. wp_run.
    apply (HQ (mkDev bus i) chip); [done|done|done|]. intros x. apply (on_probe_mem _ _ _ _ _ _ _ Hchip).
  - unfold i2c_bind_driver.
    destruct (format_accepts "generic_%x" [VInt addr] eq_refl) as [s Hs].
    unfold snprintf, vsnprintf, vsnprintf_internal. rewrite Hs. cbn [mbind option_bind].
    wp_run. rewrite (on_malloc _ _ _ _ _ _ _ Hchip). wp_run.
    rewrite (on_bind _ _ _ _ _ _ _ Hchip). change (nonzero 0) with false. cbv iota. wp_run.
    rewrite (on_probe _ _ _ _ _ _ _ Hchip) by done. change (nonzero 0) with false. cbv iota. wp_run.
    match goal with |- Q (inl (mkDev bus (length ?l))) ?w' =>
      assert (children bus w' = l ++ [mkChip addr n 0 0]) as Hch by apply children_set;
      change l with (children bus w) in * end.
    apply (HQ _ (mkChip addr n 0 0)).
    + split; [done|]. rewrite Hch, lookup_app_r, Nat.sub_diag by done. done.
    + intros i chip. rewrite Hch. intros [Hi|[_ Hi]]%lookup_app_Some Hm; [by eapply Hok|].
      apply list_lookup_singleton_Some in Hi as [_ <-]. done.
    + done.
    + intros x. simpl. rewrite (on_probe_mem _ _ _ _ _ _ _ Hchip). simpl.
      rewrite (on_bind_mem _ _ _ _ _ _ _ Hchip). apply (on_malloc_mem _ _ _ _ _ _ _ Hchip).
Qed.

(** Changing an ordinary device's settings, keeping it ordinary. *)
Lemma wp_chip_update dev chip g (w : world) (Q : unit → world → Prop) :
  handle dev chip w → bus_ok w → ordinary (g chip) →
  (∀ w', handle dev (g chip) w' → bus_ok w' → quiet w w' → (∀ x, cells w' x = cells w x) →
     Q tt w') →
  wp (chip_update dev g) Q w.
Proof.
  intros (Hb & Hi & Hord) Hok Hg HQ. unfold chip_update, chip_of. rewrite Hb.
  apply wp_bind. unfold wp at 1. rewrite Hi. wp_run. apply HQ; [|..|done|done].
  - split; [done|]. rewrite children_set. split; [|done].
    by apply list_lookup_insert_eq, lookup_lt_is_Some_1; eexists.
  - intros j c. rewrite children_set. intros Hj Hm.
    destruct (decide (dev_index dev = j)) as [<-|Hne].
    + rewrite list_lookup_insert_eq in Hj by (apply lookup_lt_is_Some_1; by eexists).
      by injection Hj as <-.
    + rewrite list_lookup_insert_ne in Hj by done. by eapply Hok.
Qed.

Lemma wp_set_offset_len dev chip (w : world) (Q : Z → world → Prop) :
  handle dev chip w → bus_ok w →
  (∀ chip' w', handle dev chip' w' → offset_len chip' = ol → flags chip' = flags chip →
     bus_ok w' → quiet w w' → (∀ x, cells w' x = cells w x) → Q 0 w') →
  wp (i2c_set_chip_offset_len dev ol) Q w.
Proof using Hol.
  intros Hh Hok HQ. unfold i2c_set_chip_offset_len, I2C_MAX_OFFSET_LEN.
  replace (ol >? 4) with false by lia. apply wp_bind. eapply wp_chip_update; [done|done|apply Hh|].
  intros w' Hh' Hok' Hq' Hm'. wp_run. by eapply HQ.
Qed.

(** The message head of an ordinary device. *)
Lemma setup_offset chip off (w : world) :
  ordinary chip → offset_len chip = ol →
  i2c_setup_offset chip off w = Ret (0, mkMsg addr 0 ol (offset_bytes (Z.to_nat ol) off)) w.
Proof using Hol.
  intros (Ha & Hm & H10 & _) Hl. unfold i2c_setup_offset. rewrite Hm, Hl, H10, Ha.
  change (nonzero 0) with false. cbv iota. erewrite M_bind_Ret by reflexivity.
  replace (ol =? 0) with false by lia. unfold I2C_MAX_OFFSET_LEN.
  by replace (ol >? 4) with false by lia.
Qed.

Lemma wp_write_bytewise dev chip off data len (w : world) (Q : Z → world → Prop) :
  handle dev chip w → bus_ok w → offset_len chip = ol →
  0 ≤ off → off + len ≤ 256 ^ ol → 0 ≤ len ≤ Z.of_nat (length data) →
  (∀ w', bus_ok w' → quiet w w' →
     (∀ x, cells w' x = store_bytes keep off (take (Z.to_nat len) data) (mem (hw w)) x) → Q 0 w') →
  wp (i2c_write_bytewise dev off data len) Q w.
Proof using Hchip Hol.
  intros (Hb & Hi & Hord) Hok Hl Hoff Hend Hlen HQ. unfold i2c_write_bytewise, chip_of. rewrite Hb.
  assert (256 ^ ol ≤ 2 ^ 32) as Hmax.
  { change (2 ^ 32) with (256 ^ 4). apply Z.pow_le_mono_r; lia. }
  apply wp_bind. unfold wp at 1. rewrite Hi. apply wp_bind.
  apply (wp_for_seq Z.of_nat (Z.to_nat len) (λ k w', (children bus w' = children bus w ∧ quiet w w') ∧
    ∀ x, cells w' x = store_bytes keep off (take k data) (mem (hw w)) x)).
  - lia.
  - intros k Hk. destruct (Nat.ltb_spec k (Z.to_nat len)); lia.
  - split; [done|]. intros x. by rewrite take_0, store_bytes_nil.
  - intros k w1 Hk [[Hch Hq] Hcells]. apply wp_bind. unfold wp at 1.
    rewrite setup_offset by done. cbv beta iota. change (nonzero 0) with false. cbv iota.
    rewrite Nat2Z.id. destruct (lookup_lt_is_Some_2 data k) as [b Hbk]; [lia|]. rewrite Hbk.
    unfold do_xfer. rewrite (on_xfer _ _ _ _ _ _ _ Hchip). cbn [m_addr m_flags m_len m_buf].
    apply wp_bind, wp_hw_call. rewrite wrap32_small by lia.
    destruct (on_write _ _ _ _ _ _ _ Hchip (off + Z.of_nat k) b (hw w1)) as [Hret Hmem]; [lia|].
    destruct (f bus _ (hw w1)) as [[ret out] h']. simpl in *. subst ret.
    change (nonzero 0) with false. cbv iota. apply wp_ret. split; [lia|]. split; [done|].
    intros x. rewrite (take_S_r data k b) by done. simpl. rewrite Hmem.
    rewrite <- store_bytes_app, length_take.
    replace (k `min` length data)%nat with k by lia. unfold store_bytes at 1 3. by rewrite Hcells.
  - intros w1 [[Hch Hq] Hcells]. wp_run. apply HQ; [|done|done]. intros i c. rewrite Hch. apply Hok.
Qed.

Lemma wp_dm_read dev chip off buf len (w : world) (Q : Z * list Z → world → Prop) :
  handle dev chip w → bus_ok w → offset_len chip = ol →
  0 ≤ off < 256 ^ ol → 0 < len ≤ Z.of_nat (length buf) →
  (∀ w', bus_ok w' → quiet w w' → (∀ x, cells w' x = cells w x) →
     Q (0, load_bytes off len (mem (hw w)) ++ drop (Z.to_nat len) buf) w') →
  wp (dm_i2c_read dev off buf len) Q w.
Proof using Hchip Hol.
  intros (Hb & Hi & Hord) Hok Hl Hoff Hlen HQ. unfold dm_i2c_read, chip_of. rewrite Hb.
  apply wp_bind. unfold wp at 1. rewrite Hi, (on_xfer _ _ _ _ _ _ _ Hchip).
  pose proof Hord as (_ & _ & H10 & Hrd). rewrite Hrd, H10. change (nonzero 0) with false. cbv iota.
  apply wp_bind. unfold wp at 1. rewrite setup_offset by done.
  change (nonzero 0) with false. cbv iota.
  rewrite (proj2 (Nat.leb_le _ _)) by lia. rewrite (proj2 (nonzero_true len)) by lia.
  apply wp_bind. unfold do_xfer. rewrite (on_xfer _ _ _ _ _ _ _ Hchip). apply wp_hw_call.
  destruct (on_read _ _ _ _ _ _ _ Hchip off len (take (Z.to_nat len) buf) (hw w)) as [Hr Hm];
    [done|lia|rewrite length_take; lia|].
  cbn [m_addr app] in *. change (Z.lor 0 I2C_M_RD) with I2C_M_RD.
  destruct (f bus _ (hw w)) as [r h']. simpl in *. subst r. wp_run. by apply HQ.
Qed.

Lemma wp_select_bus (w : world) (Q : Z + TestResultTypes_e → world → Prop) :
  bus_ok w →
  (∀ w', bus_ok w' → quiet w w' → (∀ x, cells w' x = cells w x) → Q (inl bus) w') →
  wp (select_bus seq) Q w.
Proof using Hchip.
  intros Hok HQ. unfold select_bus, eBBTF_utils_set_i2c_bus. wp_run.
  rewrite (on_seq _ _ _ _ _ _ _ Hchip). wp_run. change (sign 8 0) with 0. cbn [Z.eqb negb].
  unfold eBBTF_utils_get_i2c_bus. wp_run. apply HQ; [done|done|].
  intros x. apply (on_seq_mem _ _ _ _ _ _ _ Hchip).
Qed.

Lemma lor_flags_ordinary chip l :
  ordinary chip →
  ordinary (mkChip (chip_addr chip) l (Z.lor (flags chip) DM_I2C_CHIP_WR_ADDRESS)
              (chip_addr_offset_mask chip)).
Proof.
  intros (Ha & Hm & H10 & Hrd). split_and!; [done|done|..]; simpl;
    rewrite Z.land_lor_distr_l; [by rewrite H10|by rewrite Hrd].
Qed.

Lemma wp_utils_write reg data dlen (w : world) (Q : TestResultTypes_e → world → Prop) :
  0 ≤ seq < 256 → bus_ok w → 0 ≤ reg < 256 → 0 ≤ dlen < 256 → dlen ≤ Z.of_nat (length data) →
  reg + dlen ≤ 256 ^ ol →
  (∀ w', bus_ok w' → quiet w w' →
     (∀ x, cells w' x = store_bytes keep reg (take (Z.to_nat dlen) data) (mem (hw w)) x) →
     Q DIAG_TEST_RESULT_PASS w') →
  wp (eBBTF_utils_i2c_write seq addr reg ol data dlen) Q w.
Proof using Hchip Hol.
  intros Hseq Hok Hreg Hdlen Hdata Hend HQ. unfold eBBTF_utils_i2c_write.
  rewrite !wrap8_small, wrap32_small by lia. apply wp_bind, wp_select_bus; [done|].
  intros w1 Hok1 Hq1 Hm1. apply wp_bind, wp_get_chip; [done|].
  intros dev chip w2 Hh2 Hok2 Hq2 Hm2.
  apply wp_bind. eapply wp_set_offset_len; [done|done|].
  intros chip' w3 Hh3 Hl3 _ Hok3 Hq3 Hm3.
  apply wp_bind. eapply wp_chip_update; [done|done|apply lor_flags_ordinary, Hh3|].
  intros w4 Hh4 Hok4 Hq4 Hm4. apply wp_bind.
  unfold dm_i2c_write. pose proof Hh4 as (Hb & Hi & _). apply wp_bind. unfold wp at 1, chip_of.
  rewrite Hb, Hi, (on_xfer _ _ _ _ _ _ _ Hchip). cbn [flags].
  rewrite (proj2 (nonzero_true _)).
  2:{ rewrite Z.land_lor_distr_l. intros H%Z.lor_eq_0_iff. by destruct H. }
  eapply wp_write_bytewise; [done|done|by simpl|lia|lia|lia|].
  intros w5 Hok5 Hq5 Hm5. change (nonzero 0) with false. cbv iota. wp_run. apply HQ; [done|eauto 6 using quiet_trans|].
  intros x. rewrite Hm5. unfold store_bytes. by rewrite Hm4, Hm3, Hm2, Hm1.
Qed.

Lemma wp_utils_read reg buf dlen (w : world) (Q : TestResultTypes_e * list Z → world → Prop) :
  0 ≤ seq < 256 → bus_ok w → 0 ≤ reg < 256 → 0 < dlen < 256 → dlen ≤ Z.of_nat (length buf) →
  (∀ w', bus_ok w' → quiet w w' → (∀ x, cells w' x = cells w x) →
     Q (DIAG_TEST_RESULT_PASS, load_bytes reg dlen (mem (hw w)) ++ drop (Z.to_nat dlen) buf) w') →
  wp (eBBTF_utils_i2c_read seq addr reg ol buf dlen) Q w.
Proof using Hchip Hol.
  intros Hseq Hok Hreg Hdlen Hbuf HQ. unfold eBBTF_utils_i2c_read.
  rewrite !wrap8_small, wrap32_small by lia. apply wp_bind, wp_select_bus; [done|].
  intros w1 Hok1 Hq1 Hm1. apply wp_bind, wp_get_chip; [done|].
  intros dev chip w2 Hh2 Hok2 Hq2 Hm2.
  apply wp_bind, wp_bind. eapply wp_set_offset_len; [done|done|].
  intros chip' w3 Hh3 Hl3 _ Hok3 Hq3 Hm3. change (nonzero 0) with false. cbv iota.
  assert (256 ^ 1 ≤ 256 ^ ol) by (apply Z.pow_le_mono_r; lia).
  eapply wp_dm_read; [done|done|done|lia|lia|].
  intros w4 Hok4 Hq4 Hm4. change (nonzero 0) with false. cbv iota. wp_run.
  rewrite (load_bytes_ext reg dlen _ (mem (hw w))) by (intros x; by rewrite Hm3, Hm2, Hm1).
  apply HQ; [done|eauto 6 using quiet_trans|]. intros x. by rewrite Hm4, Hm3, Hm2, Hm1.
Qed.

(** C16. On a chip that is a memory, what the write helper stores is what the
    read helper returns, for every length up to 255 bytes. *)
Theorem i2c_write_read_roundtrip reg data buf (w : world) :
  (∀ x o b, keep x o b = b) → 0 ≤ seq < 256 → bus_ok w → 0 ≤ reg < 256 → 0 < Z.of_nat (length data) < 256 →
  length buf = length data → reg + Z.of_nat (length data) ≤ 256 ^ ol →
  ∃ w1 w2,
    eBBTF_utils_i2c_write seq addr reg ol data (Z.of_nat (length data)) w
      = Ret DIAG_TEST_RESULT_PASS w1 ∧
    eBBTF_utils_i2c_read seq addr reg ol buf (Z.of_nat (length data)) w1
      = Ret (DIAG_TEST_RESULT_PASS, data) w2.
Proof using Hchip Hol.
  intros Hkeep Hseq Hok Hreg Hlen Hbuf Hend. set (n := Z.of_nat (length data)) in *.
  assert (wp (eBBTF_utils_i2c_write seq addr reg ol data n) (λ r w1, r = DIAG_TEST_RESULT_PASS ∧
    bus_ok w1 ∧ ∀ x, cells w1 x = store_bytes keep reg data (mem (hw w)) x) w)
    as (r & w1 & H1 & -> & Hok1 & Hm1)%wp_run.
  { apply wp_utils_write; try done; try lia. intros w' Hok' _ Hm'. split_and!; [done|done|].
    intros x. by rewrite Hm', take_ge by lia. }
  assert (wp (eBBTF_utils_i2c_read seq addr reg ol buf n)
    (λ r _, r = (DIAG_TEST_RESULT_PASS, data)) w1) as (r & w2 & H2 & ->)%wp_run.
  { apply wp_utils_read; try done; try lia. intros w' _ _ _. f_equal.
    rewrite (load_bytes_ext _ _ _ (store_bytes keep_new reg data (mem (hw w)))).
    2:{ intros x. rewrite Hm1. unfold store_bytes.
        destruct (reg <=? x); [|done]. destruct (data !! Z.to_nat (x - reg)); [apply Hkeep|done]. }
    unfold n at 1. rewrite load_store, drop_ge, app_nil_r by lia. done. }
  by exists w1, w2.
Qed.
End memory_chip.

(** * Errors *)

Section errors.
Context {HW : Type} `{!I2cDriver HW}.

(** Without the bus both helpers report an event and fail, and touch
    neither the chips nor the hardware again. *)
Theorem i2c_no_bus seq addr reg ol data dlen e (w : world HW) :
  0 ≤ seq < 256 → (uclass_get_device_by_seq seq (hw w)).1 = inr e → sign 8 e ≠ 0 →
  (∃ w', eBBTF_utils_i2c_write seq addr reg ol data dlen w = Ret DIAG_TEST_RESULT_FAIL w' ∧
         i2c w' = i2c w ∧ hw w' = (uclass_get_device_by_seq seq (hw w)).2) ∧
  (∃ w', eBBTF_utils_i2c_read seq addr reg ol data dlen w
           = Ret (DIAG_TEST_RESULT_FAIL, data) w' ∧
         i2c w' = i2c w ∧ hw w' = (uclass_get_device_by_seq seq (hw w)).2).
Proof.
  intros Hseq He Hs.
  assert (wp (select_bus seq) (λ r w', r = inr DIAG_TEST_RESULT_FAIL ∧ i2c w' = i2c w ∧
            hw w' = (uclass_get_device_by_seq seq (hw w)).2) w)
    as (r & w' & H & -> & Hi & Hh)%wp_run.
  { unfold select_bus, eBBTF_utils_set_i2c_bus. wp_run. rewrite He. wp_run.
    rewrite (proj2 (Z.eqb_neq _ _) Hs). cbn [negb]. unfold report_bus_event. by wp_run. }
  split; exists w'; (split; [|done]); unfold eBBTF_utils_i2c_write, eBBTF_utils_i2c_read;
    rewrite (wrap8_small seq) by done; by erewrite M_bind_Ret by exact H.
Qed.

(** When no device can be bound for the chip, the write helper goes on
    with a device pointer it never set, while the read helper reports the
    failure. *)
Theorem i2c_write_uses_unset_device seq bus addr reg ol data dlen (w : world HW) :
  0 ≤ seq < 256 → (∀ h, (uclass_get_device_by_seq seq h).1 = inl bus) →
  children bus w = [] → (∀ n h, (malloc_ok n h).1 = true) →
  (∀ h, (device_bind_driver bus h).1 ≠ 0) →
  (∃ w', eBBTF_utils_i2c_write seq addr reg ol data dlen w = Crash UNINITIALISED w') ∧
  (∃ w', eBBTF_utils_i2c_read seq addr reg ol data dlen w = Ret (DIAG_TEST_RESULT_FAIL, data) w').
Proof.
  intros Hseq Hbus Hnone Hmalloc Hbind.
  assert (wp (select_bus seq) (λ r w', r = inl bus ∧ children bus w' = []) w)
    as (r & w1 & H1 & -> & Hch)%wp_run.
  { unfold select_bus, eBBTF_utils_set_i2c_bus. wp_run. rewrite Hbus. wp_run.
    change (sign 8 0) with 0. cbn [Z.eqb negb]. unfold eBBTF_utils_get_i2c_bus. by wp_run. }
  assert (wp (i2c_get_chip bus addr (wrap32 ol)) (λ r _, ∃ e, r = inr e ∧ e ≠ 0) w1)
    as (r & w2 & H2 & e & -> & He)%wp_run.
  { unfold i2c_get_chip. wp_run. rewrite Hch. simpl. unfold i2c_bind_driver.
    destruct (format_accepts "generic_%x" [VInt addr] eq_refl) as [s Hs].
    unfold snprintf, vsnprintf, vsnprintf_internal. rewrite Hs. cbn [mbind option_bind].
    wp_run. rewrite Hmalloc. wp_run.
    match goal with |- context [(device_bind_driver bus ?h).1] => pose proof (Hbind h) as Hne end.
    rewrite (proj2 (nonzero_true _) Hne). wp_run. by eexists. }
  unfold eBBTF_utils_i2c_write, eBBTF_utils_i2c_read. rewrite (wrap8_small seq) by done. split.
  - exists w2. erewrite M_bind_Ret by exact H1. cbv beta iota. by erewrite M_bind_Ret by exact H2.
  - erewrite M_bind_Ret by exact H1. cbv beta iota. erewrite M_bind_Ret by exact H2.
    cbv beta iota. erewrite M_bind_Ret by reflexivity. cbv beta iota. rewrite (proj2 (nonzero_true _) He).
    match goal with |- ∃ w', ?m w2 = Ret ?r w' =>
      assert (wp m (λ x _, x = r) w2) as (x & w' & H & ->)%wp_run by
        (unfold report_bus_event; by wp_run) end.
    by exists w'.
Qed.
End errors.

(** * A simulated bus *)

(** One memory chip at [addr], with [ol] offset bytes, on every bus. *)
Module I2cSim.
Notation chip := (gmap Z Z).
Definition peek (m : chip) (x : Z) : Z := default 0 (m !! x).

Fixpoint poke (off : Z) (data : list Z) (m : chip) : chip :=
  match data with
  | [] => m
  | b :: data' => poke (off + 1) data' (<[off := b]> m)
  end.

Definition sim_xfer (addr ol : Z) (_ : Z) (msgs : list i2c_msg) (m : chip) :
    (Z * list (list Z)) * chip :=
  match msgs with
  | [w] =>
      if m_addr w =? addr then
        ((0, [m_buf w]), poke (be_value (take (Z.to_nat ol) (m_buf w))) (drop (Z.to_nat ol) (m_buf w)) m)
      else ((- EREMOTEIO, [m_buf w]), m)
  | [w; r] =>
      if m_addr w =? addr then
        ((0, [m_buf w; load_bytes (be_value (m_buf w)) (m_len r) (peek m)]), m)
      else ((- EREMOTEIO, [m_buf w; m_buf r]), m)
  | _ => ((- EREMOTEIO, m_buf <$> msgs), m)
  end.

Definition driver (addr ol : Z) : I2cDriver chip := {|
  uclass_get_device_by_seq n m := (inl n, m);
  i2c_get_ops _ := mkOps (Some (sim_xfer addr ol)) None None None None;
  device_bind_driver _ m := (0, m);
  device_probe _ _ m := (0, m);
  malloc_ok _ m := (true, m);
|}.

Lemma memory seq addr ol :
  0 < ol → @I2cMemory _ (driver addr ol) seq seq addr ol (sim_xfer addr ol) keep_new peek.
Proof.
  intros Hol. split; try done.
  - intros off b h Hoff. simpl. rewrite Z.eqb_refl. simpl. split; [done|]. intros x.
    rewrite take_app_length', drop_app_length' by (by rewrite offset_bytes_length). simpl.
    rewrite be_value_offset, Z2Nat.id, Z.mod_small by lia. unfold peek, store_bytes.
    destruct (Z.leb_spec off x).
    + destruct (decide (x = off)) as [->|Hne].
      * by rewrite lookup_insert_eq, Z.sub_diag.
      * rewrite lookup_insert_ne by done. destruct (Z.to_nat (x - off)) eqn:E; [lia|done].
    + by rewrite lookup_insert_ne by lia.
  - intros off n buf h Hoff Hn _. simpl. rewrite Z.eqb_refl. simpl.
    by rewrite be_value_offset, Z2Nat.id, Z.mod_small by lia.
Qed.

(** The same bus with every attempt to bind a device failing. *)
Definition unbindable : I2cDriver chip := {|
  uclass_get_device_by_seq n m := (inl n, m);
  i2c_get_ops _ := mkOps None None None None None;
  device_bind_driver _ m := (- ENODEV, m);
  device_probe _ _ m := (0, m);
  malloc_ok _ m := (true, m);
|}.

(** No bus at all. *)
Definition busless : I2cDriver chip := {|
  uclass_get_device_by_seq _ m := (inr (- ENODEV), m);
  i2c_get_ops _ := mkOps None None None None None;
  device_bind_driver _ m := (- ENODEV, m);
  device_probe _ _ m := (0, m);
  malloc_ok _ m := (true, m);
|}.

Definition start : world chip := boot_world ∅.

Lemma i2c_start_ok bus addr : bus_ok bus addr start.
Proof. intros i c. unfold children. simpl. by rewrite lookup_empty. Qed.
End I2cSim.

Lemma i2c_write_read_roundtrip_witness :
  ∃ w1 w2,
    @eBBTF_utils_i2c_write _ (I2cSim.driver 0x68 1) 1 0x68 2 1 [5; 6; 7] 3 I2cSim.start
      = Ret DIAG_TEST_RESULT_PASS w1 ∧
    @eBBTF_utils_i2c_read _ (I2cSim.driver 0x68 1) 1 0x68 2 1 [0; 0; 0] 3 w1
      = Ret (DIAG_TEST_RESULT_PASS, [5; 6; 7]) w2.
Proof.
  apply (@i2c_write_read_roundtrip _ (I2cSim.driver 0x68 1) 1 1 0x68 1 _ keep_new I2cSim.peek
    (I2cSim.memory 1 0x68 1 ltac:(lia)) ltac:(lia) 2 [5; 6; 7] [0; 0; 0]);
    [done|lia|apply I2cSim.i2c_start_ok|lia|simpl; lia|done|simpl; lia].
Defined.

Lemma i2c_no_bus_witness :
  (∃ w', @eBBTF_utils_i2c_write _ I2cSim.busless 1 0x68 2 1 [5] 1 I2cSim.start
           = Ret DIAG_TEST_RESULT_FAIL w' ∧ i2c w' = i2c I2cSim.start ∧ hw w' = ∅) ∧
  (∃ w', @eBBTF_utils_i2c_read _ I2cSim.busless 1 0x68 2 1 [5] 1 I2cSim.start
           = Ret (DIAG_TEST_RESULT_FAIL, [5]) w' ∧ i2c w' = i2c I2cSim.start ∧ hw w' = ∅).
Proof.
  apply (@i2c_no_bus _ I2cSim.busless 1 0x68 2 1 [5] 1 (- ENODEV)); [lia|done|done].
Defined.

Lemma i2c_write_uses_unset_device_witness :
  (∃ w', @eBBTF_utils_i2c_write _ I2cSim.unbindable 1 0x68 2 1 [5] 1 I2cSim.start
           = Crash UNINITIALISED w') ∧
  (∃ w', @eBBTF_utils_i2c_read _ I2cSim.unbindable 1 0x68 2 1 [5] 1 I2cSim.start
           = Ret (DIAG_TEST_RESULT_FAIL, [5]) w').
Proof.
  apply (@i2c_write_uses_unset_device _ I2cSim.unbindable 1 1); [lia|done..].
Defined.
