(* ===== verification/Eeprom.v ===== *)
(** The EEPROM test: [testsuite/test_at24c_eeprom.c]. *)

From S2P Require Import Prelude CLib Vsprintf VsprintfFacts Machine Events Memory MemoryFacts.
From S2P Require Import I2cUclass I2cUtils I2cFacts.

Definition TEST_BUFFER_LEN : Z := 128.
Notation EEPROM_TEST_OFFSET := 128%Z (only parsing).
Notation EEPROM_TEST_LEN := 128%Z (only parsing).
Definition EEPROM_OFFSET_LEN : Z := 2.
Notation EEPROM_TEST_PATTERN := 0xEA%Z (only parsing).
Definition EEPROM_PAGE_LEN : Z := 32.
Notation I2C1_SCL_OFFSET := 0x44e10980%Z (only parsing).
Notation I2C1_SDA_OFFSET := 0x44e10984%Z (only parsing).
Notation I2C1_SCL_MODE3 := 0x0000007B%Z (only parsing).
Notation I2C1_SDA_MODE3 := 0x0000007B%Z (only parsing).

Record A_EEPROM_Read_Write_test := mkEepromArgs {
  ee_i2c_bus_num : Z;
  ee_i2c_dev_addr : Z;
  ee_eeprom_offset : Z;
  ee_test_len : Z;
}.

Section eeprom.
Context {HW : Type} `{!MemBus HW} `{!I2cDriver HW}.
Notation M := (M (world HW)).

Definition writel (v a : Z) : M unit := hw_do (mem_write32 a v).

Definition cfg_exp_i2c1_pin_mux : M unit :=
  _ ← writel I2C1_SCL_MODE3 I2C1_SCL_OFFSET;
  writel I2C1_SDA_MODE3 I2C1_SDA_OFFSET.

Definition eeprom_file : string := "../test-framework/testsuite/test_at24c_eeprom.c".

Definition set_testbuf1 (b : list Z) : M unit :=
  modify (λ w, with_eeprom (mkEeprom b (i2c_eeprom_testbuf2 (eeprom w))) w).
Definition set_testbuf2 (b : list Z) : M unit :=
  modify (λ w, with_eeprom (mkEeprom (i2c_eeprom_testbuf1 (eeprom w)) b) w).

(** [for (offset = 0; offset < TEST_BUFFER_LEN; offset += EEPROM_PAGE_LEN)],
    left at the first status that is not a pass. *)
Definition for_pages (page : Z → M TestResultTypes_e) : M TestResultTypes_e :=
  r ← for_loop (R := Empty_set) 5
        (λ '(offset, _), offset <? TEST_BUFFER_LEN)
        (λ '(offset, status), (offset + EEPROM_PAGE_LEN, status))
        (λ '(offset, _),
           status ← page offset;
           if bool_decide (status = DIAG_TEST_RESULT_PASS)
           then mret (Continue (offset, status)) else mret (Break (offset, status)))
        (0, DIAG_TEST_RESULT_PASS);
  match r with
  | inl (_, status) => mret status
  | inr e => match (e : Empty_set) with end
  end.

Definition eeprom_write_page (a : A_EEPROM_Read_Write_test) (offset : Z) : M TestResultTypes_e :=
  buf ← gets (λ w, i2c_eeprom_testbuf1 (eeprom w));
  eBBTF_utils_i2c_write (ee_i2c_bus_num a) (ee_i2c_dev_addr a) (ee_eeprom_offset a + offset)
    EEPROM_OFFSET_LEN (drop (Z.to_nat offset) buf) EEPROM_PAGE_LEN.

Definition eeprom_read_page (a : A_EEPROM_Read_Write_test) (offset : Z) : M TestResultTypes_e :=
  buf ← gets (λ w, i2c_eeprom_testbuf2 (eeprom w));
  '(status, page) ← eBBTF_utils_i2c_read (ee_i2c_bus_num a) (ee_i2c_dev_addr a)
                      (ee_eeprom_offset a + offset) EEPROM_OFFSET_LEN
                      (drop (Z.to_nat offset) buf) EEPROM_PAGE_LEN;
  _ ← set_testbuf2 (take (Z.to_nat offset) buf ++ page);
  mret status.

Definition eeprom_report (testId : Z) (a : A_EEPROM_Read_Write_test)
    (type : DiagErrEventIDTypes_e) : M TestResultTypes_e :=
  event ← Event_Init testId;
  _ ← ReportEvent (fill_event event type
                     [ee_i2c_bus_num a; ee_i2c_dev_addr a; ee_eeprom_offset a] "");
  mret DIAG_TEST_RESULT_FAIL.

Definition EEPROM_Read_Write_test (testId : Z) (arg : option A_EEPROM_Read_Write_test) :
    M TestResultTypes_e :=
  match arg with
  | None => _ ← DEBUG_ASSERT eeprom_file 55; mret DIAG_TEST_RESULT_ABORTED
  | Some a =>
      _ ← cfg_exp_i2c1_pin_mux;
      buf1 ← gets (λ w, i2c_eeprom_testbuf1 (eeprom w));
      match memset buf1 EEPROM_TEST_PATTERN (Z.to_nat TEST_BUFFER_LEN) with
      | None => crash OUT_OF_BOUNDS
      | Some buf1 =>
          _ ← set_testbuf1 buf1;
          status ← for_pages (eeprom_write_page a);
          if negb (bool_decide (status = DIAG_TEST_RESULT_PASS))
          then eeprom_report testId a DIAG_DEV_WRITE_ERR_EVENT
          else
            status ← for_pages (eeprom_read_page a);
            if negb (bool_decide (status = DIAG_TEST_RESULT_PASS))
            then eeprom_report testId a DIAG_DEV_READ_ERR_EVENT
            else
              buf2 ← gets (λ w, i2c_eeprom_testbuf2 (eeprom w));
              buf1 ← gets (λ w, i2c_eeprom_testbuf1 (eeprom w));
              match memcmp buf2 buf1 (Z.to_nat TEST_BUFFER_LEN) with
              | None => crash OUT_OF_BOUNDS
              | Some r =>
                  if nonzero r then eeprom_report testId a DIAG_BUS_DATA_MISMATCH_ERR_EVENT
                  else mret DIAG_TEST_RESULT_PASS
              end
      end
  end.
End eeprom.

(** * The verdict *)

Section verdict.
Context {HW : Type} `{!MemBus HW} `{!I2cDriver HW} (seq bus addr : Z)
  (f : Z → list i2c_msg → HW → (Z * list (list Z)) * HW)
  (keep : Z → Z → Z → Z) (mem : HW → Z → Z)
  (Hchip : I2cMemory seq bus addr 2 f keep mem)
  (Hpins : ∀ a v h x, mem (mem_write32 a v h) x = mem h x)
  (off : Z) (Hoff : 0 ≤ off ≤ 128) (Hseq : 0 ≤ seq < 256).
Notation world := (world HW).
Notation cells w x := (mem (hw w) x).
Notation bus_ok := (bus_ok bus addr).

(** The two test buffers of the program are still arrays of 128 bytes. *)
Definition buffers_ok (w : world) : Prop :=
  length (i2c_eeprom_testbuf1 (eeprom w)) = 128%nat ∧
  length (i2c_eeprom_testbuf2 (eeprom w)) = 128%nat.

Definition test_bytes : list Z := replicate 128 EEPROM_TEST_PATTERN.

Lemma wp_pin_mux (w : world) (Q : unit → world → Prop) :
  bus_ok w → (∀ w', bus_ok w' → quiet w w' → (∀ x, cells w' x = cells w x) → Q tt w') →
  wp cfg_exp_i2c1_pin_mux Q w.
Proof using Hpins.
  intros Hok HQ. unfold cfg_exp_i2c1_pin_mux, writel. wp_run. apply HQ; [done..|].
  intros x. simpl. by rewrite !Hpins.
Qed.

(** Four pages, each passing, carried by an invariant. *)
Lemma wp_for_pages page (I : nat → world → Prop) (w : world) (Q : TestResultTypes_e → world → Prop) :
  I 0%nat w →
  (∀ p w1, (p < 4)%nat → I p w1 →
     wp (page (32 * Z.of_nat p)) (λ r w2, r = DIAG_TEST_RESULT_PASS ∧ I (S p) w2) w1) →
  (∀ w', I 4%nat w' → Q DIAG_TEST_RESULT_PASS w') →
  wp (for_pages page) Q w.
Proof.
  intros H0 Hpage HQ. unfold for_pages. apply wp_bind.
  apply (wp_for_seq (λ p, (32 * Z.of_nat p, DIAG_TEST_RESULT_PASS)) 4 I); [lia|..|done| |].
  - intros p Hp. unfold TEST_BUFFER_LEN. destruct (Nat.ltb_spec p 4); lia.
  - intros p w1 Hp HI. apply wp_bind. eapply wp_mono; [by apply Hpage|].
    intros r w2 [-> HI2]. rewrite bool_decide_eq_true_2 by done. apply wp_ret.
    split; [|done]. f_equal. unfold EEPROM_PAGE_LEN. lia.
  - intros w' HI. wp_run. by apply HQ.
Qed.

Definition args : A_EEPROM_Read_Write_test := mkEepromArgs seq addr off EEPROM_TEST_LEN.

Lemma wp_write_pages (w : world) (Q : TestResultTypes_e → world → Prop) :
  bus_ok w → i2c_eeprom_testbuf1 (eeprom w) = test_bytes →
  (∀ w', bus_ok w' → quiet w w' →
     (∀ x, cells w' x = store_bytes keep off test_bytes (mem (hw w)) x) →
     Q DIAG_TEST_RESULT_PASS w') →
  wp (for_pages (eeprom_write_page args)) Q w.
Proof using Hchip Hoff Hseq.
  intros Hok Hbuf HQ.
  apply (wp_for_pages _ (λ p w', bus_ok w' ∧ quiet w w' ∧
    ∀ x, cells w' x = store_bytes keep off (take (32 * p) test_bytes) (mem (hw w)) x)).
  - split_and!; [done..|]. intros x. by rewrite store_bytes_nil.
  - intros p w1 Hp (Hok1 & Hq1 & Hm1). unfold eeprom_write_page. wp_run.
    pose proof Hq1 as (_ & _ & -> & _). rewrite Hbuf.
    cbn [ee_i2c_bus_num ee_i2c_dev_addr ee_eeprom_offset args].
    unfold EEPROM_OFFSET_LEN, EEPROM_PAGE_LEN.
    eapply (wp_utils_write seq bus addr 2 f keep mem Hchip); try done; try lia.
    { rewrite length_drop. unfold test_bytes. rewrite length_replicate. lia. }
    intros w2 Hok2 Hq2 Hm2. split; [done|]. split; [done|]. split; [by apply (quiet_trans _ w1)|].
    intros x. rewrite Hm2, (store_bytes_ext _ _ _ _ _ _ Hm1).
    replace (Z.to_nat (32 * Z.of_nat p)) with (32 * p)%nat by lia. change (Z.to_nat 32) with 32%nat.
    replace (off + 32 * Z.of_nat p)
      with (off + Z.of_nat (length (take (32 * p) test_bytes))).
    2:{ rewrite length_take. unfold test_bytes. rewrite length_replicate. lia. }
    rewrite (store_bytes_app keep off (take (32 * p) test_bytes)). f_equal.
    replace (32 * S p)%nat with (32 * p + 32)%nat by lia. by rewrite take_take_drop.
  - intros w' (Hok' & Hq' & Hm'). by apply HQ.
Qed.

Lemma wp_read_pages (w : world) (Q : TestResultTypes_e → world → Prop) :
  bus_ok w → length (i2c_eeprom_testbuf2 (eeprom w)) = 128%nat →
  (∀ w', i2c_eeprom_testbuf1 (eeprom w') = i2c_eeprom_testbuf1 (eeprom w) →
     i2c_eeprom_testbuf2 (eeprom w') = load_bytes off 128 (mem (hw w)) →
     Q DIAG_TEST_RESULT_PASS w') →
  wp (for_pages (eeprom_read_page args)) Q w.
Proof using Hchip Hoff Hseq.
  intros Hok Hbuf HQ. set (b2 := i2c_eeprom_testbuf2 (eeprom w)) in *.
  apply (wp_for_pages _ (λ p w', bus_ok w' ∧ (∀ x, cells w' x = cells w x) ∧
    i2c_eeprom_testbuf1 (eeprom w') = i2c_eeprom_testbuf1 (eeprom w) ∧
    i2c_eeprom_testbuf2 (eeprom w') =
      load_bytes off (32 * Z.of_nat p) (mem (hw w)) ++ drop (32 * p) b2)).
  - done.
  - intros p w1 Hp (Hok1 & Hm1 & Hb1 & Hb2). unfold eeprom_read_page. wp_run. rewrite Hb2.
    cbn [ee_i2c_bus_num ee_i2c_dev_addr ee_eeprom_offset args].
    unfold EEPROM_OFFSET_LEN, EEPROM_PAGE_LEN.
    assert (length (load_bytes off (32 * Z.of_nat p) (mem (hw w))) = Z.to_nat (32 * Z.of_nat p))
      as Hl by apply load_bytes_length.
    rewrite take_app_length', drop_app_length' by done.
    eapply (wp_utils_read seq bus addr 2 f keep mem Hchip); try done; try lia.
    { rewrite length_drop. lia. }
    intros w2 Hok2 Hq2 Hm2. pose proof Hq2 as (_ & _ & He & _). unfold set_testbuf2. wp_run.
    rewrite He. split_and!; [done..| | |].
    + intros x. simpl. by rewrite Hm2, Hm1.
    + done.
    + cbn [with_eeprom eeprom i2c_eeprom_testbuf2]. rewrite app_assoc, drop_drop.
      rewrite (load_bytes_ext (off + 32 * Z.of_nat p) _ _ (mem (hw w))) by done.
      rewrite <- load_bytes_app by lia. f_equal; f_equal; lia.
  - intros w' (_ & _ & Hb1 & Hb2). apply HQ; [done|].
    by rewrite Hb2, drop_ge, app_nil_r by lia.
Qed.

(** The verdict of the test: does every tested cell hold the pattern when it
    is told to? *)
Definition takes_pattern (m : Z → Z) : bool :=
  forallb (λ k, keep (off + Z.of_nat k) (m (off + Z.of_nat k)) EEPROM_TEST_PATTERN
                =? EEPROM_TEST_PATTERN) (List.seq 0 128).

Lemma load_takes_pattern m :
  load_bytes off 128 (store_bytes keep off test_bytes m) = test_bytes ↔ takes_pattern m = true.
Proof.
  unfold takes_pattern. rewrite forallb_forall. unfold load_bytes, test_bytes.
  change (Z.to_nat 128) with 128%nat.
  assert (∀ k, (k < 128)%nat →
    store_bytes keep off (replicate 128 EEPROM_TEST_PATTERN) m (off + Z.of_nat k) =
    keep (off + Z.of_nat k) (m (off + Z.of_nat k)) EEPROM_TEST_PATTERN) as Hst.
  { intros k Hk. unfold store_bytes. replace (off <=? off + Z.of_nat k) with true by lia.
    replace (Z.to_nat (off + Z.of_nat k - off)) with k by lia.
    by rewrite lookup_replicate_2 by done. }
  split.
  - intros Heq k Hk%in_seq. apply (f_equal (.!! k)) in Heq.
    rewrite list_lookup_fmap, lookup_seq_lt, lookup_replicate_2 in Heq by lia.
    simpl in Heq. injection Heq as Heq. rewrite Hst in Heq by lia. lia.
  - intros Hall. apply list_eq. intros k. rewrite list_lookup_fmap.
    destruct (decide (k < 128)%nat).
    + rewrite lookup_seq_lt, lookup_replicate_2 by lia. simpl. f_equal. rewrite Hst by done.
      specialize (Hall k). rewrite Z.eqb_eq in Hall. apply Hall, in_seq. lia.
    + rewrite lookup_seq_ge by lia. symmetry. apply lookup_ge_None_2.
      rewrite length_replicate. lia.
Qed.

(** C38. On an EEPROM with two address bytes the test writes the four pages,
    reads them back and returns a verdict: pass exactly when all 128 cells
    take the pattern.  A single cell that cannot hold it fails the test. *)
Theorem eeprom_test_result testId (w : world) :
  bus_ok w → buffers_ok w →
  ∃ w', EEPROM_Read_Write_test testId (Some args) w
        = Ret (verdict (takes_pattern (mem (hw w)))) w'.
Proof using Hchip Hpins Hoff Hseq.
  intros Hok [Hb1 Hb2].
  assert (wp (EEPROM_Read_Write_test testId (Some args))
    (λ r _, r = verdict (takes_pattern (mem (hw w)))) w) as (r & w' & H & ->)%wp_run;
    [|by exists w'].
  unfold EEPROM_Read_Write_test. apply wp_bind, wp_pin_mux; [done|].
  intros w1 Hok1 (_ & _ & He1 & _) Hm1. wp_run. rewrite He1. unfold memset, TEST_BUFFER_LEN.
  rewrite Hb1, drop_ge, app_nil_r by (rewrite Hb1; lia). cbv beta iota.
  change (Z.to_nat 128 <=? 128)%nat with true. cbv iota. unfold set_testbuf1. wp_run.
  apply wp_write_pages; [done|done|]. intros w2 Hok2 (_ & _ & He2 & _) Hm2.
  rewrite bool_decide_eq_true_2 by done. cbn [negb]. apply wp_bind, wp_read_pages; [done| |].
  { rewrite He2. simpl. by rewrite He1. }
  intros w3 Hbuf1 Hbuf2. rewrite bool_decide_eq_true_2 by done. cbn [negb]. wp_run.
  rewrite Hbuf2, Hbuf1, He2. simpl i2c_eeprom_testbuf1.
  rewrite (load_bytes_ext _ _ _ (store_bytes keep off test_bytes (mem (hw w)))).
  2:{ intros x. rewrite Hm2. by apply store_bytes_ext. }
  edestruct (memcmp_zero (load_bytes off 128 (store_bytes keep off test_bytes (mem (hw w))))
    test_bytes 128) as (r & Hr & Hr0); [by rewrite load_bytes_length|done|].
  match goal with |- context [memcmp ?x ?y ?n] => change (memcmp x y n) with (memcmp x test_bytes 128) end.
  rewrite Hr.
  rewrite take_ge in Hr0 by (by rewrite load_bytes_length).
  change (take 128 test_bytes) with test_bytes in Hr0. rewrite load_takes_pattern in Hr0.
  destruct (nonzero r) eqn:Hnz.
  - apply nonzero_true in Hnz. destruct (takes_pattern (mem (hw w))); [tauto|].
    unfold eeprom_report. by wp_run.
  - apply nonzero_false in Hnz. apply Hr0 in Hnz. rewrite Hnz. by wp_run.
Qed.
End verdict.

(** * A simulated EEPROM *)

(** The board's memory bus does not reach the chip. *)
#[local] Instance pins_only : MemBus (gmap Z Z) := {|
  mem_read32 _ h := (0, h);
  mem_write32 _ _ h := h;
  flush_dcache_all h := h;
|}.

Lemma eeprom_test_result_witness :
  ∃ w', @EEPROM_Read_Write_test _ pins_only (I2cSim.driver 0x50 2) 7 (Some (args 1 0x50 128))
          I2cSim.start = Ret DIAG_TEST_RESULT_PASS w'.
Proof.
  apply (@eeprom_test_result _ pins_only (I2cSim.driver 0x50 2) 1 1 0x50 _ keep_new I2cSim.peek
    (I2cSim.memory 1 0x50 2 ltac:(lia)) (λ _ _ _ _, eq_refl) 128 ltac:(lia) ltac:(lia) 7);
    [apply I2cSim.i2c_start_ok|done].
Defined.
