(* ===== verification/Rtc.v ===== *)
(** The real-time clock tests: [testsuite/test_ds2321_rtc.c]. *)

From S2P Require Import Prelude CLib Vsprintf VsprintfFacts Machine Events Memory MemoryFacts.
From S2P Require Import I2cUclass I2cUtils I2cFacts Eeprom.

Definition DS2321_RTC_SEC_REG_ADDR : Z := 0x00.
Definition DS2321_RTC_MIN_REG_ADDR : Z := 0x01.
Definition DS2321_RTC_HR_REG_ADDR : Z := 0x02.
Notation DS2321_RTC_CTL_REG_ADDR := 0x0E%Z (only parsing).
Definition DS2321_RTC_CTL_STATUS_REG_ADDR : Z := 0x0F.
Notation DS2321_SELECT_EXT_CLK := 0x04%Z (only parsing).
Notation DS2321_SELECT_EXT_32KHZ := 0x18%Z (only parsing).

Record A_ds2321_rtc_get_time_test := mkGetTime {
  gt_i2c_bus : Z;
  gt_i2c_speed : Z;
  gt_i2c_dev_addr : Z;
}.

Record A_ds2321_rtc_set_time_test := mkSetTime {
  st_i2c_bus : Z;
  st_i2c_speed : Z;
  st_i2c_dev_addr : Z;
  st_sec_value : Z;
  st_min_value : Z;
  st_hour_value : Z;
}.

Definition time_fmt : string := "RTC_Get_Time [HH:MM:SS] = %d:%d:%d".

Section rtc.
Context {HW : Type} `{!MemBus HW} `{!I2cDriver HW}.
Notation M := (M (world HW)).

Definition rtc_file : string := "../test-framework/testsuite/test_ds2321_rtc.c".

(** [Event_Init], the assignments, [ReportEvent], [return FAIL]. *)
Definition rtc_report (testId : Z) (type : DiagErrEventIDTypes_e) (addrs : list Z) :
    M TestResultTypes_e :=
  event ← Event_Init testId;
  _ ← ReportEvent (fill_event event type addrs "");
  mret DIAG_TEST_RESULT_FAIL.

(** The event of a failing write is filled in and dropped. *)
Definition ds2321_rtc_init (testId chip_address bus speed : Z) : M TestResultTypes_e :=
  _ ← cfg_exp_i2c1_pin_mux;
  ret ← eBBTF_utils_set_i2c_bus bus;
  let setbus_status := sign 8 ret in
  if negb (setbus_status =? 0) then rtc_report testId DIAG_BUS_NOT_FOUND_ERR_EVENT [bus]
  else
    ret ← eBBTF_utils_i2c_bus_speed speed;
    let setbus_status := sign 8 ret in
    if setbus_status <? 0 then rtc_report testId DIAG_BUS_INIT_ERR_EVENT [bus]
    else
      '(status, val) ← eBBTF_utils_i2c_read bus chip_address DS2321_RTC_CTL_STATUS_REG_ADDR 1 [0] 1;
      if negb (bool_decide (status = DIAG_TEST_RESULT_PASS)) then
        rtc_report testId DIAG_DEV_READ_ERR_EVENT
          [bus; chip_address; DS2321_RTC_CTL_STATUS_REG_ADDR]
      else
        let val := (λ v, Z.lor (Z.lor v DS2321_SELECT_EXT_CLK) DS2321_SELECT_EXT_32KHZ) <$> val in
        status ← eBBTF_utils_i2c_write bus chip_address DS2321_RTC_CTL_STATUS_REG_ADDR 1 val 1;
        if negb (bool_decide (status = DIAG_TEST_RESULT_PASS)) then
          event ← Event_Init testId;
          let _ := fill_event event DIAG_DEV_WRITE_ERR_EVENT
                     [bus; chip_address; DS2321_RTC_CTL_STATUS_REG_ADDR] "" in
          mret DIAG_TEST_RESULT_FAIL
        else mret status.

(** One register into [get_value], reported when it fails: the value, or the
    result to return. *)
Definition rtc_read_reg (testId bus addr reg : Z) : M (Z + TestResultTypes_e) :=
  '(status, get_value) ← eBBTF_utils_i2c_read bus addr reg 1 [0] 1;
  if negb (bool_decide (status = DIAG_TEST_RESULT_PASS)) then
    r ← rtc_report testId DIAG_DEV_READ_ERR_EVENT [bus; addr; reg]; mret (inr r)
  else mret (inl (wrap8 (bcd2bin (Z.land (default 0 (head get_value)) 0x7f)))).

Definition print_time (hour min sec : Z) : M unit :=
  buff ← sprintf_to 256 time_fmt [VInt hour; VInt min; VInt sec];
  printf ("  %s" +:+ newline) [VStr (Some buff)].

Definition ds2321_rtc_get_time_test (testId : Z) (arg : option A_ds2321_rtc_get_time_test) :
    M TestResultTypes_e :=
  match arg with
  | None => _ ← DEBUG_ASSERT rtc_file 155; mret DIAG_TEST_RESULT_ABORTED
  | Some a =>
      status ← ds2321_rtc_init testId (gt_i2c_dev_addr a) (gt_i2c_bus a) (gt_i2c_speed a);
      if negb (bool_decide (status = DIAG_TEST_RESULT_PASS)) then mret DIAG_TEST_RESULT_FAIL
      else
        let read := rtc_read_reg testId (gt_i2c_bus a) (gt_i2c_dev_addr a) in
        r ← read DS2321_RTC_SEC_REG_ADDR;
        match r with
        | inr r => mret r
        | inl sec =>
            r ← read DS2321_RTC_MIN_REG_ADDR;
            match r with
            | inr r => mret r
            | inl min =>
                r ← read DS2321_RTC_HR_REG_ADDR;
                match r with
                | inr r => mret r
                | inl hour => _ ← print_time hour min sec; mret DIAG_TEST_RESULT_PASS
                end
            end
        end
  end.

(** One register set to the BCD code of [value]: nothing, or the result to
    return. *)
Definition rtc_write_reg (testId bus addr reg value : Z) : M (option TestResultTypes_e) :=
  let set_value := wrap8 (bin2bcd value) in
  status ← eBBTF_utils_i2c_write bus addr reg 1 [set_value] 1;
  if negb (bool_decide (status = DIAG_TEST_RESULT_PASS)) then
    r ← rtc_report testId DIAG_DEV_WRITE_ERR_EVENT [bus; addr; reg]; mret (Some r)
  else mret None.

Definition ds2321_rtc_set_time_test (testId : Z) (arg : option A_ds2321_rtc_set_time_test) :
    M TestResultTypes_e :=
  match arg with
  | None => _ ← DEBUG_ASSERT rtc_file 230; mret DIAG_TEST_RESULT_ABORTED
  | Some a =>
      if (59 <? st_sec_value a) || (59 <? st_min_value a) || (23 <? st_hour_value a)
      then _ ← DEBUG_ASSERT rtc_file 236; mret DIAG_TEST_RESULT_ABORTED
      else
        status ← ds2321_rtc_init testId (st_i2c_dev_addr a) (st_i2c_bus a) (st_i2c_speed a);
        if negb (bool_decide (status = DIAG_TEST_RESULT_PASS)) then mret DIAG_TEST_RESULT_FAIL
        else
          let write := rtc_write_reg testId (st_i2c_bus a) (st_i2c_dev_addr a) in
          r ← write DS2321_RTC_SEC_REG_ADDR (st_sec_value a);
          match r with
          | Some r => mret r
          | None =>
              r ← write DS2321_RTC_MIN_REG_ADDR (st_min_value a);
              match r with
              | Some r => mret r
              | None =>
                  r ← write DS2321_RTC_HR_REG_ADDR (st_hour_value a);
                  match r with
                  | Some r => mret r
                  | None =>
                      _ ← print_time (st_hour_value a) (st_min_value a) (st_sec_value a);
                      mret DIAG_TEST_RESULT_PASS
                  end
              end
          end
  end.
End rtc.

(** * Setting and reading the clock *)

(** The line the tests print for a time. *)
Definition time_text (hour min sec : Z) : string :=
  "RTC_Get_Time [HH:MM:SS] = " +:+ dec2 hour +:+ ":" +:+ dec2 min +:+ ":" +:+ dec2 sec.

Definition time_line (hour min sec : Z) : string :=
  "  " +:+ time_text hour min sec +:+ newline.

Lemma time_text_format hour min sec :
  0 ≤ hour < 100 → 0 ≤ min < 100 → 0 ≤ sec < 100 →
  format time_fmt [VInt hour; VInt min; VInt sec] = Some (time_text hour min sec).
Proof.
  intros Hh Hm Hs. unfold format. change (c_str time_fmt) with time_fmt.
  change (S (String.length time_fmt)) with (26 + (1 + (1 + (1 + (1 + (1 + 4))))))%nat.
  unfold time_fmt. cbn [Nat.add].
  do 26 (rewrite vformat_lit by reflexivity).
  rewrite vformat_dec2, vformat_lit, vformat_dec2, vformat_lit, vformat_dec2 by done.
  simpl. by rewrite str_app_nil_r.
Qed.

Lemma time_text_facts hour min sec :
  0 ≤ hour < 100 → 0 ≤ min < 100 → 0 ≤ sec < 100 →
  no_nul (time_text hour min sec) ∧ 0 < slen (time_text hour min sec) < 40.
Proof.
  intros Hh Hm Hs. unfold time_text.
  destruct (dec2_spec hour Hh) as (_ & Nh & Lh), (dec2_spec min Hm) as (_ & Nm & Lm),
    (dec2_spec sec Hs) as (_ & Ns & Ls). split.
  - repeat apply no_nul_app; done.
  - rewrite !slen_app. change (slen "RTC_Get_Time [HH:MM:SS] = ") with 26.
    change (slen ":") with 1. unfold slen in *. lia.
Qed.

Lemma print_time_exact {HW} hour min sec (w : world HW) :
  0 ≤ hour < 100 → 0 ≤ min < 100 → 0 ≤ sec < 100 →
  print_time hour min sec w = Ret tt (emit (time_line hour min sec) w).
Proof.
  intros Hh Hm Hs. destruct (time_text_facts hour min sec Hh Hm Hs) as [Hn Hl].
  unfold print_time. erewrite M_bind_Ret.
  2:{ apply sprintf_exact; [by apply time_text_format|done|lia|unfold INT_MAX; lia]. }
  apply printf_exact.
  - unfold format. change (c_str ("  %s" +:+ newline)) with ("  %s" +:+ newline).
    change (String.length _) with 5%nat. unfold newline. cbn [String.append].
    rewrite vformat_lit, vformat_lit, vformat_str, vformat_lit by done. done.
  - apply no_nul_app; [done|]. by apply no_nul_app.
  - unfold time_line. rewrite !slen_app. change (slen "  ") with 2. change (slen newline) with 1.
    unfold CONFIG_SYS_PBSIZE, CONFIG_SYS_CBSIZE. lia.
Qed.

(** The BCD code of a number below 80, read back through the seven-bit mask. *)
Lemma bcd_roundtrip v :
  0 ≤ v < 80 → wrap8 (bcd2bin (Z.land (wrap8 (bin2bcd v)) 0x7f)) = v.
Proof.
  revert v. apply (forall_below 80). repeat (constructor; [reflexivity|]). constructor.
Qed.

Section clock.
Context {HW : Type} `{!MemBus HW} `{!I2cDriver HW} (seq bus addr speed : Z)
  (f : Z → list i2c_msg → HW → (Z * list (list Z)) * HW)
  (keep : Z → Z → Z → Z) (mem : HW → Z → Z)
  (Hchip : I2cMemory seq bus addr 1 f keep mem)
  (Hkeep : ∀ x o b, 0 ≤ x ≤ 2 → keep x o b = b)
  (Hpins : ∀ a v h x, mem (mem_write32 a v h) x = mem h x)
  (Hset : ∀ g s h, set_bus_speed (i2c_get_ops bus) = Some g →
            (g bus s h).1 = 0 ∧ ∀ x, mem (g bus s h).2 x = mem h x)
  (Hget : ∀ g h x, get_bus_speed (i2c_get_ops bus) = Some g → mem (g bus h).2 x = mem h x)
  (Hseq : 0 ≤ seq < 256).
Notation world := (world HW).
Notation cells w x := (mem (hw w) x).
Notation bus_ok := (bus_ok bus addr).

(** [w'] comes after [w]: its console extends [w]'s. *)
Definition after (w w' : world) : Prop := ∃ s, console w' = console w +:+ s.

Lemma after_quiet w w1 w2 : after w w1 → quiet w1 w2 → after w w2.
Proof using. intros [s Hs] (Hc & _). exists s. by rewrite Hc. Qed.

Lemma wp_get_speed (w : world) (Q : Z → world → Prop) :
  bus_ok w →
  (∀ v w', bus_ok w' → quiet w w' → (∀ x, cells w' x = cells w x) → Q v w') →
  wp (dm_i2c_get_bus_speed bus) Q w.
Proof using Hget.
  intros Hok HQ. unfold dm_i2c_get_bus_speed.
  destruct (get_bus_speed (i2c_get_ops bus)) as [g|] eqn:Hg; wp_run; apply HQ; try done.
  intros x. by apply Hget.
Qed.

Lemma wp_set_speed v (w : world) (Q : Z → world → Prop) :
  bus_ok w →
  (∀ w', bus_ok w' → quiet w w' → (∀ x, cells w' x = cells w x) → Q 0 w') →
  wp (dm_i2c_set_bus_speed bus v) Q w.
Proof using Hset.
  intros Hok HQ. unfold dm_i2c_set_bus_speed.
  destruct (set_bus_speed (i2c_get_ops bus)) as [g|] eqn:Hg; wp_run; [|by apply HQ].
  destruct (Hset g v (hw w) eq_refl) as [-> Hm]. change (nonzero 0) with false. cbv iota.
  wp_run. by apply HQ.
Qed.

Lemma wp_bus_speed (w : world) (Q : Z → world → Prop) :
  bus_ok w → i2c_cur_bus (i2c w) = Some bus →
  (∀ w', bus_ok w' → after w w' → (∀ x, cells w' x = cells w x) → Q 0 w') →
  wp (eBBTF_utils_i2c_bus_speed speed) Q w.
Proof using Hset Hget.
  intros Hok Hcur HQ. unfold eBBTF_utils_i2c_bus_speed, eBBTF_utils_get_i2c_bus. wp_run.
  rewrite Hcur. wp_run. apply wp_get_speed; [done|]. intros v w1 Hok1 Hq1 Hm1. wp_run.
  apply wp_set_speed; [done|]. intros w2 Hok2 Hq2 Hm2. change (nonzero 0) with false. cbv iota.
  wp_run. apply HQ; [done| |intros x; by rewrite Hm2, <- Hm1].
  eapply after_quiet; [|exact Hq2]. destruct Hq1 as (Hc & _). unfold after. simpl. rewrite Hc.
  eexists. by rewrite <- str_app_assoc.
Qed.

(** Selecting the clock chip and its external 32 kHz source. *)
Lemma wp_rtc_init testId (w : world) (Q : TestResultTypes_e → world → Prop) :
  bus_ok w →
  (∀ w', bus_ok w' → after w w' → (∀ x, 0 ≤ x ≤ 2 → cells w' x = cells w x) →
     Q DIAG_TEST_RESULT_PASS w') →
  wp (ds2321_rtc_init testId addr seq speed) Q w.
Proof using Hchip Hpins Hset Hget Hseq.
  intros Hok HQ. unfold ds2321_rtc_init. apply wp_bind.
  apply (wp_pin_mux bus addr mem Hpins); [done|]. intros w1 Hok1 Hq1 Hm1.
  unfold eBBTF_utils_set_i2c_bus. wp_run. rewrite (on_seq _ _ _ _ _ _ _ Hchip). wp_run.
  change (sign 8 0) with 0. cbn [Z.eqb negb]. wp_run.
  apply wp_bus_speed; [done|done|]. intros w2 Hok2 Ha2 Hm2. change (sign 8 0) with 0.
  cbn [Z.ltb Z.compare]. apply wp_bind.
  eapply (wp_utils_read seq bus addr 1 f keep mem Hchip); try done; try (simpl; lia).
  intros w3 Hok3 Hq3 Hm3. rewrite bool_decide_eq_true_2 by done. cbn [negb]. apply wp_bind.
  eapply (wp_utils_write seq bus addr 1 f keep mem Hchip); try done;
    try (unfold DS2321_RTC_CTL_STATUS_REG_ADDR; simpl; lia).
  intros w4 Hok4 Hq4 Hm4. rewrite bool_decide_eq_true_2 by done. cbn [negb]. wp_run.
  apply HQ; [done|..].
  - eapply after_quiet; [|by eapply (quiet_trans _ w3)]. destruct Ha2 as [s Hs].
    exists s. rewrite Hs. simpl. by destruct Hq1 as (-> & _).
  - intros x Hx. rewrite Hm4. unfold store_bytes, DS2321_RTC_CTL_STATUS_REG_ADDR.
    replace (15 <=? x) with false by lia. rewrite Hm3, Hm2, <- Hm1. simpl.
    apply (on_seq_mem _ _ _ _ _ _ _ Hchip).
Qed.

Lemma after_trans w1 w2 w3 : after w1 w2 → after w2 w3 → after w1 w3.
Proof using. intros [s Hs] [t Ht]. exists (s +:+ t). by rewrite Ht, Hs, str_app_assoc. Qed.

Lemma wp_read_reg testId reg (w : world) (Q : Z + TestResultTypes_e → world → Prop) :
  bus_ok w → 0 ≤ reg ≤ 2 →
  (∀ w', bus_ok w' → quiet w w' → (∀ x, cells w' x = cells w x) →
     Q (inl (wrap8 (bcd2bin (Z.land (cells w reg) 0x7f)))) w') →
  wp (rtc_read_reg testId seq addr reg) Q w.
Proof using Hchip Hseq.
  intros Hok Hreg HQ. unfold rtc_read_reg. apply wp_bind.
  eapply (wp_utils_read seq bus addr 1 f keep mem Hchip); try done; try (simpl; lia).
  intros w1 Hok1 Hq1 Hm1. rewrite bool_decide_eq_true_2 by done. cbn [negb]. wp_run.
  simpl. rewrite Z.add_0_r. by apply HQ.
Qed.

Lemma wp_write_reg testId reg value (w : world) (Q : option TestResultTypes_e → world → Prop) :
  bus_ok w → 0 ≤ reg ≤ 2 →
  (∀ w', bus_ok w' → quiet w w' → cells w' reg = wrap8 (bin2bcd value) →
     (∀ x, x ≠ reg → cells w' x = cells w x) → Q None w') →
  wp (rtc_write_reg testId seq addr reg value) Q w.
Proof using Hchip Hseq Hkeep.
  intros Hok Hreg HQ. unfold rtc_write_reg. apply wp_bind.
  eapply (wp_utils_write seq bus addr 1 f keep mem Hchip); try done; try (simpl; lia).
  intros w1 Hok1 Hq1 Hm1. rewrite bool_decide_eq_true_2 by done. cbn [negb]. wp_run.
  apply HQ; [done|done|..].
  - rewrite Hm1. unfold store_bytes. rewrite Z.leb_refl, Z.sub_diag. simpl. by apply Hkeep.
  - intros x Hx. rewrite Hm1. unfold store_bytes. destruct (Z.leb_spec reg x); [|done].
    by rewrite lookup_ge_None_2 by (simpl; lia).
Qed.

(** What the set test leaves: the registers hold the time, and the last line
    on the console is the time. *)
Lemma wp_set_time testId sec min hour (w : world) (Q : TestResultTypes_e → world → Prop) :
  bus_ok w → 0 ≤ sec ≤ 59 → 0 ≤ min ≤ 59 → 0 ≤ hour ≤ 23 →
  (∀ w1 w', bus_ok w' → after w w1 → console w' = console w1 +:+ time_line hour min sec →
     cells w' 0 = wrap8 (bin2bcd sec) → cells w' 1 = wrap8 (bin2bcd min) →
     cells w' 2 = wrap8 (bin2bcd hour) → Q DIAG_TEST_RESULT_PASS w') →
  wp (ds2321_rtc_set_time_test testId (Some (mkSetTime seq speed addr sec min hour))) Q w.
Proof using Hchip Hpins Hset Hget Hseq Hkeep.
  intros Hok Hs Hm Hh HQ. unfold ds2321_rtc_set_time_test.
  cbn [st_sec_value st_min_value st_hour_value st_i2c_bus st_i2c_speed st_i2c_dev_addr].
  replace ((59 <? sec) || (59 <? min) || (23 <? hour)) with false by lia.
  apply wp_bind, wp_rtc_init; [done|]. intros w1 Hok1 Ha1 _.
  rewrite bool_decide_eq_true_2 by done. cbn [negb].
  apply wp_bind, wp_write_reg; [done|done|]. intros w2 Hok2 Hq2 Hm2 _.
  apply wp_bind, wp_write_reg; [done|done|]. intros w3 Hok3 Hq3 Hm3 Ho3.
  apply wp_bind, wp_write_reg; [done|done|]. intros w4 Hok4 Hq4 Hm4 Ho4.
  apply wp_bind. unfold wp at 1. rewrite print_time_exact by lia. wp_run.
  apply (HQ w4); [done| |done| | |done].
  - eapply after_quiet; [exact Ha1|]. eauto using quiet_trans.
  - simpl. rewrite Ho4, Ho3 by done. done.
  - simpl. rewrite Ho4 by done. done.
Qed.

End clock.

(** A time that is out of range is refused before the bus is touched. *)
Theorem rtc_rejects_bad_time {HW} `{!MemBus HW, !I2cDriver HW} testId a (w : world HW) :
  59 < st_sec_value a ∨ 59 < st_min_value a ∨ 23 < st_hour_value a →
  ∃ s, ds2321_rtc_set_time_test testId (Some a) w = Ret DIAG_TEST_RESULT_ABORTED (emit s w).
Proof.
  intros Ha.
  assert (wp (ds2321_rtc_set_time_test testId (Some a))
    (λ r w', r = DIAG_TEST_RESULT_ABORTED ∧ ∃ s, w' = emit s w) w) as (r & w' & H & -> & s & ->)%wp_run.
  { unfold ds2321_rtc_set_time_test.
    replace ((59 <? st_sec_value a) || (59 <? st_min_value a) || (23 <? st_hour_value a))
      with true by lia.
    wp_run. eauto. }
  by exists s.
Qed.


Lemma rtc_rejects_bad_time_witness :
  ∃ s, @ds2321_rtc_set_time_test _ pins_only (I2cSim.driver 0x68 1) 7
         (Some (mkSetTime 1 100000 0x68 60 0 0)) I2cSim.start
       = Ret DIAG_TEST_RESULT_ABORTED (emit s I2cSim.start).
Proof. apply rtc_rejects_bad_time. simpl. lia. Defined.
