(* ===== verification/I2cProbe.v ===== *)
(** The I2C bus scan: [testsuite/test_i2cprobe.c], built with
    [CONFIG_DM_I2C]. *)

From S2P Require Import Prelude CLib Vsprintf VsprintfFacts Machine Events MemoryFacts.
From S2P Require Import I2cUclass I2cUtils I2cFacts.

Definition MAX_I2C_DEVICE : Z := 128.

(** The two tables have [MAX_I2C_DEVICE] entries. *)
Record A_I2C_interface_test := mkI2cProbeArgs {
  ip_bus_no : Z;
  ip_dev_address_list : list Z;
  ip_dev_name_list : list (option string);
  ip_no_of_device : Z;
}.

Section i2cprobe.
Context {HW : Type} `{!I2cDriver HW}.
Notation M := (M (world HW)).

Definition i2cprobe_file : string := "../test-framework/testsuite/test_i2cprobe.c".

(** The search of the device table: [bDeviceFound] and [chip]. *)
Definition find_expected (a : A_I2C_interface_test) (dev_id : Z) : M (bool * Z) :=
  r ← for_loop (R := Z) 129
        (λ chip, chip <? ip_no_of_device a) (λ chip, wrap8 (chip + 1))
        (λ chip,
           match ip_dev_address_list a !! Z.to_nat chip with
           | None => crash OUT_OF_BOUNDS
           | Some addr => if dev_id =? addr then mret (Return chip) else mret (Continue chip)
           end)
        0;
  match r with
  | inl chip => mret (false, chip)
  | inr chip => mret (true, chip)
  end.

(** One address: [Continue] with the status, or the result to return. *)
Definition probe_address (testId : Z) (a : A_I2C_interface_test) (dev_id : Z)
    (status : TestResultTypes_e) : M (TestResultTypes_e + TestResultTypes_e) :=
  '(bDeviceFound, chip) ← find_expected a dev_id;
  b ← eBBTF_utils_get_i2c_bus;
  match b with
  | inr _ => mret (inr DIAG_TEST_RESULT_IN_PROGRESS)
  | inl bus =>
      r ← dm_i2c_probe bus dev_id 0;
      let probe_status := match r with inl _ => 0 | inr ret => ret end in
      if (probe_status =? 0) && negb bDeviceFound then
        event ← Event_Init testId;
        _ ← ReportEvent (fill_event event DIAG_DEV_UNEXPECTED_DEVICE_ERR_EVENT
                           [wrap32 (ip_bus_no a); dev_id] "");
        mret (inl DIAG_TEST_RESULT_FAIL)
      else if negb (probe_status =? 0) && bDeviceFound then
        event ← Event_Init testId;
        match ip_dev_name_list a !! Z.to_nat chip with
        | None => crash OUT_OF_BOUNDS
        | Some name =>
            s ← sprintf_to DIAG_DIM_STRING_EVENT "%s" [VStr name];
            _ ← ReportEvent (fill_event event DIAG_DEV_NOT_PRESENT_ERR_EVENT
                               [wrap32 (ip_bus_no a); dev_id] s);
            mret (inl DIAG_TEST_RESULT_FAIL)
        end
      else mret (inl status)
  end.

(** [CMD_RET_FAILURE] is 1, which is [DIAG_TEST_RESULT_IN_PROGRESS]. *)
Definition I2C_interface_test (testId : Z) (arg : option A_I2C_interface_test) :
    M TestResultTypes_e :=
  match arg with
  | None => _ ← DEBUG_ASSERT i2cprobe_file 37; mret DIAG_TEST_RESULT_ABORTED
  | Some a =>
      bus_status ← eBBTF_utils_set_i2c_bus (ip_bus_no a);
      if bus_status <? 0 then
        event ← Event_Init testId;
        _ ← ReportEvent (fill_event event DIAG_BUS_INIT_ERR_EVENT [wrap32 (ip_bus_no a)] "");
        mret DIAG_TEST_RESULT_FAIL
      else
        r ← for_loop (R := TestResultTypes_e) 129
              (λ '(dev_id, _), dev_id <? MAX_I2C_DEVICE)
              (λ '(dev_id, status), (wrap8 (dev_id + 1), status))
              (λ '(dev_id, status),
                 r ← probe_address testId a dev_id status;
                 match r with
                 | inl status => mret (Continue (dev_id, status))
                 | inr r => mret (Return r)
                 end)
              (0, DIAG_TEST_RESULT_PASS);
        match r with
        | inl (_, status) => mret status
        | inr r => mret r
        end
  end.
End i2cprobe.

(** * The verdict *)

(** The controller of bus [seq] answers a probe of the addresses in [present]
    and of no others, and devices can be bound and probed. *)
Record I2cScan {HW} `{!I2cDriver HW} (seq bus : Z)
    (g : Z → Z → Z → HW → Z * HW) (present : Z → bool) : Prop := {
  sc_seq h : (uclass_get_device_by_seq seq h).1 = inl bus;
  sc_probe_op : probe_chip (i2c_get_ops bus) = Some g;
  sc_present a h : present a = true → (g bus a 0 h).1 = 0;
  sc_absent a h : present a = false → (g bus a 0 h).1 ≠ 0 ∧ (g bus a 0 h).1 ≠ - ENOSYS;
  sc_bind h : (device_bind_driver bus h).1 = 0;
  sc_probe chip h : (device_probe bus chip h).1 = 0;
  sc_malloc n h : (malloc_ok n h).1 = true;
}.

Section scan.
Context {HW : Type} `{!I2cDriver HW} (seq bus : Z) (g : Z → Z → Z → HW → Z * HW)
  (present : Z → bool) (Hscan : I2cScan seq bus g present).
Notation world := (world HW).
Notation cur w := (i2c_cur_bus (i2c w)).

Lemma wp_scan_get_chip addr n (w : world) (Q : udevice + Z → world → Prop) :
  (∀ dev w', cur w' = cur w → Q (inl dev) w') → wp (i2c_get_chip bus addr n) Q w.
Proof using Hscan.
  intros HQ. unfold i2c_get_chip. wp_run.
  destruct (list_find (chip_matches addr) (children bus w)) as [[i chip]|] eqn:Hf; wp_run.
  - rewrite (sc_probe _ _ _ _ Hscan). simpl. wp_run. by apply HQ.
  - unfold i2c_bind_driver.
    destruct (format_accepts "generic_%x" [VInt addr] eq_refl) as [s Hs].
    unfold snprintf, vsnprintf, vsnprintf_internal. rewrite Hs. cbn [mbind option_bind].
    wp_run. rewrite (sc_malloc _ _ _ _ Hscan). wp_run.
    rewrite (sc_bind _ _ _ _ Hscan). change (nonzero 0) with false. cbv iota. wp_run.
    rewrite (sc_probe _ _ _ _ Hscan). change (nonzero 0) with false. cbv iota. wp_run.
    by apply HQ.
Qed.

(** Probing an address finds a device exactly when one is present. *)
Lemma wp_scan_probe addr (w : world) (Q : udevice + Z → world → Prop) :
  (∀ r w', cur w' = cur w →
     (match r with inl _ => present addr = true | inr ret => ret ≠ 0 ∧ present addr = false end) →
     Q r w') →
  wp (dm_i2c_probe bus addr 0) Q w.
Proof using Hscan.
  intros HQ. unfold dm_i2c_probe, i2c_probe_chip. rewrite (sc_probe_op _ _ _ _ Hscan). wp_run.
  destruct (present addr) eqn:Hp.
  - rewrite (sc_present _ _ _ _ Hscan) by done. cbn [Z.eqb orb]. wp_run.
    change (nonzero 0) with false. cbv iota. apply wp_scan_get_chip. intros dev w' Hc.
    by apply HQ.
  - destruct (sc_absent _ _ _ _ Hscan addr (hw w) Hp) as [H0 Hn].
    rewrite (proj2 (Z.eqb_neq _ _) Hn). cbn [negb]. rewrite orb_true_r. wp_run.
    rewrite (proj2 (nonzero_true _) H0). wp_run. by apply HQ.
Qed.

(** The arguments of the test: [n] expected devices with printable names. *)
Definition args_ok (a : A_I2C_interface_test) (n : nat) : Prop :=
  ip_no_of_device a = Z.of_nat n ∧ (n ≤ 127)%nat ∧ (n ≤ length (ip_dev_address_list a))%nat ∧
  ∀ i, (i < n)%nat → ∃ name, ip_dev_name_list a !! i = Some (Some name) ∧
    no_nul name ∧ slen name < DIAG_DIM_STRING_EVENT.

Definition expected (a : A_I2C_interface_test) (n : nat) (addr : Z) : bool :=
  bool_decide (addr ∈ take n (ip_dev_address_list a)).

Lemma wp_find_expected a n dev_id (w : world) (Q : bool * Z → world → Prop) :
  args_ok a n →
  (∀ chip, (expected a n dev_id = true → 0 ≤ chip < Z.of_nat n) →
     Q (expected a n dev_id, chip) w) →
  wp (find_expected a dev_id) Q w.
Proof using.
  intros (Hn & Hmax & Hlen & _) HQ. unfold expected in HQ. unfold find_expected. apply wp_bind.
  apply (wp_for_seq Z.of_nat n (λ k w', w' = w ∧ dev_id ∉ take k (ip_dev_address_list a))).
  - lia.
  - intros k Hk. rewrite Hn. destruct (Nat.ltb_spec k n); lia.
  - split; [done|]. rewrite take_0. apply not_elem_of_nil.
  - intros k w' Hk [-> Hnot]. rewrite Nat2Z.id.
    destruct (lookup_lt_is_Some_2 (ip_dev_address_list a) k) as [addr Haddr]; [lia|].
    rewrite Haddr. destruct (Z.eqb_spec dev_id addr) as [->|Hne]; wp_run.
    + rewrite <- (bool_decide_eq_true_2 (addr ∈ take n (ip_dev_address_list a))) at 1;
        [apply HQ; intros _; lia|].
      apply list_elem_of_lookup. exists k. by rewrite lookup_take_lt by lia.
    + split; [rewrite wrap8_small by lia; lia|]. split; [done|].
      rewrite (take_S_r _ _ addr) by done. rewrite not_elem_of_app, list_elem_of_singleton. done.
  - intros w' [-> Hnot]. wp_run. rewrite (bool_decide_eq_false_2 _ Hnot) in HQ.
    by apply HQ.
Qed.

(** One address: the status is kept when the device is as expected and is a
    failure otherwise. *)
Lemma wp_probe_address testId a n dev_id status (w : world)
    (Q : TestResultTypes_e + TestResultTypes_e → world → Prop) :
  args_ok a n → cur w = Some bus →
  (∀ w', cur w' = Some bus →
     Q (inl (if Bool.eqb (present dev_id) (expected a n dev_id)
             then status else DIAG_TEST_RESULT_FAIL)) w') →
  wp (probe_address testId a dev_id status) Q w.
Proof using Hscan.
  intros Ha Hcur HQ. unfold probe_address. apply wp_bind. eapply wp_find_expected; [done|].
  intros chip Hchip. unfold eBBTF_utils_get_i2c_bus. wp_run. rewrite Hcur. wp_run.
  apply wp_scan_probe. intros r w1 Hc1 Hr. rewrite Hcur in Hc1.
  destruct r as [dev|ret]; [|destruct Hr as [Hne Hr]; rewrite (proj2 (Z.eqb_neq _ _) Hne)];
    rewrite Hr in HQ; destruct (expected a n dev_id); cbn [Z.eqb negb andb Bool.eqb] in *; wp_run;
    try by apply HQ.
  destruct (Hchip eq_refl) as [Hlo Hhi]. destruct Ha as (_ & _ & _ & Hnames).
  destruct (Hnames (Z.to_nat chip)) as (name & -> & Hnul & Hlen); [lia|].
  apply wp_bind. unfold wp at 1. rewrite (sprintf_exact _ _ _ name); [| |done|done|].
  - wp_run. by apply HQ.
  - unfold format. simpl c_str. cbn [String.length]. rewrite vformat_str by done. simpl.
    by rewrite str_app_nil_r.
  - unfold INT_MAX, DIAG_DIM_STRING_EVENT in *. lia.
Qed.

(** The scan passes exactly when the devices that answer on the bus are
    the expected ones: a missing device and an unexpected one both fail it,
    and the scan goes on to the last address. *)
Theorem i2c_scan_result testId a n (w : world) :
  args_ok a n → ip_bus_no a = seq →
  ∃ w', I2C_interface_test testId (Some a) w
        = Ret (verdict (forallb (λ x, Bool.eqb (present x) (expected a n x)) (seqZ 0 128))) w'.
Proof using Hscan.
  intros Ha Hseq. set (ok x := Bool.eqb (present x) (expected a n x)).
  assert (wp (I2C_interface_test testId (Some a))
    (λ r _, r = verdict (forallb ok (seqZ 0 128))) w) as (r & w' & H & ->)%wp_run; [|by exists w'].
  unfold I2C_interface_test, eBBTF_utils_set_i2c_bus. rewrite Hseq. wp_run.
  rewrite (sc_seq _ _ _ _ Hscan). wp_run. cbn [Z.ltb Z.compare]. apply wp_bind.
  apply (wp_for_seq (λ k, (Z.of_nat k, verdict (forallb ok (seqZ 0 (Z.of_nat k))))) 128
           (λ _ w', cur w' = Some bus)).
  - lia.
  - intros k Hk. unfold MAX_I2C_DEVICE. destruct (Nat.ltb_spec k 128); lia.
  - done.
  - intros k w1 Hk Hc. apply wp_bind. eapply wp_probe_address; [done|done|].
    intros w2 Hc2. wp_run. split; [|done]. f_equal; [rewrite wrap8_small by lia; lia|].
    rewrite seqZ_S, forallb_app. simpl. rewrite andb_true_r, Z.add_0_l.
    change (Bool.eqb _ _) with (ok (Z.of_nat k)). destruct (forallb ok _), (ok (Z.of_nat k)); done.
  - intros w1 _. by wp_run.
Qed.
End scan.

(** * A simulated bus *)

Module ProbeSim.
(** A bus on which the addresses in [there] answer. *)
Definition scan_op (there : list Z) (_ a _ : Z) (h : unit) : Z * unit :=
  (if bool_decide (a ∈ there) then 0 else - EREMOTEIO, h).

Definition driver (there : list Z) : I2cDriver unit := {|
  uclass_get_device_by_seq n h := (inl n, h);
  i2c_get_ops _ := mkOps None (Some (scan_op there)) None None None;
  device_bind_driver _ h := (0, h);
  device_probe _ _ h := (0, h);
  malloc_ok _ h := (true, h);
|}.

Lemma scan seq there :
  @I2cScan _ (driver there) seq seq (scan_op there) (λ a, bool_decide (a ∈ there)).
Proof.
  split; try done.
  - intros a h Hp. unfold scan_op. by rewrite Hp.
  - intros a h Hp. unfold scan_op. by rewrite Hp.
Qed.

Definition args : A_I2C_interface_test :=
  mkI2cProbeArgs 0 [0x24; 0x50] [Some "TPS65217C"; Some "AT24C"] 2.

Lemma args_fine : args_ok args 2.
Proof.
  split_and!; [done|lia|done|]. intros [|[|i]] Hi; [| |lia].
  - by exists "TPS65217C".
  - by exists "AT24C".
Qed.
End ProbeSim.

(** The expected devices pass; a third device fails the scan. *)
Lemma i2c_scan_result_witness :
  (∃ w', @I2C_interface_test _ (ProbeSim.driver [0x24; 0x50]) 7 (Some ProbeSim.args)
           (boot_world tt) = Ret DIAG_TEST_RESULT_PASS w') ∧
  (∃ w', @I2C_interface_test _ (ProbeSim.driver [0x24; 0x50; 0x68]) 7 (Some ProbeSim.args)
           (boot_world tt) = Ret DIAG_TEST_RESULT_FAIL w').
Proof.
  split.
  - apply (@i2c_scan_result _ (ProbeSim.driver [0x24; 0x50]) 0 0 _ _ (ProbeSim.scan 0 _)
      7 ProbeSim.args 2 (boot_world tt)); [apply ProbeSim.args_fine|done].
  - apply (@i2c_scan_result _ (ProbeSim.driver [0x24; 0x50; 0x68]) 0 0 _ _ (ProbeSim.scan 0 _)
      7 ProbeSim.args 2 (boot_world tt)); [apply ProbeSim.args_fine|done].
Defined.
