(* ===== verification/PowerRail.v ===== *)
(** The power-rail report: [testsuite/test_tps65217_powerrail.c]. *)

From S2P Require Import Prelude CLib Vsprintf VsprintfFacts Machine Events.
From S2P Require Import I2cUclass I2cUtils I2cFacts.

Notation PMIC_DCDC1_DDR := 0x0E%Z (only parsing).
Notation PMIC_DCDC2_MPU := 0x0F%Z (only parsing).
Notation PMIC_DCDC3_CORE := 0x10%Z (only parsing).
Notation PMIC_LD01 := 0x12%Z (only parsing).
Notation PMIC_LD02 := 0x13%Z (only parsing).
Notation PMIC_LD03 := 0x14%Z (only parsing).
Notation PMIC_LD04 := 0x15%Z (only parsing).
Notation PMIC_STATUS_FLAGS := 0x0C%Z (only parsing).
Definition PMIC_REGULATION_REGS : Z := 7.

Record A_PWR_railings_test := mkPwrArgs {
  pw_i2c_bus_no : Z;
  pw_i2c_dev_addr : Z;
  pw_dev_name : string;
}.

Definition pmic_regulation_regs : list Z :=
  [PMIC_DCDC1_DDR; PMIC_DCDC2_MPU; PMIC_DCDC3_CORE; PMIC_LD01; PMIC_LD02; PMIC_LD03; PMIC_LD04].

Definition LDO1_Voltage : list string :=
  ["1.0"; "1.1"; "1.2"; "1.25"; "1.3"; "1.35"; "1.4"; "1.5";
   "1.6"; "1.8"; "2.5"; "2.75"; "2.8"; "3.0"; "3.1"; "3.3"].

Definition LD0_3_4_val : list string :=
  ["1.5V"; "1.55V"; "1.6V"; "1.65V"; "1.7V"; "1.75V"; "1.8V"; "1.85V";
   "1.90V"; "2V"; "2.1V"; "2.2V"; "2.3V"; "2.4V"; "2.45V"; "2.5V";
   "2.55V"; "2.6V"; "2.65V"; "2.7V"; "2.75V"; "2.8V"; "2.85V"; "2.9V";
   "2.95V"; "3V"; "3.05V"; "3.1V"; "3.15V"; "3.2V"; "3.25V"; "3.3V"].

(** [vdd_val] in millivolts, for the masked response of a DCDC or LDO2
    register; the three tests are independent [if]s. *)
Definition vdd_val (resp vdd : Z) : Z :=
  let vdd := if resp <=? 0x17 then 900 + resp * 25 else vdd in
  let vdd := if (0x17 <? resp) && (resp <=? 0x34) then 1500 + (resp - 0x18) * 50 else vdd in
  if (0x34 <? resp) && (resp <=? 0x3f) then 3000 + (resp - 0x35) * 100 else vdd.

Section powerrail.
Context {HW : Type} `{!I2cDriver HW}.
Notation M := (M (world HW)).

Definition powerrail_file : string := "../test-framework/testsuite/test_tps65217_powerrail.c".

Definition sprintf_vdd (vdd : Z) : M string :=
  if 1000 <=? vdd then sprintf_to 100 "%d.%3d" [VInt (vdd / 1000); VInt (vdd mod 1000)]
  else sprintf_to 100 "0.3%d" [VInt vdd].

(** [(pwr_ok & bit) ? "OK" : "NOT OK !!"] *)
Definition ok_text (pwr_ok bit : Z) : va_arg :=
  VStr (Some (if nonzero (Z.land pwr_ok bit) then "OK" else "NOT OK !!")).

Definition regulation (pwr_ok bit : Z) : M unit :=
  printf (" Power Regulation - %s " +:+ newline) [ok_text pwr_ok bit].

(** The switch on the register: the new [vdd_val] and status. *)
Definition show_rail (reg resp pwr_ok vdd : Z) (status : TestResultTypes_e) :
    M (Z * TestResultTypes_e) :=
  if (reg =? PMIC_DCDC1_DDR) || (reg =? PMIC_DCDC2_MPU) || (reg =? PMIC_DCDC3_CORE)
     || (reg =? PMIC_LD02) then
    let resp := Z.land resp 0x0000003f in
    let vdd := vdd_val resp vdd in
    vdd_arr ← sprintf_vdd vdd;
    let text := [VStr (Some vdd_arr)] in
    _ ← (if reg =? PMIC_DCDC1_DDR then
           _ ← printf "           VDD DDR   - %sV" text; regulation pwr_ok 0x10
         else if reg =? PMIC_DCDC2_MPU then
           _ ← printf "           VDD MPU   - %sV" text; regulation pwr_ok 0x08
         else if reg =? PMIC_DCDC3_CORE then
           _ ← printf "           VDD CORE  - %sV" text; regulation pwr_ok 0x04
         else
           _ ← printf "           LDO2      - %sV" text; regulation pwr_ok 0x01);
    mret (vdd, status)
  else if reg =? PMIC_LD01 then
    match LDO1_Voltage !! Z.to_nat (Z.land resp 0x0000000f) with
    | None => crash OUT_OF_BOUNDS
    | Some v =>
        _ ← printf "           LD01      - %sV" [VStr (Some v)];
        _ ← printf ("   Power Regulation - %s " +:+ newline) [ok_text pwr_ok 0x02];
        mret (vdd, status)
    end
  else if (reg =? PMIC_LD03) || (reg =? PMIC_LD04) then
    match LD0_3_4_val !! Z.to_nat (Z.land resp 0x0000001f) with
    | None => crash OUT_OF_BOUNDS
    | Some v =>
        _ ← (if reg =? PMIC_LD03 then
               _ ← printf "           LDO3      - %s" [VStr (Some v)];
               printf ("   Power Regulation - %s " +:+ newline) [ok_text pwr_ok 0x40]
             else
               _ ← printf "           LDO4      - %s " [VStr (Some v)];
               printf ("  Power Regulation - %s " +:+ newline) [ok_text pwr_ok 0x20]);
        mret (vdd, status)
    end
  else mret (vdd, DIAG_TEST_RESULT_FAIL).

(** The variables of the loop: [reg_cnt], [i2c_read_resp], [pwr_ok],
    [vdd_val] and [status].  [i2c_read_resp &= 0x3f] is not kept across
    iterations, every read overwrites it. *)
Record rail_vars := mkRail {
  reg_cnt : Z;
  i2c_read_resp : list Z;
  pwr_ok : list Z;
  rail_vdd : Z;
  rail_status : TestResultTypes_e;
}.

Definition rail_body (a : A_PWR_railings_test) (v : rail_vars) :
    M (ctl rail_vars TestResultTypes_e) :=
  match pmic_regulation_regs !! Z.to_nat (reg_cnt v) with
  | None => crash OUT_OF_BOUNDS
  | Some reg =>
      '(status, resp) ← eBBTF_utils_i2c_read (pw_i2c_bus_no a) (pw_i2c_dev_addr a) reg 1
                          (i2c_read_resp v) 1;
      if bool_decide (status = DIAG_TEST_RESULT_FAIL) then mret (Return status)
      else
        '(status, ok) ← eBBTF_utils_i2c_read (pw_i2c_bus_no a) (pw_i2c_dev_addr a)
                          PMIC_STATUS_FLAGS 1 (pwr_ok v) 1;
        if bool_decide (status = DIAG_TEST_RESULT_FAIL) then mret (Return status)
        else
          '(vdd, status) ← show_rail reg (default 0 (head resp)) (default 0 (head ok))
                             (rail_vdd v) status;
          mret (Continue (mkRail (reg_cnt v) resp ok vdd status))
  end.

Definition PWR_railings_test (testId : Z) (arg : option A_PWR_railings_test) :
    M TestResultTypes_e :=
  match arg with
  | None => _ ← DEBUG_ASSERT powerrail_file 45; mret DIAG_TEST_RESULT_ABORTED
  | Some a =>
      if nonzero (strcmp (pw_dev_name a) "TPS65217C") then mret DIAG_TEST_RESULT_ABORTED
      else
        r ← for_loop 8 (λ v, reg_cnt v <? PMIC_REGULATION_REGS)
              (λ v, mkRail (wrap8 (reg_cnt v + 1)) (i2c_read_resp v) (pwr_ok v)
                      (rail_vdd v) (rail_status v))
              (rail_body a) (mkRail 0 [0] [0] 0 DIAG_TEST_RESULT_PASS);
        match r with
        | inr status => mret status
        | inl v => _ ← printf newline []; mret (rail_status v)
        end
  end.
End powerrail.

(** * What the report shows *)

(** The voltage of a response grows with it, from 900 mV to 4 V. *)
Lemma vdd_val_increasing r r' vdd vdd' :
  0 ≤ r → r < r' → r' ≤ 0x3f → 900 ≤ vdd_val r vdd < vdd_val r' vdd' ∧ vdd_val r' vdd' ≤ 4000.
Proof.
  intros H0 Hlt H1. unfold vdd_val.
  destruct (Z.leb_spec r 0x17), (Z.leb_spec r' 0x17), (Z.ltb_spec 0x17 r), (Z.ltb_spec 0x17 r'),
    (Z.leb_spec r 0x34), (Z.leb_spec r' 0x34), (Z.ltb_spec 0x34 r), (Z.ltb_spec 0x34 r'),
    (Z.leb_spec r 0x3f), (Z.leb_spec r' 0x3f); cbn [andb]; lia.
Qed.

Definition vdd_text (vdd : Z) : option string :=
  if 1000 <=? vdd then format "%d.%3d" [VInt (vdd / 1000); VInt (vdd mod 1000)]
  else format "0.3%d" [VInt vdd].

Lemma sprintf_vdd_text {HW} vdd s (w : world HW) :
  vdd_text vdd = Some s → no_nul s → slen s < 100 → sprintf_vdd vdd w = Ret s w.
Proof.
  unfold vdd_text, sprintf_vdd. destruct (1000 <=? vdd); intros Hs Hn Hl;
    (apply sprintf_exact; [done|done|done|unfold INT_MAX; lia]).
Qed.

Lemma vdd_text_fits resp vdd :
  0 ≤ resp < 64 → ∃ s, vdd_text (vdd_val resp vdd) = Some s ∧ no_nul s ∧ slen s < 100.
Proof.
  revert resp. apply (forall_below 64).
  repeat (constructor; [eexists; split; [vm_compute; reflexivity|split; reflexivity]|]).
  constructor.
Qed.

Lemma sprintf_vdd_ok {HW} resp vdd (w : world HW) :
  0 ≤ resp < 64 → ∃ s, sprintf_vdd (vdd_val resp vdd) w = Ret s w.
Proof.
  intros Hr. destruct (vdd_text_fits resp vdd Hr) as (s & Hs & Hn & Hl).
  exists s. by apply sprintf_vdd_text.
Qed.

(** The digits after the point are not padded with zeros, and a rail below
    one volt is shown with a digit 3 of the format string: 1025 mV reads
    [1. 25] and 900 mV reads [0.3900]. *)
Theorem rail_text_misreads {HW} (w : world HW) :
  sprintf_vdd (vdd_val 5 0) w = Ret "1. 25" w ∧ sprintf_vdd (vdd_val 0 0) w = Ret "0.3900" w.
Proof. split; by apply sprintf_vdd_text. Qed.

Lemma land_ones_range x n : 0 ≤ n → 0 ≤ Z.land x (Z.ones n) < 2 ^ n.
Proof. intros Hn. rewrite Z.land_ones by done. apply Z.mod_pos_bound. lia. Qed.

(** Showing a rail of the table prints and keeps the status. *)
Lemma wp_show_rail {HW} reg resp ok vdd status (w : world HW)
    (Q : Z * TestResultTypes_e → world HW → Prop) :
  reg ∈ pmic_regulation_regs → (∀ vdd' s, Q (vdd', status) (emit s w)) →
  wp (show_rail reg resp ok vdd status) Q w.
Proof.
  intros Hreg HQ. pose proof (land_ones_range resp 6) as H6.
  pose proof (land_ones_range resp 4) as H4. pose proof (land_ones_range resp 5) as H5.
  destruct (lookup_lt_is_Some_2 LDO1_Voltage (Z.to_nat (Z.land resp 0xf))) as [s4 Hs4].
  { change 0xf with (Z.ones 4). change (length LDO1_Voltage) with 16%nat. lia. }
  destruct (lookup_lt_is_Some_2 LD0_3_4_val (Z.to_nat (Z.land resp 0x1f))) as [s5 Hs5].
  { change 0x1f with (Z.ones 5). change (length LD0_3_4_val) with 32%nat. lia. }
  change (Z.ones 6) with 0x3f in H6.
  destruct (sprintf_vdd_ok (Z.land resp 0x3f) vdd w) as [s6 Hs6]; [lia|].
  unfold show_rail, regulation, pmic_regulation_regs in *.
  repeat (apply elem_of_cons in Hreg as [->|Hreg]); [..|by apply elem_of_nil in Hreg];
    repeat match goal with |- context [?a =? ?b] =>
      let r := eval compute in (a =? b) in change (a =? b) with r end; cbn [orb];
    rewrite ?Hs4, ?Hs5; try (apply wp_bind; unfold wp at 1; rewrite Hs6); wp_run;
    rewrite ?emit_emit; by apply HQ.
Qed.

Section pmic.
Context {HW : Type} `{!I2cDriver HW} (seq bus addr : Z)
  (f : Z → list i2c_msg → HW → (Z * list (list Z)) * HW)
  (keep : Z → Z → Z → Z) (mem : HW → Z → Z)
  (Hchip : I2cMemory seq bus addr 1 f keep mem) (Hseq : 0 ≤ seq < 256).
Notation world := (world HW).
Notation cells w x := (mem (hw w) x).
Notation bus_ok := (bus_ok bus addr).

(** On a PMIC whose registers can be read the test passes whatever they
    hold: neither a rail out of regulation nor a wrong voltage fails it. *)
Theorem power_rail_ignores_regulation testId (w : world) :
  bus_ok w →
  ∃ w', PWR_railings_test testId (Some (mkPwrArgs seq addr "TPS65217C")) w
        = Ret DIAG_TEST_RESULT_PASS w'.
Proof using Hchip Hseq.
  intros Hok.
  assert (wp (PWR_railings_test testId (Some (mkPwrArgs seq addr "TPS65217C")))
    (λ r _, r = DIAG_TEST_RESULT_PASS) w) as (r & w' & H & ->)%wp_run; [|by exists w'].
  unfold PWR_railings_test. cbn [pw_dev_name].
  change (nonzero (strcmp "TPS65217C" "TPS65217C")) with false. cbv iota. apply wp_bind.
  apply (wp_for_loop (λ v w', 0 ≤ reg_cnt v ≤ 7 ∧ length (i2c_read_resp v) = 1%nat ∧
    length (pwr_ok v) = 1%nat ∧ rail_status v = DIAG_TEST_RESULT_PASS ∧ bus_ok w')
    (λ v, Z.to_nat (7 - reg_cnt v))); [simpl; lia|simpl; split_and!; done||lia|..].
  - intros v w1 (Hc & Hr & Hp & Hs & Hok1) Hlt. unfold PMIC_REGULATION_REGS in Hlt.
    unfold rail_body. cbn [pw_i2c_bus_no pw_i2c_dev_addr].
    destruct (lookup_lt_is_Some_2 pmic_regulation_regs (Z.to_nat (reg_cnt v))) as [reg Hreg].
    { change (length pmic_regulation_regs) with 7%nat. lia. }
    rewrite Hreg. pose proof (list_elem_of_lookup_2 _ _ _ Hreg) as Hin.
    assert (0 ≤ reg < 256) as Hrange.
    { unfold pmic_regulation_regs in Hin. repeat (apply elem_of_cons in Hin as [->|Hin]);
        [done..|by apply elem_of_nil in Hin]. }
    apply wp_bind. eapply (wp_utils_read seq bus addr 1 f keep mem Hchip); try done; try lia.
    intros w2 Hok2 _ _. rewrite bool_decide_eq_false_2 by done. apply wp_bind.
    eapply (wp_utils_read seq bus addr 1 f keep mem Hchip); try done; try lia.
    intros w3 Hok3 _ _. rewrite bool_decide_eq_false_2 by done. apply wp_bind, wp_show_rail; [done|].
    intros vdd' s. wp_run. cbn [reg_cnt i2c_read_resp pwr_ok rail_status].
    rewrite !length_app, !load_bytes_length, !length_drop, wrap8_small by lia.
    split; [|lia]. split_and!; [lia..|done|done].
  - intros v w1 (Hc & Hr & Hp & Hs & Hok1) _. by wp_run.
Qed.
End pmic.

Lemma power_rail_ignores_regulation_witness :
  ∃ w', @PWR_railings_test _ (I2cSim.driver 0x24 1) 7 (Some (mkPwrArgs 0 0x24 "TPS65217C"))
          I2cSim.start = Ret DIAG_TEST_RESULT_PASS w'.
Proof.
  apply (@power_rail_ignores_regulation _ (I2cSim.driver 0x24 1) 0 0 0x24 _ keep_new I2cSim.peek
    (I2cSim.memory 0 0x24 1 ltac:(lia)) ltac:(lia) 7), I2cSim.i2c_start_ok.
Defined.
