(* ===== verification/Mii.v ===== *)
(** The MII management interface of U-Boot, [common/miiphyutil.c], built with
    [CONFIG_PHYLIB] and without [CONFIG_PHY_GIGE]. *)

From S2P Require Import Prelude CLib Vsprintf VsprintfFacts Machine Events.

(** What the MDIO bus drivers provide: the [read] and [write] methods of each
    bus, by the bus's address, and the busy wait of the board. *)
Class Mdio (HW : Type) := {
  mdio_read : Z → Z → Z → Z → HW → Z * HW;
  mdio_write : Z → Z → Z → Z → Z → HW → Z * HW;
  udelay : Z → HW → HW;
}.

Notation MDIO_DEVAD_NONE := (-1)%Z (only parsing).
Notation MDIO_NAME_LEN := 32%Z (only parsing).
Notation MII_BMCR := 0x00%Z (only parsing).
Notation MII_BMSR := 0x01%Z (only parsing).
Notation MII_PHYSID1 := 0x02%Z (only parsing).
Notation MII_PHYSID2 := 0x03%Z (only parsing).
Notation MII_ADVERTISE := 0x04%Z (only parsing).
Notation MII_LPA := 0x05%Z (only parsing).
Notation BMCR_RESET := 0x8000%Z (only parsing).
Notation BMCR_FULLDPLX := 0x0100%Z (only parsing).
Notation BMCR_ANENABLE := 0x1000%Z (only parsing).
Notation BMCR_SPEED100 := 0x2000%Z (only parsing).
Notation BMSR_LSTATUS := 0x0004%Z (only parsing).
Notation BMSR_ANEGCOMPLETE := 0x0020%Z (only parsing).
Notation ADVERTISE_10HALF := 0x0020%Z (only parsing).
Notation ADVERTISE_10FULL := 0x0040%Z (only parsing).
Notation ADVERTISE_100HALF := 0x0080%Z (only parsing).
Notation ADVERTISE_100FULL := 0x0100%Z (only parsing).
Notation LPA_10FULL := 0x0040%Z (only parsing).
Notation LPA_100HALF := 0x0080%Z (only parsing).
Notation LPA_100FULL := 0x0100%Z (only parsing).
Notation LPA_100BASE4 := 0x0200%Z (only parsing).
Definition LPA_100 : Z := Z.lor (Z.lor LPA_100FULL LPA_100HALF) LPA_100BASE4.
Definition _10BASET : Z := 10.
Definition _100BASET : Z := 100.
Definition HALF : Z := 22.
Definition FULL : Z := 44.

Section miiphyutil.
Context {HW : Type} `{!Mdio HW}.
Notation M := (M (world HW)).

Definition set_current (dev : option mii_dev) : M unit :=
  modify (λ w, with_mii (mkMiiState (mii_devs (mii w)) dev) w).

Fixpoint find_mii (devs : list mii_dev) (devname : string) : option mii_dev :=
  match devs with
  | [] => None
  | dev :: devs' => if strcmp (mii_name dev) devname =? 0 then Some dev else find_mii devs' devname
  end.

Definition miiphy_get_dev_by_name (devname : option string) : M (option mii_dev) :=
  match devname with
  | None => _ ← printf ("NULL device name!" +:+ newline) []; mret None
  | Some devname => gets (λ w, find_mii (mii_devs (mii w)) devname)
  end.

Definition miiphy_init : M unit := modify (with_mii (mkMiiState [] None)).

Definition mdio_register (bus : option mii_dev) : M Z :=
  match bus with
  | None => mret (-1)
  | Some bus =>
      if negb (mii_has_read bus) || negb (mii_has_write bus) then mret (-1)
      else
        other ← miiphy_get_dev_by_name (Some (mii_name bus));
        match other with
        | Some _ =>
            _ ← printf ("mdio_register: non unique device name '%s'" +:+ newline)
                  [VStr (Some (mii_name bus))];
            mret (-1)
        | None =>
            _ ← modify (λ w, with_mii (mkMiiState (mii_devs (mii w) ++ [bus])
                                         (current_mii (mii w))) w);
            cur ← gets (λ w, current_mii (mii w));
            _ ← match cur with None => set_current (Some bus) | Some _ => mret tt end;
            mret 0
        end
  end.

(** The name is written into the structure first. *)
Definition mdio_register_seq (bus : mii_dev) (seq : Z) : M Z :=
  match snprintf MDIO_NAME_LEN "eth%d" [VInt seq] with
  | None => crash BAD_VARARGS
  | Some (name, ret) =>
      if ret <? 0 then mret ret
      else mdio_register (Some (mkMii (mii_id bus) name (mii_has_read bus) (mii_has_write bus)))
  end.

Definition mdio_unregister (bus : option mii_dev) : M Z :=
  match bus with
  | None => mret 0
  | Some bus =>
      _ ← modify (λ w, with_mii (mkMiiState
            (filter (λ dev, mii_id dev ≠ mii_id bus) (mii_devs (mii w)))
            (current_mii (mii w))) w);
      cur ← gets (λ w, current_mii (mii w));
      _ ← match cur with
          | Some dev => if mii_id dev =? mii_id bus then set_current None else mret tt
          | None => mret tt
          end;
      mret 0
  end.

Definition miiphy_set_current_dev (devname : option string) : M Z :=
  dev ← miiphy_get_dev_by_name devname;
  match dev with
  | Some dev => _ ← set_current (Some dev); mret 0
  | None => _ ← printf ("No such device: %s" +:+ newline) [VStr devname]; mret 1
  end.

Definition mdio_get_current_dev : M (option mii_dev) := gets (λ w, current_mii (mii w)).

Definition miiphy_get_current_dev : M (option string) :=
  gets (λ w, mii_name <$> current_mii (mii w)).

(** [devname] is not [NULL] here: every caller passes an array. *)
Definition miiphy_get_active_dev (devname : string) : M (option mii_dev) :=
  cur ← gets (λ w, current_mii (mii w));
  let switch :=
    ret ← miiphy_set_current_dev (Some devname);
    if nonzero ret then mret None else gets (λ w, current_mii (mii w)) in
  match cur with
  | Some dev => if strcmp (mii_name dev) devname =? 0 then mret (Some dev) else switch
  | None => switch
  end.

(** The code and [*value] afterwards. *)
Definition miiphy_read (devname : string) (addr reg value : Z) : M (Z * Z) :=
  bus ← miiphy_get_active_dev devname;
  match bus with
  | None => mret (1, value)
  | Some bus =>
      if mii_has_read bus then
        ret ← hw_call (mdio_read (mii_id bus) addr MDIO_DEVAD_NONE reg);
        if ret <? 0 then mret (1, value) else mret (0, wrap16 ret)
      else crash NULL_DEREF
  end.

Definition miiphy_write (devname : string) (addr reg value : Z) : M Z :=
  bus ← miiphy_get_active_dev devname;
  match bus with
  | Some bus =>
      if mii_has_write bus
      then hw_call (mdio_write (mii_id bus) addr MDIO_DEVAD_NONE reg (wrap16 value))
      else crash NULL_DEREF
  | None => mret 1
  end.

Fixpoint list_names (devs : list mii_dev) : M unit :=
  match devs with
  | [] => mret tt
  | dev :: devs' => _ ← printf "'%s' " [VStr (Some (mii_name dev))]; list_names devs'
  end.

Definition miiphy_listdev : M unit :=
  _ ← puts "MII devices: ";
  devs ← gets (λ w, mii_devs (mii w));
  _ ← list_names devs;
  _ ← puts newline;
  cur ← gets (λ w, current_mii (mii w));
  match cur with
  | Some dev => printf ("Current device: '%s'" +:+ newline) [VStr (Some (mii_name dev))]
  | None => mret tt
  end.

(** The identification, or the code [-1]. *)
Definition miiphy_info (devname : string) (addr : Z) : M ((Z * Z * Z) + Z) :=
  '(ret, tmp) ← miiphy_read devname addr MII_PHYSID2 0;
  if negb (ret =? 0) then mret (inr (-1))
  else if tmp =? 0xFFFF then mret (inr (-1))
  else
    let reg := tmp in
    '(ret, tmp) ← miiphy_read devname addr MII_PHYSID1 tmp;
    if negb (ret =? 0) then mret (inr (-1))
    else
      let reg := Z.lor reg (wrap32 (Z.shiftl tmp 16)) in
      mret (inl (Z.shiftr reg 10, wrap8 (Z.land (Z.shiftr reg 4) 0x3F), wrap8 (Z.land reg 0xF))).

Definition miiphy_speed (devname : string) (addr : Z) : M Z :=
  let failed := _ ← printf (" read failed, assuming 10BASE-T" +:+ newline) []; mret _10BASET in
  '(ret, bmcr) ← miiphy_read devname addr MII_BMCR 0;
  if nonzero ret then _ ← printf "PHY speed" []; failed
  else if nonzero (Z.land bmcr BMCR_ANENABLE) then
    '(ret, anlpar) ← miiphy_read devname addr MII_LPA 0;
    if nonzero ret then _ ← printf "PHY AN speed" []; failed
    else
      '(ret, adv) ← miiphy_read devname addr MII_ADVERTISE 0;
      if nonzero ret then _ ← puts "PHY AN adv speed"; failed
      else mret (if nonzero (Z.land (Z.land anlpar adv) LPA_100) then _100BASET else _10BASET)
  else mret (if nonzero (Z.land bmcr BMCR_SPEED100) then _100BASET else _10BASET).

Definition miiphy_duplex (devname : string) (addr : Z) : M Z :=
  let failed := _ ← printf (" read failed, assuming half duplex" +:+ newline) []; mret HALF in
  '(ret, bmcr) ← miiphy_read devname addr MII_BMCR 0;
  if nonzero ret then _ ← puts "PHY duplex"; failed
  else if nonzero (Z.land bmcr BMCR_ANENABLE) then
    '(ret, anlpar) ← miiphy_read devname addr MII_LPA 0;
    if nonzero ret then _ ← puts "PHY AN duplex"; failed
    else
      '(ret, adv) ← miiphy_read devname addr MII_ADVERTISE 0;
      if nonzero ret then _ ← puts "PHY AN adv duplex"; failed
      else mret (if nonzero (Z.land (Z.land anlpar adv) (Z.lor LPA_10FULL LPA_100FULL))
                 then FULL else HALF)
  else mret (if nonzero (Z.land bmcr BMCR_FULLDPLX) then FULL else HALF).

(** The polling loop of [miiphy_reset]: the last value of the register, or
    [None] after a failed read. *)
Fixpoint reset_loop (timeout : nat) (devname : string) (addr reg : Z) : M (option Z) :=
  if nonzero (Z.land reg 0x8000) then
    match timeout with
    | O => mret (Some reg)
    | S timeout' =>
        '(ret, reg) ← miiphy_read devname addr MII_BMCR reg;
        if nonzero ret then mret None
        else _ ← hw_do (udelay 1000); reset_loop timeout' devname addr reg
    end
  else mret (Some reg).

Definition miiphy_reset (devname : string) (addr : Z) : M Z :=
  '(ret, reg) ← miiphy_read devname addr MII_BMCR 0;
  if nonzero ret then mret (-1)
  else
    ret ← miiphy_write devname addr MII_BMCR (Z.lor reg BMCR_RESET);
    if nonzero ret then mret (-1)
    else
      r ← reset_loop 500 devname addr 0x8000;
      match r with
      | None => mret (-1)
      | Some reg =>
          if Z.land reg 0x8000 =? 0 then mret 0
          else _ ← puts ("PHY reset timed out" +:+ newline); mret (-1)
      end.

Definition miiphy_link (devname : string) (addr : Z) : M Z :=
  '(_, reg) ← miiphy_read devname addr MII_BMSR 0;
  '(ret, reg) ← miiphy_read devname addr MII_BMSR reg;
  if nonzero ret then _ ← puts ("MII_BMSR read failed, assuming no link" +:+ newline); mret 0
  else mret (if nonzero (Z.land reg BMSR_LSTATUS) then 1 else 0).

Definition miiphy_is_1000base_x (devname : string) (addr : Z) : M Z := mret 0.
End miiphyutil.
