(* ===== verification/MiiFacts.v ===== *)
(** Facts about the MII device list: names stay unique, the current device is
    a registered one, and a register access reaches the named device. *)

From S2P Require Import Prelude CLib Vsprintf VsprintfFacts Machine Events Mii.

Section registry.
Context {HW : Type} `{!Mdio HW}.
Notation world := (world HW).

(** The name a device is looked up by. *)
Definition key (dev : mii_dev) : string := c_str (mii_name dev).

Record mii_ok (w : world) : Prop := {
  names_unique : NoDup (key <$> mii_devs (mii w));
  ids_unique : NoDup (mii_id <$> mii_devs (mii w));
  current_registered dev : current_mii (mii w) = Some dev → dev ∈ mii_devs (mii w);
  methods dev : dev ∈ mii_devs (mii w) → mii_has_read dev = true ∧ mii_has_write dev = true;
}.

Lemma strcmp_eqb s t : (strcmp s t =? 0) = bool_decide (c_str s = c_str t).
Proof.
  pose proof (strcmp_zero s t) as H. unfold nonzero in H.
  destruct (Z.eqb_spec (strcmp s t) 0) as [E|E]; symmetry;
    [apply bool_decide_eq_true_2|apply bool_decide_eq_false_2]; [by apply H|].
  intros Hc. by apply H in Hc.
Qed.

Lemma find_mii_None devs name :
  find_mii devs name = None ↔ c_str name ∉ key <$> devs.
Proof.
  induction devs as [|d devs IH]; simpl; [split; [intros _; apply not_elem_of_nil|done]|].
  rewrite strcmp_eqb, not_elem_of_cons. unfold key at 1. case_bool_decide as E.
  - split; [done|]. intros [Hn _]. by rewrite E in Hn.
  - rewrite IH. naive_solver.
Qed.

Lemma find_mii_unique devs dev :
  NoDup (key <$> devs) → dev ∈ devs → find_mii devs (mii_name dev) = Some dev.
Proof.
  induction devs as [|d devs IH]; [by intros _ ?%elem_of_nil|]. cbn [fmap list_fmap find_mii].
  intros [Hd Hn]%NoDup_cons [->|Hin]%elem_of_cons; rewrite strcmp_eqb.
  - by rewrite bool_decide_eq_true_2.
  - rewrite bool_decide_eq_false_2; [by apply IH|]. intros E. apply Hd.
    apply list_elem_of_fmap. by exists dev.
Qed.

Lemma find_mii_key devs name name' :
  c_str name = c_str name' → find_mii devs name' = find_mii devs name.
Proof.
  intros E. induction devs as [|d devs IH]; [done|]. cbn [find_mii].
  by rewrite !strcmp_eqb, E, IH.
Qed.

Lemma find_mii_Some devs name dev :
  find_mii devs name = Some dev → dev ∈ devs ∧ key dev = c_str name.
Proof.
  induction devs as [|d devs IH]; [done|]. cbn [find_mii]. rewrite strcmp_eqb.
  case_bool_decide as E.
  - intros [= <-]. split; [apply elem_of_cons; by left|done].
  - intros [Hin Hk]%IH. split; [apply elem_of_cons; by right|done].
Qed.

Lemma mii_ok_ext (w w' : world) : mii w' = mii w → mii_ok w → mii_ok w'.
Proof. intros E [H1 H2 H3 H4]. split; by rewrite E. Qed.


(** Making a registered device the active one. *)
Lemma wp_get_active_dev dev (w : world) (Q : option mii_dev → world → Prop) :
  mii_ok w → dev ∈ mii_devs (mii w) →
  Q (Some dev) (with_mii (mkMiiState (mii_devs (mii w)) (Some dev)) w) →
  wp (miiphy_get_active_dev (mii_name dev)) Q w.
Proof.
  intros Hw Hin HQ.
  assert (find_mii (mii_devs (mii w)) (mii_name dev) = Some dev) as Hf
    by (apply find_mii_unique; [apply Hw|done]).
  unfold miiphy_get_active_dev, miiphy_set_current_dev, miiphy_get_dev_by_name. wp_run.
  destruct (current_mii (mii w)) as [d|] eqn:Hcur.
  - rewrite strcmp_eqb. case_bool_decide as E.
    + assert (d = dev) as ->.
      { apply current_registered in Hcur; [|done]. apply find_mii_unique in Hcur; [|apply Hw].
        rewrite (find_mii_key _ (mii_name dev) (mii_name d)) in Hcur by done. congruence. }
      wp_run. rewrite <- Hcur in HQ at 2. by destruct w as [??????[]].
    + wp_run. rewrite Hf. unfold set_current. by wp_run.
  - wp_run. rewrite Hf. unfold set_current. by wp_run.
Qed.

(** A register access to a registered device. *)
Lemma wp_miiphy_read dev addr reg value (w : world) (Q : Z * Z → world → Prop) :
  mii_ok w → dev ∈ mii_devs (mii w) →
  (let rd := mdio_read (mii_id dev) addr MDIO_DEVAD_NONE reg (hw w) in
   Q (if rd.1 <? 0 then (1, value) else (0, wrap16 rd.1))
     (with_hw rd.2 (with_mii (mkMiiState (mii_devs (mii w)) (Some dev)) w))) →
  wp (miiphy_read (mii_name dev) addr reg value) Q w.
Proof.
  intros Hw Hin HQ. unfold miiphy_read. apply wp_bind, wp_get_active_dev; [done|done|].
  rewrite (proj1 (methods w Hw dev Hin)). wp_run. change (hw (with_mii _ w)) with (hw w).
  revert HQ. cbv zeta. by destruct (_ <? 0); intros HQ; wp_run.
Qed.

Lemma wp_miiphy_write dev addr reg value (w : world) (Q : Z → world → Prop) :
  mii_ok w → dev ∈ mii_devs (mii w) →
  (let wr := mdio_write (mii_id dev) addr MDIO_DEVAD_NONE reg (wrap16 value) (hw w) in
   Q wr.1 (with_hw wr.2 (with_mii (mkMiiState (mii_devs (mii w)) (Some dev)) w))) →
  wp (miiphy_write (mii_name dev) addr reg value) Q w.
Proof.
  intros Hw Hin HQ. unfold miiphy_write. apply wp_bind, wp_get_active_dev; [done|done|].
  rewrite (proj2 (methods w Hw dev Hin)). by wp_run.
Qed.

(** [dev] is registered in a well-formed list. *)
Definition live (dev : mii_dev) (w : world) : Prop := mii_ok w ∧ dev ∈ mii_devs (mii w).

Lemma live_access dev h (w : world) :
  live dev w → live dev (with_hw h (with_mii (mkMiiState (mii_devs (mii w)) (Some dev)) w)).
Proof. intros [[H1 H2 H3 H4] Hin]. split; [split; simpl; try done; by intros d [= <-]|done]. Qed.

(** A register access by device name reaches the device with that name,
    whichever device was current, and makes it current.  A failing read
    leaves the caller's variable alone. *)
Theorem miiphy_access_routes dev addr reg value (w : world) :
  mii_ok w → dev ∈ mii_devs (mii w) →
  let w1 := with_mii (mkMiiState (mii_devs (mii w)) (Some dev)) w in
  let rd := mdio_read (mii_id dev) addr MDIO_DEVAD_NONE reg (hw w) in
  let wr := mdio_write (mii_id dev) addr MDIO_DEVAD_NONE reg (wrap16 value) (hw w) in
  miiphy_read (mii_name dev) addr reg value w
    = Ret (if rd.1 <? 0 then (1, value) else (0, wrap16 rd.1)) (with_hw rd.2 w1) ∧
  miiphy_write (mii_name dev) addr reg value w = Ret wr.1 (with_hw wr.2 w1).
Proof.
  intros Hw Hin w1 rd wr.
  assert (wp (miiphy_read (mii_name dev) addr reg value) (λ r w',
    r = (if rd.1 <? 0 then (1, value) else (0, wrap16 rd.1)) ∧ w' = with_hw rd.2 w1) w)
    as (r & w' & -> & -> & ->)%wp_run by by apply wp_miiphy_read.
  by assert (wp (miiphy_write (mii_name dev) addr reg value) (λ r w',
    r = wr.1 ∧ w' = with_hw wr.2 w1) w) as (r & w' & -> & -> & ->)%wp_run by by apply wp_miiphy_write.
Qed.

(** ** Resetting a PHY *)

(** The polls of the control register, one per millisecond, that are left. *)
Fixpoint reset_outcome (polls : nat) (id addr : Z) (h : HW) : Z :=
  match polls with
  | O => -1
  | S polls' =>
      let rd := mdio_read id addr MDIO_DEVAD_NONE MII_BMCR h in
      if rd.1 <? 0 then -1
      else if Z.land (wrap16 rd.1) 0x8000 =? 0 then 0
      else reset_outcome polls' id addr (udelay 1000 rd.2)
  end.

Lemma wp_reset_loop dev addr polls reg (w : world) :
  live dev w → Z.land reg 0x8000 ≠ 0 →
  wp (reset_loop polls (mii_name dev) addr reg) (λ r w', live dev w' ∧
    reset_outcome polls (mii_id dev) addr (hw w)
    = match r with Some reg => if Z.land reg 0x8000 =? 0 then 0 else -1 | None => -1 end) w.
Proof.
  revert reg w. induction polls as [|polls IH]; intros reg w Hw Hreg; cbn [reset_loop reset_outcome];
    rewrite (proj2 (nonzero_true _) Hreg).
  { apply wp_ret. by rewrite (proj2 (Z.eqb_neq _ _) Hreg). }
  apply wp_bind, wp_miiphy_read; [apply Hw|apply Hw|]. cbv zeta.
  set (rd := mdio_read _ _ _ _ (hw w)). destruct (rd.1 <? 0) eqn:Hneg.
  { apply wp_ret. by split; [apply live_access|]. }
  change (nonzero 0) with false. cbv iota. apply wp_bind, wp_hw_do. cbn [hw with_hw].
  match goal with |- wp _ _ ?w' => assert (live dev w') as Hw' end.
  { destruct (live_access dev rd.2 w Hw) as [[] ?]. by split. }
  destruct (Z.eqb_spec (Z.land (wrap16 rd.1) 0x8000) 0) as [Hz|Hnz].
  - destruct polls; cbn [reset_loop]; rewrite Hz; change (nonzero 0) with false; cbv iota;
      apply wp_ret; by rewrite Hz.
  - by apply IH.
Qed.

(** A reset returns: 0 when the reset bit reads as clear within 500 polls, and
    -1 when it does not or an access fails. *)
Lemma miiphy_reset_returns dev addr (w : world) :
  live dev w →
  let rd := mdio_read (mii_id dev) addr MDIO_DEVAD_NONE MII_BMCR (hw w) in
  let wr := mdio_write (mii_id dev) addr MDIO_DEVAD_NONE MII_BMCR
              (wrap16 (Z.lor (wrap16 rd.1) BMCR_RESET)) rd.2 in
  ∃ w', miiphy_reset (mii_name dev) addr w
        = Ret (if rd.1 <? 0 then -1 else if nonzero wr.1 then -1
               else reset_outcome 500 (mii_id dev) addr wr.2) w' ∧ live dev w'.
Proof.
  intros Hw rd wr. set (res := if _ <? 0 then _ else _).
  assert (wp (miiphy_reset (mii_name dev) addr) (λ r w', r = res ∧ live dev w') w)
    as (r & w' & H & -> & Hl)%wp_run; [|by exists w'].
  pose proof (live_access dev rd.2 w Hw) as Hw1. unfold miiphy_reset.
  apply wp_bind, wp_miiphy_read; [apply Hw|apply Hw|]. cbv zeta. fold rd.
  subst res. destruct (rd.1 <? 0); [by apply wp_ret|]. change (nonzero 0) with false. cbv iota.
  apply wp_bind, wp_miiphy_write; [apply Hw1|apply Hw1|]. cbv zeta. cbn [hw with_hw]. fold wr.
  pose proof (live_access dev wr.2 _ Hw1) as Hw2. destruct (nonzero wr.1); [by apply wp_ret|].
  apply wp_bind. eapply wp_mono; [by apply (wp_reset_loop dev addr 500 0x8000)|].
  cbv beta. cbn [hw with_hw]. intros r w' [Hl ->].
  destruct r as [reg|]; [destruct (Z.land reg 0x8000 =? 0)|]; wp_run; try done.
  destruct Hl as [[] ?]. by split.
Qed.
End registry.

(** * A simulated bus *)

Module MiiSim.
(** A PHY is its sixteen-bit registers. *)
Definition bus : Mdio (gmap Z Z) := {|
  mdio_read _ _ _ reg h := (default 0xFFFF (h !! reg), h);
  mdio_write _ _ _ reg v h := (0, <[reg := v]> h);
  udelay _ h := h;
|}.

Definition eth0 : mii_dev := mkMii 1 "eth0" true true.
Definition eth1 : mii_dev := mkMii 2 "eth1" true true.

Definition start : world (gmap Z Z) :=
  with_mii (mkMiiState [eth0; eth1] (Some eth0)) (boot_world {[MII_BMSR := 0x24]}).

Lemma mii_start_ok : mii_ok start.
Proof.
  split; simpl.
  - by apply (bool_decide_unpack (NoDup _)).
  - by apply (bool_decide_unpack (NoDup _)).
  - intros dev [= <-]. set_solver.
  - intros dev. rewrite !elem_of_cons, elem_of_nil. by intros [->|[->|[]]].
Qed.
End MiiSim.

#[local] Existing Instance MiiSim.bus.


Lemma miiphy_access_routes_witness :
  miiphy_read "eth1" 0 MII_BMSR 0 MiiSim.start
    = Ret (0, 0x24) (with_mii (mkMiiState [MiiSim.eth0; MiiSim.eth1] (Some MiiSim.eth1))
                       MiiSim.start).
Proof.
  destruct (miiphy_access_routes MiiSim.eth1 0 MII_BMSR 0 MiiSim.start MiiSim.mii_start_ok)
    as [H _]; [set_solver|]. exact H.
Defined.
