(* ===== verification/Eth.v ===== *)
(** The Ethernet PHY test: [testsuite/test_eth.c]. *)

From S2P Require Import Prelude CLib Vsprintf VsprintfFacts Machine Events MemoryFacts Mii MiiFacts.

Notation MII_ANAR := 0x04%Z (only parsing).
Notation MII_BMCR_AN_ENA := 0x1000%Z (only parsing).
Notation MII_BMCR_RESTART := 0x0200%Z (only parsing).
Notation MII_BMCR_RESET := 0x8000%Z (only parsing).

Record A_Ethernet_test := mkEthArgs {
  et_dev_name : string;
  et_phy_addr : Z;
  et_phy_name : string;
}.

(** The variables that live across the four parts of the test. *)
Record eth_vars := mkEthVars {
  bmcr : Z;
  an_advert_val : Z;
  an_lp_val : Z;
  bm_sts_val : Z;
}.

Section eth.
Context {HW : Type} `{!Mdio HW}.
Notation M := (M (world HW)).

Definition eth_file : string := "../test-framework/testsuite/test_eth.c".

(** [include/linux/delay.h] *)
Definition mdelay (msec : Z) : M unit := hw_do (udelay (1000 * msec)).

(** [for (d_cnt = 0; d_cnt < 200; d_cnt++) mdelay(10);] *)
Definition wait_2s : M unit :=
  _ ← for_loop (R := Empty_set) 201 (λ d_cnt, d_cnt <? 200) (λ d_cnt, d_cnt + 1)
        (λ d_cnt, _ ← mdelay 10; mret (Continue d_cnt)) 0;
  mret tt.

Definition eth_event (testId : Z) (type : DiagErrEventIDTypes_e) : M TestResultTypes_e :=
  event ← Event_Init testId;
  _ ← ReportEvent (fill_event event type [] "");
  mret DIAG_TEST_RESULT_FAIL.

(** One speed and duplex mode: the registers are programmed, the negotiation
    gets two seconds, and the result is compared.  [mismatch] is what the
    test does about a link partner that lacks the mode. *)
Definition eth_mode (a : A_Ethernet_test) (title : string) (mode : Z)
    (mismatch : M (option TestResultTypes_e)) (v : eth_vars) :
    M (eth_vars * option TestResultTypes_e) :=
  let read := miiphy_read (et_dev_name a) (et_phy_addr a) in
  let write := miiphy_write (et_dev_name a) (et_phy_addr a) in
  _ ← printf title [];
  _ ← write MII_BMCR 0x0000;
  _ ← write MII_BMCR MII_BMCR_RESET;
  _ ← write MII_ANAR mode;
  let bmcr := Z.lor (bmcr v) (Z.lor MII_BMCR_AN_ENA MII_BMCR_RESTART) in
  _ ← write MII_BMCR bmcr;
  _ ← wait_2s;
  '(_, sts) ← read MII_BMSR (bm_sts_val v);
  if nonzero (Z.land sts BMSR_ANEGCOMPLETE) then
    '(_, advert) ← read MII_ANAR (an_advert_val v);
    '(_, lp) ← read MII_LPA (an_lp_val v);
    let v := mkEthVars bmcr advert lp sts in
    if nonzero (Z.land (Z.land lp advert) mode) then
      _ ← printf ("..... Passed" +:+ newline) []; mret (v, None)
    else
      r ← mismatch; mret (v, r)
  else
    _ ← printf ("..... Auto Negotiation Pending" +:+ newline) [];
    mret (mkEthVars bmcr (an_advert_val v) (an_lp_val v) sts, None).

Definition only_print (text : string) : M (option TestResultTypes_e) :=
  _ ← printf text []; mret None.

Definition print_and_fail (testId : Z) (text : string) : M (option TestResultTypes_e) :=
  _ ← printf text [];
  r ← eth_event testId DIAG_DEV_DATA_MISMATCH_ERR_EVENT; mret (Some r).

Definition mismatch_text : string := "..... Link Partner mismatch" +:+ newline.

Definition Ethernet_test (testId : Z) (arg : option A_Ethernet_test) : M TestResultTypes_e :=
  match arg with
  | None => _ ← DEBUG_ASSERT eth_file 42; mret DIAG_TEST_RESULT_ABORTED
  | Some a =>
      if nonzero (strcmp (et_phy_name a) "LAN8710A") then mret DIAG_TEST_RESULT_ABORTED
      else
        _ ← printf (newline +:+ "                    Checks 10/100 Full/half duplex with Autonegotiation enabled" +:+ newline +:+ newline) [];
        '(_, sts) ← miiphy_read (et_dev_name a) (et_phy_addr a) MII_BMSR 0;
        if negb (nonzero (Z.land sts BMSR_LSTATUS)) then
          _ ← printf ("                    No Link !!!!!!!!!!!" +:+ newline) [];
          eth_event testId DIAG_DEV_NOT_PRESENT_ERR_EVENT
        else
          '(v, r) ← eth_mode a "                    Starting 10 Mbps and Half duplex test "
                      ADVERTISE_10HALF (only_print mismatch_text) (mkEthVars 0 0 0 sts);
          match r with
          | Some r => mret r
          | None =>
              '(v, r) ← eth_mode a "                    Starting 10 Mbps and Full duplex test "
                          ADVERTISE_10FULL
                          (print_and_fail testId ("..... Link Partner mismatch " +:+ newline)) v;
              match r with
              | Some r => mret r
              | None =>
                  '(v, r) ← eth_mode a "                    Starting 100 Mbps and Half duplex test "
                              ADVERTISE_100HALF (print_and_fail testId mismatch_text) v;
                  match r with
                  | Some r => mret r
                  | None =>
                      '(_, r) ← eth_mode a "                    Starting 100 Mbps and Full duplex test "
                                  ADVERTISE_100FULL (print_and_fail testId mismatch_text) v;
                      match r with
                      | Some r => mret r
                      | None => _ ← printf newline []; mret DIAG_TEST_RESULT_PASS
                      end
                  end
              end
          end
  end.
End eth.

(** * The verdict *)

(** The PHY at address [pa] of bus [id]: [anar] is its advertisement register,
    [link] its link state and [lpa] what the partner advertises.  After a
    restart with the advertisement [m], negotiation completes if
    [complete m]. *)
Record EthPhy {HW} `{!Mdio HW} (id pa : Z) (anar : HW → Z) (link : bool)
    (complete : Z → bool) (lpa : Z) : Prop := {
  phy_status h :
    let r := mdio_read id pa MDIO_DEVAD_NONE MII_BMSR h in
    0 ≤ r.1 < 2 ^ 16 ∧ nonzero (Z.land r.1 BMSR_LSTATUS) = link ∧
    nonzero (Z.land r.1 BMSR_ANEGCOMPLETE) = complete (anar h) ∧ anar r.2 = anar h;
  phy_advert h :
    let r := mdio_read id pa MDIO_DEVAD_NONE MII_ANAR h in
    r.1 = anar h ∧ anar r.2 = anar h;
  phy_partner h :
    let r := mdio_read id pa MDIO_DEVAD_NONE MII_LPA h in
    r.1 = lpa ∧ anar r.2 = anar h;
  phy_partner_range : 0 ≤ lpa < 2 ^ 16;
  phy_set_advert m h : anar (mdio_write id pa MDIO_DEVAD_NONE MII_ANAR m h).2 = m;
  phy_control v h :
    Z.land v MII_BMCR_RESET = 0 → anar (mdio_write id pa MDIO_DEVAD_NONE MII_BMCR v h).2 = anar h;
  phy_delay n h : anar (udelay n h) = anar h;
}.

Section verdict.
Context {HW : Type} `{!Mdio HW} (dev : mii_dev) (pa : Z) (anar : HW → Z) (link : bool)
  (complete : Z → bool) (lpa : Z) (Hphy : EthPhy (mii_id dev) pa anar link complete lpa).
Notation world := (world HW).
Notation live := (live dev).

Definition eth_args : A_Ethernet_test := mkEthArgs (mii_name dev) pa "LAN8710A".

Lemma live_emit s (w : world) : live w → live (emit s w).
Proof using. intros [H Hin]. split; [by apply (mii_ok_ext w)|done]. Qed.

Lemma wp_wait_2s (w : world) (Q : unit → world → Prop) :
  live w → (∀ w', live w' → anar (hw w') = anar (hw w) → Q tt w') → wp wait_2s Q w.
Proof using Hphy.
  intros Hl HQ. unfold wait_2s. apply wp_bind.
  apply (wp_for_seq Z.of_nat 200 (λ _ w', live w' ∧ anar (hw w') = anar (hw w))); [lia|..|done| |].
  - intros k Hk. destruct (Nat.ltb_spec k 200); lia.
  - intros k w1 Hk [Hl1 Ha]. unfold mdelay. wp_run. split; [lia|].
    split; [destruct Hl1 as [[]]; by split; [split|]|]. simpl. by rewrite (phy_delay _ _ _ _ _ _ Hphy).
  - intros w1 [Hl1 Ha]. wp_run. by apply HQ.
Qed.

Lemma wp_eth_read reg value (w : world) (Q : Z * Z → world → Prop) :
  let rd := mdio_read (mii_id dev) pa MDIO_DEVAD_NONE reg (hw w) in
  live w → 0 ≤ rd.1 < 2 ^ 16 →
  (∀ w', live w' → hw w' = rd.2 → Q (0, rd.1) w') →
  wp (miiphy_read (mii_name dev) pa reg value) Q w.
Proof using.
  intros rd Hl Hrd HQ. apply wp_miiphy_read; [apply Hl|apply Hl|]. fold rd. cbv zeta.
  replace (rd.1 <? 0) with false by lia. rewrite wrap16_small by done.
  apply HQ; [by apply live_access|done].
Qed.

Lemma wp_eth_write reg value (w : world) (Q : Z → world → Prop) :
  let wr := mdio_write (mii_id dev) pa MDIO_DEVAD_NONE reg value (hw w) in
  live w → 0 ≤ value < 2 ^ 16 →
  (∀ w', live w' → hw w' = wr.2 → Q wr.1 w') →
  wp (miiphy_write (mii_name dev) pa reg value) Q w.
Proof using.
  intros wr Hl Hv HQ. apply wp_miiphy_write; [apply Hl|apply Hl|].
  rewrite wrap16_small by done. apply HQ; [by apply live_access|done].
Qed.

Lemma eth_bmcr b :
  b = 0 ∨ b = 0x1200 → Z.lor b (Z.lor MII_BMCR_AN_ENA MII_BMCR_RESTART) = 0x1200.
Proof using. by intros [->| ->]. Qed.

(** Does the mode fail the comparison? *)
Definition lacks (mode : Z) : bool := complete mode && negb (nonzero (Z.land lpa mode)).

Lemma wp_eth_mode title mode mismatch v (w : world)
    (Q : eth_vars * option TestResultTypes_e → world → Prop) :
  live w → fmt_accepts title [] = true → 0 ≤ mode < 2 ^ 16 → bmcr v = 0 ∨ bmcr v = 0x1200 →
  (∀ v' w', live w' → bmcr v' = 0x1200 →
     if lacks mode then wp mismatch (λ r w'', Q (v', r) w'') w' else Q (v', None) w') →
  wp (eth_mode eth_args title mode mismatch v) Q w.
Proof using Hphy.
  intros Hl Ht Hmode Hb HQ. unfold eth_mode. cbn [et_dev_name et_phy_addr eth_args].
  apply wp_bind, wp_printf; [done|]. intros s. apply (live_emit s) in Hl.
  apply wp_bind, wp_eth_write; [done|done|]. intros w1 Hl1 _.
  apply wp_bind, wp_eth_write; [done|done|]. intros w2 Hl2 _.
  apply wp_bind, wp_eth_write; [done|done|]. intros w3 Hl3 Hh3. rewrite eth_bmcr by done.
  apply wp_bind, wp_eth_write; [done|done|]. intros w4 Hl4 Hh4.
  apply wp_bind, wp_wait_2s; [done|]. intros w5 Hl5 Ha5.
  assert (anar (hw w5) = mode) as Ha.
  { rewrite Ha5, Hh4, (phy_control _ _ _ _ _ _ Hphy) by done.
    by rewrite Hh3, (phy_set_advert _ _ _ _ _ _ Hphy). }
  destruct (phy_status _ _ _ _ _ _ Hphy (hw w5)) as (Hr & _ & Hc & Ha6).
  apply wp_bind, wp_eth_read; [done|done|]. intros w6 Hl6 Hh6. cbv beta iota.
  rewrite Hc, Ha. rewrite <- Hh6, Ha in Ha6. unfold lacks in HQ.
  destruct (complete mode); cbn [andb] in HQ.
  - destruct (phy_advert _ _ _ _ _ _ Hphy (hw w6)) as (Hv & _).
    apply wp_bind, wp_eth_read; [done|by rewrite Hv, Ha6|]. intros w7 Hl7 Hh7. cbv beta iota.
    destruct (phy_partner _ _ _ _ _ _ Hphy (hw w7)) as (Hp & _).
    apply wp_bind, wp_eth_read; [done|rewrite Hp; apply Hphy|]. intros w8 Hl8 Hh8. cbv beta iota.
    rewrite Hp, Hv, Ha6, <- Z.land_assoc, Z.land_diag.
    destruct (nonzero (Z.land lpa mode)); cbn [negb] in HQ.
    + wp_run. apply HQ; [by apply live_emit|done].
    + apply wp_bind. match goal with |- context [mkEthVars ?a ?b ?c ?d] =>
        specialize (HQ (mkEthVars a b c d) w8 Hl8 eq_refl) end.
      eapply wp_mono; [exact HQ|].
      intros r w9 Hq. by wp_run.
  - wp_run. apply HQ; [by apply live_emit|done].
Qed.

(** A mode whose mismatch is only printed goes on; one whose mismatch is
    reported ends the test. *)
Lemma wp_eth_half title v (w : world) (Q : eth_vars * option TestResultTypes_e → world → Prop) :
  live w → fmt_accepts title [] = true → bmcr v = 0 ∨ bmcr v = 0x1200 →
  (∀ v' w', live w' → bmcr v' = 0x1200 → Q (v', None) w') →
  wp (eth_mode eth_args title ADVERTISE_10HALF (only_print mismatch_text) v) Q w.
Proof using Hphy.
  intros Hl Ht Hb HQ. apply wp_eth_mode; [done..|]. intros v' w' Hl' Hb'.
  destruct (lacks _); [|by apply HQ]. unfold only_print. wp_run. apply HQ; [by apply live_emit|done].
Qed.

Lemma wp_eth_strict title testId text mode v (w : world)
    (Q : eth_vars * option TestResultTypes_e → world → Prop) :
  live w → fmt_accepts title [] = true → fmt_accepts text [] = true → 0 ≤ mode < 2 ^ 16 →
  bmcr v = 0 ∨ bmcr v = 0x1200 →
  (∀ v' w', live w' → bmcr v' = 0x1200 →
     Q (v', if lacks mode then Some DIAG_TEST_RESULT_FAIL else None) w') →
  wp (eth_mode eth_args title mode (print_and_fail testId text) v) Q w.
Proof using Hphy.
  intros Hl Ht Htx Hm Hb HQ. apply wp_eth_mode; [done..|]. intros v' w' Hl' Hb'.
  destruct (lacks mode); [|by apply HQ]. unfold print_and_fail, eth_event.
  apply wp_bind, wp_printf; [done|]. intros s. wp_run. apply HQ; [by do 2 apply live_emit|done].
Qed.

(** C36. With a link, the test passes exactly when no negotiation that
    completed at 10 Mbps full duplex or 100 Mbps showed a partner without
    that mode; without a link it fails.  A partner that lacks 10 Mbps half
    duplex and a negotiation that does not complete never fail the test. *)
Theorem ethernet_verdict testId (w : world) :
  live w →
  ∃ w', Ethernet_test testId (Some eth_args) w = Ret
    (verdict (link && negb (lacks ADVERTISE_10FULL) && negb (lacks ADVERTISE_100HALF)
                   && negb (lacks ADVERTISE_100FULL))) w'.
Proof using Hphy.
  intros Hl. set (res := verdict _).
  assert (wp (Ethernet_test testId (Some eth_args)) (λ r _, r = res) w)
    as (r & w' & H & ->)%wp_run; [|by exists w'].
  unfold Ethernet_test. cbn [et_phy_name et_dev_name et_phy_addr eth_args].
  change (nonzero (strcmp "LAN8710A" "LAN8710A")) with false. cbv iota.
  apply wp_bind, wp_printf; [reflexivity|]. intros s. apply (live_emit s) in Hl.
  destruct (phy_status _ _ _ _ _ _ Hphy (hw (emit s w))) as (Hr & Hlink & _).
  apply wp_bind, wp_eth_read; [done|done|]. intros w1 Hl1 _. cbv beta iota. rewrite Hlink.
  subst res. case_eq link; intros _; cbn [negb andb]; [|unfold eth_event; by wp_run].
  apply wp_bind, wp_eth_half; [done|done|by left|]. intros v2 w2 Hl2 Hb2. cbv beta iota.
  apply wp_bind, wp_eth_strict; [done|done|done|done|by right|]. intros v3 w3 Hl3 Hb3.
  destruct (lacks ADVERTISE_10FULL); cbn [negb andb]; [by wp_run|].
  apply wp_bind, wp_eth_strict; [done|done|done|done|by right|]. intros v4 w4 Hl4 Hb4.
  destruct (lacks ADVERTISE_100HALF); cbn [negb andb]; [by wp_run|].
  apply wp_bind, wp_eth_strict; [done|done|done|done|by right|]. intros v5 w5 Hl5 Hb5.
  destruct (lacks ADVERTISE_100FULL); cbn [negb andb]; by wp_run.
Qed.
End verdict.

(** * A simulated PHY *)

Module EthSim.
(** The state is the advertisement, the partner advertises [lpa], and
    negotiation always completes. *)
Definition phy (lpa : Z) : Mdio Z := {|
  mdio_read _ _ _ reg h :=
    (if reg =? MII_BMSR then 0x24 else if reg =? MII_ANAR then h
     else if reg =? MII_LPA then lpa else 0xFFFF, h);
  mdio_write _ _ _ reg v h := (0, if reg =? MII_ANAR then v else h);
  udelay _ h := h;
|}.

Lemma phy_ok id pa lpa :
  0 ≤ lpa < 2 ^ 16 → @EthPhy _ (phy lpa) id pa (λ h, h) true (λ _, true) lpa.
Proof. intros Hl. by split. Qed.

Definition eth0 : mii_dev := mkMii 1 "eth0" true true.
Definition start : world Z := with_mii (mkMiiState [eth0] (Some eth0)) (boot_world 0).

Lemma start_live : live eth0 start.
Proof.
  split; [|apply list_elem_of_here]. split; simpl.
  - apply NoDup_singleton.
  - apply NoDup_singleton.
  - intros dev [= <-]. apply list_elem_of_here.
  - by intros dev ->%list_elem_of_singleton.
Qed.
End EthSim.

(** A partner with all four modes passes, one without 10 Mbps half duplex
    passes too, one without 10 Mbps full duplex fails. *)
Lemma ethernet_verdict_witness :
  let run lpa := @Ethernet_test _ (EthSim.phy lpa) 7 (Some (mkEthArgs "eth0" 0 "LAN8710A"))
                   EthSim.start in
  (∃ w', run 0x1E0 = Ret DIAG_TEST_RESULT_PASS w') ∧
  (∃ w', run 0x1C0 = Ret DIAG_TEST_RESULT_PASS w') ∧
  (∃ w', run 0x1A0 = Ret DIAG_TEST_RESULT_FAIL w').
Proof.
  split; [|split].
  - apply (@ethernet_verdict _ (EthSim.phy 0x1E0) EthSim.eth0 0 _ _ _ _
      (EthSim.phy_ok 1 0 0x1E0 ltac:(lia)) 7), EthSim.start_live.
  - apply (@ethernet_verdict _ (EthSim.phy 0x1C0) EthSim.eth0 0 _ _ _ _
      (EthSim.phy_ok 1 0 0x1C0 ltac:(lia)) 7), EthSim.start_live.
  - apply (@ethernet_verdict _ (EthSim.phy 0x1A0) EthSim.eth0 0 _ _ _ _
      (EthSim.phy_ok 1 0 0x1A0 ltac:(lia)) 7), EthSim.start_live.
Defined.
