(* ===== verification/NetUtils.v ===== *)
(** Address parsing and the Internet checksum: [lib/net_utils.c], on a
    little-endian machine. *)

From S2P Require Import Prelude CLib Vsprintf VsprintfFacts.

(** * Definitions *)

Definition htonl (x : Z) : Z :=
  Z.lor (Z.lor (wrap32 (Z.shiftl (Z.land x 0xff) 24)) (Z.shiftl (Z.land x 0xff00) 8))
        (Z.lor (Z.shiftr (Z.land x 0xff0000) 8) (Z.shiftr (Z.land x 0xff000000) 24)).

(** [*e] *)
Definition head_char (e : string) : ascii :=
  match e with "" => NUL | String c _ => c end.

(** [s = ( *e) ? e + 1 : e] *)
Definition skip_sep (e : string) : string :=
  match e with
  | "" => e
  | String c e' => if Ascii.eqb c NUL then e else e'
  end.

(** The iterations that are [left] of the four, from [i = 4 - left]; [None] is
    a malformed address. *)
Fixpoint ip_loop (left : nat) (s : string) (s_addr : Z) : option Z :=
  match left with
  | O => Some s_addr
  | S left' =>
      let '(val, e) := simple_strtoul s 10 in
      if val >? 255 then None
      else if negb (4 - Z.of_nat left =? 3) && negb (Ascii.eqb (head_char e) ".") then None
      else ip_loop left' (skip_sep e)
             (Z.lor (wrap32 (Z.shiftl s_addr 8)) (Z.land val 0xFF))
  end.

(** The [s_addr] of the result. *)
Definition string_to_ip (s : option string) : Z :=
  match s with
  | None => 0
  | Some s => match ip_loop 4 s 0 with None => 0 | Some s_addr => htonl s_addr end
  end.

Fixpoint enetaddr_loop (n : nat) (addr : option string) : list Z :=
  match n with
  | O => []
  | S n' =>
      match addr with
      | None => 0 :: enetaddr_loop n' None
      | Some a =>
          let '(val, e) := simple_strtoul a 16 in
          wrap8 val :: enetaddr_loop n' (Some (skip_sep e))
      end
  end.

Definition string_to_enetaddr (addr : option string) : list Z := enetaddr_loop 6 addr.

(** The 16-bit words of the buffer, the last one padded with a zero byte; the
    [int] sum does not overflow below 2^15 words. *)
Fixpoint sum_words (bytes : list Z) : Z :=
  match bytes with
  | b0 :: b1 :: bytes' => (b0 + 256 * b1) + sum_words bytes'
  | [b0] => b0
  | [] => 0
  end.

Definition fold_sum (sum : Z) : Z :=
  let sum := Z.shiftr sum 16 + Z.land sum 0xffff in
  let sum := sum + Z.shiftr sum 16 in
  Z.land (Z.lnot sum) 0xffff.

Definition compute_ip_checksum (bytes : list Z) : Z := fold_sum (sum_words bytes).

Definition add_ip_checksums (offset sum new : Z) : Z :=
  let sum := Z.land (Z.lnot sum) 0xffff in
  let new := Z.land (Z.lnot new) 0xffff in
  let new :=
    if nonzero (Z.land offset 1)
    then Z.lor (Z.land (Z.shiftr new 8) 0xff) (Z.land (Z.shiftl new 8) 0xff00) else new in
  let checksum := sum + new in
  let checksum := if checksum >? 0xffff then checksum - 0xffff else checksum in
  Z.land (Z.lnot checksum) 0xffff.

Definition ip_checksum_ok (bytes : list Z) : bool :=
  negb (nonzero (Z.land (compute_ip_checksum bytes) 0xfffe)).

(** * Bytes of a word *)

Lemma lor_mul_pow2 a v n : 0 ≤ n → 0 ≤ v < 2 ^ n → Z.lor (a * 2 ^ n) v = a * 2 ^ n + v.
Proof.
  intros Hn Hv. assert (Z.land (a * 2 ^ n) v = 0) as Hl.
  { rewrite <- Z.shiftl_mul_pow2 by done. apply Z.bits_inj'. intros i Hi.
    rewrite Z.land_spec, Z.bits_0. destruct (Z.lt_ge_cases i n).
    - by rewrite Z.shiftl_spec_low by done.
    - destruct (Z.eq_dec v 0) as [->|]; [by rewrite Z.bits_0, andb_false_r|].
      rewrite (Z.bits_above_log2 v), andb_false_r; [done|lia|].
      apply Z.lt_le_trans with n; [by apply Z.log2_lt_pow2; lia|done]. }
  rewrite <- Z.lxor_lor by done. symmetry. by apply Z.add_nocarry_lxor.
Qed.

Lemma land_field x n :
  0 ≤ n → Z.land x (0xff * 2 ^ n) = (x / 2 ^ n) mod 256 * 2 ^ n.
Proof.
  intros Hn. change 256 with (2 ^ 8). rewrite <- (Z.land_ones (x / 2 ^ n)) by done.
  rewrite <- Z.shiftr_div_pow2, <- !Z.shiftl_mul_pow2 by done. change 0xff with (Z.ones 8).
  apply Z.bits_inj'. intros i Hi. rewrite Z.land_spec. destruct (Z.lt_ge_cases i n).
  - by rewrite !Z.shiftl_spec_low, andb_false_r by done.
  - rewrite !Z.shiftl_spec_high, Z.land_spec, Z.shiftr_spec by lia.
    by replace (i - n + n) with i by lia.
Qed.

(** The bytes of a 32-bit value, swapped. *)
Lemma htonl_bytes a b c d :
  0 ≤ a < 256 → 0 ≤ b < 256 → 0 ≤ c < 256 → 0 ≤ d < 256 →
  htonl (a * 2 ^ 24 + b * 2 ^ 16 + c * 2 ^ 8 + d) = d * 2 ^ 24 + c * 2 ^ 16 + b * 2 ^ 8 + a.
Proof.
  intros Ha Hb Hc Hd. set (x := a * 2 ^ 24 + b * 2 ^ 16 + c * 2 ^ 8 + d). unfold htonl.
  change (Z.land x 0xff) with (Z.land x (0xff * 2 ^ 0)).
  change (Z.land x 0xff00) with (Z.land x (0xff * 2 ^ 8)).
  change (Z.land x 0xff0000) with (Z.land x (0xff * 2 ^ 16)).
  change (Z.land x 0xff000000) with (Z.land x (0xff * 2 ^ 24)).
  rewrite !land_field, !Z.shiftl_mul_pow2, !Z.shiftr_div_pow2 by done.
  replace ((x / 2 ^ 0) mod 256) with d by (subst x; lia).
  replace ((x / 2 ^ 8) mod 256) with c by (subst x; lia).
  replace ((x / 2 ^ 16) mod 256) with b by (subst x; lia).
  replace ((x / 2 ^ 24) mod 256) with a by (subst x; lia).
  rewrite wrap32_small by lia.
  replace (b * 2 ^ 16 / 2 ^ 8) with (b * 2 ^ 8) by lia.
  replace (a * 2 ^ 24 / 2 ^ 24) with a by lia.
  replace (d * 2 ^ 0 * 2 ^ 24) with (d * 2 ^ 24) by lia.
  replace (c * 2 ^ 8 * 2 ^ 8) with (c * 2 ^ 16) by lia.
  rewrite (lor_mul_pow2 d (c * 2 ^ 16) 24), (lor_mul_pow2 b a 8) by lia.
  replace (d * 2 ^ 24 + c * 2 ^ 16) with ((d * 2 ^ 8 + c) * 2 ^ 16) by lia.
  rewrite lor_mul_pow2 by lia. lia.
Qed.

(** * Dotted quads *)

Lemma shift_or_byte acc v :
  0 ≤ acc < 2 ^ 24 → 0 ≤ v < 256 →
  Z.lor (wrap32 (Z.shiftl acc 8)) (Z.land v 0xFF) = acc * 256 + v.
Proof.
  intros Ha Hv. change 0xFF with (Z.ones 8). rewrite Z.land_ones, Z.mod_small by lia.
  rewrite Z.shiftl_mul_pow2, wrap32_small by lia. apply (lor_mul_pow2 acc v 8); lia.
Qed.

(** A decimal octet: its digits and its value. *)
Definition octet (cs : list ascii) (v : Z) : Prop :=
  Forall (base_digit 10) cs ∧ digits_value 10 cs 0 = v ∧ 0 ≤ v < 256.

Lemma ip_loop_dot left cs v rest acc :
  octet cs v → 0 ≤ acc < 2 ^ 24 → (2 ≤ left ≤ 4)%nat →
  ip_loop left (str_of_list cs +:+ String "." rest) acc = ip_loop (pred left) rest (acc * 256 + v).
Proof.
  intros (Hcs & Hv & Hr) Ha Hl. destruct left as [|left]; [lia|]. cbn [ip_loop Nat.pred].
  rewrite simple_strtoul_digits, Hv, wrap32_small by (done || lia).
  replace (v >? 255) with false by lia. change (head_char (String "." rest)) with "."%char.
  cbn [Ascii.eqb Bool.eqb negb]. rewrite andb_false_r. cbn [skip_sep Ascii.eqb Bool.eqb].
  rewrite shift_or_byte by lia. done.
Qed.

Lemma ip_loop_last cs v rest acc :
  octet cs v → 0 ≤ acc < 2 ^ 24 → parse_stops 10 rest →
  ip_loop 1 (str_of_list cs +:+ rest) acc = Some (acc * 256 + v).
Proof.
  intros (Hcs & Hv & Hr) Ha Hs. cbn [ip_loop].
  rewrite simple_strtoul_digits, Hv, wrap32_small by (done || lia).
  replace (v >? 255) with false by lia. change (4 - Z.of_nat 1 =? 3) with true. cbn [negb andb].
  by rewrite shift_or_byte by lia.
Qed.

Lemma string_to_ip_quad c1 c2 c3 c4 v1 v2 v3 v4 rest :
  octet c1 v1 → octet c2 v2 → octet c3 v3 → octet c4 v4 → parse_stops 10 rest →
  string_to_ip (Some (str_of_list c1 +:+ String "." (str_of_list c2 +:+ String "."
    (str_of_list c3 +:+ String "." (str_of_list c4 +:+ rest)))))
  = v4 * 2 ^ 24 + v3 * 2 ^ 16 + v2 * 2 ^ 8 + v1.
Proof.
  intros H1 H2 H3 H4 Hr. pose proof H1 as (_ & _ & R1). pose proof H2 as (_ & _ & R2).
  pose proof H3 as (_ & _ & R3). pose proof H4 as (_ & _ & R4). unfold string_to_ip.
  rewrite (ip_loop_dot 4 c1 v1) by (done || lia). cbn [Nat.pred].
  rewrite (ip_loop_dot 3 c2 v2) by (done || lia). cbn [Nat.pred].
  rewrite (ip_loop_dot 2 c3 v3) by (done || lia). cbn [Nat.pred].
  rewrite (ip_loop_last c4 v4) by (done || lia).
  rewrite <- htonl_bytes by done. f_equal. lia.
Qed.

(** A dotted quad of octets below 256 is parsed to the address in network
    byte order: the first octet is the first byte in memory.  What follows
    the last octet is ignored. *)
Theorem string_to_ip_parses c1 c2 c3 c4 v1 v2 v3 v4 rest :
  octet c1 v1 → octet c2 v2 → octet c3 v3 → octet c4 v4 → parse_stops 10 rest →
  string_to_ip (Some (str_of_list c1 +:+ String "." (str_of_list c2 +:+ String "."
    (str_of_list c3 +:+ String "." (str_of_list c4 +:+ rest)))))
  = v4 * 2 ^ 24 + v3 * 2 ^ 16 + v2 * 2 ^ 8 + v1.
Proof. apply string_to_ip_quad. Qed.

Lemma string_to_ip_parses_witness :
  string_to_ip (Some "192.168.7.2") = 2 * 2 ^ 24 + 7 * 2 ^ 16 + 168 * 2 ^ 8 + 192.
Proof.
  apply (string_to_ip_parses ["1"; "9"; "2"]%char ["1"; "6"; "8"]%char ["7"]%char ["2"]%char
           192 168 7 2 ""); try done;
    (split; [repeat (constructor; [done|]); constructor|done]).
Defined.

(** The decimal text of a byte is an octet. *)
Lemma dec_octet b : 0 ≤ b < 256 → octet (rev (put_dec_trunc b)) b.
Proof.
  intros Hb. destruct (number_digits_spec b 10 0) as (cs & Hcs & _ & Hd & Hv);
    [by right; left|by left|lia|].
  assert (number_digits b 10 0 = Some (put_dec_trunc b)) as Ht.
  { unfold number_digits. destruct (Z.eqb_spec b 0) as [->|]; [done|].
    change (negb (10 =? 10)) with false. cbv iota. unfold put_dec. cbn [put_dec_loop].
    by rewrite (proj2 (Z.ltb_lt b 100000)) by lia. }
  rewrite Ht in Hcs. injection Hcs as <-. split; [by apply Forall_rev|done].
Qed.

Lemma octet_no_nul cs v : octet cs v → no_nul (str_of_list cs).
Proof.
  intros (Hcs & _). induction Hcs as [|c cs [Hx _] _ IH]; [done|]. simpl.
  apply no_nul_cons; [|done]. destruct (Ascii.eqb_spec c NUL) as [->|]; done.
Qed.

Lemma format_pI4 p bytes :
  vformat 5 "%pI4" [VPtr p bytes] =
    ip4 ← ip4_loop 4 bytes; Some (string_ (Some ip4) (-1) (-1) 0 +:+ "").
Proof.
  cbn [vformat]. change (Ascii.eqb "%" "%") with true. cbv iota.
  change (conv_spec "pI4" [VPtr p bytes]) with
    (s ← ip4_addr_string bytes (-1) (-1) 0; Some (s, "", @nil va_arg)).
  unfold ip4_addr_string. by destruct (ip4_loop 4 bytes).
Qed.

Lemma ip4_text a b c d :
  let t x := str_of_list (rev (put_dec_trunc x)) in
  ip4_loop 4 [a; b; c; d] =
    Some (t a +:+ String "." (t b +:+ String "." (t c +:+ String "." (t d)))).
Proof.
  cbv zeta. cbn [ip4_loop mbind option_bind Nat.eqb negb]. by rewrite !str_app_nil_r.
Qed.

(** C22. Printing an address with [%pI4] and parsing the text gives the
    address back. *)
Theorem ip_print_parse_roundtrip p a b c d :
  0 ≤ a < 256 → 0 ≤ b < 256 → 0 ≤ c < 256 → 0 ≤ d < 256 →
  ∃ text, format "%pI4" [VPtr p [a; b; c; d]] = Some text ∧
    string_to_ip (Some text) = d * 2 ^ 24 + c * 2 ^ 16 + b * 2 ^ 8 + a.
Proof.
  intros Ha Hb Hc Hd.
  set (t x := str_of_list (rev (put_dec_trunc x))).
  set (text := t a +:+ String "." (t b +:+ String "." (t c +:+ String "." (t d)))).
  assert (string_ (Some text) (-1) (-1) 0 = text) as Hs.
  { apply string_plain. unfold text.
    repeat (apply no_nul_app; [by eapply octet_no_nul, dec_octet|];
            try (apply no_nul_cons; [done|])). by eapply octet_no_nul, dec_octet. }
  exists text. split.
  - unfold format. change (c_str "%pI4") with "%pI4". rewrite format_pI4, ip4_text.
    cbn [mbind option_bind]. rewrite str_app_nil_r. f_equal. exact Hs.
  - unfold text, t. rewrite <- (str_app_nil_r (str_of_list (rev (put_dec_trunc d)))).
    by apply string_to_ip_quad; try apply dec_octet.
Qed.

Lemma ip_print_parse_roundtrip_witness :
  ∃ text, format "%pI4" [VPtr 0 [10; 0; 0; 138]] = Some text ∧
    string_to_ip (Some text) = 138 * 2 ^ 24 + 0 * 2 ^ 16 + 0 * 2 ^ 8 + 10.
Proof. apply (ip_print_parse_roundtrip 0 10 0 0 138); lia. Defined.

(** * The checksum *)

(** The one's complement sum of [sum]: 0 for 0, and otherwise the representative
    of [sum] modulo 65535 between 1 and 65535. *)
Definition ones_sum (sum : Z) : Z := if sum =? 0 then 0 else (sum - 1) mod 65535 + 1.

Lemma lnot_land16 x : Z.land (Z.lnot x) 0xffff = 65535 - x mod 65536.
Proof.
  change (Z.land (Z.lnot x) 0xffff) with (Z.land (Z.lnot x) (Z.ones 16)).
  rewrite Z.land_ones by done. unfold Z.lnot.
  change (2 ^ 16) with 65536. lia.
Qed.

Lemma fold_sum_spec sum : 0 ≤ sum < 2 ^ 31 → fold_sum sum = 65535 - ones_sum sum.
Proof.
  intros Hs. unfold fold_sum, ones_sum. cbv zeta.
  change (Z.land sum 0xffff) with (Z.land sum (Z.ones 16)).
  rewrite lnot_land16, Z.land_ones, !Z.shiftr_div_pow2 by done.
  change (2 ^ 16) with 65536. change (2 ^ 31) with 2147483648 in Hs.
  destruct (Z.eqb_spec sum 0) as [->|]; [done|].
  set (hi := sum / 65536). set (lo := sum mod 65536).
  assert (sum = 65536 * hi + lo ∧ 0 ≤ lo < 65536 ∧ 0 ≤ hi < 32768) as (E & Hlo & Hhi)
    by (subst hi lo; lia).
  assert ((sum - 1) mod 65535 = (hi + lo - 1) mod 65535) as ->.
  { rewrite <- (Z.mod_add (hi + lo - 1) hi 65535) by done. f_equal. lia. }
  assert (0 < hi + lo) by lia. clearbody hi lo. clear E.
  destruct (Z.lt_ge_cases (hi + lo) 65536).
  - replace ((hi + lo) / 65536) with 0 by lia. rewrite !Z.mod_small by lia. lia.
  - replace ((hi + lo) / 65536) with 1 by lia. lia.
Qed.

Definition bytes_ok (l : list Z) : Prop := Forall (λ b, 0 ≤ b < 256) l.

Lemma sum_words_app l l' :
  Z.of_nat (length l) mod 2 = 0 → sum_words (l ++ l') = sum_words l + sum_words l'.
Proof.
  remember (length l) as n eqn:Hn. revert l Hn.
  induction n as [n IH] using lt_wf_ind. intros [|b0 [|b1 l]] Hn He; simpl in *; subst n; try lia.
  rewrite (IH (length l)) by (done || lia). lia.
Qed.

Lemma sum_words_bound l :
  bytes_ok l → 0 ≤ sum_words l ≤ 65535 * ((Z.of_nat (length l) + 1) / 2).
Proof.
  remember (length l) as n eqn:Hn. revert l Hn.
  induction n as [n IH] using lt_wf_ind.
  intros [|b0 [|b1 l]] Hn Hl; simpl in *; subst n; try lia.
  - inversion_clear Hl. lia.
  - inversion_clear Hl as [|? ? H0 Hl']. inversion_clear Hl' as [|? ? H1 Hl''].
    specialize (IH (length l) ltac:(lia) l eq_refl Hl''). lia.
Qed.

Lemma ones_sum_range sum : 0 ≤ sum → 0 ≤ ones_sum sum ≤ 65535 ∧ (ones_sum sum = 0 ↔ sum = 0).
Proof. intros Hs. unfold ones_sum. destruct (Z.eqb_spec sum 0); lia. Qed.

Lemma ones_sum_add x y : 0 ≤ x → 0 ≤ y → ones_sum (ones_sum x + y) = ones_sum (x + y).
Proof.
  intros Hx Hy. unfold ones_sum at 2. destruct (Z.eqb_spec x 0) as [->|]; [done|].
  pose proof (Z.div_mod (x - 1) 65535 ltac:(done)) as E. set (q := (x - 1) / 65535) in *.
  set (r := (x - 1) mod 65535) in *. assert (0 ≤ r) by (apply Z.mod_pos_bound; done).
  assert (0 ≤ q) by (apply Z.div_pos; lia).
  unfold ones_sum. rewrite !(proj2 (Z.eqb_neq _ _)) by lia. f_equal.
  rewrite <- (Z.mod_add (r + 1 + y - 1) q 65535) by done. f_equal. lia.
Qed.

Lemma checksum_spec l :
  bytes_ok l → Z.of_nat (length l) ≤ 65535 → compute_ip_checksum l = 65535 - ones_sum (sum_words l).
Proof. intros Hl Hn. apply fold_sum_spec. pose proof (sum_words_bound l Hl). lia. Qed.

(** A packet whose checksum field held zero and now holds the checksum
    of the packet is accepted. *)
Theorem checksum_verifies pre post :
  bytes_ok pre → bytes_ok post → Z.of_nat (length pre) mod 2 = 0 →
  Z.of_nat (length pre + length post) ≤ 65000 →
  let c := compute_ip_checksum (pre ++ [0; 0] ++ post) in
  ip_checksum_ok (pre ++ [c mod 256; c / 256] ++ post) = true.
Proof.
  intros Hpre Hpost Heven Hlen c.
  assert (∀ x y, 0 ≤ x < 256 → 0 ≤ y < 256 → bytes_ok (pre ++ [x; y] ++ post)) as Hok.
  { intros x y Hx Hy. apply Forall_app; split; [done|]. by repeat (constructor; [done|]). }
  assert (∀ x y, length (pre ++ [x; y] ++ post) = (length pre + length post + 2)%nat) as Hl
    by (intros; rewrite !length_app; simpl; lia).
  assert (∀ x y, sum_words (pre ++ [x; y] ++ post) = x + 256 * y + (sum_words pre + sum_words post))
    as Hsum by (intros; rewrite sum_words_app by done; simpl; lia).
  pose proof (sum_words_bound pre Hpre). pose proof (sum_words_bound post Hpost).
  assert (c = 65535 - ones_sum (sum_words pre + sum_words post)) as Hc.
  { unfold c. rewrite checksum_spec, Hsum by (try apply Hok; rewrite ?Hl; lia). done. }
  set (S := sum_words pre + sum_words post) in *. pose proof (ones_sum_range S ltac:(lia)) as HS.
  unfold ip_checksum_ok. rewrite checksum_spec, Hsum by (try apply Hok; rewrite ?Hl; lia).
  replace (c mod 256 + 256 * (c / 256) + S) with (S + c) by lia.
  rewrite <- ones_sum_add, Hc by lia.
  replace (ones_sum S + (65535 - ones_sum S)) with 65535 by lia. done.
Qed.

Lemma checksum_verifies_witness :
  let c := compute_ip_checksum ([8; 0] ++ [0; 0] ++ [0; 0; 0; 1]) in
  ip_checksum_ok ([8; 0] ++ [c mod 256; c / 256] ++ [0; 0; 0; 1]) = true.
Proof.
  apply (checksum_verifies [8; 0] [0; 0; 0; 1]); [..|done|simpl; lia];
    repeat (constructor; [lia|]); constructor.
Defined.


