(* ===== verification/EthUclass.v ===== *)
(** The Ethernet uclass: [net/eth-uclass.c] and [net/eth_common.c]. *)

From S2P Require Import Prelude CLib Vsprintf VsprintfFacts Machine Events I2cUclass.

Notation EAGAIN := 11%Z (only parsing).
Notation ETH_RECV_CHECK_DEVICE := 1%Z (only parsing).

(** The environment. *)
Class Env (HW : Type) := {
  env_get : string → HW → option string;
  env_set : string → option string → HW → Z * HW;
  env_get_id : HW → Z;
}.

(** What the driver model and the Ethernet drivers provide.  A device is a
    number; [uclass_first_eth] and [uclass_next_eth] probe the device they
    find and give the code and [*devp]; [eth_recv] gives the code and the
    memory at the packet; [eth_free_pkt] is [None] when the driver has no such
    method. *)
Class EthDriver (HW : Type) := {
  uclass_first_eth : HW → (Z * option Z) * HW;
  uclass_next_eth : Z → HW → (Z * option Z) * HW;
  uclass_eth_devs : HW → list Z;
  eth_device_active : Z → HW → bool;
  eth_device_probe : Z → HW → Z * HW;
  eth_dev_name : Z → string;
  eth_dev_seq : Z → HW → Z;
  enetaddr : Z → HW → list Z;
  eth_ops_start : Z → HW → Z * HW;
  eth_ops_stop : Z → HW → HW;
  eth_ops_send : Z → list Z → HW → Z * HW;
  eth_ops_recv : Z → Z → HW → (Z * list Z) * HW;
  eth_ops_free_pkt : Z → option (list Z → Z → HW → HW);
}.

Section eth_uclass.
Context {HW : Type} `{!Env HW} `{!EthDriver HW}.
Notation M := (M (world HW)).

(** Reading and assigning a variable of the uclass. *)
Definition eth_var {A} (field : eth_globals → A) : M A := gets (λ w, field (eth w)).
Definition eth_assign {A} (field : eth_globals → A) `{!FieldUpdate field} (v : A) : M unit :=
  modify (λ w, with_eth (eth w <| field := v |>) w).
#[local] Arguments eth_assign {_} _ {_} _.

Definition env_value (name : string) : M (option string) := gets (λ w, env_get name (hw w)).

(** [(ethrotate != NULL) && (strcmp(ethrotate, "no") == 0)] *)
Definition rotate_is_no (ethrotate : option string) : bool :=
  match ethrotate with Some s => strcmp s "no" =? 0 | None => false end.

Definition eth_set_current_to_next : M unit :=
  cur ← eth_var eth_current;
  _ ← match cur with
      | Some dev =>
          '(_, next) ← hw_call (uclass_next_eth dev); eth_assign eth_current next
      | None => mret tt
      end;
  cur ← eth_var eth_current;
  match cur with
  | Some _ => mret tt
  | None => '(_, first) ← hw_call uclass_first_eth; eth_assign eth_current first
  end.

Definition eth_get_dev : M (option Z) :=
  cur ← eth_var eth_current;
  match cur with
  | Some dev => mret (Some dev)
  | None =>
      '(ret, first) ← hw_call uclass_first_eth;
      _ ← eth_assign eth_current first;
      _ ← eth_assign eth_errno ret;
      mret first
  end.

Definition eth_set_dev (dev : option Z) : M unit :=
  dev ← match dev with
        | None => mret None
        | Some d =>
            active ← gets (λ w, eth_device_active d (hw w));
            if active : bool then mret (Some d)
            else
              ret ← hw_call (eth_device_probe d);
              _ ← eth_assign eth_errno ret;
              mret (if nonzero ret then None else Some d)
        end;
  eth_assign eth_current dev.

(** The search of the devices for the name or, with [alias = Some seq], for
    the sequence number. *)
Fixpoint eth_find_dev (devs : list Z) (devname : string) (alias : option Z) : M (option Z) :=
  match devs with
  | [] => mret None
  | it :: devs' =>
      ret ← hw_call (eth_device_probe it);
      if nonzero ret then eth_find_dev devs' devname alias
      else
        seq ← gets (λ w, eth_dev_seq it (hw w));
        if (strcmp (eth_dev_name it) devname =? 0)
           || match alias with Some n => seq =? n | None => false end
        then mret (Some it)
        else eth_find_dev devs' devname alias
  end.

(** [endp > startp] when [simple_strtoul] has read a digit. *)
Definition eth_get_dev_by_name (devname : string) : M (option Z) :=
  let alias :=
    if (strncmp devname "eth" 3 =? 0) && (3 <? strlen devname) then
      let startp := str_drop 3 devname in
      let '(seq, endp) := simple_strtoul startp 10 in
      if slen endp <? slen startp then Some (sign 32 seq) else None
    else None in
  devs ← gets (λ w, uclass_eth_devs (hw w));
  eth_find_dev devs devname alias.

Definition eth_get_ethaddr : M (option (list Z)) :=
  dev ← eth_get_dev;
  match dev with
  | None => mret None
  | Some _ =>
      dev ← eth_get_dev;
      match dev with
      | None => crash NULL_DEREF
      | Some dev => gets (λ w, Some (enetaddr dev (hw w)))
      end
  end.

Definition eth_get_name : M string :=
  dev ← eth_get_dev;
  match dev with
  | None => mret "unknown"
  | Some _ =>
      dev ← eth_get_dev;
      match dev with None => crash NULL_DEREF | Some dev => mret (eth_dev_name dev) end
  end.

Definition eth_get_dev_index : M Z :=
  dev ← eth_get_dev;
  match dev with
  | None => mret (-1)
  | Some _ =>
      dev ← eth_get_dev;
      match dev with
      | None => crash NULL_DEREF
      | Some dev => gets (λ w, eth_dev_seq dev (hw w))
      end
  end.

(** The state of a device; a probed device starts in [ETH_STATE_INIT]. *)
Definition eth_state_of (dev : Z) (e : eth_globals) : eth_state_t :=
  default ETH_STATE_INIT (eth_states e !! dev).

Definition eth_set_priv_state (dev : Z) (s : eth_state_t) : M unit :=
  states ← eth_var eth_states;
  eth_assign eth_states (<[dev := s]> states).

Definition eth_is_active (dev : Z) : M bool :=
  active ← gets (λ w, eth_device_active dev (hw w));
  if active : bool
  then gets (λ w, bool_decide (eth_state_of dev (eth w) = ETH_STATE_ACTIVE))
  else mret false.

Definition eth_current_changed : M unit :=
  act ← env_value "ethact";
  ethrotate ← env_value "ethrotate";
  if rotate_is_no ethrotate then mret tt
  else
    dev ← eth_get_dev;
    match dev with
    | Some _ =>
        stale ← match act with
                | None => mret true
                | Some a => name ← eth_get_name; mret (negb (strcmp a name =? 0))
                end;
        if stale : bool then name ← eth_get_name; _ ← hw_call (env_set "ethact" (Some name)); mret tt
        else mret tt
    | None =>
        match act with
        | Some _ => _ ← hw_call (env_set "ethact" None); mret tt
        | None => mret tt
        end
    end.

Definition eth_try_another (first_restart : bool) : M unit :=
  ethrotate ← env_value "ethrotate";
  if rotate_is_no ethrotate then mret tt
  else
    dev ← eth_get_dev;
    match dev with
    | None => mret tt
    | Some _ =>
        _ ← (if first_restart then dev ← eth_get_dev; eth_assign first_failed dev else mret tt);
        _ ← eth_set_current_to_next;
        _ ← eth_current_changed;
        failed ← eth_var first_failed;
        dev ← eth_get_dev;
        if bool_decide (failed = dev) then eth_assign net_restart_wrap 1 else mret tt
    end.

Definition eth_set_current : M unit :=
  env_id ← gets (λ w, env_get_id (hw w));
  a ← eth_var act;
  changed ← eth_var env_changed_id;
  _ ← (if bool_decide (a = None) || negb (changed =? env_id) then
         v ← env_value "ethact";
         _ ← eth_assign act v;
         eth_assign env_changed_id env_id
       else mret tt);
  a ← eth_var act;
  _ ← match a with
      | None =>
          ethprime ← env_value "ethprime";
          dev ← match ethprime with
                | Some p => eth_get_dev_by_name p
                | None => mret None
                end;
          eth_set_dev dev
      | Some a => dev ← eth_get_dev_by_name a; eth_set_dev dev
      end;
  eth_current_changed.

(** The [do .. while (old_current != current)] loop of [eth_init], for at most
    [fuel] devices. *)
Fixpoint eth_init_loop (fuel : nat) (old_current current : option Z) (ret : Z) : M Z :=
  match fuel with
  | O => λ _, NoFuel
  | S fuel' =>
      r ← match current with
          | None => mret (inl ret)
          | Some dev =>
              active ← gets (λ w, eth_device_active dev (hw w));
              if active : bool then
                ret ← hw_call (eth_ops_start dev);
                if 0 <=? ret then
                  _ ← eth_set_priv_state dev ETH_STATE_ACTIVE;
                  mret (inr 0)
                else mret (inl ret)
              else ret ← eth_var eth_errno; mret (inl ret)
          end;
      match r with
      | inr ret => mret ret
      | inl ret =>
          _ ← eth_try_another false;
          current ← eth_get_dev;
          if bool_decide (old_current = current) then mret ret
          else eth_init_loop fuel' old_current current ret
      end
  end.

Definition eth_init : M Z :=
  ethact ← env_value "ethact";
  ethrotate ← env_value "ethrotate";
  r ← match ethact with
      | Some a =>
          if rotate_is_no ethrotate then
            dev ← eth_get_dev_by_name a;
            mret (match dev with Some d => inl (Some d) | None => inr (- EINVAL) end)
          else mret (inl None)
      | None => mret (inl None)
      end;
  match r with
  | inr ret => mret ret
  | inl current =>
      current ← match current with Some d => mret (Some d) | None => eth_get_dev end;
      match current with
      | None => _ ← printf ("No ethernet found." +:+ newline) []; mret (- ENODEV)
      | Some dev =>
          devs ← gets (λ w, uclass_eth_devs (hw w));
          eth_init_loop (S (length devs)) (Some dev) (Some dev) (- ENODEV)
      end
  end.

Definition eth_halt : M unit :=
  cur ← eth_get_dev;
  match cur with
  | None => mret tt
  | Some dev =>
      active ← eth_is_active dev;
      if active : bool then
        _ ← hw_do (eth_ops_stop dev);
        eth_set_priv_state dev ETH_STATE_PASSIVE
      else mret tt
  end.

Definition eth_send (packet : list Z) : M Z :=
  cur ← eth_get_dev;
  match cur with
  | None => mret (- ENODEV)
  | Some dev =>
      active ← eth_is_active dev;
      if active : bool then hw_call (eth_ops_send dev packet) else mret (- EINVAL)
  end.

(** The [for] loop of [eth_rx]; [process] is [net_process_received_packet],
    which leaves the packet as it has rewritten it. *)
Fixpoint eth_rx_loop (n : nat) (process : list Z → Z → M (list Z)) (dev flags ret : Z) : M Z :=
  match n with
  | O => mret ret
  | S n' =>
      '(ret, packet) ← hw_call (eth_ops_recv dev flags);
      packet ← (if 0 <? ret then process packet ret else mret packet);
      _ ← match eth_ops_free_pkt dev with
          | Some f => if 0 <=? ret then hw_do (f packet ret) else mret tt
          | None => mret tt
          end;
      if ret <=? 0 then mret ret else eth_rx_loop n' process dev 0 ret
  end.

Definition eth_rx (process : list Z → Z → M (list Z)) : M Z :=
  cur ← eth_get_dev;
  match cur with
  | None => mret (- ENODEV)
  | Some dev =>
      active ← eth_is_active dev;
      if active : bool then
        ret ← eth_rx_loop 32 process dev ETH_RECV_CHECK_DEVICE 0;
        mret (if ret =? - EAGAIN then 0 else ret)
      else mret (- EINVAL)
  end.
End eth_uclass.
Arguments eth_assign {_ _} _ {_} _.
