(* ===== verification/EthMac.v ===== *)
(** The address of an Ethernet device: how it is found when the device is
    probed, and how it is kept in the environment.  [net/eth-uclass.c],
    [net/eth_common.c], [cmd/nvedit.c] and [include/net.h], built with
    [CONFIG_OF_CONTROL] and [CONFIG_MII], without [CONFIG_NET_RANDOM_ETHADDR]
    and [CONFIG_NEEDS_MANUAL_RELOC]. *)

From stdpp Require Import pretty.
From S2P Require Import Prelude CLib Vsprintf VsprintfFacts Machine Events I2cUclass EthUclass.
From S2P Require Import NetUtils Mii.

Notation EEXIST := 17%Z (only parsing).

(** What the driver model and the drivers provide for it: the platform data in
    which the address is kept, the property of the device-tree node, the two
    optional methods, and the walk over the devices that reports the devices
    which do not probe too. *)
Class EthPlat (HW : Type) := {
  set_enetaddr : Z → list Z → HW → HW;
  dev_read_u8_array_ptr : Z → string → Z → HW → option (list Z);
  eth_ops_write_hwaddr : Z → option (HW → Z * HW);
  eth_ops_read_rom_hwaddr : Z → option (HW → Z * HW);
  uclass_find_eth_by_seq : Z → HW → option Z;
  uclass_first_eth_check : HW → option Z * HW;
  uclass_next_eth_check : Z → HW → option Z * HW;
  phy_init : HW → HW;
}.

(** * Addresses *)

(** A byte of the six of an address. *)
Definition octet (addr : list Z) (i : nat) : Z := default 0 (addr !! i).

Definition is_zero_ethaddr (addr : list Z) : bool :=
  negb (nonzero (Z.lor (Z.lor (Z.lor (Z.lor (Z.lor (octet addr 0) (octet addr 1)) (octet addr 2))
    (octet addr 3)) (octet addr 4)) (octet addr 5))).
Definition is_multicast_ethaddr (addr : list Z) : bool := nonzero (Z.land 0x01 (octet addr 0)).
Definition is_broadcast_ethaddr (addr : list Z) : bool :=
  Z.land (Z.land (Z.land (Z.land (Z.land (octet addr 0) (octet addr 1)) (octet addr 2))
    (octet addr 3)) (octet addr 4)) (octet addr 5) =? 0xff.
Definition is_valid_ethaddr (addr : list Z) : bool :=
  negb (is_multicast_ethaddr addr) && negb (is_zero_ethaddr addr).

Section eth_mac.
Context {HW : Type} `{!Env HW} `{!EthDriver HW} `{!EthPlat HW}.
Notation M := (M (world HW)).

(** * The variables *)

(** The address that is read, and whether it is valid. *)
Definition eth_env_get_enetaddr (name : string) : M (bool * list Z) :=
  v ← env_value name;
  let enetaddr := string_to_enetaddr v in
  mret (is_valid_ethaddr enetaddr, enetaddr).

Definition eth_env_set_enetaddr (name : string) (enetaddr : list Z) : M Z :=
  '(valid, _) ← eth_env_get_enetaddr name;
  if valid : bool then mret (- EEXIST)
  else
    buf ← sprintf_to 18 "%pM" [VPtr 1 enetaddr];
    hw_call (env_set name (Some buf)).

(** [sprintf(enetvar, ...)] *)
Definition enetaddr_var (base_name : string) (index : Z) : M string :=
  sprintf_to 32 (if nonzero index then "%s%daddr" else "%saddr") [VStr (Some base_name); VInt index].

Definition eth_env_get_enetaddr_by_index (base_name : string) (index : Z) : M (bool * list Z) :=
  enetvar ← enetaddr_var base_name index;
  eth_env_get_enetaddr enetvar.

Definition eth_env_set_enetaddr_by_index (base_name : string) (index : Z) (enetaddr : list Z) : M Z :=
  enetvar ← enetaddr_var base_name index;
  eth_env_set_enetaddr enetvar enetaddr.

Definition eth_mac_skip (index : Z) : M bool :=
  enetvar ← sprintf_to 15 (if nonzero index then "eth%dmacskip" else "ethmacskip") [VInt index];
  skip_state ← env_value enetvar;
  mret (match skip_state with Some _ => true | None => false end).

(** * The device *)

(** [pdata->enetaddr] *)
Definition pdata_enetaddr (dev : Z) : M (list Z) := gets (λ w, enetaddr dev (hw w)).
Definition device_seq (dev : Z) : M Z := gets (λ w, eth_dev_seq dev (hw w)).

Definition eth_write_hwaddr (dev : option Z) : M Z :=
  match dev with
  | None => mret (- EINVAL)
  | Some dev =>
      active ← gets (λ w, eth_device_active dev (hw w));
      if negb active then mret (- EINVAL)
      else
        match eth_ops_write_hwaddr dev with
        | None => mret 0
        | Some write_hwaddr =>
            seq ← device_seq dev;
            skip ← eth_mac_skip seq;
            if skip : bool then mret 0
            else
              mac ← pdata_enetaddr dev;
              if negb (is_valid_ethaddr mac) then
                _ ← printf (newline +:+ "Error: %s address %pM illegal value" +:+ newline)
                      [VStr (Some (eth_dev_name dev)); VPtr 1 mac];
                mret (- EINVAL)
              else
                ret ← hw_call write_hwaddr;
                let ret := if ret =? - ENOSYS then 0 else ret in
                _ ← (if nonzero ret then
                       printf (newline +:+ "Warning: %s failed to set MAC address" +:+ newline)
                         [VStr (Some (eth_dev_name dev))]
                     else mret tt);
                mret ret
        end
  end.

(** [name + 3] is the text after [eth]. *)
Definition on_ethaddr (name : string) (value : option string) (op : env_op) (flags : Z) : M Z :=
  let index := sign 32 (simple_strtoul (str_drop 3 name) 10).1 in
  dev ← gets (λ w, uclass_find_eth_by_seq index (hw w));
  match dev with
  | None => mret 0
  | Some dev =>
      _ ← match op with
          | env_op_create | env_op_overwrite =>
              _ ← hw_do (set_enetaddr dev (string_to_enetaddr value));
              _ ← eth_write_hwaddr (Some dev);
              mret tt
          | env_op_delete => hw_do (set_enetaddr dev (replicate 6 0))
          end;
      mret 0
  end.

Definition eth_init_state_only : M Z :=
  current ← eth_get_dev;
  match current with
  | None => mret (- EINVAL)
  | Some dev =>
      active ← gets (λ w, eth_device_active dev (hw w));
      if negb active then mret (- EINVAL)
      else _ ← eth_set_priv_state dev ETH_STATE_ACTIVE; mret 0
  end.

Definition eth_halt_state_only : M unit :=
  current ← eth_get_dev;
  match current with
  | None => mret tt
  | Some dev =>
      active ← gets (λ w, eth_device_active dev (hw w));
      if negb active then mret tt else eth_set_priv_state dev ETH_STATE_PASSIVE
  end.

Definition eth_post_bind (dev : Z) : M Z :=
  match strchr (eth_dev_name dev) " " with
  | Some _ =>
      _ ← printf (newline +:+ "Error: eth device name " +:+ quote +:+ "%s" +:+ quote +:+ " has a space!"
                  +:+ newline) [VStr (Some (eth_dev_name dev))];
      mret (- EINVAL)
  | None => mret 0
  end.

Definition eth_pre_unbind (dev : Z) : M Z :=
  current ← eth_var eth_current;
  _ ← (if bool_decide (current = Some dev) then eth_set_dev None else mret tt);
  mret 0.

(** The address in the device tree, copied to the platform data. *)
Definition eth_dev_get_mac_address (dev : Z) : M bool :=
  p ← gets (λ w, dev_read_u8_array_ptr dev "mac-address" 6 (hw w));
  p ← match p with
      | Some _ => mret p
      | None => gets (λ w, dev_read_u8_array_ptr dev "local-mac-address" 6 (hw w))
      end;
  match p with
  | None => mret false
  | Some p => _ ← hw_do (set_enetaddr dev (take 6 p)); mret true
  end.

Definition eth_post_probe (dev : Z) : M Z :=
  _ ← eth_set_priv_state dev ETH_STATE_INIT;
  in_tree ← eth_dev_get_mac_address dev;
  mac ← pdata_enetaddr dev;
  _ ← (if negb in_tree || negb (is_valid_ethaddr mac) then
         match eth_ops_read_rom_hwaddr dev with
         | Some read_rom_hwaddr => _ ← hw_call read_rom_hwaddr; mret tt
         | None => mret tt
         end
       else mret tt);
  seq ← device_seq dev;
  '(_, env_enetaddr) ← eth_env_get_enetaddr_by_index "eth" seq;
  mac ← pdata_enetaddr dev;
  ret ← (if negb (is_zero_ethaddr env_enetaddr) then
           _ ← (if negb (is_zero_ethaddr mac) && negb (bool_decide (memcmp mac env_enetaddr 6 = Some 0)) then
                  _ ← printf (newline +:+ "Warning: %s MAC addresses don't match:" +:+ newline)
                        [VStr (Some (eth_dev_name dev))];
                  _ ← printf ("Address in ROM is          %pM" +:+ newline) [VPtr 1 mac];
                  printf ("Address in environment is  %pM" +:+ newline) [VPtr 1 env_enetaddr]
                else mret tt);
           _ ← hw_do (set_enetaddr dev env_enetaddr);
           mret None
         else if is_valid_ethaddr mac then
           _ ← eth_env_set_enetaddr_by_index "eth" seq mac;
           _ ← printf (newline +:+ "Warning: %s using MAC address from ROM" +:+ newline)
                 [VStr (Some (eth_dev_name dev))];
           mret None
         else
           _ ← printf (newline +:+ "Error: %s address not set." +:+ newline)
                 [VStr (Some (eth_dev_name dev))];
           mret (Some (- EINVAL)));
  match ret with
  | Some ret => mret ret
  | None => _ ← eth_write_hwaddr (Some dev); mret 0
  end.

Definition eth_pre_remove (dev : Z) : M Z :=
  _ ← hw_do (eth_ops_stop dev);
  _ ← hw_do (set_enetaddr dev (replicate 6 0));
  mret 0.

(** * Start-up *)

Definition eth_common_init : M unit := _ ← miiphy_init; hw_do phy_init.

(** The [do .. while (dev)] loop, for at most [fuel] devices. *)
Fixpoint eth_scan (fuel : nat) (ethprime : option string) (prime_dev : option Z) (dev : Z)
    (num_devices : Z) : M Z :=
  match fuel with
  | O => λ _, NoFuel
  | S fuel' =>
      seq ← device_seq dev;
      _ ← (if negb (seq =? -1) then
             _ ← (if nonzero num_devices then printf ", " [] else mret tt);
             _ ← printf "eth%d: %s" [VInt seq; VStr (Some (eth_dev_name dev))];
             if match ethprime with Some _ => bool_decide (prime_dev = Some dev) | None => false end
             then printf " [PRIME]" [] else mret tt
           else mret tt);
      _ ← eth_write_hwaddr (Some dev);
      seq ← device_seq dev;
      let num_devices := if negb (seq =? -1) then num_devices + 1 else num_devices in
      next ← hw_call (uclass_next_eth_check dev);
      match next with
      | None => mret num_devices
      | Some dev => eth_scan fuel' ethprime prime_dev dev num_devices
      end
  end.

Definition eth_initialize : M Z :=
  _ ← eth_common_init;
  dev ← hw_call uclass_first_eth_check;
  match dev with
  | None => _ ← printf ("No ethernet found." +:+ newline) []; mret 0
  | Some dev =>
      ethprime ← env_value "ethprime";
      prime_dev ← match ethprime with Some p => eth_get_dev_by_name p | None => mret None end;
      _ ← match prime_dev with
          | Some _ => _ ← eth_set_dev prime_dev; eth_current_changed
          | None => eth_set_dev None
          end;
      devs ← gets (λ w, uclass_eth_devs (hw w));
      num_devices ← eth_scan (length devs) ethprime prime_dev dev 0;
      _ ← (if nonzero num_devices then mret tt else printf ("No ethernet found." +:+ newline) []);
      _ ← puts newline;
      mret num_devices
  end.
End eth_mac.

(** * The address in text *)

Lemma hex_octet b :
  0 ≤ b < 256 → ∃ hi lo, hex_byte_pack b = Some (String hi (String lo "")) ∧
    no_nul (String hi (String lo "")) ∧
    (∀ r, simple_strtoul (String hi (String lo (String ":" r))) 16 = (b, String ":" r)) ∧
    simple_strtoul (String hi (String lo "")) 16 = (b, "").
Proof.
  intros Hb. pattern b. revert b Hb.
  assert (Forall (λ b, ∃ hi lo, hex_byte_pack b = Some (String hi (String lo "")) ∧
    no_nul (String hi (String lo "")) ∧
    (∀ r, simple_strtoul (String hi (String lo (String ":" r))) 16 = (b, String ":" r)) ∧
    simple_strtoul (String hi (String lo "")) 16 = (b, "")) (seqZ 0 256)) as H.
  { change (seqZ 0 256) with (ltac:(let l := eval vm_compute in (seqZ 0 256) in exact l)).
    repeat (apply Forall_cons_2; [by eexists _, _|]). by apply Forall_nil_2. }
  intros b Hb. rewrite Forall_forall in H. apply H, elem_of_seqZ. lia.
Qed.

(** The text of an address, byte by byte. *)
Lemma mac_text mac :
  mac ≠ [] → bytes_ok mac →
  ∃ text, mac_loop (length mac) 0 mac = Some text ∧ no_nul text ∧
    slen text = 3 * Z.of_nat (length mac) - 1 ∧ enetaddr_loop (length mac) (Some text) = mac.
Proof.
  induction mac as [|b mac IH]; [done|]. intros _ [Hb Hmac]%Forall_cons.
  destruct (hex_octet b Hb) as (hi & lo & Hp & Hn & Hcolon & Hend).
  cbn [length mac_loop enetaddr_loop]. rewrite Hp. cbn [mbind option_bind].
  destruct mac as [|b' mac].
  - exists (String hi (String lo "")). split_and!; [done..|]. rewrite Hend. by rewrite wrap8_small by lia.
  - destruct IH as (text & -> & Ht & Hl & Hparse); [done..|].
    exists (String hi (String lo "") +:+ ":" +:+ text). split_and!; [done| | |].
    + apply no_nul_app; [done|]. by apply no_nul_app.
    + rewrite !slen_app, Hl. cbn [length]. change (slen (String hi (String lo ""))) with 2.
      change (slen ":") with 1. lia.
    + cbn [String.append]. rewrite Hcolon. change (skip_sep (String ":" text)) with text.
      by rewrite Hparse, wrap8_small by lia.
Qed.

(** Printing an address with [%pM] and parsing the text gives it back. *)
Lemma mac_print_parse p mac :
  length mac = 6%nat → bytes_ok mac →
  ∃ text, format "%pM" [VPtr p mac] = Some text ∧ no_nul text ∧ slen text = 17 ∧
    string_to_enetaddr (Some text) = mac.
Proof.
  intros Hl Hb. destruct (mac_text mac) as (text & Ht & Hn & Hlen & Hparse);
    [by destruct mac|done|]. rewrite Hl in *. exists text. split_and!; [|done|done|exact Hparse].
  unfold format. change (c_str "%pM") with "%pM". change (S (String.length "%pM")) with 4%nat.
  cbn [vformat]. change (Ascii.eqb "%" "%") with true. cbv iota.
  change (conv_spec "pM" [VPtr p mac]) with
    (s ← mac_address_string mac (-1) (-1) 0; Some (s, "", @nil va_arg)).
  unfold mac_address_string. rewrite Ht. cbn [mbind option_bind]. rewrite string_plain by done.
  cbn [vformat]. by rewrite ?str_app_nil_r.
Qed.

(** * Probing *)

(** The variables of device [n]. *)
Definition mac_var (n : Z) : string := if n =? 0 then "ethaddr" else "eth" +:+ pretty n +:+ "addr".
Definition skip_var (n : Z) : string := if n =? 0 then "ethmacskip" else "eth" +:+ pretty n +:+ "macskip".

Lemma var_names n :
  0 ≤ n < 100 →
  (format (if nonzero n then "%s%daddr" else "%saddr") [VStr (Some "eth"); VInt n] = Some (mac_var n) ∧
     no_nul (mac_var n) ∧ slen (mac_var n) < 15) ∧
  (format (if nonzero n then "eth%dmacskip" else "ethmacskip") [VInt n] = Some (skip_var n) ∧
     no_nul (skip_var n) ∧ slen (skip_var n) < 15).
Proof.
  intros Hn. pattern n. revert n Hn.
  match goal with |- ∀ n, _ → ?P n => assert (Forall P (seqZ 0 100)) as H end.
  { change (seqZ 0 100) with (ltac:(let l := eval vm_compute in (seqZ 0 100) in exact l)).
    repeat (apply Forall_cons_2; [vm_compute; split_and!; reflexivity|]). by apply Forall_nil_2. }
  intros n Hn. rewrite Forall_forall in H. apply H, elem_of_seqZ. lia.
Qed.

Lemma enetaddr_bytes s : length (string_to_enetaddr s) = 6%nat ∧ bytes_ok (string_to_enetaddr s).
Proof.
  unfold string_to_enetaddr. generalize 6%nat. intros k. revert s.
  induction k as [|k IH]; intros s; [split; [done|constructor]|]. destruct s as [a|]; cbn [enetaddr_loop].
  - destruct (simple_strtoul a 16) as [v e]. destruct (IH (Some (skip_sep e))) as [Hl Hb].
    split; [cbn; by rewrite Hl|]. constructor; [unfold wrap8; lia|done].
  - destruct (IH None) as [Hl Hb]. split; [cbn; by rewrite Hl|]. by constructor.
Qed.

(** What is relied on for the device [d], whose sequence number is [n], in the
    states [sane]: the platform data and the variable of the address are
    memories, a driver changes neither but the address when it reads its ROM,
    and when the callback of the variable sets the address, it sets it to the
    value of the variable. *)
Class MacStore {HW} `{!Env HW} `{!EthDriver HW} `{!EthPlat HW} (sane : HW → Prop) (d n : Z) : Prop := {
  store_seq h : sane h → eth_dev_seq d h = n;
  store_mac h : sane h → length (enetaddr d h) = 6%nat ∧ bytes_ok (enetaddr d h);
  store_set m h : sane h → length m = 6%nat → bytes_ok m →
    sane (set_enetaddr d m h) ∧ enetaddr d (set_enetaddr d m h) = m;
  store_set_env m h : sane h → env_get (mac_var n) (set_enetaddr d m h) = env_get (mac_var n) h;
  store_tree prop h p : sane h → dev_read_u8_array_ptr d prop 6 h = Some p → (6 ≤ length p)%nat ∧ bytes_ok p;
  store_rom f h : sane h → eth_ops_read_rom_hwaddr d = Some f →
    sane (f h).2 ∧ env_get (mac_var n) (f h).2 = env_get (mac_var n) h;
  store_write f h : sane h → eth_ops_write_hwaddr d = Some f →
    sane (f h).2 ∧ enetaddr d (f h).2 = enetaddr d h ∧ env_get (mac_var n) (f h).2 = env_get (mac_var n) h;
  store_env text h : sane h → no_nul text → slen text = 17 →
    let h' := (env_set (mac_var n) (Some text) h).2 in
    sane h' ∧ env_get (mac_var n) h' = Some text ∧
    (enetaddr d h' = enetaddr d h ∨ enetaddr d h' = string_to_enetaddr (Some text));
}.

Section probe.
Context {HW : Type} `{!Env HW} `{!EthDriver HW} `{!EthPlat HW} {sane : HW → Prop} {d n : Z}
  `{Hstore : !MacStore sane d n}
  (Hn : 0 ≤ n < 100).
Notation world := (world HW).
Notation M := (M world).
Implicit Types w : world.

(** The address and the variables are as they were. *)
Definition same_mac (h h' : HW) : Prop :=
  sane h' ∧ enetaddr d h' = enetaddr d h ∧ env_get (mac_var n) h' = env_get (mac_var n) h.

Lemma wp_mac_var w (Q : string → world → Prop) : Q (mac_var n) w → wp (enetaddr_var "eth" n) Q w.
Proof using Hn.
  intros HQ. destruct (var_names n Hn) as [(Hf & Hnul & Hl) _]. unfold enetaddr_var, wp.
  by rewrite (sprintf_exact _ _ _ (mac_var n)) by (done || (unfold INT_MAX; lia)).
Qed.

Lemma wp_mac_skip w (Q : bool → world → Prop) : (∀ b, Q b w) → wp (eth_mac_skip n) Q w.
Proof using Hn.
  intros HQ. destruct (var_names n Hn) as [_ (Hf & Hnul & Hl)]. unfold eth_mac_skip, env_value.
  apply wp_bind. unfold wp at 1. rewrite (sprintf_exact _ _ _ (skip_var n)) by (done || (unfold INT_MAX; lia)).
  apply wp_bind, wp_gets, wp_ret, HQ.
Qed.

Lemma wp_write_hwaddr w :
  sane (hw w) → wp (eth_write_hwaddr (Some d)) (λ _ w', same_mac (hw w) (hw w')) w.
Proof using Hn Hstore.
  intros Hs. unfold eth_write_hwaddr, device_seq, pdata_enetaddr. apply wp_bind, wp_gets.
  destruct (eth_device_active d (hw w)); cbn [negb]; [|by apply wp_ret].
  destruct (eth_ops_write_hwaddr d) as [f|] eqn:Hf; [|by apply wp_ret].
  apply wp_bind, wp_gets. rewrite (store_seq (hw w) Hs). apply wp_bind, wp_mac_skip. intros [].
  { by apply wp_ret. }
  apply wp_bind, wp_gets. destruct (store_mac (hw w) Hs) as [Hl _]. destruct (is_valid_ethaddr _); cbn [negb].
  - apply wp_bind, wp_hw_call. destruct (store_write f (hw w) Hs Hf) as (Hs' & Hm & He).
    set (r := if _ =? _ then _ else _). clearbody r. apply wp_bind.
    destruct (nonzero r); [apply wp_printf; [done|]; intros s|]; by repeat apply wp_ret.
  - apply wp_bind, wp_printf; [by cbn [kinds map kind_of]; rewrite Hl|]. intros s. by apply wp_ret.
Qed.
(** The address in the device tree when it is valid, the ROM's otherwise. *)
Definition rom_address (h : HW) : list Z :=
  enetaddr d match eth_ops_read_rom_hwaddr d with Some f => (f h).2 | None => h end.
Definition tree_address (h : HW) : option (list Z) :=
  take 6 <$> match dev_read_u8_array_ptr d "mac-address" 6 h with
             | Some p => Some p
             | None => dev_read_u8_array_ptr d "local-mac-address" 6 h
             end.
Definition hw_address (h : HW) : list Z :=
  match tree_address h with
  | Some m => if is_valid_ethaddr m then m else rom_address (set_enetaddr d m h)
  | None => rom_address h
  end.

(** Looking for the address in the hardware. *)
Lemma wp_find_address {A} (k : M A) (Q : A → world → Prop) w :
  sane (hw w) →
  (∀ w', sane (hw w') → enetaddr d (hw w') = hw_address (hw w) → env_get (mac_var n) (hw w') = env_get (mac_var n) (hw w) →
     wp k Q w') →
  wp (in_tree ← eth_dev_get_mac_address d;
      mac ← pdata_enetaddr d;
      _ ← (if negb in_tree || negb (is_valid_ethaddr mac) then
             match eth_ops_read_rom_hwaddr d with
             | Some read_rom_hwaddr => _ ← hw_call read_rom_hwaddr; mret tt
             | None => mret tt
             end
           else mret tt);
      k) Q w.
Proof using Hn Hstore.
  intros Hs Hk. unfold eth_dev_get_mac_address, pdata_enetaddr.
  assert (∀ w1 : world, sane (hw w1) → hw_address (hw w) = rom_address (hw w1) →
    env_get (mac_var n) (hw w1) = env_get (mac_var n) (hw w) →
    wp (_ ← match eth_ops_read_rom_hwaddr d with
            | Some read_rom_hwaddr => _ ← hw_call read_rom_hwaddr; mret tt
            | None => mret tt
            end; k) Q w1) as Hrom.
  { intros w1 Hs1 Hw1 He. apply wp_bind. unfold rom_address in Hw1.
    destruct (eth_ops_read_rom_hwaddr d) as [f|] eqn:Hf; [apply wp_bind, wp_hw_call, wp_ret|apply wp_ret];
      apply Hk; try done; cbn [hw with_hw]; [exact (proj1 (store_rom f (hw w1) Hs1 Hf))|].
    by rewrite (proj2 (store_rom f (hw w1) Hs1 Hf)). }
  apply wp_bind, wp_bind, wp_gets. unfold hw_address, tree_address in *.
  set (q := match dev_read_u8_array_ptr d "mac-address" 6 (hw w) with Some p => Some p | None => _ end) in *.
  apply wp_bind. eapply wp_mono with (P := λ p w', p = q ∧ w' = w).
  { unfold q. destruct (dev_read_u8_array_ptr d "mac-address" 6 (hw w)); [by apply wp_ret|by apply wp_gets]. }
  intros p w' [-> ->].
  assert (∀ p, q = Some p → (6 ≤ length p)%nat ∧ bytes_ok p) as Hq.
  { unfold q. intros p Hp. destruct (dev_read_u8_array_ptr d "mac-address" 6 (hw w)) eqn:H1;
      [injection Hp as <-|]; by eapply (store_tree _ _ _ Hs). }
  destruct q as [p|]; cbn [fmap option_fmap option_map] in *.
  - apply wp_bind, wp_hw_do, wp_ret, wp_bind, wp_gets. cbn [hw with_hw negb orb].
    destruct (Hq p eq_refl) as [Hlong Hbytes].
    assert (length (take 6 p) = 6%nat) as Hl by (rewrite length_take; lia).
    assert (bytes_ok (take 6 p)) by by apply Forall_take.
    destruct (store_set (take 6 p) (hw w)) as [Hs' Hset]; [done..|]. rewrite Hset.
    destruct (is_valid_ethaddr (take 6 p)); cbn [negb].
    + apply wp_bind, wp_ret, Hk; cbn [hw with_hw]; [done|done|].
      by rewrite store_set_env.
    + apply Hrom; [done|done|]. cbn [hw with_hw]. by rewrite store_set_env.
  - apply wp_ret, wp_bind, wp_gets. cbn [negb orb]. by apply Hrom.
Qed.

(** After a successful probe. *)
Lemma wp_finish_probe r w (Q : Z → world → Prop) :
  sane (hw w) → (∀ w', same_mac (hw w) (hw w') → Q r w') →
  wp (_ ← eth_write_hwaddr (Some d); mret r) Q w.
Proof using Hn Hstore.
  intros Hs HQ. apply wp_bind. eapply wp_mono; [by apply wp_write_hwaddr|]. intros u w' Hw. by apply wp_ret, HQ.
Qed.

(** What a probe leaves: the address of the environment, or the one found in
    the hardware, which is then in the environment too. *)
Definition probed (h : HW) (r : Z) (h' : HW) : Prop :=
  let env := string_to_enetaddr (env_get (mac_var n) h) in
  if negb (is_zero_ethaddr env) then
    r = 0 ∧ enetaddr d h' = env ∧ string_to_enetaddr (env_get (mac_var n) h') = env
  else if is_valid_ethaddr (hw_address h) then
    r = 0 ∧ enetaddr d h' = hw_address h ∧
    string_to_enetaddr (env_get (mac_var n) h') = hw_address h
  else r = - EINVAL.

Lemma valid_not_zero mac : is_valid_ethaddr mac = true → is_zero_ethaddr mac = false.
Proof. unfold is_valid_ethaddr. destruct (is_zero_ethaddr mac); [|done]. by rewrite andb_false_r. Qed.

Lemma wp_eth_post_probe w :
  sane (hw w) → wp (eth_post_probe d) (λ r w', sane (hw w') ∧ probed (hw w) r (hw w')) w.
Proof using Hn Hstore.
  intros Hs. unfold eth_post_probe, eth_set_priv_state, eth_var, eth_assign.
  apply wp_bind, wp_bind, wp_gets, wp_modify. apply wp_find_address; [done|]. cbn [hw with_eth].
  intros w1 Hs1 Hmac Henv. unfold device_seq, pdata_enetaddr.
  apply wp_bind, wp_gets. rewrite (store_seq (hw w1) Hs1).
  unfold eth_env_get_enetaddr_by_index, eth_env_get_enetaddr, env_value.
  apply wp_bind, wp_bind, wp_mac_var, wp_bind, wp_gets, wp_ret. rewrite Henv.
  apply wp_bind, wp_gets. rewrite Hmac. unfold probed.
  assert (length (hw_address (hw w)) = 6%nat ∧ bytes_ok (hw_address (hw w))) as [Hl Hb].
  { rewrite <- Hmac. by apply store_mac. }
  set (env := string_to_enetaddr _). set (mac := hw_address (hw w)) in *. apply wp_bind.
  destruct (is_zero_ethaddr env) eqn:Hz; cbn [negb].
  - destruct (is_valid_ethaddr mac) eqn:Hv.
    + unfold eth_env_set_enetaddr_by_index, eth_env_set_enetaddr, eth_env_get_enetaddr, env_value.
      apply wp_bind, wp_bind, wp_mac_var, wp_bind, wp_bind, wp_gets, wp_ret. rewrite Henv. fold env.
      unfold is_valid_ethaddr at 1. rewrite Hz, andb_false_r. apply wp_bind.
      destruct (mac_print_parse 1 mac Hl Hb) as (text & Hf & Hnul & Hlen & Hparse). unfold wp at 1.
      rewrite (sprintf_exact _ _ _ text) by (done || (unfold INT_MAX; lia)). apply wp_hw_call.
      apply wp_bind, wp_printf; [done|]. intros s. apply wp_ret. cbv iota.
      destruct (store_env text (hw w1)) as (Hs2 & Henv2 & Hcb); [done..|].
      apply wp_finish_probe; [done|]. intros w' (Hs' & Hm & He). cbn [hw emit with_console with_hw] in *.
      split_and!; [done|done| |by rewrite He, Henv2].
      rewrite Hm. destruct Hcb as [-> | ->]; [exact Hmac|done].
    + apply wp_bind, wp_printf; [done|]. intros s. by repeat apply wp_ret.
  - destruct (enetaddr_bytes (env_get (mac_var n) (hw w))) as [Hle Hbe]. fold env in Hle, Hbe. apply wp_bind.
    assert (∀ w', sane (hw w') → env_get (mac_var n) (hw w') = env_get (mac_var n) (hw w) →
      wp (_ ← hw_do (set_enetaddr d env); mret None) (λ ret w2,
        wp match ret with Some ret => mret ret | None => _ ← eth_write_hwaddr (Some d); mret 0 end
          (λ r w3, sane (hw w3) ∧ r = 0 ∧ enetaddr d (hw w3) = env ∧
             string_to_enetaddr (env_get (mac_var n) (hw w3)) = env) w2) w') as Hend.
    { intros w' Hs' He'. destruct (store_set env (hw w')) as [Hss Hset]; [done..|].
      apply wp_bind, wp_hw_do, wp_ret, wp_finish_probe; [done|]. intros w3 (Hs3 & Hm & He).
      cbn [hw with_hw] in *. by rewrite Hm, He, store_set_env, He' by done. }
    destruct (negb (is_zero_ethaddr mac) && _); [|by apply wp_ret, Hend].
    apply wp_bind, wp_printf; [done|]. intros s1.
    apply wp_bind, wp_printf; [by cbn [kinds map kind_of]; rewrite Hl|]. intros s2.
    apply wp_printf; [by cbn [kinds map kind_of]; rewrite Hle|]. intros s3. by apply Hend.
Qed.
(** Once an address is in the environment, it is the address of every later
    probe. *)
Lemma probed_again h0 h1 h2 h3 r :
  probed h0 0 h1 → env_get (mac_var n) h2 = env_get (mac_var n) h1 → probed h2 r h3 →
  r = 0 ∧ enetaddr d h3 = enetaddr d h1.
Proof.
  unfold probed. intros H1 ->. destruct (is_zero_ethaddr (string_to_enetaddr (env_get (mac_var n) h0))) eqn:Hz;
    cbn [negb] in H1.
  - destruct (is_valid_ethaddr (hw_address h0)) eqn:Hv; [|done]. destruct H1 as (_ & -> & ->).
    rewrite valid_not_zero by done. by intros (? & ? & _).
  - destruct H1 as (_ & -> & ->). rewrite Hz. by intros (? & ? & _).
Qed.
End probe.

(** C35. Probing an Ethernet device returns; its address is the one of the
    environment, or else the valid one that the device tree or the ROM holds,
    which is then stored in the environment, or else the probe fails.  Whatever
    the hardware holds later, the next probe gives the same address. *)
Theorem eth_probe_address {HW} `{!Env HW} `{!EthDriver HW} `{!EthPlat HW} sane d n (w : world HW) :
  MacStore sane d n → 0 ≤ n < 100 → sane (hw w) →
  ∃ r w1, eth_post_probe d w = Ret r w1 ∧ sane (hw w1) ∧ probed (d := d) (n := n) (hw w) r (hw w1) ∧
    (r = 0 → ∀ w2, sane (hw w2) → env_get (mac_var n) (hw w2) = env_get (mac_var n) (hw w1) →
       ∃ w3, eth_post_probe d w2 = Ret 0 w3 ∧ enetaddr d (hw w3) = enetaddr d (hw w1)).
Proof.
  intros Hstore Hn Hs. destruct (proj1 (wp_run _ _ _) (wp_eth_post_probe Hn w Hs)) as (r & w1 & Hr & Hs1 & H1).
  exists r, w1. split_and!; [done|done|done|]. intros -> w2 Hs2 He.
  destruct (proj1 (wp_run _ _ _) (wp_eth_post_probe Hn w2 Hs2)) as (r2 & w3 & Hr2 & _ & H3).
  destruct (probed_again _ _ _ _ _ H1 He H3) as [-> Hm]. by exists w3.
Qed.

(** A board with one device: its platform data, its ROM and the environment. *)
Module MacSim.
Record sim := mkSim { sim_mac : list Z; sim_rom : list Z; sim_env : gmap string string }.

Definition six (m : list Z) : list Z := wrap8 <$> take 6 (m ++ replicate 6 0).
#[global] Instance env : Env sim := {|
  env_get v h := sim_env h !! v;
  env_set v t h := (0, mkSim (sim_mac h) (sim_rom h)
    match t with Some t => <[v := t]> (sim_env h) | None => delete v (sim_env h) end);
  env_get_id _ := 0;
|}.
#[global] Instance port : EthDriver sim := {|
  uclass_first_eth h := ((0, Some 0), h);
  uclass_next_eth _ h := ((0, None), h);
  uclass_eth_devs _ := [0];
  eth_device_active _ _ := true;
  eth_device_probe _ h := (0, h);
  eth_dev_name _ := "cpsw";
  eth_dev_seq _ _ := 0;
  enetaddr _ h := six (sim_mac h);
  eth_ops_start _ h := (0, h);
  eth_ops_stop _ h := h;
  eth_ops_send _ _ h := (0, h);
  eth_ops_recv _ _ h := ((- EAGAIN, []), h);
  eth_ops_free_pkt _ := None;
|}.
#[global] Instance plat : EthPlat sim := {|
  set_enetaddr _ m h := mkSim m (sim_rom h) (sim_env h);
  dev_read_u8_array_ptr _ _ _ _ := None;
  eth_ops_write_hwaddr _ := Some (λ h, (0, h));
  eth_ops_read_rom_hwaddr _ := Some (λ h, (0, mkSim (sim_rom h) (sim_rom h) (sim_env h)));
  uclass_find_eth_by_seq k _ := if k =? 0 then Some 0 else None;
  uclass_first_eth_check h := (Some 0, h);
  uclass_next_eth_check _ h := (None, h);
  phy_init h := h;
|}.

Lemma six_bytes m : length (six m) = 6%nat ∧ bytes_ok (six m).
Proof.
  unfold six. split.
  - rewrite length_fmap, length_take, length_app, length_replicate. lia.
  - apply Forall_forall. intros b (x & -> & _)%list_elem_of_fmap. unfold wrap8. lia.
Qed.

Lemma six_id m : length m = 6%nat → bytes_ok m → six m = m.
Proof.
  intros Hl Hb. unfold six. rewrite take_app_le, firstn_all2 by lia.
  rewrite <- (list_fmap_id m) at 2. apply list_fmap_ext. intros i x Hx. unfold bytes_ok in Hb.
  rewrite Forall_lookup in Hb. apply wrap8_small. by eapply Hb.
Qed.

#[global] Instance store : MacStore (λ _, True) 0 0.
Proof.
  split; try done; cbn.
  - intros h _. apply six_bytes.
  - intros m h _ Hl Hb. split; [done|]. by apply six_id.
  - by intros f h _ [= <-].
  - by intros f h _ [= <-].
  - intros text h _ _ _. split_and!; [done|by rewrite lookup_insert_eq|by left].
Qed.
End MacSim.

Lemma eth_probe_address_witness :
  let w := boot_world (MacSim.mkSim [] [0x64; 0x70; 0x60; 1; 2; 3] ∅) in
  ∃ w1, eth_post_probe 0 w = Ret 0 w1 ∧
    string_to_enetaddr (env_get "ethaddr" (hw w1)) = [0x64; 0x70; 0x60; 1; 2; 3] ∧
    ∀ w2, env_get "ethaddr" (hw w2) = env_get "ethaddr" (hw w1) →
      ∃ w3, eth_post_probe 0 w2 = Ret 0 w3 ∧ enetaddr 0 (hw w3) = [0x64; 0x70; 0x60; 1; 2; 3].
Proof.
  intros w. destruct (eth_probe_address (λ _, True) 0 0 w MacSim.store ltac:(lia) I) as (r & w1 & Hr & _ & Hp & Hagain).
  destruct Hp as (-> & Hm & Hs). exists w1. split; [exact Hr|]. split.
  - exact Hs.
  - intros w2 He. destruct (Hagain eq_refl w2 I He) as (w3 & Hr3 & H3). exists w3. split; [exact Hr3|].
    rewrite H3. exact Hm.
Defined.
