(* ===== verification/NetCore.v ===== *)
(** The network stack as [net_loop(PING)] uses it: [net/net.c], [net/arp.c],
    [net/ping.c] and the inline functions of [include/net.h], built with
    [CONFIG_CMD_PING] and without [CONFIG_IP_DEFRAG], [CONFIG_NETCONSOLE],
    [CONFIG_CMD_TFTPPUT], [CONFIG_CMD_CDP], [CONFIG_CMD_RARP] and
    [CONFIG_UDP_CHECKSUM].  The hook [push_packet] of an EFI application is
    not set.

    The three packet buffers ([net_rx_packet], [net_tx_packet] and
    [arp_tx_packet]) are byte lists; a pointer into one of them is an offset,
    and an access outside of it is a fault.  [ulong] is 32 bits wide, and so
    is the unsigned type in which a length is compared with a [sizeof]. *)

From S2P Require Import Prelude CLib Vsprintf VsprintfFacts Machine Events I2cUclass EthUclass.
From S2P Require Import NetUtils.

(** * Sizes and codes of [include/net.h] *)

Notation PKTSIZE_ALIGN := 1536%Z (only parsing).
Notation ARP_HLEN := 6%Z (only parsing).
Notation ARP_PLEN := 4%Z (only parsing).
Notation ETHER_HDR_SIZE := 14%Z (only parsing).
Notation VLAN_ETHER_HDR_SIZE := 18%Z (only parsing).
Notation E802_HDR_SIZE := 22%Z (only parsing).
Notation IP_HDR_SIZE := 20%Z (only parsing).
Notation IP_UDP_HDR_SIZE := 28%Z (only parsing).
Notation UDP_HDR_SIZE := 8%Z (only parsing).
Notation ICMP_HDR_SIZE := 8%Z (only parsing).
Notation IP_ICMP_HDR_SIZE := 28%Z (only parsing).
Notation ARP_HDR_SIZE := 28%Z (only parsing).
Notation PROT_IP := 0x0800%Z (only parsing).
Notation PROT_ARP := 0x0806%Z (only parsing).
Notation PROT_VLAN := 0x8100%Z (only parsing).
Notation IPPROTO_ICMP := 1%Z (only parsing).
Notation IPPROTO_UDP := 17%Z (only parsing).
Notation IP_OFFS := 0x1fff%Z (only parsing).
Notation IP_FLAGS_DFRAG := 0x4000%Z (only parsing).
Notation IP_FLAGS_MFRAG := 0x2000%Z (only parsing).
Notation ARP_ETHER := 1%Z (only parsing).
Notation ARPOP_REQUEST := 1%Z (only parsing).
Notation ARPOP_REPLY := 2%Z (only parsing).
Notation ICMP_ECHO_REPLY := 0%Z (only parsing).
Notation ICMP_REDIRECT := 5%Z (only parsing).
Notation ICMP_ECHO_REQUEST := 8%Z (only parsing).
Notation ICMP_REDIR_HOST := 1%Z (only parsing).
Notation VLAN_NONE := 4095%Z (only parsing).
Notation VLAN_IDMASK := 0x0fff%Z (only parsing).
Notation EINTR := 4%Z (only parsing).
Notation H_PROGRAMMATIC := 0x200%Z (only parsing).
Notation ENONET := 64%Z (only parsing).

(** [ARP_TIMEOUT]; [ARP_TIMEOUT_COUNT] is [CONFIG_NET_RETRY_COUNT]. *)
Definition ARP_TIMEOUT : Z := 5000.
Definition ARP_TIMEOUT_COUNT : Z := 10.
Notation CONFIG_SYS_HZ := 1000%Z (only parsing).

(** The longest run of the packet loop that is followed. *)
Definition NET_ROUNDS : positive := 10 ^ 10.

(** The console's input. *)
Class Keyboard (HW : Type) := {
  tstc : HW → bool * HW;
  getc : HW → Z * HW;
}.

(** [htons], [ntohs] on a little-endian machine. *)
Definition htons (x : Z) : Z := wrap16 (Z.shiftl x 8 + Z.land (Z.shiftr x 8) 0xff).

(** The bytes of a little-endian word in memory, and back. *)
Definition le16 (x : Z) : list Z := [wrap8 x; wrap8 (Z.shiftr x 8)].
Definition le32 (x : Z) : list Z :=
  [wrap8 x; wrap8 (Z.shiftr x 8); wrap8 (Z.shiftr x 16); wrap8 (Z.shiftr x 24)].
Fixpoint le_word (bytes : list Z) : Z :=
  match bytes with [] => 0 | b :: bytes' => b + 256 * le_word bytes' end.

Definition net_bcast_ethaddr : list Z := replicate 6 0xff.
Definition net_null_ethaddr : list Z := replicate 6 0.

(** The packet buffers. *)
Inductive pkt_buf := RX | TX | ARP_TX.

Section net.
Context {HW : Type} `{!Env HW} `{!EthDriver HW} `{!Timer HW} `{!Keyboard HW}.
Notation M := (M (world HW)).

(** * Variables and memory *)

Definition net_var {A} (field : net_globals → A) : M A := gets (λ w, field (net w)).
Definition net_assign {A} (field : net_globals → A) `{!FieldUpdate field} (v : A) : M unit :=
  modify (λ w, with_net (net w <| field := v |>) w).
#[local] Arguments net_assign {_} _ {_} _.

Definition pkt_content (b : pkt_buf) : net_globals → option (list Z) :=
  match b with RX => net_rx_packet | TX => net_tx_packet | ARP_TX => arp_tx_packet end.

Definition pkt_update (b : pkt_buf) (bytes : list Z) : M unit :=
  match b with
  | RX => net_assign net_rx_packet (Some bytes)
  | TX => net_assign net_tx_packet (Some bytes)
  | ARP_TX => net_assign arp_tx_packet (Some bytes)
  end.

(** [n] bytes at [off]. *)
Definition pkt_read (b : pkt_buf) (off n : Z) : M (list Z) :=
  c ← net_var (pkt_content b);
  match c with
  | None => crash NULL_DEREF
  | Some c =>
      if (0 <=? off) && (0 <=? n) && (off + n <=? Z.of_nat (length c))
      then mret (take (Z.to_nat n) (drop (Z.to_nat off) c)) else crash OUT_OF_BOUNDS
  end.

Definition pkt_write (b : pkt_buf) (off : Z) (bytes : list Z) : M unit :=
  c ← net_var (pkt_content b);
  match c with
  | None => crash NULL_DEREF
  | Some c =>
      if (0 <=? off) && (off + Z.of_nat (length bytes) <=? Z.of_nat (length c))
      then pkt_update b (take (Z.to_nat off) c ++ bytes ++ drop (Z.to_nat off + length bytes) c)
      else crash OUT_OF_BOUNDS
  end.

(** A field of a header: a byte, a 16-bit value converted by [ntohs], an
    address as [net_read_ip] gives it. *)
Definition rd8 (b : pkt_buf) (off : Z) : M Z := v ← pkt_read b off 1; mret (le_word v).
Definition rd16 (b : pkt_buf) (off : Z) : M Z := v ← pkt_read b off 2; mret (htons (le_word v)).
Definition net_read_ip (b : pkt_buf) (off : Z) : M Z := v ← pkt_read b off 4; mret (le_word v).

Definition wr8 (b : pkt_buf) (off v : Z) : M unit := pkt_write b off [wrap8 v].
Definition wr16 (b : pkt_buf) (off v : Z) : M unit := pkt_write b off (le16 (htons v)).
Definition net_write_ip (b : pkt_buf) (off ip : Z) : M unit := pkt_write b off (le32 ip).

(** [net_copy_ip] within a packet. *)
Definition net_copy_ip (b : pkt_buf) (to from : Z) : M unit :=
  v ← pkt_read b from 4; pkt_write b to v.

(** [memcpy(to, from, n)] between two buffers. *)
Definition pkt_copy (to from : pkt_buf) (n : Z) : M unit :=
  v ← pkt_read from 0 n; pkt_write to 0 v.

(** * Handlers and headers *)

Definition net_set_state (state : net_loop_state) : M unit := net_assign net_state state.

Definition net_set_udp_handler (f : option rxhand_f) : M unit :=
  net_assign udp_packet_handler (Some (default dummy_handler f)).
Definition net_set_arp_handler (f : option rxhand_f) : M unit :=
  net_assign arp_packet_handler (Some (default dummy_handler f)).

(** Calling a receive handler. *)
Definition run_rxhand (f : option rxhand_f) : M unit :=
  match f with None => crash NULL_DEREF | Some dummy_handler => mret tt end.

Definition net_set_timeout_handler (iv : Z) (f : option thand_f) : M unit :=
  if iv =? 0 then net_assign time_handler None
  else
    _ ← net_assign time_handler f;
    t ← hw_call (get_timer 0);
    _ ← net_assign time_start t;
    net_assign time_delta (wrap32 (iv * CONFIG_SYS_HZ) / 1000).

Definition arp_is_waiting : M bool :=
  ip ← net_var net_arp_wait_packet_ip; mret (nonzero ip).

Definition net_get_async_tx_pkt_buf : M pkt_buf :=
  waiting ← arp_is_waiting; mret (if waiting : bool then ARP_TX else TX).

(** [net_send_packet(pkt, len)] *)
Definition net_send_packet (b : pkt_buf) (len : Z) : M unit :=
  packet ← pkt_read b 0 len; _ ← eth_send packet; mret tt.

(** [ntohs(net_our_vlan)], with [-1] read as [VLAN_NONE]. *)
Definition vlan_id (v : Z) : Z :=
  let id := htons v in if id =? 0xffff then VLAN_NONE else id.

Definition net_set_ether (b : pkt_buf) (dest_ethaddr : list Z) (prot : Z) : M Z :=
  v ← net_var net_our_vlan;
  let myvlanid := vlan_id v in
  _ ← pkt_write b 0 dest_ethaddr;
  mac ← net_var net_ethaddr;
  _ ← pkt_write b 6 mac;
  if Z.land myvlanid VLAN_IDMASK =? VLAN_NONE then
    _ ← wr16 b 12 prot;
    mret ETHER_HDR_SIZE
  else
    _ ← wr16 b 12 PROT_VLAN;
    _ ← wr16 b 14 (Z.land myvlanid VLAN_IDMASK);
    _ ← wr16 b 16 prot;
    mret VLAN_ETHER_HDR_SIZE.

(** [et] is the received packet; [addr] is an offset in it. *)
Definition net_update_ether (addr prot : Z) : M Z :=
  a ← pkt_read RX addr 6;
  _ ← pkt_write RX 0 a;
  mac ← net_var net_ethaddr;
  _ ← pkt_write RX 6 mac;
  protlen ← rd16 RX 12;
  if protlen =? PROT_VLAN then
    _ ← wr16 RX 16 prot;
    mret VLAN_ETHER_HDR_SIZE
  else if protlen >? 1514 then
    _ ← wr16 RX 12 prot;
    mret ETHER_HDR_SIZE
  else
    _ ← wr16 RX 20 prot;
    mret E802_HDR_SIZE.

Definition net_set_ip_header (b : pkt_buf) (pkt dest source pkt_len proto : Z) : M unit :=
  _ ← wr8 b pkt 0x45;
  _ ← wr8 b (pkt + 1) 0;
  _ ← wr16 b (pkt + 2) pkt_len;
  _ ← wr8 b (pkt + 9) proto;
  id ← net_var net_ip_id;
  _ ← net_assign net_ip_id (wrap32 (id + 1));
  _ ← wr16 b (pkt + 4) id;
  _ ← wr16 b (pkt + 6) IP_FLAGS_DFRAG;
  _ ← wr8 b (pkt + 8) 255;
  _ ← pkt_write b (pkt + 10) (le16 0);
  _ ← net_write_ip b (pkt + 12) source;
  _ ← net_write_ip b (pkt + 16) dest;
  hdr ← pkt_read b pkt IP_HDR_SIZE;
  pkt_write b (pkt + 10) (le16 (compute_ip_checksum hdr)).

(** * arp.c *)

Definition arp_init : M unit :=
  _ ← net_assign arp_wait_packet_ethaddr None;
  _ ← net_assign net_arp_wait_packet_ip 0;
  _ ← net_assign net_arp_wait_reply_ip 0;
  _ ← net_assign arp_wait_tx_packet_size 0;
  net_assign arp_tx_packet (Some (replicate (Z.to_nat PKTSIZE_ALIGN) 0)).

Definition arp_raw_request (source_ip : Z) (target_ethaddr : list Z) (target_ip : Z) : M unit :=
  eth_hdr_size ← net_set_ether ARP_TX net_bcast_ethaddr PROT_ARP;
  let arp := eth_hdr_size in
  _ ← wr16 ARP_TX arp ARP_ETHER;
  _ ← wr16 ARP_TX (arp + 2) PROT_IP;
  _ ← wr8 ARP_TX (arp + 4) ARP_HLEN;
  _ ← wr8 ARP_TX (arp + 5) ARP_PLEN;
  _ ← wr16 ARP_TX (arp + 6) ARPOP_REQUEST;
  mac ← net_var net_ethaddr;
  _ ← pkt_write ARP_TX (arp + 8) mac;
  _ ← net_write_ip ARP_TX (arp + 14) source_ip;
  _ ← pkt_write ARP_TX (arp + 18) target_ethaddr;
  _ ← net_write_ip ARP_TX (arp + 24) target_ip;
  net_send_packet ARP_TX (eth_hdr_size + ARP_HDR_SIZE).

Definition arp_request : M unit :=
  wait_ip ← net_var net_arp_wait_packet_ip;
  mask ← net_var net_netmask;
  ip ← net_var net_ip;
  _ ← (if negb (Z.land wait_ip mask =? Z.land ip mask) then
         gw ← net_var net_gateway;
         if gw =? 0 then
           _ ← puts ("## Warning: gatewayip needed but not set" +:+ newline);
           net_assign net_arp_wait_reply_ip wait_ip
         else net_assign net_arp_wait_reply_ip gw
       else net_assign net_arp_wait_reply_ip wait_ip);
  reply_ip ← net_var net_arp_wait_reply_ip;
  arp_raw_request ip net_null_ethaddr reply_ip.

Definition arp_timeout_check : M Z :=
  waiting ← arp_is_waiting;
  if negb waiting then mret 0
  else
    t ← hw_call (get_timer 0);
    since ← net_var arp_wait_timer_start;
    _ ← (if wrap32 (t - since) >? ARP_TIMEOUT then
           try ← net_var arp_wait_try;
           let try := try + 1 in
           _ ← net_assign arp_wait_try try;
           if ARP_TIMEOUT_COUNT <=? try then
             _ ← puts (newline +:+ "ARP Retry count exceeded; starting again" +:+ newline);
             _ ← net_assign arp_wait_try 0;
             net_set_state NETLOOP_FAIL
           else
             _ ← net_assign arp_wait_timer_start t;
             arp_request
         else mret tt);
    mret 1.

(** A request for our address is turned into the reply and sent back. *)
Definition arp_answer (arp : Z) : M unit :=
  eth_hdr_size ← net_update_ether 6 PROT_ARP;
  _ ← wr16 RX (arp + 6) ARPOP_REPLY;
  sha ← pkt_read RX (arp + 8) 6;
  _ ← pkt_write RX (arp + 18) sha;
  _ ← net_copy_ip RX (arp + 24) (arp + 14);
  mac ← net_var net_ethaddr;
  _ ← pkt_write RX (arp + 8) mac;
  ip ← net_var net_ip;
  _ ← net_write_ip RX (arp + 14) ip;
  tx_packet ← net_get_async_tx_pkt_buf;
  _ ← pkt_copy tx_packet RX (eth_hdr_size + ARP_HDR_SIZE);
  net_send_packet tx_packet (eth_hdr_size + ARP_HDR_SIZE).

(** The reply waited for: the waiting packet gets its address and leaves. *)
Definition arp_learn (arp : Z) : M unit :=
  waiting ← arp_is_waiting;
  if negb waiting then mret tt
  else
    reply_ip_addr ← net_read_ip RX (arp + 14);
    expected ← net_var net_arp_wait_reply_ip;
    if reply_ip_addr =? expected then
      sha ← pkt_read RX (arp + 8) 6;
      ether ← net_var arp_wait_packet_ethaddr;
      _ ← match ether with
          | Some _ => net_assign arp_wait_packet_ethaddr (Some sha)
          | None => mret tt
          end;
      h ← net_var arp_packet_handler;
      _ ← run_rxhand h;
      _ ← pkt_write TX 0 sha;
      size ← net_var arp_wait_tx_packet_size;
      _ ← net_send_packet TX size;
      _ ← net_assign net_arp_wait_packet_ip 0;
      _ ← net_assign arp_wait_tx_packet_size 0;
      net_assign arp_wait_packet_ethaddr None
    else mret tt.

(** [ip] is the offset of the ARP header in the received packet. *)
Definition arp_receive (ip len : Z) : M unit :=
  let arp := ip in
  if len <? ARP_HDR_SIZE
  then printf ("bad length %d < %d" +:+ newline) [VInt len; VInt ARP_HDR_SIZE]
  else
    hrd ← rd16 RX arp;
    if negb (hrd =? ARP_ETHER) then mret tt
    else
      pro ← rd16 RX (arp + 2);
      if negb (pro =? PROT_IP) then mret tt
      else
        hln ← rd8 RX (arp + 4);
        if negb (hln =? ARP_HLEN) then mret tt
        else
          pln ← rd8 RX (arp + 5);
          if negb (pln =? ARP_PLEN) then mret tt
          else
            our_ip ← net_var net_ip;
            if our_ip =? 0 then mret tt
            else
              tpa ← net_read_ip RX (arp + 24);
              if negb (tpa =? our_ip) then mret tt
              else
                op ← rd16 RX (arp + 6);
                if op =? ARPOP_REQUEST then arp_answer arp
                else if op =? ARPOP_REPLY then arp_learn arp
                else mret tt.

(** * ping.c *)

Definition set_icmp_header (b : pkt_buf) (pkt dest : Z) : M unit :=
  let icmp := pkt + IP_HDR_SIZE in
  ip ← net_var net_ip;
  _ ← net_set_ip_header b pkt dest ip IP_ICMP_HDR_SIZE IPPROTO_ICMP;
  _ ← wr8 b icmp ICMP_ECHO_REQUEST;
  _ ← wr8 b (icmp + 1) 0;
  _ ← pkt_write b (icmp + 2) (le16 0);
  _ ← pkt_write b (icmp + 4) (le16 0);
  seq ← net_var ping_seq_number;
  _ ← net_assign ping_seq_number (wrap16 (seq + 1));
  _ ← wr16 b (icmp + 6) seq;
  hdr ← pkt_read b icmp ICMP_HDR_SIZE;
  pkt_write b (icmp + 2) (le16 (compute_ip_checksum hdr)).

Definition ping_send : M Z :=
  dest ← net_var net_ping_ip;
  _ ← net_assign net_arp_wait_packet_ip dest;
  eth_hdr_size ← net_set_ether TX net_null_ethaddr PROT_IP;
  _ ← set_icmp_header TX eth_hdr_size dest;
  _ ← net_assign arp_wait_tx_packet_size (eth_hdr_size + IP_ICMP_HDR_SIZE);
  _ ← net_assign arp_wait_try 1;
  t ← hw_call (get_timer 0);
  _ ← net_assign arp_wait_timer_start t;
  _ ← arp_request;
  mret 1.

Definition ping_start : M unit :=
  name ← eth_get_name;
  _ ← printf ("Using %s device" +:+ newline) [VStr (Some name)];
  _ ← net_set_timeout_handler 10000 (Some ping_timeout_handler);
  _ ← ping_send;
  mret tt.

(** An echo request is turned into the reply and sent back.  The length of the
    ICMP message is converted to [unsigned]. *)
Definition ping_answer (ip len : Z) : M unit :=
  eth_hdr_size ← net_update_ether 6 PROT_IP;
  _ ← pkt_write RX (ip + 10) (le16 0);
  _ ← pkt_write RX (ip + 6) (le16 0);
  _ ← net_copy_ip RX (ip + 16) (ip + 12);
  our_ip ← net_var net_ip;
  _ ← net_write_ip RX (ip + 12) our_ip;
  hdr ← pkt_read RX ip IP_HDR_SIZE;
  _ ← pkt_write RX (ip + 10) (le16 (compute_ip_checksum hdr));
  _ ← wr8 RX (ip + 20) ICMP_ECHO_REPLY;
  _ ← pkt_write RX (ip + 22) (le16 0);
  msg ← pkt_read RX (ip + 20) (wrap32 (len - IP_HDR_SIZE));
  _ ← pkt_write RX (ip + 22) (le16 (compute_ip_checksum msg));
  tx_packet ← net_get_async_tx_pkt_buf;
  _ ← pkt_copy tx_packet RX (eth_hdr_size + len);
  net_send_packet tx_packet (eth_hdr_size + len).

Definition ping_receive (ip len : Z) : M unit :=
  type ← rd8 RX (ip + 20);
  if type =? ICMP_ECHO_REPLY then
    src_ip ← net_read_ip RX (ip + 12);
    dest ← net_var net_ping_ip;
    if src_ip =? dest then net_set_state NETLOOP_SUCCESS else mret tt
  else if type =? ICMP_ECHO_REQUEST then ping_answer ip len
  else mret tt.

(** * Receiving *)

(** [net_defragment], without [CONFIG_IP_DEFRAG]: is the packet whole? *)
Definition net_defragment (ip : Z) : M bool :=
  ip_off ← rd16 RX (ip + 6);
  mret (negb (nonzero (Z.land ip_off (Z.lor IP_OFFS IP_FLAGS_MFRAG)))).

Definition receive_icmp (ip len : Z) : M unit :=
  type ← rd8 RX (ip + 20);
  if type =? ICMP_REDIRECT then
    code ← rd8 RX (ip + 21);
    if negb (code =? ICMP_REDIR_HOST) then mret tt
    else
      gateway ← pkt_read RX (ip + 24) 4;
      printf " ICMP Host Redirect to %pI4 " [VPtr 1 gateway]
  else ping_receive ip len.

(** The case [PROT_IP] of [net_process_received_packet]. *)
Definition ip_receive (ip len : Z) : M unit :=
  if wrap32 len <? IP_UDP_HDR_SIZE then mret tt
  else
    ip_len ← rd16 RX (ip + 2);
    if len <? ip_len then mret tt
    else
      let len := ip_len in
      hl_v ← rd8 RX ip;
      if negb (Z.land hl_v 0xf0 =? 0x40) then mret tt
      else if Z.land hl_v 0x0f >? 0x05 then mret tt
      else
        hdr ← pkt_read RX ip IP_HDR_SIZE;
        if negb (ip_checksum_ok hdr) then mret tt
        else
          dst_ip ← net_read_ip RX (ip + 16);
          our_ip ← net_var net_ip;
          if nonzero our_ip && negb (dst_ip =? our_ip) && negb (dst_ip =? 0xFFFFFFFF) then mret tt
          else
            _ ← net_read_ip RX (ip + 12);
            whole ← net_defragment ip;
            if negb whole then mret tt
            else
              proto ← rd8 RX (ip + 9);
              if proto =? IPPROTO_ICMP then receive_icmp ip len
              else if negb (proto =? IPPROTO_UDP) then mret tt
              else
                udp_len ← rd16 RX (ip + 24);
                if (udp_len <? UDP_HDR_SIZE) || (udp_len >? ip_len) then mret tt
                else h ← net_var udp_packet_handler; run_rxhand h.

(** The protocol, the offset of the payload, its length and the VLAN of the
    packet; [None] when it is dropped. *)
Definition ether_demux (len : Z) : M (option (Z * Z * Z * Z)) :=
  eth_proto ← rd16 RX 12;
  if eth_proto <? 1514 then
    eth_proto ← rd16 RX 20;
    mret (Some (eth_proto, E802_HDR_SIZE, len - E802_HDR_SIZE, VLAN_NONE))
  else if negb (eth_proto =? PROT_VLAN) then
    mret (Some (eth_proto, ETHER_HDR_SIZE, len - ETHER_HDR_SIZE, VLAN_NONE))
  else if wrap32 len <? VLAN_ETHER_HDR_SIZE then mret None
  else
    our_vlan ← net_var net_our_vlan;
    if Z.land (htons our_vlan) VLAN_IDMASK =? VLAN_NONE then mret None
    else
      cti ← rd16 RX 14;
      eth_proto ← rd16 RX 16;
      mret (Some (eth_proto, VLAN_ETHER_HDR_SIZE, len - VLAN_ETHER_HDR_SIZE,
                  Z.land cti VLAN_IDMASK)).

Definition net_process_received_packet (in_packet : list Z) (len : Z) : M unit :=
  _ ← net_assign net_rx_packet (Some in_packet);
  _ ← net_assign net_rx_packet_len len;
  if wrap32 len <? ETHER_HDR_SIZE then mret tt
  else
    our_vlan ← net_var net_our_vlan;
    native_vlan ← net_var net_native_vlan;
    let myvlanid := vlan_id our_vlan in
    let mynvlanid := vlan_id native_vlan in
    r ← ether_demux len;
    match r with
    | None => mret tt
    | Some (eth_proto, ip, len, vlanid) =>
        let vlanid := if vlanid =? VLAN_NONE then Z.land mynvlanid VLAN_IDMASK else vlanid in
        if negb (Z.land myvlanid VLAN_IDMASK =? VLAN_NONE)
           && negb (vlanid =? Z.land myvlanid VLAN_IDMASK) then mret tt
        else if eth_proto =? PROT_ARP then arp_receive ip len
        else if eth_proto =? PROT_IP then ip_receive ip len
        else mret tt
    end.

(** As [eth_rx] calls it: the packet afterwards. *)
Definition net_process (in_packet : list Z) (len : Z) : M (list Z) :=
  _ ← net_process_received_packet in_packet len;
  p ← net_var net_rx_packet;
  mret (default [] p).

(** * The loop *)

(** The console is up ([gd->have_console]). *)
Definition ctrlc : M bool :=
  disabled ← net_var ctrlc_disabled;
  if negb (nonzero disabled) then
    pressed ← hw_call tstc;
    if pressed : bool then
      c ← hw_call getc;
      if c =? 0x03 then
        _ ← net_assign ctrlc_was_pressed 1;
        mret true
      else mret false
    else mret false
  else mret false.

Definition env_set_hex (varname : string) (value : Z) : M Z :=
  str ← sprintf_to 17 "%lx" [VInt value];
  hw_call (env_set varname (Some str)).

Definition net_init_loop : M unit :=
  dev ← eth_get_dev;
  match dev with
  | None => mret tt
  | Some _ =>
      mac ← eth_get_ethaddr;
      match mac with None => crash NULL_DEREF | Some mac => net_assign net_ethaddr (take 6 mac) end
  end.

Definition net_clear_handlers : M unit :=
  _ ← net_set_udp_handler None;
  _ ← net_set_arp_handler None;
  net_set_timeout_handler 0 None.

Definition net_cleanup_loop : M unit := net_clear_handlers.

Definition net_init : M unit :=
  first ← net_var first_call;
  _ ← (if first : bool then
         _ ← net_assign net_tx_packet (Some (replicate (Z.to_nat PKTSIZE_ALIGN) 0));
         _ ← arp_init;
         _ ← net_clear_handlers;
         net_assign first_call false
       else mret tt);
  net_init_loop.

Definition net_start_again : M Z :=
  nretry ← env_value "netretry";
  let retry_forever := match nretry with Some s => strcmp s "yes" =? 0 | None => false end in
  let retrycnt :=
    match nretry with
    | None => 0
    | Some s =>
        if strcmp s "yes" =? 0 then 0
        else if strcmp s "no" =? 0 then 0
        else if strcmp s "once" =? 0 then 1
        else (simple_strtoul s 0).1
    end in
  try ← net_var net_try_count;
  if negb retry_forever && (wrap32 try >? retrycnt) then
    _ ← eth_halt;
    _ ← net_set_state NETLOOP_FAIL;
    mret (- ETIMEDOUT)
  else
    _ ← net_assign net_try_count (try + 1);
    _ ← eth_halt;
    restarted ← net_var net_restarted;
    _ ← eth_try_another (negb (nonzero restarted));
    ret ← eth_init;
    wrapped ← eth_var net_restart_wrap;
    _ ← (if nonzero wrapped then
           _ ← eth_assign net_restart_wrap 0;
           exists_ ← net_var net_dev_exists;
           if nonzero exists_ then
             _ ← net_set_timeout_handler 10000 (Some start_again_timeout_handler);
             net_set_udp_handler None
           else net_set_state NETLOOP_FAIL
         else net_set_state NETLOOP_RESTART);
    mret ret.

(** [net_check_prereq(PING)] *)
Definition net_check_prereq : M Z :=
  dest ← net_var net_ping_ip;
  if dest =? 0 then _ ← puts ("*** ERROR: ping address not given" +:+ newline); mret 1
  else
    ip ← net_var net_ip;
    if ip =? 0 then _ ← puts ("*** ERROR: `ipaddr' not set" +:+ newline); mret 1
    else
      mac ← net_var net_ethaddr;
      match memcmp mac (replicate 6 0) 6 with
      | None => crash OUT_OF_BOUNDS
      | Some r =>
          if r =? 0 then
            num ← eth_get_dev_index;
            if num =? -1 then _ ← puts ("*** ERROR: No ethernet found." +:+ newline); mret 1
            else
              _ ← (if num =? 0 then puts ("*** ERROR: `ethaddr' not set" +:+ newline)
                   else printf ("*** ERROR: `eth%daddr' not set" +:+ newline) [VInt num]);
              _ ← net_start_again;
              mret 2
          else mret 0
      end.

(** From the label [restart] to the packet loop: the code to return, if any. *)
Definition net_begin (prev_net_state : net_loop_state) : M (option Z) :=
  _ ← net_set_state NETLOOP_CONTINUE;
  _ ← net_init_loop;
  r ← net_check_prereq;
  if r =? 1 then
    _ ← eth_halt;
    _ ← net_set_state prev_net_state;
    mret (Some (- ENODEV))
  else if r =? 2 then mret None
  else
    _ ← net_assign net_dev_exists 1;
    _ ← net_assign net_boot_file_size 0;
    _ ← ping_start;
    mret None.

Definition run_thand (f : thand_f) : M unit :=
  match f with
  | ping_timeout_handler => _ ← eth_halt; net_set_state NETLOOP_FAIL
  | start_again_timeout_handler => net_set_state NETLOOP_RESTART
  end.

(** The timeout handler, when there is one and its time has come. *)
Definition net_check_timeout : M unit :=
  h ← net_var time_handler;
  match h with
  | None => mret tt
  | Some x =>
      t ← hw_call (get_timer 0);
      since ← net_var time_start;
      delta ← net_var time_delta;
      if wrap32 (t - since) >? delta then
        _ ← net_assign time_handler None;
        run_thand x
      else mret tt
  end.

(** How a round of the packet loop ends. *)
Inductive round_end := RoundAgain | RoundRestart | RoundDone (ret : Z).

Definition net_round : M round_end :=
  waiting ← arp_timeout_check;
  _ ← (if 0 <? waiting then t ← hw_call (get_timer 0); net_assign time_start t else mret tt);
  _ ← eth_rx net_process;
  abort ← ctrlc;
  if abort : bool then
    _ ← net_assign net_arp_wait_packet_ip 0;
    _ ← net_cleanup_loop;
    _ ← eth_halt;
    _ ← puts (newline +:+ "Abort" +:+ newline);
    mret (RoundDone (- EINTR))
  else
    _ ← net_check_timeout;
    state ← net_var net_state;
    _ ← (if bool_decide (state = NETLOOP_FAIL) then _ ← net_start_again; mret tt else mret tt);
    state ← net_var net_state;
    match state with
    | NETLOOP_RESTART => _ ← net_assign net_restarted 1; mret RoundRestart
    | NETLOOP_SUCCESS =>
        _ ← net_cleanup_loop;
        size ← net_var net_boot_file_size;
        _ ← (if 0 <? size then
               _ ← printf ("Bytes transferred = %d (%x hex)" +:+ newline) [VInt size; VInt size];
               _ ← env_set_hex "filesize" size;
               addr ← net_var image_load_addr;
               _ ← env_set_hex "fileaddr" addr;
               mret tt
             else mret tt);
        _ ← eth_halt;
        mret (RoundDone (sign 32 size))
    | NETLOOP_FAIL => _ ← net_cleanup_loop; mret (RoundDone (- ENONET))
    | NETLOOP_CONTINUE => mret RoundAgain
    end.

(** One turn of the packet loop, or of the code from [restart] on. *)
Definition net_turn (prev_net_state : net_loop_state) : M (option Z) :=
  r ← net_round;
  match r with
  | RoundAgain => mret None
  | RoundRestart => net_begin prev_net_state
  | RoundDone ret => _ ← net_set_state prev_net_state; mret (Some ret)
  end.

(** [net_loop(PING)] *)
Definition net_loop : M Z :=
  prev_net_state ← net_var net_state;
  _ ← net_assign net_restarted 0;
  _ ← net_assign net_dev_exists 0;
  _ ← net_assign net_try_count 1;
  _ ← net_init;
  _ ← eth_halt;
  _ ← eth_set_current;
  ret ← eth_init;
  if ret <? 0 then _ ← eth_halt; mret ret
  else
    done ← net_begin prev_net_state;
    match done with
    | Some ret => mret ret
    | None => forever NET_ROUNDS (net_turn prev_net_state)
    end.

(** * The environment's callbacks *)

Definition string_to_vlan (s : option string) : Z :=
  match s with
  | None => htons VLAN_NONE
  | Some s =>
      let c := match s with String c _ => ord c | EmptyString => 0 end in
      let id :=
        if (c <? ord "0") || (ord "9" <? c) then VLAN_NONE
        else wrap16 (simple_strtoul s 10).1 in
      htons id
  end.

Definition env_get_vlan (var : string) : M Z := v ← env_value var; mret (string_to_vlan v).

Definition on_ipaddr (value : option string) (flags : Z) : M Z :=
  if nonzero (Z.land flags H_PROGRAMMATIC) then mret 0
  else _ ← net_assign net_ip (string_to_ip value); mret 0.
Definition on_gatewayip (value : option string) (flags : Z) : M Z :=
  if nonzero (Z.land flags H_PROGRAMMATIC) then mret 0
  else _ ← net_assign net_gateway (string_to_ip value); mret 0.
Definition on_netmask (value : option string) (flags : Z) : M Z :=
  if nonzero (Z.land flags H_PROGRAMMATIC) then mret 0
  else _ ← net_assign net_netmask (string_to_ip value); mret 0.
Definition on_serverip (value : option string) (flags : Z) : M Z :=
  if nonzero (Z.land flags H_PROGRAMMATIC) then mret 0
  else _ ← net_assign net_server_ip (string_to_ip value); mret 0.
Definition on_nvlan (value : option string) (flags : Z) : M Z :=
  if nonzero (Z.land flags H_PROGRAMMATIC) then mret 0
  else _ ← net_assign net_native_vlan (string_to_vlan value); mret 0.
Definition on_vlan (value : option string) (flags : Z) : M Z :=
  if nonzero (Z.land flags H_PROGRAMMATIC) then mret 0
  else _ ← net_assign net_our_vlan (string_to_vlan value); mret 0.
End net.
Arguments net_assign {_ _} _ {_} _.
