(* ===== verification/EthFacts.v ===== *)
(** The Ethernet uclass on a machine with at most one Ethernet device: every
    operation returns and keeps the device the current one. *)

From S2P Require Import Prelude CLib Vsprintf VsprintfFacts Machine Events Keeps I2cUclass EthUclass.
From S2P Require Import NetCore.

(** The state after an access that took at least [lo] microseconds. *)
Definition moves {HW} (sane heard : HW → Prop) (ticks : HW → Z) (lo : Z) (h h' : HW) : Prop :=
  sane h' ∧ takes lo (ticks h) (ticks h') ∧ (heard h → heard h').

(** At most one Ethernet device, [dev0], that always probes; the variable
    [netretry] unset; and a clock that runs: looking for a key takes time.
    [heard] is an observation that no access takes back. *)
Class EthPort {HW} `{!Env HW} `{!EthDriver HW} `{!Timer HW} `{!Keyboard HW}
    (sane : HW → Prop) (ticks : HW → Z) (dev0 : option Z) (heard : HW → Prop) : Prop := {
  port_first h : sane h →
    moves sane heard ticks 0 h (uclass_first_eth h).2 ∧ (uclass_first_eth h).1.2 = dev0;
  port_next d h : sane h →
    moves sane heard ticks 0 h (uclass_next_eth d h).2 ∧ (uclass_next_eth d h).1.2 = None;
  port_devs h : sane h → uclass_eth_devs h = option_list dev0;
  port_probe d h : sane h → moves sane heard ticks 0 h (eth_device_probe d h).2;
  port_mac d h : sane h → dev0 = Some d → length (enetaddr d h) = 6%nat;
  port_env name v h : sane h → name ≠ "netretry" → moves sane heard ticks 0 h (env_set name v h).2;
  port_retry h : sane h → env_get "netretry" h = None;
  port_start d h : sane h → moves sane heard ticks 0 h (eth_ops_start d h).2;
  port_stop d h : sane h → moves sane heard ticks 0 h (eth_ops_stop d h);
  port_timer b h : sane h → moves sane heard ticks 0 h (get_timer b h).2 ∧
    (get_timer b h).1 = wrap32 (ticks h / 1000 - b);
  port_tstc h : sane h → moves sane heard ticks 1 h (tstc h).2;
  port_getc h : sane h → moves sane heard ticks 0 h (getc h).2;
}.

(** The current device, once it is set, is the only one. *)
Definition current_ok (dev0 : option Z) (e : eth_globals) : Prop :=
  eth_current e = None ∨ eth_current e = dev0.

(** Invariants that the uclass and the hardware keep. *)
Class PortInv {HW} (sane : HW → Prop) (ticks : HW → Z) (dev0 : option Z) (heard : HW → Prop)
    (I : world HW → Prop) : Prop := {
  inv_quiet :: Quiet I;
  inv_sane w : I w → sane (hw w);
  inv_current w : I w → current_ok dev0 (eth w);
  inv_hw w h : I w → moves sane heard ticks 0 (hw w) h → I (with_hw h w);
  inv_eth w e : I w → current_ok dev0 e → I (with_eth e w);
}.

Section uclass.
Context {HW : Type} `{!Env HW} `{!EthDriver HW} `{!Timer HW} `{!Keyboard HW}
  {sane : HW → Prop} {ticks : HW → Z} {dev0 : option Z} {heard : HW → Prop}
  `{Hport : !EthPort sane ticks dev0 heard}
  (I : world HW → Prop) `{!PortInv sane ticks dev0 heard I}.
Notation world := (world HW).
Notation M := (M world).
Notation moves := (moves sane heard ticks).
Notation current_ok := (current_ok dev0).
Implicit Types w : world.
Notation within := (within I ticks).

Lemma within_call {A} (f : HW → A * HW) (P : A → Prop) :
  (∀ h, sane h → moves 0 h (f h).2 ∧ P (f h).1) → within 1 (hw_call f) P.
Proof using PortInv0.
  intros Hf. apply within_hw_call. intros w Hw.
  destruct (Hf (hw w)) as [Hm HP]; [by apply inv_sane|].
  split_and!; [by apply inv_hw|done|apply Hm].
Qed.

Lemma within_do (f : HW → HW) : (∀ h, sane h → moves 0 h (f h)) → within 1 (hw_do f) anything.
Proof using PortInv0.
  intros Hf. apply within_hw_do. intros w Hw. assert (moves 0 (hw w) (f (hw w))) as Hm.
  { apply Hf. by apply inv_sane. }
  split; [by apply inv_hw|apply Hm].
Qed.

Lemma within_eth_assign {A} (field : eth_globals → A) `{!FieldUpdate field} v :
  (∀ e, current_ok e → current_ok (e <| field := v |>)) → within 0 (eth_assign field v) anything.
Proof using PortInv0.
  intros Hf. apply within_modify. intros w Hw. split; [|done].
  apply inv_eth; [done|]. by apply Hf, inv_current.
Qed.

Lemma within_read {A} (f : world → A) : within 0 (gets f) anything.
Proof. by apply within_gets. Qed.

Lemma within_get_dev : within 1 eth_get_dev (λ d, d = dev0).
Proof using Hport PortInv0.
  unfold eth_get_dev. eapply within_bind.
  { apply (within_gets _ _ _ (λ c, c = None ∨ c = dev0)). intros w Hw. by apply inv_current. }
  intros [d|] Hd; within_count; [within_step; by destruct Hd|].
  eapply within_bind.
  { apply (within_call _ (λ r, r.2 = dev0)). intros h. apply port_first. }
  intros [ret first] Hf. cbn [snd] in Hf. subst first. within_count.
  eapply within_bind; [apply within_eth_assign; intros e He; by right|]. intros _ _. within_count.
  eapply within_bind; [apply within_eth_assign; intros e He; exact He|]. intros _ _. within_count.
  by within_step.
Qed.

Lemma within_set_state d st : within 0 (eth_set_priv_state d st) anything.
Proof using PortInv0.
  unfold eth_set_priv_state. eapply within_bind; [apply within_read|]. intros states _. within_count.
  apply within_eth_assign. by intros e.
Qed.

Lemma within_is_active d : within 0 (eth_is_active d) anything.
Proof.
  unfold eth_is_active. eapply within_bind; [apply within_read|]. intros [] _; within_count.
  - apply within_read.
  - by apply within_ret.
Qed.

Lemma within_halt : within 2 eth_halt anything.
Proof using Hport PortInv0.
  unfold eth_halt. eapply within_bind; [apply within_get_dev|]. intros [d|] _; within_count;
    [|by within_step].
  eapply within_bind; [apply within_is_active|]. intros [] _; within_count; [|by within_step].
  eapply within_bind; [apply within_do; intros h; apply port_stop|].
  intros _ _. within_count. apply within_set_state.
Qed.

(** ** Choosing and starting the device *)

Notation keeps := (keeps I).

Lemma keeps_get_dev : keeps eth_get_dev (λ d, d = dev0).
Proof using Hport PortInv0. eapply within_keeps, within_get_dev. Qed.

Lemma keeps_call {A} (f : HW → A * HW) :
  (∀ h, sane h → moves 0 h (f h).2) → keeps (hw_call f) anything.
Proof using PortInv0. intros Hf. eapply within_keeps, within_call. auto. Qed.

Lemma keeps_eth_assign {A} (field : eth_globals → A) `{!FieldUpdate field} v :
  (∀ e, current_ok e → current_ok (e <| field := v |>)) → keeps (eth_assign field v) anything.
Proof using PortInv0. intros Hf. eapply within_keeps. by apply within_eth_assign. Qed.

Lemma keeps_env_set name v : name ≠ "netretry" → keeps (_ ← hw_call (env_set name v); mret tt) anything.
Proof using Hport PortInv0.
  intros Hn. eapply keeps_bind; [eapply within_keeps, (within_call _ anything)|].
  - intros h Hh. split; [by apply port_env|done].
  - intros c _. by apply keeps_ret.
Qed.

Lemma keeps_get_name : keeps eth_get_name anything.
Proof using Hport PortInv0.
  unfold eth_get_name. eapply keeps_bind; [apply keeps_get_dev|]. intros [d|] Hd; [|by keep_step].
  eapply keeps_bind; [apply keeps_get_dev|]. intros d' ->. rewrite <- Hd. by keep_step.
Qed.

Lemma keeps_get_dev_index : keeps eth_get_dev_index anything.
Proof using Hport PortInv0.
  unfold eth_get_dev_index. eapply keeps_bind; [apply keeps_get_dev|]. intros [d|] Hd; [|by keep_step].
  eapply keeps_bind; [apply keeps_get_dev|]. intros d' ->. rewrite <- Hd. by keep_step.
Qed.

Lemma keeps_get_ethaddr :
  keeps eth_get_ethaddr (λ m, dev0 ≠ None → ∃ mac, m = Some mac ∧ length mac = 6%nat).
Proof using Hport PortInv0.
  unfold eth_get_ethaddr. eapply keeps_bind; [apply keeps_get_dev|].
  intros [d|] Hd; [|keep_step; by rewrite <- Hd].
  eapply keeps_bind; [apply keeps_get_dev|]. intros d' ->. rewrite <- Hd.
  apply keeps_gets. intros w Hw _. eexists. split; [done|].
  apply port_mac; [by apply inv_sane|by symmetry].
Qed.

Lemma keeps_current_changed : keeps eth_current_changed anything.
Proof using Hport PortInv0.
  unfold eth_current_changed, env_value. do 2 keep_step. keep_step; [by keep_step|].
  eapply keeps_bind; [apply keeps_get_dev|]. intros [d|] Hd.
  - eapply keeps_bind with (P := anything).
    { destruct a; [|by keep_step]. eapply keeps_bind; [apply keeps_get_name|]. intros ? _. by keep_step. }
    intros [] _; [|by keep_step].
    eapply keeps_bind; [apply keeps_get_name|]. intros ? _. by apply keeps_env_set.
  - destruct a; [by apply keeps_env_set|by keep_step].
Qed.

Lemma keeps_find_dev devs devname alias :
  keeps (eth_find_dev devs devname alias) (λ r, ∀ d, r = Some d → d ∈ devs).
Proof using Hport PortInv0.
  induction devs as [|it devs IH]; cbn [eth_find_dev]; [by keep_step|].
  assert (keeps (eth_find_dev devs devname alias) (λ r, ∀ d, r = Some d → d ∈ it :: devs)) as IH'.
  { eapply keeps_mono; [apply IH|]. intros r Hr d Hd. apply list_elem_of_further. by apply Hr. }
  eapply keeps_bind; [apply keeps_call; intros h; apply port_probe|].
  intros ret _. keep_step; [exact IH'|]. keep_step. keep_step; [|exact IH'].
  keep_step. intros d [= <-]. by left.
Qed.

Lemma keeps_get_dev_by_name devname :
  keeps (eth_get_dev_by_name devname) (λ r, r = None ∨ r = dev0).
Proof using Hport PortInv0.
  unfold eth_get_dev_by_name. cbv zeta. eapply keeps_bind.
  { apply (keeps_gets _ _ (λ l, l = option_list dev0)). intros w Hw.
    apply port_devs. by apply inv_sane. }
  intros devs ->. eapply keeps_mono; [apply keeps_find_dev|].
  intros [d|] Hd; [right|by left]. specialize (Hd d eq_refl).
  revert Hd. generalize dev0. intros [d'|]; cbn; [|by rewrite elem_of_nil].
  rewrite list_elem_of_singleton. by intros ->.
Qed.

Lemma keeps_set_dev dev : dev = None ∨ dev = dev0 → keeps (eth_set_dev dev) anything.
Proof using Hport PortInv0.
  intros Hdev. unfold eth_set_dev.
  eapply keeps_bind with (P := λ d, d = None ∨ d = dev0).
  { destruct dev as [d|]; [|keep_step; by left]. keep_step. keep_step; [keep_step; exact Hdev|].
    eapply keeps_bind; [apply keeps_call; intros h; apply port_probe|].
    intros ret _. eapply keeps_bind; [by apply keeps_eth_assign|]. intros _ _. keep_step.
    destruct (nonzero ret); [by left|exact Hdev]. }
  intros d Hd. by apply keeps_eth_assign.
Qed.

Lemma keeps_set_current : keeps eth_set_current anything.
Proof using Hport PortInv0.
  unfold eth_set_current, env_value, eth_var. do 3 keep_step.
  eapply keeps_bind with (P := anything).
  { keep_step; [|by keep_step]. keep_step.
    eapply keeps_bind; [by apply keeps_eth_assign|]. intros _ _. by apply keeps_eth_assign. }
  intros _ _. keep_step. eapply keeps_bind with (P := anything).
  { case_match.
    - eapply keeps_bind; [apply keeps_get_dev_by_name|]. intros d Hd. by apply keeps_set_dev.
    - keep_step. eapply keeps_bind with (P := λ d, d = None ∨ d = dev0).
      { case_match; [apply keeps_get_dev_by_name|]. keep_step. by left. }
      intros d Hd. by apply keeps_set_dev. }
  intros _ _. apply keeps_current_changed.
Qed.

Lemma keeps_set_current_to_next : keeps eth_set_current_to_next anything.
Proof using Hport PortInv0.
  unfold eth_set_current_to_next, eth_var. keep_step. eapply keeps_bind with (P := anything).
  { destruct a as [d|]; [|by keep_step]. eapply keeps_bind.
    { eapply within_keeps, (within_call _ (λ r, r.2 = None)). intros h.
      apply port_next. }
    intros [ret next] Hn. cbn [snd] in Hn. subst. apply keeps_eth_assign. intros e He. by left. }
  intros _ _. keep_step. case_match; [by keep_step|]. eapply keeps_bind.
  { eapply within_keeps, (within_call _ (λ r, r.2 = dev0)). intros h.
    apply port_first. }
  intros [ret first] Hf. cbn [snd] in Hf. subst. apply keeps_eth_assign. intros e He. by right.
Qed.

Lemma keeps_try_another b : keeps (eth_try_another b) anything.
Proof using Hport PortInv0.
  unfold eth_try_another, env_value, eth_var. keep_step. keep_step; [by keep_step|].
  eapply keeps_bind; [apply keeps_get_dev|]. intros [d|] Hd; [|by keep_step].
  eapply keeps_bind with (P := anything).
  { keep_step; [|by keep_step]. eapply keeps_bind; [apply keeps_get_dev|]. intros d' ->.
    by apply keeps_eth_assign. }
  intros _ _. eapply keeps_bind; [apply keeps_set_current_to_next|]. intros _ _.
  eapply keeps_bind; [apply keeps_current_changed|]. intros _ _. keep_step.
  eapply keeps_bind; [apply keeps_get_dev|]. intros d' ->. keep_step; [|by keep_step].
  by apply keeps_eth_assign.
Qed.

Lemma keeps_init_loop d ret fuel :
  dev0 = Some d → keeps (eth_init_loop (S fuel) (Some d) (Some d) ret) anything.
Proof using Hport PortInv0.
  intros Hd. cbn [eth_init_loop]. eapply keeps_bind with (P := anything).
  { keep_step. keep_step; [|by keep_run].
    eapply keeps_bind; [apply keeps_call; intros h; apply port_start|].
    intros r _. keep_step; [|by keep_step].
    eapply keeps_bind; [eapply within_keeps, within_set_state|]. intros _ _. by keep_step. }
  intros [ret'|ret'] _; [|by keep_step].
  eapply keeps_bind; [apply keeps_try_another|]. intros _ _.
  eapply keeps_bind; [apply keeps_get_dev|]. intros d' ->. rewrite <- Hd.
  rewrite bool_decide_eq_true_2 by done. by keep_step.
Qed.

Lemma keeps_eth_init : keeps eth_init anything.
Proof using Hport PortInv0.
  unfold eth_init, env_value. do 2 keep_step.
  eapply keeps_bind with (P := λ r, ∀ d, r = inl (Some d) → dev0 = Some d).
  { destruct a as [a|]; [|by keep_step]. keep_step; [|by keep_step].
    eapply keeps_bind; [apply keeps_get_dev_by_name|]. intros d Hd. keep_step.
    destruct d as [d|]; [|done]. intros d' [= <-]. by destruct Hd. }
  intros [c|ret] Hc; [|by keep_step].
  eapply keeps_bind with (P := λ d, d = dev0).
  { destruct c as [d|]; [|apply keeps_get_dev]. keep_step. symmetry. by apply Hc. }
  intros [d|] Hd; [|by keep_run]. keep_step. by apply keeps_init_loop.
Qed.
End uclass.
