(* ===== verification/NetFacts.v ===== *)
(** The network stack: what it does with a received packet, and that
    [net_loop(PING)] ends. *)

From S2P Require Import Prelude CLib Vsprintf VsprintfFacts Machine Events Keeps I2cUclass EthUclass.
From S2P Require Import NetUtils NetCore EthFacts.

(** * Received packets *)

(** The 16-bit field at [off], in network order; an address. *)
Definition be16 (c : list Z) (off : Z) : Z := htons (le_word (take 2 (drop (Z.to_nat off) c))).
Definition byte_at (c : list Z) (off : Z) : Z := le_word (take 1 (drop (Z.to_nat off) c)).
Definition ip_at (c : list Z) (off : Z) : Z := le_word (take 4 (drop (Z.to_nat off) c)).

Lemma be16_range c off : 0 ≤ be16 c off < 2 ^ 16.
Proof. unfold be16, htons, wrap16. lia. Qed.

(** What the stack does with a packet. *)
Inductive packet_action :=
| Drop
| BadArp (len : Z)
| AnswerArp (arp : Z)
| LearnArp (arp : Z)
| GotEchoReply (src : Z)
| AnswerEcho (ip len : Z)
| Redirect (gateway : list Z)
| ToUdpHandler.

(** The encapsulation: protocol, offset of the payload, and VLAN. *)
Definition demux (our_vlan : Z) (c : list Z) (len : Z) : option (Z * Z * Z) :=
  let proto := be16 c 12 in
  if proto <? 1514 then Some (be16 c 20, 22, VLAN_NONE)
  else if negb (proto =? PROT_VLAN) then Some (proto, 14, VLAN_NONE)
  else if (len <? 18) || (Z.land (htons our_vlan) VLAN_IDMASK =? VLAN_NONE) then None
  else Some (be16 c 16, 18, Z.land (be16 c 14) VLAN_IDMASK).

Definition vlan_accepts (our_vlan native_vlan vlanid : Z) : bool :=
  let mine := Z.land (vlan_id our_vlan) VLAN_IDMASK in
  (mine =? VLAN_NONE)
  || ((if vlanid =? VLAN_NONE then Z.land (vlan_id native_vlan) VLAN_IDMASK else vlanid) =? mine).

Definition classify_arp (our_ip : Z) (c : list Z) (arp len : Z) : packet_action :=
  if len <? 28 then BadArp len
  else if (be16 c arp =? ARP_ETHER) && (be16 c (arp + 2) =? PROT_IP)
       && (byte_at c (arp + 4) =? 6) && (byte_at c (arp + 5) =? 4)
       && negb (our_ip =? 0) && (ip_at c (arp + 24) =? our_ip) then
    if be16 c (arp + 6) =? ARPOP_REQUEST then AnswerArp arp
    else if be16 c (arp + 6) =? ARPOP_REPLY then LearnArp arp else Drop
  else Drop.

(** A whole IPv4 packet without options, for us. *)
Definition ip_accepts (our_ip : Z) (c : list Z) (ip len : Z) : bool :=
  (28 <=? len) && (be16 c (ip + 2) <=? len)
  && (Z.land (byte_at c ip) 0xf0 =? 0x40) && (Z.land (byte_at c ip) 0x0f <=? 5)
  && ip_checksum_ok (take 20 (drop (Z.to_nat ip) c))
  && ((our_ip =? 0) || (ip_at c (ip + 16) =? our_ip) || (ip_at c (ip + 16) =? 0xFFFFFFFF))
  && (Z.land (be16 c (ip + 6)) (Z.lor IP_OFFS IP_FLAGS_MFRAG) =? 0).

Definition classify_ip (our_ip : Z) (c : list Z) (ip len : Z) : packet_action :=
  if ip_accepts our_ip c ip len then
    if byte_at c (ip + 9) =? IPPROTO_ICMP then
      if byte_at c (ip + 20) =? ICMP_REDIRECT then
        if byte_at c (ip + 21) =? ICMP_REDIR_HOST
        then Redirect (take 4 (drop (Z.to_nat (ip + 24)) c)) else Drop
      else if byte_at c (ip + 20) =? ICMP_ECHO_REPLY then GotEchoReply (ip_at c (ip + 12))
      else if byte_at c (ip + 20) =? ICMP_ECHO_REQUEST then AnswerEcho ip (be16 c (ip + 2))
      else Drop
    else if byte_at c (ip + 9) =? IPPROTO_UDP then
      if (8 <=? be16 c (ip + 24)) && (be16 c (ip + 24) <=? be16 c (ip + 2))
      then ToUdpHandler else Drop
    else Drop
  else Drop.

Definition classify (our_ip our_vlan native_vlan : Z) (c : list Z) (len : Z) : packet_action :=
  if len <? 14 then Drop
  else
    match demux our_vlan c len with
    | None => Drop
    | Some (proto, off, vlanid) =>
        if negb (vlan_accepts our_vlan native_vlan vlanid) then Drop
        else if proto =? PROT_ARP then classify_arp our_ip c off (len - off)
        else if proto =? PROT_IP then classify_ip our_ip c off (len - off)
        else Drop
    end.

Section receive.
Context {HW : Type} `{!Env HW} `{!EthDriver HW} `{!Timer HW} `{!Keyboard HW}.
Notation world := (world HW).
Notation M := (M world).
Implicit Types w : world.

(** Carrying an action out. *)
Definition perform (a : packet_action) : M unit :=
  match a with
  | Drop => mret tt
  | BadArp len => printf ("bad length %d < %d" +:+ newline) [VInt len; VInt ARP_HDR_SIZE]
  | AnswerArp arp => arp_answer arp
  | LearnArp arp => arp_learn arp
  | GotEchoReply src =>
      dest ← net_var net_ping_ip;
      if src =? dest then net_set_state NETLOOP_SUCCESS else mret tt
  | AnswerEcho ip len => ping_answer ip len
  | Redirect gateway => printf " ICMP Host Redirect to %pI4 " [VPtr 1 gateway]
  | ToUdpHandler => h ← net_var udp_packet_handler; run_rxhand h
  end.

(** ** Reading a buffer *)

Lemma pkt_read_at b off n c w :
  pkt_content b (net w) = Some c → 0 ≤ off → 0 ≤ n → off + n ≤ Z.of_nat (length c) →
  pkt_read b off n w = Ret (take (Z.to_nat n) (drop (Z.to_nat off) c)) w.
Proof.
  intros Hc Ho Hn Hl. unfold pkt_read. erewrite M_bind_Ret; [|reflexivity]. rewrite Hc.
  rewrite (proj2 (Z.leb_le 0 off)), (proj2 (Z.leb_le 0 n)), (proj2 (Z.leb_le (off + n) _)) by lia.
  done.
Qed.

Lemma rd8_at off c w :
  net_rx_packet (net w) = Some c → 0 ≤ off → off + 1 ≤ Z.of_nat (length c) →
  rd8 RX off w = Ret (byte_at c off) w.
Proof. intros. unfold rd8. by erewrite M_bind_Ret by (by apply (pkt_read_at RX)). Qed.

Lemma rd16_at off c w :
  net_rx_packet (net w) = Some c → 0 ≤ off → off + 2 ≤ Z.of_nat (length c) →
  rd16 RX off w = Ret (be16 c off) w.
Proof. intros. unfold rd16. by erewrite M_bind_Ret by (by apply (pkt_read_at RX)). Qed.

Lemma read_ip_at off c w :
  net_rx_packet (net w) = Some c → 0 ≤ off → off + 4 ≤ Z.of_nat (length c) →
  net_read_ip RX off w = Ret (ip_at c off) w.
Proof. intros. unfold net_read_ip. by erewrite M_bind_Ret by (by apply (pkt_read_at RX)). Qed.

Lemma net_var_at {A} (f : net_globals → A) w : net_var f w = Ret (f (net w)) w.
Proof. done. Qed.

(** One read at the head of a run. *)
Ltac read_step :=
  first
    [ erewrite M_bind_Ret by (apply rd16_at; [done|lia|lia])
    | erewrite M_bind_Ret by (apply rd8_at; [done|lia|lia])
    | erewrite M_bind_Ret by (apply read_ip_at; [done|lia|lia])
    | erewrite M_bind_Ret by (apply net_var_at)
    | erewrite M_bind_Ret by (apply (pkt_read_at RX); [done|lia..]) ].

Lemma arp_receive_spec arp len c w :
  net_rx_packet (net w) = Some c → 0 ≤ arp → arp + 28 ≤ Z.of_nat (length c) →
  arp_receive arp len w = perform (classify_arp (net_ip (net w)) c arp len) w.
Proof.
  intros Hc Ho Hl. unfold arp_receive, classify_arp. destruct (len <? 28); [done|]. read_step.
  destruct (be16 c arp =? ARP_ETHER); [cbn [negb andb]|done]. read_step.
  destruct (be16 c (arp + 2) =? PROT_IP); [cbn [negb andb]|done]. read_step.
  destruct (byte_at c (arp + 4) =? 6); [cbn [negb andb]|done]. read_step.
  destruct (byte_at c (arp + 5) =? 4); [cbn [negb andb]|done]. read_step.
  destruct (net_ip (net w) =? 0); [done|cbn [negb andb]]. read_step.
  destruct (ip_at c (arp + 24) =? net_ip (net w)); [cbn [negb]|done]. read_step.
  destruct (be16 c (arp + 6) =? ARPOP_REQUEST); [done|].
  by destruct (be16 c (arp + 6) =? ARPOP_REPLY).
Qed.

Lemma receive_icmp_spec ip len c w :
  net_rx_packet (net w) = Some c → 0 ≤ ip → ip + 28 ≤ Z.of_nat (length c) →
  receive_icmp ip len w = perform
    (if byte_at c (ip + 20) =? ICMP_REDIRECT then
       if byte_at c (ip + 21) =? ICMP_REDIR_HOST
       then Redirect (take 4 (drop (Z.to_nat (ip + 24)) c)) else Drop
     else if byte_at c (ip + 20) =? ICMP_ECHO_REPLY then GotEchoReply (ip_at c (ip + 12))
     else if byte_at c (ip + 20) =? ICMP_ECHO_REQUEST then AnswerEcho ip len
     else Drop) w.
Proof.
  intros Hc Ho Hl. unfold receive_icmp. read_step.
  destruct (byte_at c (ip + 20) =? ICMP_REDIRECT).
  - read_step. destruct (byte_at c (ip + 21) =? ICMP_REDIR_HOST); [cbn [negb]|done].
    by read_step.
  - unfold ping_receive. read_step. destruct (byte_at c (ip + 20) =? ICMP_ECHO_REPLY).
    + by read_step.
    + by destruct (byte_at c (ip + 20) =? ICMP_ECHO_REQUEST).
Qed.

Lemma net_defragment_at ip c w :
  net_rx_packet (net w) = Some c → 0 ≤ ip → ip + 28 ≤ Z.of_nat (length c) →
  net_defragment ip w = Ret (Z.land (be16 c (ip + 6)) (Z.lor IP_OFFS IP_FLAGS_MFRAG) =? 0) w.
Proof.
  intros Hc Ho Hl. unfold net_defragment, nonzero. read_step. by rewrite negb_involutive.
Qed.

Lemma ip_receive_spec ip len c w :
  net_rx_packet (net w) = Some c → 0 ≤ ip → ip + 28 ≤ Z.of_nat (length c) → - 2 ^ 31 ≤ len < 2 ^ 31 →
  ip_receive ip len w = perform (classify_ip (net_ip (net w)) c ip len) w.
Proof.
  intros Hc Ho Hl Hlen. unfold ip_receive, classify_ip, ip_accepts.
  rewrite (Z.leb_antisym len (be16 _ _)). destruct (Z.ltb_spec len 0) as [Hneg|Hpos].
  { replace (28 <=? len) with false by lia. cbn [andb].
    unfold wrap32. rewrite <- (Z_mod_plus_full len 1), Z.mod_small by lia.
    replace (len + 1 * 2 ^ 32 <? 28) with false by lia. read_step.
    by replace (len <? be16 c (ip + 2)) with true by (pose proof (be16_range c (ip + 2)); lia). }
  rewrite wrap32_small by lia. rewrite (Z.leb_antisym len 28).
  destruct (len <? 28); [done|cbn [negb andb]]. read_step.
  destruct (len <? be16 c (ip + 2)); [done|cbn [negb andb]]. read_step.
  destruct (Z.land (byte_at c ip) 0xf0 =? 0x40); [cbn [negb andb]|done].
  rewrite Z.gtb_ltb, (Z.leb_antisym 5).
  destruct (5 <? Z.land (byte_at c ip) 0x0f); [done|cbn [negb andb]]. read_step.
  change (Z.to_nat 20) with 20%nat.
  destruct (ip_checksum_ok (take 20 (drop (Z.to_nat ip) c))); [cbn [negb andb]|done].
  do 2 read_step.
  match goal with |- (if ?b then _ else _) _ = _ =>
    replace ((net_ip (net w) =? 0) || (ip_at c (ip + 16) =? net_ip (net w))
             || (ip_at c (ip + 16) =? 0xFFFFFFFF)) with (negb b) end.
  2: { unfold nonzero. by destruct (_ =? 0), (_ =? net_ip _), (_ =? 0xFFFFFFFF). }
  destruct (_ && _ && _); [done|cbn [negb andb]]. read_step.
  erewrite M_bind_Ret by (apply net_defragment_at; [done|lia..]).
  destruct (Z.land (be16 c (ip + 6)) _ =? 0); [cbn [negb]|done]. read_step.
  destruct (byte_at c (ip + 9) =? IPPROTO_ICMP); [by apply receive_icmp_spec|].
  destruct (byte_at c (ip + 9) =? IPPROTO_UDP); [cbn [negb]|done]. read_step.
  rewrite (Z.leb_antisym _ 8), Z.gtb_ltb, (Z.leb_antisym (be16 c (ip + 2))).
  destruct (be16 c (ip + 24) <? 8); [done|]. by destruct (be16 c (ip + 2) <? be16 c (ip + 24)).
Qed.

(** The world with the received packet in its variable. *)
Definition rx_world (c : list Z) (len : Z) w : world :=
  with_net (net w <| net_rx_packet := Some c |> <| net_rx_packet_len := len |>) w.

Lemma ether_demux_spec len c w :
  net_rx_packet (net w) = Some c → 50 ≤ Z.of_nat (length c) → 0 ≤ len < 2 ^ 31 →
  ether_demux len w
  = Ret ((λ '(proto, off, vlanid), (proto, off, len - off, vlanid))
           <$> demux (net_our_vlan (net w)) c len) w.
Proof.
  intros Hc Hl Hlen. unfold ether_demux, demux. read_step. destruct (be16 c 12 <? 1514); [by read_step|].
  destruct (negb (be16 c 12 =? PROT_VLAN)); [done|]. rewrite wrap32_small by lia.
  destruct (len <? 18); [done|cbn [orb]]. read_step.
  destruct (Z.land (htons _) _ =? VLAN_NONE); [done|]. by do 2 read_step.
Qed.

Lemma demux_offset our_vlan c len proto off vlanid :
  demux our_vlan c len = Some (proto, off, vlanid) → 14 ≤ off ≤ 22.
Proof.
  unfold demux. destruct (be16 c 12 <? 1514); [intros [= _ <- _]; lia|].
  destruct (negb _); [intros [= _ <- _]; lia|]. destruct (_ || _); [done|]. intros [= _ <- _]; lia.
Qed.

Lemma net_process_spec c len w :
  50 ≤ Z.of_nat (length c) → 0 ≤ len < 2 ^ 31 →
  net_process_received_packet c len w
  = perform (classify (net_ip (net w)) (net_our_vlan (net w)) (net_native_vlan (net w)) c len)
      (rx_world c len w).
Proof.
  intros Hl Hlen. unfold net_process_received_packet, classify. rewrite wrap32_small by lia.
  erewrite M_bind_Ret by reflexivity.
  rewrite (M_bind_Ret _ _ _ tt (rx_world c len w)) by reflexivity.
  assert (net_rx_packet (net (rx_world c len w)) = Some c) as Hc by done.
  change (net_ip (net w)) with (net_ip (net (rx_world c len w))).
  change (net_our_vlan (net w)) with (net_our_vlan (net (rx_world c len w))).
  change (net_native_vlan (net w)) with (net_native_vlan (net (rx_world c len w))).
  generalize dependent (rx_world c len w). clear w. intros w Hc.
  destruct (Z.ltb_spec len 14); [done|]. do 2 read_step.
  erewrite M_bind_Ret by (by apply ether_demux_spec).
  destruct (demux (net_our_vlan (net w)) c len) as [[[proto off] vlanid]|] eqn:Hd; [|done].
  apply demux_offset in Hd. cbn [fmap option_fmap option_map]. unfold vlan_accepts. rewrite <- negb_orb.
  destruct (_ || _); [cbn [negb]|done]. destruct (proto =? PROT_ARP); [apply arp_receive_spec; done || lia|].
  destruct (proto =? PROT_IP); [apply ip_receive_spec; done || lia|done].
Qed.
End receive.

(** Where an echo request to be answered is. *)
Lemma classify_request our_ip our_vlan native_vlan c len ip n :
  classify our_ip our_vlan native_vlan c len = AnswerEcho ip n →
  14 ≤ ip ≤ 22 ∧ 0 ≤ n < 2 ^ 16.
Proof.
  unfold classify. destruct (len <? 14); [done|]. destruct (demux our_vlan c len) as [[[p off] v]|] eqn:Hd;
    [|done].
  apply demux_offset in Hd.
  destruct (negb _); [done|]. destruct (_ =? PROT_ARP).
  { unfold classify_arp. destruct (_ <? 28); [done|]. destruct (_ && _); [|done].
    destruct (_ =? ARPOP_REQUEST); [done|]. by destruct (_ =? ARPOP_REPLY). }
  destruct (_ =? PROT_IP); [|done]. unfold classify_ip. destruct (ip_accepts _ _ _ _); [|done].
  destruct (_ =? IPPROTO_ICMP).
  - destruct (_ =? ICMP_REDIRECT); [by destruct (_ =? ICMP_REDIR_HOST)|].
    destruct (_ =? ICMP_ECHO_REPLY); [done|]. destruct (_ =? ICMP_ECHO_REQUEST); [|done].
    intros [= <- <-]. split; [done|apply be16_range].
  - destruct (_ =? IPPROTO_UDP); [|done]. by destruct (_ && _).
Qed.

(** * The invariant of the stack *)

(** The state and the settings that the stack does not touch. *)
Definition rest {HW} (w : world HW) := (i2c w, eeprom w, nor w, mmc w, mii w,
  (net_ip (net w), net_netmask (net w), net_gateway (net w), net_our_vlan (net w),
   net_native_vlan (net w))).

Definition has_buffer (b : pkt_buf) (n : net_globals) : Prop :=
  ∃ c, pkt_content b n = Some c ∧ Z.of_nat (length c) = PKTSIZE_ALIGN.

(** After the first call of [net_init]. *)
Record buffers_ok (n : net_globals) : Prop := {
  bufs_tx : has_buffer TX n;
  bufs_arp_tx : has_buffer ARP_TX n;
  bufs_udp : is_Some (udp_packet_handler n);
  bufs_arp : is_Some (arp_packet_handler n);
  bufs_waiting : 0 ≤ arp_wait_tx_packet_size n ≤ PKTSIZE_ALIGN;
}.

Record stack_ok (n : net_globals) : Prop := {
  stack_mac : length (net_ethaddr n) = 6%nat;
  stack_keys : ctrlc_disabled n = 0;
  stack_size : net_boot_file_size n = 0;
  stack_timer : time_handler n ≠ Some start_again_timeout_handler;
  stack_bufs : first_call n = false → buffers_ok n;
}.

(** Choosing the address to ping. *)
Lemma stack_ping ip n : stack_ok n → stack_ok (n <| net_ping_ip := ip |>).
Proof. intros [???? H]. split; try done. intros Hf. destruct (H Hf). by split. Qed.

Section stack.
Context {HW : Type} `{!Env HW} `{!EthDriver HW} `{!Timer HW} `{!Keyboard HW}
  {sane : HW → Prop} {ticks : HW → Z} {dev0 : option Z} {heard : HW → Prop}
  `{Heth : !EthPort sane ticks dev0 heard}
  (peer : Z)
  (R : i2c_state * eeprom_state * nor_state * mmc_state * mii_state * (Z * Z * Z * Z * Z)).
Notation world := (world HW).
Notation M := (M world).
Notation moves := (moves sane heard ticks).
Notation PortInv := (PortInv sane ticks dev0 heard).
Notation current_ok := (current_ok dev0).
Implicit Types w : world.

Record net_inv w : Prop := {
  ni_sane : sane (hw w);
  ni_rest : rest w = R;
  ni_current : current_ok (eth w);
  ni_stack : stack_ok (net w);
}.

#[export] Instance net_inv_port : PortInv net_inv.
Proof.
  split.
  - split; intros ? w []; by split.
  - by intros w [].
  - by intros w [].
  - intros w h [] [??]. by split.
  - intros w e [] ?. by split.
Qed.

Lemma keeps_net_init_loop (I : world → Prop) :
  PortInv I →
  (∀ w mac, I w → length mac = 6%nat → I (with_net (net w <| net_ethaddr := mac |>) w)) →
  keeps I net_init_loop anything.
Proof using Heth.
  intros HI Hmac. unfold net_init_loop. eapply keeps_bind; [by apply (keeps_get_dev I)|].
  intros [d|] Hd; [|by apply (keeps_ret _ _ anything)].
  eapply keeps_bind; [by apply (keeps_get_ethaddr I)|].
  intros m Hm. destruct Hm as (mac & -> & Hl); [by rewrite <- Hd|]. apply keeps_modify.
  intros w Hw. apply Hmac; [done|]. by rewrite length_take, Hl.
Qed.

(** After [net_init]. *)
Record ready w : Prop := {
  rdy_inv : net_inv w;
  rdy_first : first_call (net w) = false;
  rdy_tries : net_try_count (net w) = 1;
  rdy_ping : net_ping_ip (net w) = peer;
}.

#[export] Instance ready_port : PortInv ready.
Proof.
  split.
  - split; intros ? w [[] ???]; by split.
  - by intros w [[] ???].
  - by intros w [[] ???].
  - intros w h [[] ???] [??]. by split.
  - intros w e [[] ???] ?. by split.
Qed.

Lemma wp_net_init w :
  net_inv w → net_try_count (net w) = 1 → net_ping_ip (net w) = peer → wp net_init (λ _, ready) w.
Proof using Heth.
  intros Hw Htr Hp. unfold net_init. apply wp_bind, wp_gets, wp_bind.
  eapply wp_mono with (P := λ _, ready).
  - destruct (first_call (net w)) eqn:Hf; [|apply wp_ret; by split].
    unfold arp_init, net_clear_handlers, net_set_udp_handler, net_set_arp_handler, net_assign.
    wp_run. cbn [net_set_timeout_handler Z.eqb]. apply wp_modify, wp_modify.
    destruct Hw as [??? []]. split; [|done..]. split; [done..|]. split; [done..|]. intros _.
    split; cbn; try done; [eexists; split; [done|]..|by eexists|by eexists]; by rewrite length_replicate.
  - intros u w1 Hw1. eapply wp_mono; [apply (keeps_net_init_loop ready); [apply _| |exact Hw1]|].
    + intros w2 mac [[??? [???? H]] Hf ??] Hl. split; [|done..]. split; [done..|]. split; [done..|].
      intros _. destruct (H Hf). by split.
    + by intros u' w2 [Hw2 _].
Qed.

End stack.

(** * The laws of a network port *)

(** The offset of an IPv4 header, if the packet has one. *)
Definition ip_offset (c : list Z) : option Z :=
  if be16 c 12 <? 1514 then if be16 c 20 =? PROT_IP then Some 22 else None
  else if be16 c 12 =? PROT_VLAN then if be16 c 16 =? PROT_IP then Some 18 else None
  else if be16 c 12 =? PROT_IP then Some 14 else None.

(** An IPv4 packet whose total length covers its header. *)
Definition ip_length_ok (c : list Z) : Prop :=
  ∀ off, ip_offset c = Some off → 20 ≤ be16 c (off + 2).

(** An ICMP echo reply from [peer]. *)
Definition echo_reply_from (peer : Z) (c : list Z) : Prop :=
  ∃ off, ip_offset c = Some off ∧ byte_at c (off + 9) = IPPROTO_ICMP ∧
    byte_at c (off + 20) = ICMP_ECHO_REPLY ∧ ip_at c (off + 12) = peer ∧
    ip_checksum_ok (take 20 (drop (Z.to_nat off) c)) = true.

Notation PKTSIZE := 1522%Z (only parsing).

(** A port: buffers of the usual size, and IP packets whose total length
    covers the header; [heard] records the echo replies from [peer].  Nothing
    is said about what is received, nor that anything is. *)
Class NetPort {HW} `{!Env HW} `{!EthDriver HW} `{!Timer HW} `{!Keyboard HW}
    (sane : HW → Prop) (ticks : HW → Z) (dev0 : option Z) (peer : Z) (heard : HW → Prop) : Prop := {
  port_eth :: EthPort sane ticks dev0 heard;
  port_send d p h : sane h → moves sane heard ticks 0 h (eth_ops_send d p h).2;
  port_recv d f h : sane h → moves sane heard ticks 0 h (eth_ops_recv d f h).2 ∧
    (0 < (eth_ops_recv d f h).1.1 →
       (eth_ops_recv d f h).1.1 ≤ PKTSIZE ∧
       Z.of_nat (length (eth_ops_recv d f h).1.2) = PKTSIZE_ALIGN ∧
       ip_length_ok (eth_ops_recv d f h).1.2 ∧
       (echo_reply_from peer (eth_ops_recv d f h).1.2 → heard (eth_ops_recv d f h).2));
  port_free d f p n h : eth_ops_free_pkt d = Some f → sane h → moves sane heard ticks 0 h (f p n h);
}.

Section port.
Context {HW : Type} `{!Env HW} `{!EthDriver HW} `{!Timer HW} `{!Keyboard HW}
  {sane : HW → Prop} {ticks : HW → Z} {dev0 : option Z} {peer : Z} {heard : HW → Prop}
  `{Hport : !NetPort sane ticks dev0 peer heard}.
Notation world := (world HW).
Notation M := (M world).
Notation moves := (moves sane heard ticks).
Notation PortInv := (PortInv sane ticks dev0 heard).
Notation current_ok := (current_ok dev0).
Context (R : i2c_state * eeprom_state * nor_state * mmc_state * mii_state * (Z * Z * Z * Z * Z)).
Notation net_inv := (net_inv (sane := sane) (dev0 := dev0) R).
Notation ready := (ready (sane := sane) (dev0 := dev0) peer R).
Implicit Types w : world.

Section send.
Context (I : world → Prop) `{!PortInv I}.
Notation within := (within I ticks).

Lemma within_eth_send p : within 2 (eth_send p) anything.
Proof using Hport PortInv0.
  unfold eth_send. eapply within_bind; [apply (within_get_dev I)|]. intros [d|] _; within_count;
    [|by within_step].
  eapply within_bind; [apply within_is_active|]. intros [] _; within_count; [|by within_step].
  apply (within_call I). intros h Hh. split; [by apply port_send|done].
Qed.
End send.

(** The variables that steer the packet loop. *)
Record loop_vars := mkVars {
  v_handler : option thand_f;
  v_start : Z;
  v_delta : Z;
  v_tries : Z;
  v_arp_start : Z;
  v_arp_try : Z;
  v_ping : Z;
  v_wait : Z;
  v_state : net_loop_state;
}.

Definition vars (n : net_globals) : loop_vars :=
  mkVars (time_handler n) (time_start n) (time_delta n) (net_try_count n) (arp_wait_timer_start n)
    (arp_wait_try n) (net_ping_ip n) (net_arp_wait_packet_ip n) (net_state n).

(** The invariant once the stack is set up, with [φ] of these variables: a
    success is due to an echo reply. *)
Record running (φ : loop_vars → Prop) w : Prop := {
  run_inv : net_inv w;
  run_first : first_call (net w) = false;
  run_vars : φ (vars (net w));
  run_heard : net_state (net w) = NETLOOP_SUCCESS → heard (hw w);
}.

#[local] Instance running_port φ : PortInv (running φ).
Proof.
  split.
  - split; intros ? w [[] ???]; (split; [by split|done..]).
  - by intros w [[] ???].
  - by intros w [[] ???].
  - intros w h [[] ?? Hh] (? & ? & Hm). split; [by split|done..|]. auto.
  - intros w e [[] ???] ?. split; [by split|done..].
Qed.

(** With a received packet at hand. *)
Definition receiving (φ : loop_vars → Prop) w : Prop := running φ w ∧ has_buffer RX (net w).

#[local] Instance receiving_port φ : PortInv (receiving φ).
Proof.
  split.
  - split; intros ? w [[[] ???] ?]; (split; [|done]); (split; [by split|done..]).
  - by intros w [[[] ???] ?].
  - by intros w [[[] ???] ?].
  - intros w h [] Hm. split; [by apply (inv_hw (PortInv := running_port φ))|done].
  - intros w e [] ?. split; [by apply (inv_eth (PortInv := running_port φ))|done].
Qed.

(** ** Variables and buffers *)

Lemma within_net_assign I {A} (field : net_globals → A) `{!FieldUpdate field} v :
  (∀ w, I w → I (with_net (net w <| field := v |>) w)) → within I ticks 0 (net_assign field v) anything.
Proof. intros Hf. apply within_modify. intros w Hw. split; [by apply Hf|done]. Qed.

Definition set_pkt (b : pkt_buf) (c : list Z) w : world :=
  with_net (match b with
    | RX => net w <| net_rx_packet := Some c |>
    | TX => net w <| net_tx_packet := Some c |>
    | ARP_TX => net w <| arp_tx_packet := Some c |>
    end) w.

(** A buffer that an invariant provides and whose bytes it does not
    mention. *)
Class Buffer (I : world → Prop) (b : pkt_buf) : Prop := {
  buffer_has w : I w → has_buffer b (net w);
  buffer_set w c : I w → Z.of_nat (length c) = PKTSIZE_ALIGN → I (set_pkt b c w);
}.

#[local] Instance running_tx φ : Buffer (running φ) TX.
Proof.
  split.
  - intros w [[??? []]]. destruct stack_bufs0; done.
  - intros w c [[??? []] Hf Hv Hh] Hl. split; [|done..]. split; [done..|]. split; [done..|].
    intros _. destruct (stack_bufs0 Hf). split; try done. by exists c.
Qed.

#[local] Instance running_arp_tx φ : Buffer (running φ) ARP_TX.
Proof.
  split.
  - intros w [[??? []]]. destruct stack_bufs0; done.
  - intros w c [[??? []] Hf Hv Hh] Hl. split; [|done..]. split; [done..|]. split; [done..|].
    intros _. destruct (stack_bufs0 Hf). split; try done. by exists c.
Qed.

#[local] Instance receiving_buffer φ b : Buffer (receiving φ) b.
Proof.
  split.
  - intros w [Hw Hb]. destruct b; [done|by eapply buffer_has..].
  - intros w c [Hw Hb] Hl. destruct b.
    + destruct Hw as [[??? []] Hf Hv Hh]. split; [|by exists c]. split; [|done..]. split; [done..|].
      split; [done..|]. intros _. destruct (stack_bufs0 Hf). by split.
    + split; [by apply (buffer_set (b := TX))|done].
    + split; [by apply (buffer_set (b := ARP_TX))|done].
Qed.

Section buffer.
Context (I : world → Prop) (b : pkt_buf) `{!Buffer I b}.

Lemma within_pkt_read off n :
  0 ≤ off → 0 ≤ n → off + n ≤ PKTSIZE_ALIGN →
  within I ticks 0 (pkt_read b off n) (λ v, Z.of_nat (length v) = n).
Proof using Buffer0.
  intros Ho Hn Hl w Hw. destruct (buffer_has w Hw) as (c & Hc & Hlc). unfold wp.
  rewrite (pkt_read_at b off n c w) by (done || lia). split_and!; [done| |lia..].
  rewrite length_take, length_drop. lia.
Qed.

Lemma within_rd8 off :
  0 ≤ off → off + 1 ≤ PKTSIZE_ALIGN → within I ticks 0 (rd8 b off) anything.
Proof using Buffer0.
  intros. eapply within_bind; [apply within_pkt_read; lia|]. intros v _. within_count. by within_step.
Qed.

Lemma within_rd16 off :
  0 ≤ off → off + 2 ≤ PKTSIZE_ALIGN → within I ticks 0 (rd16 b off) anything.
Proof using Buffer0.
  intros. eapply within_bind; [apply within_pkt_read; lia|]. intros v _. within_count. by within_step.
Qed.

Lemma within_read_ip off :
  0 ≤ off → off + 4 ≤ PKTSIZE_ALIGN → within I ticks 0 (net_read_ip b off) anything.
Proof using Buffer0.
  intros. eapply within_bind; [apply within_pkt_read; lia|]. intros v _. within_count. by within_step.
Qed.

Lemma within_pkt_write off bytes :
  0 ≤ off → off + Z.of_nat (length bytes) ≤ PKTSIZE_ALIGN →
  within I ticks 0 (pkt_write b off bytes) anything.
Proof using Buffer0.
  intros Ho Hl w Hw. destruct (buffer_has w Hw) as (c & Hc & Hlc).
  unfold pkt_write. apply wp_bind, wp_gets. rewrite Hc.
  rewrite (proj2 (Z.leb_le 0 off)), (proj2 (Z.leb_le (off + _) _)) by lia. cbn [andb].
  set (c' := _ ++ _ ++ _). assert (Z.of_nat (length c') = PKTSIZE_ALIGN) as Hc'.
  { subst c'. rewrite !length_app, length_take, length_drop. lia. }
  assert (I (set_pkt b c' w)) as HI by by apply buffer_set.
  destruct b; apply wp_modify; (split_and!; [exact HI|done|cbn [hw with_net]; lia..]).
Qed.

Lemma within_wr8 off v :
  0 ≤ off → off + 1 ≤ PKTSIZE_ALIGN → within I ticks 0 (wr8 b off v) anything.
Proof using Buffer0. intros. apply within_pkt_write; cbn; lia. Qed.

Lemma within_wr16 off v :
  0 ≤ off → off + 2 ≤ PKTSIZE_ALIGN → within I ticks 0 (wr16 b off v) anything.
Proof using Buffer0. intros. apply within_pkt_write; cbn; lia. Qed.

Lemma within_write_ip off v :
  0 ≤ off → off + 4 ≤ PKTSIZE_ALIGN → within I ticks 0 (net_write_ip b off v) anything.
Proof using Buffer0. intros. apply within_pkt_write; cbn; lia. Qed.

Lemma within_send_packet len :
  PortInv I → 0 ≤ len ≤ PKTSIZE_ALIGN → within I ticks 2 (net_send_packet b len) anything.
Proof using Buffer0 Hport.
  intros HI Hl. unfold net_send_packet. eapply within_bind; [apply within_pkt_read; lia|].
  intros v _. within_count. eapply within_bind; [by apply within_eth_send|]. intros ? _.
  within_count. by within_step.
Qed.
End buffer.

#[local] Hint Extern 1 (within _ _ _ (rd8 _ _) _) => apply within_rd8; [apply _|lia..] : within.
#[local] Hint Extern 1 (within _ _ _ (rd16 _ _) _) => apply within_rd16; [apply _|lia..] : within.
#[local] Hint Extern 1 (within _ _ _ (net_read_ip _ _) _) => apply within_read_ip; [apply _|lia..] : within.
#[local] Hint Extern 1 (within _ _ _ (pkt_read _ _ _) _) => apply within_pkt_read; [apply _|lia..] : within.
#[local] Hint Extern 1 (within _ _ _ (wr8 _ _ _) _) => apply within_wr8; [apply _|lia..] : within.
#[local] Hint Extern 1 (within _ _ _ (wr16 _ _ _) _) => apply within_wr16; [apply _|lia..] : within.
#[local] Hint Extern 1 (within _ _ _ (net_write_ip _ _ _) _) => apply within_write_ip; [apply _|lia..] : within.
#[local] Hint Extern 1 (within _ _ _ (pkt_write _ _ _) _) =>
  apply within_pkt_write; [apply _|lia|cbn [length le16 le32]; lia] : within.
#[local] Hint Extern 1 (within _ _ _ (net_send_packet _ _) _) =>
  apply within_send_packet; [apply _|apply _|lia] : within.
#[local] Hint Extern 1 (within _ _ _ (gets _) _) => apply within_read : within.
#[local] Hint Extern 1 (within _ _ _ (net_var _) _) => apply within_read : within.

(** * Packet handlers *)

(** The handlers may end the wait for an ARP reply and report success. *)
Definition handlers_keep (φ : loop_vars → Prop) : Prop :=
  ∀ v, φ v → φ (mkVars (v_handler v) (v_start v) (v_delta v) (v_tries v) (v_arp_start v)
                  (v_arp_try v) (v_ping v) 0 (v_state v)) ∧
             φ (mkVars (v_handler v) (v_start v) (v_delta v) (v_tries v) (v_arp_start v)
                  (v_arp_try v) (v_ping v) (v_wait v) NETLOOP_SUCCESS).

(** An assignment to a variable that [φ] does not mention. *)
Ltac keep_stack :=
  let w := fresh "w" in let Hf := fresh "Hf" in let H := fresh "H" in
  intros w [[[??? [???? H]] Hf ??] ?]; split; [|done]; split; [|done..]; split; [done..|];
  split; [done..|]; intros _; destruct (H Hf); by split.

Section handlers.
Context (φ : loop_vars → Prop) (Hφ : handlers_keep φ).
Notation within := (within (receiving φ) ticks).

Lemma within_net_mac : within 0 (net_var net_ethaddr) (λ m, length m = 6%nat).
Proof. apply within_gets. by intros w [[[??? []]]]. Qed.

Lemma within_update_ether prot : within 0 (net_update_ether 6 prot) (λ r, 14 ≤ r ≤ 22).
Proof.
  unfold net_update_ether. within_step.
  eapply within_bind; [apply within_pkt_write; [apply _|lia..]|]. intros _ _. within_count.
  eapply within_bind; [apply within_net_mac|]. intros mac Hmac. cbv beta in Hmac. within_count.
  eapply within_bind; [apply within_pkt_write; [apply _|lia..]|]. intros _ _. within_count.
  within_run; lia.
Qed.

Lemma within_is_waiting : within 0 arp_is_waiting anything.
Proof. unfold arp_is_waiting. by do 2 within_step. Qed.

Lemma within_async_buf : within 0 net_get_async_tx_pkt_buf anything.
Proof.
  unfold net_get_async_tx_pkt_buf. eapply within_bind; [apply within_is_waiting|].
  intros [] _; within_count; by within_step.
Qed.

Lemma within_pkt_copy to len :
  0 ≤ len ≤ PKTSIZE_ALIGN → within 0 (pkt_copy to RX len) anything.
Proof.
  intros Hl. unfold pkt_copy. within_step. apply within_pkt_write; [apply _|lia..].
Qed.

Lemma within_copy_ip to from :
  0 ≤ to → 0 ≤ from → to + 4 ≤ PKTSIZE_ALIGN → from + 4 ≤ PKTSIZE_ALIGN →
  within 0 (net_copy_ip RX to from) anything.
Proof. intros. unfold net_copy_ip. within_step. apply within_pkt_write; [apply _|lia..]. Qed.

Lemma within_arp_answer arp : 14 ≤ arp ≤ 22 → within 2 (arp_answer arp) anything.
Proof using Hport.
  intros Ha. unfold arp_answer. eapply within_bind; [apply within_update_ether|]. intros r Hr.
  cbv beta in Hr. within_count. do 2 within_step.
  eapply within_bind; [apply within_pkt_write; [apply _|lia..]|]. intros _ _. within_count.
  eapply within_bind; [apply within_copy_ip; lia|]. intros _ _. within_count.
  eapply within_bind; [apply within_net_mac|]. intros mac Hmac. cbv beta in Hmac. within_count.
  eapply within_bind; [apply within_pkt_write; [apply _|lia..]|]. intros _ _. within_count.
  do 2 within_step. eapply within_bind; [apply within_async_buf|]. intros b _. within_count.
  eapply within_bind; [apply within_pkt_copy; lia|]. intros _ _. within_count.
  within_step.
Qed.

Lemma within_run_rxhand (field : net_globals → option rxhand_f) :
  (∀ n, buffers_ok n → is_Some (field n)) →
  within 0 (h ← net_var field; run_rxhand h) anything.
Proof.
  intros Hf. apply within_bind with (k := 0) (P := is_Some).
  { apply within_gets. intros w [[[??? []] Hfirst _ _] _]. auto. }
  intros h [[] ->]. within_count. by apply within_ret.
Qed.

Lemma within_arp_learn arp : 14 ≤ arp ≤ 22 → within 2 (arp_learn arp) anything.
Proof using Hport Hφ.
  intros Ha. unfold arp_learn. eapply within_bind; [apply within_is_waiting|].
  intros [] _; within_count; cbn [negb]; [|by within_step]. do 2 within_step.
  within_step; [|by within_step]. do 2 within_step. apply within_bind with (k := 0) (P := anything).
  { case_match; [|by within_step]. apply within_net_assign. keep_stack. }
  intros _ _. within_count.
  apply within_bind with (k := 0) (P := is_Some).
  { apply within_gets. intros w [[[??? []] Hfirst _ _] _]. destruct stack_bufs0; auto. }
  intros h [[] ->]. within_count. apply within_bind with (k := 0) (P := anything); [by apply within_ret|].
  intros _ _. within_count.
  eapply within_bind; [apply within_pkt_write; [apply _|lia..]|]. intros _ _. within_count.
  apply within_bind with (k := 0) (P := λ n, 0 ≤ n ≤ PKTSIZE_ALIGN).
  { apply within_gets. intros w [[[??? []] Hfirst _ _] _]. destruct stack_bufs0; auto. }
  intros size Hsize. cbv beta in Hsize. within_count. within_step.
  apply within_bind with (k := 0) (P := anything).
  { apply within_net_assign. intros w [[[??? []] Hf Hv Hh] Hb].
    split; [|done]. split; [|done| |done].
    - split; [done..|]. split; [done..|]. intros _. destruct (stack_bufs0 Hf). by split.
    - by apply Hφ in Hv as [??]. }
  intros _ _. within_count. apply within_bind with (k := 0) (P := anything).
  { apply within_net_assign. keep_stack. }
  intros _ _. within_count. apply within_net_assign. keep_stack.
Qed.

Lemma within_ping_answer ip len :
  14 ≤ ip ≤ 22 → 20 ≤ len → ip + len ≤ PKTSIZE → within 2 (ping_answer ip len) anything.
Proof using Hport.
  intros Hip Hlen Hl. unfold ping_answer.
  eapply within_bind; [apply within_update_ether|]. intros r Hr. cbv beta in Hr. within_count.
  do 2 within_step. eapply within_bind; [apply within_copy_ip; lia|]. intros _ _. within_count.
  do 6 within_step. rewrite (wrap32_small (len - IP_HDR_SIZE)) by lia. do 2 within_step.
  eapply within_bind; [apply within_async_buf|]. intros b _. within_count.
  eapply within_bind; [apply within_pkt_copy; lia|]. intros _ _. within_count. within_step.
Qed.

Lemma within_perform a :
  match a with
  | AnswerArp off | LearnArp off => 14 ≤ off ≤ 22
  | AnswerEcho off len => 14 ≤ off ≤ 22 ∧ 20 ≤ len ∧ off + len ≤ PKTSIZE
  | GotEchoReply _ => False
  | Redirect gateway => length gateway = 4%nat
  | Drop | BadArp _ | ToUdpHandler => True
  end → within 2 (perform a) anything.
Proof using Hport Hφ.
  intros Ha. destruct a as [|len|arp|arp|src|ip len|gateway|]; cbn [perform].
  - by within_step.
  - within_step.
  - by apply within_arp_answer.
  - by apply within_arp_learn.
  - done.
  - destruct Ha as (? & ? & ?). by apply within_ping_answer.
  - destruct gateway as [|b0 [|b1 [|b2 [|b3 [|]]]]]; try discriminate Ha. within_step.
  - eapply within_mono; [apply within_run_rxhand; by intros n []|lia|done].
Qed.
End handlers.

Lemma classify_arp_ok our_ip c off len :
  14 ≤ off ≤ 22 →
  match classify_arp our_ip c off len with
  | AnswerArp arp | LearnArp arp => 14 ≤ arp ≤ 22
  | Drop | BadArp _ => True
  | _ => False
  end.
Proof.
  intros Hoff. unfold classify_arp. destruct (len <? 28); [done|].
  destruct (_ && _); [|done]. destruct (_ =? ARPOP_REQUEST); [done|].
  by destruct (_ =? ARPOP_REPLY).
Qed.

Lemma classify_ip_ok our_ip c off len :
  14 ≤ off ≤ 22 → off + 28 ≤ Z.of_nat (length c) → 20 ≤ be16 c (off + 2) → off + len ≤ PKTSIZE →
  match classify_ip our_ip c off len with
  | AnswerEcho off len => 14 ≤ off ≤ 22 ∧ 20 ≤ len ∧ off + len ≤ PKTSIZE
  | Redirect gateway => length gateway = 4%nat
  | Drop | ToUdpHandler => True
  | GotEchoReply src =>
      byte_at c (off + 9) = IPPROTO_ICMP ∧ byte_at c (off + 20) = ICMP_ECHO_REPLY ∧
      ip_at c (off + 12) = src ∧ ip_checksum_ok (take 20 (drop (Z.to_nat off) c)) = true
  | _ => False
  end.
Proof.
  intros Hoff Hc Hlong Hlen. unfold classify_ip. destruct (ip_accepts our_ip c off len) eqn:Hip; [|done].
  unfold ip_accepts in Hip. rewrite !andb_true_iff in Hip.
  destruct Hip as [[[[[[H28 Hle] Hv] Hopt] Hck] Hdst] Hfrag].
  destruct (Z.eqb_spec (byte_at c (off + 9)) IPPROTO_ICMP) as [Hicmp|].
  2: { destruct (_ =? IPPROTO_UDP); [|done]. by destruct (_ && _). }
  destruct (_ =? ICMP_REDIRECT).
  { destruct (_ =? ICMP_REDIR_HOST); [|done]. rewrite length_take, length_drop. lia. }
  destruct (Z.eqb_spec (byte_at c (off + 20)) ICMP_ECHO_REPLY); [done|].
  destruct (_ =? ICMP_ECHO_REQUEST); [|done]. lia.
Qed.

(** What is asked of a packet's action, by its bytes. *)
Lemma classify_ok our_ip our_vlan native_vlan c len :
  ip_length_ok c → 50 ≤ Z.of_nat (length c) → len ≤ PKTSIZE →
  match classify our_ip our_vlan native_vlan c len with
  | AnswerArp off | LearnArp off => 14 ≤ off ≤ 22
  | AnswerEcho off len => 14 ≤ off ≤ 22 ∧ 20 ≤ len ∧ off + len ≤ PKTSIZE
  | GotEchoReply src => echo_reply_from src c
  | Redirect gateway => length gateway = 4%nat
  | Drop | BadArp _ | ToUdpHandler => True
  end.
Proof.
  intros Hlong Hc Hlen. unfold classify. destruct (Z.ltb_spec len 14) as [|H14]; [done|].
  destruct (demux our_vlan c len) as [[[proto off] vlanid]|] eqn:Hd; [|done].
  assert (14 ≤ off ≤ 22 ∧ (proto = PROT_IP → ip_offset c = Some off)) as [Hoff Hip].
  { unfold demux, ip_offset in *. destruct (be16 c 12 <? 1514).
    { injection Hd as <- <- _. split; [lia|]. by intros ->. }
    destruct (be16 c 12 =? PROT_VLAN) eqn:Hv; cbn [negb] in Hd.
    - destruct (_ || _) in Hd; [done|]. injection Hd as <- <- _. split; [lia|]. by intros ->.
    - injection Hd as <- <- _. split; [lia|]. by intros ->. }
  destruct (vlan_accepts _ _ _); cbn [negb]; [|done].
  destruct (proto =? PROT_ARP).
  { pose proof (classify_arp_ok our_ip c off (len - off) Hoff) as H.
    by destruct (classify_arp _ _ _ _). }
  destruct (Z.eqb_spec proto PROT_IP) as [Hp|]; [|done]. specialize (Hip Hp).
  pose proof (classify_ip_ok our_ip c off (len - off) Hoff ltac:(lia) (Hlong _ Hip) ltac:(lia)) as H.
  destruct (classify_ip _ _ _ _); try done. destruct H as (? & ? & ? & ?). by exists off.
Qed.

Lemma wp_net_process φ c len w :
  handlers_keep φ → (∀ v, φ v → v_ping v = peer) → running φ w →
  Z.of_nat (length c) = PKTSIZE_ALIGN → 0 < len ≤ PKTSIZE → ip_length_ok c →
  (echo_reply_from peer c → heard (hw w)) →
  wp (net_process c len)
    (λ _ w', running φ w' ∧ 0 ≤ ticks (hw w') - ticks (hw w) ≤ 2 * 2000000) w.
Proof using Hport.
  intros Hφ Hpeer Hw Hc Hlen Hlong Hheard. unfold net_process. apply wp_bind.
  eapply wp_same; [apply net_process_spec; lia|].
  pose proof (classify_ok (net_ip (net w)) (net_our_vlan (net w)) (net_native_vlan (net w)) c len
    Hlong ltac:(lia) ltac:(lia)) as Hok.
  assert (receiving φ (rx_world c len w)) as Hrx.
  { destruct Hw as [[??? []] Hf Hv Hh]. split; [|by exists c]. split; [|done..]. split; [done..|].
    split; [done..|]. intros _. destruct (stack_bufs0 Hf). by split. }
  change (ticks (hw w)) with (ticks (hw (rx_world c len w))).
  change (heard (hw w)) with (heard (hw (rx_world c len w))) in Hheard.
  generalize dependent (rx_world c len w). intros w1 Hheard Hrx.
  set (a := classify _ _ _ _ _) in *. clearbody a.
  assert (wp (perform a) (λ _ w', running φ w' ∧
    0 ≤ ticks (hw w') - ticks (hw w1) ≤ 2 * 2000000) w1) as Hp.
  { assert ((∃ src, a = GotEchoReply src) ∨ ∀ src, a ≠ GotEchoReply src) as [[src ->]|Hno]
      by (destruct a; eauto).
    - cbn [perform]. apply wp_bind, wp_gets. destruct Hrx as [Hrun _].
      destruct (Z.eqb_spec src (net_ping_ip (net w1))) as [->|]; [|by apply wp_ret; split; [|lia]].
      apply wp_modify. split; [|cbn [hw with_net]; lia]. destruct Hrun as [[??? []] Hf Hv Hh].
      pose proof (Hpeer _ Hv) as Hping. apply Hφ in Hv as [_ Hv]. cbn in Hping. rewrite Hping in Hok.
      split; [|done|done|by auto]. split; [done..|]. split; [done..|]. intros _.
      destruct (stack_bufs0 Hf). by split.
    - eapply wp_mono; [apply (within_perform φ Hφ a); [|exact Hrx]|].
      + destruct a; try done. by eapply Hno.
      + intros _ w' ([Hw' _] & _ & Ht). split; [done|lia]. }
  eapply wp_mono; [exact Hp|]. intros u w' Hw'. apply wp_bind, wp_gets, wp_ret. exact Hw'.
Qed.

Lemma within_rx_loop φ n d flags ret :
  handlers_keep φ → (∀ v, φ v → v_ping v = peer) →
  within (running φ) ticks (4 * Z.of_nat n) (eth_rx_loop n net_process d flags ret) anything.
Proof using Hport.
  intros Hφ Hpeer. revert flags ret. induction n as [|n IH]; intros flags ret; cbn [eth_rx_loop].
  { by apply within_ret. }
  intros w Hw. apply wp_bind, wp_hw_call.
  destruct (port_recv d flags (hw w)) as [Hm Hr]; [apply Hw|].
  destruct (eth_ops_recv d flags (hw w)) as [[r packet] h]. cbn [fst snd] in *.
  assert (running φ (with_hw h w)) as Hw1 by by apply inv_hw.
  pose proof Hm as (_ & Ht1 & _). unfold takes in Ht1.
  apply wp_bind. eapply wp_mono with (P := λ _ w', running φ w' ∧
    0 ≤ ticks (hw w') - ticks h ≤ 2 * 2000000).
  { destruct (Z.ltb_spec 0 r) as [Hpos|]; [|apply wp_ret; split; [done|cbn [hw with_hw]; lia]].
    destruct (Hr Hpos) as (? & ? & ? & ?). by apply (wp_net_process φ packet r (with_hw h w)). }
  intros packet' w2 [Hw2 Ht2]. apply wp_bind. eapply wp_mono with (P := λ _ w', running φ w' ∧
    0 ≤ ticks (hw w') - ticks (hw w2) ≤ 2000000).
  { destruct (eth_ops_free_pkt d) as [f|] eqn:Hf; [|apply wp_ret; split; [done|lia]].
    destruct (0 <=? r); [|apply wp_ret; split; [done|lia]].
    assert (moves 0 (hw w2) (f packet' r (hw w2))) as Hfr.
    { apply (port_free d); [done|apply Hw2]. }
    apply wp_hw_do. split; [by apply inv_hw|]. destruct Hfr as (_ & Ht3 & _). unfold takes in Ht3.
    cbn [hw with_hw]. lia. }
  intros _ w3 [Hw3 Ht3]. destruct (r <=? 0).
  - apply wp_ret. split_and!; [done|done|lia..].
  - eapply wp_mono; [by apply IH|]. intros r' w4 (Hw4 & _ & Ht4). split_and!; [done|done|lia..].
Qed.

Lemma within_eth_rx φ :
  handlers_keep φ → (∀ v, φ v → v_ping v = peer) →
  within (running φ) ticks 129 (eth_rx net_process) anything.
Proof using Hport.
  intros Hφ Hpeer. unfold eth_rx. eapply within_bind; [apply (within_get_dev (running φ))|].
  intros [d|] _; within_count; [|by within_step].
  eapply within_bind; [apply within_is_active|]. intros [] _; within_count; [|by within_step].
  eapply within_bind; [by apply within_rx_loop|]. intros r _. within_count. by within_step.
Qed.

(** * The packet loop *)

Lemma running_mono (φ ψ : loop_vars → Prop) w :
  (∀ v, φ v → ψ v) → running φ w → running ψ w.
Proof. intros H []. split; auto. Qed.

#[local] Instance eta_loop_vars : Eta loop_vars := λ v,
  mkVars (v_handler v) (v_start v) (v_delta v) (v_tries v) (v_arp_start v) (v_arp_try v) (v_ping v)
    (v_wait v) (v_state v).

(** The invariant with the variables known. *)
Notation at_vars V := (running (λ v, v = V)).

Section requests.
Context (φ : loop_vars → Prop).
Notation within := (within (running φ) ticks).

Lemma within_set_ether b dest prot :
  Buffer (running φ) b → length dest = 6%nat →
  within 0 (net_set_ether b dest prot) (λ r, 14 ≤ r ≤ 18).
Proof.
  intros Hb Hd. unfold net_set_ether. within_step.
  eapply within_bind; [apply within_pkt_write; [apply _|lia..]|]. intros _ _. within_count.
  eapply within_bind.
  { apply (within_gets _ _ _ (λ m, length m = 6%nat)). by intros w [[??? []]]. }
  intros mac Hmac. cbv beta in Hmac. within_count.
  eapply within_bind; [apply within_pkt_write; [apply _|lia..]|]. intros _ _. within_count.
  within_run; lia.
Qed.

Lemma within_arp_raw_request source target : within 2 (arp_raw_request source net_null_ethaddr target) anything.
Proof using Hport.
  unfold arp_raw_request. eapply within_bind; [apply within_set_ether; [apply _|done]|]. intros r Hr.
  cbv beta in Hr. within_count. do 5 within_step.
  eapply within_bind.
  { apply (within_gets _ _ _ (λ m, length m = 6%nat)). by intros w [[??? []]]. }
  intros mac Hmac. cbv beta in Hmac. within_count.
  eapply within_bind; [apply within_pkt_write; [apply _|lia..]|]. intros _ _. within_count.
  within_step. eapply within_bind; [apply within_pkt_write; [apply _|lia|cbn; lia]|].
  intros _ _. within_count. within_step. within_step.
Qed.

Lemma within_arp_request : within 2 arp_request anything.
Proof using Hport.
  unfold arp_request. do 3 within_step. apply within_bind with (k := 0) (P := anything).
  { assert (∀ ip, within 0 (net_assign net_arp_wait_reply_ip ip) anything) as Hset.
    { intros ip. apply within_net_assign. intros w [[??? [???? Hst]] Hf ??]. split; [|done..].
      split; [done..|]. split; [done..|]. intros _. destruct (Hst Hf). by split. }
    within_step; [|apply Hset]. within_step. within_step; [within_step|]; apply Hset. }
  intros _ _. within_count. within_step. apply within_arp_raw_request.
Qed.
End requests.

(** The timer, against a time base in milliseconds. *)
Definition elapsed (since : Z) (h : HW) : Z := wrap32 (ticks h / 1000 - since).

Lemma timer_since since h :
  sane h → wrap32 ((get_timer 0 h).1 - since) = elapsed since h.
Proof using Hport.
  intros Hh. destruct (port_timer 0 h Hh) as [_ ->]. unfold elapsed, wrap32.
  rewrite Zminus_mod_idemp_l. f_equal. lia.
Qed.

(** [arp_timeout_check] leaves the wait alone within its time, sends the
    request again, or gives up. *)
Lemma wp_arp_timeout V w :
  at_vars V w →
  wp arp_timeout_check (λ r w', 0 ≤ ticks (hw w') - ticks (hw w) ≤ 3 * 2000000 ∧
    r = (if v_wait V =? 0 then 0 else 1) ∧
    ((v_wait V ≠ 0 → elapsed (v_arp_start V) (hw w) ≤ ARP_TIMEOUT) ∧ at_vars V w' ∨
     v_wait V ≠ 0 ∧ v_arp_try V + 1 < ARP_TIMEOUT_COUNT ∧
       at_vars (V <| v_arp_try := v_arp_try V + 1 |>
                  <| v_arp_start := wrap32 (ticks (hw w) / 1000) |>) w' ∨
     at_vars (V <| v_arp_try := 0 |> <| v_state := NETLOOP_FAIL |>) w')) w.
Proof using Hport.
  intros Hw. assert (vars (net w) = V) as HV by apply Hw.
  assert (sane (hw w)) as Hs by apply Hw.
  unfold arp_timeout_check, arp_is_waiting. apply wp_bind, wp_bind, wp_gets, wp_ret.
  replace (net_arp_wait_packet_ip (net w)) with (v_wait V) by by rewrite <- HV.
  unfold nonzero. destruct (Z.eqb_spec (v_wait V) 0) as [H0|Hnz]; cbn [negb].
  { apply wp_ret. split_and!; [lia|lia|done|left; done]. }
  apply wp_bind, wp_hw_call. destruct (port_timer 0 (hw w) Hs) as [Hm Ht].
  pose proof (timer_since (v_arp_start V) (hw w) Hs) as Hel.
  set (t := (get_timer 0 (hw w)).1) in *. set (h := (get_timer 0 (hw w)).2) in *.
  assert (at_vars V (with_hw h w)) as Hw1 by by apply inv_hw.
  destruct Hm as (_ & Htk & _). unfold takes in Htk. apply wp_bind, wp_gets. cbn [hw with_hw net].
  replace (arp_wait_timer_start (net w)) with (v_arp_start V) by by rewrite <- HV.
  rewrite Hel. apply wp_bind. unfold ARP_TIMEOUT in *. rewrite Z.gtb_ltb.
  destruct (Z.ltb_spec 5000 (elapsed (v_arp_start V) (hw w))) as [Hlate|Hearly].
  - apply wp_bind, wp_gets. cbn [hw with_hw net].
    replace (arp_wait_try (net w)) with (v_arp_try V) by by rewrite <- HV.
    apply wp_bind, wp_modify. unfold ARP_TIMEOUT_COUNT.
    destruct (Z.leb_spec 10 (v_arp_try V + 1)) as [Hmax|Hmore].
    + apply wp_bind, wp_modify. apply wp_bind, wp_modify. apply wp_modify, wp_ret.
      cbn [hw with_hw with_net emit with_console net]. split_and!; [lia|lia|done|]. right. right.
      destruct Hw1 as [[??? [???? H]] Hf Hv Hh]. split; [|done| |done].
      * split; [done..|]. split; [done..|]. intros _. destruct (H Hf). by split.
      * cbn. by rewrite <- Hv.
    + apply wp_bind, wp_modify.
      match goal with |- wp _ _ ?w2 => assert (at_vars (V <| v_arp_try := v_arp_try V + 1 |>
        <| v_arp_start := wrap32 (ticks (hw w) / 1000) |>) w2) as Hw2 end.
      { destruct Hw1 as [[??? [???? H]] Hf Hv Hh]. split; [|done| |done].
        - split; [done..|]. split; [done..|]. intros _. destruct (H Hf). by split.
        - cbn. rewrite <- Hv. cbn. by rewrite Ht, Z.sub_0_r. }
      eapply wp_mono; [by apply within_arp_request|]. intros u w3 (Hw3 & _ & Ht3). apply wp_ret.
      cbn [hw with_hw with_net] in Ht3. split_and!; [lia|lia|done|]. right. left. done.
  - apply wp_ret, wp_ret. split_and!; [cbn [hw with_hw]; lia|cbn [hw with_hw]; lia|done|].
    left. split; [lia|done].
Qed.

(** The variables after packets have been handled. *)
Definition after_rx (V v : loop_vars) : Prop :=
  ∃ wt st, v = V <| v_wait := wt |> <| v_state := st |> ∧ (wt = v_wait V ∨ wt = 0) ∧
    (st = v_state V ∨ st = NETLOOP_SUCCESS).

Lemma after_rx_keep V : handlers_keep (after_rx V).
Proof.
  intros v (wt & st & -> & Hwt & Hst). split.
  - by exists 0, st; split_and!; [|right|].
  - by exists wt, NETLOOP_SUCCESS; split_and!; [| |right].
Qed.

Lemma wp_eth_rx V w :
  at_vars V w → v_ping V = peer →
  wp (eth_rx net_process) (λ _ w', running (after_rx V) w' ∧
    0 ≤ ticks (hw w') - ticks (hw w) ≤ 129 * 2000000) w.
Proof using Hport.
  intros Hw Hp. eapply wp_mono; [apply (within_eth_rx (after_rx V))|].
  - apply after_rx_keep.
  - by intros v (wt & st & -> & _).
  - eapply running_mono; [|exact Hw]. intros v ->. exists (v_wait V), (v_state V).
    split_and!; [by destruct V|by left..].
  - intros u w' (Hw' & _ & Ht). done.
Qed.

Lemma running_at φ w : running φ w → at_vars (vars (net w)) w.
Proof. intros []. by split. Qed.

Lemma wp_ctrlc φ w :
  running φ w →
  wp ctrlc (λ _ w', running φ w' ∧ 1 ≤ ticks (hw w') - ticks (hw w) ≤ 2 * 2000000) w.
Proof using Hport.
  intros Hw. unfold ctrlc. apply wp_bind, wp_gets.
  replace (ctrlc_disabled (net w)) with 0 by (symmetry; apply Hw). change (negb (nonzero 0)) with true.
  cbv iota. apply wp_bind, wp_hw_call.
  destruct (port_tstc (hw w)) as (Hs & Ht & Hh); [apply Hw|].
  set (h := (tstc (hw w)).2) in *. unfold takes in Ht.
  assert (running φ (with_hw h w)) as Hw1.
  { apply inv_hw; [done|]. split_and!; [done|unfold takes; lia|done]. }
  destruct (tstc (hw w)).1; [|apply wp_ret; split; [done|cbn [hw with_hw]; lia]].
  apply wp_bind, wp_hw_call. cbn [hw with_hw].
  pose proof (port_getc h Hs) as Hm. pose proof Hm as (_ & Ht2 & _).
  unfold takes in Ht2. assert (running φ (with_hw (getc h).2 (with_hw h w))) as Hw2 by by apply inv_hw.
  destruct ((getc h).1 =? 3); [|apply wp_ret; split; [done|cbn [hw with_hw]; lia]].
  apply wp_bind, wp_modify, wp_ret. split; [|cbn [hw with_hw with_net]; lia].
  destruct Hw2 as [[??? [???? H]] Hf Hv Hheard]. split; [|done..]. split; [done..|]. split; [done..|].
  intros _. destruct (H Hf). by split.
Qed.

(** A change of the state to failure. *)
Lemma at_vars_fail V w :
  at_vars V w → at_vars (V <| v_state := NETLOOP_FAIL |>) (with_net (net w <| net_state := NETLOOP_FAIL |>) w).
Proof.
  intros [[??? [???? H]] Hf Hv Hh]. split; [|done| |done].
  - split; [done..|]. split; [done..|]. intros _. destruct (H Hf). by split.
  - cbn. by rewrite <- Hv.
Qed.

Lemma wp_check_timeout V w :
  at_vars V w →
  wp net_check_timeout (λ _ w', 0 ≤ ticks (hw w') - ticks (hw w) ≤ 3 * 2000000 ∧
    ((v_handler V = None ∨ elapsed (v_start V) (hw w) ≤ v_delta V) ∧ at_vars V w' ∨
     at_vars (V <| v_handler := None |> <| v_state := NETLOOP_FAIL |>) w')) w.
Proof using Hport.
  intros Hw. assert (vars (net w) = V) as HV by apply Hw. assert (sane (hw w)) as Hs by apply Hw.
  unfold net_check_timeout. apply wp_bind, wp_gets.
  replace (time_handler (net w)) with (v_handler V) by by rewrite <- HV.
  destruct (v_handler V) as [x|] eqn:Hx; [|apply wp_ret; split; [lia|left; split; [by left|done]]].
  apply wp_bind, wp_hw_call. pose proof (timer_since (v_start V) (hw w) Hs) as Hel.
  destruct (port_timer 0 (hw w) Hs) as [Hm _].
  set (t := (get_timer 0 (hw w)).1) in *. set (h := (get_timer 0 (hw w)).2) in *.
  assert (at_vars V (with_hw h w)) as Hw1 by by apply inv_hw.
  destruct Hm as (_ & Htk & _). unfold takes in Htk. apply wp_bind, wp_gets, wp_bind, wp_gets.
  cbn [hw with_hw net].
  replace (time_start (net w)) with (v_start V) by by rewrite <- HV.
  replace (time_delta (net w)) with (v_delta V) by by rewrite <- HV.
  rewrite Hel, Z.gtb_ltb.
  destruct (Z.ltb_spec (v_delta V) (elapsed (v_start V) (hw w))) as [Hlate|Hearly].
  2: { apply wp_ret. split; [cbn [hw with_hw]; lia|]. left. split; [by right|done]. }
  assert (x = ping_timeout_handler) as ->.
  { destruct x; [done|]. destruct Hw as [[??? []] _ _ _]. destruct stack_timer0.
    by rewrite <- HV in Hx. }
  apply wp_bind, wp_modify. cbn [run_thand].
  match goal with |- wp _ _ ?w2 => assert (at_vars (V <| v_handler := None |>) w2) as Hw2 end.
  { destruct Hw1 as [[??? [???? H]] Hf Hv Hh]. split; [|done| |done].
    - split; [done..|]. split; [done..|]. intros _. destruct (H Hf). by split.
    - cbn. by rewrite <- Hv. }
  apply wp_bind. eapply wp_mono; [by apply (within_halt (running (λ v, v = V <| v_handler := None |>)))|].
  intros u w3 (Hw3 & _ & Ht3). apply wp_modify. cbn [hw with_net with_hw] in *.
  split; [lia|]. right. by apply at_vars_fail in Hw3.
Qed.

(** Without [netretry] a failure is final. *)
Lemma wp_start_again V w :
  at_vars V w → v_tries V = 1 →
  wp net_start_again (λ r w', at_vars (V <| v_state := NETLOOP_FAIL |>) w') w.
Proof using Hport.
  intros Hw Hone. unfold net_start_again, env_value. apply wp_bind, wp_gets.
  rewrite port_retry by apply Hw. cbv beta iota zeta. apply wp_bind, wp_gets.
  replace (net_try_count (net w)) with 1.
  2: { rewrite <- Hone. by replace V with (vars (net w)) by apply Hw. }
  change (negb false && (wrap32 1 >? 0)) with true. cbv iota. apply wp_bind.
  eapply wp_mono; [by apply (within_halt (running (λ v, v = V)))|]. intros u w1 (Hw1 & _ & _).
  apply wp_bind, wp_modify, wp_ret. by apply at_vars_fail.
Qed.

(** ** How long the loop can run *)

(** Microseconds since the millisecond [since]. *)
Definition age (since t : Z) : Z := 1000 * wrap32 (t / 1000 - since) + t mod 1000.

Lemma age_later since t d :
  0 ≤ d → age since t + d < 1000 * 2 ^ 32 → age since (t + d) = age since t + d.
Proof.
  unfold age, wrap32. intros Hd Hlt. set (e := (t / 1000 - since) mod 2 ^ 32) in *.
  pose proof (Z.mod_pos_bound (t / 1000 - since) (2 ^ 32) ltac:(done)) as He. fold e in He.
  pose proof (Z.div_mod t 1000 ltac:(done)). pose proof (Z.mod_pos_bound t 1000 ltac:(done)).
  pose proof (Z.div_mod (t + d) 1000 ltac:(done)). pose proof (Z.mod_pos_bound (t + d) 1000 ltac:(done)).
  replace ((t + d) / 1000 - since) with (t / 1000 - since + ((t + d) / 1000 - t / 1000)) by lia.
  rewrite <- Zplus_mod_idemp_l. fold e. rewrite Z.mod_small by lia. lia.
Qed.

Lemma age_fresh t d : 0 ≤ d < 2 ^ 40 → 0 ≤ age (wrap32 (t / 1000)) (t + d) ≤ d + 999.
Proof.
  unfold age, wrap32. intros Hd. rewrite Zminus_mod_idemp_r.
  pose proof (Z.div_mod t 1000 ltac:(done)). pose proof (Z.mod_pos_bound t 1000 ltac:(done)).
  pose proof (Z.div_mod (t + d) 1000 ltac:(done)). pose proof (Z.mod_pos_bound (t + d) 1000 ltac:(done)).
  rewrite Z.mod_small by lia. lia.
Qed.

Lemma age_elapsed since h : 0 ≤ age since (ticks h) ≤ 1000 * elapsed since h + 999.
Proof.
  unfold age, elapsed, wrap32.
  pose proof (Z.mod_pos_bound (ticks h / 1000 - since) (2 ^ 32) ltac:(done)).
  pose proof (Z.mod_pos_bound (ticks h) 1000 ltac:(done)). lia.
Qed.

(** The clock that the loop watches: the one of the ARP request, or the
    timeout's. *)
Definition since (V : loop_vars) : Z := if v_wait V =? 0 then v_start V else v_arp_start V.

Definition LIMIT : Z := 320 * 1000000.

(** A bound of the time left, in microseconds: every ARP request gets twice
    [LIMIT], the echo reply [LIMIT]. *)
Definition time_left (V : loop_vars) (t : Z) : Z :=
  match v_state V with
  | NETLOOP_CONTINUE =>
      (if v_wait V =? 0 then 0 else (ARP_TIMEOUT_COUNT - v_arp_try V) * (2 * LIMIT))
      + LIMIT - age (since V) t
  | _ => 0
  end.

(** The variables at the start of a round at time [t]. *)
Record round_vars (V : loop_vars) (t : Z) : Prop := {
  rv_tries : v_tries V = 1;
  rv_ping : v_ping V = peer;
  rv_state : v_state V = NETLOOP_CONTINUE ∨ v_state V = NETLOOP_FAIL;
  rv_handler : v_state V = NETLOOP_CONTINUE →
    v_handler V = Some ping_timeout_handler ∧ v_delta V = 10000;
  rv_try : v_state V = NETLOOP_CONTINUE → v_wait V ≠ 0 → 1 ≤ v_arp_try V < ARP_TIMEOUT_COUNT;
  rv_age : v_state V = NETLOOP_CONTINUE → age (since V) t ≤ LIMIT;
}.

(** One round without an answer brings the end nearer: [V1] is what
    [arp_timeout_check] left, at [t1] the time base was set, [wt] tells
    whether the ARP request is still open, and at [t4] the timeout was
    checked. *)
Lemma round_progress V V1 wt t t1 h4 t' :
  round_vars V t → v_state V = NETLOOP_CONTINUE →
  t ≤ t1 → t1 ≤ ticks h4 → t + 1 ≤ ticks h4 → ticks h4 ≤ t' ≤ ticks h4 + 3 * 2000000 →
  t' ≤ t + 140 * 2000000 →
  (v_wait V ≠ 0 → age (v_arp_start V) t ≤ 1000 * ARP_TIMEOUT + 999) ∧ V1 = V ∨
  v_wait V ≠ 0 ∧ v_arp_try V + 1 < ARP_TIMEOUT_COUNT ∧
    V1 = V <| v_arp_try := v_arp_try V + 1 |> <| v_arp_start := wrap32 (t / 1000) |> →
  wt = v_wait V ∨ wt = 0 →
  let V2 := if v_wait V =? 0 then V1 else V1 <| v_start := wrap32 (t1 / 1000) |> in
  let V3 := V2 <| v_wait := wt |> in
  elapsed (v_start V3) h4 ≤ v_delta V3 →
  round_vars V3 t' ∧ time_left V3 t' < time_left V t.
Proof.
  intros [Htr Hpi _ Hha Hty Hag] Hst H1 H2 H3 H4 Hd Harp Hwt V2 V3 Hel.
  destruct (Hha Hst) as [Hh Hdel]. specialize (Hty Hst). specialize (Hag Hst).
  unfold ARP_TIMEOUT, ARP_TIMEOUT_COUNT, LIMIT in *.
  pose proof (age_elapsed (v_start V3) h4) as He.
  assert (v_state V3 = NETLOOP_CONTINUE ∧ v_delta V3 = 10000 ∧ v_tries V3 = 1 ∧ v_ping V3 = peer ∧
    v_handler V3 = Some ping_timeout_handler ∧ v_wait V3 = wt) as (HS & HD & HT & HP & HH & HWt).
  { subst V3 V2. destruct Harp as [[_ ->]|(_ & _ & ->)]; by destruct (v_wait V =? 0). }
  rewrite HD in Hel.
  assert ((v_wait V3 ≠ 0 → 1 ≤ v_arp_try V3 < 10) ∧ age (since V3) t' ≤ 320 * 1000000 ∧
    time_left V3 t' < time_left V t) as (? & ? & ?); [|split; [split|]; auto].
  unfold time_left, since, LIMIT, ARP_TIMEOUT_COUNT in *. rewrite HS, Hst, HWt.
  pose proof (age_later (v_start V3) (ticks h4) (t' - ticks h4)) as Hl3.
  replace (ticks h4 + (t' - ticks h4)) with t' in Hl3 by lia.
  destruct (Z.eqb_spec wt 0) as [->|Hwt0].
  - split; [done|]. rewrite Hl3 by lia. split; [lia|].
    destruct (Z.eqb_spec (v_wait V) 0) as [H0|H0].
    + destruct Harp as [[_ ->]|[? _]]; [|done]. subst V3 V2. cbn [v_start] in *.
      pose proof (age_later (v_start V) t (t' - t)) as Hl. replace (t + (t' - t)) with t' in Hl by lia.
      cbn in *. lia.
    + specialize (Hty H0). lia.
  - assert (wt = v_wait V) as -> by by destruct Hwt.
    subst V3 V2. rewrite (proj2 (Z.eqb_neq _ _) Hwt0) in *. specialize (Hty Hwt0).
    destruct Harp as [[Ha ->]|(_ & Hk & ->)]; cbn in *.
    + pose proof (age_later (v_arp_start V) t (t' - t)) as Hl.
      replace (t + (t' - t)) with t' in Hl by lia. specialize (Ha Hwt0).
      split; [lia|]. rewrite Hl by lia. lia.
    + pose proof (age_fresh t (t' - t)) as Hl. replace (t + (t' - t)) with t' in Hl by lia. lia.
Qed.

(** ** One round *)

(** The end of the loop. *)
Definition ended (ret : Z) w : Prop := net_inv w ∧ (0 ≤ ret → ret = 0 ∧ heard (hw w)).

Lemma keeps_cleanup st : keeps (running (λ v, v_state v = st)) net_cleanup_loop anything.
Proof.
  assert (∀ w n, running (λ v, v_state v = st) w → stack_ok n → first_call n = false →
    net_state n = net_state (net w) → rest (with_net n w) = rest w →
    running (λ v, v_state v = st) (with_net n w)) as Hset.
  { intros w n [[] Hf Hv Hh] Hn Hfirst Hs Hr. split; [|done|by cbn in *; rewrite Hs..].
    split; [done|by rewrite Hr|done..]. }
  unfold net_cleanup_loop, net_clear_handlers, net_set_udp_handler, net_set_arp_handler.
  do 2 (eapply keeps_bind; [apply keeps_modify; intros w Hw; apply Hset; try done; [|apply Hw];
    pose proof (run_first _ _ Hw) as Hf; destruct (ni_stack _ _ (run_inv _ _ Hw)) as [???? H];
    split; [done..|]; intros _; destruct (H Hf); by split|intros _ _]).
  apply keeps_modify. intros w Hw. apply Hset; try done; [|apply Hw].
  pose proof (run_first _ _ Hw) as Hf. destruct (ni_stack _ _ (run_inv _ _ Hw)) as [???? H].
  split; [done..|]. intros _. destruct (H Hf). by split.
Qed.

Lemma keeps_run_halt φ : keeps (running φ) eth_halt anything.
Proof using Hport. eapply within_keeps, (within_halt (running φ)). Qed.

(** What follows the checks of a round, in the state that is reached. *)
Lemma wp_round_state V w :
  at_vars V w → v_tries V = 1 → v_state V ≠ NETLOOP_RESTART →
  wp (state ← net_var net_state;
      _ ← (if bool_decide (state = NETLOOP_FAIL) then _ ← net_start_again; mret tt else mret tt);
      state ← net_var net_state;
      match state with
      | NETLOOP_RESTART => _ ← net_assign net_restarted 1; mret RoundRestart
      | NETLOOP_SUCCESS =>
          _ ← net_cleanup_loop;
          size ← net_var net_boot_file_size;
          _ ← (if 0 <? size then
                 _ ← printf ("Bytes transferred = %d (%x hex)" +:+ newline) [VInt size; VInt size];
                 _ ← env_set_hex "filesize" size;
                 addr ← net_var image_load_addr;
                 _ ← env_set_hex "fileaddr" addr;
                 mret tt
               else mret tt);
          _ ← eth_halt;
          mret (RoundDone (sign 32 size))
      | NETLOOP_FAIL => _ ← net_cleanup_loop; mret (RoundDone (- ENONET))
      | NETLOOP_CONTINUE => mret RoundAgain
      end)
    (λ r w', match r with
     | RoundAgain => v_state V = NETLOOP_CONTINUE ∧ w' = w
     | RoundRestart => False
     | RoundDone ret => ended ret w'
     end) w.
Proof using Hport.
  intros Hw Hone Hst. assert (vars (net w) = V) as HV by apply Hw. apply wp_bind, wp_gets.
  replace (net_state (net w)) with (v_state V) by by rewrite <- HV.
  assert (∀ w', at_vars (V <| v_state := NETLOOP_FAIL |>) w' → wp (_ ← net_cleanup_loop; mret (RoundDone (- ENONET)))
    (λ r w', match r with RoundAgain => v_state V = NETLOOP_CONTINUE ∧ w' = w | RoundRestart => False
     | RoundDone ret => ended ret w' end) w') as Hfail.
  { intros w' Hw'. apply wp_bind. eapply wp_mono; [apply (keeps_cleanup NETLOOP_FAIL)|].
    - eapply running_mono; [|exact Hw']. by intros v ->.
    - intros u w1 [Hw1 _]. apply wp_ret. split; [apply Hw1|]. lia. }
  destruct (v_state V) eqn:HS; [| |rewrite bool_decide_eq_false_2 by done|].
  - rewrite bool_decide_eq_false_2 by done. apply wp_bind, wp_ret, wp_bind, wp_gets.
    replace (net_state (net w)) with (v_state V) by by rewrite <- HV. rewrite HS. by apply wp_ret.
  - done.
  - apply wp_bind, wp_ret, wp_bind, wp_gets.
    replace (net_state (net w)) with (v_state V) by by rewrite <- HV. rewrite HS. apply wp_bind.
    eapply wp_mono; [apply (keeps_cleanup NETLOOP_SUCCESS); eapply running_mono; [|exact Hw]; by intros v ->|].
    intros u w1 [Hw1 _]. apply wp_bind, wp_gets.
    replace (net_boot_file_size (net w1)) with 0 by (symmetry; apply Hw1).
    change (0 <? 0) with false. apply wp_bind, wp_ret, wp_bind.
    eapply wp_mono; [by apply keeps_run_halt|]. intros u' w2 [Hw2 _]. apply wp_ret.
    split; [apply Hw2|]. intros _. split; [done|]. apply Hw2. exact (run_vars _ _ Hw2).
  - rewrite bool_decide_eq_true_2 by done. apply wp_bind, wp_bind.
    eapply wp_mono; [by apply wp_start_again|]. intros r w1 Hw1. apply wp_ret, wp_bind, wp_gets.
    assert (net_state (net w1) = NETLOOP_FAIL) as ->.
    { change (net_state (net w1)) with (v_state (vars (net w1))). by rewrite (run_vars _ _ Hw1). }
    by apply Hfail.
Qed.

(** The abort by Ctrl-C. *)
Lemma wp_abort φ w :
  running φ w →
  wp (_ ← net_assign net_arp_wait_packet_ip 0;
      _ ← net_cleanup_loop;
      _ ← eth_halt;
      _ ← puts (newline +:+ "Abort" +:+ newline);
      mret (RoundDone (- EINTR)))
    (λ r w', match r with RoundDone ret => ended ret w' | _ => False end) w.
Proof using Hport.
  intros Hw. apply wp_bind, wp_modify, wp_bind.
  eapply wp_mono; [apply (keeps_cleanup (net_state (net w)))|].
  { destruct Hw as [[??? [???? H]] Hf Hv Hh]. split; [|done..]. split; [done..|]. split; [done..|].
    intros _. destruct (H Hf). by split. }
  intros u w1 [Hw1 _]. apply wp_bind. eapply wp_mono; [by apply keeps_run_halt|].
  intros u' w2 [Hw2 _]. apply wp_bind, wp_modify, wp_ret. split; [|lia].
  destruct (run_inv _ _ Hw2). by split.
Qed.

(** The variables after the ARP check, when it lets the loop go on. *)
Definition arp_step V V1 (t : Z) : Prop :=
  v_state V = NETLOOP_CONTINUE ∧ v_wait V1 = v_wait V ∧
  ((v_wait V ≠ 0 → age (v_arp_start V) t ≤ 1000 * ARP_TIMEOUT + 999) ∧ V1 = V ∨
   v_wait V ≠ 0 ∧ v_arp_try V + 1 < ARP_TIMEOUT_COUNT ∧
   V1 = V <| v_arp_try := v_arp_try V + 1 |> <| v_arp_start := wrap32 (t / 1000) |>).

Lemma wp_arp_step V w :
  at_vars V w → round_vars V (ticks (hw w)) →
  wp arp_timeout_check (λ waiting w1,
    0 ≤ ticks (hw w1) - ticks (hw w) ≤ 3 * 2000000 ∧ waiting = (if v_wait V =? 0 then 0 else 1) ∧
    ∃ V1, at_vars V1 w1 ∧ v_tries V1 = 1 ∧ v_ping V1 = peer ∧ v_state V1 ≠ NETLOOP_RESTART ∧
      (v_state V1 = NETLOOP_CONTINUE → arp_step V V1 (ticks (hw w)))) w.
Proof using Hport.
  intros Hw HV. eapply wp_mono; [by apply wp_arp_timeout|]. intros waiting w1 (Ht1 & -> & Harp).
  split; [done|]. split; [done|]. destruct HV as [Htr Hpi Hst _ _ _]. unfold arp_step.
  destruct Harp as [[Hel H]|[(H0 & Hk & H)|H]]; eexists; (split; [exact H|]); cbn;
    split_and!; try done; try (by destruct Hst as [->| ->]).
  - intros Hc. split_and!; [done..|]. left. split; [|done]. intros H0.
    pose proof (age_elapsed (v_arp_start V) (hw w)). specialize (Hel H0). lia.
  - intros Hc. split_and!; [done..|]. right. done.
Qed.

(** While a reply to ARP is awaited the time of the ping starts afresh. *)
Definition fresh_start V (t : Z) V1 := if v_wait V =? 0 then V1 else V1 <| v_start := wrap32 (t / 1000) |>.

Lemma fresh_vars V t V1 :
  v_tries (fresh_start V t V1) = v_tries V1 ∧ v_ping (fresh_start V t V1) = v_ping V1 ∧
  v_state (fresh_start V t V1) = v_state V1 ∧ v_wait (fresh_start V t V1) = v_wait V1 ∧
  v_handler (fresh_start V t V1) = v_handler V1.
Proof. unfold fresh_start. by destruct (v_wait V =? 0). Qed.

Lemma wp_fresh V V1 w :
  at_vars V1 w →
  wp (if 0 <? (if v_wait V =? 0 then 0 else 1) then t ← hw_call (get_timer 0); net_assign time_start t
      else mret tt)
    (λ _ w', ∃ t, at_vars (fresh_start V t V1) w' ∧ ticks (hw w) ≤ t ≤ ticks (hw w') ∧
       ticks (hw w') ≤ ticks (hw w) + 2000000) w.
Proof using Hport.
  intros Hw. unfold fresh_start. destruct (Z.eqb_spec (v_wait V) 0) as [H0|H0]; cbn [Z.ltb Z.compare].
  - apply wp_ret. exists (ticks (hw w)). split; [done|lia].
  - apply wp_bind, wp_hw_call. assert (sane (hw w)) as Hs by apply Hw.
    destruct (port_timer 0 (hw w) Hs) as [Hm Ht]. rewrite Ht.
    apply wp_modify. exists (ticks (hw w)). pose proof Hm as (_ & Htk & _). unfold takes in Htk.
    cbn [hw with_hw with_net]. split; [|lia].
    assert (at_vars V1 (with_hw (get_timer 0 (hw w)).2 w)) as [[??? [???? H]] Hf Hv Hh]
      by by apply inv_hw.
    split; [|done| |done].
    + split; [done..|]. split; [done..|]. intros _. destruct (H Hf). by split.
    + cbn. rewrite <- Hv. cbn. by rewrite Z.sub_0_r.
Qed.

(** A round ends the loop or brings its end nearer. *)
Lemma wp_net_round V w :
  at_vars V w → round_vars V (ticks (hw w)) →
  wp net_round (λ r w', match r with
    | RoundAgain => ∃ V', at_vars V' w' ∧ round_vars V' (ticks (hw w')) ∧
        time_left V' (ticks (hw w')) < time_left V (ticks (hw w))
    | RoundRestart => False
    | RoundDone ret => ended ret w'
    end) w.
Proof using Hport.
  intros Hw HV. unfold net_round. apply wp_bind. eapply wp_mono; [by apply wp_arp_step|].
  intros waiting w1 (Ht1 & -> & V1 & Hw1 & Htr & Hpi & Hst & Hcont). apply wp_bind.
  eapply wp_mono; [by apply (wp_fresh V V1)|]. intros u w2 (t1 & Hw2 & Ht & Ht2). clear u.
  destruct (fresh_vars V t1 V1) as (Htr2 & Hpi2 & Hst2 & Hwt2 & Hhan2). rewrite Htr in Htr2. rewrite Hpi in Hpi2.
  apply wp_bind. eapply wp_mono; [by apply wp_eth_rx|]. intros u w3 [Hw3 Ht3]. clear u.
  apply wp_bind. eapply wp_mono; [by apply wp_ctrlc|]. intros abort w4 [Hw4 Ht4].
  destruct abort.
  { eapply wp_mono; [by eapply wp_abort|]. by intros [] w'. }
  destruct (run_vars _ _ Hw4) as (wt & st & HV4 & Hwt & Hstt). apply running_at in Hw4.
  rewrite HV4 in Hw4. apply wp_bind. eapply wp_mono; [by apply wp_check_timeout|].
  intros u w5 (Ht5 & Hcase). clear u.
  destruct Hcase as [[Htime Hw5]|Hw5]; (eapply wp_mono; [eapply wp_round_state; [exact Hw5|done|]|]).
  - cbn. destruct Hstt as [->| ->]; [by rewrite Hst2|done].
  - intros [| |ret] w'; [|done|done]. intros [HS ->]. cbn in HS. subst st.
    destruct Hstt as [HS|]; [|done]. rewrite Hst2 in HS. symmetry in HS.
    destruct (Hcont HS) as (HSV & HwV & Hrel).
    eexists. split; [exact Hw5|]. rewrite Hwt2, HwV in Hwt.
    replace ((fresh_start V t1 V1) <| v_wait := wt |> <| v_state := NETLOOP_CONTINUE |>)
      with ((fresh_start V t1 V1) <| v_wait := wt |>) in *.
    2: { rewrite <- HS, <- Hst2. by destruct (fresh_start V t1 V1). }
    apply (round_progress V V1 wt (ticks (hw w)) t1 (hw w4)); try done; try lia.
    destruct Htime as [Hnone|Hel]; [|exact Hel]. exfalso. cbn in Hnone. rewrite Hhan2 in Hnone.
    destruct HV as [_ _ _ Hhan _ _]. destruct (Hhan HSV) as [Hhan' _].
    destruct Hrel as [[_ ->]|(_ & _ & ->)]; cbn in Hnone; congruence.
  - done.
  - intros [| |ret] w'; [|done|done]. by intros [HS _].
Qed.

(** ** The whole loop *)

Lemma time_left_bounds V t :
  round_vars V t → 0 ≤ time_left V t < Z.pos NET_ROUNDS.
Proof.
  intros [_ _ Hst _ Hty Hag]. unfold time_left. change (Z.pos NET_ROUNDS) with (10 ^ 10).
  destruct Hst as [Hst|Hst]; rewrite Hst; [|lia]. specialize (Hty Hst). specialize (Hag Hst).
  assert (0 ≤ age (since V) t).
  { unfold age, wrap32. pose proof (Z.mod_pos_bound (t / 1000 - since V) (2 ^ 32) ltac:(done)).
    pose proof (Z.mod_pos_bound t 1000 ltac:(done)). lia. }
  unfold LIMIT, ARP_TIMEOUT_COUNT in *. destruct (Z.eqb_spec (v_wait V) 0); lia.
Qed.

Lemma ended_state ret st w : ended ret w → ended ret (with_net (net w <| net_state := st |>) w).
Proof.
  intros [[??? [???? H]] Hret]. split; [|done]. split; [done..|]. split; [done..|].
  intros Hf. destruct (H Hf). by split.
Qed.

Lemma wp_packet_loop prev V w :
  at_vars V w → round_vars V (ticks (hw w)) →
  wp (forever NET_ROUNDS (net_turn prev)) ended w.
Proof using Hport.
  intros Hw HV.
  apply (wp_forever (λ w, ∃ V, at_vars V w ∧ round_vars V (ticks (hw w)))
    (λ w, time_left (vars (net w)) (ticks (hw w)))).
  - by exists V.
  - rewrite (run_vars _ _ Hw). by apply time_left_bounds.
  - intros w' (V' & Hw' & HV'). rewrite (run_vars _ _ Hw'). by apply time_left_bounds.
  - intros w1 (V1 & Hw1 & HV1). unfold net_turn. apply wp_bind.
    eapply wp_mono; [by apply wp_net_round|]. intros [| |ret] w2 H; [|done|].
    + destruct H as (V2 & Hw2 & HV2 & Hlt). apply wp_ret. split; [by exists V2|].
      by rewrite (run_vars _ _ Hw2), (run_vars _ _ Hw1).
    + apply wp_bind, wp_modify, wp_ret. by apply ended_state.
Qed.

(** ** Starting *)

(** An assignment that leaves the variables of the loop alone. *)
Ltac keep_vars :=
  let w := fresh "w" in let Hf := fresh "Hf" in let H := fresh "H" in
  intros w [[??? [???? H]] Hf ??]; split; [|done..]; split; [done..|];
  split; [done..|]; intros _; destruct (H Hf); by split.

Section headers.
Context (φ : loop_vars → Prop).
Notation within := (within (running φ) ticks).

Lemma within_set_ip_header pkt dest source len proto :
  14 ≤ pkt ≤ 18 → within 0 (net_set_ip_header TX pkt dest source len proto) anything.
Proof.
  intros Hp. unfold net_set_ip_header. do 5 within_step.
  eapply within_bind; [apply within_net_assign; keep_vars|]. intros _ _. within_count.
  do 7 within_step. within_step.
Qed.

Lemma within_set_icmp_header pkt dest :
  14 ≤ pkt ≤ 18 → within 0 (set_icmp_header TX pkt dest) anything.
Proof.
  intros Hp. unfold set_icmp_header. within_step.
  eapply within_bind; [by apply within_set_ip_header|]. intros _ _. within_count.
  do 5 within_step. eapply within_bind; [apply within_net_assign; keep_vars|]. intros _ _.
  within_count. do 2 within_step. within_step.
Qed.

End headers.

Lemma running_mac φ w mac :
  running φ w → length mac = 6%nat → running φ (with_net (net w <| net_ethaddr := mac |>) w).
Proof.
  intros [[??? [???? H]] Hf ??] Hl. split; [|done..]. split; [done..|]. split; [done..|].
  intros _. destruct (H Hf). by split.
Qed.

(** An assignment to one of them. *)
Ltac set_vars Hw :=
  let Hf := fresh "Hf" in let H := fresh "H" in let Hv := fresh "Hv" in
  destruct Hw as [[??? [???? H]] Hf Hv ?]; split;
  [split; [done..|]; split; [done..|]; intros _; destruct (H Hf); by split|done
  |cbn; by rewrite <- Hv|done].

(** The ARP request is out and both clocks run. *)
Lemma wp_ping_send V w :
  at_vars V w → v_ping V = peer → v_state V = NETLOOP_CONTINUE →
  v_handler V = Some ping_timeout_handler →
  wp ping_send (λ _ w', ∃ t1, ticks (hw w) ≤ t1 ≤ ticks (hw w') ∧
    ticks (hw w') ≤ ticks (hw w) + 3 * 2000000 ∧
    at_vars (V <| v_wait := peer |> <| v_arp_try := 1 |> <| v_arp_start := wrap32 (t1 / 1000) |>) w') w.
Proof using Hport.
  intros Hw Hp HS HH. unfold ping_send. apply wp_bind, wp_gets.
  replace (net_ping_ip (net w)) with peer.
  2: { rewrite <- Hp. by rewrite <- (run_vars _ _ Hw). }
  apply wp_bind, wp_modify.
  match goal with |- wp _ _ ?w1 => assert (at_vars (V <| v_wait := peer |>) w1) as Hw1 by set_vars Hw;
    assert (hw w1 = hw w) as Hh1 by done; generalize dependent w1 end.
  intros w1 Hw1 Hh1. apply wp_bind.
  eapply wp_mono; [eapply within_set_ether; [apply _|done|exact Hw1]|].
  intros r w2 (Hw2 & Hr & Ht2). apply wp_bind.
  eapply wp_mono; [by apply within_set_icmp_header|]. intros u w3 (Hw3 & _ & Ht3). clear u.
  apply wp_bind, wp_modify.
  match goal with |- wp _ _ ?w1 => assert (at_vars (V <| v_wait := peer |>) w1) as Hw4;
    [|assert (hw w1 = hw w3) as Hh4 by done; generalize dependent w1] end.
  { destruct Hw3 as [[??? [???? H]] Hf Hv ?]. split; [|done..]. split; [done..|]. split; [done..|].
    intros _. destruct (H Hf). split; try done. cbn. lia. }
  intros w4 Hw4 Hh4. apply wp_bind, wp_modify, wp_bind, wp_hw_call.
  assert (sane (hw w4)) as Hs by apply Hw4.
  destruct (port_timer 0 (hw w4) Hs) as [Hm Ht].
  cbn [hw with_net]. rewrite Ht, Z.sub_0_r. apply wp_bind, wp_modify.
  match goal with |- wp _ _ ?w1 => assert (at_vars (V <| v_wait := peer |> <| v_arp_try := 1 |>
    <| v_arp_start := wrap32 (ticks (hw w4) / 1000) |>) w1) as Hw5;
    [|assert (hw w1 = (get_timer 0 (hw w4)).2) as Hh5 by done; generalize dependent w1] end.
  { assert (at_vars (V <| v_wait := peer |>) (with_hw (get_timer 0 (hw w4)).2 w4)) as Hw5
      by by apply inv_hw.
    set_vars Hw5. }
  intros w5 Hw5 Hh5. apply wp_bind. eapply wp_mono; [by apply within_arp_request|].
  intros u w6 (Hw6 & _ & Ht6). apply wp_ret. exists (ticks (hw w4)).
  destruct Hm as (_ & Htk & _). unfold takes in Htk. rewrite Hh5 in Ht6. rewrite Hh1 in Ht2.
  rewrite Hh4 in *. split_and!; [lia..|exact Hw6].
Qed.

Lemma wp_ping_start V w :
  at_vars V w → v_tries V = 1 → v_ping V = peer → v_state V = NETLOOP_CONTINUE →
  wp ping_start (λ _ w', ∃ V', at_vars V' w' ∧ round_vars V' (ticks (hw w'))) w.
Proof using Hport.
  intros Hw Hone Hp HS. unfold ping_start. apply wp_bind.
  eapply wp_mono; [by apply (keeps_get_name (running (λ v, v = V)))|]. intros name w1 [Hw1 _].
  apply wp_bind. eapply wp_mono; [apply (within_printf (running (λ v, v = V)) ticks); [done|exact Hw1]|].
  intros u w2 (Hw2 & _ & _). clear u. apply wp_bind. unfold net_set_timeout_handler.
  change (10000 =? 0) with false. cbv iota. apply wp_bind, wp_modify, wp_bind, wp_hw_call.
  assert (sane (hw w2)) as Hs by apply Hw2.
  destruct (port_timer 0 (hw w2) Hs) as [Hm Ht].
  cbn [hw with_net]. rewrite Ht, Z.sub_0_r. apply wp_bind, wp_modify, wp_modify.
  match goal with |- wp _ _ ?w1 => assert (at_vars (V <| v_handler := Some ping_timeout_handler |>
    <| v_start := wrap32 (ticks (hw w2) / 1000) |> <| v_delta := 10000 |>) w1) as Hw3;
    [|assert (hw w1 = (get_timer 0 (hw w2)).2) as Hh3 by done; generalize dependent w1] end.
  { assert (at_vars V (with_hw (get_timer 0 (hw w2)).2 w2)) as Hw3 by by apply inv_hw.
    set_vars Hw3. }
  intros w3 Hw3 Hh3. apply wp_bind. eapply wp_mono; [by apply wp_ping_send|].
  intros u w4 (t1 & Ht1 & Ht4 & Hw4). apply wp_ret. eexists. split; [exact Hw4|].
  destruct Hm as (_ & Htk & _). unfold takes in Htk. rewrite Hh3 in *.
  split; cbn; try done; [by left|]. intros _. unfold since, LIMIT. cbn.
  destruct (peer =? 0).
  - pose proof (age_fresh (ticks (hw w2)) (ticks (hw w4) - ticks (hw w2))) as Hl.
    replace (ticks (hw w2) + (ticks (hw w4) - ticks (hw w2))) with (ticks (hw w4)) in Hl by lia. lia.
  - pose proof (age_fresh t1 (ticks (hw w4) - t1)) as Hl.
    replace (t1 + (ticks (hw w4) - t1)) with (ticks (hw w4)) in Hl by lia. lia.
Qed.

(** Ready to start: the stack is set up and [peer] is to be pinged. *)
Definition prepared (v : loop_vars) : Prop :=
  v_tries v = 1 ∧ v_ping v = peer ∧ v_state v = NETLOOP_CONTINUE.

Lemma keeps_prereq_message num :
  keeps (running prepared) (if num =? 0 then puts ("*** ERROR: `ethaddr' not set" +:+ newline)
    else printf ("*** ERROR: `eth%daddr' not set" +:+ newline) [VInt num]) anything.
Proof. by keep_run. Qed.

(** [net_check_prereq] fails, ends the loop at its first round, or lets the
    protocol start. *)
Lemma wp_check_prereq w :
  running prepared w →
  wp net_check_prereq (λ r w',
    (r = 0 ∨ r = 1) ∧ running prepared w' ∨
    r = 2 ∧ ∃ V, at_vars V w' ∧ v_tries V = 1 ∧ v_ping V = peer ∧ v_state V = NETLOOP_FAIL) w.
Proof using Hport.
  intros Hw. unfold net_check_prereq. apply wp_bind, wp_gets.
  destruct (_ =? 0).
  { apply wp_bind, wp_modify, wp_ret. left. split; [by right|by apply quiet_emit]. }
  apply wp_bind, wp_gets. destruct (_ =? 0).
  { apply wp_bind, wp_modify, wp_ret. left. split; [by right|by apply quiet_emit]. }
  apply wp_bind, wp_gets.
  destruct (memcmp (net_ethaddr (net w)) (replicate 6 0) 6) as [r|] eqn:Hcmp.
  2: { destruct (memcmp_total (net_ethaddr (net w)) (replicate 6 0) 6) as [r Hr]; [|done|congruence].
       by rewrite (stack_mac _ (ni_stack _ _ (run_inv _ _ Hw))). }
  destruct (r =? 0); [|apply wp_ret; left; split; [by left|done]].
  apply wp_bind. eapply wp_mono; [by apply (keeps_get_dev_index (running prepared))|].
  intros num w1 [Hw1 _]. destruct (num =? -1).
  { apply wp_bind, wp_modify, wp_ret. left. split; [by right|by apply quiet_emit]. }
  apply wp_bind. eapply wp_mono; [by apply keeps_prereq_message|]. intros u w2 [Hw2 _]. clear u.
  destruct (run_vars _ _ Hw2) as (Hone & Hp & HS). apply running_at in Hw2.
  apply wp_bind. eapply wp_mono; [by apply wp_start_again|]. intros u w3 Hw3. apply wp_ret.
  right. split; [done|]. eexists. split; [exact Hw3|done].
Qed.

Lemma wp_net_begin prev w :
  ready w →
  wp (net_begin prev) (λ r w', match r with
    | Some ret => ended ret w'
    | None => ∃ V, at_vars V w' ∧ round_vars V (ticks (hw w'))
    end) w.
Proof using Hport.
  intros [[??? [???? H]] Hf Htr Hp]. unfold net_begin. apply wp_bind, wp_modify.
  match goal with |- wp _ _ ?w1 => assert (running prepared w1) as Hw1; [|generalize dependent w1] end.
  { split; [|done|done|done]. split; [done..|]. split; [done..|]. intros _. destruct (H Hf). by split. }
  intros w1 Hw1. apply wp_bind.
  eapply wp_mono; [apply (keeps_net_init_loop (running prepared)); [apply _|apply running_mac|exact Hw1]|].
  intros u w2 [Hw2 _]. clear u. apply wp_bind. eapply wp_mono; [by apply wp_check_prereq|].
  intros r w3 [[Hr Hw3]|[-> (V & Hw3 & Ht3 & Hp3 & HS)]].
  2: { apply wp_ret. exists V. split; [exact Hw3|]. split; try done; [by right|..]; by rewrite HS. }
  destruct Hr as [->| ->]; cbn [Z.eqb Pos.eqb].
  - apply wp_bind, wp_modify, wp_bind, wp_modify, wp_bind.
    match goal with |- wp _ _ ?w4 => assert (running prepared w4) as Hw4; [|generalize dependent w4] end.
    { destruct Hw3 as [[??? [???? H3]] Hf3 ??]. split; [|done..]. split; [done..|]. split; [done..|].
      intros _. destruct (H3 Hf3). by split. }
    intros w4 Hw4. destruct (run_vars _ _ Hw4) as (? & ? & ?). apply running_at in Hw4.
    eapply wp_mono; [by eapply wp_ping_start|]. intros u w5 H5. apply wp_ret. exact H5.
  - apply wp_bind. eapply wp_mono; [by apply keeps_run_halt|]. intros u w4 [Hw4 _]. clear u.
    apply wp_bind, wp_modify, wp_ret. apply ended_state. split; [apply Hw4|lia].
Qed.

(** [net_loop(PING)] returns, and reports success only when an echo reply
    from [peer] has been received. *)
Lemma wp_net_loop w :
  net_inv w → net_ping_ip (net w) = peer → wp net_loop ended w.
Proof using Hport.
  intros Hw Hp. unfold net_loop, net_assign. apply wp_bind, wp_gets.
  do 3 apply wp_bind, wp_modify. apply wp_bind. eapply wp_mono; [apply wp_net_init; try done|].
  { destruct Hw as [??? [???? H]]. split; [done..|]. split; [done..|]. intros Hf.
    destruct (H Hf). by split. }
  intros u w1 Hw1. cbv beta in Hw1. clear u. apply wp_bind.
  eapply wp_mono; [eapply within_keeps; [by apply (within_halt ready)|exact Hw1]|].
  intros u w2 [Hw2 _]. clear u. apply wp_bind. eapply wp_mono; [by apply (keeps_set_current ready)|].
  intros u w3 [Hw3 _]. clear u. apply wp_bind. eapply wp_mono; [by apply (keeps_eth_init ready)|].
  intros ret w4 [Hw4 _]. destruct (Z.ltb_spec ret 0).
  - apply wp_bind. eapply wp_mono; [eapply within_keeps; [by apply (within_halt ready)|exact Hw4]|].
    intros u w5 [Hw5 _]. apply wp_ret. split; [apply Hw5|lia].
  - apply wp_bind. eapply wp_mono; [by apply wp_net_begin|]. intros [r|] w5 Hw5; [by apply wp_ret|].
    destruct Hw5 as (V & HwV & HV). by eapply wp_packet_loop.
Qed.
End port.
