(* ===== verification/NetEcho.v ===== *)
(** The frames of a ping, byte by byte, and that a host which answers is
    found. *)

From S2P Require Import Prelude CLib Vsprintf VsprintfFacts Machine Events Keeps I2cUclass EthUclass.
From S2P Require Import NetUtils NetCore EthFacts NetFacts.

(** * Frames *)

Definition ether_header (dst src : list Z) (proto : Z) : list Z := dst ++ src ++ le16 (htons proto).

(** An ARP packet for IPv4 over Ethernet. *)
Definition arp_frame (dst src : list Z) (op : Z) (sha : list Z) (spa : Z) (tha : list Z) (tpa : Z) :
    list Z :=
  ether_header dst src PROT_ARP ++ le16 (htons ARP_ETHER) ++ le16 (htons PROT_IP) ++ [6; 4]
  ++ le16 (htons op) ++ sha ++ le32 spa ++ tha ++ le32 tpa.

(** An IPv4 header without options; [sum] is its checksum. *)
Definition ip_fields (len id off proto sum source dest : Z) : list Z :=
  [0x45; 0] ++ le16 (htons len) ++ le16 (htons id) ++ le16 (htons off) ++ [255; proto]
  ++ le16 sum ++ le32 source ++ le32 dest.
Definition ip_header (len id off proto source dest : Z) : list Z :=
  ip_fields len id off proto (compute_ip_checksum (ip_fields len id off proto 0 source dest))
    source dest.

Definition icmp_fields (type sum seq : Z) : list Z :=
  [type; 0] ++ le16 sum ++ le16 0 ++ le16 (htons seq).
Definition icmp_echo (type seq : Z) : list Z :=
  icmp_fields type (compute_ip_checksum (icmp_fields type 0 seq)) seq.

Definition echo_frame (dst src : list Z) (type id off seq source dest : Z) : list Z :=
  ether_header dst src PROT_IP ++ ip_header 28 id off IPPROTO_ICMP source dest ++ icmp_echo type seq.

(** ** How they are received *)

Lemma le32_word x : 0 ≤ x < 2 ^ 32 → le_word (le32 x) = x.
Proof.
  intros Hx. cbn [le32 le_word]. unfold wrap8. rewrite !Z.shiftr_div_pow2 by lia. lia.
Qed.

(** A header with its checksum is accepted. *)
Lemma ip_header_ok len id off proto source dest :
  0 ≤ proto < 256 → ip_checksum_ok (ip_header len id off proto source dest) = true.
Proof.
  intros Hp. unfold ip_header.
  pose (pre := [0x45; 0] ++ le16 (htons len) ++ le16 (htons id) ++ le16 (htons off) ++ [255; proto]).
  pose (post := le32 source ++ le32 dest).
  assert (bytes_ok pre ∧ bytes_ok post) as [Hpre Hpost].
  { split; unfold pre, post, bytes_ok; cbn [app le16 le32];
      repeat (constructor; [apply wrap8_range || lia|]); constructor. }
  pose proof (checksum_verifies pre post Hpre Hpost eq_refl ltac:(cbn; lia)) as H. cbv zeta in H.
  change (pre ++ [0; 0] ++ post) with (ip_fields len id off proto 0 source dest) in H.
  set (c := compute_ip_checksum _) in *.
  assert (0 ≤ c < 2 ^ 16) as Hc.
  { unfold c. unfold compute_ip_checksum, fold_sum. cbv zeta. rewrite lnot_land16. lia. }
  replace [c mod 256; c / 256] with (le16 c) in H; [exact H|]. unfold le16, wrap8.
  rewrite Z.shiftr_div_pow2 by lia. change (2 ^ 8) with 256. rewrite (Z.mod_small (c / 256)) by lia.
  done.
Qed.

(** A list of known length, element by element. *)
Ltac explode l H := repeat (destruct l as [|? l]; [discriminate H|]); destruct l; [|discriminate H]; clear H.

Lemma classify_arp_frame dst src op sha spa tha ip tail len :
  length dst = 6%nat → length src = 6%nat → length sha = 6%nat → length tha = 6%nat →
  0 < ip < 2 ^ 32 → 42 ≤ len → op = ARPOP_REQUEST ∨ op = ARPOP_REPLY →
  classify ip 0xFFFF 0xFFFF (arp_frame dst src op sha spa tha ip ++ tail) len
  = if op =? ARPOP_REQUEST then AnswerArp 14 else LearnArp 14.
Proof.
  intros Hd Hs Hsh Ht Hip Hlen Hop. explode dst Hd. explode src Hs. explode sha Hsh. explode tha Ht.
  unfold classify. replace (len <? 14) with false by lia.
  match goal with |- context [demux _ ?c len] => change (demux 0xFFFF c len) with
    (Some (PROT_ARP, 14, VLAN_NONE)); set (c0 := c) end.
  cbv beta iota. change (negb (vlan_accepts 0xFFFF 0xFFFF VLAN_NONE)) with false. cbv iota.
  change (PROT_ARP =? PROT_ARP) with true. cbv iota. unfold classify_arp.
  replace (len - 14 <? 28) with false by lia.
  change (be16 c0 14) with ARP_ETHER. change (be16 c0 (14 + 2)) with PROT_IP.
  change (byte_at c0 (14 + 4)) with 6. change (byte_at c0 (14 + 5)) with 4.
  replace (ip_at c0 (14 + 24)) with ip.
  2: { change (ip_at c0 (14 + 24)) with (le_word (le32 ip)). by rewrite le32_word by lia. }
  rewrite (Z.eqb_refl ip). replace (ip =? 0) with false by lia. cbn [negb andb Z.eqb Pos.eqb].
  destruct Hop as [->| ->]; reflexivity.
Qed.

Lemma classify_echo_frame dst src type id off seq source ip tail len :
  length dst = 6%nat → length src = 6%nat → 0 ≤ source < 2 ^ 32 → 0 ≤ ip < 2 ^ 32 → 42 ≤ len →
  off = 0 ∨ off = IP_FLAGS_DFRAG → type = ICMP_ECHO_REPLY ∨ type = ICMP_ECHO_REQUEST →
  classify ip 0xFFFF 0xFFFF (echo_frame dst src type id off seq source ip ++ tail) len
  = if type =? ICMP_ECHO_REPLY then GotEchoReply source else AnswerEcho 14 28.
Proof.
  intros Hd Hs Hsrc Hip Hlen Hoff Hty. explode dst Hd. explode src Hs.
  unfold classify. replace (len <? 14) with false by lia.
  match goal with |- context [demux _ ?c len] => change (demux 0xFFFF c len) with
    (Some (PROT_IP, 14, VLAN_NONE)); set (c0 := c) end.
  cbv beta iota. change (negb (vlan_accepts 0xFFFF 0xFFFF VLAN_NONE)) with false. cbv iota.
  change (PROT_IP =? PROT_ARP) with false. change (PROT_IP =? PROT_IP) with true. cbv iota.
  unfold classify_ip, ip_accepts.
  replace (28 <=? len - 14) with true by lia. change (be16 c0 (14 + 2)) with 28.
  replace (28 <=? len - 14) with true by lia. change (byte_at c0 14) with 0x45.
  change (take 20 (drop (Z.to_nat 14) c0)) with (ip_header 28 id off IPPROTO_ICMP source ip).
  rewrite ip_header_ok by lia.
  replace (ip_at c0 (14 + 16)) with ip.
  2: { change (ip_at c0 (14 + 16)) with (le_word (le32 ip)). by rewrite le32_word by lia. }
  rewrite (Z.eqb_refl ip), orb_true_r.
  replace (ip_at c0 (14 + 12)) with source.
  2: { change (ip_at c0 (14 + 12)) with (le_word (le32 source)). by rewrite le32_word by lia. }
  change (byte_at c0 (14 + 9)) with 1. change (byte_at c0 (14 + 20)) with (type + 256 * 0).
  assert (Z.land (be16 c0 (14 + 6)) (Z.lor IP_OFFS IP_FLAGS_MFRAG) =? 0 = true) as ->.
  { by destruct Hoff as [->| ->]. }
  destruct Hty as [->| ->]; reflexivity.
Qed.

(** * Writing a buffer *)

Definition splice (off : nat) (bytes c : list Z) : list Z :=
  take off c ++ bytes ++ drop (off + length bytes) c.

Section write.
Context {HW : Type} `{!Env HW} `{!EthDriver HW} `{!Timer HW} `{!Keyboard HW}.
Notation world := (world HW).
Notation M := (M world).
Implicit Types w : world.

Lemma set_pkt_id b c w : pkt_content b (net w) = Some c → set_pkt b c w = w.
Proof.
  intros Hc. destruct w as [??? ?? ?? ?? n ?]. destruct n, b; cbn in Hc; by rewrite Hc.
Qed.

Lemma wp_write b off bytes c n w (Q : unit → world → Prop) :
  length c = n → 0 ≤ off → off + Z.of_nat (length bytes) ≤ Z.of_nat n →
  (∀ c', c' = splice (Z.to_nat off) bytes c → length c' = n → Q tt (set_pkt b c' w)) →
  wp (pkt_write b off bytes) Q (set_pkt b c w).
Proof.
  intros <- Ho Hl HQ. unfold pkt_write. apply wp_bind, wp_gets.
  assert (pkt_content b (net (set_pkt b c w)) = Some c) as -> by by destruct b.
  rewrite (proj2 (Z.leb_le 0 off)), (proj2 (Z.leb_le (off + _) _)) by lia.
  assert (Q tt (set_pkt b (splice (Z.to_nat off) bytes c) w)) as H.
  { apply HQ; [done|]. unfold splice. rewrite !length_app, length_take, length_drop. lia. }
  by destruct b.
Qed.

Lemma wp_var {A} (f : net_globals → A) v w (Q : A → world → Prop) :
  f (net w) = v → Q v w → wp (net_var f) Q w.
Proof. by intros <-. Qed.

Lemma wp_read_buf b off n c w (Q : list Z → world → Prop) :
  0 ≤ off → 0 ≤ n → off + n ≤ Z.of_nat (length c) →
  Q (take (Z.to_nat n) (drop (Z.to_nat off) c)) (set_pkt b c w) →
  wp (pkt_read b off n) Q (set_pkt b c w).
Proof.
  intros Ho Hn Hl HQ. unfold wp. erewrite pkt_read_at; [exact HQ| |done..]. by destruct b.
Qed.

(** Without a VLAN. *)
Definition untagged w : Prop := Z.land (vlan_id (net_our_vlan (net w))) VLAN_IDMASK = VLAN_NONE.

(** A write to the buffer. *)
Ltac write_step :=
  let c := fresh "c" in let Hc := fresh "Hc" in let Hl := fresh "Hl" in
  apply wp_bind; eapply wp_write; [eassumption|lia|first [cbn [length le16 le32]; lia|cbn; lia]|]; intros c Hc Hl.

Lemma wp_arp_raw_request x rest mac source target w (Q : unit → world → Prop) :
  arp_tx_packet (net w) = Some (x ++ rest) → length x = 42%nat → untagged w →
  net_ethaddr (net w) = mac → length mac = 6%nat →
  wp (net_send_packet ARP_TX 42) Q (set_pkt ARP_TX
    (arp_frame net_bcast_ethaddr mac ARPOP_REQUEST mac source net_null_ethaddr target ++ rest) w) →
  wp (arp_raw_request source net_null_ethaddr target) Q w.
Proof.
  intros Hc Hx Hv Hmac Hm HQ. rewrite <- (set_pkt_id ARP_TX _ w Hc).
  remember (length (x ++ rest)) as n eqn:Hn. symmetry in Hn.
  assert (42 ≤ Z.of_nat n) by (rewrite <- Hn, length_app; lia).
  unfold arp_raw_request, net_set_ether. apply wp_bind, wp_bind.
  apply (wp_var _ (net_our_vlan (net w))); [done|].
  write_step. apply wp_bind. eapply wp_var; [exact Hmac|]. write_step.
  rewrite (proj2 (Z.eqb_eq _ _) Hv). unfold wr16, wr8, net_write_ip. write_step. apply wp_ret.
  do 5 write_step. apply wp_bind. eapply wp_var; [exact Hmac|]. do 4 write_step.
  match goal with |- wp _ _ (set_pkt _ ?c _) => replace c with
    (arp_frame net_bcast_ethaddr mac ARPOP_REQUEST mac source net_null_ethaddr target ++ rest) end.
  - exact HQ.
  - clear Hmac. subst. explode x Hx. explode mac Hm. reflexivity.
Qed.

Lemma wp_set_ether b x rest mac dest prot w (Q : Z → world → Prop) :
  pkt_content b (net w) = Some (x ++ rest) → length x = 14%nat → untagged w →
  net_ethaddr (net w) = mac → length mac = 6%nat → length dest = 6%nat →
  Q 14 (set_pkt b (ether_header dest mac prot ++ rest) w) →
  wp (net_set_ether b dest prot) Q w.
Proof.
  intros Hc Hx Hv Hmac Hm Hd HQ. rewrite <- (set_pkt_id b _ w Hc).
  remember (length (x ++ rest)) as n eqn:Hn. symmetry in Hn.
  assert (14 ≤ Z.of_nat n) by (rewrite <- Hn, length_app; lia).
  unfold net_set_ether. apply wp_bind.
  apply (wp_var _ (net_our_vlan (net w))); [by destruct b|]. write_step.
  apply wp_bind. apply (wp_var _ mac); [by destruct b|]. write_step.
  rewrite (proj2 (Z.eqb_eq _ _) Hv). unfold wr16. write_step. apply wp_ret.
  match goal with |- Q 14 (set_pkt _ ?c _) => replace c with (ether_header dest mac prot ++ rest) end.
  - exact HQ.
  - clear Hmac Hc HQ. subst. explode x Hx. explode mac Hm. explode dest Hd. reflexivity.
Qed.

(** The counters that a new packet takes its numbers from. *)
Definition count_ping w : world :=
  with_net (net w <| net_ip_id := wrap32 (net_ip_id (net w) + 1) |>
                  <| ping_seq_number := wrap16 (ping_seq_number (net w) + 1) |>) w.

Lemma wp_set_icmp_header hd x rest dest w (Q : unit → world → Prop) :
  net_tx_packet (net w) = Some (hd ++ x ++ rest) → length hd = 14%nat → length x = 28%nat →
  Q tt (set_pkt TX (hd ++ ip_header 28 (net_ip_id (net w)) IP_FLAGS_DFRAG IPPROTO_ICMP (net_ip (net w)) dest
    ++ icmp_echo ICMP_ECHO_REQUEST (ping_seq_number (net w)) ++ rest) (count_ping w)) →
  wp (set_icmp_header TX 14 dest) Q w.
Proof.
  intros Hc Hh Hx HQ. rewrite <- (set_pkt_id TX _ w Hc).
  remember (length (hd ++ x ++ rest)) as n eqn:Hn. symmetry in Hn.
  assert (42 ≤ Z.of_nat n) by (rewrite <- Hn, !length_app; lia).
  unfold set_icmp_header, net_set_ip_header, wr16, wr8, net_write_ip. apply wp_bind.
  apply (wp_var _ (net_ip (net w))); [done|]. apply wp_bind. do 4 write_step.
  apply wp_bind. apply (wp_var _ (net_ip_id (net w))); [done|]. apply wp_bind, wp_modify.
  match goal with |- wp _ _ (with_net _ (set_pkt TX ?c w)) =>
    change (with_net _ (set_pkt TX c w)) with
      (set_pkt TX c (with_net (net w <| net_ip_id := wrap32 (net_ip_id (net w) + 1) |>) w)) end.
  do 6 write_step. apply wp_bind, wp_read_buf; [lia|lia|lia|].
  eapply wp_write; [eassumption|lia|first [cbn [length le16 le32]; lia|cbn; lia]|]. intros cs Hcs Hls. do 4 write_step.
  apply wp_bind. apply (wp_var _ (ping_seq_number (net w))); [done|]. apply wp_bind, wp_modify.
  match goal with |- wp _ _ (with_net _ (set_pkt TX ?c _)) =>
    change (with_net _ (set_pkt TX c _)) with (set_pkt TX c (count_ping w)) end.
  write_step. apply wp_bind, wp_read_buf; [lia|lia|lia|].
  eapply wp_write; [eassumption|lia|first [cbn [length le16 le32]; lia|cbn; lia]|]. intros cf Hcf Hlf.
  match type of HQ with Q tt (set_pkt TX ?c _) => replace cf with c; [exact HQ|] end.
  clear HQ Hc. subst. explode hd Hh. explode x Hx. reflexivity.
Qed.

(** ** Echo requests that are too short *)

Lemma pkt_read_outside b off n c w :
  pkt_content b (net w) = Some c → Z.of_nat (length c) < off + n →
  pkt_read b off n w = Crash OUT_OF_BOUNDS w.
Proof.
  intros Hc Hn. unfold pkt_read. erewrite M_bind_Ret by reflexivity. rewrite Hc.
  by rewrite (proj2 (Z.leb_gt (off + n) _)), andb_false_r by lia.
Qed.

Lemma wp_update_ether_any prot c n w (Q : Z → world → Prop) :
  length c = n → 50 ≤ Z.of_nat n → length (net_ethaddr (net w)) = 6%nat →
  (∀ r c', length c' = n → Q r (set_pkt RX c' w)) → wp (net_update_ether 6 prot) Q (set_pkt RX c w).
Proof.
  intros Hc Hn Hmac HQ. unfold net_update_ether. apply wp_bind, wp_read_buf; [lia|lia|lia|].
  apply wp_bind. eapply wp_write; [done|lia|rewrite length_take, length_drop; lia|]. intros c1 _ Hc1.
  apply wp_bind. apply (wp_var _ (net_ethaddr (net w))); [done|].
  apply wp_bind. eapply wp_write; [done|lia|lia|]. intros c2 _ Hc2. apply wp_bind. unfold rd16.
  apply wp_bind, wp_read_buf; [lia|lia|lia|]. apply wp_ret. unfold wr16.
  case_match; [|case_match]; write_step; apply wp_ret, HQ; done.
Qed.

Lemma crashes_ping_answer ip n c w :
  net_rx_packet (net w) = Some c → 50 ≤ Z.of_nat (length c) < 2 ^ 31 → 14 ≤ ip ≤ 22 →
  0 ≤ n < 20 → length (net_ethaddr (net w)) = 6%nat → crashes (ping_answer ip n) OUT_OF_BOUNDS w.
Proof.
  intros Hc Hl Hip Hn Hmac. rewrite <- (set_pkt_id RX _ w Hc).
  unfold ping_answer, net_copy_ip, net_write_ip, wr8. apply crashes_bind.
  eapply wp_update_ether_any; [done|lia|done|]. intros r c1 Hc1.
  do 2 (apply crashes_bind; eapply wp_write; [eassumption|lia|first [cbn [length le16 le32]; lia|cbn; lia]|];
        let c' := fresh "c" in intros c' _ ?).
  apply crashes_bind, wp_bind, wp_read_buf; [lia|lia|lia|].
  eapply wp_write; [eassumption|lia|rewrite length_take, length_drop; lia|]. intros c4 _ Hc4.
  apply crashes_bind. apply (wp_var _ (net_ip (net w))); [done|].
  apply crashes_bind. eapply wp_write; [eassumption|lia|first [cbn [length le16 le32]; lia|cbn; lia]|]. intros c5 _ Hc5.
  apply crashes_bind, wp_read_buf; [lia|lia|lia|].
  do 3 (apply crashes_bind; eapply wp_write; [eassumption|lia|first [cbn [length le16 le32]; lia|cbn; lia]|];
        let c' := fresh "c" in intros c' _ ?).
  unfold wrap32. rewrite <- (Z_mod_plus_full (n - IP_HDR_SIZE) 1), Z.mod_small by lia.
  eapply crashes_first, pkt_read_outside; [done|lia].
Qed.

(** ** Answers *)

(** Copying the received packet to the transmit buffer and sending it. *)
Lemma wp_send_copy c ctx n w (Q : unit → world → Prop) :
  net_tx_packet (net w) = Some ctx → net_arp_wait_packet_ip (net w) = 0 →
  0 ≤ n → n ≤ Z.of_nat (length c) → n ≤ Z.of_nat (length ctx) →
  wp (_ ← eth_send (take (Z.to_nat n) c); mret tt) Q
    (set_pkt TX (take (Z.to_nat n) c ++ drop (Z.to_nat n) ctx) (set_pkt RX c w)) →
  wp (tx_packet ← net_get_async_tx_pkt_buf; _ ← pkt_copy tx_packet RX n; net_send_packet tx_packet n) Q
    (set_pkt RX c w).
Proof.
  intros Hctx Hwait Hn Hc Hl HQ. apply wp_bind. unfold net_get_async_tx_pkt_buf, arp_is_waiting.
  apply wp_bind, wp_bind. apply (wp_var _ 0); [done|]. apply wp_ret, wp_ret. cbn [nonzero Z.eqb negb].
  apply wp_bind. unfold pkt_copy. apply wp_bind, wp_read_buf; [lia|lia|lia|].
  rewrite <- (set_pkt_id TX ctx (set_pkt RX c w)) by done.
  assert (length (take (Z.to_nat n) (drop (Z.to_nat 0) c)) = Z.to_nat n) as Hlen.
  { rewrite length_take, length_drop. lia. }
  eapply wp_write; [done|lia|lia|]. intros c' Hc' Hl'.
  assert (c' = take (Z.to_nat n) c ++ drop (Z.to_nat n) ctx) as ->.
  { rewrite Hc'. unfold splice. by rewrite Hlen. }
  unfold net_send_packet. apply wp_bind, wp_read_buf; [lia|lia|lia|].
  replace (take (Z.to_nat n) (drop (Z.to_nat 0) (take (Z.to_nat n) c ++ drop (Z.to_nat n) ctx)))
    with (take (Z.to_nat n) c); [exact HQ|].
  change (Z.to_nat 0) with 0%nat. rewrite drop_0, take_app_le by (rewrite length_take; lia). by rewrite take_take, Nat.min_id.
Qed.

Lemma wp_arp_answer smac mac dst tha ctx spa ip rest w (Q : unit → world → Prop) :
  length smac = 6%nat → length mac = 6%nat → length dst = 6%nat → length tha = 6%nat →
  net_ethaddr (net w) = mac → net_ip (net w) = ip → net_arp_wait_packet_ip (net w) = 0 →
  net_tx_packet (net w) = Some ctx → 42 ≤ Z.of_nat (length ctx) →
  let reply := arp_frame smac mac ARPOP_REPLY mac ip smac spa in
  wp (_ ← eth_send reply; mret tt) Q
    (set_pkt TX (reply ++ drop 42 ctx) (set_pkt RX (reply ++ rest) w)) →
  wp (arp_answer 14) Q
    (set_pkt RX (arp_frame dst smac ARPOP_REQUEST smac spa tha ip ++ rest) w).
Proof.
  intros Hs Hm Hd Ht Hmac Hip Hwait Hctx Hl reply HQ.
  set (c0 := arp_frame dst smac ARPOP_REQUEST smac spa tha ip ++ rest).
  assert (∃ n, length c0 = n ∧ (42 ≤ n)%nat) as (n & Hn & Hn42).
  { eexists. split; [done|]. unfold c0, arp_frame, ether_header. rewrite !length_app. cbn. lia. }
  unfold arp_answer, net_update_ether, net_copy_ip, net_write_ip, wr16, rd16.
  apply wp_bind, wp_bind, wp_read_buf; [lia|lia|lia|]. apply wp_bind.
  eapply wp_write; [done|lia|rewrite length_take, length_drop; lia|]. intros c1 Hc1 Hl1.
  apply wp_bind. apply (wp_var _ mac); [done|]. write_step.
  apply wp_bind, wp_bind, wp_read_buf; [lia|lia|lia|]. apply wp_ret.
  match goal with |- context [htons ?x] => replace (htons x) with PROT_ARP end.
  2: { clear Hip Hmac HQ. subst. subst c0. unfold arp_frame, ether_header. explode smac Hs.
       explode mac Hm. explode dst Hd. explode tha Ht. reflexivity. }
  change (PROT_ARP =? PROT_VLAN) with false. change (PROT_ARP >? 1514) with true. cbv iota.
  write_step. apply wp_ret. write_step. apply wp_bind, wp_read_buf; [lia|lia|lia|].
  apply wp_bind. eapply wp_write; [eassumption|lia|rewrite length_take, length_drop; lia|].
  intros c5 Hc5 Hl5. apply wp_bind, wp_bind, wp_read_buf; [lia|lia|lia|].
  eapply wp_write; [eassumption|lia|rewrite length_take, length_drop; lia|]. intros c6 Hc6 Hl6.
  apply wp_bind. apply (wp_var _ mac); [done|]. write_step.
  apply wp_bind. apply (wp_var _ ip); [done|]. write_step.
  match goal with |- wp _ _ (set_pkt RX ?c w) => replace c with (reply ++ rest) end.
  2: { clear Hip Hmac HQ Hctx Hl. subst. subst c0 reply. unfold arp_frame, ether_header. explode smac Hs.
       explode mac Hm. explode dst Hd. explode tha Ht. reflexivity. }
  assert (length reply = 42%nat) as Hr.
  { unfold reply, arp_frame, ether_header. rewrite !length_app, Hs, Hm. done. }
  eapply (wp_send_copy _ ctx); [done|done|lia|rewrite length_app; lia|lia|].
  change (Z.to_nat (14 + ARP_HDR_SIZE)) with 42%nat.
  assert (take 42 (reply ++ rest) = reply) as -> by (rewrite <- Hr; apply take_app_length).
  exact HQ.
Qed.

Lemma wp_ping_answer smac mac dst ctx id off seq src ip rest w (Q : unit → world → Prop) :
  length smac = 6%nat → length mac = 6%nat → length dst = 6%nat →
  net_ethaddr (net w) = mac → net_ip (net w) = ip → net_arp_wait_packet_ip (net w) = 0 →
  net_tx_packet (net w) = Some ctx → 42 ≤ Z.of_nat (length ctx) →
  let reply := echo_frame smac mac ICMP_ECHO_REPLY id 0 seq ip src in
  wp (_ ← eth_send reply; mret tt) Q
    (set_pkt TX (reply ++ drop 42 ctx) (set_pkt RX (reply ++ rest) w)) →
  wp (ping_answer 14 28) Q
    (set_pkt RX (echo_frame dst smac ICMP_ECHO_REQUEST id off seq src ip ++ rest) w).
Proof.
  intros Hs Hm Hd Hmac Hip Hwait Hctx Hl reply HQ.
  set (c0 := echo_frame dst smac ICMP_ECHO_REQUEST id off seq src ip ++ rest).
  assert (∃ n, length c0 = n ∧ (42 ≤ n)%nat) as (n & Hn & Hn42).
  { eexists. split; [done|]. unfold c0, echo_frame, ether_header. rewrite !length_app. cbn. lia. }
  unfold ping_answer, net_update_ether, net_copy_ip, net_write_ip, wr8, wr16, rd16.
  apply wp_bind, wp_bind, wp_read_buf; [lia|lia|lia|]. apply wp_bind.
  eapply wp_write; [done|lia|rewrite length_take, length_drop; lia|]. intros c1 Hc1 Hl1.
  apply wp_bind. apply (wp_var _ mac); [done|]. write_step.
  apply wp_bind, wp_bind, wp_read_buf; [lia|lia|lia|]. apply wp_ret.
  match goal with |- context [htons ?x] => replace (htons x) with PROT_IP end.
  2: { clear Hip Hmac HQ. subst. subst c0. unfold echo_frame, ether_header. explode smac Hs.
       explode mac Hm. explode dst Hd. reflexivity. }
  change (PROT_IP =? PROT_VLAN) with false. change (PROT_IP >? 1514) with true. cbv iota.
  write_step. apply wp_ret. do 2 write_step. apply wp_bind, wp_bind, wp_read_buf; [lia|lia|lia|].
  eapply wp_write; [eassumption|lia|rewrite length_take, length_drop; lia|]. intros c6 Hc6 Hl6.
  apply wp_bind. apply (wp_var _ ip); [done|]. write_step.
  apply wp_bind, wp_read_buf; [lia|lia|lia|]. do 3 write_step.
  change (wrap32 (28 - IP_HDR_SIZE)) with 8.
  apply wp_bind, wp_read_buf; [lia|lia|lia|]. write_step.
  match goal with |- wp _ _ (set_pkt RX ?c w) => replace c with (reply ++ rest) end.
  2: { clear Hip Hmac HQ Hctx Hl. subst. subst c0 reply. unfold echo_frame, ether_header. explode smac Hs.
       explode mac Hm. explode dst Hd. reflexivity. }
  assert (length reply = 42%nat) as Hr.
  { unfold reply, echo_frame, ether_header. rewrite !length_app, Hs, Hm. done. }
  eapply (wp_send_copy _ ctx); [done|done|lia|rewrite length_app; lia|lia|].
  change (Z.to_nat (14 + 28)) with 42%nat.
  assert (take 42 (reply ++ rest) = reply) as -> by (rewrite <- Hr; apply take_app_length).
  exact HQ.
Qed.
End write.

(** * A host that answers *)

(** An access that takes at most half a second. *)
Definition prompt {HW} (ticks : HW → Z) (h h' : HW) : Prop :=
  ticks h ≤ ticks h' ≤ ticks h + 500000.

(** A link with one device, [d], whose address is [mac]: a frame that is sent
    reaches the other end, whose answers, [reply], wait in the inbox; nobody
    presses a key. *)
Class EchoLink {HW} `{!Env HW} `{!EthDriver HW} `{!Timer HW} `{!Keyboard HW}
    (ok : HW → Prop) (inbox : HW → list (list Z)) (ticks : HW → Z) (d : Z) (mac : list Z)
    (reply : list Z → list (list Z)) : Prop := {
  link_eth q :: EthPort (λ h, ok h ∧ inbox h = q) ticks (Some d) (λ _, True);
  link_rotate h : ok h → env_get "ethrotate" h = None;
  link_active h : ok h → eth_device_active d h = true;
  link_starts h : ok h → 0 ≤ (eth_ops_start d h).1;
  link_mac h : ok h → enetaddr d h = mac;
  link_timer b h : ok h → prompt ticks h (get_timer b h).2;
  link_tstc h : ok h → prompt ticks h (tstc h).2 ∧ (tstc h).1 = false;
  link_send p h : ok h → ok (eth_ops_send d p h).2 ∧ prompt ticks h (eth_ops_send d p h).2 ∧
    inbox (eth_ops_send d p h).2 = inbox h ++ reply p;
  link_recv f h : ok h → ok (eth_ops_recv d f h).2 ∧ prompt ticks h (eth_ops_recv d f h).2 ∧
    match inbox h with
    | [] => (eth_ops_recv d f h).1.1 ≤ 0 ∧ inbox (eth_ops_recv d f h).2 = []
    | p :: q =>
        (eth_ops_recv d f h).1.1 = Z.of_nat (length p) ∧ inbox (eth_ops_recv d f h).2 = q ∧
        ∃ tail, (eth_ops_recv d f h).1.2 = p ++ tail ∧ Z.of_nat (length (p ++ tail)) = PKTSIZE_ALIGN
    end;
  link_free f p n h : eth_ops_free_pkt d = Some f → ok h →
    ok (f p n h) ∧ prompt ticks h (f p n h) ∧ inbox (f p n h) = inbox h;
}.

(** The host [peer], whose address is [pmac], answers [ip]: it sends the ARP
    reply and the echo reply. *)
Record answers (reply : list Z → list (list Z)) (mac : list Z) (ip : Z) (pmac : list Z) (peer : Z) :
    Prop := {
  answers_arp : ∃ r,
    reply (arp_frame net_bcast_ethaddr mac ARPOP_REQUEST mac ip net_null_ethaddr peer) = [r] ∧
    0 < Z.of_nat (length r) ≤ PKTSIZE ∧
    ∀ tail, classify ip 0xFFFF 0xFFFF (r ++ tail) (Z.of_nat (length r)) = LearnArp 14 ∧
      ip_at (r ++ tail) 28 = peer ∧ take 6 (drop 22 (r ++ tail)) = pmac;
  answers_echo id seq : ∃ r,
    reply (echo_frame pmac mac ICMP_ECHO_REQUEST id IP_FLAGS_DFRAG seq ip peer) = [r] ∧
    0 < Z.of_nat (length r) ≤ PKTSIZE ∧
    ∀ tail, classify ip 0xFFFF 0xFFFF (r ++ tail) (Z.of_nat (length r)) = GotEchoReply peer;
}.

Section found.
Context {HW : Type} `{!Env HW} `{!EthDriver HW} `{!Timer HW} `{!Keyboard HW}
  {ok : HW → Prop} {inbox : HW → list (list Z)} {ticks : HW → Z} {d : Z} {mac : list Z}
  {reply : list Z → list (list Z)} `{Hlink : !EchoLink ok inbox ticks d mac reply}
  (ip peer : Z) (pmac : list Z) (Hans : answers reply mac ip pmac peer).
Notation world := (world HW).
Notation M := (M world).
Implicit Types w : world.

Context (Hmac : length mac = 6%nat) (Hmac0 : memcmp mac (replicate 6 0) 6 ≠ Some 0)
  (Hpmac : length pmac = 6%nat) (Hip : 0 < ip < 2 ^ 32) (Hpeer : 0 < peer < 2 ^ 32).

(** The settings. *)
Record configured (n : net_globals) : Prop := {
  cf_ip : net_ip n = ip;
  cf_peer : net_ping_ip n = peer;
  cf_subnet : Z.land peer (net_netmask n) = Z.land ip (net_netmask n);
  cf_vlan : net_our_vlan n = 0xFFFF;
  cf_native : net_native_vlan n = 0xFFFF;
  cf_keys : ctrlc_disabled n = 0;
  cf_size : net_boot_file_size n = 0;
  cf_udp : is_Some (udp_packet_handler n);
  cf_arp : is_Some (arp_packet_handler n);
  cf_arp_tx : has_buffer ARP_TX n;
}.

(** The device is up, with [q] waiting. *)
Record up (q : list (list Z)) w : Prop := {
  up_ok : ok (hw w);
  up_inbox : inbox (hw w) = q;
  up_current : eth_current (eth w) = Some d;
  up_active : eth_states (eth w) !! d = Some ETH_STATE_ACTIVE;
}.

Lemma wp_get_dev_up q w (Q : option Z → world → Prop) :
  up q w → Q (Some d) w → wp eth_get_dev Q w.
Proof. intros [] HQ. unfold eth_get_dev. apply wp_bind, wp_gets. by rewrite up_current0. Qed.

Lemma wp_is_active_up q w (Q : bool → world → Prop) :
  up q w → Q true w → wp (eth_is_active d) Q w.
Proof using Hlink.
  intros [] HQ. unfold eth_is_active, eth_state_of. apply wp_bind, wp_gets.
  rewrite link_active by done. apply wp_gets. rewrite up_active0. by rewrite bool_decide_eq_true_2.
Qed.

Lemma wp_send_up q p w (Q : unit → world → Prop) :
  up q w →
  (∀ h, up (q ++ reply p) (with_hw h w) → prompt ticks (hw w) h → Q tt (with_hw h w)) →
  wp (_ ← eth_send p; mret tt) Q w.
Proof using Hlink.
  intros Hw HQ. apply wp_bind. unfold eth_send. apply wp_bind. eapply wp_get_dev_up; [done|].
  apply wp_bind. eapply wp_is_active_up; [done|]. apply wp_hw_call, wp_ret.
  destruct Hw as [Hok Hin Hc Ha]. destruct (link_send p (hw w) Hok) as (? & ? & Hi).
  apply HQ; [|done]. split; [done| |done..]. cbn. by rewrite Hi, Hin.
Qed.

Lemma wp_timer_up q w (Q : Z → world → Prop) :
  up q w →
  (∀ h, up q (with_hw h w) → prompt ticks (hw w) h →
    Q (wrap32 (ticks (hw w) / 1000)) (with_hw h w)) →
  wp (hw_call (get_timer 0)) Q w.
Proof using Hlink.
  intros [Hok Hin Hc Ha] HQ. apply wp_hw_call.
  destruct (port_timer (EthPort := link_eth q) 0 (hw w)) as [((Hok' & Hin') & _ & _) Ht]; [done|].
  rewrite Ht, Z.sub_0_r. apply HQ; [by split|]. by apply link_timer.
Qed.

(** ** Starting the device *)

Notation sane_q q := (λ h, ok h ∧ inbox h = q).
Notation ready R := (ready (sane := sane_q []) (dev0 := Some d) peer R).

Lemma wp_get_dev_link R w :
  ready R w →
  wp eth_get_dev (λ r w', r = Some d ∧ ready R w' ∧ eth_current (eth w') = Some d) w.
Proof using Hlink.
  intros Hw. unfold eth_get_dev. apply wp_bind, wp_gets.
  destruct (eth_current (eth w)) as [d'|] eqn:Hc.
  - apply wp_ret. assert (Some d' = Some d) as [= ->]; [|done].
    destruct (ni_current _ _ (rdy_inv _ _ _ Hw)) as [H|H]; congruence.
  - apply wp_bind, wp_hw_call.
    destruct (port_first (EthPort := link_eth []) (hw w)) as [Hm Hd]; [apply Hw|].
    destruct (uclass_first_eth (hw w)) as [[ret first] h]. cbn [fst snd] in *. subst first.
    unfold eth_assign. apply wp_bind, wp_modify, wp_bind, wp_modify, wp_ret. split_and!; [done| |done].
    destruct Hw as [[Hs Hr Hcur Hst] Hf Ht Hp]. destruct Hm as (Hs' & _ & _).
    split; [|done..]. split; [done..| |done]. by right.
Qed.

Lemma wp_eth_init_link R w :
  ready R w → wp eth_init (λ r w', r = 0 ∧ ready R w' ∧ up [] w') w.
Proof using Hlink.
  intros Hw. unfold eth_init, env_value. apply wp_bind, wp_gets, wp_bind, wp_gets.
  rewrite link_rotate by apply Hw. apply wp_bind.
  eapply wp_mono with (P := λ r w', r = inl None ∧ w' = w).
  { destruct (env_get "ethact" (hw w)); by apply wp_ret. }
  intros r w1 [-> ->]. apply wp_bind. eapply wp_mono; [by apply wp_get_dev_link|].
  intros r w2 (-> & Hw2 & Hc). apply wp_bind, wp_gets.
  rewrite (port_devs (EthPort := link_eth []) (hw w2)) by apply Hw2. cbn [option_list length eth_init_loop].
  apply wp_bind, wp_bind, wp_gets. rewrite link_active by apply Hw2. apply wp_bind, wp_hw_call.
  assert (ok (hw w2)) as Hok by apply Hw2. pose proof (link_starts (hw w2) Hok) as Hst.
  destruct (port_start (EthPort := link_eth []) d (hw w2)) as (Hs & _ & _); [apply Hw2|].
  rewrite (proj2 (Z.leb_le _ _)) by done. unfold eth_set_priv_state, eth_assign.
  apply wp_bind, wp_bind, wp_gets, wp_modify, wp_ret, wp_ret. split_and!; [done|..].
  - destruct Hw2 as [[_ Hr Hcur Hst2] Hf Ht Hp]. split; [|done..]. by split.
  - split; cbn; [apply Hs|apply Hs|done|]. by rewrite lookup_insert_eq.
Qed.

(** ** Sending the request *)

(** The ARP request has been sent at [t1], and the echo request waits in the
    transmit buffer. *)
Record asked (q : list (list Z)) (t1 : Z) w : Prop := {
  as_up : up q w;
  as_conf : configured (net w);
  as_state : net_state (net w) = NETLOOP_CONTINUE;
  as_handler : time_handler (net w) = Some ping_timeout_handler;
  as_delta : time_delta (net w) = 10000;
  as_wait : net_arp_wait_packet_ip (net w) = peer;
  as_reply : net_arp_wait_reply_ip (net w) = peer;
  as_mac : net_ethaddr (net w) = mac;
  as_start : arp_wait_timer_start (net w) = wrap32 (t1 / 1000);
  as_size : arp_wait_tx_packet_size (net w) = 42;
  as_tx : ∃ id seq tail, net_tx_packet (net w) = Some
    (echo_frame net_null_ethaddr mac ICMP_ECHO_REQUEST id IP_FLAGS_DFRAG seq ip peer ++ tail) ∧
    Z.of_nat (length tail) = PKTSIZE_ALIGN - 42;
}.

Lemma split_buffer b n w :
  (n ≤ 1536)%nat → has_buffer b (net w) →
  ∃ x tail, pkt_content b (net w) = Some (x ++ tail) ∧ length x = n ∧ length tail = (1536 - n)%nat.
Proof.
  intros Hn (c & Hc & Hl). exists (take n c), (drop n c).
  rewrite take_drop, length_take, length_drop. split_and!; [done|lia|lia].
Qed.

Lemma wp_arp_request_up q w (Q : unit → world → Prop) :
  up q w → configured (net w) → net_ethaddr (net w) = mac → net_arp_wait_packet_ip (net w) = peer →
  (∀ c h, Z.of_nat (length c) = PKTSIZE_ALIGN →
     let w' := set_pkt ARP_TX c (with_net (net w <| net_arp_wait_reply_ip := peer |>) w) in
     up (q ++ reply (arp_frame net_bcast_ethaddr mac ARPOP_REQUEST mac ip net_null_ethaddr peer))
       (with_hw h w') →
     prompt ticks (hw w) h → Q tt (with_hw h w')) →
  wp arp_request Q w.
Proof using All.
  intros Hw Hcf Hm Hwait HQ. unfold arp_request. apply wp_bind. eapply wp_var; [exact Hwait|].
  apply wp_bind. eapply wp_var; [done|]. apply wp_bind. eapply wp_var; [apply Hcf|].
  rewrite (cf_subnet _ Hcf), Z.eqb_refl. cbn [negb]. unfold net_assign. apply wp_bind, wp_modify.
  apply wp_bind. apply (wp_var _ peer); [done|].
  destruct (split_buffer ARP_TX 42 w) as (x & tail & Hc & Hx & Ht); [lia|apply Hcf|].
  eapply wp_arp_raw_request; [exact Hc|exact Hx| |exact Hm|done|].
  { unfold untagged. cbn [net with_net]. change (net_our_vlan _) with (net_our_vlan (net w)).
    by rewrite (cf_vlan _ Hcf). }
  unfold net_send_packet. apply wp_bind.
  assert (length (arp_frame net_bcast_ethaddr mac ARPOP_REQUEST mac ip net_null_ethaddr peer) = 42%nat)
    as Hf by (unfold arp_frame, ether_header; rewrite !length_app, Hmac; done).
  apply wp_read_buf; [lia|lia|rewrite length_app; lia|].
  change (Z.to_nat 0) with 0%nat. change (Z.to_nat 42) with 42%nat. rewrite drop_0, <- Hf, take_app_length.
  eapply wp_send_up.
  { destruct Hw. by split. }
  intros h Hup Hpr. apply HQ; [rewrite length_app; lia|exact Hup|exact Hpr].
Qed.

Lemma wp_ping_send_up w :
  up [] w → configured (net w) → net_ethaddr (net w) = mac → net_state (net w) = NETLOOP_CONTINUE →
  time_handler (net w) = Some ping_timeout_handler → time_delta (net w) = 10000 →
  has_buffer TX (net w) →
  wp ping_send (λ _ w', ∃ t1,
    asked (reply (arp_frame net_bcast_ethaddr mac ARPOP_REQUEST mac ip net_null_ethaddr peer)) t1 w' ∧
    t1 ≤ ticks (hw w') ≤ t1 + 1000000) w.
Proof using All.
  intros Hw Hcf Hm Hst Hh Hd Htx. unfold ping_send, net_assign. apply wp_bind.
  eapply wp_var; [apply Hcf|]. apply wp_bind, wp_modify, wp_bind.
  destruct (split_buffer TX 42 w) as (x & tail & Hc & Hx & Hl); [lia|done|].
  assert (∃ x1 x2, x = x1 ++ x2 ∧ length x1 = 14%nat ∧ length x2 = 28%nat) as (x1 & x2 & -> & Hx1 & Hx2).
  { exists (take 14 x), (drop 14 x). rewrite take_drop, length_take, length_drop.
    split_and!; [done|lia|lia]. }
  rewrite <- app_assoc in Hc.
  eapply wp_set_ether; [exact Hc|exact Hx1| |exact Hm|done|done|].
  { unfold untagged. cbn [net with_net]. change (net_our_vlan _) with (net_our_vlan (net w)).
    by rewrite (cf_vlan _ Hcf). }
  apply wp_bind. eapply wp_set_icmp_header; [done| |exact Hx2|].
  { unfold ether_header. rewrite !length_app, Hmac. done. }
  apply wp_bind, wp_modify, wp_bind, wp_modify, wp_bind.
  match goal with |- wp _ _ ?w1 => assert (up [] w1 ∧ configured (net w1)) as [Hup1 Hcf1];
    [|assert (hw w1 = hw w ∧ net_ethaddr (net w1) = mac ∧ net_arp_wait_packet_ip (net w1) = peer ∧
        net_state (net w1) = NETLOOP_CONTINUE ∧ time_handler (net w1) = Some ping_timeout_handler ∧
        time_delta (net w1) = 10000 ∧ arp_wait_tx_packet_size (net w1) = 42 ∧
        ∃ id seq tail, net_tx_packet (net w1) = Some
          (echo_frame net_null_ethaddr mac ICMP_ECHO_REQUEST id IP_FLAGS_DFRAG seq ip peer ++ tail) ∧
          Z.of_nat (length tail) = PKTSIZE_ALIGN - 42) as Hw1; [|generalize dependent w1]] end.
  { split; [destruct Hw; by split|]. destruct Hcf. by split. }
  { split_and!; try done. eexists _, _, tail. split; [|lia]. cbn [net_tx_packet net with_net set_pkt].
    unfold echo_frame. rewrite <- !app_assoc, <- (cf_ip _ Hcf). reflexivity. }
  intros w1 Hup1 Hcf1 (Hh1 & Hm1 & Hwt1 & Hst1 & Hth1 & Htd1 & Hsz1 & Htx1).
  eapply wp_timer_up; [done|]. intros h Hup2 Hp2. apply wp_bind, wp_modify, wp_bind.
  match goal with |- wp _ _ ?w2 => assert (up [] w2 ∧ configured (net w2)) as [Hup3 Hcf3] end.
  { split; [destruct Hup2; by split|]. destruct Hcf1. by split. }
  eapply wp_arp_request_up; [exact Hup3|exact Hcf3|done|done|].
  intros c h' Hc' w' Hup4 Hp4. apply wp_ret. exists (ticks (hw w1)). unfold prompt in *.
  cbn [hw with_net with_hw] in Hp4.
  split; [|cbn [hw with_hw]; lia].
  split; try done. destruct Hcf3. split; try done. by exists c.
Qed.

Lemma wp_ping_start_up w :
  up [] w → configured (net w) → net_ethaddr (net w) = mac → net_state (net w) = NETLOOP_CONTINUE →
  has_buffer TX (net w) →
  wp ping_start (λ _ w', ∃ t1,
    asked (reply (arp_frame net_bcast_ethaddr mac ARPOP_REQUEST mac ip net_null_ethaddr peer)) t1 w' ∧
    t1 ≤ ticks (hw w') ≤ t1 + 1000000) w.
Proof using All.
  intros Hw Hcf Hm Hst Htx. unfold ping_start, eth_get_name. apply wp_bind, wp_bind.
  do 2 (try apply wp_bind; eapply wp_get_dev_up; [done|]). apply wp_ret.
  apply wp_bind, wp_printf; [done|]. intros s. unfold net_set_timeout_handler, net_assign.
  change (10000 =? 0) with false. cbv iota. apply wp_bind, wp_bind, wp_modify, wp_bind.
  eapply wp_timer_up; [destruct Hw; by split|]. intros h Hup Hp. apply wp_bind, wp_modify, wp_modify.
  apply wp_bind. eapply wp_mono.
  { apply wp_ping_send_up; try done; [destruct Hup; by split|destruct Hcf; by split]. }
  intros r w' H. by apply wp_ret.
Qed.

Lemma wp_net_begin_up R prev w :
  ready R w → up [] w → net_ip (net w) = ip → net_our_vlan (net w) = 0xFFFF →
  net_native_vlan (net w) = 0xFFFF → Z.land peer (net_netmask (net w)) = Z.land ip (net_netmask (net w)) →
  wp (net_begin prev) (λ r w', r = None ∧ ∃ t1,
    asked (reply (arp_frame net_bcast_ethaddr mac ARPOP_REQUEST mac ip net_null_ethaddr peer)) t1 w' ∧
    t1 ≤ ticks (hw w') ≤ t1 + 1000000) w.
Proof using All.
  intros [[??? [???? Hbuf]] Hf Ht Hp] Hup Hour Hvl Hnv Hsub. destruct (Hbuf Hf) as [????].
  unfold net_begin, net_init_loop, eth_get_ethaddr, net_set_state, net_assign. apply wp_bind, wp_modify.
  apply wp_bind, wp_bind. eapply wp_get_dev_up; [destruct Hup; by split|].
  apply wp_bind, wp_bind. eapply wp_get_dev_up; [destruct Hup; by split|].
  apply wp_bind. eapply wp_get_dev_up; [destruct Hup; by split|]. apply wp_gets, wp_modify.
  cbn [hw with_net]. rewrite link_mac by apply Hup. rewrite firstn_all2 by lia.
  unfold net_check_prereq. apply wp_bind, wp_bind. apply (wp_var _ peer); [done|].
  replace (peer =? 0) with false by lia. apply wp_bind. apply (wp_var _ ip); [done|].
  replace (ip =? 0) with false by lia. apply wp_bind. apply (wp_var _ mac); [done|].
  destruct (memcmp_total mac (replicate 6 0) 6) as [r Hr]; [by rewrite Hmac|done|]. rewrite Hr.
  destruct (Z.eqb_spec r 0) as [->|]; [by destruct (Hmac0 Hr)|]. apply wp_ret. cbn [Z.eqb].
  apply wp_bind, wp_modify, wp_bind, wp_modify, wp_bind. eapply wp_mono.
  { apply wp_ping_start_up; try done; destruct Hup; by split. }
  intros u w' H. by apply wp_ret.
Qed.

(** ** Receiving the answers *)

Lemma with_hw_id w : with_hw (hw w) w = w.
Proof. by destruct w. Qed.

(** Giving the buffer of a packet back to the driver. *)
Lemma wp_free_up q packet r w (Q : unit → world → Prop) :
  up q w →
  (∀ h, up q (with_hw h w) → prompt ticks (hw w) h → Q tt (with_hw h w)) →
  wp match eth_ops_free_pkt d with
     | Some f => if 0 <=? r then hw_do (f packet r) else mret tt
     | None => mret tt
     end Q w.
Proof using All.
  intros Hw HQ. assert (wp (mret tt) Q w) as Hret.
  { apply wp_ret. rewrite <- (with_hw_id w). apply HQ; [by rewrite with_hw_id|unfold prompt; lia]. }
  destruct (eth_ops_free_pkt d) as [f|] eqn:Hf; [|exact Hret]. destruct (0 <=? r); [|exact Hret].
  apply wp_hw_do. destruct Hw as [Hok Hin Hc Ha].
  destruct (link_free f packet r (hw w) Hf Hok) as (? & ? & Hi). apply HQ; [|done].
  split; [done| |done..]. cbn. by rewrite Hi.
Qed.

Lemma wp_rx_one p q n flags ret w (Q : Z → world → Prop) :
  up (p :: q) w → 0 < Z.of_nat (length p) →
  (∀ tail h, up q (with_hw h w) → prompt ticks (hw w) h →
     Z.of_nat (length (p ++ tail)) = PKTSIZE_ALIGN →
     wp (net_process (p ++ tail) (Z.of_nat (length p)))
       (λ _ w', ∃ q', up q' w' ∧ ∀ h', up q' (with_hw h' w') → prompt ticks (hw w') h' →
          wp (eth_rx_loop n net_process d 0 (Z.of_nat (length p))) Q (with_hw h' w')) (with_hw h w)) →
  wp (eth_rx_loop (S n) net_process d flags ret) Q w.
Proof using All.
  intros [Hok Hin Hc Ha] Hpos HQ. cbn [eth_rx_loop]. apply wp_bind, wp_hw_call.
  destruct (link_recv flags (hw w) Hok) as (Hok' & Hp & Hr). rewrite Hin in Hr.
  destruct (eth_ops_recv d flags (hw w)) as [[r packet] h]. cbn [fst snd] in *.
  destruct Hr as (-> & Hin' & tail & -> & Hl). rewrite (proj2 (Z.ltb_lt _ _) Hpos). apply wp_bind.
  eapply wp_mono; [apply HQ; [by split|done|done]|]. intros packet' w' (q' & Hup & Hk).
  apply wp_bind. eapply wp_free_up; [done|]. intros h' Hup' Hp'.
  replace (Z.of_nat (length p) <=? 0) with false by lia. by apply Hk.
Qed.

Lemma wp_rx_none n flags ret w (Q : Z → world → Prop) :
  up [] w →
  (∀ r h, up [] (with_hw h w) → ticks (hw w) ≤ ticks h ≤ ticks (hw w) + 1000000 → Q r (with_hw h w)) →
  wp (eth_rx_loop (S n) net_process d flags ret) Q w.
Proof using All.
  intros [Hok Hin Hc Ha] HQ. cbn [eth_rx_loop]. apply wp_bind, wp_hw_call.
  destruct (link_recv flags (hw w) Hok) as (Hok' & Hp & Hr). rewrite Hin in Hr.
  destruct (eth_ops_recv d flags (hw w)) as [[r packet] h]. cbn [fst snd] in *. destruct Hr as [Hr Hin'].
  replace (0 <? r) with false by lia. apply wp_bind, wp_ret, wp_bind.
  eapply (wp_free_up []); [by split|]. intros h' Hup' Hp'. replace (r <=? 0) with true by lia.
  apply wp_ret. unfold prompt in *. cbn [hw with_hw] in Hp'. apply HQ; [exact Hup'|lia].
Qed.

(** While the answers are awaited. *)
Record awaiting (q : list (list Z)) (st : net_loop_state) (ts : Z) w : Prop := {
  aw_up : up q w;
  aw_conf : configured (net w);
  aw_state : net_state (net w) = st;
  aw_handler : time_handler (net w) = Some ping_timeout_handler;
  aw_delta : time_delta (net w) = 10000;
  aw_start : time_start (net w) = ts;
}.

Lemma wp_process_arp q t1 ts r tail w :
  asked q t1 w → time_start (net w) = ts → Z.of_nat (length (r ++ tail)) = PKTSIZE_ALIGN →
  Z.of_nat (length r) ≤ PKTSIZE →
  classify ip 0xFFFF 0xFFFF (r ++ tail) (Z.of_nat (length r)) = LearnArp 14 →
  ip_at (r ++ tail) 28 = peer → take 6 (drop 22 (r ++ tail)) = pmac →
  wp (net_process (r ++ tail) (Z.of_nat (length r))) (λ _ w', ∃ id seq,
    awaiting (q ++ reply (echo_frame pmac mac ICMP_ECHO_REQUEST id IP_FLAGS_DFRAG seq ip peer))
      NETLOOP_CONTINUE ts w' ∧ prompt ticks (hw w) (hw w')) w.
Proof using All.
  intros [Hup Hcf Hst Hth Htd Hwt Hrep Hm _ Hsz Htx] Hts Hl Hlen Hcl Hsrc Hsha. unfold net_process.
  destruct Htx as (id & seq & txtail & Htx & Htl). apply wp_bind.
  eapply wp_same; [apply net_process_spec; lia|].
  rewrite (cf_ip _ Hcf), (cf_vlan _ Hcf), (cf_native _ Hcf), Hcl. cbn [perform].
  assert (net_rx_packet (net (rx_world (r ++ tail) (Z.of_nat (length r)) w)) = Some (r ++ tail)) as Hrx
    by done.
  set (w1 := rx_world _ _ _) in *. unfold arp_learn, arp_is_waiting, net_read_ip, net_assign.
  apply wp_bind, wp_bind. apply (wp_var _ peer); [done|]. apply wp_ret.
  replace (nonzero peer) with true by (unfold nonzero; lia). cbn [negb].
  apply wp_bind, wp_bind. rewrite <- (set_pkt_id RX _ w1 Hrx).
  apply wp_read_buf; [lia|lia|lia|]. apply wp_ret.
  change (le_word (take (Z.to_nat 4) (drop (Z.to_nat (14 + 14)) (r ++ tail)))) with (ip_at (r ++ tail) 28).
  rewrite Hsrc. apply wp_bind. apply (wp_var _ peer); [done|]. rewrite Z.eqb_refl.
  apply wp_bind, wp_read_buf; [lia|lia|lia|].
  change (take (Z.to_nat 6) (drop (Z.to_nat (14 + 8)) (r ++ tail))) with (take 6 (drop 22 (r ++ tail))).
  rewrite Hsha, (set_pkt_id RX _ w1 Hrx). apply wp_bind, wp_gets, wp_bind.
  eapply wp_mono with (P := λ _ w2, ∃ e, w2 = with_net (net w1 <| arp_wait_packet_ethaddr := e |>) w1).
  { destruct (arp_wait_packet_ethaddr (net w1)) eqn:He; [apply wp_modify; by eexists|].
    apply wp_ret. exists None. destruct w1 as [??? ?? ?? ?? n ?]. destruct n. cbn in *. by subst. }
  intros u w2 [e ->]. clear u. apply wp_bind. destruct (cf_arp _ Hcf) as [[] Harp].
  apply (wp_var _ (Some dummy_handler)); [done|]. apply wp_bind, wp_ret, wp_bind.
  match goal with |- wp _ _ ?w2 => rewrite <- (set_pkt_id TX _ w2 Htx) end.
  eapply wp_write; [done|lia|rewrite Hpmac, length_app; lia|]. intros c Hc Hlc.
  assert (c = echo_frame pmac mac ICMP_ECHO_REQUEST id IP_FLAGS_DFRAG seq ip peer ++ txtail) as ->.
  { rewrite Hc. change (Z.to_nat 0) with 0%nat. unfold splice, echo_frame, ether_header.
    rewrite Hpmac, <- !app_assoc. reflexivity. }
  apply wp_bind. apply (wp_var _ 42); [done|]. apply wp_bind. unfold net_send_packet. apply wp_bind.
  assert (length (echo_frame pmac mac ICMP_ECHO_REQUEST id IP_FLAGS_DFRAG seq ip peer) = 42%nat)
    as Hf by (unfold echo_frame, ether_header; rewrite !length_app, Hmac, Hpmac; done).
  apply wp_read_buf; [lia|lia|rewrite length_app; lia|].
  change (Z.to_nat 0) with 0%nat. change (Z.to_nat 42) with 42%nat. rewrite drop_0.
  rewrite <- Hf at 1. rewrite take_app_length.
  eapply wp_send_up; [destruct Hup; by split|]. intros h Hup2 Hpr.
  apply wp_bind, wp_modify, wp_bind, wp_modify, wp_modify, wp_bind, wp_gets, wp_ret.
  exists id, seq. split; [|exact Hpr]. split; try done; [destruct Hup2; by split|].
  destruct Hcf. by split.
Qed.

Lemma wp_process_echo q ts r tail w :
  awaiting q NETLOOP_CONTINUE ts w → Z.of_nat (length (r ++ tail)) = PKTSIZE_ALIGN →
  Z.of_nat (length r) ≤ PKTSIZE →
  classify ip 0xFFFF 0xFFFF (r ++ tail) (Z.of_nat (length r)) = GotEchoReply peer →
  wp (net_process (r ++ tail) (Z.of_nat (length r)))
    (λ _ w', awaiting q NETLOOP_SUCCESS ts w' ∧ hw w' = hw w) w.
Proof using All.
  intros [Hup Hcf Hst Hth Htd Hts] Hl Hlen Hcl. unfold net_process. apply wp_bind.
  eapply wp_same; [apply net_process_spec; lia|].
  rewrite (cf_ip _ Hcf), (cf_vlan _ Hcf), (cf_native _ Hcf), Hcl. cbn [perform].
  apply wp_bind. apply (wp_var _ peer); [apply Hcf|]. rewrite Z.eqb_refl.
  apply wp_modify, wp_bind, wp_gets, wp_ret. split; [|done].
  split; try done; [destruct Hup; by split|]. destruct Hcf. by split.
Qed.

(** ** The round in which both answers arrive *)

Lemma elapsed_since t1 t n :
  t1 ≤ t ≤ t1 + n → n < 1000000000 → wrap32 (wrap32 (t / 1000) - wrap32 (t1 / 1000)) ≤ n / 1000 + 1.
Proof.
  intros Ht Hn. unfold wrap32. rewrite <- Zminus_mod. rewrite Z.mod_small by lia. lia.
Qed.

Lemma wp_arp_check_up q t1 w (Q : Z → world → Prop) :
  asked q t1 w → t1 ≤ ticks (hw w) ≤ t1 + 1000000 →
  (∀ h, up q (with_hw h w) → prompt ticks (hw w) h → Q 1 (with_hw h w)) →
  wp arp_timeout_check Q w.
Proof using All.
  intros Hw Ht HQ. unfold arp_timeout_check, arp_is_waiting. apply wp_bind, wp_bind.
  apply (wp_var _ peer); [apply Hw|]. apply wp_ret.
  replace (nonzero peer) with true by (unfold nonzero; lia). cbn [negb]. apply wp_bind.
  eapply wp_timer_up; [apply Hw|]. intros h Hup Hp. apply wp_bind.
  apply (wp_var _ (wrap32 (t1 / 1000))); [apply Hw|]. apply wp_bind.
  pose proof (elapsed_since t1 (ticks (hw w)) 1000000 Ht ltac:(lia)) as He.
  change (1000000 / 1000) with 1000 in He. unfold ARP_TIMEOUT. rewrite Z.gtb_ltb.
  replace (5000 <? _) with false by lia. by apply wp_ret, wp_ret, HQ.
Qed.

Lemma wp_eth_rx_up r1 t1 ts w :
  reply (arp_frame net_bcast_ethaddr mac ARPOP_REQUEST mac ip net_null_ethaddr peer) = [r1] →
  asked [r1] t1 w → time_start (net w) = ts →
  wp (eth_rx net_process) (λ _ w', awaiting [] NETLOOP_SUCCESS ts w' ∧
    ticks (hw w) ≤ ticks (hw w') ≤ ticks (hw w) + 3500000) w.
Proof using All.
  intros Hr Hw Hts. destruct (answers_arp _ _ _ _ _ Hans) as (r & Hr' & Hlr & Hcl).
  assert (r1 = r) as -> by congruence. clear Hr.
  unfold eth_rx. apply wp_bind. eapply wp_get_dev_up; [apply Hw|]. apply wp_bind.
  eapply wp_is_active_up; [apply Hw|]. apply wp_bind. eapply wp_rx_one; [apply Hw|lia|].
  intros tail h Hup1 Hp1 Hl1. destruct (Hcl tail) as (Hcl1 & Hsrc & Hsha).
  eapply wp_mono.
  { apply (wp_process_arp [] t1 ts r tail (with_hw h w)); try done; [|lia].
    destruct Hw. by split. }
  cbv beta. intros packet w2 (id & seq & Haw & Hp2). cbn [app] in Haw. cbn [hw with_hw] in Hp2.
  destruct (answers_echo _ _ _ _ _ Hans id seq) as (r2 & Hr2 & Hlr2 & Hcl2). rewrite Hr2 in Haw.
  eexists. split; [apply Haw|]. intros h3 Hup3 Hp3. eapply wp_rx_one; [exact Hup3|lia|].
  intros tail2 h4 Hup4 Hp4 Hl4. eapply wp_mono.
  { apply (wp_process_echo [] ts r2 tail2); [|done|lia|by apply Hcl2].
    destruct Haw. by split. }
  cbv beta. intros packet2 w5 [Haw5 Hh5]. eexists. split; [apply Haw5|]. intros h6 Hup6 Hp6.
  eapply wp_rx_none; [exact Hup6|]. intros ret h7 Hup7 Hp7. apply wp_ret.
  unfold prompt in *. cbn [hw with_hw] in *. rewrite Hh5 in Hp6.
  split; [destruct Haw5; by split|cbn [hw with_hw]; lia].
Qed.

Lemma wp_cleanup_up st q ts w (Q : unit → world → Prop) :
  awaiting q st ts w →
  (∀ w', up q w' → net_state (net w') = st → net_boot_file_size (net w') = 0 → Q tt w') →
  wp net_cleanup_loop Q w.
Proof.
  intros [Hup Hcf Hst _ _ _] HQ.
  unfold net_cleanup_loop, net_clear_handlers, net_set_udp_handler, net_set_arp_handler,
    net_set_timeout_handler, net_assign.
  apply wp_bind, wp_modify, wp_bind, wp_modify, wp_modify. apply HQ; [destruct Hup; by split|done|].
  apply Hcf.
Qed.

Lemma wp_round_found r1 t1 w :
  reply (arp_frame net_bcast_ethaddr mac ARPOP_REQUEST mac ip net_null_ethaddr peer) = [r1] →
  asked [r1] t1 w → t1 ≤ ticks (hw w) ≤ t1 + 1000000 →
  wp net_round (λ r w', r = RoundDone 0 ∧ ok (hw w') ∧ inbox (hw w') = []) w.
Proof using All.
  intros Hr Hw Ht. unfold net_round. apply wp_bind. eapply wp_arp_check_up; [exact Hw|done|].
  intros h Hup1 Hp1. apply wp_bind. change (0 <? 1) with true. cbv iota. apply wp_bind.
  eapply wp_timer_up; [exact Hup1|]. intros h2 Hup2 Hp2. apply wp_modify. cbn [hw with_hw] in *.
  apply wp_bind. eapply wp_mono.
  { eapply (wp_eth_rx_up r1 t1 (wrap32 (ticks h / 1000))); [done| |done].
    destruct Hw as [_ [] ? ? ? ? ? ? ? ? ?]. split; try done; destruct Hup2; by split. }
  cbv beta. intros u w3 [Haw Ht3]. clear u. cbn [hw with_hw with_net] in Ht3. apply wp_bind. unfold ctrlc.
  apply wp_bind. apply (wp_var _ 0); [apply Haw|]. change (negb (nonzero 0)) with true. cbv iota.
  apply wp_bind, wp_hw_call. assert (ok (hw w3)) as Hok3 by apply Haw.
  destruct (link_tstc (hw w3) Hok3) as [Hp4 ->].
  destruct (port_tstc (EthPort := link_eth []) (hw w3)) as ((Hok4 & Hin4) & _ & _); [by destruct (aw_up _ _ _ _ Haw)|].
  apply wp_ret. unfold net_check_timeout. apply wp_bind, wp_bind.
  apply (wp_var _ (Some ping_timeout_handler)); [apply Haw|]. apply wp_bind.
  eapply (wp_timer_up []); [destruct (aw_up _ _ _ _ Haw); by split|]. intros h5 Hup5 Hp5.
  apply wp_bind. eapply wp_var; [apply Haw|]. apply wp_bind.
  apply (wp_var _ 10000); [apply Haw|]. unfold prompt in *. cbn [hw with_hw] in *.
  assert (ticks h ≤ ticks (tstc (hw w3)).2 ≤ ticks h + 5000000) as Htt by lia.
  pose proof (elapsed_since _ _ _ Htt ltac:(lia)) as He.
  change (5000000 / 1000) with 5000 in He. rewrite Z.gtb_ltb.
  replace (10000 <? _) with false by lia. apply wp_ret, wp_bind.
  apply (wp_var _ NETLOOP_SUCCESS); [apply Haw|]. rewrite bool_decide_eq_false_2 by done.
  apply wp_bind, wp_ret, wp_bind. apply (wp_var _ NETLOOP_SUCCESS); [apply Haw|]. apply wp_bind.
  eapply (wp_cleanup_up NETLOOP_SUCCESS []); [destruct Haw; by split|].
  intros w6 Hup6 _ Hsz. apply wp_bind. apply (wp_var _ 0); [done|]. change (0 <? 0) with false. cbv iota.
  apply wp_bind, wp_ret, wp_bind. unfold eth_halt. apply wp_bind. eapply wp_get_dev_up; [done|].
  apply wp_bind. eapply wp_is_active_up; [done|]. apply wp_bind, wp_hw_do.
  destruct (port_stop (EthPort := link_eth []) d (hw w6)) as ((? & ?) & _ & _); [by destruct Hup6|].
  unfold eth_set_priv_state, eth_assign. apply wp_bind, wp_gets, wp_modify, wp_ret. done.
Qed.

(** ** The whole loop *)

Lemma wp_net_loop_found w :
  ok (hw w) → inbox (hw w) = [] → current_ok (Some d) (eth w) → stack_ok (net w) →
  net_ip (net w) = ip → net_ping_ip (net w) = peer →
  net_our_vlan (net w) = 0xFFFF → net_native_vlan (net w) = 0xFFFF →
  Z.land peer (net_netmask (net w)) = Z.land ip (net_netmask (net w)) →
  wp net_loop (λ r w', r = 0 ∧ ok (hw w') ∧ inbox (hw w') = []) w.
Proof using All.
  intros Hok Hin Hcur Hst Hour Hping Hvl Hnv Hsub. unfold net_loop, net_assign.
  apply wp_bind, wp_gets. do 3 apply wp_bind, wp_modify. apply wp_bind. eapply wp_mono.
  { apply (wp_net_init (Heth := link_eth []) peer (rest w)); try done. split; try done.
    destruct Hst as [???? H]. split; try done. intros Hf. destruct (H Hf). by split. }
  intros u w1 Hw1. cbv beta in Hw1. clear u. apply wp_bind.
  eapply wp_mono; [eapply within_keeps; [apply (within_halt (Hport := link_eth []) (ready (rest w)))|exact Hw1]|].
  intros u w2 [Hw2 _]. clear u. apply wp_bind.
  eapply wp_mono; [by apply (keeps_set_current (Hport := link_eth []) (ready (rest w)))|].
  intros u w3 [Hw3 _]. clear u. apply wp_bind. eapply wp_mono; [by apply (wp_eth_init_link (rest w))|].
  cbv beta. intros ret w4 (-> & Hw4 & Hup4). change (0 <? 0) with false. cbv iota.
  pose proof (ni_rest _ _ (rdy_inv _ _ _ Hw4)) as Hrest. unfold rest in Hrest.
  apply wp_bind. eapply wp_mono; [by eapply wp_net_begin_up; [exact Hw4|exact Hup4|congruence..]|].
  cbv beta. intros r w5 (-> & t1 & Has & Ht).
  destruct (answers_arp _ _ _ _ _ Hans) as (r1 & Hr1 & _). rewrite Hr1 in Has.
  apply (wp_forever (λ w, asked [r1] t1 w ∧ t1 ≤ ticks (hw w) ≤ t1 + 1000000) (λ _, 0));
    [done|done|done|].
  intros w6 [Has6 Ht6]. unfold net_turn. apply wp_bind. eapply wp_mono; [by eapply wp_round_found|].
  cbv beta. intros r w7 (-> & Hok7 & Hin7). by apply wp_bind, wp_modify, wp_ret.
Qed.
End found.

(** * Two boards *)

(** The other end: a board that runs this stack.  Its machine is the list of
    the frames it has sent. *)
Module Peer.
#[export] Instance env : Env (list (list Z)) :=
  {| env_get _ _ := None; env_set _ _ h := (0, h); env_get_id _ := 0 |}.
#[export] Instance port : EthDriver (list (list Z)) := {|
  uclass_first_eth h := ((0, Some 0), h);
  uclass_next_eth _ h := ((0, None), h);
  uclass_eth_devs _ := [0];
  eth_device_active _ _ := true;
  eth_device_probe _ h := (0, h);
  eth_dev_name _ := "eth0";
  eth_dev_seq _ _ := 0;
  enetaddr _ _ := replicate 6 0;
  eth_ops_start _ h := (0, h);
  eth_ops_stop _ h := h;
  eth_ops_send _ p h := (0, h ++ [p]);
  eth_ops_recv _ _ h := ((- EAGAIN, []), h);
  eth_ops_free_pkt _ := None;
|}.

(** In its packet loop, with the address [pmac] and the IP address [peer]. *)
Definition idle_board (pmac : list Z) (peer : Z) : world (list (list Z)) :=
  let w := boot_world [] in
  with_eth (eth w <| eth_current := Some 0 |> <| eth_states := {[0 := ETH_STATE_ACTIVE]} |>)
    (with_net (net w <| net_ip := peer |> <| net_ethaddr := pmac |> <| first_call := false |>
       <| net_tx_packet := Some (replicate 1536 0) |> <| arp_tx_packet := Some (replicate 1536 0) |>) w).

(** The frames it sends when it receives one. *)
Definition answer (pmac : list Z) (peer : Z) (frame : list Z) : list (list Z) :=
  match net_process_received_packet (frame ++ replicate (1536 - length frame) 0)
          (Z.of_nat (length frame)) (idle_board pmac peer) with
  | Ret _ w => hw w
  | _ => []
  end.

Lemma wp_send_frame p w (Q : unit → world (list (list Z)) → Prop) :
  eth_current (eth w) = Some 0 → eth_states (eth w) !! 0 = Some ETH_STATE_ACTIVE →
  Q tt (with_hw (hw w ++ [p]) w) → wp (_ ← eth_send p; mret tt) Q w.
Proof.
  intros Hc Ha HQ. unfold eth_send, eth_get_dev, eth_is_active, eth_state_of. do 3 apply wp_bind.
  apply wp_gets. rewrite Hc. apply wp_ret, wp_bind, wp_bind, wp_gets. cbn [eth_device_active port].
  apply wp_gets. rewrite Ha. cbn [default]. rewrite bool_decide_eq_true_2 by done.
  apply wp_hw_call, wp_ret. exact HQ.
Qed.

(** A board with these settings that waits for nothing. *)
Record idle (pmac : list Z) (peer : Z) (w : world (list (list Z))) : Prop := {
  idle_current : eth_current (eth w) = Some 0;
  idle_active : eth_states (eth w) !! 0 = Some ETH_STATE_ACTIVE;
  idle_ip : net_ip (net w) = peer;
  idle_mac : net_ethaddr (net w) = pmac;
  idle_vlan : net_our_vlan (net w) = 0xFFFF;
  idle_native : net_native_vlan (net w) = 0xFFFF;
  idle_wait : net_arp_wait_packet_ip (net w) = 0;
  idle_tx : ∃ c, net_tx_packet (net w) = Some c ∧ 42 ≤ Z.of_nat (length c);
}.

Lemma idle_board_idle pmac peer : idle pmac peer (idle_board pmac peer).
Proof. split; try reflexivity. exists (replicate 1536 0). split; [reflexivity|vm_compute; done]. Qed.

Lemma rx_world_set c n (w : world (list (list Z))) :
  rx_world c n w = set_pkt RX c (with_net (net w <| net_rx_packet_len := n |>) w).
Proof. reflexivity. Qed.

Lemma wp_answer_arp pmac peer mac ip tail w :
  length pmac = 6%nat → length mac = 6%nat → 0 < peer < 2 ^ 32 → (8 ≤ length tail)%nat → idle pmac peer w →
  let f := arp_frame net_bcast_ethaddr mac ARPOP_REQUEST mac ip net_null_ethaddr peer in
  wp (net_process_received_packet (f ++ tail) (Z.of_nat (length f)))
    (λ _ w', hw w' = hw w ++ [arp_frame mac pmac ARPOP_REPLY pmac peer mac ip]) w.
Proof.
  intros Hp Hm Hpeer Ht [Hc Ha Hip Hmac Hv Hn Hw (ctx & Htx & Hl)] f.
  assert (length f = 42%nat) as Hf by (unfold f, arp_frame, ether_header; rewrite !length_app, Hm; done).
  eapply wp_same; [apply net_process_spec; rewrite ?length_app; lia|]. rewrite Hip, Hv, Hn.
  pose proof (classify_arp_frame net_bcast_ethaddr mac ARPOP_REQUEST mac ip net_null_ethaddr peer tail
    (Z.of_nat (length f)) eq_refl Hm Hm eq_refl Hpeer ltac:(lia) ltac:(by left)) as Hcl.
  fold f in Hcl. rewrite Hcl. cbn [Z.eqb Pos.eqb perform]. rewrite rx_world_set.
  eapply (wp_arp_answer mac pmac); try done. by apply wp_send_frame.
Qed.

Lemma wp_answer_echo pmac peer mac ip id seq tail w :
  length pmac = 6%nat → length mac = 6%nat → 0 < peer < 2 ^ 32 → 0 < ip < 2 ^ 32 →
  (8 ≤ length tail)%nat → idle pmac peer w →
  let f := echo_frame pmac mac ICMP_ECHO_REQUEST id IP_FLAGS_DFRAG seq ip peer in
  wp (net_process_received_packet (f ++ tail) (Z.of_nat (length f)))
    (λ _ w', hw w' = hw w ++ [echo_frame mac pmac ICMP_ECHO_REPLY id 0 seq peer ip]) w.
Proof.
  intros Hp Hm Hpeer Hi Ht [Hc Ha Hip Hmac Hv Hn Hw (ctx & Htx & Hl)] f.
  assert (length f = 42%nat) as Hf
    by (unfold f, echo_frame, ether_header; rewrite !length_app, Hm, Hp; done).
  eapply wp_same; [apply net_process_spec; rewrite ?length_app; lia|]. rewrite Hip, Hv, Hn.
  pose proof (classify_echo_frame pmac mac ICMP_ECHO_REQUEST id IP_FLAGS_DFRAG seq ip peer tail
    (Z.of_nat (length f)) Hp Hm ltac:(lia) ltac:(lia) ltac:(lia) ltac:(by right) ltac:(by right)) as Hcl.
  fold f in Hcl. rewrite Hcl. cbn [Z.eqb Pos.eqb perform]. rewrite rx_world_set.
  eapply (wp_ping_answer mac pmac); try done. by apply wp_send_frame.
Qed.

(** The board is a host that answers. *)
Lemma answers_all pmac peer mac ip :
  length pmac = 6%nat → length mac = 6%nat → 0 < peer < 2 ^ 32 → 0 < ip < 2 ^ 32 →
  answers (answer pmac peer) mac ip pmac peer.
Proof.
  intros Hp Hm Hpeer Hip. split.
  - set (f := arp_frame net_bcast_ethaddr mac _ _ _ _ _).
    set (r := arp_frame mac pmac ARPOP_REPLY pmac peer mac ip).
    assert (length f = 42%nat) as Hf by (unfold f, arp_frame, ether_header; rewrite !length_app, Hm; done).
    assert (length r = 42%nat) as Hr
      by (unfold r, arp_frame, ether_header; rewrite !length_app, Hm, Hp; done).
    exists r. split_and!; [|lia|lia|].
    + destruct (proj1 (wp_run _ _ _) (wp_answer_arp pmac peer mac ip (replicate (1536 - length f) 0)
        (idle_board pmac peer) Hp Hm Hpeer ltac:(rewrite length_replicate; lia) (idle_board_idle pmac peer)))
        as (u & w' & Hrun & Hw).
      unfold answer. unfold f in *. rewrite Hrun. exact Hw.
    + intros tail. split_and!.
      * unfold r at 1. by rewrite classify_arp_frame by (done || lia || by right).
      * change (ip_at (r ++ tail) 28) with (le_word (take 4 (drop 28 (r ++ tail)))).
        subst r. clear f Hf Hr. explode mac Hm. explode pmac Hp.
        change (le_word (le32 peer) = peer). apply le32_word. lia.
      * subst r. clear f Hf Hr. explode mac Hm. by explode pmac Hp.
  - intros id seq. set (f := echo_frame pmac mac _ _ _ _ _ _).
    set (r := echo_frame mac pmac ICMP_ECHO_REPLY id 0 seq peer ip).
    assert (length f = 42%nat) as Hf
      by (unfold f, echo_frame, ether_header; rewrite !length_app, Hm, Hp; done).
    assert (length r = 42%nat) as Hr
      by (unfold r, echo_frame, ether_header; rewrite !length_app, Hm, Hp; done).
    exists r. split_and!; [|lia|lia|].
    + destruct (proj1 (wp_run _ _ _) (wp_answer_echo pmac peer mac ip id seq
        (replicate (1536 - length f) 0) (idle_board pmac peer) Hp Hm Hpeer Hip
        ltac:(rewrite length_replicate; lia) (idle_board_idle pmac peer))) as (u & w' & Hrun & Hw).
      unfold answer. unfold f in *. rewrite Hrun. exact Hw.
    + intros tail. unfold r at 1. by rewrite classify_echo_frame by (done || lia || by left).
Qed.
End Peer.

(** The wire between the two boards, as the first one sees it: its address,
    what the other end sends back for a frame, the frames that are on their
    way to it, and the microseconds since power-on.  The wire drops frames
    longer than the link allows. *)
Module Wire.
Record wire := mkWire {
  wire_mac : list Z;
  wire_host : list Z → list (list Z);
  wire_inbox : list (list Z);
  wire_time : Z;
}.

Definition fits (p : list Z) : bool := (length p <=? 1522)%nat.
Definition wait (n : Z) (h : wire) : wire :=
  mkWire (wire_mac h) (wire_host h) (wire_inbox h) (wire_time h + n).
Definition put (q : list (list Z)) (h : wire) : wire :=
  mkWire (wire_mac h) (wire_host h) q (wire_time h).

#[global] Instance env : Env wire :=
  {| env_get _ _ := None; env_set _ _ h := (0, h); env_get_id _ := 0 |}.
#[global] Instance port : EthDriver wire := {|
  uclass_first_eth h := ((0, Some 0), h);
  uclass_next_eth _ h := ((0, None), h);
  uclass_eth_devs _ := [0];
  eth_device_active _ _ := true;
  eth_device_probe _ h := (0, h);
  eth_dev_name _ := "eth0";
  eth_dev_seq _ _ := 0;
  enetaddr _ h := wire_mac h;
  eth_ops_start _ h := (0, h);
  eth_ops_stop _ h := h;
  eth_ops_send _ p h := (0, put (wire_inbox h ++ List.filter fits (wire_host h p)) h);
  eth_ops_recv _ _ h :=
    match wire_inbox h with
    | [] => ((- EAGAIN, []), h)
    | p :: q => ((Z.of_nat (length p), p ++ replicate (1536 - length p) 0), put q h)
    end;
  eth_ops_free_pkt _ := None;
|}.
#[global] Instance timer : Timer wire :=
  {| get_timer b h := (wrap32 (wire_time h / 1000 - b), h) |}.
#[global] Instance keyboard : Keyboard wire :=
  {| tstc h := (false, wait 1 h); getc h := (0, h) |}.

(** The wire from [mac] to [host]. *)
Definition joined (mac : list Z) (host : list Z → list (list Z)) (h : wire) : Prop :=
  wire_mac h = mac ∧ wire_host h = host ∧ Forall (λ p, fits p = true) (wire_inbox h).

#[global] Instance link mac host :
  length mac = 6%nat →
  EchoLink (joined mac host) wire_inbox wire_time 0 mac (λ p, List.filter fits (host p)).
Proof.
  intros Hm. split.
  - intros q. split; unfold moves, takes, joined; intros; cbn; destruct_and?; repeat split; try done; lia || congruence.
  - done.
  - done.
  - done.
  - by intros h [].
  - intros b h _. unfold prompt. cbn. lia.
  - intros h _. unfold prompt. cbn. lia.
  - intros p h (? & Hh & Hf). unfold prompt, joined. cbn. rewrite Hh. split_and!; try done; [|lia].
    apply Forall_app. split; [done|]. apply Forall_forall. intros x Hx.
    by apply list_elem_of_In, filter_In in Hx as [_ ?].
  - intros f h (? & Hh & Hf). unfold prompt, joined. cbn.
    destruct (wire_inbox h) as [|p q] eqn:E; cbn; rewrite ?E; [split_and!; done || lia|].
    apply Forall_cons in Hf as [Hp Hf]. unfold fits in Hp. apply Nat.leb_le in Hp.
    split_and!; try done; [lia..|]. eexists. split; [done|].
    rewrite length_app, length_replicate. lia.
  - done.
Qed.

(** The wire does not drop the answers. *)
Lemma answers_fit host mac ip pmac peer :
  answers host mac ip pmac peer → answers (λ p, List.filter fits (host p)) mac ip pmac peer.
Proof.
  assert (∀ r : list Z, Z.of_nat (length r) ≤ PKTSIZE → List.filter fits [r] = [r]) as Hfit.
  { intros r Hr. cbn. unfold fits. by rewrite (proj2 (Nat.leb_le _ _)) by lia. }
  intros [(r & Hr & Hl & H) He]. split.
  - exists r. rewrite Hr. split; [apply Hfit; lia|done].
  - intros id seq. destruct (He id seq) as (r2 & Hr2 & Hl2 & H2). exists r2. rewrite Hr2.
    split; [apply Hfit; lia|done].
Qed.
End Wire.

(** Two boards on one wire: the first one finds the second. *)
Lemma wp_net_loop_boards mac ip pmac peer t (w : world Wire.wire) :
  length mac = 6%nat → memcmp mac (replicate 6 0) 6 ≠ Some 0 → length pmac = 6%nat →
  0 < ip < 2 ^ 32 → 0 < peer < 2 ^ 32 →
  hw w = Wire.mkWire mac (Peer.answer pmac peer) [] t →
  current_ok (Some 0) (eth w) → stack_ok (net w) → net_ip (net w) = ip → net_ping_ip (net w) = peer →
  net_our_vlan (net w) = 0xFFFF → net_native_vlan (net w) = 0xFFFF →
  Z.land peer (net_netmask (net w)) = Z.land ip (net_netmask (net w)) →
  wp net_loop (λ r w', r = 0) w.
Proof.
  intros Hm Hm0 Hpm Hi Hp Hh Hc Hst Hip Hping Hv Hn Hs.
  eapply wp_mono; [eapply (wp_net_loop_found (Hlink := Wire.link mac (Peer.answer pmac peer) Hm) ip peer pmac)|];
    try done; [by apply Wire.answers_fit, Peer.answers_all|by rewrite Hh|by rewrite Hh|].
  by intros r w' [? _].
Qed.

(** A wire with nobody at the other end. *)
Definition silent (h : Wire.wire) : Prop :=
  length (Wire.wire_mac h) = 6%nat ∧ Wire.wire_host h = (λ _, []) ∧ Wire.wire_inbox h = [].

#[export] Instance silent_port peer : NetPort silent Wire.wire_time (Some 0) peer (λ _, False).
Proof.
  split.
  - split; unfold moves, takes, silent; intros; cbn; destruct_and?; repeat split; try done; lia || congruence.
  - intros d p h (? & Hh & Hi). unfold moves, takes, silent. cbn. rewrite Hh, Hi. repeat split; done || lia.
  - intros d f h (? & Hh & Hi). unfold moves, takes, silent. cbn. rewrite Hi. cbn.
    repeat split; done || lia.
  - done.
Qed.

(** * The properties *)

(** C11. What the receive path does with a packet is a function of the packet
    and of the board's address and VLANs: the checks of the encapsulation, of
    ARP, IP, ICMP and UDP, done by nested early returns on the buffer, pick
    one action, and nothing else happens. *)
Theorem receive_refines {HW} `{!Env HW} `{!EthDriver HW} `{!Timer HW} `{!Keyboard HW} c len
    (w : world HW) :
  50 ≤ Z.of_nat (length c) → 0 ≤ len < 2 ^ 31 →
  net_process_received_packet c len w
  = perform (classify (net_ip (net w)) (net_our_vlan (net w)) (net_native_vlan (net w)) c len)
      (rx_world c len w).
Proof. apply net_process_spec. Qed.

(** A request for the address of the board. *)
Definition who_has : list Z :=
  arp_frame net_bcast_ethaddr [2; 0; 0; 0; 0; 1] ARPOP_REQUEST [2; 0; 0; 0; 0; 1] 0x0107A8C0
    net_null_ethaddr 0x0207A8C0 ++ replicate 18 0.

Lemma receive_refines_witness :
  let w := boot_world (Wire.mkWire [] (λ _, []) [] 0) in
  let w' := with_net (net w <| net_ip := 0x0207A8C0 |>) w in
  net_process_received_packet who_has 60 w' = arp_answer 14 (rx_world who_has 60 w').
Proof.
  intros w w'. rewrite (receive_refines who_has 60 w') by (done || lia).
  replace (classify _ _ _ _ _) with (AnswerArp 14); [reflexivity|]. vm_compute. reflexivity.
Defined.

(** C40. An echo request whose IP total length is shorter than the IP header
    passes every check of the receive path; the length of its ICMP part wraps
    around, and the checksum of the answer is computed over memory far outside
    the packet buffer. *)
Theorem short_echo_crash {HW} `{!Env HW} `{!EthDriver HW} `{!Timer HW} `{!Keyboard HW} c len ip n
    (w : world HW) :
  50 ≤ Z.of_nat (length c) < 2 ^ 31 → 0 ≤ len < 2 ^ 31 → length (net_ethaddr (net w)) = 6%nat →
  classify (net_ip (net w)) (net_our_vlan (net w)) (net_native_vlan (net w)) c len = AnswerEcho ip n →
  n < 20 →
  ∃ w', net_process_received_packet c len w = Crash OUT_OF_BOUNDS w'.
Proof.
  intros Hc Hlen Hm Hcl Hn. rewrite net_process_spec, Hcl by lia. cbn [perform].
  destruct (classify_request _ _ _ _ _ _ _ Hcl). eapply crashes_ping_answer; done || lia.
Qed.

(** An echo request that says it is 19 bytes long. *)
Definition short_echo : list Z :=
  ether_header [2; 0; 0; 0; 0; 2] [2; 0; 0; 0; 0; 1] PROT_IP
  ++ ip_header 19 7 IP_FLAGS_DFRAG IPPROTO_ICMP 0x0107A8C0 0x0207A8C0 ++ icmp_echo ICMP_ECHO_REQUEST 1
  ++ replicate 18 0.

Lemma short_echo_crash_witness :
  let w := boot_world (Wire.mkWire [] (λ _, []) [] 0) in
  ∃ w', net_process_received_packet short_echo 60
          (with_net (net w <| net_ip := 0x0207A8C0 |>) w) = Crash OUT_OF_BOUNDS w'.
Proof.
  apply (short_echo_crash short_echo 60 14 19).
  - vm_compute. split; [discriminate|reflexivity].
  - lia.
  - reflexivity.
  - vm_compute. reflexivity.
  - lia.
Defined.


