(* ===== verification/Ping.v ===== *)
(** The ping test, [testsuite/test_ping.c], and the address report,
    [testsuite/test_memmap.c]. *)

From S2P Require Import Prelude CLib Vsprintf VsprintfFacts Machine Events Keeps NetUtils EthUclass.
From S2P Require Import NetCore EthFacts NetFacts NetEcho.

Record A_ping_test := mkPingArgs {
  ip_address : option string;
}.

Section ping.
Context {HW : Type} `{!Env HW} `{!EthDriver HW} `{!Timer HW} `{!Keyboard HW}.
Notation M := (M (world HW)).

(** The event with its type and text set; [addressDim] stays 0. *)
Definition ping_event (event : DiagEventParams_s) (type : DiagErrEventIDTypes_e) (s : string) :
    M unit :=
  ReportEvent (fill_event event type [] s).

(** [arg] is dereferenced without a test. *)
Definition ping_test (testId : Z) (arg : option A_ping_test) : M TestResultTypes_e :=
  event ← Event_Init testId;
  match arg with
  | None => crash NULL_DEREF
  | Some a =>
      let ip := string_to_ip (ip_address a) in
      _ ← net_assign net_ping_ip ip;
      if ip =? 0 then
        s ← sprintf_to DIAG_DIM_STRING_EVENT "Invalid IP address" [];
        _ ← ping_event event DIAG_DEV_CONFIG_ERR_EVENT s;
        mret DIAG_TEST_RESULT_FAIL
      else
        pingResult ← net_loop;
        if pingResult <? 0 then
          s ← sprintf_to DIAG_DIM_STRING_EVENT "ping to %s failed" [VStr (ip_address a)];
          _ ← ping_event event DIAG_DEV_DATA_TIMEOUT_ERR_EVENT s;
          mret DIAG_TEST_RESULT_FAIL
        else mret DIAG_TEST_RESULT_PASS
  end.
End ping.

Lemma ping_failed_text ip :
  no_nul ip → slen ip < 200 →
  ∃ s, format "ping to %s failed" [VStr (Some ip)] = Some s ∧ no_nul s ∧
       slen s < DIAG_DIM_STRING_EVENT.
Proof.
  intros Hn Hl. exists ("ping to " +:+ ip +:+ " failed"). split_and!.
  - unfold format. change (c_str "ping to %s failed") with "ping to %s failed".
    change (S (String.length _)) with 18%nat.
    do 8 (rewrite vformat_lit by reflexivity). rewrite vformat_str by done.
    do 7 (rewrite vformat_lit by reflexivity). done.
  - apply no_nul_app; [done|]. by apply no_nul_app.
  - rewrite !slen_app. change (slen "ping to ") with 8. change (slen " failed") with 7.
    unfold DIAG_DIM_STRING_EVENT. lia.
Qed.

Section verdict.
Context {HW : Type} `{!Env HW} `{!EthDriver HW} `{!Timer HW} `{!Keyboard HW}.
Notation world := (world HW).
Implicit Types w : world.

(** The test around the packet loop: its result is the verdict. *)
Lemma wp_ping_test testId text w (P : Z → world → Prop) :
  no_nul text → slen text < 200 →
  let ip := string_to_ip (Some text) in
  let w0 := with_net (net w <| net_ping_ip := ip |>) w in
  (ip ≠ 0 → wp net_loop P w0) →
  wp (ping_test testId (Some (mkPingArgs (Some text)))) (λ r w',
    (∃ s, ip = 0 ∧ r = DIAG_TEST_RESULT_FAIL ∧ w' = emit s w0) ∨
    (∃ s ret w1, ip ≠ 0 ∧ P ret w1 ∧ w' = emit s w1 ∧
       r = if ret <? 0 then DIAG_TEST_RESULT_FAIL else DIAG_TEST_RESULT_PASS)) w.
Proof.
  intros Hn Hl ip w0 Hloop. unfold ping_test, ping_event, net_assign. wp_run. cbn [ip_address]. fold ip.
  fold w0. destruct (Z.eqb_spec ip 0) as [E|E].
  - apply wp_bind. unfold wp at 1.
    rewrite (sprintf_exact _ _ _ "Invalid IP address") by done. wp_run. left. by eexists.
  - eapply wp_bind, wp_mono; [by apply Hloop|]. intros ret w1 HP.
    destruct (ret <? 0) eqn:Hr; wp_run.
    + destruct (ping_failed_text text Hn Hl) as (s & Hf & Hs & Hsl).
      unfold wp at 1. unfold DIAG_DIM_STRING_EVENT in *.
      rewrite (sprintf_exact _ _ _ s) by (done || (unfold INT_MAX; lia)). wp_run.
      right. eexists _, ret, w1. by rewrite Hr.
    + right. exists "", ret, w1. rewrite Hr. by rewrite emit_nil.
Qed.
End verdict.

(** The ping test returns on every port.  It passes only when the address
    is well formed, is not 0.0.0.0, and an echo reply from it was received; on
    a malformed address the network is not touched. *)
Theorem ping_verdict {HW} `{!Env HW} `{!EthDriver HW} `{!Timer HW} `{!Keyboard HW}
    (sane : HW → Prop) (ticks : HW → Z) dev0 (heard : HW → Prop) testId text (w : world HW) :
  let ip := string_to_ip (Some text) in
  NetPort sane ticks dev0 ip heard → no_nul text → slen text < 200 →
  sane (hw w) → current_ok dev0 (eth w) → stack_ok (net w) →
  ∃ r w', ping_test testId (Some (mkPingArgs (Some text))) w = Ret r w' ∧
    (r = DIAG_TEST_RESULT_PASS ∧ ip ≠ 0 ∧ heard (hw w') ∨ r = DIAG_TEST_RESULT_FAIL) ∧
    (ip = 0 → hw w' = hw w).
Proof.
  intros ip Hport Hn Hl Hs Hc Hst. apply wp_run. eapply wp_mono.
  { eapply wp_ping_test; [done|done|]. intros _. apply (wp_net_loop (Hport := Hport) (rest w)); [|done].
    split; try done. by apply stack_ping. }
  intros r w' [(s & H0 & -> & ->)|(s & ret & w1 & H0 & [_ Hh] & -> & ->)]; [by auto|].
  split; [|done]. destruct (Z.ltb_spec ret 0) as [|Hge]; [by right|]. left. by destruct (Hh Hge).
Qed.

(** Without an argument the ping test dereferences a null pointer. *)
Theorem ping_null_argument {HW} `{!Env HW} `{!EthDriver HW} `{!Timer HW} `{!Keyboard HW} testId
    (w : world HW) :
  ping_test testId None w = Crash NULL_DEREF w.
Proof.
  assert (wp (Event_Init testId) (λ _ w', w' = w) w) as (e & w' & H & ->)%wp_run by by wp_run.
  unfold ping_test. by erewrite M_bind_Ret by exact H.
Qed.

(** On a wire with nobody at the other end the test fails, and so it does on a
    malformed address. *)
Lemma ping_verdict_witness :
  let w := boot_world (Wire.mkWire [2; 0; 0; 0; 0; 1] (λ _, []) [] 0) in
  (∃ w', ping_test 7 (Some (mkPingArgs (Some "192.168.7.1"))) w = Ret DIAG_TEST_RESULT_FAIL w') ∧
  (∃ w', ping_test 7 (Some (mkPingArgs (Some "192.168.7.256"))) w = Ret DIAG_TEST_RESULT_FAIL w' ∧
     hw w' = hw w).
Proof.
  intros w.
  assert (silent (hw w) ∧ current_ok (Some 0) (eth w) ∧ stack_ok (net w)) as (Hs & Hc & Hst)
    by (split_and!; by split || by left).
  split.
  - destruct (ping_verdict silent Wire.wire_time (Some 0) (λ _, False) 7 "192.168.7.1" w
      (silent_port _)) as (r & w' & Hr & [(_ & _ & [])| ->] & _); try done. by exists w'.
  - destruct (ping_verdict silent Wire.wire_time (Some 0) (λ _, False) 7 "192.168.7.256" w
      (silent_port _)) as (r & w' & Hr & [(_ & _ & [])| ->] & Hw); try done.
    exists w'. split; [exact Hr|]. by apply Hw.
Defined.

(** C10. Two boards on one wire, both running this stack: the ping test of the
    first, given the address of the second, passes.  The whole exchange is the
    code's: the ARP request, the answer of the other end, the held echo request
    sent with the address learnt, the echo reply, and its check. *)
Theorem ping_finds_board testId text mac ip pmac t (w : world Wire.wire) :
  let peer := string_to_ip (Some text) in
  no_nul text → slen text < 200 → 0 < ip < 2 ^ 32 → 0 < peer < 2 ^ 32 →
  length mac = 6%nat → memcmp mac (replicate 6 0) 6 ≠ Some 0 → length pmac = 6%nat →
  hw w = Wire.mkWire mac (Peer.answer pmac peer) [] t →
  current_ok (Some 0) (eth w) → stack_ok (net w) → net_ip (net w) = ip →
  net_our_vlan (net w) = 0xFFFF → net_native_vlan (net w) = 0xFFFF →
  Z.land peer (net_netmask (net w)) = Z.land ip (net_netmask (net w)) →
  ∃ w', ping_test testId (Some (mkPingArgs (Some text))) w = Ret DIAG_TEST_RESULT_PASS w'.
Proof.
  intros peer Hn Hl Hip Hp Hm Hm0 Hpm Hh Hc Hst Hi Hv Hnv Hsub.
  assert (wp (ping_test testId (Some (mkPingArgs (Some text))))
    (λ r _, r = DIAG_TEST_RESULT_PASS) w) as (r & w' & Hr & ->)%wp_run; [|eauto].
  eapply wp_mono.
  { eapply (wp_ping_test _ _ _ (λ ret _, ret = 0)); [done|done|]. intros _.
    eapply (wp_net_loop_boards mac ip pmac peer t); try done.
    by apply stack_ping. }
  intros r w' [(s & H0 & _)|(s & ret & w1 & _ & -> & _ & ->)]; [|done]. unfold peer in Hp. lia.
Qed.

Lemma ping_finds_board_witness :
  let w := boot_world (Wire.mkWire [2; 0; 0; 0; 0; 1] (Peer.answer [2; 0; 0; 0; 0; 2] 0x0107A8C0) [] 0) in
  ∃ w', ping_test 7 (Some (mkPingArgs (Some "192.168.7.1")))
          (with_net (net w <| net_ip := 0x0207A8C0 |> <| net_netmask := 0x00FFFFFF |>) w)
        = Ret DIAG_TEST_RESULT_PASS w'.
Proof.
  intros w. apply (ping_finds_board 7 "192.168.7.1" [2; 0; 0; 0; 0; 1] 0x0207A8C0 [2; 0; 0; 0; 0; 2] 0);
    [done|done|done|done|done|done|done|reflexivity|by left|by split|reflexivity..].
Defined.

(** * The address report *)

(** The addresses the linker and the compiler chose. *)
Record memory_map := mkMap {
  at_stack_variable : Z;
  at_string_pointer : Z;
  at_a : Z;
  at_image_copy_start : Z;
  at_do_boarddiag : Z;
  at_t_memmap : Z;
  string_pointer : Z;
  at_bss_end : Z;
  image_copy_start : Z;
}.

Section memmap.
Context {HW : Type} (mm : memory_map).
Notation M := (M (world HW)).

Definition show_address (name : string) (a : Z) : M unit :=
  printf ("%20s %08X" +:+ newline) [VStr (Some name); VInt (wrap32 a)].

Definition t_memmap (testId : Z) (arg : option unit) : M TestResultTypes_e :=
  let stack_variable := 3 in
  _ ← printf ("*** stack ***" +:+ newline) [];
  _ ← show_address "(&stack_variable)" (at_stack_variable mm);
  _ ← show_address "&string_pointer" (at_string_pointer mm);
  _ ← show_address "&a" (at_a mm);
  _ ← printf ("*** code ***" +:+ newline) [];
  _ ← show_address "&__image_copy_start" (at_image_copy_start mm);
  _ ← show_address "do_boarddiag" (at_do_boarddiag mm);
  _ ← show_address "t_memmap" (at_t_memmap mm);
  _ ← printf ("*** const string ***" +:+ newline) [];
  _ ← show_address "string_variable" (string_pointer mm);
  _ ← show_address "(string_pointer+1)" (string_pointer mm + 1);
  _ ← show_address "(string_pointer+2)" (string_pointer mm + 2);
  _ ← show_address "&__bss_end" (at_bss_end mm);
  _ ← printf ("*** junk ***" +:+ newline) [];
  _ ← show_address "__image_copy_start" (image_copy_start mm);
  _ ← show_address "stack_variable" stack_variable;
  _ ← show_address "*string_pointer" (ord "H");
  mret DIAG_TEST_RESULT_PASS.
End memmap.

(** The report always passes and only prints. *)
Lemma t_memmap_prints {HW} mm testId arg (w : world HW) :
  ∃ s, t_memmap mm testId arg w = Ret DIAG_TEST_RESULT_PASS (emit s w).
Proof.
  assert (wp (t_memmap mm testId arg) (λ r w', r = DIAG_TEST_RESULT_PASS ∧ ∃ s, w' = emit s w) w)
    as (r & w' & H & -> & s & ->)%wp_run; [|by exists s].
  unfold t_memmap, show_address. wp_run. split; [done|]. rewrite !emit_emit. by eexists.
Qed.
