(* ===== verification/BlkCache.v ===== *)
(** The block cache of U-Boot, [drivers/block/blkcache.c].  [lbaint_t] and
    [unsigned long] are 32 bits wide. *)

From S2P Require Import Prelude CLib Vsprintf VsprintfFacts Machine Events.

(** * Definitions *)

(** The heap: whether [malloc(n)] succeeds. *)
Class Heap (HW : Type) := {
  heap_malloc : Z → HW → bool * HW;
}.

(** The condition of the search. *)
Definition node_hit (ift dev st cnt sz : Z) (node : block_cache_node) : bool :=
  (iftype node =? ift) && (devnum node =? dev) && (blksz node =? sz) && (start node <=? st)
  && (wrap32 (st + cnt) <=? wrap32 (start node + blkcnt node)).

(** The first node that hits, and the list with it moved to the front. *)
Fixpoint find_node (hit : block_cache_node → bool) (l : list block_cache_node) :
    option (block_cache_node * list block_cache_node) :=
  match l with
  | [] => None
  | node :: l' =>
      if hit node then Some (node, l')
      else '(n, rest) ← find_node hit l'; Some (n, node :: rest)
  end.

Section blkcache.
Context {HW : Type} `{!Heap HW}.
Notation M := (M (world HW)).

Definition set_cache (l : list block_cache_node) (st : block_cache_stats) : M unit :=
  modify (with_blk (mkBlkCache l st)).

Definition cache_find (ift dev st cnt sz : Z) : M (option block_cache_node) :=
  b ← gets blk;
  match find_node (node_hit ift dev st cnt sz) (block_cache b) with
  | Some (node, rest) => _ ← set_cache (node :: rest) (_stats b); mret (Some node)
  | None => mret None
  end.

Definition count_hit (s : block_cache_stats) : block_cache_stats :=
  mkStats (wrap32 (hits s + 1)) (misses s) (entries s) (max_blocks_per_entry s) (max_entries s).
Definition count_miss (s : block_cache_stats) : block_cache_stats :=
  mkStats (hits s) (wrap32 (misses s + 1)) (entries s) (max_blocks_per_entry s) (max_entries s).
Definition with_entries (n : Z) (s : block_cache_stats) : block_cache_stats :=
  mkStats (hits s) (misses s) (wrap32 n) (max_blocks_per_entry s) (max_entries s).

(** The bytes copied to the buffer on a hit. *)
Definition blkcache_read (ift dev st cnt sz : Z) : M (option (list Z)) :=
  node ← cache_find ift dev st cnt sz;
  b ← gets blk;
  match node with
  | Some node =>
      let src := drop (Z.to_nat (wrap32 ((st - start node) * sz))) (cache node) in
      let n := Z.to_nat (wrap32 (sz * cnt)) in
      if (n <=? length src)%nat then
        _ ← set_cache (block_cache b) (count_hit (_stats b)); mret (Some (take n src))
      else crash OUT_OF_BOUNDS
  | None => _ ← set_cache (block_cache b) (count_miss (_stats b)); mret None
  end.

(** The list without the node to fill, the counters, and whether the node
    comes with memory that is large enough. *)
Definition free_slot : Type := list block_cache_node * block_cache_stats * bool.

(** Where the new entry goes: the least recently used node is taken off the
    list when the cache is full, and otherwise a node is allocated. *)
Definition take_slot (bytes : Z) : M (option free_slot) :=
  b ← gets blk;
  let stats := _stats b in
  if max_entries stats <=? entries stats then
    match last (block_cache b) with
    | None => crash NULL_DEREF
    | Some node =>
        let rest := take (pred (length (block_cache b))) (block_cache b) in
        let stats := with_entries (entries stats - 1) stats in
        _ ← set_cache rest stats;
        mret (Some (rest, stats, negb (wrap32 (blkcnt node * blksz node) <? bytes)))
    end
  else
    '(ok : bool) ← hw_call (heap_malloc 32);
    if ok then mret (Some (block_cache b, stats, false)) else mret None.

(** [buffer] is copied into the node. *)
Definition blkcache_fill (ift dev st cnt sz : Z) (buffer : list Z) : M unit :=
  b ← gets blk;
  if cnt >? max_blocks_per_entry (_stats b) then mret tt
  else if max_entries (_stats b) =? 0 then mret tt
  else
    let bytes := wrap32 (sz * cnt) in
    slot ← take_slot bytes;
    match slot with
    | None => mret tt
    | Some (rest, stats, has_cache) =>
        '(ok : bool) ← (if (has_cache : bool) then mret true else hw_call (heap_malloc bytes));
        if ok then
          if (Z.to_nat bytes <=? length buffer)%nat then
            set_cache (mkNode ift dev st cnt sz (take (Z.to_nat bytes) buffer) :: rest)
              (with_entries (entries stats + 1) stats)
          else crash OUT_OF_BOUNDS
        else mret tt
    end.

Definition of_device (ift dev : Z) (node : block_cache_node) : bool :=
  (iftype node =? ift) && (devnum node =? dev).

Definition blkcache_invalidate (ift dev : Z) : M unit :=
  b ← gets blk;
  let keep := List.filter (λ node, negb (of_device ift dev node)) (block_cache b) in
  let gone := Z.of_nat (length (block_cache b) - length keep) in
  set_cache keep (with_entries (entries (_stats b) - gone) (_stats b)).

Definition blkcache_configure (blocks n_entries : Z) : M unit :=
  b ← gets blk;
  let s := _stats b in
  let '(l, n) :=
    if negb (blocks =? max_blocks_per_entry s) || negb (n_entries =? max_entries s)
    then ([], 0) else (block_cache b, entries s) in
  set_cache l (mkStats 0 0 n blocks n_entries).

Definition blkcache_stats : M block_cache_stats :=
  b ← gets blk;
  let s := _stats b in
  _ ← set_cache (block_cache b) (mkStats 0 0 (entries s) (max_blocks_per_entry s) (max_entries s));
  mret s.
End blkcache.
