(* ===== verification/BlkCacheFacts.v ===== *)
(** The block cache is coherent: what it returns is what the device holds. *)

From S2P Require Import Prelude CLib Vsprintf VsprintfFacts Machine Events BlkCache.

Section coherence.
Context {HW : Type} `{!Heap HW} (content : HW → Z → Z → Z → Z)
  (Hheap : ∀ n h i d x, content (heap_malloc n h).2 i d x = content h i d x).
Notation world := (world HW).

(** A request that does not wrap around. *)
Definition in_range (st cnt sz : Z) : Prop :=
  0 ≤ st ∧ 0 ≤ cnt ∧ 0 < sz ∧ st + cnt < 2 ^ 32 ∧ sz * cnt < 2 ^ 32.

(** The bytes of [cnt] blocks from [st] on the device. *)
Definition blocks_of (h : HW) (ift dev st cnt sz : Z) : list Z :=
  load_bytes (st * sz) (sz * cnt) (content h ift dev).

Definition node_ok (h : HW) (node : block_cache_node) : Prop :=
  in_range (start node) (blkcnt node) (blksz node) ∧
  cache node = blocks_of h (iftype node) (devnum node) (start node) (blkcnt node) (blksz node).

Record cache_ok (w : world) : Prop := {
  nodes_ok : Forall (node_ok (hw w)) (block_cache (blk w));
  entries_counted : entries (_stats (blk w)) = Z.of_nat (length (block_cache (blk w)));
  entries_bounded : entries (_stats (blk w)) ≤ max_entries (_stats (blk w)) < 2 ^ 32;
}.

Lemma node_ok_ext h h' node :
  (∀ x, content h' (iftype node) (devnum node) x = content h (iftype node) (devnum node) x) →
  node_ok h node → node_ok h' node.
Proof.
  intros Hc [Hr Hn]. split; [done|]. rewrite Hn. apply load_bytes_ext. intros x. by rewrite Hc.
Qed.

(** Only the cache and the heap may differ. *)
Definition blk_only (w w' : world) : Prop :=
  w' = with_blk (blk w') (with_hw (hw w') w) ∧
  ∀ i d x, content (hw w') i d x = content (hw w) i d x.

Lemma find_node_perm hit l n rest :
  find_node hit l = Some (n, rest) → hit n = true ∧ n :: rest ≡ₚ l.
Proof.
  revert rest. induction l as [|m l IH]; intros rest; [done|]. cbn [find_node].
  destruct (hit m) eqn:Hm.
  - intros [= <- <-]. done.
  - destruct (find_node hit l) as [[n' r]|]; [|done]. intros [= <- <-].
    destruct (IH r eq_refl) as [Hn Hp]. split; [done|]. rewrite <- Hp. constructor.
Qed.

(** A hit covers the request, so the copied bytes are the device's. *)
Lemma hit_bytes h node ift dev st cnt sz :
  node_ok h node → in_range st cnt sz → node_hit ift dev st cnt sz node = true →
  let src := drop (Z.to_nat (wrap32 ((st - start node) * sz))) (cache node) in
  (Z.to_nat (wrap32 (sz * cnt)) ≤ length src)%nat ∧
  take (Z.to_nat (wrap32 (sz * cnt))) src = blocks_of h ift dev st cnt sz.
Proof.
  intros [(Hn1 & Hn2 & Hn3 & Hn4 & Hn5) Hc] (Hr1 & Hr2 & Hr3 & Hr4 & Hr5) Hhit.
  unfold node_hit in Hhit. rewrite !wrap32_small in Hhit by lia.
  apply andb_true_iff in Hhit as [Hhit E5%Z.leb_le]. apply andb_true_iff in Hhit as [Hhit E4%Z.leb_le].
  apply andb_true_iff in Hhit as [Hhit E3%Z.eqb_eq]. apply andb_true_iff in Hhit as [E1%Z.eqb_eq E2%Z.eqb_eq].
  rewrite E3 in *. assert (0 ≤ (st - start node) * sz) by nia.
  assert ((st - start node) * sz + sz * cnt ≤ sz * blkcnt node) by nia.
  assert (0 ≤ sz * cnt) by nia. rewrite !wrap32_small by lia. cbv zeta. rewrite Hc, E1, E2. split.
  - unfold blocks_of. rewrite length_drop, load_bytes_length. lia.
  - unfold blocks_of. rewrite load_bytes_sub by lia. f_equal. lia.
Qed.

Lemma wp_blkcache_read ift dev st cnt sz (w : world) (Q : option (list Z) → world → Prop) :
  cache_ok w → in_range st cnt sz →
  (∀ r w', cache_ok w' → blk_only w w' →
     r = None ∨ r = Some (blocks_of (hw w) ift dev st cnt sz) → Q r w') →
  wp (blkcache_read ift dev st cnt sz) Q w.
Proof using.
  intros [Hn He Hb] Hr HQ. unfold blkcache_read, cache_find, set_cache. wp_run.
  destruct (find_node _ _) as [[node rest]|] eqn:Hf; wp_run.
  - apply find_node_perm in Hf as [Hhit Hp]. rewrite <- Hp in Hn.
    apply Forall_cons in Hn as [Hnode Hrest].
    destruct (hit_bytes (hw w) node ift dev st cnt sz Hnode Hr Hhit) as [Hlen Hbytes].
    rewrite (proj2 (Nat.leb_le _ _) Hlen). wp_run. apply HQ; [|done|right; by rewrite Hbytes].
    split; simpl; [by constructor|by rewrite He, <- Hp|done].
  - apply HQ; [by split|done|by left].
Qed.

(** Taking a slot leaves a well-formed cache with room for one more node. *)
Lemma wp_take_slot bytes (w : world) (Q : option free_slot → world → Prop) :
  cache_ok w → max_entries (_stats (blk w)) ≠ 0 →
  (∀ w', cache_ok w' → blk_only w w' → Q None w') →
  (∀ rest stats b w', cache_ok w' → blk_only w w' → blk w' = mkBlkCache rest stats →
     entries stats < max_entries stats → Q (Some (rest, stats, b)) w') →
  wp (take_slot bytes) Q w.
Proof using Hheap.
  intros [Hn He Hb] Hm HN HS. unfold take_slot, set_cache. wp_run.
  destruct (Z.leb_spec (max_entries (_stats (blk w))) (entries (_stats (blk w)))) as [Hfull|Hroom].
  - assert (∃ node l, block_cache (blk w) = l ++ [node]) as (node & l & Hl).
    { destruct (block_cache (blk w)) as [|x l0] using rev_ind; [simpl in He; lia|]. eauto. }
    rewrite Hl, last_snoc in *. wp_run. rewrite length_app. simpl.
    replace (pred (length l + 1)) with (length l) by lia. rewrite take_app_length.
    apply Forall_app in Hn as [Hn _]. rewrite length_app in He. simpl in He.
    assert (wrap32 (entries (_stats (blk w)) - 1) = Z.of_nat (length l)) as Hcnt
      by (rewrite wrap32_small; lia).
    apply HS; [split; simpl; [done|done|lia]|done|done|simpl; lia].
  - wp_run. match goal with |- context [(heap_malloc ?n ?h).1] => destruct ((heap_malloc n h).1) end.
    + apply wp_ret, HS; [split; simpl|split; [by destruct w|apply Hheap]|simpl; by destruct (blk w)|done].
      * eapply Forall_impl; [exact Hn|]. intros node. apply node_ok_ext. intros x. apply Hheap.
      * done.
      * done.
    + apply wp_ret, HN; [split; simpl|split; [by destruct w|apply Hheap]]; try done.
      eapply Forall_impl; [exact Hn|]. intros node. apply node_ok_ext. intros x. apply Hheap.
Qed.

Lemma blk_only_refl w : blk_only w w.
Proof using. split; [by destruct w|done]. Qed.

Lemma blk_only_trans w1 w2 w3 : blk_only w1 w2 → blk_only w2 w3 → blk_only w1 w3.
Proof using.
  intros [E1 H1] [E2 H2]. split; [rewrite E2, E1; done|]. intros i d x. by rewrite H2, H1.
Qed.

Lemma cache_ok_malloc n (w : world) : cache_ok w → cache_ok (with_hw (heap_malloc n (hw w)).2 w).
Proof using Hheap.
  intros [Hn He Hb]. split; simpl; try done. eapply Forall_impl; [exact Hn|].
  intros node. apply node_ok_ext. intros x. apply Hheap.
Qed.

(** Filling with what the device holds keeps the cache well formed. *)
Lemma wp_blkcache_fill ift dev st cnt sz buf (w : world) (Q : unit → world → Prop) :
  cache_ok w → in_range st cnt sz →
  take (Z.to_nat (sz * cnt)) buf = blocks_of (hw w) ift dev st cnt sz →
  (∀ w', cache_ok w' → blk_only w w' → Q tt w') →
  wp (blkcache_fill ift dev st cnt sz buf) Q w.
Proof using Hheap.
  intros Hok Hr Hbuf HQ. unfold blkcache_fill. wp_run.
  destruct (cnt >? _); [wp_run; apply HQ; [done|apply blk_only_refl]|].
  destruct (Z.eqb_spec (max_entries (_stats (blk w))) 0);
    [wp_run; apply HQ; [done|apply blk_only_refl]|].
  apply wp_bind, wp_take_slot; [done|done|..].
  { intros w1 Hok1 Hb1. wp_run. by apply HQ. }
  intros rest stats b w1 Hok1 Hb1 Hblk Hroom.
  assert (∀ w2 : world, cache_ok w2 → blk_only w1 w2 → blk w2 = blk w1 →
    wp (if (Z.to_nat (wrap32 (sz * cnt)) <=? length buf)%nat
        then set_cache (mkNode ift dev st cnt sz (take (Z.to_nat (wrap32 (sz * cnt))) buf) :: rest)
               (with_entries (entries stats + 1) stats)
        else crash OUT_OF_BOUNDS) Q w2) as Hstore.
  { intros w2 [Hn2 He2 Hbd2] Hb2 Hblk2. destruct Hr as (Hr1 & Hr2 & Hr3 & Hr4 & Hr5).
    assert (0 ≤ sz * cnt) by nia. assert (blk_only w w2) as [E Hc] by by eapply blk_only_trans.
    rewrite wrap32_small, Hbuf by lia. pose proof (f_equal length Hbuf) as Hlen.
    unfold blocks_of in Hlen. rewrite load_bytes_length, length_take in Hlen.
    rewrite (proj2 (Nat.leb_le _ _)) by lia.
    unfold set_cache. wp_run. rewrite Hblk2, Hblk in *. simpl in *. apply HQ.
    - split; simpl; [constructor; [split; [done|]|done]|rewrite wrap32_small; lia|rewrite wrap32_small; lia].
      simpl. apply load_bytes_ext. intros x. by rewrite Hc.
    - split; [rewrite E; done|exact Hc]. }
  destruct b; wp_run.
  - apply Hstore; [done|apply blk_only_refl|done].
  - match goal with |- context [(heap_malloc ?n ?h).1] => destruct ((heap_malloc n h).1) end; wp_run.
    + apply Hstore; [by apply cache_ok_malloc|split; [by destruct w1|apply Hheap]|done].
    + apply HQ; [by apply cache_ok_malloc|].
      eapply blk_only_trans; [exact Hb1|]. split; [by destruct w1|apply Hheap].
Qed.

(** After invalidation the cache holds nothing of the device. *)
Lemma wp_blkcache_invalidate ift dev (w : world) (Q : unit → world → Prop) :
  cache_ok w →
  (∀ w', cache_ok w' → w' = with_blk (blk w') w →
     Forall (λ node, of_device ift dev node = false) (block_cache (blk w')) → Q tt w') →
  wp (blkcache_invalidate ift dev) Q w.
Proof using.
  intros [Hn He Hb] HQ. unfold blkcache_invalidate, set_cache. wp_run.
  set (keep := List.filter _ _).
  assert (length keep ≤ length (block_cache (blk w)))%nat as Hl by apply filter_length_le.
  assert (∀ node, node ∈ keep → node ∈ block_cache (blk w) ∧ of_device ift dev node = false) as Hk.
  { intros node. rewrite !list_elem_of_In. intros [H1 H2]%filter_In.
    split; [done|]. by apply negb_true_iff. }
  apply HQ; [split; simpl|done|simpl].
  - apply Forall_forall. intros node [Hin _]%Hk. by eapply Forall_forall in Hn.
  - rewrite wrap32_small; lia.
  - rewrite wrap32_small; lia.
  - apply Forall_forall. by intros node [_ Hd]%Hk.
Qed.


(** Filling the cache with what the device holds succeeds whatever the
    allocator answers and keeps the cache well formed, at most the configured
    number of entries included. *)
Theorem blkcache_fill_keeps ift dev st cnt sz (w : world) :
  cache_ok w → in_range st cnt sz →
  ∃ w', blkcache_fill ift dev st cnt sz (blocks_of (hw w) ift dev st cnt sz) w = Ret tt w' ∧
    cache_ok w'.
Proof using Hheap.
  intros Hok Hr.
  assert (wp (blkcache_fill ift dev st cnt sz (blocks_of (hw w) ift dev st cnt sz))
    (λ _ w', cache_ok w') w) as ([] & w' & H & Hok')%wp_run; [|by exists w'].
  apply wp_blkcache_fill; [done|done| |done]. apply take_ge. unfold blocks_of.
  by rewrite load_bytes_length.
Qed.
End coherence.
