(* ===== verification/MmcCore.v ===== *)
(** The MMC block layer of U-Boot: [drivers/mmc/mmc.c], [drivers/mmc/mmc_write.c],
    [drivers/mmc/mmc-uclass.c] and [drivers/block/blk-uclass.c], built with
    [CONFIG_DM_MMC], [CONFIG_BLK], [CONFIG_MMC_WRITE], [CONFIG_LOGLEVEL=3]
    ([pr_err] prints nothing) and without [CONFIG_MMC_QUIRKS].  [lbaint_t]
    and [ulong] are 32 bits wide. *)

From S2P Require Import Prelude CLib Vsprintf VsprintfFacts Machine Events BlkCache I2cUclass.

Notation ECOMM := 70%Z (only parsing).
Notation IF_TYPE_MMC := 6%Z (only parsing).

Notation MMC_CMD_STOP_TRANSMISSION := 12%Z (only parsing).
Notation MMC_CMD_SEND_STATUS := 13%Z (only parsing).
Notation MMC_CMD_SET_BLOCKLEN := 16%Z (only parsing).
Notation MMC_CMD_READ_SINGLE_BLOCK := 17%Z (only parsing).
Notation MMC_CMD_READ_MULTIPLE_BLOCK := 18%Z (only parsing).
Notation MMC_CMD_WRITE_SINGLE_BLOCK := 24%Z (only parsing).
Notation MMC_CMD_WRITE_MULTIPLE_BLOCK := 25%Z (only parsing).
Notation MMC_CMD_ERASE_GROUP_START := 35%Z (only parsing).
Notation MMC_CMD_ERASE_GROUP_END := 36%Z (only parsing).
Notation MMC_CMD_ERASE := 38%Z (only parsing).
Notation SD_CMD_ERASE_WR_BLK_START := 32%Z (only parsing).
Notation SD_CMD_ERASE_WR_BLK_END := 33%Z (only parsing).
Notation MMC_ERASE_ARG := 0%Z (only parsing).
Notation MMC_RSP_R1 := 0x15%Z (only parsing).
Definition MMC_RSP_R1b : Z := 0x1d.
Notation MMC_DATA_READ := 1%Z (only parsing).
Notation MMC_DATA_WRITE := 2%Z (only parsing).
Notation MMC_STATUS_MASK := 0xFDF94080%Z (only parsing).
Notation MMC_STATUS_RDY_FOR_DATA := 0x100%Z (only parsing).
Notation MMC_STATUS_CURR_STATE := 0x1e00%Z (only parsing).
Notation MMC_STATE_PRG := 0xe00%Z (only parsing).

(** [struct mmc_cmd] and [struct mmc_data]; the buffer holds the data to
    write, or what a read overwrites. *)
Record mmc_cmd := mkCmd {
  cmdidx : Z;
  cmdarg : Z;
  resp_type : Z;
}.

Record mmc_data := mkData {
  data_buf : list Z;
  blocks : Z;
  blocksize : Z;
  data_flags : Z;
}.

(** What the code reads of [struct mmc], of its configuration and of its
    block descriptor.  [priv_base] is the first word behind [priv]. *)
Record mmc_dev := mkMmcDev {
  high_capacity : bool;
  read_bl_len : Z;
  write_bl_len : Z;
  b_max : Z;
  is_sd : bool;
  ssr_au : Z;
  erase_grp_size : Z;
  ddr_mode : bool;
  rca : Z;
  is_spi : bool;
  lba : Z;
  desc_blksz : Z;
  priv_base : Z;
}.

(** What the host driver and the card provide, by block device number. *)
Class MmcHost (HW : Type) := {
  mmc_of : Z → HW → option mmc_dev;
  mmc_send_cmd : Z → mmc_cmd → option mmc_data → HW → (Z * Z * list Z) * HW;
  mmc_wait_dat0 : Z → Z → Z → HW → Z * HW;
  mmc_select_hwpart : Z → HW → Z * HW;
  mmc_reinit : Z → HW → Z * HW;
  mmc_getwp : Z → HW → Z * HW;
  mmc_udelay : Z → HW → HW;
}.

Section mmc.
Context {HW : Type} `{!MmcHost HW} `{!Heap HW}.
Notation M := (M (world HW)).

(** A device pointer is the number it was found under. *)
Definition find_mmc_device (dev_num : Z) : M (option Z) :=
  d ← gets (λ w, mmc_of dev_num (hw w));
  match d with
  | None => _ ← printf ("MMC Device %d not found" +:+ newline) [VInt dev_num]; mret None
  | Some _ => mret (Some dev_num)
  end.

(** [*mmc] *)
Definition mmc_struct (mmc : Z) : M mmc_dev :=
  d ← gets (λ w, mmc_of mmc (hw w));
  match d with None => crash NULL_DEREF | Some d => mret d end.

(** A command without data: the return code. *)
Definition plain_cmd (mmc : Z) (cmd : mmc_cmd) : M Z :=
  '(err, _, _) ← hw_call (mmc_send_cmd mmc cmd None);
  mret err.

(** The code and [*status]. *)
Fixpoint send_status_loop (retries : nat) (mmc : Z) (cmd : mmc_cmd) (status : Z) : M (Z * Z) :=
  match retries with
  | O => mret (- ECOMM, status)
  | S retries' =>
      '(err, response, _) ← hw_call (mmc_send_cmd mmc cmd None);
      if err =? 0 then mret (0, response) else send_status_loop retries' mmc cmd status
  end.

(** For an SPI host [cmd.cmdarg] is sent without having been set. *)
Definition mmc_send_status (mmc status : Z) : M (Z * Z) :=
  d ← mmc_struct mmc;
  if is_spi d then crash UNINITIALISED
  else send_status_loop 5 mmc (mkCmd MMC_CMD_SEND_STATUS (wrap32 (Z.shiftl (rca d) 16)) MMC_RSP_R1)
         status.

(** The polling loop from [timeout_ms]: the code to return at once, or the
    remaining time at the [break]. *)
Fixpoint poll_loop (fuel : nat) (mmc timeout_ms status : Z) : M (Z + Z) :=
  match fuel with
  | O => λ _, NoFuel
  | S fuel' =>
      '(err, status) ← mmc_send_status mmc status;
      if negb (err =? 0) then mret (inl err)
      else if nonzero (Z.land status MMC_STATUS_RDY_FOR_DATA)
              && negb (Z.land status MMC_STATUS_CURR_STATE =? MMC_STATE_PRG)
      then mret (inr timeout_ms)
      else if nonzero (Z.land status MMC_STATUS_MASK) then mret (inl (- ECOMM))
      else if timeout_ms <=? 0 then mret (inr (timeout_ms - 1))
      else
        _ ← hw_do (mmc_udelay 1000);
        poll_loop fuel' mmc (timeout_ms - 1) status
  end.

Definition mmc_poll_for_busy (mmc timeout_ms : Z) : M Z :=
  err ← hw_call (mmc_wait_dat0 mmc 1 (timeout_ms * 1000));
  if negb (err =? - ENOSYS) then mret err
  else
    r ← poll_loop (S (S (Z.to_nat timeout_ms))) mmc timeout_ms 0;
    match r with
    | inl err => mret err
    | inr timeout_ms => if timeout_ms <=? 0 then mret (- ETIMEDOUT) else mret 0
    end.

Definition mmc_set_blocklen (mmc len : Z) : M Z :=
  d ← mmc_struct mmc;
  if ddr_mode d then mret 0 else plain_cmd mmc (mkCmd MMC_CMD_SET_BLOCKLEN len MMC_RSP_R1).

(** The number of blocks read and the buffer afterwards. *)
Definition mmc_read_blocks (mmc : Z) (dst : list Z) (start blkcnt : Z) : M (Z * list Z) :=
  d ← mmc_struct mmc;
  let idx := if blkcnt >? 1 then MMC_CMD_READ_MULTIPLE_BLOCK else MMC_CMD_READ_SINGLE_BLOCK in
  let arg := if high_capacity d then start else wrap32 (start * read_bl_len d) in
  '(err, _, dst) ← hw_call (mmc_send_cmd mmc (mkCmd idx arg MMC_RSP_R1)
                              (Some (mkData dst blkcnt (read_bl_len d) MMC_DATA_READ)));
  if nonzero err then mret (0, dst)
  else if blkcnt >? 1 then
    err ← plain_cmd mmc (mkCmd MMC_CMD_STOP_TRANSMISSION 0 MMC_RSP_R1b);
    if nonzero err then mret (0, dst) else mret (blkcnt, dst)
  else mret (blkcnt, dst).

(** The [do ... while] loop over chunks of [b_max] blocks, with the part of
    the buffer already passed in [done]. *)
Fixpoint bread_loop (fuel : nat) (mmc : Z) (d : mmc_dev) (start todo blkcnt : Z)
    (done dst : list Z) : M (Z * list Z) :=
  match fuel with
  | O => λ _, NoFuel
  | S fuel' =>
      let cur := if todo >? b_max d then b_max d else todo in
      '(n, dst) ← mmc_read_blocks mmc dst start cur;
      if negb (n =? cur) then mret (0, done ++ dst)
      else
        let todo := todo - cur in
        let k := Z.to_nat (cur * read_bl_len d) in
        let done := done ++ take k dst in
        let dst := drop k dst in
        if todo >? 0 then bread_loop fuel' mmc d (wrap32 (start + cur)) todo blkcnt done dst
        else mret (blkcnt, done ++ dst)
  end.

Definition mmc_bread (dev start blkcnt : Z) (dst : list Z) : M (Z * list Z) :=
  if blkcnt =? 0 then mret (0, dst)
  else
    m ← find_mmc_device dev;
    match m with
    | None => mret (0, dst)
    | Some mmc =>
        err ← hw_call (mmc_select_hwpart dev);
        if err <? 0 then mret (0, dst)
        else
          d ← mmc_struct mmc;
          if wrap32 (start + blkcnt) >? lba d then mret (0, dst)
          else
            err ← mmc_set_blocklen mmc (read_bl_len d);
            if nonzero err then mret (0, dst)
            else bread_loop (S (Z.to_nat blkcnt)) mmc d start blkcnt blkcnt [] dst
    end.

(** * Writing and erasing *)

Definition mmc_write_blocks (mmc start blkcnt : Z) (src : list Z) : M Z :=
  d ← mmc_struct mmc;
  if wrap32 (start + blkcnt) >? lba d then
    _ ← printf ("MMC: block number 0x%lx exceeds max(0x%lx)" +:+ newline)
          [VInt (wrap32 (start + blkcnt)); VInt (lba d)];
    mret 0
  else if blkcnt =? 0 then mret 0
  else
    let idx := if blkcnt =? 1 then MMC_CMD_WRITE_SINGLE_BLOCK else MMC_CMD_WRITE_MULTIPLE_BLOCK in
    let arg := if high_capacity d then start else wrap32 (start * write_bl_len d) in
    '(err, _, _) ← hw_call (mmc_send_cmd mmc (mkCmd idx arg MMC_RSP_R1)
                              (Some (mkData src blkcnt (write_bl_len d) MMC_DATA_WRITE)));
    if nonzero err then _ ← printf ("mmc write failed" +:+ newline) []; mret 0
    else
      stop ← (if negb (is_spi d) && (blkcnt >? 1)
              then plain_cmd mmc (mkCmd MMC_CMD_STOP_TRANSMISSION 0 MMC_RSP_R1b) else mret 0);
      if nonzero stop then _ ← printf ("mmc fail to send stop cmd" +:+ newline) []; mret 0
      else
        busy ← mmc_poll_for_busy mmc 1000;
        if nonzero busy then mret 0 else mret blkcnt.

Fixpoint bwrite_loop (fuel : nat) (mmc : Z) (d : mmc_dev) (start todo blkcnt : Z)
    (src : list Z) : M Z :=
  match fuel with
  | O => λ _, NoFuel
  | S fuel' =>
      let cur := if todo >? b_max d then b_max d else todo in
      n ← mmc_write_blocks mmc start cur src;
      if negb (n =? cur) then mret 0
      else
        let todo := todo - cur in
        if todo >? 0
        then bwrite_loop fuel' mmc d (wrap32 (start + cur)) todo blkcnt
               (drop (Z.to_nat (cur * write_bl_len d)) src)
        else mret blkcnt
  end.

Definition mmc_bwrite (dev start blkcnt : Z) (src : list Z) : M Z :=
  m ← find_mmc_device dev;
  match m with
  | None => mret 0
  | Some mmc =>
      err ← hw_call (mmc_select_hwpart dev);
      if err <? 0 then mret 0
      else
        d ← mmc_struct mmc;
        err ← mmc_set_blocklen mmc (write_bl_len d);
        if nonzero err then mret 0
        else bwrite_loop (S (Z.to_nat blkcnt)) mmc d start blkcnt blkcnt src
  end.

Definition mmc_erase_t (mmc start blkcnt : Z) : M Z :=
  d ← mmc_struct mmc;
  let '(start, last) :=
    if high_capacity d then (start, wrap32 (start + blkcnt - 1))
    else (wrap32 (start * write_bl_len d), wrap32 ((start + blkcnt - 1) * write_bl_len d)) in
  let '(start_cmd, end_cmd) :=
    if is_sd d then (SD_CMD_ERASE_WR_BLK_START, SD_CMD_ERASE_WR_BLK_END)
    else (MMC_CMD_ERASE_GROUP_START, MMC_CMD_ERASE_GROUP_END) in
  let failed err := _ ← puts ("mmc erase failed" +:+ newline); mret err in
  err ← plain_cmd mmc (mkCmd start_cmd start MMC_RSP_R1);
  if nonzero err then failed err
  else
    err ← plain_cmd mmc (mkCmd end_cmd last MMC_RSP_R1);
    if nonzero err then failed err
    else
      err ← plain_cmd mmc (mkCmd MMC_CMD_ERASE MMC_ERASE_ARG MMC_RSP_R1b);
      if nonzero err then failed err else mret 0.

Fixpoint berase_loop (fuel : nat) (mmc : Z) (d : mmc_dev) (start blk blkcnt : Z) : M Z :=
  match fuel with
  | O => λ _, NoFuel
  | S fuel' =>
      if blk <? blkcnt then
        let unit_ := if is_sd d && nonzero (ssr_au d) then ssr_au d else erase_grp_size d in
        let blk_r := if blkcnt - blk >? unit_ then unit_ else blkcnt - blk in
        err ← mmc_erase_t mmc (wrap32 (start + blk)) blk_r;
        if nonzero err then mret blk
        else
          busy ← mmc_poll_for_busy mmc 1000;
          if nonzero busy then mret 0 else berase_loop fuel' mmc d start (blk + blk_r) blkcnt
      else mret blk
  end.

(** [-1] as an [unsigned long]. *)
Definition mmc_berase (dev start blkcnt : Z) : M Z :=
  m ← find_mmc_device dev;
  match m with
  | None => mret (wrap32 (-1))
  | Some mmc =>
      err ← hw_call (mmc_select_hwpart dev);
      if err <? 0 then mret (wrap32 (-1))
      else
        d ← mmc_struct mmc;
        let grp := erase_grp_size d in
        if grp =? 0 then crash DIV_BY_ZERO
        else
          _ ← (if nonzero (start mod grp) || nonzero (blkcnt mod grp) then
                 printf (newline +:+ newline +:+ "Caution! Your devices Erase group is 0x%x"
                         +:+ newline +:+ "The erase range would be change to 0x%lx~0x%lx"
                         +:+ newline +:+ newline)
                   [VInt grp; VInt (Z.land start (Z.lnot (grp - 1)));
                    VInt (Z.land (wrap32 (start + blkcnt + grp)) (Z.lnot (grp - 1)) - 1)]
               else mret tt);
          berase_loop (S (Z.to_nat blkcnt)) mmc d start 0 blkcnt
  end.

(** * The block interface *)

Record blk_ops := mkBlkOps {
  op_read : option (Z → Z → Z → list Z → M (Z * list Z));
  op_write : option (Z → Z → Z → list Z → M Z);
  op_erase : option (Z → Z → Z → M Z);
}.

Definition mmc_blk_ops : blk_ops := mkBlkOps (Some mmc_bread) (Some mmc_bwrite) (Some mmc_berase).

(** The count and the buffer afterwards, for the device [dev] of type [ift]
    with blocks of [sz] bytes. *)
Definition blk_dread (ops : blk_ops) (ift dev sz start blkcnt : Z) (buffer : list Z) :
    M (Z * list Z) :=
  match op_read ops with
  | None => mret (wrap32 (- ENOSYS), buffer)
  | Some read =>
      r ← blkcache_read ift dev start blkcnt sz;
      match r with
      | Some bytes => mret (blkcnt, bytes ++ drop (length bytes) buffer)
      | None =>
          '(blks_read, buffer) ← read dev start blkcnt buffer;
          _ ← (if blks_read =? blkcnt then blkcache_fill ift dev start blkcnt sz buffer
               else mret tt);
          mret (blks_read, buffer)
      end
  end.

Definition blk_dwrite (ops : blk_ops) (ift dev start blkcnt : Z) (buffer : list Z) : M Z :=
  match op_write ops with
  | None => mret (wrap32 (- ENOSYS))
  | Some write => _ ← blkcache_invalidate ift dev; write dev start blkcnt buffer
  end.

Definition blk_derase (ops : blk_ops) (ift dev start blkcnt : Z) : M Z :=
  match op_erase ops with
  | None => mret (wrap32 (- ENOSYS))
  | Some erase => _ ← blkcache_invalidate ift dev; erase dev start blkcnt
  end.
End mmc.
