(* ===== verification/MmcFacts.v ===== *)
(** Reading and writing a card through the block layer: chunks of [b_max]
    blocks, both address forms and the block cache together transfer exactly
    the requested bytes. *)

From S2P Require Import Prelude CLib Vsprintf VsprintfFacts Machine Events BlkCache BlkCacheFacts.
From S2P Require Import I2cUclass MmcCore.

(** Device [n] is a card with 512-byte blocks that holds the bytes
    [content h IF_TYPE_MMC n] and takes the commands of the block layer. *)
Record MmcCard {HW} `{!MmcHost HW, !Heap HW} (n : Z) (d : mmc_dev)
    (content : HW → Z → Z → Z → Z) : Prop := {
  card_found h : mmc_of n h = Some d;
  card_read_len : read_bl_len d = 512;
  card_write_len : write_bl_len d = 512;
  card_b_max : 0 < b_max d;
  card_lba : 0 ≤ lba d ∧ lba d * 512 < 2 ^ 32;
  card_not_spi : is_spi d = false;
  card_hwpart h : (mmc_select_hwpart n h).1 = 0;
  card_hwpart_same h i e x : content (mmc_select_hwpart n h).2 i e x = content h i e x;
  card_plain idx arg rsp h :
    idx = MMC_CMD_STOP_TRANSMISSION ∨ idx = MMC_CMD_SET_BLOCKLEN →
    let r := mmc_send_cmd n (mkCmd idx arg rsp) None h in
    r.1.1.1 = 0 ∧ ∀ i e x, content r.2 i e x = content h i e x;
  card_read st cnt dst h :
    0 ≤ st → 0 < cnt → st + cnt ≤ lba d → cnt * 512 ≤ Z.of_nat (length dst) →
    let idx := if cnt >? 1 then MMC_CMD_READ_MULTIPLE_BLOCK else MMC_CMD_READ_SINGLE_BLOCK in
    let arg := if high_capacity d then st else st * 512 in
    let r := mmc_send_cmd n (mkCmd idx arg MMC_RSP_R1) (Some (mkData dst cnt 512 MMC_DATA_READ)) h in
    r.1.1.1 = 0 ∧
    r.1.2 = load_bytes (st * 512) (cnt * 512) (content h IF_TYPE_MMC n)
              ++ drop (Z.to_nat (cnt * 512)) dst ∧
    ∀ i e x, content r.2 i e x = content h i e x;
  card_write st cnt src h :
    0 ≤ st → 0 < cnt → st + cnt ≤ lba d → cnt * 512 ≤ Z.of_nat (length src) →
    let idx := if cnt =? 1 then MMC_CMD_WRITE_SINGLE_BLOCK else MMC_CMD_WRITE_MULTIPLE_BLOCK in
    let arg := if high_capacity d then st else st * 512 in
    let r := mmc_send_cmd n (mkCmd idx arg MMC_RSP_R1) (Some (mkData src cnt 512 MMC_DATA_WRITE)) h in
    r.1.1.1 = 0 ∧
    ∀ i e x, content r.2 i e x =
      if (i =? IF_TYPE_MMC) && (e =? n)
      then store_bytes keep_new (st * 512) (take (Z.to_nat (cnt * 512)) src) (content h i e) x
      else content h i e x;
  card_ready us h : (mmc_wait_dat0 n 1 us h).1 = 0;
  card_ready_same us h i e x : content (mmc_wait_dat0 n 1 us h).2 i e x = content h i e x;
  card_heap k h i e x : content (heap_malloc k h).2 i e x = content h i e x;
}.

Section card.
Context {HW : Type} `{!MmcHost HW} `{!Heap HW} (n : Z) (d : mmc_dev)
  (content : HW → Z → Z → Z → Z) (Hcard : MmcCard n d content).
Notation world := (world HW).
Notation img w := (content (hw w) IF_TYPE_MMC n).

(** Only the hardware may differ, and it holds the same bytes. *)
Definition hw_same (w w' : world) : Prop :=
  w' = with_hw (hw w') w ∧ ∀ i e x, content (hw w') i e x = content (hw w) i e x.

Lemma hw_same_step w h : (∀ i e x, content h i e x = content (hw w) i e x) → hw_same w (with_hw h w).
Proof using. by split. Qed.

Lemma hw_same_trans w1 w2 w3 : hw_same w1 w2 → hw_same w2 w3 → hw_same w1 w3.
Proof using. intros [E1 H1] [E2 H2]. split; [by rewrite E2, E1|]. intros. by rewrite H2, H1. Qed.

Lemma wp_mmc_struct (w : world) (Q : mmc_dev → world → Prop) : Q d w → wp (mmc_struct n) Q w.
Proof using Hcard.
  intros HQ. unfold mmc_struct. wp_run. rewrite (card_found _ _ _ Hcard). by wp_run.
Qed.

Lemma wp_plain_cmd idx arg rsp (w : world) (Q : Z → world → Prop) :
  idx = MMC_CMD_STOP_TRANSMISSION ∨ idx = MMC_CMD_SET_BLOCKLEN →
  (∀ w', hw_same w w' → Q 0 w') → wp (plain_cmd n (mkCmd idx arg rsp)) Q w.
Proof using Hcard.
  intros Hi HQ. unfold plain_cmd. apply wp_bind, wp_hw_call.
  destruct (card_plain _ _ _ Hcard idx arg rsp (hw w) Hi) as [Hr Hs].
  destruct (mmc_send_cmd n _ None (hw w)) as [[[ret rsp'] out] h']. simpl in *. subst ret.
  wp_run. by apply HQ, hw_same_step.
Qed.

Lemma wp_set_blocklen len (w : world) (Q : Z → world → Prop) :
  (∀ w', hw_same w w' → Q 0 w') → wp (mmc_set_blocklen n len) Q w.
Proof using Hcard.
  intros HQ. unfold mmc_set_blocklen. apply wp_bind, wp_mmc_struct.
  destruct (ddr_mode d); [|by apply wp_plain_cmd; [right|]].
  wp_run. apply HQ. split; [by destruct w|done].
Qed.

Lemma address_form st :
  0 ≤ st ≤ lba d → (if high_capacity d then st else wrap32 (st * 512))
                 = (if high_capacity d then st else st * 512).
Proof using Hcard.
  intros Hs. pose proof (card_lba _ _ _ Hcard). destruct (high_capacity d); [done|].
  apply wrap32_small. lia.
Qed.

Lemma wp_read_blocks dst st cnt (w : world) (Q : Z * list Z → world → Prop) :
  0 ≤ st → 0 < cnt → st + cnt ≤ lba d → cnt * 512 ≤ Z.of_nat (length dst) →
  (∀ w', hw_same w w' →
     Q (cnt, load_bytes (st * 512) (cnt * 512) (img w) ++ drop (Z.to_nat (cnt * 512)) dst) w') →
  wp (mmc_read_blocks n dst st cnt) Q w.
Proof using Hcard.
  intros Hst Hcnt Hend Hlen HQ. unfold mmc_read_blocks. apply wp_bind, wp_mmc_struct. cbv zeta.
  rewrite (card_read_len _ _ _ Hcard), address_form by lia. apply wp_bind, wp_hw_call.
  destruct (card_read _ _ _ Hcard st cnt dst (hw w)) as (Hr & Hd & Hs); [done..|].
  destruct (mmc_send_cmd n _ _ (hw w)) as [[[ret rsp'] out] h']. simpl in *. subst ret out.
  change (nonzero 0) with false. cbv iota.
  destruct (cnt >? 1); [|apply wp_ret, HQ; by apply hw_same_step].
  apply wp_bind, wp_plain_cmd; [by left|]. intros w' Hw'. change (nonzero 0) with false. cbv iota.
  apply wp_ret, HQ. eapply hw_same_trans; [by apply hw_same_step|done].
Qed.

(** The chunked loop reads what is left to do. *)
Lemma wp_bread_loop fuel st todo total done dst (w : world) (Q : Z * list Z → world → Prop) :
  (Z.to_nat todo < fuel)%nat → 0 ≤ st → 0 < todo → st + todo ≤ lba d →
  todo * 512 ≤ Z.of_nat (length dst) →
  (∀ w', hw_same w w' →
     Q (total, done ++ load_bytes (st * 512) (todo * 512) (img w)
                 ++ drop (Z.to_nat (todo * 512)) dst) w') →
  wp (bread_loop fuel n d st todo total done dst) Q w.
Proof using Hcard.
  pose proof (card_b_max _ _ _ Hcard) as Hmax. pose proof (card_lba _ _ _ Hcard) as [Hlba Hlba'].
  revert st todo done dst w Q. induction fuel as [|fuel IH];
    intros st todo done dst w Q Hfuel Hst Htodo Hend Hlen HQ; [lia|].
  cbn [bread_loop]. cbv zeta. rewrite (card_read_len _ _ _ Hcard).
  set (cur := if todo >? b_max d then b_max d else todo).
  assert (0 < cur ≤ todo) as Hcur by (subst cur; destruct (Z.gtb_spec todo (b_max d)); lia).
  apply wp_bind, wp_read_blocks; [lia..|]. intros w1 Hw1. rewrite Z.eqb_refl. cbn [negb].
  set (b := load_bytes (st * 512) (cur * 512) (img w)).
  assert (length b = Z.to_nat (cur * 512)) as Hb by apply load_bytes_length.
  rewrite take_app_length', drop_app_length' by done.
  destruct (Z.gtb_spec (todo - cur) 0).
  - rewrite wrap32_small by lia. apply IH; try lia.
    { rewrite length_drop. lia. }
    intros w' Hw'. rewrite <- app_assoc, drop_drop.
    replace ((st + cur) * 512) with (st * 512 + cur * 512) by lia.
    rewrite (load_bytes_ext _ _ _ (img w)) by (intros x; apply Hw1).
    rewrite (app_assoc b). unfold b. rewrite <- load_bytes_app by lia.
    replace (cur * 512 + (todo - cur) * 512) with (todo * 512) by lia.
    replace (Z.to_nat (cur * 512) + Z.to_nat ((todo - cur) * 512))%nat
      with (Z.to_nat (todo * 512)) by lia.
    apply HQ. by eapply hw_same_trans.
  - assert (cur = todo) as E by lia. apply wp_ret. rewrite <- app_assoc. unfold b. rewrite E.
    by apply HQ.
Qed.

Lemma wp_bread st cnt dst (w : world) (Q : Z * list Z → world → Prop) :
  0 ≤ st → 0 < cnt → st + cnt ≤ lba d → cnt * 512 ≤ Z.of_nat (length dst) →
  (∀ w', hw_same w w' →
     Q (cnt, load_bytes (st * 512) (cnt * 512) (img w) ++ drop (Z.to_nat (cnt * 512)) dst) w') →
  wp (mmc_bread n st cnt dst) Q w.
Proof using Hcard.
  intros Hst Hcnt Hend Hlen HQ. pose proof (card_lba _ _ _ Hcard) as [Hlba Hlba'].
  unfold mmc_bread, find_mmc_device. replace (cnt =? 0) with false by lia. wp_run.
  rewrite (card_found _ _ _ Hcard). wp_run.
  rewrite (card_hwpart _ _ _ Hcard). change (0 <? 0) with false. cbv iota.
  apply wp_bind, wp_mmc_struct. rewrite wrap32_small by lia.
  replace (st + cnt >? lba d) with false by lia.
  apply wp_bind, wp_set_blocklen. intros w1 Hw1. change (nonzero 0) with false. cbv iota.
  apply wp_bread_loop; [lia..|]. intros w2 Hw2.
  assert (∀ i e x, content (hw w1) i e x = content (hw w) i e x) as Hc.
  { intros. rewrite (proj2 Hw1). simpl. apply (card_hwpart_same _ _ _ Hcard). }
  rewrite (load_bytes_ext _ _ _ (img w)) by (intros; apply Hc). simpl. apply HQ.
  destruct Hw2 as [E2 H2]. split.
  - rewrite E2. destruct Hw1 as [-> _]. done.
  - intros. by rewrite H2, Hc.
Qed.

(** [hw] may differ, with the bytes [data] stored from block [st] on. *)
Definition hw_stored (st : Z) (data : list Z) (w w' : world) : Prop :=
  w' = with_hw (hw w') w ∧
  ∀ i e x, content (hw w') i e x =
    if (i =? IF_TYPE_MMC) && (e =? n)
    then store_bytes keep_new (st * 512) data (content (hw w) i e) x else content (hw w) i e x.

Lemma wp_poll_for_busy ms (w : world) (Q : Z → world → Prop) :
  (∀ w', hw_same w w' → Q 0 w') → wp (mmc_poll_for_busy n ms) Q w.
Proof using Hcard.
  intros HQ. unfold mmc_poll_for_busy. wp_run. rewrite (card_ready _ _ _ Hcard).
  change (negb (0 =? - ENOSYS)) with true. cbv iota. wp_run. apply HQ, hw_same_step.
  apply (card_ready_same _ _ _ Hcard).
Qed.

Lemma hw_stored_same st data w1 w2 w3 :
  hw_stored st data w1 w2 → hw_same w2 w3 → hw_stored st data w1 w3.
Proof using.
  intros [E1 H1] [E2 H2]. split; [by rewrite E2, E1|]. intros i e x. by rewrite H2, H1.
Qed.

Lemma wp_write_blocks src st cnt (w : world) (Q : Z → world → Prop) :
  0 ≤ st → 0 < cnt → st + cnt ≤ lba d → cnt * 512 ≤ Z.of_nat (length src) →
  (∀ w', hw_stored st (take (Z.to_nat (cnt * 512)) src) w w' → Q cnt w') →
  wp (mmc_write_blocks n st cnt src) Q w.
Proof using Hcard.
  intros Hst Hcnt Hend Hlen HQ. pose proof (card_lba _ _ _ Hcard) as [Hlba Hlba'].
  unfold mmc_write_blocks. apply wp_bind, wp_mmc_struct. cbv zeta.
  rewrite (card_write_len _ _ _ Hcard), (wrap32_small (st + cnt)), address_form by lia.
  replace (st + cnt >? lba d) with false by lia. replace (cnt =? 0) with false by lia.
  apply wp_bind, wp_hw_call.
  destruct (card_write _ _ _ Hcard st cnt src (hw w)) as (Hr & Hs); [done..|].
  destruct (mmc_send_cmd n _ _ (hw w)) as [[[ret rsp'] out] h']. simpl in Hr, Hs |- *. subst ret.
  change (nonzero 0) with false. cbv iota.
  assert (hw_stored st (take (Z.to_nat (cnt * 512)) src) w (with_hw h' w)) as Hst1 by by split.
  assert (∀ w1 : world, hw_stored st (take (Z.to_nat (cnt * 512)) src) w w1 →
    wp (busy ← mmc_poll_for_busy n 1000; if nonzero busy then mret 0 else mret cnt) Q w1) as Hrest.
  { intros w1 Hw1. apply wp_bind, wp_poll_for_busy. intros w2 Hw2.
    change (nonzero 0) with false. cbv iota. apply wp_ret, HQ. by eapply hw_stored_same. }
  apply wp_bind. destruct (negb (is_spi d) && (cnt >? 1)).
  - apply wp_plain_cmd; [by left|]. intros w2 Hw2. change (nonzero 0) with false. cbv iota.
    apply Hrest. by eapply hw_stored_same.
  - apply wp_ret. change (nonzero 0) with false. cbv iota. by apply Hrest.
Qed.

(** Storing at one place and then right behind it is storing both. *)
Lemma hw_stored_app st cnt a b w1 w2 w3 :
  Z.of_nat (length a) = cnt * 512 →
  hw_stored st a w1 w2 → hw_stored (st + cnt) b w2 w3 → hw_stored st (a ++ b) w1 w3.
Proof using.
  intros Ha [E1 H1] [E2 H2]. split; [by rewrite E2, E1|]. intros i e x. rewrite H2.
  destruct (_ && _) eqn:Hd; [|by rewrite H1, Hd]. rewrite <- store_bytes_app.
  replace (st * 512 + Z.of_nat (length a)) with ((st + cnt) * 512) by lia.
  apply store_bytes_ext. intros y. by rewrite H1, Hd.
Qed.

Lemma wp_bwrite_loop fuel st todo total src (w : world) (Q : Z → world → Prop) :
  (Z.to_nat todo < fuel)%nat → 0 ≤ st → 0 < todo → st + todo ≤ lba d →
  todo * 512 ≤ Z.of_nat (length src) →
  (∀ w', hw_stored st (take (Z.to_nat (todo * 512)) src) w w' → Q total w') →
  wp (bwrite_loop fuel n d st todo total src) Q w.
Proof using Hcard.
  pose proof (card_b_max _ _ _ Hcard) as Hmax. pose proof (card_lba _ _ _ Hcard) as [Hlba Hlba'].
  revert st todo src w Q. induction fuel as [|fuel IH];
    intros st todo src w Q Hfuel Hst Htodo Hend Hlen HQ; [lia|].
  cbn [bwrite_loop]. cbv zeta. rewrite (card_write_len _ _ _ Hcard).
  set (cur := if todo >? b_max d then b_max d else todo).
  assert (0 < cur ≤ todo) as Hcur by (subst cur; destruct (Z.gtb_spec todo (b_max d)); lia).
  apply wp_bind, wp_write_blocks; [lia..|]. intros w1 Hw1. rewrite Z.eqb_refl. cbn [negb].
  destruct (Z.gtb_spec (todo - cur) 0).
  - rewrite wrap32_small by lia. apply IH; try lia.
    { rewrite length_drop. lia. }
    intros w' Hw'. apply HQ.
    replace (Z.to_nat (todo * 512)) with (Z.to_nat (cur * 512) + Z.to_nat ((todo - cur) * 512))%nat
      by lia.
    rewrite <- take_take_drop. eapply (hw_stored_app st cur); [|done|done].
    rewrite length_take. lia.
  - assert (cur = todo) as E by lia. rewrite E in Hw1. by apply wp_ret, HQ.
Qed.

Lemma wp_bwrite st cnt src (w : world) (Q : Z → world → Prop) :
  0 ≤ st → 0 < cnt → st + cnt ≤ lba d → cnt * 512 ≤ Z.of_nat (length src) →
  (∀ w', hw_stored st (take (Z.to_nat (cnt * 512)) src) w w' → Q cnt w') →
  wp (mmc_bwrite n st cnt src) Q w.
Proof using Hcard.
  intros Hst Hcnt Hend Hlen HQ. unfold mmc_bwrite, find_mmc_device. wp_run.
  rewrite (card_found _ _ _ Hcard). wp_run.
  rewrite (card_hwpart _ _ _ Hcard). change (0 <? 0) with false. cbv iota.
  apply wp_bind, wp_mmc_struct. apply wp_bind, wp_set_blocklen. intros w1 Hw1.
  change (nonzero 0) with false. cbv iota. apply wp_bwrite_loop; [lia..|]. intros w2 [E2 H2].
  apply HQ. assert (∀ i e x, content (hw w1) i e x = content (hw w) i e x) as Hc.
  { intros. rewrite (proj2 Hw1). simpl. apply (card_hwpart_same _ _ _ Hcard). }
  split; [rewrite E2; destruct Hw1 as [-> _]; done|]. intros i e x. rewrite H2.
  destruct (_ && _); [|done]. apply store_bytes_ext. apply Hc.
Qed.

(** * Through the cache *)

Notation cache_ok := (cache_ok content).

Lemma cache_ok_hw w w' : hw_same w w' → cache_ok w → cache_ok w'.
Proof using.
  intros [E Hc] [Hn He Hb]. assert (blk w' = blk w) as Hbl by (rewrite E; done).
  split; rewrite Hbl; [|done|done]. eapply Forall_impl; [exact Hn|].
  intros node. apply node_ok_ext. intros x. apply Hc.
Qed.

Lemma card_range st cnt : 0 ≤ st → 0 < cnt → st + cnt ≤ lba d → in_range st cnt 512.
Proof using Hcard. intros. pose proof (card_lba _ _ _ Hcard). unfold in_range. lia. Qed.

Lemma wp_blk_dread st cnt buf (w : world) (Q : Z * list Z → world → Prop) :
  cache_ok w → 0 ≤ st → 0 < cnt → st + cnt ≤ lba d → cnt * 512 ≤ Z.of_nat (length buf) →
  (∀ w', cache_ok w' → (∀ i e x, content (hw w') i e x = content (hw w) i e x) →
     Q (cnt, load_bytes (st * 512) (cnt * 512) (img w) ++ drop (Z.to_nat (cnt * 512)) buf) w') →
  wp (blk_dread mmc_blk_ops IF_TYPE_MMC n 512 st cnt buf) Q w.
Proof using Hcard.
  intros Hok Hst Hcnt Hend Hlen HQ. pose proof (card_range st cnt Hst Hcnt Hend) as Hr.
  unfold blk_dread. cbn [op_read mmc_blk_ops]. apply wp_bind.
  apply (wp_blkcache_read content); [done|done|]. intros r w1 Hok1 [_ Hc1] [->| ->].
  - apply wp_bind, wp_bread; [done..|]. intros w2 Hw2. cbv beta iota. rewrite Z.eqb_refl.
    apply wp_bind.
    assert (∀ x, img w1 x = img w x) as Hi by (intros; apply Hc1).
    apply (wp_blkcache_fill content (card_heap _ _ _ Hcard));
      [by eapply cache_ok_hw|done|..].
    + rewrite (Z.mul_comm 512), take_app_length' by (by rewrite load_bytes_length). unfold blocks_of.
      rewrite (Z.mul_comm 512). apply load_bytes_ext. intros x. symmetry. apply Hw2.
    + intros w3 Hok3 [_ Hc3]. wp_run.
      rewrite (load_bytes_ext _ _ _ (img w)) by done. apply HQ; [done|].
      intros. by rewrite Hc3, (proj2 Hw2), Hc1.
  - wp_run. unfold blocks_of. rewrite load_bytes_length, (Z.mul_comm 512). by apply HQ.
Qed.

Lemma wp_blk_dwrite st cnt src (w : world) (Q : Z → world → Prop) :
  cache_ok w → 0 ≤ st → 0 < cnt → st + cnt ≤ lba d → cnt * 512 ≤ Z.of_nat (length src) →
  (∀ w', cache_ok w' →
     (∀ x, img w' x = store_bytes keep_new (st * 512) (take (Z.to_nat (cnt * 512)) src) (img w) x) →
     Q cnt w') →
  wp (blk_dwrite mmc_blk_ops IF_TYPE_MMC n st cnt src) Q w.
Proof using Hcard.
  intros Hok Hst Hcnt Hend Hlen HQ. unfold blk_dwrite. cbn [op_write mmc_blk_ops].
  apply wp_bind. apply (wp_blkcache_invalidate content); [done|].
  intros w1 [Hn1 He1 Hb1] E1 Hgone. apply wp_bwrite; [done..|]. intros w2 [E2 H2].
  assert (blk w2 = blk w1) as Hbl by (rewrite E2; done).
  assert (hw w1 = hw w) as Hhw by (rewrite E1; done). apply HQ.
  - split; rewrite Hbl; [|done|done]. apply Forall_forall. intros node Hin.
    eapply Forall_forall in Hn1; [|exact Hin]. eapply Forall_forall in Hgone; [|exact Hin].
    eapply node_ok_ext; [|exact Hn1]. intros x. rewrite H2. by unfold of_device in Hgone; rewrite Hgone.
  - intros x. rewrite H2, !Z.eqb_refl. cbn [andb]. by rewrite Hhw.
Qed.

(** C8. Writing blocks to a card and reading them back through the block
    layer returns what was written, whatever the cache held before. *)
Theorem mmc_write_read_roundtrip st cnt data buf (w : world) :
  cache_ok w → 0 ≤ st → 0 < cnt → st + cnt ≤ lba d →
  Z.of_nat (length data) = cnt * 512 → length buf = length data →
  ∃ w1 w2,
    blk_dwrite mmc_blk_ops IF_TYPE_MMC n st cnt data w = Ret cnt w1 ∧
    blk_dread mmc_blk_ops IF_TYPE_MMC n 512 st cnt buf w1 = Ret (cnt, data) w2.
Proof using Hcard.
  intros Hok Hst Hcnt Hend Hdata Hbuf.
  assert (wp (blk_dwrite mmc_blk_ops IF_TYPE_MMC n st cnt data) (λ r w1, r = cnt ∧ cache_ok w1 ∧
    ∀ x, img w1 x = store_bytes keep_new (st * 512) data (img w) x) w)
    as (r & w1 & H1 & -> & Hok1 & Hm1)%wp_run.
  { apply wp_blk_dwrite; try done; try lia. intros w1 Hok1 Hm1. split_and!; [done|done|].
    intros x. by rewrite Hm1, take_ge by lia. }
  assert (wp (blk_dread mmc_blk_ops IF_TYPE_MMC n 512 st cnt buf) (λ r _, r = (cnt, data)) w1)
    as (r & w2 & H2 & ->)%wp_run; [|by exists w1, w2].
  apply wp_blk_dread; try done; try lia. intros w2 _ _. f_equal.
  rewrite (load_bytes_ext _ _ _ _ Hm1), <- Hdata, load_store, drop_ge, app_nil_r by lia. done.
Qed.
End card.

(** * A simulated card *)

Module MmcSim.
(** The card's bytes. *)
Notation image := (gmap Z Z).
Definition peek (m : image) (x : Z) : Z := default 0 (m !! x).

Fixpoint poke (off : Z) (data : list Z) (m : image) : image :=
  match data with
  | [] => m
  | b :: data' => poke (off + 1) data' (<[off := b]> m)
  end.

Lemma peek_poke off data m x :
  peek (poke off data m) x = store_bytes keep_new off data (peek m) x.
Proof.
  revert off m. induction data as [|b data IH]; intros off m; cbn [poke].
  - by rewrite store_bytes_nil.
  - rewrite IH. change (b :: data) with ([b] ++ data). rewrite <- store_bytes_app. simpl length.
    apply store_bytes_ext. intros y. unfold peek, store_bytes.
    destruct (Z.leb_spec off y); [|by rewrite lookup_insert_ne by lia].
    destruct (decide (y = off)) as [->|Hne].
    + by rewrite lookup_insert_eq, Z.sub_diag.
    + rewrite lookup_insert_ne by done. by rewrite lookup_ge_None_2 by (simpl; lia).
Qed.

#[export] Instance heap : Heap image := {| heap_malloc _ m := (true, m) |}.

(** A byte-addressed card with 64 blocks, two blocks per transfer. *)
Definition card : mmc_dev := mkMmcDev false 512 512 2 true 0 1 false 1 false 64 512 0x48060100.

#[export] Instance host : MmcHost image := {|
  mmc_of n _ := if n =? 0 then Some card else None;
  mmc_send_cmd _ cmd data m :=
    match data with
    | None => ((0, 0x900, []), m)
    | Some t =>
        let len := blocks t * blocksize t in
        if data_flags t =? MMC_DATA_READ
        then ((0, 0x900, load_bytes (cmdarg cmd) len (peek m)
                           ++ drop (Z.to_nat len) (data_buf t)), m)
        else ((0, 0x900, data_buf t), poke (cmdarg cmd) (take (Z.to_nat len) (data_buf t)) m)
    end;
  mmc_wait_dat0 _ _ _ m := (0, m);
  mmc_select_hwpart _ m := (0, m);
  mmc_reinit _ m := (0, m);
  mmc_getwp _ m := (0, m);
  mmc_udelay _ m := m;
|}.

Definition content (m : image) (i e x : Z) : Z :=
  if (i =? IF_TYPE_MMC) && (e =? 0) then peek m x else 0.

Lemma card_ok : MmcCard 0 card content.
Proof.
  split; try done.
  - intros st cnt src h _ _ _ _. simpl. split; [done|]. intros i e x. unfold content.
    destruct ((i =? IF_TYPE_MMC) && (e =? 0)); [|done]. rewrite peek_poke. done.
Qed.

Definition start : world image := boot_world ∅.

Lemma mmc_start_ok : cache_ok content start.
Proof. by split. Qed.
End MmcSim.

#[local] Existing Instance MmcSim.heap.
#[local] Existing Instance MmcSim.host.

Lemma mmc_write_read_roundtrip_witness :
  let data := replicate 1536 0xAA in
  ∃ w1 w2,
    blk_dwrite mmc_blk_ops IF_TYPE_MMC 0 10 3 data MmcSim.start = Ret 3 w1 ∧
    blk_dread mmc_blk_ops IF_TYPE_MMC 0 512 10 3 (replicate 1536 0) w1 = Ret (3, data) w2.
Proof.
  apply (mmc_write_read_roundtrip 0 MmcSim.card MmcSim.content MmcSim.card_ok 10 3
    (replicate 1536 0xAA) (replicate 1536 0) MmcSim.start); [apply MmcSim.mmc_start_ok|lia|lia|done| |].
  - by rewrite length_replicate.
  - by rewrite !length_replicate.
Defined.


Lemma blkcache_fill_keeps_witness :
  ∃ w', blkcache_fill IF_TYPE_MMC 0 10 3 512 (blocks_of MmcSim.content ∅ IF_TYPE_MMC 0 10 3 512)
          MmcSim.start = Ret tt w' ∧ cache_ok MmcSim.content w'.
Proof.
  apply (@blkcache_fill_keeps _ MmcSim.heap MmcSim.content (λ _ _ _ _ _, eq_refl) IF_TYPE_MMC 0 10 3 512
    MmcSim.start); [apply MmcSim.mmc_start_ok|unfold in_range; lia].
Defined.
