(* ===== verification/Mmc.v ===== *)
(** The MMC tests: [testsuite/test_mmc.c]. *)

From S2P Require Import Prelude CLib Vsprintf VsprintfFacts Machine Events MemoryFacts.
From S2P Require Import BlkCache MmcCore MmcFacts.

Definition MAX_SDHC_CONTROLLERS : Z := 16.
Notation MMC_MAX_TEST_BLOCK := 0x10%Z (only parsing).
Notation MMC_BUFFER_SIZE := 8192%Z (only parsing).

Record A_MMC_Detection_Test := mkMmcDetArgs {
  md_base_address : Z;
}.

Record A_MMC_WRITE_READ_Test := mkMmcRwArgs {
  mw_base_address : Z;
  mw_block_start : Z;
  mw_block_cnt : Z;
  mw_mmc_test_dev : Z;
}.

Section mmc_test.
Context {HW : Type} `{!MmcHost HW} `{!Heap HW}.
Notation M := (M (world HW)).

Definition mmc_file : string := "../test-framework/testsuite/test_mmc.c".

Definition set_param (p : mmc_param_s) : M unit :=
  modify (λ w, with_mmc (mkMmc p (test_buffer_1 (mmc w)) (test_buffer_2 (mmc w))) w).

Definition set_pmmc (p : option Z) : M unit :=
  q ← gets (λ w, ommc_param (mmc w));
  set_param (mkMmcParam (curr_device q) (block_start q) (block_cnt q) (dev_id q) p).

Definition set_curr_device (c : Z) : M unit :=
  q ← gets (λ w, ommc_param (mmc w));
  set_param (mkMmcParam c (block_start q) (block_cnt q) (dev_id q) (pmmc q)).

Definition mmc_event (testId : Z) (type : DiagErrEventIDTypes_e) (addrs : list Z) (s : string) :
    M unit :=
  event ← Event_Init testId;
  ReportEvent (fill_event event type addrs s).

(** The search for the controller at [mmc_port_address]: its [dev_id]. *)
Definition find_port (mmc_port_address : Z) : M (option Z) :=
  r ← for_loop (R := Z) 17 (λ dev_id, dev_id <? MAX_SDHC_CONTROLLERS) (λ dev_id, wrap8 (dev_id + 1))
        (λ dev_id,
           p ← find_mmc_device dev_id;
           _ ← set_pmmc p;
           match p with
           | None => mret (Continue dev_id)
           | Some m =>
               d ← mmc_struct m;
               if priv_base d =? mmc_port_address then
                 _ ← set_curr_device (sign 8 dev_id);
                 _ ← printf ("dev found" +:+ newline) [];
                 mret (Return dev_id)
               else mret (Continue dev_id)
           end)
        0;
  match r with
  | inl _ => mret None
  | inr dev_id => mret (Some dev_id)
  end.

Definition MMC_Dev_Init (testId mmc_port_address : Z) : M TestResultTypes_e :=
  found ← find_port mmc_port_address;
  match found with
  | None =>
      _ ← mmc_event testId DIAG_DEV_NOT_PRESENT_ERR_EVENT [mmc_port_address] "";
      mret DIAG_TEST_RESULT_FAIL
  | Some dev_id =>
      mmc_init_status ← hw_call (mmc_reinit dev_id);
      if mmc_init_status <? 0 then
        _ ← mmc_event testId DIAG_DEV_INIT_ERR_EVENT [mmc_port_address] "";
        mret DIAG_TEST_RESULT_FAIL
      else
        event ← Event_Init testId;
        d ← mmc_struct dev_id;
        q ← gets (λ w, ommc_param (mmc w));
        s ← sprintf_to DIAG_DIM_STRING_EVENT "%s detected on mmc[%d]"
              [VStr (Some (if is_sd d then "SD Card" else "eMMC flash")); VInt (curr_device q)];
        _ ← ReportEvent (fill_event event DIAG_INFO_EVENT [mmc_port_address; dev_id] s);
        mret DIAG_TEST_RESULT_PASS
  end.

Definition MMC_Detection_Test (testId : Z) (arg : option A_MMC_Detection_Test) :
    M TestResultTypes_e :=
  match arg with
  | None => _ ← DEBUG_ASSERT mmc_file 125; mret DIAG_TEST_RESULT_ABORTED
  | Some a => MMC_Dev_Init testId (md_base_address a)
  end.

(** [pmmc = find_mmc_device(dev_id)] in [ommc_param]. *)
Definition select_mmc : M (option Z) :=
  q ← gets (λ w, ommc_param (mmc w));
  p ← find_mmc_device (dev_id q);
  _ ← set_pmmc p;
  mret p.

Definition show_count (fmt : string) (n cnt : Z) : M TestResultTypes_e :=
  _ ← printf fmt [VInt n; VStr (Some (if n =? cnt then "OK" else "ERROR"))];
  mret (if n =? cnt then DIAG_TEST_RESULT_PASS else DIAG_TEST_RESULT_FAIL).

Definition show_range (fmt : string) (q : mmc_param_s) : M unit :=
  printf fmt [VInt (curr_device q); VInt (block_start q); VInt (block_cnt q)].

(** The status and the buffer afterwards. *)
Definition MMC_Read_Blocks (data_buffer : list Z) : M (TestResultTypes_e * list Z) :=
  p ← select_mmc;
  match p with
  | None => mret (DIAG_TEST_RESULT_FAIL, data_buffer)
  | Some m =>
      st ← hw_call (mmc_reinit m);
      if st <? 0 then mret (DIAG_TEST_RESULT_FAIL, data_buffer)
      else
        q ← gets (λ w, ommc_param (mmc w));
        _ ← show_range (newline +:+ "MMC read: dev # %d, block # %d, count %d ... ") q;
        d ← mmc_struct m;
        '(n, buf) ← blk_dread mmc_blk_ops IF_TYPE_MMC m (desc_blksz d) (block_start q)
                      (block_cnt q) data_buffer;
        r ← show_count ("%d blocks read: %s" +:+ newline) n (block_cnt q);
        mret (r, buf)
  end.

(** [mmc_init_status] is never assigned: the card is not initialised again. *)
Definition MMC_Write_Blocks (data_buffer : list Z) : M TestResultTypes_e :=
  p ← select_mmc;
  match p with
  | None => mret DIAG_TEST_RESULT_FAIL
  | Some m =>
      q ← gets (λ w, ommc_param (mmc w));
      _ ← show_range (newline +:+ "MMC write: dev # %d, block # %d, count %d ... ") q;
      n ← blk_dwrite mmc_blk_ops IF_TYPE_MMC m (block_start q) (block_cnt q) data_buffer;
      show_count ("%d blocks write: %s" +:+ newline) n (block_cnt q)
  end.

Definition MMC_Erase_Blocks : M TestResultTypes_e :=
  p ← select_mmc;
  match p with
  | None => mret DIAG_TEST_RESULT_FAIL
  | Some m =>
      st ← hw_call (mmc_reinit m);
      if st <? 0 then mret DIAG_TEST_RESULT_FAIL
      else
        q ← gets (λ w, ommc_param (mmc w));
        _ ← show_range (newline +:+ "MMC erase: dev # %d, block # %d, count %d ... ") q;
        wp_ ← hw_call (mmc_getwp m);
        if wp_ =? 1 then
          _ ← printf ("Error: card is write protected!" +:+ newline) [];
          mret DIAG_TEST_RESULT_FAIL
        else
          n ← blk_derase mmc_blk_ops IF_TYPE_MMC m (block_start q) (block_cnt q);
          show_count ("%d blocks erased: %s" +:+ newline) n (block_cnt q)
  end.

(** Both branches of the argument test return; the code after it is never
    reached. *)
Definition MMC_WRITE_READ_Test (testId : Z) (arg : option A_MMC_WRITE_READ_Test) :
    M TestResultTypes_e :=
  match arg with
  | None => _ ← DEBUG_ASSERT mmc_file 234; mret DIAG_TEST_RESULT_ABORTED
  | Some _ => mret DIAG_TEST_RESULT_PASS
  end.
End mmc_test.

(** * What the tests show *)

(** The write/read test passes without touching the card, for every
    argument. *)
Theorem mmc_write_read_vacuous {HW} testId a (w : world HW) :
  MMC_WRITE_READ_Test testId (Some a) w = Ret DIAG_TEST_RESULT_PASS w.
Proof. done. Qed.

Section detection.
Context {HW : Type} `{!MmcHost HW} (base : Z → option Z)
  (Hbase : ∀ k h, priv_base <$> mmc_of k h = base k).
Notation world := (world HW).

(** The first controller with the base address. *)
Definition port_at (addr k : Z) : Prop :=
  0 ≤ k < 16 ∧ base k = Some addr ∧ ∀ j, 0 ≤ j < k → base j ≠ Some addr.

Lemma wp_find_mmc k (w : world) (Q : option Z → world → Prop) :
  (∀ s, Q (if base k then Some k else None) (emit s w)) → wp (find_mmc_device k) Q w.
Proof using Hbase.
  intros HQ. unfold find_mmc_device. wp_run. rewrite <- (Hbase k (hw w)) in HQ.
  destruct (mmc_of k (hw w)); simpl in HQ; wp_run; [|by apply HQ].
  specialize (HQ ""). by rewrite emit_nil in HQ.
Qed.

Lemma wp_find_port addr (w : world) (Q : option Z → world → Prop) :
  (∀ k w', port_at addr k → hw w' = hw w → curr_device (ommc_param (mmc w')) = k → Q (Some k) w') →
  (∀ w', (∀ j, 0 ≤ j < 16 → base j ≠ Some addr) → hw w' = hw w → Q None w') →
  wp (find_port addr) Q w.
Proof using Hbase.
  intros HS HN. unfold find_port. apply wp_bind.
  apply (wp_for_seq Z.of_nat 16
    (λ k w', hw w' = hw w ∧ ∀ j, 0 ≤ j < Z.of_nat k → base j ≠ Some addr)).
  - lia.
  - intros k Hk. unfold MAX_SDHC_CONTROLLERS. destruct (Nat.ltb_spec k 16); lia.
  - split; [done|]. intros j Hj. lia.
  - intros k w1 Hk [Hhw Hno]. apply wp_bind, wp_find_mmc. intros s. unfold set_pmmc, set_param.
    assert (base (Z.of_nat k) ≠ Some addr → ∀ j, 0 ≤ j < Z.of_nat (S k) → base j ≠ Some addr) as Hext.
    { intros H j Hj. destruct (Z.eq_dec j (Z.of_nat k)) as [->|]; [done|]. apply Hno. lia. }
    destruct (base (Z.of_nat k)) as [b|] eqn:Hb; wp_run.
    + unfold mmc_struct. wp_run. simpl.
      pose proof (Hbase (Z.of_nat k) (hw w1)) as Hk'. rewrite Hb in Hk'.
      destruct (mmc_of (Z.of_nat k) (hw w1)) as [d|]; [|done]. injection Hk' as Hpb. wp_run.
      rewrite Hpb. destruct (Z.eqb_spec b addr) as [->|Hne]; unfold set_curr_device, set_param; wp_run.
      * apply HS; [|done|].
        { split; [lia|]. split; [done|]. intros j Hj. apply Hno. lia. }
        simpl. unfold sign. rewrite Z.mod_small by lia.
        by rewrite (proj2 (Z.ltb_lt _ _)) by (change (2 ^ (8 - 1)) with 128; lia).
      * split; [rewrite wrap8_small by lia; lia|]. split; [done|]. apply Hext. congruence.
    + split; [rewrite wrap8_small by lia; lia|]. split; [done|]. by apply Hext.
  - intros w1 [Hhw Hno]. wp_run. by apply HN.
Qed.

Lemma detected_text sd k :
  0 ≤ k < 100 → ∃ s,
  format "%s detected on mmc[%d]" [VStr (Some (if sd : bool then "SD Card" else "eMMC flash")); VInt k]
    = Some s ∧ no_nul s ∧ slen s < DIAG_DIM_STRING_EVENT.
Proof using.
  intros Hk. destruct (dec2_spec k Hk) as (_ & Hn & Hl).
  set (name := if sd then "SD Card" else "eMMC flash").
  assert (no_nul name ∧ slen name ≤ 10) as [Hnn Hnl] by by destruct sd.
  exists (name +:+ " detected on mmc[" +:+ dec2 k +:+ "]"). split_and!.
  - unfold format. change (c_str "%s detected on mmc[%d]") with "%s detected on mmc[%d]".
    change (S (String.length _)) with 23%nat. rewrite vformat_str by done.
    do 17 (rewrite vformat_lit by reflexivity). rewrite vformat_dec2, vformat_lit by done. done.
  - apply no_nul_app; [done|]. apply no_nul_app; [done|]. by apply no_nul_app.
  - rewrite !slen_app. change (slen " detected on mmc[") with 17. change (slen "]") with 1.
    unfold DIAG_DIM_STRING_EVENT. lia.
Qed.

Lemma port_at_unique addr k k' : port_at addr k → port_at addr k' → k = k'.
Proof using.
  intros (H1 & H2 & H3) (H1' & H2' & H3'). destruct (Z.lt_trichotomy k k') as [H|[H|H]]; [|done|].
  - by destruct (H3' k ltac:(lia)).
  - by destruct (H3 k' ltac:(lia)).
Qed.

(** Some controller has the address first, or none has it. *)
Lemma port_at_search addr : (∃ k, port_at addr k) ∨ ∀ k, ¬ port_at addr k.
Proof using.
  assert (∀ n : nat, (∃ k, 0 ≤ k < Z.of_nat n ∧ base k = Some addr ∧
      ∀ j, 0 ≤ j < k → base j ≠ Some addr) ∨ ∀ j, 0 ≤ j < Z.of_nat n → base j ≠ Some addr) as H.
  { induction n as [|n [(k & Hk & Hb)|Hno]]; [right; lia|left; exists k; split; [lia|done]|].
    destruct (decide (base (Z.of_nat n) = Some addr)) as [Hb|Hb].
    - left. exists (Z.of_nat n). split; [lia|done].
    - right. intros j Hj. destruct (Z.eq_dec j (Z.of_nat n)) as [->|]; [done|]. apply Hno. lia. }
  destruct (H 16%nat) as [(k & Hk)|Hno]; [left; by exists k|].
  right. intros k (Hk & Hb & _). by apply (Hno k).
Qed.

Lemma mmc_detection_returns testId addr (w : world) :
  (∀ k, port_at addr k →
    ∃ w', MMC_Detection_Test testId (Some (mkMmcDetArgs addr)) w
          = Ret (verdict (0 <=? (mmc_reinit k (hw w)).1)) w' ∧
      curr_device (ommc_param (mmc w')) = k) ∧
  ((∀ k, ¬ port_at addr k) →
    ∃ w', MMC_Detection_Test testId (Some (mkMmcDetArgs addr)) w = Ret DIAG_TEST_RESULT_FAIL w').
Proof using Hbase.
  unfold MMC_Detection_Test, MMC_Dev_Init, mmc_event. cbn [md_base_address]. split.
  - intros k Hk. match goal with |- ∃ w', ?m w = Ret ?r w' ∧ _ =>
      assert (wp m (λ x w', x = r ∧ curr_device (ommc_param (mmc w')) = k) w)
        as (x & w' & H & -> & Hc)%wp_run; [|eauto] end.
    apply wp_bind, wp_find_port.
    2:{ intros w' Hno _. destruct Hk as (H1 & H2 & _). by destruct (Hno k H1). }
    intros k' w1 Hk' Hhw Hc. rewrite (port_at_unique addr k' k) in * by done. wp_run. rewrite Hhw.
    destruct (Z.ltb_spec (mmc_reinit k (hw w)).1 0) as [Hneg|Hpos].
    + wp_run. split; [by rewrite (proj2 (Z.leb_gt _ _))|done].
    + rewrite (proj2 (Z.leb_le _ _) Hpos). unfold mmc_struct. wp_run.
      cbn [hw with_hw]. pose proof (Hbase k (mmc_reinit k (hw w)).2) as Hb. destruct Hk as (Hr & Hk & _).
      rewrite Hk in Hb. destruct (mmc_of k _) as [d|]; [|done]. wp_run.
      cbn [mmc with_hw]. rewrite Hc.
      destruct (detected_text (is_sd d) k) as (s & Hs & Hn & Hl); [lia|].
      unfold wp at 1. unfold DIAG_DIM_STRING_EVENT in *.
      rewrite (sprintf_exact _ _ _ s) by (done || (unfold INT_MAX; lia)). by wp_run.
  - intros Hno. match goal with |- ∃ w', ?m w = Ret ?r w' =>
      assert (wp m (λ x w', x = r) w) as (x & w' & H & ->)%wp_run; [|eauto] end.
    apply wp_bind, wp_find_port; [intros k w1 Hk; by destruct (Hno k)|].
    intros w1 _ Hhw. by wp_run.
Qed.

(** The detection test passes exactly when a controller with the base
    address is found among the first sixteen and its card can be initialised;
    the first such controller is the one used. *)
Theorem mmc_detection_result testId addr (w : world) :
  (∀ k, port_at addr k →
    ∃ w', MMC_Detection_Test testId (Some (mkMmcDetArgs addr)) w
          = Ret (verdict (0 <=? (mmc_reinit k (hw w)).1)) w' ∧
      curr_device (ommc_param (mmc w')) = k) ∧
  ((∀ k, ¬ port_at addr k) →
    ∃ w', MMC_Detection_Test testId (Some (mkMmcDetArgs addr)) w = Ret DIAG_TEST_RESULT_FAIL w').
Proof using Hbase. apply mmc_detection_returns. Qed.
End detection.

#[local] Existing Instance MmcSim.host.

Lemma mmc_detection_result_witness :
  (∃ w', MMC_Detection_Test 7 (Some (mkMmcDetArgs 0x48060100)) MmcSim.start
         = Ret DIAG_TEST_RESULT_PASS w' ∧ curr_device (ommc_param (mmc w')) = 0) ∧
  (∃ w', MMC_Detection_Test 7 (Some (mkMmcDetArgs 0x481d8100)) MmcSim.start
         = Ret DIAG_TEST_RESULT_FAIL w').
Proof.
  set (base k := if k =? 0 then Some 0x48060100 else None).
  assert (∀ k h, priv_base <$> mmc_of k h = base k) as Hbase.
  { intros k h. simpl. unfold base. by destruct (k =? 0). }
  split.
  - apply (proj1 (mmc_detection_result base Hbase 7 0x48060100 MmcSim.start)).
    split; [lia|]. split; [done|]. intros j Hj. lia.
  - apply (proj2 (mmc_detection_result base Hbase 7 0x481d8100 MmcSim.start)).
    intros k (_ & Hk & _). unfold base in Hk. by destruct (k =? 0).
Defined.
