(* ===== verification/SpiMem.v ===== *)
(** Memory operations on an SPI bus, [drivers/spi/spi-mem.c], for a
    controller without [mem_ops] ([drivers/spi/omap3_spi.c]): an operation is
    an opcode, an address, dummy bytes and a data phase, and is sent as one or
    two transfers. *)

From S2P Require Import Prelude CLib Vsprintf VsprintfFacts Machine Events I2cUclass.

Definition EIO : Z := 5.
Notation ENOTSUPP := 524%Z (only parsing).

Notation SPI_XFER_BEGIN := 1%Z (only parsing).
Notation SPI_XFER_END := 2%Z (only parsing).

Notation SPI_TX_DUAL := 0x200%Z (only parsing).
Notation SPI_TX_QUAD := 0x400%Z (only parsing).
Notation SPI_RX_DUAL := 0x1000%Z (only parsing).
Notation SPI_RX_QUAD := 0x2000%Z (only parsing).
Notation SPI_TX_OCTAL := 0x4000%Z (only parsing).
Notation SPI_RX_OCTAL := 0x8000%Z (only parsing).

(** What the controller driver and the driver model provide.
    [spi_xfer] with an output buffer is [spi_send], with an input buffer it is
    [spi_receive], which also gives the bytes received.
    [spi_get_bus_and_cs] probes the flash: it gives what it prints, and the
    device or the code. *)
Class SpiBus (HW : Type) := {
  spi_find_bus_and_cs : Z → Z → HW → Z * HW;
  device_remove : HW → HW;
  spi_get_bus_and_cs : Z → Z → string → HW → (string * (spi_nor + Z)) * HW;
  spi_claim_bus : HW → Z * HW;
  spi_release_bus : HW → HW;
  spi_send : list Z → Z → HW → Z * HW;
  spi_receive : Z → Z → HW → (Z * list Z) * HW;
}.

Inductive spi_mem_data_dir := SPI_MEM_DATA_IN | SPI_MEM_DATA_OUT.

#[global] Instance spi_mem_data_dir_eq_dec : EqDecision spi_mem_data_dir.
Proof. solve_decision. Defined.

(** [struct spi_mem_op]; [data_bytes] is what [buf.in] or [buf.out] points
    at. *)
Record spi_mem_op := mkOp {
  cmd_buswidth : Z;
  cmd_opcode : Z;
  addr_nbytes : Z;
  addr_buswidth : Z;
  addr_val : Z;
  dummy_nbytes : Z;
  dummy_buswidth : Z;
  data_buswidth : Z;
  data_dir : spi_mem_data_dir;
  data_nbytes : Z;
  data_bytes : list Z;
}.

Definition with_nbytes (n : Z) (op : spi_mem_op) : spi_mem_op :=
  mkOp (cmd_buswidth op) (cmd_opcode op) (addr_nbytes op) (addr_buswidth op) (addr_val op)
    (dummy_nbytes op) (dummy_buswidth op) (data_buswidth op) (data_dir op) n (data_bytes op).

Definition spi_check_buswidth_req (nor : spi_nor) (buswidth : Z) (tx : bool) : Z :=
  let mode := slave_mode nor in
  let has m := nonzero (Z.land mode m) in
  if buswidth =? 1 then 0
  else if buswidth =? 2 then
    if (tx && has (Z.lor SPI_TX_DUAL SPI_TX_QUAD)) || (negb tx && has (Z.lor SPI_RX_DUAL SPI_RX_QUAD))
    then 0 else - ENOTSUPP
  else if buswidth =? 4 then
    if (tx && has SPI_TX_QUAD) || (negb tx && has SPI_RX_QUAD) then 0 else - ENOTSUPP
  else if buswidth =? 8 then
    if (tx && has SPI_TX_OCTAL) || (negb tx && has SPI_RX_OCTAL) then 0 else - ENOTSUPP
  else - ENOTSUPP.

Definition spi_mem_default_supports_op (nor : spi_nor) (op : spi_mem_op) : bool :=
  let bad width tx := nonzero (spi_check_buswidth_req nor width tx) in
  if bad (cmd_buswidth op) true then false
  else if nonzero (addr_nbytes op) && bad (addr_buswidth op) true then false
  else if nonzero (dummy_nbytes op) && bad (dummy_buswidth op) true then false
  else if nonzero (data_nbytes op)
          && bad (data_buswidth op) (bool_decide (data_dir op = SPI_MEM_DATA_OUT)) then false
  else true.

Definition spi_mem_supports_op := spi_mem_default_supports_op.

(** The address, most significant byte first. *)
Definition addr_bytes (op : spi_mem_op) : list Z :=
  map (λ i, wrap8 (Z.shiftr (addr_val op) (8 * (addr_nbytes op - Z.of_nat i - 1))))
    (seq 0 (Z.to_nat (addr_nbytes op))).

(** [op_buf] *)
Definition op_header (op : spi_mem_op) : list Z :=
  cmd_opcode op :: addr_bytes op ++ replicate (Z.to_nat (dummy_nbytes op)) 0xff.

(** The code (0 when the size was adjusted) and the operation. *)
Definition spi_mem_adjust_op_size (nor : spi_nor) (op : spi_mem_op) : Z * spi_mem_op :=
  let len := 1 + addr_nbytes op + dummy_nbytes op in
  if nonzero (max_write_size nor) && (max_write_size nor <? len) then (- EINVAL, op)
  else
    let op :=
      match data_dir op with
      | SPI_MEM_DATA_IN =>
          if nonzero (max_read_size nor)
          then with_nbytes (Z.min (data_nbytes op) (max_read_size nor)) op else op
      | SPI_MEM_DATA_OUT =>
          if nonzero (max_write_size nor)
          then with_nbytes (Z.min (data_nbytes op) (max_write_size nor - len)) op else op
      end in
    if data_nbytes op =? 0 then (- EINVAL, op) else (0, op).

Section exec.
Context {HW : Type} `{!SpiBus HW}.
Notation M := (M (world HW)).

(** The data phase, when there is one: the code and the buffer. *)
Definition spi_mem_data_phase (op : spi_mem_op) : M (Z * list Z) :=
  let n := Z.to_nat (data_nbytes op) in
  if (length (data_bytes op) <? n)%nat then crash OUT_OF_BOUNDS
  else
    match data_dir op with
    | SPI_MEM_DATA_IN =>
        '(ret, bytes) ← hw_call (spi_receive (data_nbytes op) SPI_XFER_END);
        let bytes := take n bytes in
        mret (ret, bytes ++ drop (length bytes) (data_bytes op))
    | SPI_MEM_DATA_OUT =>
        ret ← hw_call (spi_send (take n (data_bytes op)) SPI_XFER_END);
        mret (ret, data_bytes op)
    end.

(** The code and the data buffer afterwards.  A transfer that fails leaves
    the bus claimed. *)
Definition spi_mem_exec_op (nor : spi_nor) (op : spi_mem_op) : M (Z * list Z) :=
  if negb (spi_mem_supports_op nor op) then mret (- ENOTSUPP, data_bytes op)
  else
    ret ← hw_call spi_claim_bus;
    if ret <? 0 then mret (ret, data_bytes op)
    else
      let has_data := nonzero (data_nbytes op) in
      let flag := if has_data then SPI_XFER_BEGIN else Z.lor SPI_XFER_BEGIN SPI_XFER_END in
      ret ← hw_call (spi_send (op_header op) flag);
      if nonzero ret then mret (ret, data_bytes op)
      else
        '(ret, buf) ← (if has_data then spi_mem_data_phase op else mret (0, data_bytes op));
        if nonzero ret then mret (ret, buf)
        else
          _ ← hw_do spi_release_bus;
          mret (0, buf).
End exec.
