(* ===== verification/SpiNor.v ===== *)
(** SPI NOR flash in U-Boot: [drivers/mtd/spi/spi-nor-core.c],
    [drivers/mtd/spi/sf_probe.c], [drivers/mtd/spi/sf-uclass.c] and
    [include/spi_flash.h], built with [CONFIG_DM_SPI_FLASH] and without
    [CONFIG_SPI_FLASH_BAR].  [size_t] is 32 bits wide, [loff_t] 64.  With
    [CONFIG_LOGLEVEL=3] the calls of [dev_err] and [dev_dbg] print nothing. *)

From S2P Require Import Prelude CLib Vsprintf VsprintfFacts Machine Events I2cUclass SpiMem.

Notation SPINOR_OP_WREN := 0x06%Z (only parsing).
Notation SPINOR_OP_WRDI := 0x04%Z (only parsing).
Notation SPINOR_OP_RDSR := 0x05%Z (only parsing).
Notation SPINOR_OP_AAI_WP := 0xad%Z (only parsing).
Notation SPINOR_OP_RDFSR := 0x70%Z (only parsing).
Notation SPINOR_OP_CLFSR := 0x50%Z (only parsing).
Notation SPINOR_OP_CLSR := 0x30%Z (only parsing).
Notation SR_WIP := 0x01%Z (only parsing).
Notation SR_E_ERR := 0x20%Z (only parsing).
Notation SR_P_ERR := 0x40%Z (only parsing).
Notation FSR_READY := 0x80%Z (only parsing).
Notation FSR_E_ERR := 0x20%Z (only parsing).
Notation FSR_P_ERR := 0x10%Z (only parsing).
Notation SNOR_F_USE_FSR := 0x01%Z (only parsing).
Notation SNOR_F_USE_CLSR := 0x20%Z (only parsing).
Notation SNOR_PROTO_INST_MASK := 0xff0000%Z (only parsing).
Notation SNOR_PROTO_ADDR_MASK := 0xff00%Z (only parsing).
Notation SNOR_PROTO_DATA_MASK := 0xff%Z (only parsing).

(** 40 seconds *)
Definition DEFAULT_READY_WAIT_JIFFIES : Z := 40 * 1000.

(** The longest polling of the status register that is followed. *)
Definition POLLS : Z := 100 * 1000 * 1000.

Definition spi_nor_get_protocol_inst_nbits (proto : Z) : Z :=
  wrap8 (Z.shiftr (Z.land proto SNOR_PROTO_INST_MASK) 16).
Definition spi_nor_get_protocol_addr_nbits (proto : Z) : Z :=
  wrap8 (Z.shiftr (Z.land proto SNOR_PROTO_ADDR_MASK) 8).
Definition spi_nor_get_protocol_data_nbits (proto : Z) : Z :=
  wrap8 (Z.shiftr (Z.land proto SNOR_PROTO_DATA_MASK) 0).

(** [include/linux/bitops.h] *)
Definition generic_hweight32 (w : Z) : Z :=
  let res := Z.land w 0x55555555 + Z.land (Z.shiftr w 1) 0x55555555 in
  let res := Z.land res 0x33333333 + Z.land (Z.shiftr res 2) 0x33333333 in
  let res := Z.land res 0x0F0F0F0F + Z.land (Z.shiftr res 4) 0x0F0F0F0F in
  let res := Z.land res 0x00FF00FF + Z.land (Z.shiftr res 8) 0x00FF00FF in
  Z.land res 0x0000FFFF + Z.land (Z.shiftr res 16) 0x0000FFFF.

Section spinor.
Context {HW : Type} `{!SpiBus HW} `{!Timer HW}.
Notation M := (M (world HW)).

(** * Registers *)

(** The code, and the byte read when it is not negative. *)
Definition spi_nor_read_reg (nor : spi_nor) (code len : Z) : M (Z * list Z) :=
  spi_mem_exec_op nor
    (mkOp 1 code 0 0 0 0 0 1 SPI_MEM_DATA_IN len (replicate (Z.to_nat len) 0)).

Definition spi_nor_write_reg (nor : spi_nor) (opcode : Z) (buf : list Z) (len : Z) : M Z :=
  '(ret, _) ← spi_mem_exec_op nor (mkOp 1 opcode 0 0 0 0 0 1 SPI_MEM_DATA_OUT len buf);
  mret ret.

(** A one-byte register: its value, or the negative code. *)
Definition read_byte_reg (code : Z) (nor : spi_nor) : M Z :=
  '(ret, val) ← spi_nor_read_reg nor code 1;
  if ret <? 0 then mret ret
  else match val with [] => crash UNINITIALISED | v :: _ => mret v end.

Definition read_sr : spi_nor → M Z := read_byte_reg SPINOR_OP_RDSR.
Definition read_fsr : spi_nor → M Z := read_byte_reg SPINOR_OP_RDFSR.

Definition write_enable (nor : spi_nor) : M Z := spi_nor_write_reg nor SPINOR_OP_WREN [] 0.
Definition write_disable (nor : spi_nor) : M Z := spi_nor_write_reg nor SPINOR_OP_WRDI [] 0.

Definition spi_nor_sr_ready (nor : spi_nor) : M Z :=
  sr ← read_sr nor;
  if sr <? 0 then mret sr
  else if nonzero (Z.land (nor_flags nor) SNOR_F_USE_CLSR)
          && nonzero (Z.land sr (Z.lor SR_E_ERR SR_P_ERR)) then
    _ ← spi_nor_write_reg nor SPINOR_OP_CLSR [] 0;
    mret (- EIO)
  else mret (if nonzero (Z.land sr SR_WIP) then 0 else 1).

Definition spi_nor_fsr_ready (nor : spi_nor) : M Z :=
  fsr ← read_fsr nor;
  if fsr <? 0 then mret fsr
  else if nonzero (Z.land fsr (Z.lor FSR_E_ERR FSR_P_ERR)) then
    _ ← spi_nor_write_reg nor SPINOR_OP_CLFSR [] 0;
    mret (- EIO)
  else mret (Z.land fsr FSR_READY).

Definition spi_nor_ready (nor : spi_nor) : M Z :=
  sr ← spi_nor_sr_ready nor;
  if sr <? 0 then mret sr
  else
    fsr ← (if nonzero (Z.land (nor_flags nor) SNOR_F_USE_FSR) then spi_nor_fsr_ready nor
           else mret 1);
    if fsr <? 0 then mret fsr
    else mret (if nonzero sr && nonzero fsr then 1 else 0).

Fixpoint ready_loop (fuel : nat) (nor : spi_nor) (timebase timeout : Z) : M Z :=
  match fuel with
  | O => λ _, NoFuel
  | S fuel' =>
      t ← hw_call (get_timer timebase);
      if t <? timeout then
        ret ← spi_nor_ready nor;
        if ret <? 0 then mret ret
        else if nonzero ret then mret 0
        else ready_loop fuel' nor timebase timeout
      else mret (- ETIMEDOUT)
  end.

Definition spi_nor_wait_till_ready_with_timeout (nor : spi_nor) (timeout : Z) : M Z :=
  timebase ← hw_call (get_timer 0);
  ready_loop (Z.to_nat POLLS) nor timebase timeout.

Definition spi_nor_wait_till_ready (nor : spi_nor) : M Z :=
  spi_nor_wait_till_ready_with_timeout nor DEFAULT_READY_WAIT_JIFFIES.

(** * Data *)

(** The [while (remaining)] loop; [done] is the part of the buffer before
    [op.data.buf.in]. *)
Fixpoint read_data_loop (fuel : nat) (nor : spi_nor) (op : spi_mem_op) (remaining len : Z)
    (done : list Z) : M (Z * list Z) :=
  match fuel with
  | O => λ _, NoFuel
  | S fuel' =>
      if nonzero remaining then
        let '(ret, op) := spi_mem_adjust_op_size nor (with_nbytes remaining op) in
        if nonzero ret then mret (ret, done ++ data_bytes op)
        else
          '(ret, buf) ← spi_mem_exec_op nor op;
          if nonzero ret then mret (ret, done ++ buf)
          else
            let n := data_nbytes op in
            let k := Z.to_nat n in
            let op := mkOp (cmd_buswidth op) (cmd_opcode op) (addr_nbytes op) (addr_buswidth op)
                        (wrap64 (addr_val op + n)) (dummy_nbytes op) (dummy_buswidth op)
                        (data_buswidth op) (data_dir op) n (drop k buf) in
            read_data_loop fuel' nor op (remaining - n) len (done ++ take k buf)
      else mret (sign 32 len, done ++ data_bytes op)
  end.

Definition spi_nor_read_data (nor : spi_nor) (from len : Z) (buf : list Z) : M (Z * list Z) :=
  let width := spi_nor_get_protocol_addr_nbits (read_proto nor) in
  read_data_loop (S (Z.to_nat len)) nor
    (mkOp (spi_nor_get_protocol_inst_nbits (read_proto nor)) (read_opcode nor) (addr_width nor)
       width from (wrap8 (read_dummy nor * width / 8)) width
       (spi_nor_get_protocol_data_nbits (read_proto nor)) SPI_MEM_DATA_IN len buf)
    len len [].

Definition spi_nor_write_data (nor : spi_nor) (to len : Z) (buf : list Z) : M Z :=
  let nbytes := if (program_opcode nor =? SPINOR_OP_AAI_WP) && sst_write_second nor then 0
                else addr_width nor in
  let op := mkOp (spi_nor_get_protocol_inst_nbits (write_proto nor)) (program_opcode nor) nbytes
              (spi_nor_get_protocol_addr_nbits (write_proto nor)) to 0 0
              (spi_nor_get_protocol_data_nbits (write_proto nor)) SPI_MEM_DATA_OUT len buf in
  let '(ret, op) := spi_mem_adjust_op_size nor op in
  if nonzero ret then mret ret
  else
    let n := if len <? data_nbytes op then len else data_nbytes op in
    '(ret, _) ← spi_mem_exec_op nor (with_nbytes n op);
    if nonzero ret then mret ret else mret (sign 32 n).

(** No driver sets [nor->erase]. *)
Definition spi_nor_erase_sector (nor : spi_nor) (addr : Z) : M Z :=
  '(ret, _) ← spi_mem_exec_op nor
                (mkOp 1 (erase_opcode nor) (addr_width nor) 1 addr 0 0 0 SPI_MEM_DATA_IN 0 []);
  mret ret.

(** The [while (len)] loop; the code at [erase_err]. *)
Fixpoint erase_loop (fuel : nat) (nor : spi_nor) (addr len ret : Z) : M Z :=
  match fuel with
  | O => λ _, NoFuel
  | S fuel' =>
      if nonzero len then
        _ ← write_enable nor;
        ret ← spi_nor_erase_sector nor addr;
        if nonzero ret then mret ret
        else
          let addr := wrap32 (addr + erasesize nor) in
          let len := wrap32 (len - erasesize nor) in
          ret ← spi_nor_wait_till_ready nor;
          if nonzero ret then mret ret else erase_loop fuel' nor addr len ret
      else mret ret
  end.

Definition spi_nor_erase (nor : spi_nor) (addr len : Z) : M Z :=
  if len =? 0 then mret 0
  else if erasesize nor =? 0 then crash DIV_BY_ZERO
  else if nonzero (len mod erasesize nor) then mret (- EINVAL)
  else
    ret ← erase_loop (S (Z.to_nat len)) nor addr len 0;
    _ ← write_disable nor;
    mret ret.

(** The code and the buffer; [done] is the part of it already filled. *)
Fixpoint read_loop (fuel : nat) (nor : spi_nor) (from len : Z) (done buf : list Z) :
    M (Z * list Z) :=
  match fuel with
  | O => λ _, NoFuel
  | S fuel' =>
      if nonzero len then
        '(ret, buf) ← spi_nor_read_data nor from len buf;
        if ret =? 0 then mret (- EIO, done ++ buf)
        else if ret <? 0 then mret (ret, done ++ buf)
        else
          let k := Z.to_nat ret in
          read_loop fuel' nor (from + ret) (wrap32 (len - ret)) (done ++ take k buf) (drop k buf)
      else mret (0, done ++ buf)
  end.

Definition spi_nor_read (nor : spi_nor) (from len : Z) (buf : list Z) : M (Z * list Z) :=
  read_loop (S (Z.to_nat len)) nor from len [] buf.

(** Where [addr] is in its page. *)
Definition page_offset (nor : spi_nor) (addr : Z) : M Z :=
  if generic_hweight32 (page_size nor) =? 1 then mret (Z.land addr (page_size nor - 1))
  else if page_size nor =? 0 then crash DIV_BY_ZERO
  else mret (addr mod page_size nor).

Fixpoint write_loop (fuel : nat) (nor : spi_nor) (to i len : Z) (buf : list Z) (ret : Z) : M Z :=
  match fuel with
  | O => λ _, NoFuel
  | S fuel' =>
      if i <? len then
        let addr := to + i in
        off ← page_offset nor addr;
        let page_remain := Z.min (wrap32 (page_size nor - off)) (len - i) in
        _ ← write_enable nor;
        ret ← spi_nor_write_data nor addr page_remain (drop (Z.to_nat i) buf);
        if ret <? 0 then mret ret
        else
          let written := ret in
          ret ← spi_nor_wait_till_ready nor;
          if nonzero ret then mret ret
          else write_loop fuel' nor to (wrap32 (i + written)) len buf ret
      else mret ret
  end.

Definition spi_nor_write (nor : spi_nor) (to len : Z) (buf : list Z) : M Z :=
  if len =? 0 then mret 0 else write_loop (S (Z.to_nat len)) nor to 0 len buf 0.

(** * sf_probe.c, sf-uclass.c and spi_flash.h *)

Definition spi_flash_std_read (nor : spi_nor) (offset len : Z) (buf : list Z) : M (Z * list Z) :=
  spi_nor_read nor offset len buf.

Definition spi_flash_std_write (nor : spi_nor) (offset len : Z) (buf : list Z) : M Z :=
  spi_nor_write nor offset len buf.

Definition spi_flash_std_erase (nor : spi_nor) (offset len : Z) : M Z :=
  if erasesize nor =? 0 then crash DIV_BY_ZERO
  else if nonzero (offset mod erasesize nor) || nonzero (len mod erasesize nor) then
    _ ← printf ("SF: Erase offset/length not multiple of erase size" +:+ newline) [];
    mret (- EINVAL)
  else spi_nor_erase nor offset len.

Definition spi_flash_read_dm (nor : spi_nor) (offset len : Z) (buf : list Z) : M (Z * list Z) :=
  spi_flash_std_read nor offset len buf.
Definition spi_flash_write_dm (nor : spi_nor) (offset len : Z) (buf : list Z) : M Z :=
  spi_flash_std_write nor offset len buf.
Definition spi_flash_erase_dm (nor : spi_nor) (offset len : Z) : M Z :=
  spi_flash_std_erase nor offset len.

(** The arguments are converted to [u32] and [size_t]. *)
Definition spi_flash_read (nor : spi_nor) (offset len : Z) (buf : list Z) : M (Z * list Z) :=
  spi_flash_read_dm nor (wrap32 offset) (wrap32 len) buf.
Definition spi_flash_write (nor : spi_nor) (offset len : Z) (buf : list Z) : M Z :=
  spi_flash_write_dm nor (wrap32 offset) (wrap32 len) buf.
Definition spi_flash_erase (nor : spi_nor) (offset len : Z) : M Z :=
  spi_flash_erase_dm nor (wrap32 offset) (wrap32 len).

(** The probed device, or the code. *)
Definition spi_flash_probe_bus_cs (busnum cs : Z) : M (spi_nor + Z) :=
  match snprintf 30 "spi_flash@%d:%d" [VInt busnum; VInt cs] with
  | None => crash BAD_VARARGS
  | Some (name, _) =>
      '(text, r) ← hw_call (spi_get_bus_and_cs busnum cs name);
      _ ← modify (λ w, with_console (console w +:+ text) w);
      mret r
  end.
End spinor.
