(* ===== verification/SpiNorFacts.v ===== *)
(** What the SPI NOR code of [SpiNor] does to a flash chip.  The chip is
    described by the commands it answers on the wire ([NorChip]); from that,
    [spi_nor_read], [spi_nor_write] and [spi_nor_erase] are shown to read,
    program and erase the memory array. *)

From S2P Require Import Prelude CLib Vsprintf VsprintfFacts Machine Events I2cUclass SpiMem SpiNor.

(** A 24-bit address on the wire. *)
Definition addr3 (a : Z) : list Z := [wrap8 (Z.shiftr a 16); wrap8 (Z.shiftr a 8); wrap8 a].

(** [erase_to x b] is what an erase leaves of the byte [b] in cell [x]. *)
Definition erase_cells (erase_to : Z → Z → Z) (a n : Z) (mem : Z → Z) (x : Z) : Z :=
  if (a <=? x) && (x <? a + n) then erase_to x (mem x) else mem x.

Lemma erase_cells_ext erase_to a n mem mem' x :
  (∀ x, mem x = mem' x) → erase_cells erase_to a n mem x = erase_cells erase_to a n mem' x.
Proof. intros H. unfold erase_cells. by rewrite H. Qed.

Lemma erase_cells_app erase_to a n k mem x :
  0 ≤ n → 0 ≤ k →
  erase_cells erase_to (a + n) k (erase_cells erase_to a n mem) x
  = erase_cells erase_to a (n + k) mem x.
Proof.
  intros Hn Hk. unfold erase_cells.
  destruct (Z.leb_spec (a + n) x), (Z.leb_spec a x), (Z.ltb_spec x (a + n)),
    (Z.ltb_spec x (a + n + k)), (Z.ltb_spec x (a + (n + k))); cbn [andb]; try done; lia.
Qed.

(** How [nor] describes a chip with 24-bit addresses, read with one dummy
    byte, on a single data line. *)
Record NorDescription (nor : spi_nor) : Prop := {
  desc_size : 0 < nor_size nor ≤ 2 ^ 24;
  desc_erasesize : 0 < erasesize nor ≤ nor_size nor;
  desc_page : ∃ k, 0 ≤ k < 24 ∧ page_size nor = 2 ^ k;
  desc_addr : addr_width nor = 3;
  desc_dummy : read_dummy nor = 8;
  desc_aai : program_opcode nor ≠ SPINOR_OP_AAI_WP;
  desc_read : read_proto nor = 0x010101;
  desc_write : write_proto nor = 0x010101;
  desc_flags : nor_flags nor = 0;
  desc_max_read : 0 ≤ max_read_size nor < 2 ^ 32;
  desc_max_write : max_write_size nor = 0 ∨ 5 < max_write_size nor;
}.

(** The chip on the bus: [mem] is its array, [wel] its write-enable latch,
    [pending] the command received so far while it is selected, [busy] the
    number of status reads that will still find it busy, [now] the time in
    milliseconds.  Each bus access takes at most one. *)
Section chip.
Context {HW : Type} `{!SpiBus HW} `{!Timer HW} (nor : spi_nor).
Context (mem : HW → Z → Z) (wel : HW → bool) (pending : HW → list Z) (busy : HW → nat) (now : HW → Z).
Context (program : Z → Z → Z → Z) (erase_to : Z → Z → Z).

(** Nothing happens but that up to [d] milliseconds pass. *)
Definition calm (d : Z) (h h' : HW) : Prop :=
  (∀ x, mem h' x = mem h x) ∧ wel h' = wel h ∧ busy h' = busy h ∧ now h ≤ now h' ≤ now h + d.

Definition fits (a n : Z) : Prop := 0 ≤ a ∧ 0 ≤ n ∧ a + n ≤ nor_size nor.

(** The chip starts a program or erase cycle, which ends within a limit, and
    clears its latch. *)
Definition cycle (h h' : HW) (mem' : Z → Z) : Prop :=
  (∀ x, mem h' x = mem' x) ∧ (Z.of_nat (busy h') ≤ 6000) ∧ now h ≤ now h' ≤ now h + 1.

Record NorChip : Prop := {
  chip_claim h : (spi_claim_bus h).1 = 0 ∧ calm 1 h (spi_claim_bus h).2;
  chip_release h : calm 1 h (spi_release_bus h);
  chip_timer b h : (get_timer b h).1 = wrap32 (now h - b) ∧ calm 1 h (get_timer b h).2;
  chip_begin hdr h :
    let '(r, h') := spi_send hdr SPI_XFER_BEGIN h in
    r = 0 ∧ calm 1 h h' ∧ pending h' = hdr;
  chip_wren h :
    let '(r, h') := spi_send [SPINOR_OP_WREN] (Z.lor SPI_XFER_BEGIN SPI_XFER_END) h in
    r = 0 ∧ (busy h = 0%nat → wel h' = true) ∧
    (∀ x, mem h' x = mem h x) ∧ busy h' = busy h ∧ now h ≤ now h' ≤ now h + 1;
  chip_wrdi h :
    let '(r, h') := spi_send [SPINOR_OP_WRDI] (Z.lor SPI_XFER_BEGIN SPI_XFER_END) h in
    r = 0 ∧ (∀ x, mem h' x = mem h x) ∧ busy h' = busy h ∧ now h ≤ now h' ≤ now h + 1;
  chip_erase a h :
    let '(r, h') := spi_send (erase_opcode nor :: addr3 a) (Z.lor SPI_XFER_BEGIN SPI_XFER_END) h in
    fits a (erasesize nor) → a mod erasesize nor = 0 → busy h = 0%nat → wel h = true →
    r = 0 ∧ cycle h h' (erase_cells erase_to a (erasesize nor) (mem h));
  chip_status h :
    let '(r, bytes, h') := spi_receive 1 SPI_XFER_END h in
    pending h = [SPINOR_OP_RDSR] →
    ∃ s, r = 0 ∧ bytes = [s] ∧ 0 ≤ s < 256 ∧
      (nonzero (Z.land s SR_WIP) = negb (busy h =? 0)%nat) ∧
      (∀ x, mem h' x = mem h x) ∧ busy h' = pred (busy h) ∧ now h ≤ now h' ≤ now h + 1;
  chip_read a n h :
    let '(r, bytes, h') := spi_receive n SPI_XFER_END h in
    pending h = read_opcode nor :: addr3 a ++ [0xff] → fits a n → busy h = 0%nat →
    r = 0 ∧ bytes = load_bytes a n (mem h) ∧
    (∀ x, mem h' x = mem h x) ∧ busy h' = 0%nat;
  chip_program a data h :
    let '(r, h') := spi_send data SPI_XFER_END h in
    pending h = program_opcode nor :: addr3 a → fits a (Z.of_nat (length data)) →
    a mod page_size nor + Z.of_nat (length data) ≤ page_size nor →
    busy h = 0%nat → wel h = true →
    r = 0 ∧ cycle h h' (store_bytes program a data (mem h));
}.

(** * Operations on the bus *)

Lemma calm_trans d d' h1 h2 h3 : calm d h1 h2 → calm d' h2 h3 → calm (d + d') h1 h3.
Proof.
  intros (Hm & Hw & Hb & Ht) (Hm' & Hw' & Hb' & Ht'). unfold calm.
  rewrite Hw', Hw, Hb', Hb. split_and!; try done; try lia. intros x. by rewrite Hm'.
Qed.

Lemma with_hw_twice h h' (w : world HW) : with_hw h (with_hw h' w) = with_hw h w.
Proof. done. Qed.

Context (Hchip : NorChip) (Hdesc : NorDescription nor).

(** An operation: claim the bus, send the header, do the data phase, release
    the bus. *)
Lemma wp_exec_op op (w : world HW) (Q : Z * list Z → world HW → Prop) :
  spi_mem_supports_op nor op = true →
  (∀ h1, calm 1 (hw w) h1 →
     let flag := if nonzero (data_nbytes op) then SPI_XFER_BEGIN
                 else Z.lor SPI_XFER_BEGIN SPI_XFER_END in
     let '(r, h2) := spi_send (op_header op) flag h1 in
     r = 0 ∧
     wp (if nonzero (data_nbytes op) then spi_mem_data_phase op else mret (0, data_bytes op))
       (λ '(r, buf) w', r = 0 ∧ ∃ h3, w' = with_hw h3 w ∧
          ∀ h4, calm 1 h3 h4 → Q (0, buf) (with_hw h4 w)) (with_hw h2 w)) →
  wp (spi_mem_exec_op nor op) Q w.
Proof using Hchip.
  intros Hsup HQ. unfold spi_mem_exec_op. rewrite Hsup. cbn [negb].
  apply wp_bind, wp_hw_call. destruct (chip_claim Hchip (hw w)) as [Hr Hc].
  destruct (spi_claim_bus (hw w)) as [r h1]. simpl in Hr, Hc. subst r.
  cbn [fst snd Z.ltb Z.compare]. apply wp_bind, wp_hw_call. specialize (HQ h1 Hc). cbv zeta in HQ.
  cbn [hw with_hw].
  destruct (spi_send (op_header op) _ h1) as [r h2]. destruct HQ as [-> HQ].
  cbn [fst snd nonzero negb Z.eqb]. rewrite with_hw_twice. apply wp_bind. eapply wp_mono; [apply HQ|].
  intros [r buf] w' [-> (h3 & -> & HQ')]. cbn [nonzero negb Z.eqb].
  apply wp_bind, wp_hw_do, wp_ret. rewrite with_hw_twice. apply HQ', (chip_release Hchip).
Qed.

(** An operation without a data phase. *)
Lemma wp_exec_cmd op (w : world HW) (Q : Z * list Z → world HW → Prop) :
  spi_mem_supports_op nor op = true → data_nbytes op = 0 →
  (∀ h1, calm 1 (hw w) h1 →
     let '(r, h2) := spi_send (op_header op) (Z.lor SPI_XFER_BEGIN SPI_XFER_END) h1 in
     r = 0 ∧ ∀ h3, calm 1 h2 h3 → Q (0, data_bytes op) (with_hw h3 w)) →
  wp (spi_mem_exec_op nor op) Q w.
Proof using Hchip.
  intros Hsup Hn HQ. apply wp_exec_op; [done|]. intros h1 Hc. rewrite Hn.
  cbn [nonzero negb Z.eqb]. specialize (HQ h1 Hc).
  destruct (spi_send _ _ h1) as [r h2]. destruct HQ as [-> HQ]. split; [done|].
  apply wp_ret. split; [done|]. by exists h2.
Qed.

(** The memory is as before and the chip is idle. *)
Definition settled (h h' : HW) : Prop := (∀ x, mem h' x = mem h x) ∧ busy h' = 0%nat.

Lemma settled_trans h1 h2 h3 : settled h1 h2 → settled h2 h3 → settled h1 h3.
Proof. intros [Hm _] [Hm' Hb]. split; [|done]. intros x. by rewrite Hm'. Qed.

Lemma wp_write_enable (w : world HW) (Q : Z → world HW → Prop) :
  busy (hw w) = 0%nat →
  (∀ h', settled (hw w) h' → wel h' = true → Q 0 (with_hw h' w)) →
  wp (write_enable nor) Q w.
Proof using Hchip.
  intros Hb HQ. unfold write_enable, spi_nor_write_reg. apply wp_bind, wp_exec_cmd; [done..|].
  intros h1 (Hm1 & _ & Hb1 & _). pose proof (chip_wren Hchip h1) as Hw.
  change (op_header _) with [SPINOR_OP_WREN]. destruct (spi_send _ _ h1) as [r h2].
  destruct Hw as (-> & Hwel & Hm2 & Hb2 & _). split; [done|].
  intros h3 (Hm3 & Hw3 & Hb3 & _). apply wp_ret, HQ.
  - split; [|congruence]. intros x. by rewrite Hm3, Hm2, Hm1.
  - rewrite Hw3. apply Hwel. congruence.
Qed.

Lemma wp_write_disable (w : world HW) (Q : Z → world HW → Prop) :
  busy (hw w) = 0%nat → (∀ h', settled (hw w) h' → Q 0 (with_hw h' w)) →
  wp (write_disable nor) Q w.
Proof using Hchip.
  intros Hb HQ. unfold write_disable, spi_nor_write_reg. apply wp_bind, wp_exec_cmd; [done..|].
  intros h1 (Hm1 & _ & Hb1 & _). pose proof (chip_wrdi Hchip h1) as Hw.
  change (op_header _) with [SPINOR_OP_WRDI]. destruct (spi_send _ _ h1) as [r h2].
  destruct Hw as (-> & Hm2 & Hb2 & _). split; [done|].
  intros h3 (Hm3 & Hw3 & Hb3 & _). apply wp_ret, HQ.
  split; [|congruence]. intros x. by rewrite Hm3, Hm2, Hm1.
Qed.

(** * Waiting *)

(** One look at the status register. *)
Lemma wp_nor_ready (w : world HW) (Q : Z → world HW → Prop) :
  (∀ h', (∀ x, mem h' x = mem (hw w) x) → busy h' = pred (busy (hw w)) →
     now (hw w) ≤ now h' ≤ now (hw w) + 4 →
     Q (if (busy (hw w) =? 0)%nat then 1 else 0) (with_hw h' w)) →
  wp (spi_nor_ready nor) Q w.
Proof using Hchip Hdesc.
  intros HQ. unfold spi_nor_ready, spi_nor_sr_ready, read_sr, read_byte_reg, spi_nor_read_reg.
  rewrite (desc_flags _ Hdesc). do 3 apply wp_bind. apply wp_exec_op; [done|].
  intros h1 (Hm1 & _ & Hb1 & Ht1). change (op_header _) with [SPINOR_OP_RDSR].
  cbn [data_nbytes nonzero negb Z.eqb]. cbv zeta.
  pose proof (chip_begin Hchip [SPINOR_OP_RDSR] h1) as Hs.
  destruct (spi_send _ _ h1) as [r h2]. destruct Hs as (-> & (Hm2 & _ & Hb2 & Ht2) & Hp).
  split; [done|]. unfold spi_mem_data_phase. cbn [data_bytes data_dir data_nbytes].
  change (length (replicate (Z.to_nat 1) 0) <? Z.to_nat 1)%nat with false. cbv iota.
  apply wp_bind, wp_hw_call. cbn [hw with_hw]. pose proof (chip_status Hchip h2) as Hst.
  destruct (spi_receive 1 _ h2) as [[r bytes] h3].
  destruct (Hst Hp) as (v & -> & -> & Hv & Hwip & Hm3 & Hb3 & Ht3). cbn [fst snd].
  apply wp_ret. split; [done|]. exists h3. split; [done|]. intros h4 (Hm4 & _ & Hb4 & Ht4).
  cbn [Z.ltb Z.compare]. cbn [Z.to_nat Pos.to_nat Pos.iter_op take length app].
  apply wp_ret. destruct (Z.ltb_spec v 0); [lia|]. cbn [Z.land nonzero negb Z.eqb andb].
  apply wp_ret. rewrite Hwip, Hb2, Hb1.
  assert (Q (if (busy (hw w) =? 0)%nat then 1 else 0) (with_hw h4 w)) as HQ4.
  { apply HQ; [|congruence|lia]. intros x. by rewrite Hm4, Hm3, Hm2, Hm1. }
  destruct (busy (hw w) =? 0)%nat; apply wp_ret, wp_ret; exact HQ4.
Qed.

Lemma wp_ready_loop fuel t0 n (w : world HW) (Q : Z → world HW → Prop) :
  busy (hw w) = n → (n < fuel)%nat → t0 ≤ now (hw w) → now (hw w) - t0 + 5 * Z.of_nat n < 40000 →
  (∀ h', settled (hw w) h' → Q 0 (with_hw h' w)) →
  wp (ready_loop fuel nor (wrap32 t0) DEFAULT_READY_WAIT_JIFFIES) Q w.
Proof using Hchip Hdesc.
  revert n w. induction fuel as [|fuel IH]; intros n w Hn Hf Ht Hlim HQ; [lia|].
  cbn [ready_loop]. apply wp_bind, wp_hw_call.
  destruct (chip_timer Hchip (wrap32 t0) (hw w)) as [Hv (Hm1 & _ & Hb1 & Ht1)].
  destruct (get_timer _ _) as [t h1]. cbn [fst snd] in *. subst t.
  replace (wrap32 (now (hw w) - wrap32 t0)) with (now (hw w) - t0) by (unfold wrap32; lia).
  unfold DEFAULT_READY_WAIT_JIFFIES. rewrite (proj2 (Z.ltb_lt _ _)) by lia.
  apply wp_bind, wp_nor_ready. cbn [hw with_hw]. intros h2 Hm2 Hb2 Ht2. rewrite Hb1, Hn in *.
  destruct n as [|n]; cbn [Nat.eqb Z.ltb Z.compare nonzero negb Z.eqb].
  - apply wp_ret, HQ. split; [|done]. intros x. by rewrite Hm2.
  - apply (IH n); cbn [hw with_hw]; [done|lia|lia|lia|].
    intros h3 [Hm3 Hb3]. apply HQ. split; [|done]. intros x. by rewrite Hm3, Hm2.
Qed.

Lemma POLLS_val : Z.of_nat (Z.to_nat POLLS) = 100000000.
Proof. unfold POLLS. lia. Qed.

Lemma wp_wait_till_ready (w : world HW) (Q : Z → world HW → Prop) :
  Z.of_nat (busy (hw w)) ≤ 6000 → (∀ h', settled (hw w) h' → Q 0 (with_hw h' w)) →
  wp (spi_nor_wait_till_ready nor) Q w.
Proof using Hchip Hdesc.
  intros Hb HQ. unfold spi_nor_wait_till_ready, spi_nor_wait_till_ready_with_timeout.
  apply wp_bind, wp_hw_call. destruct (chip_timer Hchip 0 (hw w)) as [Hv (Hm1 & _ & Hb1 & Ht1)].
  destruct (get_timer _ _) as [t h1]. cbn [fst snd] in *. subst t. rewrite Z.sub_0_r.
  pose proof POLLS_val. eapply wp_ready_loop; cbn [hw with_hw]; [done|lia|lia|lia|].
  intros h2 [Hm2 Hb2]. apply HQ. split; [|done]. intros x. by rewrite Hm2.
Qed.

(** * Erasing *)

Lemma header3 bw op a abw dn dbw dabw dir n buf :
  op_header (mkOp bw op (addr_width nor) abw a dn dbw dabw dir n buf)
  = op :: addr3 a ++ replicate (Z.to_nat dn) 0xff.
Proof using Hdesc.
  rewrite (desc_addr _ Hdesc). unfold op_header, addr_bytes, addr3.
  cbn [addr_val addr_nbytes cmd_opcode dummy_nbytes]. reflexivity.
Qed.

Lemma wp_erase_sector a (w : world HW) (Q : Z → world HW → Prop) :
  fits a (erasesize nor) → a mod erasesize nor = 0 → busy (hw w) = 0%nat → wel (hw w) = true →
  (∀ h', (∀ x, mem h' x = erase_cells erase_to a (erasesize nor) (mem (hw w)) x) →
     Z.of_nat (busy h') ≤ 6000 → Q 0 (with_hw h' w)) →
  wp (spi_nor_erase_sector nor a) Q w.
Proof using Hchip Hdesc.
  intros Hfit Hal Hb Hw HQ. unfold spi_nor_erase_sector. apply wp_bind, wp_exec_cmd; [|done|].
  { unfold spi_mem_supports_op, spi_mem_default_supports_op.
    cbn. by rewrite (desc_addr _ Hdesc). }
  intros h1 (Hm1 & Hw1 & Hb1 & _). rewrite header3. cbn [Z.to_nat replicate]. rewrite app_nil_r.
  pose proof (chip_erase Hchip a h1) as He. destruct (spi_send _ _ h1) as [r h2].
  destruct He as (-> & Hm2 & Hb2 & _); [done|done|congruence|congruence|]. split; [done|].
  intros h3 (Hm3 & _ & Hb3 & _). apply wp_ret, HQ; [|by rewrite Hb3].
  intros x. rewrite Hm3, Hm2. by apply erase_cells_ext.
Qed.

(** [n] sectors from [a] on. *)
Lemma wp_erase_loop fuel n a r0 (w : world HW) (Q : Z → world HW → Prop) :
  (n < fuel)%nat → fits a (Z.of_nat n * erasesize nor) → a mod erasesize nor = 0 →
  busy (hw w) = 0%nat → (n = 0%nat → r0 = 0) →
  (∀ h', (∀ x, mem h' x = erase_cells erase_to a (Z.of_nat n * erasesize nor) (mem (hw w)) x) →
     busy h' = 0%nat → Q 0 (with_hw h' w)) →
  wp (erase_loop fuel nor a (Z.of_nat n * erasesize nor) r0) Q w.
Proof using Hchip Hdesc.
  pose proof (desc_erasesize _ Hdesc) as Hes. pose proof (desc_size _ Hdesc) as Hsz.
  set (es := erasesize nor) in *.
  revert n a r0 w. induction fuel as [|fuel IH]; intros n a r0 w Hf Hfit Hal Hb Hr HQ; [lia|].
  destruct n as [|n]; cbn [erase_loop].
  { rewrite Hr by done. apply wp_ret. destruct w. apply HQ; [|done]. intros x. unfold erase_cells.
    destruct (Z.leb_spec a x), (Z.ltb_spec x (a + Z.of_nat 0 * es)); simpl; done || lia. }
  unfold fits in Hfit. rewrite (proj2 (nonzero_true _)) by nia.
  apply wp_bind, wp_write_enable; [done|]. intros h1 [Hm1 Hb1] Hw1.
  apply wp_bind, wp_erase_sector; try done; [unfold fits; fold es; nia|].
  cbn [hw with_hw]. intros h2 Hm2 Hb2. fold es in Hm2 |- *. cbn [nonzero negb Z.eqb].
  apply wp_bind, wp_wait_till_ready; [done|]. cbn [hw with_hw]. intros h3 [Hm3 Hb3].
  cbn [nonzero negb Z.eqb].
  replace (wrap32 (a + es)) with (a + es) by (rewrite wrap32_small; nia).
  replace (wrap32 (Z.of_nat (S n) * es - es)) with (Z.of_nat n * es) by (rewrite wrap32_small; nia).
  apply IH; cbn [hw with_hw]; [lia|unfold fits; nia| |done|done|].
  { rewrite <- (Z.mul_1_l es) at 1. rewrite Z.mod_add by lia. done. }
  intros h4 Hm4 Hb4. apply HQ; [|done]. intros x.
  replace (Z.of_nat (S n) * es) with (es + Z.of_nat n * es) by lia.
  rewrite Hm4, <- erase_cells_app by nia. apply erase_cells_ext. intros y.
  rewrite Hm3, Hm2. by apply erase_cells_ext.
Qed.

Lemma wp_spi_nor_erase a n (w : world HW) (Q : Z → world HW → Prop) :
  fits a n → a mod erasesize nor = 0 → n mod erasesize nor = 0 → busy (hw w) = 0%nat →
  (∀ h', (∀ x, mem h' x = erase_cells erase_to a n (mem (hw w)) x) → busy h' = 0%nat →
     Q 0 (with_hw h' w)) →
  wp (spi_flash_erase nor a n) Q w.
Proof using Hchip Hdesc.
  pose proof (desc_erasesize _ Hdesc) as Hes. pose proof (desc_size _ Hdesc) as Hsz.
  intros Hfit Hal Haln Hb HQ. unfold spi_flash_erase, spi_flash_erase_dm, spi_flash_std_erase.
  unfold fits in Hfit. rewrite !wrap32_small by lia.
  rewrite (proj2 (Z.eqb_neq (erasesize nor) 0)) by lia. rewrite Hal, Haln.
  cbn [nonzero negb Z.eqb orb]. unfold spi_nor_erase.
  destruct (Z.eqb_spec n 0) as [->|Hn].
  { apply wp_ret. destruct w. apply HQ; [|done]. intros x. unfold erase_cells.
    destruct (Z.leb_spec a x), (Z.ltb_spec x (a + 0)); simpl; done || lia. }
  rewrite (proj2 (Z.eqb_neq (erasesize nor) 0)) by lia. rewrite Haln. cbn [nonzero negb Z.eqb].
  assert (∃ k, n = Z.of_nat k * erasesize nor ∧ (k ≤ Z.to_nat n)%nat) as (k & Hk & Hkn).
  { exists (Z.to_nat (n / erasesize nor)). pose proof (Z.div_mod n (erasesize nor)).
    pose proof (Z.div_pos n (erasesize nor)). rewrite Z2Nat.id by lia. nia. }
  rewrite Hk at 2. apply wp_bind. apply wp_erase_loop; [lia|unfold fits; lia|done|done|done|].
  rewrite <- Hk. intros h1 Hm1 Hb1. apply wp_bind, wp_write_disable; [done|].
  cbn [hw with_hw]. intros h2 [Hm2 Hb2]. apply wp_ret, HQ; [|done]. intros x. by rewrite Hm2.
Qed.
(** * Reading *)

(** The operation [spi_nor_read_data] sends, at address [a]. *)
Definition read_op (a n : Z) (buf : list Z) : spi_mem_op :=
  mkOp 1 (read_opcode nor) (addr_width nor) 1 a 1 1 1 SPI_MEM_DATA_IN n buf.

Lemma adjust_read a n m buf :
  0 < n → ∃ c, spi_mem_adjust_op_size nor (with_nbytes n (read_op a m buf)) = (0, read_op a c buf) ∧
               1 ≤ c ≤ n.
Proof using Hdesc.
  intros Hn. pose proof (desc_max_read _ Hdesc) as Hr. pose proof (desc_max_write _ Hdesc) as Hw.
  unfold spi_mem_adjust_op_size, read_op, with_nbytes. rewrite (desc_addr _ Hdesc). cbn.
  replace (nonzero (max_write_size nor) && (max_write_size nor <? 1 + 3 + 1)) with false.
  2:{ symmetry. apply andb_false_iff. destruct Hw as [->|Hw]; [by left|right; lia]. }
  destruct (nonzero (max_read_size nor)) eqn:Hz; cbn.
  - apply nonzero_true in Hz. rewrite (proj2 (Z.eqb_neq (Z.min n _) 0)) by lia.
    eexists. split; [done|lia].
  - rewrite (proj2 (Z.eqb_neq n 0)) by lia. eexists. split; [done|lia].
Qed.

Lemma wp_exec_read a n buf (w : world HW) (Q : Z * list Z → world HW → Prop) :
  fits a n → 0 < n → n ≤ Z.of_nat (length buf) → busy (hw w) = 0%nat →
  (∀ h', settled (hw w) h' →
     Q (0, load_bytes a n (mem (hw w)) ++ drop (Z.to_nat n) buf) (with_hw h' w)) →
  wp (spi_mem_exec_op nor (read_op a n buf)) Q w.
Proof using Hchip Hdesc.
  intros Hfit Hn Hbuf Hb HQ. apply wp_exec_op.
  { unfold spi_mem_supports_op, spi_mem_default_supports_op, read_op. cbn.
    rewrite (desc_addr _ Hdesc). cbn. by destruct (nonzero n). }
  intros h1 (Hm1 & _ & Hb1 & _). cbn [data_nbytes read_op]. rewrite (proj2 (nonzero_true n)) by lia.
  cbv zeta. unfold read_op. rewrite header3. change (replicate (Z.to_nat 1) 0xff) with [0xff].
  pose proof (chip_begin Hchip (read_opcode nor :: addr3 a ++ [0xff]) h1) as Hs.
  destruct (spi_send _ _ h1) as [r h2]. destruct Hs as (-> & (Hm2 & _ & Hb2 & _) & Hp).
  split; [done|]. unfold spi_mem_data_phase. cbn [data_bytes data_dir data_nbytes].
  rewrite (proj2 (Nat.ltb_ge _ _)) by lia. apply wp_bind, wp_hw_call. cbn [hw with_hw].
  pose proof (chip_read Hchip a n h2 ) as Hrd. destruct (spi_receive n _ h2) as [[r bytes] h3].
  destruct Hrd as (-> & -> & Hm3 & Hb3); [done|done|congruence|]. cbn [fst snd].
  rewrite take_ge by (rewrite load_bytes_length; lia). rewrite load_bytes_length.
  apply wp_ret. split; [done|]. exists h3. split; [done|]. intros h4 (Hm4 & _ & Hb4 & _).
  rewrite (load_bytes_ext a n (mem h2) (mem (hw w))).
  2:{ intros x. by rewrite Hm2, Hm1. }
  apply HQ. split; [|congruence]. intros x. by rewrite Hm4, Hm3, Hm2, Hm1.
Qed.

Lemma wp_read_data_loop fuel a n m len done buf (w : world HW) (Q : Z * list Z → world HW → Prop) :
  (Z.to_nat n < fuel)%nat → fits a n → n ≤ Z.of_nat (length buf) → busy (hw w) = 0%nat →
  (∀ h', settled (hw w) h' →
     Q (sign 32 len, done ++ load_bytes a n (mem (hw w)) ++ drop (Z.to_nat n) buf) (with_hw h' w)) →
  wp (read_data_loop fuel nor (read_op a m buf) n len done) Q w.
Proof using Hchip Hdesc.
  pose proof (desc_size _ Hdesc) as Hsz.
  revert a n m done buf w. induction fuel as [|fuel IH]; intros a n m done buf w Hf Hfit Hbuf Hb HQ;
    [lia|].
  cbn [read_data_loop]. unfold fits in Hfit. destruct (nonzero n) eqn:Hz.
  2:{ apply nonzero_false in Hz. subst n. apply wp_ret. destruct w. by apply HQ. }
  apply nonzero_true in Hz. destruct (adjust_read a n m buf) as (c & -> & Hc); [lia|].
  cbn [nonzero negb Z.eqb]. apply wp_bind. apply wp_exec_read; [unfold fits; lia|lia|lia|done|].
  intros h1 [Hm1 Hb1]. cbn [nonzero negb Z.eqb data_nbytes read_op].
  assert (length (load_bytes a c (mem (hw w))) = Z.to_nat c) as Hl by apply load_bytes_length.
  rewrite take_app_length', drop_app_length' by done. rewrite wrap64_small by (cbn; lia).
  apply (IH (a + c) (n - c) c); cbn [hw with_hw]; [lia|unfold fits; lia| |done|].
  { rewrite length_drop. lia. }
  intros h2 [Hm2 Hb2].
  rewrite <- app_assoc, (app_assoc (load_bytes _ _ _)), drop_drop,
    (load_bytes_ext (a + c) (n - c) (mem h1) (mem (hw w))) by done.
  rewrite <- load_bytes_app by lia. rewrite with_hw_twice.
  replace (c + (n - c)) with n by lia. replace (Z.to_nat c + Z.to_nat (n - c))%nat with (Z.to_nat n) by lia.
  apply HQ. split; [|done]. intros x. by rewrite Hm2.
Qed.

Lemma wp_spi_flash_read a n buf (w : world HW) (Q : Z * list Z → world HW → Prop) :
  fits a n → n ≤ Z.of_nat (length buf) → busy (hw w) = 0%nat →
  (∀ h', settled (hw w) h' →
     Q (0, load_bytes a n (mem (hw w)) ++ drop (Z.to_nat n) buf) (with_hw h' w)) →
  wp (spi_flash_read nor a n buf) Q w.
Proof using Hchip Hdesc.
  pose proof (desc_size _ Hdesc) as Hsz. intros Hfit Hbuf Hb HQ.
  unfold spi_flash_read, spi_flash_read_dm, spi_flash_std_read, spi_nor_read. unfold fits in Hfit.
  rewrite !wrap32_small by lia. cbn [read_loop]. destruct (nonzero n) eqn:Hz.
  2:{ apply nonzero_false in Hz. subst n. apply wp_ret. destruct w. by apply HQ. }
  apply nonzero_true in Hz. apply wp_bind. unfold spi_nor_read_data.
  rewrite (desc_read _ Hdesc), (desc_dummy _ Hdesc).
  apply (wp_read_data_loop _ a n); [lia|done|done|done|].
  intros h1 [Hm1 Hb1]. assert (sign 32 n = n) as ->.
  { unfold sign. rewrite Z.mod_small by lia. by rewrite (proj2 (Z.ltb_lt _ _)) by lia. }
  rewrite (proj2 (Z.eqb_neq n 0)), (proj2 (Z.ltb_ge n 0)) by lia. rewrite Z.sub_diag.
  cbn [app]. assert (length (load_bytes a n (mem (hw w))) = Z.to_nat n) as Hl
    by apply load_bytes_length.
  rewrite take_app_length', drop_app_length' by done.
  destruct (Z.to_nat n) eqn:Hn; [lia|]. cbn [read_loop]. apply wp_ret. by apply HQ.
Qed.
(** * Writing *)

Lemma hweight_pow2 k : 0 ≤ k < 24 → generic_hweight32 (2 ^ k) = 1.
Proof.
  intros Hk. pose proof (forall_below 24 (λ k, generic_hweight32 (2 ^ k) = 1)) as H.
  apply H; [|lia]. by repeat constructor.
Qed.

Lemma wp_page_offset a (w : world HW) (Q : Z → world HW → Prop) :
  Q (a mod page_size nor) w → wp (page_offset nor a) Q w.
Proof using Hdesc.
  intros HQ. unfold page_offset. destruct (desc_page _ Hdesc) as (k & Hk & Hp). rewrite Hp in *.
  rewrite hweight_pow2 by done. cbn [Z.eqb Pos.eqb]. apply wp_ret.
  rewrite Z.sub_1_r, <- Z.ones_equiv, Z.land_ones by lia. done.
Qed.

(** The operation [spi_nor_write_data] sends. *)
Definition write_op (a n : Z) (buf : list Z) : spi_mem_op :=
  mkOp 1 (program_opcode nor) (addr_width nor) 1 a 0 0 1 SPI_MEM_DATA_OUT n buf.

Lemma adjust_write a n buf :
  0 < n → ∃ c, spi_mem_adjust_op_size nor (write_op a n buf) = (0, write_op a c buf) ∧ 1 ≤ c ≤ n.
Proof using Hdesc.
  intros Hn. pose proof (desc_max_write _ Hdesc) as Hw.
  unfold spi_mem_adjust_op_size, write_op, with_nbytes. rewrite (desc_addr _ Hdesc). cbn.
  replace (nonzero (max_write_size nor) && (max_write_size nor <? 1 + 3 + 0)) with false.
  2:{ symmetry. apply andb_false_iff. destruct Hw as [->|Hw]; [by left|right; lia]. }
  destruct (nonzero (max_write_size nor)) eqn:Hz; cbn.
  - apply nonzero_true in Hz. rewrite (proj2 (Z.eqb_neq (Z.min n _) 0)) by lia.
    eexists. split; [done|lia].
  - rewrite (proj2 (Z.eqb_neq n 0)) by lia. eexists. split; [done|lia].
Qed.

(** One program operation: [c] bytes, at least one. *)
Lemma wp_write_data a n buf (w : world HW) (Q : Z → world HW → Prop) :
  fits a n → 0 < n → n ≤ Z.of_nat (length buf) → a mod page_size nor + n ≤ page_size nor →
  busy (hw w) = 0%nat → wel (hw w) = true →
  (∀ c h', 1 ≤ c ≤ n →
     (∀ x, mem h' x = store_bytes program a (take (Z.to_nat c) buf) (mem (hw w)) x) →
     Z.of_nat (busy h') ≤ 6000 → Q c (with_hw h' w)) →
  wp (spi_nor_write_data nor a n buf) Q w.
Proof using Hchip Hdesc.
  pose proof (desc_size _ Hdesc) as Hsz.
  intros Hfit Hn Hbuf Hpg Hb Hw HQ. unfold spi_nor_write_data.
  rewrite (desc_write _ Hdesc), (proj2 (Z.eqb_neq _ _) (desc_aai _ Hdesc)). cbn [andb].
  destruct (adjust_write a n buf Hn) as (c & Hadj & Hc). unfold write_op in Hadj at 1.
  change (spi_nor_get_protocol_inst_nbits 0x010101) with 1.
  change (spi_nor_get_protocol_addr_nbits 0x010101) with 1.
  change (spi_nor_get_protocol_data_nbits 0x010101) with 1.
  rewrite Hadj. cbn [nonzero negb Z.eqb data_nbytes write_op].
  replace (if n <? c then n else c) with c by (destruct (Z.ltb_spec n c); lia).
  unfold fits in Hfit. apply wp_bind, wp_exec_op.
  { unfold spi_mem_supports_op, spi_mem_default_supports_op, write_op. cbn.
    rewrite (desc_addr _ Hdesc). cbn. by destruct (nonzero c). }
  intros h1 (Hm1 & Hw1 & Hb1 & _). cbn [data_nbytes write_op with_nbytes].
  rewrite (proj2 (nonzero_true c)) by lia. cbv zeta. unfold with_nbytes, write_op. cbn [cmd_buswidth
    cmd_opcode addr_nbytes addr_buswidth addr_val dummy_nbytes dummy_buswidth data_buswidth data_dir
    data_bytes]. rewrite header3. cbn [Z.to_nat replicate]. rewrite app_nil_r.
  pose proof (chip_begin Hchip (program_opcode nor :: addr3 a) h1) as Hs.
  destruct (spi_send _ _ h1) as [r h2]. destruct Hs as (-> & (Hm2 & Hw2 & Hb2 & _) & Hp).
  split; [done|]. unfold spi_mem_data_phase. cbn [data_bytes data_dir data_nbytes].
  rewrite (proj2 (Nat.ltb_ge _ _)) by lia. apply wp_bind, wp_hw_call. cbn [hw with_hw].
  pose proof (chip_program Hchip a (take (Z.to_nat c) buf) h2) as Hpr.
  destruct (spi_send _ _ h2) as [r h3].
  assert (Z.of_nat (length (take (Z.to_nat c) buf)) = c) as Hl by (rewrite length_take; lia).
  rewrite Hl in Hpr. destruct Hpr as (-> & Hm3 & Hb3 & _);
    [done|unfold fits; lia|lia|congruence|congruence|]. cbn [fst snd].
  apply wp_ret. split; [done|]. exists h3. split; [done|]. intros h4 (Hm4 & _ & Hb4 & _).
  cbn [nonzero negb Z.eqb]. apply wp_ret.
  replace (sign 32 c) with c.
  2:{ unfold sign. rewrite Z.mod_small by lia. by rewrite (proj2 (Z.ltb_lt _ _)) by lia. }
  apply HQ; [done| |congruence]. intros x. rewrite Hm4, Hm3. apply store_bytes_ext.
  intros y. by rewrite Hm2.
Qed.
Lemma wp_write_loop fuel to i len buf r0 (w : world HW) (Q : Z → world HW → Prop) :
  (Z.to_nat (len - i) < fuel)%nat → 0 ≤ i ≤ len → fits to len → len ≤ Z.of_nat (length buf) →
  busy (hw w) = 0%nat → (i = len → r0 = 0) →
  (∀ h', busy h' = 0%nat →
     (∀ x, mem h' x = store_bytes program (to + i)
                        (take (Z.to_nat (len - i)) (drop (Z.to_nat i) buf)) (mem (hw w)) x) →
     Q 0 (with_hw h' w)) →
  wp (write_loop fuel nor to i len buf r0) Q w.
Proof using Hchip Hdesc.
  pose proof (desc_size _ Hdesc) as Hsz. destruct (desc_page _ Hdesc) as (k & Hk & Hpage).
  assert (0 < page_size nor < 2 ^ 24) as Hps.
  { rewrite Hpage. pose proof (Z.pow_pos_nonneg 2 k). pose proof (Z.pow_lt_mono_r 2 k 24). lia. }
  revert i r0 w. induction fuel as [|fuel IH]; intros i r0 w Hf Hi Hfit Hbuf Hb Hr HQ; [lia|].
  cbn [write_loop]. unfold fits in Hfit. destruct (Z.ltb_spec i len) as [Hlt|Hge].
  2:{ rewrite Hr by lia. apply wp_ret. destruct w. apply HQ; [done|]. intros x.
      replace (len - i) with 0 by lia. cbn [Z.to_nat take]. by rewrite store_bytes_nil. }
  apply wp_bind, wp_page_offset. pose proof (Z.mod_pos_bound (to + i) (page_size nor)) as Hoff.
  rewrite wrap32_small by lia.
  set (off := (to + i) mod page_size nor) in *.
  apply wp_bind, wp_write_enable; [done|]. intros h1 [Hm1 Hb1] Hw1.
  apply wp_bind, wp_write_data; cbn [hw with_hw]; [unfold fits; lia|lia| |fold off; lia|done|done|].
  { rewrite length_drop. lia. }
  intros c h2 Hc Hm2 Hb2. rewrite (proj2 (Z.ltb_ge c 0)) by lia.
  apply wp_bind, wp_wait_till_ready; [done|]. cbn [hw with_hw]. intros h3 [Hm3 Hb3].
  cbn [nonzero negb Z.eqb]. rewrite wrap32_small by lia.
  apply IH; cbn [hw with_hw]; [lia|lia|unfold fits; lia|done|done|lia|].
  intros h4 Hb4 Hm4. apply HQ; [done|]. intros x. rewrite Hm4.
  replace (Z.to_nat (len - i)) with (Z.to_nat c + Z.to_nat (len - (i + c)))%nat by lia.
  rewrite <- take_take_drop, drop_drop.
  replace (Z.to_nat i + Z.to_nat c)%nat with (Z.to_nat (i + c)) by lia.
  rewrite <- store_bytes_app. rewrite length_take, length_drop.
  replace (to + i + Z.of_nat (Z.to_nat c `min` (length buf - Z.to_nat i))%nat) with (to + (i + c)) by lia.
  apply store_bytes_ext. intros y. rewrite Hm3, Hm2. by apply store_bytes_ext.
Qed.

Lemma wp_spi_flash_write a n buf (w : world HW) (Q : Z → world HW → Prop) :
  fits a n → n ≤ Z.of_nat (length buf) → busy (hw w) = 0%nat →
  (∀ h', busy h' = 0%nat →
     (∀ x, mem h' x = store_bytes program a (take (Z.to_nat n) buf) (mem (hw w)) x) →
     Q 0 (with_hw h' w)) →
  wp (spi_flash_write nor a n buf) Q w.
Proof using Hchip Hdesc.
  pose proof (desc_size _ Hdesc) as Hsz. intros Hfit Hbuf Hb HQ.
  unfold spi_flash_write, spi_flash_write_dm, spi_flash_std_write, spi_nor_write. unfold fits in Hfit.
  rewrite !wrap32_small by lia. destruct (Z.eqb_spec n 0) as [->|Hn].
  { apply wp_ret. destruct w. apply HQ; [done|]. intros x. by rewrite store_bytes_nil. }
  apply wp_write_loop; [lia|lia|done|done|done|lia|].
  rewrite Z.add_0_r, Z.sub_0_r. cbn [Z.to_nat]. rewrite drop_0. exact HQ.
Qed.
(** Erase, write and read of a region. *)
Definition rewrite_region (a n : Z) (data buf : list Z) : M (world HW) (Z * Z * Z * list Z) :=
  e ← spi_flash_erase nor a n;
  r ← spi_flash_write nor a n data;
  '(c, buf) ← spi_flash_read nor a n buf;
  mret (e, r, c, buf).

(** C14. On a chip whose erased cells take any byte, erasing a region of whole
    sectors, writing it (page by page, each page behind its write enable and
    polled until the chip is ready) and reading it back succeed, give the
    data written, and change no cell outside the region and nothing of the
    program's state. *)
Theorem nor_rewrite_roundtrip a n data buf (w : world HW) :
  (∀ x b d, 0 ≤ d < 256 → program x (erase_to x b) d = d) →
  fits a n → a mod erasesize nor = 0 → n mod erasesize nor = 0 → busy (hw w) = 0%nat →
  Z.of_nat (length data) = n → Z.of_nat (length buf) = n → Forall (λ d, 0 ≤ d < 256) data →
  ∃ h', rewrite_region a n data buf w = Ret (0, 0, 0, data) (with_hw h' w) ∧
    ∀ x, x < a ∨ a + n ≤ x → mem h' x = mem (hw w) x.
Proof using Hchip Hdesc.
  intros Hgood Hfit Hal Haln Hb Hdata Hbuf Hbytes.
  assert (wp (rewrite_region a n data buf) (λ r w', r = (0, 0, 0, data) ∧
    ∃ h', w' = with_hw h' w ∧ ∀ x, x < a ∨ a + n ≤ x → mem h' x = mem (hw w) x) w)
    as (r & w' & H & -> & h' & -> & Hm)%wp_run; [|by exists h'].
  unfold rewrite_region. apply wp_bind, wp_spi_nor_erase; [done..|]. intros h1 Hm1 Hb1.
  apply wp_bind, wp_spi_flash_write; [done|lia|done|]. cbn [hw with_hw]. intros h2 Hb2 Hm2.
  apply wp_bind, wp_spi_flash_read; [done|lia|done|]. cbn [hw with_hw]. intros h3 [Hm3 Hb3].
  apply wp_ret. rewrite !with_hw_twice, take_ge in * by lia.
  rewrite drop_ge, app_nil_r by lia. split.
  - f_equal. apply list_eq. intros i. unfold load_bytes. rewrite list_lookup_fmap.
    destruct (decide (i < length data)%nat) as [Hi|Hi].
    + rewrite lookup_seq_lt by lia. cbn [fmap option_fmap option_map].
      destruct (lookup_lt_is_Some_2 data i Hi) as [d Hd]. rewrite Hd. f_equal.
      rewrite Hm2. unfold store_bytes. rewrite (proj2 (Z.leb_le _ _)) by lia.
      replace (Z.to_nat (a + Z.of_nat (0 + i) - a)) with i by lia. rewrite Hd.
      rewrite Hm1. unfold erase_cells.
      rewrite (proj2 (Z.leb_le _ _)), (proj2 (Z.ltb_lt _ _)) by lia. cbn [andb]. apply Hgood.
      by eapply (Forall_lookup_1 (λ d, 0 ≤ d < 256)).
    + rewrite lookup_seq_ge by lia. symmetry. by apply lookup_ge_None_2, not_lt.
  - exists h3. split; [done|]. intros x Hx. rewrite Hm3, Hm2. unfold store_bytes.
    assert (mem h1 x = mem (hw w) x) as <-.
    { rewrite Hm1. unfold erase_cells. by destruct (Z.leb_spec a x), (Z.ltb_spec x (a + n)); try lia. }
    destruct (Z.leb_spec a x); [|done]. by rewrite (lookup_ge_None_2 data) by lia.
Qed.
End chip.

(** * A simulated chip *)

Module NorSim.

(** The W25Q32 as the driver describes it: 4 MiB in 4 KiB sectors and
    256-byte pages. *)
Definition w25q32 : spi_nor :=
  mkSpiNor (4 * 2 ^ 20) 4096 256 3 0x0b 8 0x02 0x20 0x010101 0x010101 0 false 0 0 0.

Record sim := mkSim {
  s_mem : Z → Z;
  s_wel : bool;
  s_pending : list Z;
  s_busy : nat;
}.

Definition addr_of (a2 a1 a0 : Z) : Z := a2 * 2 ^ 16 + a1 * 2 ^ 8 + a0.

Section sim.
Context (program : Z → Z → Z → Z) (erase_to : Z → Z → Z).

(** A command without data. *)
Definition command (hdr : list Z) (h : sim) : sim :=
  let ready := (s_busy h =? 0)%nat in
  match hdr with
  | [op] =>
      if op =? SPINOR_OP_WREN then mkSim (s_mem h) (ready || s_wel h) hdr (s_busy h)
      else if op =? SPINOR_OP_WRDI then mkSim (s_mem h) (negb ready && s_wel h) hdr (s_busy h)
      else h
  | [op; a2; a1; a0] =>
      if (op =? erase_opcode w25q32) && ready && s_wel h
      then mkSim (erase_cells erase_to (addr_of a2 a1 a0) (erasesize w25q32) (s_mem h)) false hdr 3
      else h
  | _ => h
  end.

Definition send (bytes : list Z) (flags : Z) (h : sim) : Z * sim :=
  if flags =? SPI_XFER_BEGIN then (0, mkSim (s_mem h) (s_wel h) bytes (s_busy h))
  else if flags =? SPI_XFER_END then
    match s_pending h with
    | [op; a2; a1; a0] =>
        if (op =? program_opcode w25q32) && (s_busy h =? 0)%nat && s_wel h
        then (0, mkSim (store_bytes program (addr_of a2 a1 a0) bytes (s_mem h)) false [] 2)
        else (0, h)
    | _ => (0, h)
    end
  else (0, command bytes h).

Definition receive (n flags : Z) (h : sim) : (Z * list Z) * sim :=
  match s_pending h with
  | [op] =>
      (0, [if (s_busy h =? 0)%nat then 0 else 1], mkSim (s_mem h) (s_wel h) [] (pred (s_busy h)))
  | [op; a2; a1; a0; _] => (0, load_bytes (addr_of a2 a1 a0) n (s_mem h), h)
  | _ => (0, replicate (Z.to_nat n) 0xff, h)
  end.

#[local] Instance bus : SpiBus sim := {|
  spi_find_bus_and_cs _ _ h := (0, h);
  device_remove h := h;
  spi_get_bus_and_cs _ _ _ h := (EmptyString, inl w25q32, h);
  spi_claim_bus h := (0, h);
  spi_release_bus h := h;
  spi_send := send;
  spi_receive := receive;
|}.
#[local] Instance clock : Timer sim := {| get_timer b h := (wrap32 (0 - b), h) |}.

Lemma addr_of_addr3 a : 0 ≤ a < 2 ^ 24 → addr_of (wrap8 (Z.shiftr a 16)) (wrap8 (Z.shiftr a 8)) (wrap8 a) = a.
Proof.
  intros Ha. unfold addr_of, wrap8. rewrite !Z.shiftr_div_pow2 by lia.
  change (2 ^ 16) with 65536. change (2 ^ 8) with 256. lia.
Qed.

Lemma description : NorDescription w25q32.
Proof. split; try done; try (cbn; lia). by exists 8. Qed.

Lemma calm_refl h : calm s_mem s_wel s_busy (λ _, 0) 1 h h.
Proof. by unfold calm. Qed.

Lemma chip_ok : NorChip w25q32 s_mem s_wel s_pending s_busy (λ _, 0) program erase_to.
Proof.
  split.
  - intros h. split; [done|apply calm_refl].
  - intros h. apply calm_refl.
  - intros b h. split; [done|apply calm_refl].
  - intros hdr h. done.
  - intros h. cbn. split_and!; try done; try lia. intros Hb. unfold command. by rewrite Hb.
  - intros h. cbn. by split_and!; try done; try lia.
  - intros a h. cbn. intros [Ha Hs] _ Hb Hw. cbn in Hs. unfold command, addr3. rewrite Hb, Hw. cbn.
    rewrite addr_of_addr3 by lia. split; [done|]. unfold cycle. cbn. split_and!; try done; lia.
  - intros h. cbn. unfold receive. destruct (s_pending h) as [|op [|? ?]]; try done.
    2:{ by destruct l as [|? [|? [|? [|? ?]]]]. }
    intros _. exists (if (s_busy h =? 0)%nat then 0 else 1).
    destruct (s_busy h); cbn; split_and!; try done; lia.
  - intros a n h. cbn. destruct (receive n _ h) as [[r bytes] h'] eqn:Hr. intros Hp [Ha Hs] Hb.
    unfold receive in Hr. rewrite Hp in Hr. cbn in Hr. cbn in Hs.
    rewrite addr_of_addr3 in Hr by lia. by injection Hr as <- <- <-.
  - intros a data h. destruct (spi_send data _ h) as [r h'] eqn:Hr. intros Hp [Ha Hs] _ Hb Hw.
    cbn in Hr. rewrite Hp, Hb, Hw in Hr. cbn in Hr. cbn in Hs.
    rewrite addr_of_addr3 in Hr by lia. injection Hr as <- <-. split; [done|].
    unfold cycle. cbn. split_and!; try done; lia.
Qed.
End sim.

Definition blank : world sim := boot_world (mkSim (λ _, 0x5a) false [] 0).
End NorSim.

Lemma nor_rewrite_roundtrip_witness :
  ∃ h', @rewrite_region _ (NorSim.bus (λ _ o b, Z.land o b) (λ _ _, 0xff)) NorSim.clock NorSim.w25q32 8192 4096
          (replicate (Z.to_nat 4096) 0x17) (replicate (Z.to_nat 4096) 0) NorSim.blank
        = Ret (0, 0, 0, replicate (Z.to_nat 4096) 0x17) (with_hw h' NorSim.blank) ∧
    ∀ x, x < 8192 ∨ 8192 + 4096 ≤ x → NorSim.s_mem h' x = 0x5a.
Proof.
  apply (@nor_rewrite_roundtrip _ (NorSim.bus (λ _ o b, Z.land o b) (λ _ _, 0xff)) NorSim.clock NorSim.w25q32
    NorSim.s_mem NorSim.s_wel NorSim.s_pending NorSim.s_busy (λ _, 0) (λ _ o b, Z.land o b)
    (λ _ _, 0xff) (NorSim.chip_ok _ _) NorSim.description 8192 4096); try done.
  - intros _ _ d Hd. rewrite Z.land_comm. change 0xff with (Z.ones 8).
    rewrite Z.land_ones by lia. apply Z.mod_small. lia.
  - apply Forall_replicate. lia.
Defined.
