(* ===== verification/NorFlash.v ===== *)
(** The NOR flash test: [testsuite/test_w25q32_norflash.c], built with
    [CONFIG_DM_SPI_FLASH]. *)

From S2P Require Import Prelude CLib Vsprintf VsprintfFacts Machine Events Memory MemoryFacts.
From S2P Require Import I2cUclass Eeprom SpiMem SpiNor SpiNorFacts.

Definition SPI_TEST_LEN : Z := 128 * 1024.
Definition SPI0_CLK_MODE0 : Z := 0x00000030.
Definition SPI0_D0_MODE0 : Z := 0x00000030.
Definition SPI0_D1_MODE0 : Z := 0x00000010.
Definition SPI0_CS0_MODE0 : Z := 0x00000010.
Definition SPI0_CLK_OFFSET : Z := 0x44e10950.
Definition SPI0_D0_OFFSET : Z := 0x44e10954.
Definition SPI0_D1_OFFSET : Z := 0x44e10958.
Definition SPI0_CS0_OFFSET : Z := 0x44e1095C.

Record A_NOR_Flash_test := mkNorArgs {
  nf_spi_bus_no : Z;
  nf_spi_cs_no : Z;
  nf_spi_offset : Z;
  nf_spi_len : Z;
}.

Section norflash.
Context {HW : Type} `{!MemBus HW} `{!SpiBus HW} `{!Timer HW}.
Notation M := (M (world HW)).

Definition nor_file : string := "../test-framework/testsuite/test_w25q32_norflash.c".

Definition set_flash (f : option spi_nor) : M unit :=
  modify (λ w, with_nor (mkNor f (data_test_buf1 (nor w)) (data_test_buf2 (nor w))) w).
Definition set_nor_buf1 (b : list Z) : M unit :=
  modify (λ w, with_nor (mkNor (flash (nor w)) b (data_test_buf2 (nor w))) w).
Definition set_nor_buf2 (b : list Z) : M unit :=
  modify (λ w, with_nor (mkNor (flash (nor w)) (data_test_buf1 (nor w)) b) w).

Definition spi_pin_mux_cfg : M unit :=
  _ ← writel SPI0_CLK_MODE0 SPI0_CLK_OFFSET;
  _ ← writel SPI0_D0_MODE0 SPI0_D0_OFFSET;
  _ ← writel SPI0_D1_MODE0 SPI0_D1_OFFSET;
  writel SPI0_CS0_MODE0 SPI0_CS0_OFFSET.

(** [printf(fmt, (size_t)spi_len, (u32)spi_offset, ret ? "ERROR" : "OK")] *)
Definition show_step (fmt : string) (spi_offset spi_len ret : Z) : M unit :=
  printf fmt [VInt spi_len; VInt spi_offset; VStr (Some (if nonzero ret then "ERROR" else "OK"))].

Definition read_fmt : string := "            SF: Read  %#x bytes from %#x : %s" +:+ newline.
Definition erase_fmt : string := "            SF: Erase %#x bytes from %#x : %s" +:+ newline.
Definition write_fmt : string := "            SF: Write %#x bytes from %#x : %s" +:+ newline.
Definition wipe_fmt : string := "            SF: Erase %#x bytes from %#x---- : %s" +:+ newline.

(** The steps of the test on an initialised flash; the code of the second
    read is overwritten by that of the last erase. *)
Definition spi_flash_erase_read_write (spi_offset spi_len : Z) : M Z :=
  f ← gets (λ w, flash (nor w));
  f ← deref f;
  if wrap32 (spi_offset + spi_len) >? nor_size f then
    _ ← printf ("            ERROR: attempting past flash size (%#x)" +:+ newline) [VInt (nor_size f)];
    mret (-1)
  else
    buf1 ← gets (λ w, data_test_buf1 (nor w));
    '(ret, buf1) ← spi_flash_read f spi_offset spi_len buf1;
    _ ← set_nor_buf1 buf1;
    _ ← show_step read_fmt spi_offset spi_len ret;
    if nonzero ret then mret (-1)
    else
      ret ← spi_flash_erase f spi_offset spi_len;
      _ ← show_step erase_fmt spi_offset spi_len ret;
      if nonzero ret then mret (-1)
      else
        buf1 ← gets (λ w, data_test_buf1 (nor w));
        ret ← spi_flash_write f spi_offset spi_len buf1;
        _ ← show_step write_fmt spi_offset spi_len ret;
        if nonzero ret then mret (-1)
        else
          buf2 ← gets (λ w, data_test_buf2 (nor w));
          '(ret, buf2) ← spi_flash_read f spi_offset spi_len buf2;
          _ ← set_nor_buf2 buf2;
          _ ← show_step read_fmt spi_offset spi_len ret;
          ret ← spi_flash_erase f spi_offset 0x400000;
          _ ← show_step wipe_fmt spi_offset spi_len ret;
          if nonzero ret then mret (-1)
          else
            buf1 ← gets (λ w, data_test_buf1 (nor w));
            buf2 ← gets (λ w, data_test_buf2 (nor w));
            match memcmp buf1 buf2 (Z.to_nat SPI_TEST_LEN) with
            | None => crash OUT_OF_BOUNDS
            | Some r => if nonzero r then mret (-1) else mret 0
            end.

Definition spi_nor_init (spi_bus_no spi_cs_no : Z) : M Z :=
  ret ← hw_call (spi_find_bus_and_cs spi_bus_no spi_cs_no);
  _ ← (if nonzero ret then mret tt else hw_do device_remove);
  _ ← set_flash None;
  _ ← printf "            " [];
  r ← spi_flash_probe_bus_cs spi_bus_no spi_cs_no;
  match r with
  | inr ret =>
      _ ← printf ("Failed to initialize SPI flash at %u:%u (error %d)" +:+ newline)
            [VInt spi_bus_no; VInt spi_cs_no; VInt ret];
      mret (-1)
  | inl new => _ ← set_flash (Some new); mret 0
  end.

Definition nor_failed (testId : Z) (a : A_NOR_Flash_test) : M TestResultTypes_e :=
  event ← Event_Init testId;
  _ ← ReportEvent (fill_event event DIAG_BUS_INIT_ERR_EVENT [nf_spi_bus_no a] "");
  _ ← spi_pin_mux_cfg;
  mret DIAG_TEST_RESULT_FAIL.

Definition NOR_Flash_test (testId : Z) (arg : option A_NOR_Flash_test) : M TestResultTypes_e :=
  match arg with
  | None => _ ← DEBUG_ASSERT nor_file 160; mret DIAG_TEST_RESULT_ABORTED
  | Some a =>
      if nf_spi_bus_no a =? 0 then
        _ ← spi_pin_mux_cfg;
        ret ← spi_nor_init (nf_spi_bus_no a) (nf_spi_cs_no a);
        if ret <? 0 then nor_failed testId a
        else
          ret ← spi_flash_erase_read_write (sign 32 (nf_spi_offset a)) (sign 32 (nf_spi_len a));
          if ret <? 0 then nor_failed testId a
          else
            _ ← printf newline [];
            mret DIAG_TEST_RESULT_PASS
      else
        _ ← printf ("Bus number not supported " +:+ newline) [];
        mret DIAG_TEST_RESULT_FAIL
  end.
End norflash.

(** * What the test finds out *)

Section verdict.
Context {HW : Type} `{!MemBus HW} `{!SpiBus HW} `{!Timer HW} (dev : spi_nor).
Context (mem : HW → Z → Z) (wel : HW → bool) (pending : HW → list Z) (busy : HW → nat) (now : HW → Z).
Context (program : Z → Z → Z → Z) (erase_to : Z → Z → Z).
Context (Hchip : NorChip dev mem wel pending busy now program erase_to) (Hdesc : NorDescription dev).
Notation world := (world HW).
Notation settled := (settled mem busy).

(** The board around the chip: writing pin registers and looking for the
    device leave the chip alone, and chip select [cs] of bus 0 finds it. *)
Record NorBoard (cs : Z) : Prop := {
  board_pins a v h : busy h = 0%nat → settled h (mem_write32 a v h);
  board_find h : busy h = 0%nat → settled h (spi_find_bus_and_cs 0 cs h).2;
  board_remove h : busy h = 0%nat → settled h (device_remove h);
  board_probe name h :
    let '(_, r, h') := spi_get_bus_and_cs 0 cs name h in
    busy h = 0%nat → r = inl dev ∧ settled h h';
}.
Context (cs : Z) (Hboard : NorBoard cs).

(** Cell by cell: is the byte there again after it was erased and written
    back? *)
Definition survives (off n : Z) (m : Z → Z) : bool :=
  forallb (λ k, let x := off + Z.of_nat k in program x (erase_to x (m x)) (m x) =? m x)
    (seq 0 (Z.to_nat n)).

(** The array once the region was erased and written back. *)
Definition rewritten (off n : Z) (m : Z → Z) : Z → Z :=
  store_bytes program off (load_bytes off n m) (erase_cells erase_to off n m).

Lemma rewritten_at off n m k :
  (k < Z.to_nat n)%nat → let x := off + Z.of_nat k in
  rewritten off n m x = program x (erase_to x (m x)) (m x).
Proof.
  intros Hk x. unfold rewritten, store_bytes, erase_cells, x, load_bytes.
  rewrite (proj2 (Z.leb_le off _)), (proj2 (Z.ltb_lt _ (off + n))) by lia. cbn [andb].
  rewrite list_lookup_fmap. replace (Z.to_nat (off + Z.of_nat k - off)) with k by lia.
  by rewrite lookup_seq_lt by done.
Qed.

Lemma survives_spec off n m :
  load_bytes off n (rewritten off n m) = load_bytes off n m ↔ survives off n m = true.
Proof.
  unfold survives. rewrite forallb_forall. split.
  - intros Heq k Hk%in_seq. apply (f_equal (.!! k)) in Heq. unfold load_bytes in Heq.
    rewrite !list_lookup_fmap, !lookup_seq_lt in Heq by lia. cbn in Heq. injection Heq as Heq.
    rewrite rewritten_at in Heq by lia. cbv zeta in Heq |- *. lia.
  - intros Hall. apply list_eq. intros k. unfold load_bytes. rewrite !list_lookup_fmap.
    destruct (decide (k < Z.to_nat n)%nat) as [Hk|Hk].
    + rewrite !lookup_seq_lt by lia. cbn. f_equal. rewrite rewritten_at by lia. cbv zeta.
      apply Z.eqb_eq, Hall, in_seq. lia.
    + by rewrite !lookup_seq_ge by lia.
Qed.

Lemma wp_spi_pin_mux (w : world) (Q : unit → world → Prop) :
  busy (hw w) = 0%nat → (∀ h', settled (hw w) h' → Q tt (with_hw h' w)) →
  wp spi_pin_mux_cfg Q w.
Proof using Hboard.
  intros Hb HQ. unfold spi_pin_mux_cfg, writel. wp_run. rewrite !with_hw_twice. apply HQ.
  cbn [hw with_hw].
  assert (∀ h a v, settled (hw w) h → settled (hw w) (mem_write32 a v h)) as Hs.
  { intros h a v [Hm Hb']. destruct (board_pins _ Hboard a v h Hb') as [Hm2 Hb2].
    split; [|done]. intros x. by rewrite Hm2. }
  by repeat apply Hs.
Qed.
Lemma probe_name : ∃ name n, snprintf 30 "spi_flash@%d:%d" [VInt 0; VInt cs] = Some (name, n).
Proof.
  unfold snprintf, vsnprintf, vsnprintf_internal.
  edestruct (format_accepts "spi_flash@%d:%d" [VInt 0; VInt cs]) as [out ->]; [done|]. by repeat eexists.
Qed.

Lemma wp_spi_nor_init (w : world) (Q : Z → world → Prop) :
  busy (hw w) = 0%nat →
  (∀ w', nor w' = mkNor (Some dev) (data_test_buf1 (nor w)) (data_test_buf2 (nor w)) →
     settled (hw w) (hw w') → Q 0 w') →
  wp (spi_nor_init 0 cs) Q w.
Proof using Hboard.
  intros Hb HQ. unfold spi_nor_init. apply wp_bind, wp_hw_call.
  pose proof (board_find _ Hboard (hw w) Hb) as [Hm1 Hb1].
  destruct (spi_find_bus_and_cs 0 cs (hw w)) as [ret h1]. cbn [fst snd] in *.
  apply wp_bind.
  assert (wp (if nonzero ret then mret tt else hw_do device_remove)
    (λ _ w2, ∃ h2, w2 = with_hw h2 w ∧ settled (hw w) h2) (with_hw h1 w)) as Hrm.
  { destruct (nonzero ret).
    - apply wp_ret. by exists h1.
    - apply wp_hw_do. cbn [hw with_hw]. destruct (board_remove _ Hboard h1 Hb1) as [Hm2 Hb2].
      eexists. split; [done|]. split; [|done]. intros x. by rewrite Hm2. }
  eapply wp_mono; [exact Hrm|]. intros _ w2 (h2 & -> & Hm2 & Hb2). unfold set_flash. wp_run.
  unfold spi_flash_probe_bus_cs. destruct probe_name as (name & k & ->). wp_run.
  cbn [hw with_hw with_nor with_console emit].
  pose proof (board_probe _ Hboard name h2) as Hpr.
  destruct (spi_get_bus_and_cs 0 cs name h2) as [[text r] h3]. cbn [fst snd].
  destruct Hpr as [-> [Hm3 Hb3]]; [done|]. wp_run. apply HQ; [done|]. split; [|done].
  intros x. cbn. by rewrite Hm3, Hm2.
Qed.
Lemma survives_ext off n m m' : (∀ x, m x = m' x) → survives off n m = survives off n m'.
Proof.
  intros H. unfold survives. induction (seq 0 (Z.to_nat n)) as [|k l IH]; [done|].
  cbn [forallb]. by rewrite IH, !H.
Qed.

Lemma rewritten_ext off n m m' x : (∀ x, m x = m' x) → rewritten off n m x = rewritten off n m' x.
Proof.
  intros H. unfold rewritten. rewrite (load_bytes_ext off n m m' H).
  apply store_bytes_ext. intros y. by apply erase_cells_ext.
Qed.

(** The region the test works on, and the 4 MiB it erases in the end. *)
Definition region_ok (off : Z) : Prop :=
  0 ≤ off ∧ off + 0x400000 ≤ nor_size dev ∧ off mod erasesize dev = 0 ∧
  SPI_TEST_LEN mod erasesize dev = 0 ∧ 0x400000 mod erasesize dev = 0.

Definition nor_buffers_ok (w : world) : Prop :=
  Z.of_nat (length (data_test_buf1 (nor w))) = SPI_TEST_LEN ∧
  Z.of_nat (length (data_test_buf2 (nor w))) = SPI_TEST_LEN.

(** What is left of the array. *)
Definition wiped (off : Z) (m : Z → Z) : Z → Z :=
  erase_cells erase_to off 0x400000 (rewritten off SPI_TEST_LEN m).

Lemma wp_show_step fmt off len r (w : world) (Q : unit → world → Prop) :
  In fmt [read_fmt; erase_fmt; write_fmt; wipe_fmt] →
  (∀ s, Q tt (emit s w)) → wp (show_step fmt off len r) Q w.
Proof.
  intros Hin HQ. apply wp_printf; [|done].
  by destruct Hin as [<-|[<-|[<-|[<-|[]]]]].
Qed.

(** The comparison at the end. *)
Lemma wp_compare off m m' (w : world) (Q : Z → world → Prop) :
  (∀ x, m' x = rewritten off SPI_TEST_LEN m x) →
  Q (if survives off SPI_TEST_LEN m then 0 else -1) w →
  wp (match memcmp (load_bytes off SPI_TEST_LEN m) (load_bytes off SPI_TEST_LEN m')
              (Z.to_nat SPI_TEST_LEN) with
      | None => crash OUT_OF_BOUNDS
      | Some r => if nonzero r then mret (-1) else mret 0
      end) Q w.
Proof.
  intros Hm HQ. rewrite (load_bytes_ext off SPI_TEST_LEN m' _ Hm).
  destruct (memcmp_zero (load_bytes off SPI_TEST_LEN m)
    (load_bytes off SPI_TEST_LEN (rewritten off SPI_TEST_LEN m)) (Z.to_nat SPI_TEST_LEN))
    as (r & -> & Hr); [by rewrite load_bytes_length..|].
  rewrite !take_ge in Hr by (by rewrite load_bytes_length).
  assert (r = 0 ↔ survives off SPI_TEST_LEN m = true) as Hs.
  { rewrite Hr, <- survives_spec. split; intros Heq; symmetry; exact Heq. }
  destruct (nonzero r) eqn:Hz; apply wp_ret.
  - apply nonzero_true in Hz. destruct (survives _ _ _); [by destruct Hz; apply Hs|done].
  - apply nonzero_false, Hs in Hz. by rewrite Hz in HQ.
Qed.

Ltac shown := apply wp_bind, wp_show_step; [cbn; tauto|]; intros ?; cbn [nonzero negb Z.eqb].
Ltac look := cbn [nor hw with_hw with_nor with_console emit data_test_buf1 data_test_buf2] in *.

Lemma wp_erase_read_write off (w : world) (Q : Z → world → Prop) :
  region_ok off → flash (nor w) = Some dev → nor_buffers_ok w → busy (hw w) = 0%nat →
  (∀ w', busy (hw w') = 0%nat → (∀ x, mem (hw w') x = wiped off (mem (hw w)) x) →
     Q (if survives off SPI_TEST_LEN (mem (hw w)) then 0 else -1) w') →
  wp (spi_flash_erase_read_write off SPI_TEST_LEN) Q w.
Proof using Hchip Hdesc.
  intros (Hoff & Hend & Hal & Hlen & Hwipe) Hflash [Hb1 Hb2] Hb HQ.
  pose proof (desc_size _ Hdesc) as Hsz. set (m := mem (hw w)) in *.
  assert (fits dev off SPI_TEST_LEN) as Hfit by (unfold fits, SPI_TEST_LEN; lia).
  unfold spi_flash_erase_read_write. apply wp_bind, wp_gets. rewrite Hflash.
  apply wp_bind, wp_deref. rewrite wrap32_small by (unfold SPI_TEST_LEN; lia).
  replace (off + SPI_TEST_LEN >? nor_size dev) with false by (unfold SPI_TEST_LEN; lia).
  apply wp_bind, wp_gets, wp_bind.
  eapply (wp_spi_flash_read _ _ _ _ _ _ _ _ Hchip Hdesc); [done|lia|done|].
  intros h1 [Hm1 Hi1]. rewrite drop_ge, app_nil_r by lia. fold m.
  apply wp_bind, wp_modify. shown. apply wp_bind.
  eapply (wp_spi_nor_erase _ _ _ _ _ _ _ _ Hchip Hdesc); [done..|].
  intros h2 Hm2 Hi2. shown. apply wp_bind, wp_gets, wp_bind. look.
  eapply (wp_spi_flash_write _ _ _ _ _ _ _ _ Hchip Hdesc);
    [done|by rewrite load_bytes_length; unfold SPI_TEST_LEN; lia|done|].
  intros h3 Hi3 Hm3. shown. apply wp_bind, wp_gets, wp_bind. look.
  eapply (wp_spi_flash_read _ _ _ _ _ _ _ _ Hchip Hdesc); [done|lia|done|].
  intros h4 [Hm4 Hi4]. rewrite drop_ge, app_nil_r by lia. apply wp_bind, wp_modify. shown.
  apply wp_bind. eapply (wp_spi_nor_erase _ _ _ _ _ _ _ _ Hchip Hdesc); [unfold fits; lia|done..|].
  intros h5 Hm5 Hi5. shown. apply wp_bind, wp_gets, wp_bind, wp_gets. look.
  assert (∀ x, mem h3 x = rewritten off SPI_TEST_LEN m x) as Hre.
  { intros x. rewrite Hm3, take_ge by (by rewrite load_bytes_length).
    apply store_bytes_ext. intros y. rewrite Hm2. by apply erase_cells_ext. }
  apply wp_compare; [exact Hre|]. apply HQ; [done|]. intros x. look.
  rewrite Hm5. apply erase_cells_ext. intros y. by rewrite Hm4, Hre.
Qed.

Definition nor_args (off : Z) : A_NOR_Flash_test := mkNorArgs 0 cs off SPI_TEST_LEN.

Lemma wp_NOR_Flash_test testId off (w : world) :
  region_ok off → nor_buffers_ok w → busy (hw w) = 0%nat →
  ∃ w', NOR_Flash_test testId (Some (nor_args off)) w
        = Ret (verdict (survives off SPI_TEST_LEN (mem (hw w)))) w' ∧
    ∀ x, mem (hw w') x = wiped off (mem (hw w)) x.
Proof using Hchip Hdesc Hboard.
  intros Hreg Hbuf Hb. pose proof (desc_size _ Hdesc) as Hsz. set (m := mem (hw w)).
  assert (wp (NOR_Flash_test testId (Some (nor_args off))) (λ r w',
    r = verdict (survives off SPI_TEST_LEN m) ∧ ∀ x, mem (hw w') x = wiped off m x) w)
    as (r & w' & H & -> & Hm)%wp_run; [|by exists w'].
  unfold NOR_Flash_test, nor_args. cbn [nf_spi_bus_no nf_spi_cs_no nf_spi_offset nf_spi_len Z.eqb].
  apply wp_bind, wp_spi_pin_mux; [done|]. intros h1 [Hm1 Hb1].
  apply wp_bind, wp_spi_nor_init; [done|]. cbn [nor hw with_hw]. intros w2 Hn2 [Hm2 Hb2].
  cbn [Z.ltb Z.compare]. destruct Hreg as (Hr1 & Hr2 & Hr3).
  replace (sign 32 off) with off.
  2:{ unfold sign. rewrite Z.mod_small by lia. by rewrite (proj2 (Z.ltb_lt _ _)) by lia. }
  change (sign 32 SPI_TEST_LEN) with SPI_TEST_LEN. apply wp_bind, wp_erase_read_write.
  { done. } { by rewrite Hn2. } { unfold nor_buffers_ok. by rewrite Hn2. } { done. }
  intros w3 Hb3 Hm3.
  assert (∀ x, mem (hw w2) x = m x) as Heq by (intros x; by rewrite Hm2, Hm1).
  assert (∀ x, mem (hw w3) x = wiped off m x) as Hw.
  { intros x. rewrite Hm3. apply erase_cells_ext. intros y. by apply rewritten_ext. }
  rewrite (survives_ext _ _ _ m Heq). destruct (survives off SPI_TEST_LEN m).
  - cbn [Z.ltb Z.compare]. wp_run. by split.
  - cbn [Z.ltb Z.compare]. unfold nor_failed. wp_run. apply wp_spi_pin_mux; [done|].
    intros h4 [Hm4 Hb4]. wp_run. split; [done|]. intros x. cbn [hw with_hw]. by rewrite Hm4.
Qed.
Lemma survives_intro off n m :
  (∀ x, program x (erase_to x (m x)) (m x) = m x) → survives off n m = true.
Proof. intros H. apply forallb_forall. intros k _. apply Z.eqb_eq, H. Qed.

(** C37. The NOR test on a present chip returns, passes exactly when every
    cell of the tested region holds its old byte again after being erased and
    written back, and in both cases ends by erasing 4 MiB from the offset. *)
Theorem nor_test_result testId off (w : world) :
  region_ok off → nor_buffers_ok w → busy (hw w) = 0%nat →
  ∃ w', NOR_Flash_test testId (Some (nor_args off)) w
        = Ret (verdict (survives off SPI_TEST_LEN (mem (hw w)))) w' ∧
    ∀ x, mem (hw w') x = wiped off (mem (hw w)) x.
Proof using Hchip Hdesc Hboard. apply wp_NOR_Flash_test. Qed.

(** On a healthy chip the test passes and the 4 MiB from the offset on
    are blank afterwards: what the flash stored is lost. *)
Theorem nor_test_wipes testId off (w : world) :
  (∀ x b, erase_to x b = 0xff) → (∀ x d, 0 ≤ d < 256 → program x 0xff d = d) →
  (∀ x, 0 ≤ mem (hw w) x < 256) →
  region_ok off → nor_buffers_ok w → busy (hw w) = 0%nat →
  ∃ w', NOR_Flash_test testId (Some (nor_args off)) w = Ret DIAG_TEST_RESULT_PASS w' ∧
    ∀ x, off ≤ x < off + 0x400000 → mem (hw w') x = 0xff.
Proof using Hchip Hdesc Hboard.
  intros He Hp Hbytes Hreg Hbuf Hb.
  destruct (wp_NOR_Flash_test testId off w Hreg Hbuf Hb) as (w' & -> & Hm).
  exists w'. rewrite survives_intro by (intros x; rewrite He; by apply Hp). split; [done|].
  intros x Hx. rewrite Hm. unfold wiped, erase_cells at 1.
  rewrite (proj2 (Z.leb_le _ _)), (proj2 (Z.ltb_lt _ _)) by lia. apply He.
Qed.

(** A chip that ignores every erase and every write passes the test. *)
Theorem nor_test_blind testId off (w : world) :
  (∀ x b, erase_to x b = b) → (∀ x b d, program x b d = b) →
  region_ok off → nor_buffers_ok w → busy (hw w) = 0%nat →
  ∃ w', NOR_Flash_test testId (Some (nor_args off)) w = Ret DIAG_TEST_RESULT_PASS w'.
Proof using Hchip Hdesc Hboard.
  intros He Hp Hreg Hbuf Hb.
  destruct (wp_NOR_Flash_test testId off w Hreg Hbuf Hb) as (w' & -> & _).
  exists w'. by rewrite survives_intro by (intros x; by rewrite Hp, He).
Qed.
End verdict.

(** * The simulated board *)

Module NorFlashSim.
Import NorSim.

(** The pin registers are not in the chip. *)
#[local] Instance pins : MemBus sim := {|
  mem_read32 _ h := (0, h);
  mem_write32 _ _ h := h;
  flush_dcache_all h := h;
|}.

Lemma board_ok program erase_to cs : @NorBoard sim pins (bus program erase_to) w25q32 s_mem s_busy cs.
Proof. by split. Qed.

Lemma region0 : region_ok w25q32 0.
Proof. by unfold region_ok. Qed.

Definition start : world sim :=
  with_nor (mkNor None (replicate (Z.to_nat SPI_TEST_LEN) 0) (replicate (Z.to_nat SPI_TEST_LEN) 0)) blank.

Lemma nor_start_ok : nor_buffers_ok start.
Proof.
  unfold nor_buffers_ok, start. cbn [nor with_nor data_test_buf1 data_test_buf2].
  by rewrite !length_replicate, Z2Nat.id.
Qed.
End NorFlashSim.

(** A chip with a cell, at 5, that stays 0. *)
Definition stuck_cell (x o b : Z) : Z := if x =? 5 then 0 else Z.land o b.

Lemma stuck_cell_found n : 5 < n → survives stuck_cell (λ _ _, 0xff) 0 n (λ _, 0x5a) = false.
Proof.
  intros Hn. apply not_true_iff_false. intros H. unfold survives in H. rewrite forallb_forall in H.
  specialize (H 5%nat). discriminate H. apply in_seq. lia.
Qed.

Lemma nor_test_result_witness :
  ∃ w', @NOR_Flash_test _ NorFlashSim.pins (NorSim.bus stuck_cell (λ _ _, 0xff)) NorSim.clock 7
          (Some (nor_args 0 0)) NorFlashSim.start = Ret DIAG_TEST_RESULT_FAIL w' ∧
    ∀ x, NorSim.s_mem (hw w') x = wiped stuck_cell (λ _ _, 0xff) 0 (λ _, 0x5a) x.
Proof.
  rewrite <- (f_equal verdict (stuck_cell_found SPI_TEST_LEN eq_refl) : _ = DIAG_TEST_RESULT_FAIL).
  apply (@nor_test_result _ NorFlashSim.pins (NorSim.bus stuck_cell (λ _ _, 0xff)) NorSim.clock _ _ _ _ _ _
    _ _ (NorSim.chip_ok _ _) NorSim.description 0 (NorFlashSim.board_ok _ _ _) 7 0 NorFlashSim.start);
    [apply NorFlashSim.region0|apply NorFlashSim.nor_start_ok|done].
Defined.

Lemma nor_test_wipes_witness :
  ∃ w', @NOR_Flash_test _ NorFlashSim.pins (NorSim.bus (λ _ o b, Z.land o b) (λ _ _, 0xff)) NorSim.clock 7
          (Some (nor_args 0 0)) NorFlashSim.start = Ret DIAG_TEST_RESULT_PASS w' ∧
    ∀ x, 0 ≤ x < 0 + 0x400000 → NorSim.s_mem (hw w') x = 0xff.
Proof.
  apply (@nor_test_wipes _ NorFlashSim.pins (NorSim.bus (λ _ o b, Z.land o b) (λ _ _, 0xff)) NorSim.clock _ _ _ _ _ _
    _ _ (NorSim.chip_ok _ _) NorSim.description 0 (NorFlashSim.board_ok _ _ _) 7 0 NorFlashSim.start);
    [done| |done|apply NorFlashSim.region0|apply NorFlashSim.nor_start_ok|done].
  intros _ d Hd. rewrite Z.land_comm. change 0xff with (Z.ones 8). rewrite Z.land_ones by lia.
  apply Z.mod_small. lia.
Defined.

Lemma nor_test_blind_witness :
  ∃ w', @NOR_Flash_test _ NorFlashSim.pins (NorSim.bus (λ _ o _, o) (λ _ o, o)) NorSim.clock 7
          (Some (nor_args 0 0)) NorFlashSim.start = Ret DIAG_TEST_RESULT_PASS w'.
Proof.
  apply (@nor_test_blind _ NorFlashSim.pins (NorSim.bus (λ _ o _, o) (λ _ o, o)) NorSim.clock _ _ _ _ _ _
    _ _ (NorSim.chip_ok _ _) NorSim.description 0 (NorFlashSim.board_ok _ _ _) 7 0 NorFlashSim.start);
    [done|done|apply NorFlashSim.region0|apply NorFlashSim.nor_start_ok|done].
Defined.
