(* ===== verification/QSort.v ===== *)
(** [qsort] of [lib/qsort.c], a Shell sort with the gaps 1, 4, 13, ...: it
    sorts, and the result is a permutation.  Offsets are counted in elements,
    a swap of two elements of [width] bytes being one step. *)

From stdpp Require Import sorting.
From S2P Require Import Prelude.

Section qsort.
Context {A : Type} (comp : A → A → Z).

(** The inner loop: the element at [j] moves down in steps of [gap].  [None]
    is an access outside the array or a bound that is too small. *)
Fixpoint sift (fuel : nat) (gap j : nat) (base : list A) : option (list A) :=
  match fuel with
  | O => None
  | S fuel' =>
      let j := (j - gap)%nat in
      a ← base !! j;
      b ← base !! (j + gap)%nat;
      if comp a b <=? 0 then Some base
      else
        let base := <[(j + gap)%nat := a]> (<[j := b]> base) in
        if (gap <=? j)%nat then sift fuel' gap j base else Some base
  end.

Fixpoint sort_pass (fuel : nat) (gap i nel : nat) (base : list A) : option (list A) :=
  match fuel with
  | O => None
  | S fuel' =>
      base ← sift nel gap i base;
      let i := S i in
      if (i <? nel)%nat then sort_pass fuel' gap i nel base else Some base
  end.

Fixpoint sort_gaps (fuel : nat) (gap nel : nat) (base : list A) : option (list A) :=
  match fuel with
  | O => None
  | S fuel' =>
      base ← sort_pass nel gap gap nel base;
      let gap := ((gap - 1) / 3)%nat in
      if (gap =? 0)%nat then Some base else sort_gaps fuel' gap nel base
  end.

Fixpoint first_gap (fuel : nat) (gap nel : nat) : option nat :=
  match fuel with
  | O => None
  | S fuel' =>
      let gap := (3 * gap + 1)%nat in
      if (gap <? (nel - 1) / 3)%nat then first_gap fuel' gap nel else Some gap
  end.

Definition qsort (base : list A) : option (list A) :=
  let nel := length base in
  if (1 <? nel)%nat then
    wgap ← first_gap nel 0 nel;
    sort_gaps nel wgap nel base
  else Some base.

(** * Permutation *)

Lemma swap_perm (l : list A) i j a b :
  l !! i = Some a → l !! j = Some b → i ≠ j → <[j := a]> (<[i := b]> l) ≡ₚ l.
Proof.
  intros Ha Hb Hij. apply Permutation_inj. split; [by rewrite !length_insert|].
  exists (λ x, if decide (x = i) then j else if decide (x = j) then i else x). split.
  - intros x y. repeat case_decide; congruence.
  - intros x. pose proof (lookup_lt_Some _ _ _ Ha). pose proof (lookup_lt_Some _ _ _ Hb).
    destruct (decide (x = j)) as [->|Hj].
    + rewrite list_lookup_insert_eq by (by rewrite length_insert). repeat case_decide; congruence.
    + rewrite list_lookup_insert_ne by done. destruct (decide (x = i)) as [->|Hi].
      * rewrite list_lookup_insert_eq by done. repeat case_decide; congruence.
      * rewrite list_lookup_insert_ne by done. repeat case_decide; congruence.
Qed.

Lemma sift_spec fuel gap j l :
  (0 < gap)%nat → (gap ≤ j)%nat → (j < length l)%nat → (j < fuel)%nat →
  ∃ l', sift fuel gap j l = Some l' ∧ l' ≡ₚ l.
Proof.
  revert j l. induction fuel as [|fuel IH]; intros j l Hg Hj Hl Hf; [lia|]. simpl.
  destruct (lookup_lt_is_Some_2 l (j - gap)) as [a Ha]; [lia|].
  destruct (lookup_lt_is_Some_2 l (j - gap + gap)) as [b Hb]; [lia|].
  rewrite Ha, Hb. simpl. destruct (comp a b <=? 0); [by eauto|].
  pose proof (swap_perm l (j - gap) (j - gap + gap) a b Ha Hb ltac:(lia)) as Hs.
  destruct (gap <=? j - gap)%nat eqn:Hc; [|by eauto]. apply Nat.leb_le in Hc.
  destruct (IH (j - gap)%nat (<[(j - gap + gap)%nat := a]> (<[(j - gap)%nat := b]> l))) as (l' & H1 & H2);
    [lia|lia|rewrite !length_insert; lia|lia|].
  exists l'. split; [done|]. by etrans.
Qed.

Lemma sort_pass_spec fuel gap i l :
  (0 < gap)%nat → (gap ≤ i)%nat → (i < length l)%nat → (length l ≤ fuel + i)%nat →
  ∃ l', sort_pass fuel gap i (length l) l = Some l' ∧ l' ≡ₚ l.
Proof.
  revert i l. induction fuel as [|fuel IH]; intros i l Hg Hi Hl Hf; [lia|]. cbn [sort_pass].
  destruct (sift_spec (length l) gap i l) as (l1 & H1 & P1); [lia..|]. rewrite H1. cbn [mbind option_bind].
  destruct (S i <? length l)%nat eqn:Hc; [|by eauto]. apply Nat.ltb_lt in Hc.
  pose proof (Permutation_length P1) as Hlen. rewrite <- Hlen in *.
  destruct (IH (S i) l1) as (l2 & H2 & P2); [lia..|]. exists l2. split; [done|]. by etrans.
Qed.

Lemma sort_gaps_perm fuel gap l :
  (0 < gap < length l)%nat → (gap ≤ fuel)%nat →
  ∃ l', sort_gaps fuel gap (length l) l = Some l' ∧ l' ≡ₚ l.
Proof.
  revert gap l. induction fuel as [|fuel IH]; intros gap l Hg Hf; [lia|]. cbn [sort_gaps].
  destruct (sort_pass_spec (length l) gap gap l) as (l1 & H1 & P1); [lia..|]. rewrite H1.
  cbn [mbind option_bind]. destruct (_ =? 0)%nat eqn:Hc; [by eauto|]. apply Nat.eqb_neq in Hc.
  pose proof (Permutation_length P1) as Hlen. rewrite <- Hlen in *.
  pose proof (Nat.Div0.div_le_mono (gap - 1) (gap - 1) 3).
  assert ((gap - 1) / 3 ≤ gap - 1)%nat by (apply Nat.Div0.div_le_upper_bound; lia).
  destruct (IH ((gap - 1) / 3)%nat l1) as (l2 & H2 & P2); [lia..|]. exists l2. split; [done|]. by etrans.
Qed.

Lemma first_gap_spec fuel gap nel :
  (1 < nel)%nat → (gap = 0 ∨ gap < (nel - 1) / 3)%nat → (nel ≤ fuel + gap)%nat →
  ∃ g, first_gap fuel gap nel = Some g ∧ (0 < g < nel)%nat.
Proof.
  revert gap. induction fuel as [|fuel IH]; intros gap Hn Hg Hf.
  { assert ((nel - 1) / 3 ≤ nel - 1)%nat by (apply Nat.Div0.div_le_upper_bound; lia). lia. }
  cbn [first_gap]. destruct (_ <? _)%nat eqn:Hc.
  - apply Nat.ltb_lt in Hc. apply IH; [done|by right|lia].
  - eexists. split; [done|]. destruct Hg as [->|Hg]; [lia|].
    pose proof (Nat.Div0.mul_div_le (nel - 1) 3). lia.
Qed.

(** The sort ends and only reorders the array. *)
Lemma qsort_perm l : ∃ l', qsort l = Some l' ∧ l' ≡ₚ l.
Proof.
  unfold qsort. destruct (1 <? length l)%nat eqn:Hc; [|by eauto]. apply Nat.ltb_lt in Hc.
  destruct (first_gap_spec (length l) 0 (length l)) as (g & Hg & Hr); [lia|by left|lia|].
  rewrite Hg. cbn [mbind option_bind]. apply sort_gaps_perm; lia.
Qed.

(** * Order *)

Section order.
Context (P : A → Prop).
Context (comp_total : ∀ a b, P a → P b → comp a b ≤ 0 ∨ comp b a ≤ 0).
Context (comp_trans : ∀ a b c, P a → P b → P c → comp a b ≤ 0 → comp b c ≤ 0 → comp a c ≤ 0).

Definition ordered a b : Prop := comp a b ≤ 0.

(** With gap 1 the sift inserts an element into the sorted part before it. *)
Lemma sift_inserts fuel xs x ys :
  StronglySorted ordered xs → Forall P xs → P x → xs ≠ [] → (length xs < fuel)%nat →
  ∃ zs, sift fuel 1 (length xs) (xs ++ x :: ys) = Some (zs ++ ys) ∧ zs ≡ₚ xs ++ [x] ∧ StronglySorted ordered zs.
Proof using comp_total comp_trans.
  revert fuel x ys. induction xs as [|y xs IH] using rev_ind; intros fuel x ys Hs HP Hx Hne Hf; [done|].
  destruct fuel as [|fuel]; [lia|]. rewrite length_app in *. simpl in Hf |- *.
  apply Forall_app in HP as [HPx [HPy _]%Forall_cons].
  apply StronglySorted_app in Hs as (Hxy & Hxs & _).
  assert (∀ z, z ∈ xs → ordered z y) as Hy by (intros z Hz; apply Hxy; [done|by apply list_elem_of_singleton]).
  rewrite Nat.add_sub, <- app_assoc. simpl. rewrite (list_lookup_middle xs _ y _ eq_refl). simpl.
  rewrite (lookup_app_r xs), Nat.add_comm, Nat.add_sub by lia. simpl.
  destruct (comp y x <=? 0) eqn:Hc; [apply Z.leb_le in Hc|apply Z.leb_gt in Hc].
  - exists (xs ++ [y; x]). rewrite <- !app_assoc. split_and!; [done|done|].
    apply StronglySorted_app_2; [|done|by repeat constructor].
    intros z u Hz Hu. rewrite !elem_of_cons, elem_of_nil in Hu. rewrite Forall_forall in HPx.
    destruct Hu as [->|[->|[]]]; [by apply Hy|]. apply (comp_trans z y x); auto. by apply Hy.
  - assert (ordered x y) as Hxy' by (destruct (comp_total x y); [done..|lia]).
    assert (<[S (length xs) := y]> (<[length xs := x]> (xs ++ y :: x :: ys)) = xs ++ x :: y :: ys) as ->.
    { by rewrite insert_app_r_alt, Nat.sub_diag, insert_app_r_alt, Nat.sub_succ_l, Nat.sub_diag by lia. }
    assert (∀ zs, zs ≡ₚ xs ++ [x] → StronglySorted ordered zs → StronglySorted ordered (zs ++ [y])) as Hend.
    { intros zs Hz Hs. apply StronglySorted_app_2; [|done|by repeat constructor].
      intros z u Hzz ->%list_elem_of_singleton. rewrite Hz, elem_of_app, list_elem_of_singleton in Hzz.
      destruct Hzz as [?| ->]; [by apply Hy|done]. }
    assert (∀ zs, zs ≡ₚ xs ++ [x] → zs ++ [y] ≡ₚ (xs ++ [y]) ++ [x]) as Hperm.
    { intros zs ->. rewrite <- !app_assoc. simpl. by rewrite (Permutation_swap x y). }
    destruct (decide (xs = [])) as [->|Hxs0].
    + exists ([x] ++ [y]). split_and!; [done|by apply Hperm|]. apply Hend; [done|by repeat constructor].
    + destruct (length xs) as [|n] eqn:Hn; [by destruct xs|].
      destruct (IH fuel x (y :: ys)) as (zs & H1 & H2 & H3); [done..|lia|].
      exists (zs ++ [y]). rewrite <- app_assoc. split_and!; [exact H1|by apply Hperm|by apply Hend].
Qed.

Lemma pass_sorts fuel xs ys :
  StronglySorted ordered xs → Forall P (xs ++ ys) → xs ≠ [] → ys ≠ [] → (length ys ≤ fuel)%nat →
  ∃ l, sort_pass fuel 1 (length xs) (length (xs ++ ys)) (xs ++ ys) = Some l ∧ StronglySorted ordered l.
Proof using comp_total comp_trans.
  revert xs ys. induction fuel as [|fuel IH]; intros xs ys Hs HP Hxs Hys Hf.
  { destruct ys; [done|]. simpl in Hf. lia. }
  destruct ys as [|y ys]; [done|]. cbn [sort_pass].
  pose proof HP as [HPx [HPy HPys]%Forall_cons]%Forall_app.
  destruct (sift_inserts (length (xs ++ y :: ys)) xs y ys) as (zs & H1 & H2 & H3);
    [done..|rewrite length_app; simpl; lia|].
  rewrite H1. cbn [mbind option_bind].
  assert (length zs = S (length xs)) as Hz.
  { rewrite (Permutation_length H2), length_app. simpl. lia. }
  rewrite !length_app. simpl. destruct (_ <? _)%nat eqn:Hc.
  - destruct (IH zs ys) as (l & Hl1 & Hl2); try done.
    + apply Forall_app. split; [|done]. rewrite H2. apply Forall_app. by split; [|constructor].
    + by destruct zs.
    + apply Nat.ltb_lt in Hc. destruct ys; simpl in *; [lia|done].
    + simpl in Hf. lia.
    + exists l. split; [|done]. rewrite <- Hl1, Hz, length_app, Hz. f_equal. lia.
  - apply Nat.ltb_ge in Hc. destruct ys; simpl in *; [|lia]. exists zs. by rewrite app_nil_r.
Qed.

(** The gaps 0, 1, 4, 13, ... *)
Fixpoint gap_seq (k : nat) : nat := match k with O => 0 | S k => 3 * gap_seq k + 1 end.

Lemma first_gap_seq fuel k nel g : first_gap fuel (gap_seq k) nel = Some g → ∃ k', g = gap_seq (S k').
Proof.
  revert k. induction fuel as [|fuel IH]; intros k; [done|]. cbn [first_gap].
  change (3 * gap_seq k + 1)%nat with (gap_seq (S k)). destruct (_ <? _)%nat; [apply IH|].
  intros [= <-]. by exists k.
Qed.

Lemma gaps_sort fuel k l :
  (gap_seq (S k) < length l)%nat → (gap_seq (S k) ≤ fuel)%nat → Forall P l →
  ∃ l', sort_gaps fuel (gap_seq (S k)) (length l) l = Some l' ∧ StronglySorted ordered l'.
Proof using comp_total comp_trans.
  revert fuel l. induction k as [|k IH]; intros fuel l Hg Hf HP; (destruct fuel as [|fuel]; [simpl in *; lia|]).
  - destruct l as [|x l]; [simpl in *; lia|]. cbn [sort_gaps]. change (gap_seq 1) with (length [x]).
    destruct (pass_sorts (length (x :: l)) [x] l) as (l' & H1 & H2); try done.
    + by repeat constructor.
    + destruct l; [simpl in *; lia|done].
    + simpl. lia.
    + change (length ([x] ++ l)) with (length (x :: l)) in H1. change ([x] ++ l) with (x :: l) in H1.
      change (gap_seq 1) with 1%nat. change (length [x]) with 1%nat in *. rewrite H1. by exists l'.
  - cbn [sort_gaps]. destruct (sort_pass_spec (length l) (gap_seq (S (S k))) (gap_seq (S (S k))) l)
      as (l1 & H1 & H2); [simpl in *; lia..|]. rewrite H1. cbn [mbind option_bind].
    assert ((gap_seq (S (S k)) - 1) / 3 = gap_seq (S k))%nat as ->.
    { change (gap_seq (S (S k))) with (3 * gap_seq (S k) + 1)%nat.
      rewrite Nat.add_sub, Nat.mul_comm. by apply Nat.div_mul. }
    destruct (_ =? 0)%nat eqn:Hc; [apply Nat.eqb_eq in Hc; simpl in Hc; lia|].
    rewrite <- (Permutation_length H2). apply IH.
    + rewrite (Permutation_length H2). simpl in *. lia.
    + simpl in *. lia.
    + by rewrite H2.
Qed.

(** Under a total preorder the array ends sorted. *)
Lemma qsort_sorts l :
  Forall P l → ∃ l', qsort l = Some l' ∧ l' ≡ₚ l ∧ StronglySorted ordered l'.
Proof using comp_total comp_trans.
  intros HP. destruct (qsort_perm l) as (l' & H1 & H2). exists l'. split_and!; [done|done|].
  unfold qsort in H1. destruct (1 <? length l)%nat eqn:Hc.
  - apply Nat.ltb_lt in Hc. destruct (first_gap_spec (length l) 0 (length l)) as (g & Hg & Hr); [lia|by left|lia|].
    rewrite Hg in H1. cbn [mbind option_bind] in H1.
    apply (first_gap_seq _ 0) in Hg as [k ->].
    destruct (gaps_sort (length l) k l) as (l2 & H3 & H4); [lia..|done|]. by simplify_eq.
  - injection H1 as <-. apply Nat.ltb_ge in Hc. destruct l as [|x [|? ?]]; simpl in Hc; [..|lia]; by repeat constructor.
Qed.
End order.
End qsort.
