(* ===== verification/Crc32.v ===== *)
(** [lib/crc32.c], the checksum of the stored environment: the routine that
    reads aligned words and a table is the bit-serial division by the CRC-32
    polynomial. *)

From S2P Require Import Prelude.

(** * The code *)

Definition crc_table : list Z :=
  [0x00000000; 0x77073096; 0xee0e612c; 0x990951ba; 0x076dc419; 0x706af48f; 0xe963a535; 0x9e6495a3;
   0x0edb8832; 0x79dcb8a4; 0xe0d5e91e; 0x97d2d988; 0x09b64c2b; 0x7eb17cbd; 0xe7b82d07; 0x90bf1d91;
   0x1db71064; 0x6ab020f2; 0xf3b97148; 0x84be41de; 0x1adad47d; 0x6ddde4eb; 0xf4d4b551; 0x83d385c7;
   0x136c9856; 0x646ba8c0; 0xfd62f97a; 0x8a65c9ec; 0x14015c4f; 0x63066cd9; 0xfa0f3d63; 0x8d080df5;
   0x3b6e20c8; 0x4c69105e; 0xd56041e4; 0xa2677172; 0x3c03e4d1; 0x4b04d447; 0xd20d85fd; 0xa50ab56b;
   0x35b5a8fa; 0x42b2986c; 0xdbbbc9d6; 0xacbcf940; 0x32d86ce3; 0x45df5c75; 0xdcd60dcf; 0xabd13d59;
   0x26d930ac; 0x51de003a; 0xc8d75180; 0xbfd06116; 0x21b4f4b5; 0x56b3c423; 0xcfba9599; 0xb8bda50f;
   0x2802b89e; 0x5f058808; 0xc60cd9b2; 0xb10be924; 0x2f6f7c87; 0x58684c11; 0xc1611dab; 0xb6662d3d;
   0x76dc4190; 0x01db7106; 0x98d220bc; 0xefd5102a; 0x71b18589; 0x06b6b51f; 0x9fbfe4a5; 0xe8b8d433;
   0x7807c9a2; 0x0f00f934; 0x9609a88e; 0xe10e9818; 0x7f6a0dbb; 0x086d3d2d; 0x91646c97; 0xe6635c01;
   0x6b6b51f4; 0x1c6c6162; 0x856530d8; 0xf262004e; 0x6c0695ed; 0x1b01a57b; 0x8208f4c1; 0xf50fc457;
   0x65b0d9c6; 0x12b7e950; 0x8bbeb8ea; 0xfcb9887c; 0x62dd1ddf; 0x15da2d49; 0x8cd37cf3; 0xfbd44c65;
   0x4db26158; 0x3ab551ce; 0xa3bc0074; 0xd4bb30e2; 0x4adfa541; 0x3dd895d7; 0xa4d1c46d; 0xd3d6f4fb;
   0x4369e96a; 0x346ed9fc; 0xad678846; 0xda60b8d0; 0x44042d73; 0x33031de5; 0xaa0a4c5f; 0xdd0d7cc9;
   0x5005713c; 0x270241aa; 0xbe0b1010; 0xc90c2086; 0x5768b525; 0x206f85b3; 0xb966d409; 0xce61e49f;
   0x5edef90e; 0x29d9c998; 0xb0d09822; 0xc7d7a8b4; 0x59b33d17; 0x2eb40d81; 0xb7bd5c3b; 0xc0ba6cad;
   0xedb88320; 0x9abfb3b6; 0x03b6e20c; 0x74b1d29a; 0xead54739; 0x9dd277af; 0x04db2615; 0x73dc1683;
   0xe3630b12; 0x94643b84; 0x0d6d6a3e; 0x7a6a5aa8; 0xe40ecf0b; 0x9309ff9d; 0x0a00ae27; 0x7d079eb1;
   0xf00f9344; 0x8708a3d2; 0x1e01f268; 0x6906c2fe; 0xf762575d; 0x806567cb; 0x196c3671; 0x6e6b06e7;
   0xfed41b76; 0x89d32be0; 0x10da7a5a; 0x67dd4acc; 0xf9b9df6f; 0x8ebeeff9; 0x17b7be43; 0x60b08ed5;
   0xd6d6a3e8; 0xa1d1937e; 0x38d8c2c4; 0x4fdff252; 0xd1bb67f1; 0xa6bc5767; 0x3fb506dd; 0x48b2364b;
   0xd80d2bda; 0xaf0a1b4c; 0x36034af6; 0x41047a60; 0xdf60efc3; 0xa867df55; 0x316e8eef; 0x4669be79;
   0xcb61b38c; 0xbc66831a; 0x256fd2a0; 0x5268e236; 0xcc0c7795; 0xbb0b4703; 0x220216b9; 0x5505262f;
   0xc5ba3bbe; 0xb2bd0b28; 0x2bb45a92; 0x5cb36a04; 0xc2d7ffa7; 0xb5d0cf31; 0x2cd99e8b; 0x5bdeae1d;
   0x9b64c2b0; 0xec63f226; 0x756aa39c; 0x026d930a; 0x9c0906a9; 0xeb0e363f; 0x72076785; 0x05005713;
   0x95bf4a82; 0xe2b87a14; 0x7bb12bae; 0x0cb61b38; 0x92d28e9b; 0xe5d5be0d; 0x7cdcefb7; 0x0bdbdf21;
   0x86d3d2d4; 0xf1d4e242; 0x68ddb3f8; 0x1fda836e; 0x81be16cd; 0xf6b9265b; 0x6fb077e1; 0x18b74777;
   0x88085ae6; 0xff0f6a70; 0x66063bca; 0x11010b5c; 0x8f659eff; 0xf862ae69; 0x616bffd3; 0x166ccf45;
   0xa00ae278; 0xd70dd2ee; 0x4e048354; 0x3903b3c2; 0xa7672661; 0xd06016f7; 0x4969474d; 0x3e6e77db;
   0xaed16a4a; 0xd9d65adc; 0x40df0b66; 0x37d83bf0; 0xa9bcae53; 0xdebb9ec5; 0x47b2cf7f; 0x30b5ffe9;
   0xbdbdf21c; 0xcabac28a; 0x53b39330; 0x24b4a3a6; 0xbad03605; 0xcdd70693; 0x54de5729; 0x23d967bf;
   0xb3667a2e; 0xc4614ab8; 0x5d681b02; 0x2a6f2b94; 0xb40bbe37; 0xc30c8ea1; 0x5a05df1b; 0x2d02ef8d].

(** [DO_CRC(x)] on a little-endian machine. *)
Definition DO_CRC (x crc : Z) : Z :=
  Z.lxor (nth (Z.to_nat (Z.land (Z.lxor crc x) 255)) crc_table 0) (Z.shiftr crc 8).

(** [*b], a word of four bytes. *)
Definition le_word (b0 b1 b2 b3 : Z) : Z :=
  Z.lor b0 (Z.lor (Z.shiftl b1 8) (Z.lor (Z.shiftl b2 16) (Z.shiftl b3 24))).

(** The bytes up to the first aligned address.  [addr] is the address of the
    first byte of [buf]. *)
Fixpoint crc_align (addr : Z) (buf : list Z) (crc : Z) : Z * list Z :=
  match buf with
  | [] => (crc, [])
  | x :: buf' => if addr mod 4 =? 0 then (crc, buf) else crc_align (addr + 1) buf' (DO_CRC x crc)
  end.

(** The words, and then the last few bytes. *)
Fixpoint crc_words (buf : list Z) (crc : Z) : Z :=
  match buf with
  | b0 :: b1 :: b2 :: b3 :: buf' =>
      crc_words buf'
        (DO_CRC 0 (DO_CRC 0 (DO_CRC 0 (DO_CRC 0 (Z.lxor crc (le_word b0 b1 b2 b3))))))
  | rest => foldl (λ crc x, DO_CRC x crc) crc rest
  end.

(** [len] is the length of [buf]. *)
Definition crc32_no_comp (crc addr : Z) (buf : list Z) : Z :=
  let '(crc, buf) := crc_align addr buf crc in crc_words buf crc.

Definition crc32 (crc addr : Z) (buf : list Z) : Z :=
  Z.lxor (crc32_no_comp (Z.lxor crc 0xffffffff) addr buf) 0xffffffff.

(** * The polynomial division *)

(** One step of the shift register: multiplication by x modulo the
    polynomial, whose lowest powers are the highest bits. *)
Definition bit_step (c : Z) : Z :=
  Z.lxor (if Z.testbit c 0 then 0xedb88320 else 0) (Z.shiftr c 1).

Definition byte_step (crc x : Z) : Z := Nat.iter 8 bit_step (Z.lxor crc x).

Definition crc_ref (crc : Z) (buf : list Z) : Z := foldl byte_step crc buf.

(** * The table *)

Lemma bit_step_lxor a b : bit_step (Z.lxor a b) = Z.lxor (bit_step a) (bit_step b).
Proof.
  unfold bit_step. rewrite Z.lxor_spec, Z.shiftr_lxor. apply Z.bits_inj'. intros i Hi.
  rewrite !Z.lxor_spec. destruct (Z.testbit a 0), (Z.testbit b 0); cbn [xorb]; rewrite ?Z.bits_0.
  all: destruct (Z.testbit 0xedb88320 i), (Z.testbit (Z.shiftr a 1) i), (Z.testbit (Z.shiftr b 1) i); reflexivity.
Qed.

Lemma bits_lxor n a b :
  Nat.iter n bit_step (Z.lxor a b) = Z.lxor (Nat.iter n bit_step a) (Nat.iter n bit_step b).
Proof. induction n as [|n IH]; [done|]. rewrite !Nat.iter_succ. by rewrite IH, bit_step_lxor. Qed.

Lemma bits_shift n h : Nat.iter n bit_step (Z.shiftl h (Z.of_nat n)) = h.
Proof.
  revert h. induction n as [|n IH]; intros h; [by rewrite Z.shiftl_0_r|].
  rewrite Nat.iter_succ_r. unfold bit_step at 2. rewrite Z.shiftl_spec_low by lia.
  rewrite Z.lxor_0_l, Z.shiftr_shiftl_l by lia. replace (Z.of_nat (S n) - 1) with (Z.of_nat n) by lia. apply IH.
Qed.

Lemma crc_table_ref n : 0 ≤ n < 256 → nth (Z.to_nat n) crc_table 0 = Nat.iter 8 bit_step n.
Proof.
  intros Hn.
  assert (forallb (λ n, nth (Z.to_nat n) crc_table 0 =? Nat.iter 8 bit_step n) (seqZ 0 256) = true) as Hall
    by (vm_compute; reflexivity).
  rewrite forallb_forall in Hall. specialize (Hall n). rewrite Z.eqb_eq in Hall.
  apply Hall, list_elem_of_In, elem_of_seqZ. lia.
Qed.

Lemma land_255 c : 0 ≤ Z.land c 255 < 256.
Proof. change 255 with (Z.ones 8). rewrite Z.land_ones by lia. apply Z.mod_pos_bound. lia. Qed.

Lemma low_high c : Z.lxor (Z.land c 255) (Z.shiftl (Z.shiftr c 8) 8) = c.
Proof.
  change 255 with (Z.ones 8). apply Z.bits_inj'. intros i Hi. rewrite Z.lxor_spec, Z.land_spec.
  destruct (decide (i < 8)).
  - rewrite Z.ones_spec_low, Z.shiftl_spec_low by lia. by rewrite andb_true_r, xorb_false_r.
  - rewrite Z.ones_spec_high, Z.shiftl_spec, Z.shiftr_spec by lia. rewrite andb_false_r, xorb_false_l. f_equal. lia.
Qed.

(** A table step is eight steps of the register. *)
Lemma do_crc_ref c : Z.lxor (nth (Z.to_nat (Z.land c 255)) crc_table 0) (Z.shiftr c 8) = Nat.iter 8 bit_step c.
Proof.
  rewrite crc_table_ref by apply land_255. rewrite <- (low_high c) at 3. rewrite bits_lxor. f_equal.
  symmetry. apply (bits_shift 8).
Qed.

Lemma DO_CRC_ref x crc : 0 ≤ x < 256 → DO_CRC x crc = byte_step crc x.
Proof.
  intros Hx. unfold DO_CRC, byte_step. rewrite <- do_crc_ref. f_equal. rewrite Z.shiftr_lxor.
  by rewrite (Z.shiftr_div_pow2 x), Z.div_small, Z.lxor_0_r by (change (2 ^ 8) with 256; lia).
Qed.

(** * Words *)

Lemma DO_CRC_0 c : DO_CRC 0 c = Nat.iter 8 bit_step c.
Proof. unfold DO_CRC. by rewrite Z.lxor_0_r, do_crc_ref. Qed.

Lemma DO_CRC_0' crc x : DO_CRC 0 (Z.lxor crc x) = byte_step crc x.
Proof. apply DO_CRC_0. Qed.

Lemma lor_byte x r : 0 ≤ x < 256 → Z.lor x (Z.shiftl r 8) = Z.lxor x (Z.shiftl r 8).
Proof.
  intros Hx. symmetry. apply Z.lxor_lor, Z.bits_inj'. intros i Hi. rewrite Z.land_spec, Z.bits_0.
  destruct (decide (i < 8)); [by rewrite Z.shiftl_spec_low, andb_false_r by lia|].
  by rewrite (testbit_high x 8) by lia.
Qed.

(** The bytes above the lowest one wait in the register. *)
Lemma DO_CRC_next x r crc :
  0 ≤ x < 256 → DO_CRC 0 (Z.lxor crc (Z.lor x (Z.shiftl r 8))) = Z.lxor (byte_step crc x) r.
Proof.
  intros Hx. rewrite DO_CRC_0, lor_byte, <- Z.lxor_assoc, bits_lxor by done. unfold byte_step. f_equal.
  apply (bits_shift 8).
Qed.

Lemma DO_CRC_le_word b0 b1 b2 b3 crc :
  0 ≤ b0 < 256 → 0 ≤ b1 < 256 → 0 ≤ b2 < 256 → 0 ≤ b3 < 256 →
  DO_CRC 0 (DO_CRC 0 (DO_CRC 0 (DO_CRC 0 (Z.lxor crc (le_word b0 b1 b2 b3))))) = crc_ref crc [b0; b1; b2; b3].
Proof.
  intros H0 H1 H2 H3.
  assert (le_word b0 b1 b2 b3 =
    Z.lor b0 (Z.shiftl (Z.lor b1 (Z.shiftl (Z.lor b2 (Z.shiftl b3 8)) 8)) 8)) as ->.
  { unfold le_word. by rewrite !Z.shiftl_lor, !Z.shiftl_shiftl by lia. }
  rewrite !DO_CRC_next, DO_CRC_0' by done. unfold crc_ref. cbn [foldl]. reflexivity.
Qed.

Definition is_byte (x : Z) : Prop := 0 ≤ x < 256.

Lemma crc_ref_cons c x buf : crc_ref c (x :: buf) = crc_ref (byte_step c x) buf.
Proof. unfold crc_ref. cbn [foldl]. reflexivity. Qed.

Lemma crc_ref_app c l l' : crc_ref c (l ++ l') = crc_ref (crc_ref c l) l'.
Proof. apply foldl_app. Qed.

Lemma crc_bytes_ref buf crc : Forall is_byte buf → foldl (λ crc x, DO_CRC x crc) crc buf = crc_ref crc buf.
Proof.
  intros Hb. revert crc. induction Hb as [|x buf Hx Hb IH]; intros crc; [done|].
  rewrite crc_ref_cons, <- IH, <- DO_CRC_ref by done. reflexivity.
Qed.

(** One turn of the loop, as an equation. *)
Lemma crc_words_unfold buf crc :
  crc_words buf crc = match buf with
    | b0 :: b1 :: b2 :: b3 :: buf' =>
        crc_words buf' (DO_CRC 0 (DO_CRC 0 (DO_CRC 0 (DO_CRC 0 (Z.lxor crc (le_word b0 b1 b2 b3))))))
    | rest => foldl (λ crc x, DO_CRC x crc) crc rest
    end.
Proof. by destruct buf. Qed.

Lemma crc_words_ref n buf crc :
  (length buf ≤ n)%nat → Forall is_byte buf → crc_words buf crc = crc_ref crc buf.
Proof.
  revert buf crc. induction n as [|n IH]; intros buf crc Hn Hb; [by destruct buf; simpl in *; [|lia]|].
  destruct buf as [|b0 [|b1 [|b2 [|b3 buf]]]]; [by apply crc_bytes_ref..|].
  repeat match goal with H : Forall is_byte (_ :: _) |- _ => apply Forall_cons in H as [? H] end.
  rewrite crc_words_unfold. cbv iota beta. rewrite DO_CRC_le_word, IH; [|simpl in Hn; lia|done..].
  rewrite <- crc_ref_app. cbn [app]. reflexivity.
Qed.

(** Wherever the buffer lies, the result is the remainder. *)
Lemma crc32_no_comp_ref crc addr buf : Forall is_byte buf → crc32_no_comp crc addr buf = crc_ref crc buf.
Proof.
  unfold crc32_no_comp. revert addr crc. induction buf as [|x buf IH]; intros addr crc Hb; [done|].
  cbn [crc_align]. destruct (addr mod 4 =? 0); [by apply (crc_words_ref (length (x :: buf)))|].
  apply Forall_cons in Hb as [Hx Hb]. rewrite IH, DO_CRC_ref by done. reflexivity.
Qed.

(** * Detection *)

Definition is_word (c : Z) : Prop := 0 ≤ c < 2 ^ 32.

Lemma lxor_word a b : is_word a → is_word b → is_word (Z.lxor a b).
Proof.
  unfold is_word. intros Ha Hb. split; [by apply Z.lxor_nonneg; split; lia|].
  destruct (decide (Z.lxor a b = 0)) as [->|?]; [lia|]. apply Z.log2_lt_pow2; [assert (0 ≤ Z.lxor a b); [apply Z.lxor_nonneg; lia|lia]|].
  eapply Z.le_lt_trans; [apply Z.log2_lxor; lia|].
  apply Z.max_lub_lt; (destruct (decide (0 < a)), (decide (0 < b)); try (apply Z.log2_lt_pow2; lia));
    rewrite Z.log2_nonpos by lia; lia.
Qed.

Lemma lxor_cancel a b c : Z.lxor a b = Z.lxor a c → b = c.
Proof.
  intros H. apply (f_equal (Z.lxor a)) in H. by rewrite <- !Z.lxor_assoc, Z.lxor_nilpotent, !Z.lxor_0_l in H.
Qed.

Lemma bit_step_word c : is_word c → is_word (bit_step c).
Proof.
  intros Hc. unfold bit_step. apply lxor_word; [destruct (Z.testbit c 0); unfold is_word; lia|].
  unfold is_word in *. rewrite Z.shiftr_div_pow2 by lia. change (2 ^ 1) with 2. lia.
Qed.

(** The highest bit of the register tells whether the polynomial was added. *)
Lemma bit_step_inj a b : is_word a → is_word b → bit_step a = bit_step b → a = b.
Proof.
  intros Ha Hb He.
  assert (∀ c, is_word c → Z.testbit (bit_step c) 31 = Z.testbit c 0) as Htop.
  { intros c Hc. unfold bit_step. rewrite Z.lxor_spec, Z.shiftr_spec, (testbit_high c 32 (31 + 1)) by (unfold is_word in *; lia).
    by destruct (Z.testbit c 0). }
  assert (Z.testbit a 0 = Z.testbit b 0) as H0 by (rewrite <- !Htop by done; by rewrite He).
  unfold bit_step in He. rewrite H0 in He. apply lxor_cancel in He.
  apply Z.bits_inj'. intros i Hi. destruct (decide (i = 0)) as [->|?]; [done|].
  apply (f_equal (λ z, Z.testbit z (i - 1))) in He. rewrite !Z.shiftr_spec in He by lia.
  by replace (i - 1 + 1) with i in He by lia.
Qed.

Lemma bits_word n c : is_word c → is_word (Nat.iter n bit_step c).
Proof. intros Hc. induction n as [|n IH]; [done|]. rewrite Nat.iter_succ. by apply bit_step_word. Qed.

Lemma bits_inj n a b : is_word a → is_word b → Nat.iter n bit_step a = Nat.iter n bit_step b → a = b.
Proof.
  intros Ha Hb. induction n as [|n IH]; [done|]. rewrite !Nat.iter_succ. intros H.
  apply IH, bit_step_inj; [by apply bits_word..|done].
Qed.

Lemma byte_word x : is_byte x → is_word x.
Proof. unfold is_byte, is_word. lia. Qed.

Lemma byte_step_word c x : is_word c → is_byte x → is_word (byte_step c x).
Proof. intros Hc Hx. apply bits_word, lxor_word; [done|by apply byte_word]. Qed.

Lemma crc_ref_word buf c : is_word c → Forall is_byte buf → is_word (crc_ref c buf).
Proof.
  intros Hc Hb. revert c Hc. induction Hb as [|x buf Hx Hb IH]; intros c Hc; [done|].
  rewrite crc_ref_cons. by apply IH, byte_step_word.
Qed.

Lemma byte_step_inj a b x y :
  is_word a → is_word b → is_byte x → is_byte y → byte_step a x = byte_step b y → Z.lxor a x = Z.lxor b y.
Proof. intros Ha Hb Hx Hy. unfold byte_step. apply bits_inj; by apply lxor_word; [|apply byte_word]. Qed.

(** Two different registers stay different. *)
Lemma crc_ref_inj buf a b : is_word a → is_word b → Forall is_byte buf → crc_ref a buf = crc_ref b buf → a = b.
Proof.
  intros Ha Hb Hbuf. revert a b Ha Hb. induction Hbuf as [|x buf Hx Hbuf IH]; intros a b Ha Hb H; [done|].
  rewrite !crc_ref_cons in H. apply IH in H; [|by apply byte_step_word..]. apply byte_step_inj in H; [|done..].
  apply (lxor_cancel x). by rewrite !(Z.lxor_comm x).
Qed.

(** A changed byte changes the checksum. *)
Lemma crc_ref_detects pre x y post c :
  is_word c → Forall is_byte (pre ++ x :: post) → is_byte y → x ≠ y →
  crc_ref c (pre ++ x :: post) ≠ crc_ref c (pre ++ y :: post).
Proof.
  intros Hc [Hpre [Hx Hpost]%Forall_cons]%Forall_app Hy Hne. 
  rewrite !crc_ref_app, !crc_ref_cons. pose proof (crc_ref_word pre c Hc Hpre) as Hw. intros H. apply Hne.
  apply (crc_ref_inj post) in H; [|by apply byte_step_word..|done].
  apply byte_step_inj in H; [|done..]. by eapply lxor_cancel.
Qed.

Lemma crc32_detects pre x y post c addr addr' :
  is_word c → Forall is_byte (pre ++ x :: post) → is_byte y → x ≠ y →
  crc32 c addr (pre ++ x :: post) ≠ crc32 c addr' (pre ++ y :: post).
Proof.
  intros Hc Hb Hy Hne. unfold crc32.
  assert (Forall is_byte (pre ++ y :: post)) as Hb'.
  { apply Forall_app in Hb as [Hpre [_ Hpost]%Forall_cons]. apply Forall_app. by split; [|constructor]. }
  rewrite !crc32_no_comp_ref by done. intros H. rewrite !(Z.lxor_comm _ 0xffffffff) in H.
  apply lxor_cancel in H. revert H. apply crc_ref_detects; [|done..]. by apply lxor_word.
Qed.


