(* ===== verification/Clock.v ===== *)
(** The clock: [drivers/timer/omap-timer.c], [drivers/timer/timer-uclass.c]
    and [lib/time.c].  A 32-bit counter is extended to 64 bits, converted to
    milliseconds and polled by the delays. *)

From S2P Require Import Prelude.

Notation CONFIG_SYS_HZ := 1000 (only parsing).
Notation CONFIG_WD_PERIOD := 10000000 (only parsing).
Notation CONFIG_SYS_PTV := 2 (only parsing).
Notation EAGAIN := 11 (only parsing).
Notation ENODEV := 19 (only parsing).
Notation EINVAL := 22 (only parsing).

(** [TIMER_CLOCK] with the 24 MHz oscillator of [include/configs/am335x_evm.h]. *)
Definition TIMER_CLOCK : Z := 24000000 / Z.shiftl 2 CONFIG_SYS_PTV.

(** The registers of the counter. *)
Class TimerRegs (H : Type) := {
  readl_tcrr : H → Z * H;
  writel_tcrr : Z → H → H;
  writel_tldr : Z → H → H;
  writel_tclr : Z → H → H;
}.

(** What the driver model provides: whether its root exists, the chosen node
    of the tick timer, the devices with their result codes, and what
    [timer_pre_probe] finds of the input clock. *)
Class TimerDm (H : Type) := {
  dm_root : H → bool;
  chosen_tick_timer : H → option Z;
  uclass_get_device_by_ofnode : Z → H → (Z * option Z) * H;
  lists_bind_fdt : Z → H → (Z * option Z) * H;
  device_probe : Z → H → Z * H;
  uclass_first_device_err : H → (Z * option Z) * H;
}.

(** [gd->timebase_h], [gd->timebase_l], [gd->timer], the [clock_rate] of each
    device, and the hardware. *)
Record time_globals (H : Type) := mkTime {
  timebase_h : Z;
  timebase_l : Z;
  gd_timer : option Z;
  clock_rate : Z → Z;
  regs : H;
}.
Arguments mkTime {H}.
Arguments timebase_h {H}.
Arguments timebase_l {H}.
Arguments gd_timer {H}.
Arguments clock_rate {H}.
Arguments regs {H}.

#[export] Instance eta_time_globals H : Eta (time_globals H) := λ g,
  mkTime (timebase_h g) (timebase_l g) (gd_timer g) (clock_rate g) (regs g).

Section timer.
Context {H : Type} `{!TimerRegs H} `{!TimerDm H}.
Notation M := (M (time_globals H)).

Definition on_regs {A} (f : H → A * H) : M A :=
  λ g, let '(a, h) := f (regs g) in Ret a (g <| regs := h |>).
Definition do_regs (f : H → H) : M unit := modify (λ g, g <| regs := f (regs g) |>).

(** ** The driver *)

Definition timer_conv_64 (count : Z) : M Z :=
  tl ← gets timebase_l;
  _ ← (if count <? tl then modify (λ g, g <| timebase_h := wrap32 (timebase_h g + 1) |>) else mret tt);
  _ ← modify (λ g, g <| timebase_l := count |>);
  th ← gets timebase_h;
  mret (Z.lor (Z.shiftl th 32) count).

(** [*count]; the code is 0. *)
Definition omap_timer_get_count : M Z :=
  c ← on_regs readl_tcrr;
  timer_conv_64 c.

Definition TCLR_START : Z := 1.
Definition TCLR_AUTO_RELOAD : Z := 2.
Definition TCLR_PRE_EN : Z := 32.

Definition omap_timer_probe (dev : Z) : M Z :=
  rate ← gets (λ g, clock_rate g dev);
  _ ← (if rate =? 0 then modify (λ g, g <| clock_rate := λ d, if d =? dev then TIMER_CLOCK else clock_rate g d |>)
       else mret tt);
  _ ← do_regs (writel_tldr 0);
  _ ← do_regs (writel_tcrr 0);
  _ ← do_regs (writel_tclr (Z.lor (Z.lor (Z.lor (Z.shiftl CONFIG_SYS_PTV 2) TCLR_PRE_EN) TCLR_AUTO_RELOAD) TCLR_START));
  mret 0.

Definition timer_post_probe (dev : Z) : M Z :=
  rate ← gets (λ g, clock_rate g dev);
  mret (if rate =? 0 then - EINVAL else 0).

(** ** The uclass *)

Definition timer_get_count : M Z := omap_timer_get_count.

Definition timer_get_rate (dev : Z) : M Z := gets (λ g, clock_rate g dev).

(** The device of the chosen node: it is bound when the lookup fails, and its
    probing may end the function. *)
Definition chosen_device : M (option Z + Z) :=
  node ← gets (λ g, chosen_tick_timer (regs g));
  match node with
  | None => mret (inl None)
  | Some node =>
      '(ret, dev) ← on_regs (uclass_get_device_by_ofnode node);
      if ret =? 0 then mret (inl dev)
      else
        '(ret, dev) ← on_regs (lists_bind_fdt node);
        if ret =? 0 then
          dev' ← deref dev;
          ret ← on_regs (device_probe dev');
          mret (if ret =? 0 then inl dev else inr ret)
        else mret (inl dev)
  end.

Definition dm_timer_init : M Z :=
  t ← gets gd_timer;
  match t with
  | Some _ => mret 0
  | None =>
      root ← gets (λ g, dm_root (regs g));
      if negb root then mret (- EAGAIN)
      else
        r ← chosen_device;
        match r with
        | inr ret => mret ret
        | inl dev =>
            '(ret, dev) ← match dev with
                          | Some _ => mret (0, dev)
                          | None => on_regs uclass_first_device_err
                          end;
            if negb (ret =? 0) then mret ret
            else
              match dev with
              | Some d => _ ← modify (λ g, g <| gd_timer := Some d |>); mret 0
              | None => mret (- ENODEV)
              end
        end
  end.

(** ** [lib/time.c] *)

(** The timer, or the code that the caller returns in its place. *)
Definition with_timer (f : Z → M Z) (wrap : Z → Z) : M Z :=
  t ← gets gd_timer;
  ret ← match t with Some _ => mret 0 | None => dm_timer_init end;
  if ret =? 0 then t ← gets gd_timer; t ← deref t; f t
  else mret (wrap ret).

Definition get_tbclk : M Z := with_timer timer_get_rate wrap32.

Definition get_ticks : M Z := with_timer (λ _, timer_get_count) wrap64.

Definition tick_to_time (tick : Z) : M Z :=
  div ← get_tbclk;
  if div =? 0 then crash DIV_BY_ZERO else mret (wrap64 (tick * CONFIG_SYS_HZ) / div).

Definition get_timer (base : Z) : M Z :=
  t ← get_ticks;
  ms ← tick_to_time t;
  mret (wrap32 (ms - base)).

Definition tick_to_time_us (tick : Z) : M Z :=
  rate ← get_tbclk;
  let div := rate / 1000 in
  if div =? 0 then crash DIV_BY_ZERO else mret (wrap64 (tick * CONFIG_SYS_HZ) / div).

Definition get_timer_us (base : Z) : M Z :=
  t ← get_ticks;
  us ← tick_to_time_us t;
  mret (wrap64 (us - base)).

Definition timer_get_us : M Z :=
  t ← get_ticks;
  us ← tick_to_time (wrap64 (t * 1000));
  mret (wrap32 us).

Definition usec_to_tick (usec : Z) : M Z :=
  rate ← get_tbclk;
  mret (wrap64 (usec * rate) / 1000000).

(** A bound on the polls of one delay, far above those of any clock. *)
Definition poll_bound : positive := 2 ^ 128.

Definition __udelay (usec : Z) : M unit :=
  t ← get_ticks;
  d ← usec_to_tick usec;
  let tmp := wrap64 (t + d) in
  forever poll_bound
    (now ← get_ticks; mret (if now <? wrap64 (tmp + 1) then None else Some tt)).

(** The delay in periods of the watchdog; [usec] is 32 bits wide. *)
Fixpoint udelay_periods (fuel : nat) (usec : Z) : M unit :=
  match fuel with
  | O => fun _ => NoFuel
  | S fuel' =>
      let kv := if CONFIG_WD_PERIOD <? usec then CONFIG_WD_PERIOD else usec in
      _ ← __udelay kv;
      let usec := usec - kv in
      if usec =? 0 then mret tt else udelay_periods fuel' usec
  end.

Definition udelay (usec : Z) : M unit := udelay_periods 430 usec.
End timer.

(** * Facts *)

(** A reading [T] less than a turn after the last one is found again. *)
Lemma extend_32 th tl T :
  0 ≤ tl < 2 ^ 32 → th * 2 ^ 32 + tl ≤ T < th * 2 ^ 32 + tl + 2 ^ 32 →
  T = (if wrap32 T <? tl then th + 1 else th) * 2 ^ 32 + wrap32 T.
Proof. intros Hl HT. unfold wrap32. destruct (_ <? _) eqn:Hc; lia. Qed.

Lemma join_32 h l : 0 ≤ l < 2 ^ 32 → Z.lor (Z.shiftl h 32) l = h * 2 ^ 32 + l.
Proof.
  intros Hl. rewrite <- (Z.shiftl_mul_pow2 h 32) by lia. symmetry. apply Z.add_nocarry_lor, Z.bits_inj'.
  intros i Hi. rewrite Z.land_spec, Z.bits_0. destruct (decide (i < 32)).
  - by rewrite Z.shiftl_spec_low by lia.
  - by rewrite (testbit_high l 32), andb_false_r by lia.
Qed.

Lemma rounds_stuck {S R} p (body : M S (option R)) s : body s = Ret None s → rounds p body s = Ret None s.
Proof.
  intros Hb. induction p as [p IH|p IH|]; cbn [rounds]; [| |done].
  - by rewrite (M_bind_Ret _ _ _ _ _ Hb), (M_bind_Ret _ _ _ _ _ IH).
  - by rewrite (M_bind_Ret _ _ _ _ _ IH).
Qed.

Section timer_facts.
Context {H : Type} `{!TimerRegs H} `{!TimerDm H}.
Notation M := (M (time_globals H)).
Implicit Types g : time_globals H.

(** What is relied on of the counter: [cycles] is a clock that runs on with
    every access, [q] of its cycles are one tick, the register shows the low
    32 bits of the ticks, and an access takes no more than [slow] cycles. *)
Class Counter (cycles : H → Z) (q slow : Z) : Prop := {
  counter_pos h : 0 ≤ cycles h;
  counter_read h : (readl_tcrr h).1 = wrap32 (cycles (readl_tcrr h).2 / q);
  counter_runs h : cycles h < cycles (readl_tcrr h).2 ≤ cycles h + slow;
  counter_scale : 0 < q < 2 ^ 32 ∧ 0 ≤ slow ≤ q * 2 ^ 31;
}.

Context {cycles : H → Z} {q slow : Z} `{Hc : !Counter cycles q slow}.
Context (dev rate : Z) (Hrate : 1000 ≤ rate < 2 ^ 32).

Definition ticks (h : H) : Z := cycles h / q.

(** The time base is the count at the last reading, and less than a turn of
    the counter has passed since then. *)
Definition synced g : Prop :=
  gd_timer g = Some dev ∧ clock_rate g dev = rate ∧ 0 ≤ timebase_l g < 2 ^ 32 ∧ 0 ≤ timebase_h g ∧
  timebase_h g * 2 ^ 32 + timebase_l g ≤ ticks (regs g) < timebase_h g * 2 ^ 32 + timebase_l g + 2 ^ 32.

(** The next reading is still within the turn, and the count within 64 bits. *)
Definition soon g : Prop :=
  (cycles (regs g) + slow) / q < timebase_h g * 2 ^ 32 + timebase_l g + 2 ^ 32 ∧
  (cycles (regs g) + slow) / q < 2 ^ 64.

Lemma div_between a b c : 0 < q → a ≤ b → b ≤ c → a / q ≤ b / q ≤ c / q.
Proof. intros Hq Hab Hbc. split; by apply Z.div_le_mono. Qed.

(** A reading extends the counter: it gives the number of ticks. *)
Lemma wp_get_ticks g (Q : Z → time_globals H → Prop) :
  synced g → soon g →
  (∀ g', synced g' → timebase_h g' * 2 ^ 32 + timebase_l g' = ticks (regs g') →
    cycles (regs g) < cycles (regs g') ≤ cycles (regs g) + slow → Q (ticks (regs g')) g') →
  wp get_ticks Q g.
Proof using Hc.
  intros (Hdev & Hr & Hl & Hh & Hlast) [Hturn Hmax] HQ. destruct counter_scale as [Hq Hslow].
  unfold get_ticks, with_timer. apply wp_bind, wp_gets. rewrite Hdev. apply wp_bind, wp_ret. cbn [Z.eqb].
  apply wp_bind, wp_gets. rewrite Hdev. apply wp_bind, wp_deref.
  unfold timer_get_count, omap_timer_get_count, on_regs. apply wp_bind.
  pose proof (counter_read (regs g)) as Hread. pose proof (counter_runs (regs g)) as Hrun.
  unfold wp at 1. destruct (readl_tcrr (regs g)) as [c h']. simpl in Hread, Hrun. subst c.
  assert (ticks (regs g) ≤ ticks h' ≤ (cycles (regs g) + slow) / q) as Hmono by (apply div_between; lia).
  set (T := cycles h' / q) in *. change (ticks h') with T in *.
  set (far := (cycles (regs g) + slow) / q) in *. unfold ticks in Hlast, Hmono. set (T0 := cycles (regs g) / q) in *.
  assert (T0 ≤ T ≤ far) as Hm' by exact Hmono. pose proof (extend_32 (timebase_h g) (timebase_l g) T Hl ltac:(lia)) as HT.
  pose proof (wrap32_range T) as Hw.
  set (th := if wrap32 T <? timebase_l g then timebase_h g + 1 else timebase_h g) in *.
  assert (0 ≤ th < 2 ^ 32) as Hth by (assert (0 ≤ th) by (unfold th; destruct (_ <? _); lia); lia).
  unfold timer_conv_64. apply wp_bind, wp_gets, wp_bind. cbn [timebase_l update].
  apply (wp_mono _ (λ _ g', g' = g <| regs := h' |> <| timebase_h := th |>)).
  { unfold th in *. change (timebase_l (g <| regs := h' |>)) with (timebase_l g).
    destruct (_ <? _) eqn:Hlt; [|by apply wp_ret; destruct g]. apply wp_modify. unfold update. simpl.
    by rewrite wrap32_small by lia. }
  intros _ ? ->. apply wp_bind, wp_modify, wp_bind, wp_gets, wp_ret. unfold update. simpl.
  rewrite join_32, <- HT by done. apply (HQ (mkTime th (wrap32 T) (gd_timer g) (clock_rate g) h')).
  - unfold synced. simpl. split_and!; try done; try lia; fold (ticks h'); change (ticks h') with T; lia.
  - simpl. change (ticks h') with T. lia.
  - done.
Qed.

Lemma wp_get_tbclk g (Q : Z → time_globals H → Prop) : synced g → Q rate g → wp get_tbclk Q g.
Proof.
  intros (Hdev & Hr & _) HQ. unfold get_tbclk, with_timer. apply wp_bind, wp_gets. rewrite Hdev.
  apply wp_bind, wp_ret, wp_bind, wp_gets. rewrite Hdev. apply wp_bind, wp_deref, wp_gets. by rewrite Hr.
Qed.

(** The milliseconds since the timer was started, less the base. *)
Lemma wp_get_timer g base :
  synced g → soon g → (cycles (regs g) + slow) / q * 1000 < 2 ^ 64 →
  wp (get_timer base) (λ r g', synced g' ∧ r = wrap32 (ticks (regs g') * 1000 / rate - base) ∧
    cycles (regs g) < cycles (regs g') ≤ cycles (regs g) + slow) g.
Proof using Hc Hrate.
  intros Hs Hn Hmax. unfold get_timer. apply wp_bind, wp_get_ticks; [done|done|]. intros g' Hs' _ Hrun.
  apply wp_bind. unfold tick_to_time. apply wp_bind, wp_get_tbclk; [done|].
  rewrite (proj2 (Z.eqb_neq rate 0)) by lia. apply wp_ret, wp_ret. split_and!; [done| |lia|lia].
  destruct counter_scale as [Hq _]. pose proof (counter_pos (regs g')) as Hpos.
  assert (0 ≤ ticks (regs g') ≤ (cycles (regs g) + slow) / q) as Ht.
  { unfold ticks. split; [apply Z.div_pos; lia|apply Z.div_le_mono; lia]. }
  by rewrite wrap64_small by lia.
Qed.

(** After a reading the next one is within the turn. *)
Definition fresh g : Prop := synced g ∧ timebase_h g * 2 ^ 32 + timebase_l g = ticks (regs g).

Lemma ticks_slow c : (c + slow) / q ≤ c / q + 2 ^ 31 + 1.
Proof using Hc.
  destruct counter_scale as [Hq Hslow]. apply Z.lt_succ_r, Z.div_lt_upper_bound; [lia|].
  pose proof (Z.mul_succ_div_gt c q ltac:(lia)). unfold Z.succ in *. set (d := c / q) in *. clearbody d. nia.
Qed.

Lemma fresh_soon g : fresh g → ticks (regs g) + 2 ^ 32 ≤ 2 ^ 64 → soon g.
Proof using Hc.
  intros [_ Hb] Hmax. pose proof (ticks_slow (cycles (regs g))) as Hsl. unfold soon, ticks in *. rewrite Hb.
  set (a := cycles (regs g) / q) in *. set (b := (cycles (regs g) + slow) / q) in *. clearbody a b. lia.
Qed.

(** Ticks that are still due bound the cycles that are. *)
Lemma ticks_due h n : ticks h < n ↔ cycles h < n * q.
Proof using Hc.
  destruct counter_scale as [Hq _]. unfold ticks. split; intros Hlt.
  - pose proof (Z.mul_succ_div_gt (cycles h) q ltac:(lia)). nia.
  - apply Z.div_lt_upper_bound; lia.
Qed.

Lemma wp_usec_to_tick g usec (Q : Z → time_globals H → Prop) :
  synced g → 0 ≤ usec < 2 ^ 32 → Q (usec * rate / 1000000) g → wp (usec_to_tick usec) Q g.
Proof using Hrate.
  intros Hs Hu HQ. unfold usec_to_tick. apply wp_bind, wp_get_tbclk; [done|]. apply wp_ret.
  by rewrite wrap64_small by nia.
Qed.

(** One delay of [d] ticks: it ends, not before [d] ticks have gone by and
    within one tick and two accesses after that. *)
Lemma wp___udelay g usec (d := usec * rate / 1000000) :
  synced g → soon g → 0 ≤ usec < 2 ^ 32 → ticks (regs g) + d + 2 ^ 34 ≤ 2 ^ 64 →
  wp (__udelay usec) (λ _ g', fresh g' ∧
    cycles (regs g) + d * q < cycles (regs g') ≤ cycles (regs g) + (d + 1) * q + 2 * slow) g.
Proof using Hc Hrate.
  intros Hs Hn Hu Hmax. destruct counter_scale as [Hq Hslow]. unfold __udelay. apply wp_bind, wp_get_ticks; [done..|].
  intros g1 Hs1 Hb1 Hrun1. apply wp_bind, wp_usec_to_tick; [done..|]. fold d.
  assert (0 ≤ d) as Hd by (apply Z.div_pos; nia).
  assert (ticks (regs g) ≤ ticks (regs g1) ≤ ticks (regs g) + 2 ^ 31 + 1) as Ht1.
  { split; [apply Z.div_le_mono; lia|]. etrans; [|apply ticks_slow]. apply Z.div_le_mono; lia. }
  pose proof (counter_pos (regs g)) as Hpos. assert (0 ≤ ticks (regs g)) as Ht0 by (apply Z.div_pos; lia).
  set (t1 := ticks (regs g1)) in *. assert (t1 * q ≤ cycles (regs g1) < (t1 + 1) * q) as Hc1.
  { split; [|apply ticks_due; fold t1; lia]. apply Z.le_ngt. intros Hlt. apply ticks_due in Hlt. fold t1 in Hlt. lia. }
  cbv zeta. rewrite (wrap64_small (t1 + d)), wrap64_small by lia.
  apply (wp_forever (λ g', fresh g' ∧ cycles (regs g1) ≤ cycles (regs g') ∧ (g' = g1 ∨ cycles (regs g') < (t1 + d + 1) * q))
    (λ g', (t1 + d + 1) * q - cycles (regs g') + q)).
  - split_and!; [done|lia|by left].
  - unfold poll_bound. assert ((t1 + d + 1) * q ≤ 2 ^ 64 * 2 ^ 32) by nia. lia.
  - intros g' (_ & _ & [->|?]); nia.
  - intros g' (Hf & Hle & Hor). assert (cycles (regs g') < (t1 + d + 1) * q) as Hlt by (destruct Hor as [->|?]; nia).
    assert (ticks (regs g') < t1 + d + 1) as Htk by by apply ticks_due.
    apply wp_bind, wp_get_ticks; [apply Hf|apply fresh_soon; [done|lia]|]. intros g2 Hs2 Hb2 Hrun2. apply wp_ret.
    destruct (ticks (regs g2) <? t1 + d + 1) eqn:Hcmp.
    + apply Z.ltb_lt, ticks_due in Hcmp. split_and!; [done|lia|by right|lia].
    + apply Z.ltb_ge in Hcmp. split; [done|].
      assert ((t1 + d + 1) * q ≤ cycles (regs g2)) as Hge; [|nia].
      apply Z.le_ngt. intros Hl. apply ticks_due in Hl. lia.
Qed.

Lemma ticks_after h h' d :
  cycles h' ≤ cycles h + (d + 1) * q + 2 * slow → ticks h' ≤ ticks h + d + 2 ^ 33.
Proof using Hc.
  intros Hle. destruct counter_scale as [Hq Hslow]. apply Z.lt_succ_r, ticks_due.
  pose proof (proj1 (ticks_due h (ticks h + 1)) ltac:(lia)). nia.
Qed.

(** The periods add up: whole ones are whole numbers of ticks. *)
Lemma period_ticks usec :
  usec * rate / 1000000 = CONFIG_WD_PERIOD * rate / 1000000 + (usec - CONFIG_WD_PERIOD) * rate / 1000000.
Proof.
  replace (CONFIG_WD_PERIOD * rate) with (10 * rate * 1000000) by lia. rewrite Z.div_mul by lia.
  replace (usec * rate) with ((usec - CONFIG_WD_PERIOD) * rate + 10 * rate * 1000000) by lia.
  rewrite Z.div_add by lia. lia.
Qed.

Lemma wp_udelay_periods fuel (n : nat) g usec (d := usec * rate / 1000000) :
  (n < fuel)%nat → synced g → soon g → 0 ≤ usec < 2 ^ 32 → usec ≤ Z.of_nat (S n) * CONFIG_WD_PERIOD →
  ticks (regs g) + d + Z.of_nat (S n) * 2 ^ 34 ≤ 2 ^ 64 →
  wp (udelay_periods fuel usec) (λ _ g', fresh g' ∧
    cycles (regs g) + d * q < cycles (regs g') ≤ cycles (regs g) + (d + Z.of_nat (S n)) * q + 2 * Z.of_nat (S n) * slow) g.
Proof using Hc Hrate.
  revert n g usec d. induction fuel as [|fuel IH]; intros n g usec d Hn Hs Hsoon Hu Hle Hmax; [lia|].
  destruct counter_scale as [Hq Hslow]. pose proof (period_ticks usec) as Hsplit. fold d in Hsplit.
  cbn [udelay_periods]. cbv zeta. apply wp_bind.
  assert (∀ v, 0 ≤ v → 0 ≤ v * rate / 1000000) as Hnn by (intros v Hv; apply Z.div_pos; nia).
  destruct (CONFIG_WD_PERIOD <? usec) eqn:Hcmp.
  - apply Z.ltb_lt in Hcmp. pose proof (Hnn (usec - CONFIG_WD_PERIOD) ltac:(lia)) as Hrest.
    eapply wp_mono; [apply wp___udelay; [done..|lia|set (a := CONFIG_WD_PERIOD * _ / _) in *; lia]|].
    intros _ g1 [Hf Hrun]. rewrite (proj2 (Z.eqb_neq (usec - _) 0)) by lia.
    set (d1 := CONFIG_WD_PERIOD * rate / 1000000) in *. set (d2 := (usec - CONFIG_WD_PERIOD) * rate / 1000000) in *.
    pose proof (ticks_after (regs g) (regs g1) d1 ltac:(lia)) as Hafter.
    destruct n as [|n]; [lia|]. eapply wp_mono.
    { apply (IH n); [lia|apply Hf|apply fresh_soon; [done|lia]|lia|lia|fold d2; lia]. }
    intros _ g2 [Hf2 Hrun2]. fold d2 in Hrun2. split; [done|].
    replace (Z.of_nat (S (S n))) with (Z.of_nat (S n) + 1) by lia. rewrite Hsplit. nia.
  - eapply wp_mono; [apply wp___udelay; [done..|fold d; lia]|]. fold d. intros _ g1 [Hf Hrun].
    rewrite Z.sub_diag. apply wp_ret. split; [done|]. nia.
Qed.

(** ** Before the driver model *)

(** Without the root of the driver model the code of the failure is returned
    in place of the ticks and of the rate. *)
Lemma wp_with_timer_early f wrap g (Q : Z → time_globals H → Prop) :
  gd_timer g = None → dm_root (regs g) = false → wrap (- EAGAIN) ≠ 0 → Q (wrap (- EAGAIN)) g →
  wp (with_timer f wrap) Q g.
Proof.
  intros Hnone Hroot Hw HQ. unfold with_timer. apply wp_bind, wp_gets. rewrite Hnone. apply wp_bind.
  unfold dm_timer_init. apply wp_bind, wp_gets. rewrite Hnone. apply wp_bind, wp_gets. rewrite Hroot. cbn [negb].
  apply wp_ret. cbn [Z.opp Z.eqb]. by apply wp_ret.
Qed.

(** A delay of no time waits for the time to pass the one it has. *)
Lemma udelay_early_hangs g :
  gd_timer g = None → dm_root (regs g) = false → __udelay 0 g = NoFuel.
Proof.
  intros Hnone Hroot.
  assert (get_ticks g = Ret 18446744073709551605 g) as Ht.
  { assert (wp get_ticks (λ r g', r = 18446744073709551605 ∧ g' = g) g) as (r & g' & ? & -> & ->)%wp_run; [|done].
    by apply wp_with_timer_early. }
  assert (usec_to_tick 0 g = Ret 0 g) as Hu.
  { assert (wp (usec_to_tick 0) (λ r g', r = 0 ∧ g' = g) g) as (r & g' & ? & -> & ->)%wp_run; [|done].
    unfold usec_to_tick. apply wp_bind, wp_with_timer_early; [done..|]. by apply wp_ret. }
  unfold __udelay. rewrite (M_bind_Ret _ _ _ _ _ Ht), (M_bind_Ret _ _ _ _ _ Hu). cbv zeta.
  set (body := _ ≫= _) at 1. assert (rounds poll_bound body g = Ret None g) as Hr.
  { apply rounds_stuck. unfold body. by rewrite (M_bind_Ret _ _ _ _ _ Ht). }
  unfold forever. by rewrite (M_bind_Ret _ _ _ _ _ Hr).
Qed.

Lemma wp_udelay_early g usec :
  gd_timer g = None → dm_root (regs g) = false → 0 < usec < 2 ^ 32 → wp (__udelay usec) (λ _ g', g' = g) g.
Proof.
  intros Hnone Hroot Hu. unfold __udelay. apply wp_bind, wp_with_timer_early; [done..|].
  apply wp_bind. unfold usec_to_tick. apply wp_bind, wp_with_timer_early; [done..|].
  apply wp_ret. change (wrap32 (- EAGAIN)) with 4294967285. change (wrap64 (- EAGAIN)) with 18446744073709551605.
  cbv zeta. rewrite (wrap64_small (usec * _)) by lia.
  assert (4294 ≤ usec * 4294967285 / 1000000 < 2 ^ 45) as Hd by lia.
  set (d := usec * 4294967285 / 1000000) in *. clearbody d.
  assert (wrap64 (18446744073709551605 + d) = d - 11) as -> by (unfold wrap64; lia).
  rewrite wrap64_small by lia.
  apply (wp_forever (λ g', g' = g) (λ _, 0)); [done|done|done|]. intros ? ->.
  apply wp_bind, wp_with_timer_early; [done..|]. apply wp_ret.
  change (wrap64 (- EAGAIN)) with 18446744073709551605. by rewrite (proj2 (Z.ltb_ge _ _)) by lia.
Qed.
End timer_facts.

(** * Properties *)

(** C25. [get_timer] counts milliseconds over the turns of the 32-bit counter:
    when the reading comes less than a turn after the last one, the result is
    the number of ticks of the counter since it was started, as milliseconds,
    less the base and modulo [2 ^ 32], and the time base is the count again. *)
Theorem get_timer_counts {H : Type} `{!TimerRegs H} `{!TimerDm H} (cycles : H → Z) (q slow dev rate base : Z)
    (g : time_globals H) :
  Counter cycles q slow → 1000 ≤ rate < 2 ^ 32 →
  synced (cycles := cycles) (q := q) dev rate g → soon (cycles := cycles) (q := q) (slow := slow) g →
  (cycles (regs g) + slow) / q * 1000 < 2 ^ 64 →
  ∃ g', get_timer base g = Ret (wrap32 (cycles (regs g') / q * 1000 / rate - base)) g' ∧
    synced (cycles := cycles) (q := q) dev rate g' ∧ cycles (regs g) < cycles (regs g') ≤ cycles (regs g) + slow.
Proof.
  intros Hc Hrate Hs Hn Hmax.
  destruct (proj1 (wp_run _ _ _) (wp_get_timer (Hc := Hc) dev rate Hrate g base Hs Hn Hmax)) as (r & g' & Hrun & Hs' & -> & Hle).
  by exists g'.
Qed.

(** C19. [udelay] ends, and it waits: by the counter's clock, at least the
    ticks of [usec] microseconds go by, and at most one tick and two accesses
    more for each period of the watchdog that is begun. *)
Theorem udelay_waits {H : Type} `{!TimerRegs H} `{!TimerDm H} (cycles : H → Z) (q slow dev rate usec : Z) (n : nat)
    (g : time_globals H) :
  Counter cycles q slow → 1000 ≤ rate < 2 ^ 32 → 0 ≤ usec < 2 ^ 32 →
  (n < 430)%nat → usec ≤ Z.of_nat (S n) * CONFIG_WD_PERIOD →
  synced (cycles := cycles) (q := q) dev rate g → soon (cycles := cycles) (q := q) (slow := slow) g →
  cycles (regs g) / q + usec * rate / 1000000 + Z.of_nat (S n) * 2 ^ 34 ≤ 2 ^ 64 →
  ∃ g', udelay usec g = Ret tt g' ∧ synced (cycles := cycles) (q := q) dev rate g' ∧
    cycles (regs g) + usec * rate / 1000000 * q < cycles (regs g') ≤
    cycles (regs g) + (usec * rate / 1000000 + Z.of_nat (S n)) * q + 2 * Z.of_nat (S n) * slow.
Proof.
  intros Hc Hrate Hu Hn Hle Hs Hsoon Hmax.
  destruct (proj1 (wp_run _ _ _) (wp_udelay_periods (Hc := Hc) dev rate Hrate 430 n g usec Hn Hs Hsoon Hu Hle Hmax))
    as ([] & g' & Hrun & [Hf _] & Hel).
  by exists g'.
Qed.

(** Before the driver model has its root, a delay of one or more
    microseconds is no delay: the codes of the failure are taken for the time
    and the rate, and [__udelay] returns with nothing read from the counter.
    The delay of no time never ends. *)
Theorem udelay_early {H : Type} `{!TimerRegs H} `{!TimerDm H} (usec : Z) (g : time_globals H) :
  gd_timer g = None → dm_root (regs g) = false → 0 ≤ usec < 2 ^ 32 →
  __udelay usec g = if usec =? 0 then NoFuel else Ret tt g.
Proof.
  intros Hnone Hroot Hu. destruct (Z.eqb_spec usec 0) as [->|H0]; [by apply udelay_early_hangs|].
  destruct (proj1 (wp_run _ _ _) (wp_udelay_early g usec Hnone Hroot ltac:(lia))) as ([] & g' & Hrun & ->). done.
Qed.

(** ** A counter of eight cycles a tick, read in three *)

Module TimerSim.
#[export] Instance sim_regs : TimerRegs N := {|
  readl_tcrr h := (wrap32 (Z.of_N (h + 3) / 8), (h + 3)%N);
  writel_tcrr _ h := h;
  writel_tldr _ h := h;
  writel_tclr _ h := h;
|}.

#[export] Instance sim_dm : TimerDm N := {|
  dm_root h := (0 <? h)%N;
  chosen_tick_timer _ := None;
  uclass_get_device_by_ofnode _ h := ((- ENODEV, None), h);
  lists_bind_fdt _ h := ((- ENODEV, None), h);
  device_probe _ h := (0, h);
  uclass_first_device_err h := ((0, Some 1), h);
|}.

Lemma sim_counter : Counter Z.of_N 8 3.
Proof. split; simpl; [lia|done|lia|lia]. Qed.

(** The counter is about to turn for the second time. *)
Definition late : time_globals N :=
  mkTime 1 4294967294 (Some 1) (λ _, TIMER_CLOCK) 68719476733%N.
End TimerSim.
Import TimerSim.

Lemma get_timer_counts_witness :
  ∃ g', get_timer 5 late = Ret (wrap32 (Z.of_N (regs g') / 8 * 1000 / TIMER_CLOCK - 5)) g' ∧
    synced (cycles := Z.of_N) (q := 8) 1 TIMER_CLOCK g' ∧ Z.of_N 68719476733 < Z.of_N (regs g') ≤ 68719476736.
Proof.
  refine (get_timer_counts Z.of_N 8 3 1 TIMER_CLOCK 5 late sim_counter _ _ _ _).
  - vm_compute. split; congruence.
  - unfold synced. split_and!; vm_compute; congruence.
  - split; vm_compute; congruence.
  - vm_compute. congruence.
Defined.

Lemma udelay_waits_witness :
  ∃ g', udelay 10000001 late = Ret tt g' ∧ synced (cycles := Z.of_N) (q := 8) 1 TIMER_CLOCK g' ∧
    68719476733 + 30000003 * 8 < Z.of_N (regs g') ≤ 68719476733 + 30000005 * 8 + 12.
Proof.
  refine (udelay_waits Z.of_N 8 3 1 TIMER_CLOCK 10000001 1 late sim_counter _ _ _ _ _ _ _).
  - vm_compute. split; congruence.
  - lia.
  - lia.
  - lia.
  - unfold synced. split_and!; vm_compute; congruence.
  - split; vm_compute; congruence.
  - vm_compute. congruence.
Defined.

Lemma udelay_early_witness :
  let g := mkTime 0 0 None (λ _, 0) 0%N in __udelay 5 g = Ret tt g ∧ __udelay 0 g = NoFuel.
Proof.
  split; [refine (udelay_early 5 (mkTime 0 0 None (λ _, 0) 0%N) _ _ _)|refine (udelay_early 0 (mkTime 0 0 None (λ _, 0) 0%N) _ _ _)];
    first [reflexivity|lia].
Defined.

(** The first use of the clock finds the timer; the delay is then one of the
    counter. *)
Example first_use_finds_timer :
  (λ r, match r with Ret t g => Some (t, gd_timer g, regs g) | _ => None end)
    (get_ticks (mkTime 0 0 None (λ _, TIMER_CLOCK) 21%N)) = Some (3, Some 1, 24%N).
Proof. reflexivity. Qed.
