(* ===== verification/HashTable.v ===== *)
(** The hash table of the environment, [lib/hashtable.c]: open addressing
    with double hashing and tombstones, the variables it holds being the
    [struct env_entry] of [include/search.h]. *)

From S2P Require Import Prelude CLib VsprintfFacts Machine.

Notation EPERM := 1%Z (only parsing).
Notation ESRCH := 3%Z (only parsing).
Notation ENOMEM := 12%Z (only parsing).

Notation USED_FREE := 0%Z (only parsing).
Notation USED_DELETED := (-1)%Z (only parsing).

Notation H_NOCLEAR := 1%Z (only parsing).
Notation H_FORCE := 2%Z (only parsing).
Notation H_INTERACTIVE := 4%Z (only parsing).
Notation H_HIDE_DOT := 8%Z (only parsing).
Notation H_MATCH_KEY := 16%Z (only parsing).
Notation H_MATCH_DATA := 32%Z (only parsing).
Notation H_MATCH_BOTH := 48%Z (only parsing).
Notation H_MATCH_IDENT := 64%Z (only parsing).
Notation H_MATCH_SUBSTR := 128%Z (only parsing).
Notation H_MATCH_REGEX := 256%Z (only parsing).
Notation H_MATCH_METHOD := 448%Z (only parsing).
Notation H_PROGRAMMATIC := 512%Z (only parsing).

(** * Data *)

(** [enum env_action] *)
Inductive env_action := ENV_FIND | ENV_ENTER.

(** [struct env_entry]; [None] is a null pointer and a callback is the handle
    of its function. *)
Record env_entry := mkEntry {
  key : option string;
  data : option string;
  callback : option Z;
  entry_flags : Z;
}.

#[export] Instance eta_env_entry : Eta env_entry := λ e,
  mkEntry (key e) (data e) (callback e) (entry_flags e).

(** [struct env_entry_node] *)
Record env_entry_node := mkEntryNode {
  used : Z;
  entry : env_entry;
}.

#[export] Instance eta_env_entry_node : Eta env_entry_node := λ n, mkEntryNode (used n) (entry n).

(** [struct hsearch_data]; of [change_ok], whether the pointer is set. *)
Record hsearch_data := mkHtab {
  table : option (list env_entry_node);
  size : Z;
  filled : Z;
  has_change_ok : bool;
}.

#[export] Instance eta_hsearch_data : Eta hsearch_data := λ h,
  mkHtab (table h) (size h) (filled h) (has_change_ok h).

(** The globals of the environment, with what else the machine holds:
    [env_htab] of [env/common.c], [errno], [env_id] of [cmd/nvedit.c] and
    [gd->flags]. *)
Record env_globals (E : Type) := mkEnv {
  env_htab : hsearch_data;
  errno : Z;
  env_id : Z;
  gd_flags : Z;
  other : E;
}.
Arguments mkEnv {E}.
Arguments env_htab {E}.
Arguments errno {E}.
Arguments env_id {E}.
Arguments gd_flags {E}.
Arguments other {E}.

#[export] Instance eta_env_globals E : Eta (env_globals E) := λ e,
  mkEnv (env_htab e) (errno e) (env_id e) (gd_flags e) (other e).

(** What the table calls: the allocator, the permission check that
    [change_ok] points to, the callback of a variable, and the search for the
    callback and the flags of a new variable. *)
Class EnvHooks (E : Type) := {
  malloc : Z → E → bool * E;
  env_flags_validate : env_entry → option string → env_op → Z → M (world (env_globals E)) Z;
  env_callback : Z → string → option string → env_op → Z → M (world (env_globals E)) Z;
  env_callback_init : string → M (world (env_globals E)) (option Z);
  env_flags_init : string → M (world (env_globals E)) (option Z);
}.

(** * The prime size *)

(** [None] when the search takes more than the given number of steps. *)
Fixpoint isprime_from (fuel : nat) (number div : Z) : option bool :=
  match fuel with
  | O => None
  | S fuel' =>
      if (wrap32 (div * div) <? number) && nonzero (number mod div)
      then isprime_from fuel' number (wrap32 (div + 2))
      else Some (nonzero (number mod div))
  end.

Definition isprime (number : Z) : option bool := isprime_from (Z.to_nat number) number 3.

Fixpoint next_prime (fuel : nat) (nel : Z) : option Z :=
  match fuel with
  | O => None
  | S fuel' =>
      match isprime nel with
      | Some true => Some nel
      | Some false => next_prime fuel' (wrap32 (nel + 2))
      | None => None
      end
  end.

(** * The hash functions *)

(** [hval] before the reduction: a character is unsigned on ARM. *)
Definition hash_text (k : string) : Z :=
  foldr (λ c hval, wrap32 (wrap32 (Z.shiftl hval 4) + ord c)) (wrap32 (slen k)) (list_of_str k).

Definition first_hash (size : Z) (k : string) : Z :=
  let hval := hash_text k mod size in if hval =? 0 then 1 else hval.

Definition second_hash (size hval : Z) : Z := 1 + hval mod (size - 2).

Definition next_index (size hval2 idx : Z) : Z :=
  if idx <=? hval2 then wrap32 (size + idx - hval2) else idx - hval2.

Definition zeroed_node : env_entry_node := mkEntryNode USED_FREE (mkEntry None None None 0).

Section hashtable.
Context {E : Type} `{!EnvHooks E}.
Notation world := (world (env_globals E)).
Notation M := (M world).

(** ** Access to the table *)

Definition get_htab : M hsearch_data := gets (λ w, env_htab (hw w)).

Definition set_htab (f : hsearch_data → hsearch_data) : M unit :=
  hw_do (λ h, h <| env_htab := f (env_htab h) |>).

Definition set_errno (e : Z) : M unit := hw_do (λ h, h <| errno := e |>).

(** [htab->table[idx]] *)
Definition slot (idx : Z) : M env_entry_node :=
  h ← get_htab;
  t ← deref (table h);
  match if 0 <=? idx then t !! Z.to_nat idx else None with
  | Some n => mret n
  | None => crash OUT_OF_BOUNDS
  end.

(** An assignment to [htab->table[idx]]. *)
Definition set_slot (idx : Z) (f : env_entry_node → env_entry_node) : M unit :=
  _ ← slot idx;
  set_htab (λ h, h <| table := alter f (Z.to_nat idx) <$> table h |>).

Definition malloc_ok (n : Z) : M bool :=
  hw_call (λ h, let '(ok, e) := malloc n (other h) in (ok, h <| other := e |>)).

Definition strdup (s : option string) : M (option string) :=
  match s with
  | None => mret None
  | Some s =>
      ok ← malloc_ok (strlen s + 1);
      mret (if ok : bool then Some (c_str s) else None)
  end.

(** ** Creation and destruction *)

(** [calloc] of the table zeroes it; [sizeof(struct env_entry_node)] is 20. *)
Definition hcreate_r (nel : Z) : M Z :=
  h ← get_htab;
  match table h with
  | Some _ => mret 0
  | None =>
      let nel := Z.lor nel 1 in
      match next_prime (Z.to_nat nel) nel with
      | None => fun _ => NoFuel
      | Some nel =>
          _ ← set_htab (λ h, h <| size := nel |> <| filled := 0 |>);
          ok ← malloc_ok ((nel + 1) * 20);
          if ok : bool then
            _ ← set_htab (λ h, h <| table := Some (replicate (Z.to_nat (nel + 1)) zeroed_node) |>);
            mret 1
          else mret 0
      end
  end.

(** What [hdestroy_r] frees is not read again: the slots of [table] go with
    it. *)
Definition hdestroy_r : M unit :=
  h ← get_htab;
  _ ← for_loop (S (Z.to_nat (size h))) (λ i, i <=? size h) Z.succ
        (λ i, _ ← slot i; mret (@Continue Z unit i)) 1;
  set_htab (λ h, h <| table := None |>).

(** ** Search *)

(** The first entry after [last_idx] whose key starts with [match]. *)
Definition hmatch_r (match_ : string) (last_idx : Z) : M (Z * option Z) :=
  let key_len := strlen match_ in
  h ← get_htab;
  r ← for_loop (S (Z.to_nat (size h))) (λ idx, idx <? size h) Z.succ
        (λ idx,
           n ← slot idx;
           if used n <=? 0 then mret (Continue idx)
           else
             k ← deref (key (entry n));
             if strncmp match_ k (Z.to_nat key_len) =? 0 then mret (Return (idx, Some idx))
             else mret (Continue idx)) (wrap32 (last_idx + 1));
  match r with
  | inr r => mret r
  | inl _ => _ ← set_errno ESRCH; mret (0, None)
  end.

(** [htab->change_ok(...)] is asked when the pointer is set. *)
Definition change_rejected (idx : Z) (newval : option string) (op : env_op) (flag : Z) : M bool :=
  h ← get_htab;
  if has_change_ok h then
    n ← slot idx;
    r ← env_flags_validate (entry n) newval op flag;
    mret (nonzero r)
  else mret false.

Definition callback_rejected (idx : Z) (name : string) (value : option string) (op : env_op)
    (flag : Z) : M bool :=
  n ← slot idx;
  match callback (entry n) with
  | None => mret false
  | Some f => r ← env_callback f name value op flag; mret (nonzero r)
  end.

(** The value returned and [*retval], an entry being its index; [None] is the
    result [-1], with which the search goes on. *)
Definition _compare_and_overwrite_entry (item : env_entry) (action : env_action) (flag hval idx : Z) :
    M (option (Z * option Z)) :=
  n ← slot idx;
  if used n =? hval then
    k ← deref (key item);
    k' ← deref (key (entry n));
    if strcmp k k' =? 0 then
      match action, data item with
      | ENV_ENTER, Some d =>
          no ← change_rejected idx (Some d) env_op_overwrite flag;
          if no : bool then _ ← set_errno EPERM; mret (Some (0, None))
          else
            no ← callback_rejected idx k (Some d) env_op_overwrite flag;
            if no : bool then _ ← set_errno EINVAL; mret (Some (0, None))
            else
              copy ← strdup (Some d);
              _ ← set_slot idx (λ n, n <| entry := entry n <| data := copy |> |>);
              match copy with
              | None => _ ← set_errno ENOMEM; mret (Some (0, None))
              | Some _ => mret (Some (idx, Some idx))
              end
      | _, _ => mret (Some (idx, Some idx))
      end
    else mret None
  else mret None.

Definition _hdelete (idx : Z) : M unit :=
  _ ← set_slot idx (λ n, mkEntryNode USED_DELETED (entry n <| callback := None |> <| entry_flags := 0 |>));
  set_htab (λ h, h <| filled := wrap32 (filled h - 1) |>).

Definition mark_deleted (n : env_entry_node) (idx first_deleted : Z) : Z :=
  if (used n =? USED_DELETED) && (first_deleted =? 0) then idx else first_deleted.

(** One round of the [do] loop of [hsearch_r]; the loop variables are [idx]
    and [first_deleted]. *)
Definition probe_next (item : env_entry) (action : env_action) (flag size hval hval2 : Z)
    (x : Z * Z) : M (ctl (Z * Z) (Z * option Z)) :=
  let '(idx, first_deleted) := x in
  let idx := next_index size hval2 idx in
  if idx =? hval then mret (Break (idx, first_deleted))
  else
    n ← slot idx;
    let first_deleted := mark_deleted n idx first_deleted in
    r ← _compare_and_overwrite_entry item action flag hval idx;
    match r with
    | Some r => mret (Return r)
    | None =>
        n ← slot idx;
        mret (if used n =? USED_FREE then Break (idx, first_deleted)
              else Continue (idx, first_deleted))
    end.

(** The search for the key: the slot and [first_deleted] at which it ends
    without the key, or what [hsearch_r] returns.  The loop visits no more
    than [size] slots. *)
Definition probe (item : env_entry) (action : env_action) (flag size hval : Z) :
    M ((Z * Z) + (Z * option Z)) :=
  n ← slot hval;
  if used n =? USED_FREE then mret (inl (hval, 0))
  else
    let first_deleted := mark_deleted n hval 0 in
    r ← _compare_and_overwrite_entry item action flag hval hval;
    match r with
    | Some r => mret (inr r)
    | None =>
        for_loop (S (Z.to_nat size)) (λ _, true) id
          (probe_next item action flag size hval (second_hash size hval)) (hval, first_deleted)
    end.

(** A new entry gets its callback and its flags and is put to the two
    checks, which take it out again when they refuse it. *)
Definition hsearch_admit (item : env_entry) (k' : string) (flag idx : Z) : M (Z * option Z) :=
  c ← env_callback_init k';
  _ ← match c with
      | Some c => set_slot idx (λ n, n <| entry := entry n <| callback := Some c |> |>)
      | None => mret tt
      end;
  fl ← env_flags_init k';
  _ ← match fl with
      | Some fl => set_slot idx (λ n, n <| entry := entry n <| entry_flags := fl |> |>)
      | None => mret tt
      end;
  no ← change_rejected idx (data item) env_op_create flag;
  if no : bool then _ ← _hdelete idx; _ ← set_errno EPERM; mret (0, None)
  else
    k ← deref (key item);
    no ← callback_rejected idx k (data item) env_op_create flag;
    if no : bool then _ ← _hdelete idx; _ ← set_errno EINVAL; mret (0, None)
    else mret (1, Some idx).

(** The new entry at the slot the search found. *)
Definition hsearch_create (item : env_entry) (flag hval idx : Z) : M (Z * option Z) :=
  _ ← set_slot idx (λ n, n <| used := hval |>);
  k' ← strdup (key item);
  _ ← set_slot idx (λ n, n <| entry := entry n <| key := k' |> |>);
  d' ← strdup (data item);
  _ ← set_slot idx (λ n, n <| entry := entry n <| data := d' |> |>);
  match k', d' with
  | Some k', Some _ =>
      _ ← set_htab (λ h, h <| filled := wrap32 (filled h + 1) |>);
      hsearch_admit item k' flag idx
  | _, _ => _ ← set_errno ENOMEM; mret (0, None)
  end.

Definition hsearch_r (item : env_entry) (action : env_action) (flag : Z) : M (Z * option Z) :=
  k ← deref (key item);
  h ← get_htab;
  if size h =? 0 then crash DIV_BY_ZERO
  else
    let hval := first_hash (size h) (c_str k) in
    r ← probe item action flag (size h) hval;
    match r with
    | inr r => mret r
    | inl (idx, first_deleted) =>
        match action with
        | ENV_ENTER =>
            h ← get_htab;
            if filled h =? size h then _ ← set_errno ENOMEM; mret (0, None)
            else hsearch_create item flag hval (if first_deleted =? 0 then idx else first_deleted)
        | ENV_FIND => _ ← set_errno ESRCH; mret (0, None)
        end
    end.

(** ** Deletion *)

(** [e.data] is not initialised; [ENV_FIND] does not read it. *)
Definition hdelete_r (k : string) (flag : Z) : M Z :=
  '(idx, _) ← hsearch_r (mkEntry (Some k) None None 0) ENV_FIND 0;
  if idx =? 0 then _ ← set_errno ESRCH; mret 0
  else
    no ← change_rejected idx None env_op_delete flag;
    if no : bool then _ ← set_errno EPERM; mret 0
    else
      no ← callback_rejected idx k None env_op_delete flag;
      if no : bool then _ ← set_errno EINVAL; mret 0
      else _ ← _hdelete idx; mret 1.

(** ** Walk *)

(** [callback] is given the entry, returns its code and what it has made of
    the entry. *)
Definition hwalk_r (f : env_entry → Z * env_entry) : M Z :=
  h ← get_htab;
  r ← for_loop (S (Z.to_nat (size h))) (λ i, i <=? size h) Z.succ
        (λ i,
           n ← slot i;
           if used n <=? 0 then mret (Continue i)
           else
             let '(retval, e) := f (entry n) in
             _ ← set_slot i (λ n, n <| entry := e |>);
             mret (if nonzero retval then Return retval else Continue i)) 1;
  mret (match r with inl _ => 0 | inr retval => retval end).
End hashtable.
