(* ===== verification/HashFacts.v ===== *)
(** What [lib/hashtable.c] promises: the size found is prime, the probe
    sequence visits every slot, and a table that holds a finite map is
    searched, extended and shortened as that map. *)

From Stdlib Require Import Zdivisibility.
From S2P Require Import Prelude CLib VsprintfFacts Machine HashTable.

(** * The prime size *)

(** The trial division by odd numbers has found no divisor below [div]. *)
Definition undivided (n div : Z) : Prop := ∀ d, 1 < d < div → ¬ (d | n).

Lemma undivided_step n div :
  n mod 2 = 1 → div mod 2 = 1 → 0 < div → undivided n div → ¬ (div | n) → undivided n (div + 2).
Proof.
  intros Hn Hdiv Hpos Hu Hnd d Hd Hdn. destruct (decide (d < div)) as [?|?]; [apply (Hu d); [lia|done]|].
  destruct (decide (d = div)) as [->|?]; [done|].
  assert (d = div + 1) as -> by lia. destruct Hdn as [q ->].
  rewrite <- Z.mul_mod_idemp_r in Hn by lia. rewrite <- Z.add_mod_idemp_l in Hn by lia.
  rewrite Hdiv in Hn. change ((1 + 1) mod 2) with 0 in Hn. by rewrite Z.mul_0_r in Hn.
Qed.

Lemma undivided_prime n div : 1 < n → 0 < div → n ≤ div * div → undivided n div → ¬ (div | n) → Z.prime n.
Proof.
  intros Hn Hpos Hsq Hu Hnd. split; [done|]. intros d Hd [q Hq].
  assert (1 < q) as Hq1 by nia.
  assert (d ≤ div ∨ q ≤ div) as [H|H] by nia.
  - destruct (decide (d = div)) as [->|?]; [apply Hnd; by exists q|]. apply (Hu d); [lia|]. by exists q.
  - destruct (decide (q = div)) as [->|?]; [apply Hnd; exists d; lia|]. apply (Hu q); [lia|]. exists d. lia.
Qed.

Lemma nonzero_mod n d : d ≠ 0 → nonzero (n mod d) = true ↔ ¬ (d | n).
Proof. intros Hd. rewrite nonzero_true. by rewrite Z.mod_divide. Qed.

Lemma isprime_from_spec fuel n div :
  n mod 2 = 1 → 5 ≤ n < 2 ^ 31 → div mod 2 = 1 → 3 ≤ div → div = 3 ∨ (div - 2) * (div - 2) < n →
  n < Z.of_nat fuel + div → undivided n div →
  ∃ b, isprime_from fuel n div = Some b ∧ (b = true ↔ Z.prime n).
Proof.
  revert div. induction fuel as [|fuel IH]; intros div Hodd Hn Hdo Hdiv Hsq Hfuel Hu.
  { exfalso. destruct Hsq; nia. }
  assert (div < 2 ^ 16 - 2) as Hsmall by nia.
  assert (div < n) as Hlt by nia.
  simpl. rewrite (wrap32_small (div * div)) by nia.
  destruct (nonzero (n mod div)) eqn:Hm; rewrite ?andb_true_r, ?andb_false_r.
  - apply nonzero_mod in Hm; [|lia]. destruct (div * div <? n) eqn:Hc.
    + apply Z.ltb_lt in Hc. rewrite (wrap32_small (div + 2)) by lia. apply IH; try done; try lia.
      by apply undivided_step; try done; lia.
    + apply Z.ltb_ge in Hc. exists true. split; [done|]. split; [|done]. intros _.
      by apply (undivided_prime n div); try done; lia.
  - exists false. split; [done|]. split; [done|]. intros [_ Hp]. exfalso. apply (Hp div); [lia|].
    apply Z.mod_divide; [lia|]. by apply nonzero_false.
Qed.

(** On the odd numbers it is asked about, the test is primality. *)
Lemma isprime_spec n :
  n mod 2 = 1 → 5 ≤ n < 2 ^ 31 → ∃ b, isprime n = Some b ∧ (b = true ↔ Z.prime n).
Proof.
  intros Hodd Hn. apply isprime_from_spec; try done; try lia.
  intros d Hd [q ->]. assert (d = 2) as -> by lia. by rewrite Z.mod_mul in Hodd.
Qed.

Lemma next_prime_spec fuel n m :
  n mod 2 = 1 → 5 ≤ n → n + 2 * Z.of_nat fuel < 2 ^ 31 → next_prime fuel n = Some m →
  n ≤ m < 2 ^ 31 ∧ Z.prime m ∧ ∀ q, n ≤ q < m → q mod 2 = 1 → ¬ Z.prime q.
Proof.
  revert n. induction fuel as [|fuel IH]; intros n Hodd Hn Hf; simpl; [done|].
  destruct (isprime_spec n) as (b & -> & Hb); [done|lia|]. destruct b.
  - intros [= <-]. split_and!; [lia|lia|by apply Hb|lia].
  - rewrite wrap32_small by lia. intros H. apply IH in H as (Hm & Hp & Hall); [|lia..].
    split_and!; [lia|lia|done|]. intros q Hq Hqo. destruct (decide (q = n)) as [->|?].
    + by intros ?%Hb.
    + apply Hall; [|done]. lia.
Qed.

Lemma lor_1 n : 0 < n → Z.lor n 1 mod 2 = 1 ∧ n ≤ Z.lor n 1 ≤ n + 1.
Proof.
  intros Hn. assert (Z.lor n 1 = 2 * (n / 2) + 1) as ->; [|lia].
  apply Z.bits_inj'. intros i Hi. rewrite Z.lor_spec.
  destruct (decide (i = 0)) as [->|?].
  - rewrite Z.testbit_odd_0. by rewrite orb_true_r.
  - replace i with (Z.succ (i - 1)) by lia. rewrite Z.testbit_odd_succ by lia.
    rewrite <- (Z.div2_div n), Z.div2_spec, Z.shiftr_spec by lia.
    rewrite (Z.bits_above_log2 1); [|lia|simpl; lia]. by rewrite orb_false_r.
Qed.

(** * The probe sequence *)

Lemma first_hash_range p k : 1 < p → 1 ≤ first_hash p k < p.
Proof.
  intros Hp. unfold first_hash. pose proof (Z.mod_pos_bound (hash_text k) p).
  destruct (_ =? 0) eqn:Hz; [lia|]. apply Z.eqb_neq in Hz. lia.
Qed.

Lemma second_hash_range p hv : 2 < p → 1 ≤ second_hash p hv ≤ p - 2.
Proof. intros Hp. unfold second_hash. pose proof (Z.mod_pos_bound hv (p - 2)). lia. Qed.

(** The slot that is looked at after [j] steps. *)
Definition probe_at (p hv j : Z) : Z := (hv - 1 - j * second_hash p hv) mod p + 1.

Section probe.
Context {p : Z} (Hp : Z.prime p) (Hr : 5 ≤ p < 2 ^ 31).

Lemma probe_at_range hv j : 1 ≤ probe_at p hv j ≤ p.
Proof using Hr. unfold probe_at. pose proof (Z.mod_pos_bound (hv - 1 - j * second_hash p hv) p). lia. Qed.

Lemma probe_at_0 hv : 1 ≤ hv ≤ p → probe_at p hv 0 = hv.
Proof using Hr. intros H. unfold probe_at. rewrite Z.mod_small; lia. Qed.

Lemma next_index_probe hv j : next_index p (second_hash p hv) (probe_at p hv j) = probe_at p hv (j + 1).
Proof using Hr.
  pose proof (second_hash_range p hv ltac:(lia)) as Hs. pose proof (probe_at_range hv j) as Hx.
  unfold next_index. transitivity ((probe_at p hv j - 1 - second_hash p hv) mod p + 1).
  - destruct (_ <=? _) eqn:Hc; [apply Z.leb_le in Hc|apply Z.leb_gt in Hc].
    + rewrite wrap32_small by lia.
      rewrite <- (Z.mod_add (probe_at p hv j - 1 - second_hash p hv) 1 p), Z.mod_small by lia. lia.
    + rewrite Z.mod_small by lia. lia.
  - unfold probe_at. f_equal. rewrite Z.add_simpl_r, Zminus_mod_idemp_l. f_equal. lia.
Qed.

Lemma probe_at_cycle hv i j : probe_at p hv i = probe_at p hv j → (p | i - j).
Proof using Hp Hr.
  pose proof (second_hash_range p hv ltac:(lia)) as Hs. unfold probe_at. intros H.
  assert ((p | (i - j) * second_hash p hv)) as Hd.
  { apply Z.mod_divide; [lia|].
    replace ((i - j) * second_hash p hv)
      with ((hv - 1 - j * second_hash p hv) - (hv - 1 - i * second_hash p hv)) by lia.
    rewrite Zminus_mod. replace ((hv - 1 - i * _) mod p) with ((hv - 1 - j * second_hash p hv) mod p) by lia.
    by rewrite Z.sub_diag. }
  apply Z.divide_prime_mul in Hd as [?|Hd]; [done| |done].
  apply Z.divide_pos_le in Hd; lia.
Qed.

Lemma probe_at_inj hv i j : 0 ≤ i < p → 0 ≤ j < p → probe_at p hv i = probe_at p hv j → i = j.
Proof using Hp Hr.
  intros Hi Hj [q Hq]%probe_at_cycle. assert (q = 0) by nia. lia.
Qed.

Lemma probe_at_surj hv x : 1 ≤ x ≤ p → ∃ j, 0 ≤ j < p ∧ probe_at p hv j = x.
Proof using Hp Hr.
  intros Hx. pose proof (second_hash_range p hv ltac:(lia)) as Hs.
  destruct (Z.Bezout_coprime _ _ (Z.coprime_prime_small p (second_hash p hv) Hp ltac:(lia))) as (a & b & Hab).
  exists (((hv - x) * b) mod p). split; [apply Z.mod_pos_bound; lia|].
  unfold probe_at. rewrite <- Zminus_mod_idemp_r, Z.mul_mod_idemp_l, Zminus_mod_idemp_r by lia.
  replace (hv - 1 - (hv - x) * b * second_hash p hv)
    with (x - 1 + ((hv - x) * a) * p) by (assert (b * second_hash p hv = 1 - a * p) as Hbs by lia; rewrite <- (Z.mul_assoc _ b), Hbs; ring).
  rewrite Z.mod_add, Z.mod_small; lia.
Qed.
End probe.

(** * Slots *)

(** What a slot says of a variable: [used], the key and the data. *)
Definition view : Type := Z * option string * option string.
Implicit Types (f : Z → view) (m : gmap string string) (k d : string).

Notation used_at f i := (f i).1.1.

Definition put (i : Z) (v : view) f : Z → view := λ x, if decide (x = i) then v else f x.

Lemma put_same i v f : put i v f i = v.
Proof. unfold put. by case_decide. Qed.

Lemma put_other i v f x : x ≠ i → put i v f x = f x.
Proof. unfold put. by case_decide. Qed.

(** The variable [k] with value [d] is in slot [i] of a table of [p] slots. *)
Definition live (p : Z) f (i : Z) k d : Prop :=
  1 ≤ i ≤ p ∧ f i = (first_hash p k, Some k, Some d) ∧ no_nul k ∧ no_nul d.

(** The slots before step [j] of the search for [k] are not free. *)
Definition busy_before (p : Z) f k (j : Z) : Prop :=
  ∀ j', 0 ≤ j' < j → used_at f (probe_at p (first_hash p k) j') ≠ USED_FREE.

(** The slots hold the map: a slot is free, deleted or holds a variable of the
    map, and every variable is in one slot, which its search reaches. *)
Record layout (p : Z) f m : Prop := {
  layout_slot i : 1 ≤ i ≤ p → used_at f i = USED_FREE ∨ used_at f i = USED_DELETED ∨ ∃ k d, live p f i k d;
  layout_sound i k d : live p f i k d → m !! k = Some d;
  layout_found k d : m !! k = Some d →
    ∃ j, 0 ≤ j < p ∧ live p f (probe_at p (first_hash p k) j) k d ∧ busy_before p f k j;
  layout_once i i' k d d' : live p f i k d → live p f i' k d' → i = i';
}.

Section layout.
Context {p : Z} (Hp : Z.prime p) (Hr : 5 ≤ p < 2 ^ 31).

Lemma live_used f i k d : live p f i k d → 1 ≤ used_at f i.
Proof using Hr. intros (_ & -> & _). pose proof (first_hash_range p k). simpl. lia. Qed.

Lemma live_ext f f' i k d : f' i = f i → live p f i k d → live p f' i k d.
Proof. unfold live. by intros ->. Qed.

Lemma live_eq f i k d k' d' : live p f i k d → live p f i k' d' → k = k' ∧ d = d'.
Proof. unfold live. intros (_ & -> & _) (_ & H & _). by injection H. Qed.

Lemma live_put_other f i v x k d : live p (put i v f) x k d → x ≠ i → live p f x k d.
Proof. intros H Hx. eapply live_ext; [|exact H]. by rewrite put_other. Qed.

Lemma busy_put f i v k j : v.1.1 ≠ USED_FREE → busy_before p f k j → busy_before p (put i v f) k j.
Proof.
  intros Hv Hb j' Hj'. unfold put. case_decide; [done|]. by apply Hb.
Qed.

(** A slot is given to a variable: one that is not in the map, in a slot its
    search reaches, or the value of one that is. *)
Lemma layout_write f m i j k d :
  layout p f m → no_nul k → no_nul d →
  0 ≤ j < p → i = probe_at p (first_hash p k) j → busy_before p f k j →
  (∀ k' d', live p f i k' d' → k' = k) → (∀ x d', live p f x k d' → x = i) →
  layout p (put i (first_hash p k, Some k, Some d) f) (<[k:=d]> m).
Proof using Hr.
  intros HL Hk Hd Hj Hi Hb Hslot Honly. pose proof (first_hash_range p k ltac:(lia)) as Hh.
  set (f' := put i _ f).
  assert (1 ≤ i ≤ p) as Hir by (subst i; by apply probe_at_range).
  assert (live p f' i k d) as Hnew by (unfold live, f'; by rewrite put_same).
  assert (∀ x k' d', live p f' x k' d' → x ≠ i → live p f x k' d') as Hold
    by (intros x k' d'; apply live_put_other).
  assert (∀ x k' d', live p f' x k' d' → x = i → k' = k ∧ d' = d) as Hat.
  { intros x k' d' H ->. by apply (live_eq f' i). }
  constructor.
  - intros x Hx. destruct (decide (x = i)) as [->|Hxi]; [right; right; eauto|].
    unfold f'. rewrite put_other by done.
    destruct (layout_slot p f m HL x Hx) as [H|[H|(k' & d' & H)]]; [by left|by right; left|].
    right; right. exists k', d'. eapply live_ext; [|exact H]. by apply put_other.
  - intros x k' d' H. destruct (decide (x = i)) as [Hxi|Hxi].
    + destruct (Hat x k' d' H Hxi) as [-> ->]. by rewrite lookup_insert_eq.
    + pose proof (Hold x k' d' H Hxi) as H'. rewrite lookup_insert_ne.
      * by eapply layout_sound.
      * intros <-. by apply Hxi, (Honly x d').
  - intros k' d' Hm. destruct (decide (k' = k)) as [->|Hkk].
    + rewrite lookup_insert_eq in Hm. injection Hm as <-. exists j. rewrite <- Hi.
      split_and!; [lia|lia|done|]. apply busy_put; [simpl; lia|done].
    + rewrite lookup_insert_ne in Hm by done.
      destruct (layout_found p f m HL k' d' Hm) as (j' & Hj' & Hl & Hb').
      exists j'. split_and!; [lia|lia| |apply busy_put; [simpl; lia|done]].
      eapply live_ext; [|exact Hl]. apply put_other. intros He. rewrite He in Hl.
      by apply Hkk, (Hslot k' d').
  - intros x x' k' d1 d2 H1 H2. destruct (decide (x = i)) as [Hx|Hx], (decide (x' = i)) as [Hx'|Hx'].
    + congruence.
    + destruct (Hat x k' d1 H1 Hx) as [-> _]. subst x. symmetry. apply (Honly x' d2). by apply Hold.
    + destruct (Hat x' k' d2 H2 Hx') as [-> _]. subst x'. apply (Honly x d1). by apply Hold.
    + eapply (layout_once p f m HL); by apply Hold.
Qed.

(** A slot is deleted. *)
Lemma layout_erase f m i k d v :
  layout p f m → live p f i k d → v.1.1 = USED_DELETED → layout p (put i v f) (delete k m).
Proof using Hr.
  intros HL Hi Hv.
  assert (∀ x k' d', live p (put i v f) x k' d' → x ≠ i ∧ live p f x k' d') as Hold.
  { intros x k' d' H. assert (x ≠ i) as Hx; [|split; [done|by eapply live_put_other]].
    intros ->. apply live_used in H. rewrite put_same in H. lia. }
  constructor.
  - intros x Hx. unfold put. case_decide as Hxi; [by right; left|].
    destruct (layout_slot p f m HL x Hx) as [H|[H|(k' & d' & H)]]; [by left|by right; left|].
    right; right. exists k', d'. eapply live_ext; [|exact H]. by case_decide.
  - intros x k' d' [Hx H]%Hold. rewrite lookup_delete_ne; [by eapply layout_sound|].
    intros <-. by apply Hx, (layout_once p f m HL x i k d' d).
  - intros k' d' [Hkk Hm]%lookup_delete_Some.
    destruct (layout_found p f m HL k' d' Hm) as (j & Hj & Hl & Hb).
    exists j. split_and!; [lia|lia| |apply busy_put; [lia|done]].
    eapply live_ext; [|exact Hl]. apply put_other. intros He. rewrite He in Hl.
    apply Hkk. by destruct (live_eq f i k d k' d').
  - intros x x' k' d1 d2 [_ H1]%Hold [_ H2]%Hold. by eapply (layout_once p f m HL).
Qed.

(** A map that does not fill the table leaves a slot without a variable. *)
Lemma layout_room f m :
  layout p f m → Z.of_nat (base.size m) < p → ¬ (∀ i, 1 ≤ i ≤ p → ∃ k d, live p f i k d).
Proof using Hr.
  intros HL Hm Hall.
  assert (∃ g : Z → string, ∀ i, 1 ≤ i ≤ p → ∃ d, live p f i (g i) d) as [g Hg].
  { exists (λ i, default "" (f i).1.2). intros i Hi. destruct (Hall i Hi) as (k & d & H).
    exists d. destruct H as (? & Hf & ?). rewrite Hf. simpl. unfold live. by rewrite Hf. }
  assert (NoDup (g <$> seqZ 1 p)) as Hnd.
  { apply NoDup_fmap_2_strong; [|apply NoDup_seqZ]. intros i i' Hi Hi' He.
    apply elem_of_seqZ in Hi, Hi'. destruct (Hg i ltac:(lia)) as [d H], (Hg i' ltac:(lia)) as [d' H'].
    rewrite <- He in H'. by eapply (layout_once p f m HL). }
  assert (length (g <$> seqZ 1 p) ≤ base.size (dom m))%nat as Hle.
  { rewrite <- (size_list_to_set (C := gset string)) by done. apply subseteq_size.
    intros k. rewrite elem_of_list_to_set, list_elem_of_fmap. intros (i & -> & Hi%elem_of_seqZ).
    destruct (Hg i ltac:(lia)) as [d H]. apply elem_of_dom. exists d. by eapply (layout_sound p f m HL). }
  rewrite length_fmap, length_seqZ, size_dom in Hle. lia.
Qed.
End layout.

Lemma layout_empty p : 5 ≤ p → layout p (λ _, (USED_FREE, None, None)) ∅.
Proof.
  intros Hr. assert (∀ i k d, ¬ live p (λ _, (USED_FREE, None, None)) i k d) as Hno.
  { intros i k d (_ & H & _). discriminate H. }
  constructor.
  - by left.
  - intros i k d H. by destruct (Hno i k d).
  - intros k d H. by rewrite lookup_empty in H.
  - intros i i' k d d' H. by destruct (Hno i k d).
Qed.

(** * Tables *)

Definition node_view (n : env_entry_node) : view := (used n, key (entry n), data (entry n)).

Definition views (t : list env_entry_node) (i : Z) : view :=
  default (USED_FREE, None, None) (node_view <$> t !! Z.to_nat i).

(** What a table says of its variables: all but callbacks and flags. *)
Definition shape (h : hsearch_data) : option (list view) * Z * Z * bool :=
  (fmap (M:=option) (fmap (M:=list) node_view) (table h), size h, filled h, has_change_ok h).

(** The table [h] holds the variables [m]. *)
Definition holds (h : hsearch_data) m : Prop :=
  ∃ t, table h = Some t ∧ Z.prime (size h) ∧ 5 ≤ size h < 2 ^ 31 ∧
    length t = Z.to_nat (size h + 1) ∧ (filled h = Z.of_nat (base.size m) ∧ filled h ≤ size h) ∧
    layout (size h) (views t) m.

(** The entry at [i] is the variable [k] with value [d]. *)
Definition entry_at (h : hsearch_data) (i : Z) k d : Prop :=
  ∃ t, table h = Some t ∧ live (size h) (views t) i k d.

Lemma layout_ext p f f' m : 5 ≤ p < 2 ^ 31 → (∀ i, 1 ≤ i ≤ p → f' i = f i) → layout p f m → layout p f' m.
Proof.
  intros Hr He HL.
  assert (∀ i k d, live p f' i k d ↔ live p f i k d) as Hl.
  { intros i k d. unfold live. split; intros [Hi H]; (split; [done|]); by rewrite He in * || rewrite He. }
  constructor.
  - intros i Hi. setoid_rewrite Hl. rewrite He by done. by apply (layout_slot p f m HL).
  - intros i k d ?%Hl. by eapply layout_sound.
  - intros k d (j & Hj & ?%Hl & Hb)%(layout_found p f m HL). exists j.
    split_and!; [lia|lia|done|]. intros j' Hj'. rewrite He by (by apply probe_at_range). by apply Hb.
  - intros i i' k d d' ?%Hl ?%Hl. by eapply (layout_once p f m HL).
Qed.

Lemma views_fmap t i : views t i = default (USED_FREE, None, None) ((node_view <$> t) !! Z.to_nat i).
Proof. unfold views. by rewrite list_lookup_fmap. Qed.

(** Callbacks and flags do not matter. *)
Lemma holds_shape h h' m : shape h' = shape h → holds h m → holds h' m.
Proof.
  unfold shape. intros [= Ht Hs Hf _] (t & Htab & Hp & Hr & Hlen & [Hfill Hle] & HL).
  rewrite Htab in Ht. simpl in Ht. destruct (table h') as [t'|] eqn:Htab'; [|done].
  injection Ht as Ht. exists t'. rewrite Hs, Hf. split_and!; [done|done|lia|lia| |done|done|].
  - rewrite <- Hlen. rewrite <- (length_fmap node_view t'), Ht. by rewrite length_fmap.
  - eapply layout_ext; [done| |exact HL]. intros i _. by rewrite !views_fmap, Ht.
Qed.

Lemma isprime_prime p : p mod 2 = 1 → 5 ≤ p < 2 ^ 31 → isprime p = Some true → Z.prime p.
Proof. intros Ho Hr Hi. destruct (isprime_spec p Ho Hr) as (b & Hb & Hp). apply Hp. congruence. Qed.

(** A table as [hcreate_r] makes it. *)
Definition fresh_table (p : Z) : hsearch_data :=
  mkHtab (Some (replicate (Z.to_nat (p + 1)) zeroed_node)) p 0 true.

Lemma holds_fresh p : Z.prime p → 5 ≤ p < 2 ^ 31 → holds (fresh_table p) ∅.
Proof.
  intros Hp Hr. eexists. simpl. split_and!; [done|done|lia|lia|by rewrite length_replicate|done|lia|].
  eapply layout_ext; [lia| |apply layout_empty; lia]. intros i Hi. unfold views.
  by rewrite lookup_replicate_2 by lia.
Qed.

Lemma entry_at_shape h h' i k d : shape h' = shape h → entry_at h i k d → entry_at h' i k d.
Proof.
  unfold shape. intros [= Ht Hs Hf _] (t & Htab & Hl).
  rewrite Htab in Ht. simpl in Ht. destruct (table h') as [t'|] eqn:Htab'; [|done].
  injection Ht as Ht. exists t'. split; [done|]. rewrite Hs. eapply live_ext; [|exact Hl].
  by rewrite !views_fmap, Ht.
Qed.

#[export] Instance holds_proper : Proper ((λ h h', shape h' = shape h) ==> (=) ==> impl) holds.
Proof. intros h h' Hs m ? <- H. by eapply holds_shape. Qed.

(** An invariant of what the machine holds besides the environment, and the
    values that are given to the callbacks: with them the callbacks keep it. *)
Class EnvInv (E : Type) := {
  env_inv : E → Prop;
  env_val : option string → Prop;
}.

(** Nothing in particular. *)
Definition any_inv (E : Type) : EnvInv E := {| env_inv _ := True; env_val _ := True |}.

Section hash_facts.
Context {E : Type} `{!EnvHooks E} `{!EnvInv E}.
Notation world := (world (env_globals E)).
Notation M := (M world).
Implicit Types w : world.

Notation tab w := (env_htab (hw w)).

(** What every function keeps that is not the table. *)
Definition quiet w w' : Prop :=
  gd_flags (hw w') = gd_flags (hw w) ∧ (env_inv (other (hw w)) → env_inv (other (hw w'))).

#[global] Instance quiet_preorder : PreOrder quiet.
Proof. split; [by split|]. intros w1 w2 w3 [H1 H1'] [H2 H2']. split; [congruence|auto]. Qed.

(** What a function that leaves the variables alone keeps. *)
Definition calm w w' : Prop := shape (tab w') = shape (tab w) ∧ quiet w w'.

#[global] Instance calm_preorder : PreOrder calm.
Proof. split; [by split|]. intros w1 w2 w3 [H1 H1'] [H2 H2']. split; [congruence|by etrans]. Qed.

(** The size of the table is kept. *)
Definition kept w w' : Prop := quiet w w' ∧ size (tab w') = size (tab w).

#[global] Instance kept_preorder : PreOrder kept.
Proof. split; [by split|]. intros w1 w2 w3 [H1 H1'] [H2 H2']. split; [by etrans|congruence]. Qed.

Lemma calm_holds w w' m : calm w w' → holds (tab w) m → holds (tab w') m.
Proof. intros [H _]. by apply holds_shape. Qed.

(** What is relied on of the allocator, the permission check and the
    callbacks: memory does not run out, the others return and leave the
    variables alone and keep the invariant; when [approve] holds, they refuse
    nothing. *)
Class HooksLaw (approve : Prop) : Prop := {
  law_malloc n e : (malloc n e).1 = true ∧ (env_inv e → env_inv (malloc n e).2);
  law_validate e v op fl w :
    wp (env_flags_validate e v op fl) (λ r w', calm w w' ∧ (approve → r = 0)) w;
  law_callback c k v op fl w : (op = env_op_delete ↔ v = None) → env_val v →
    wp (env_callback c k v op fl) (λ r w', calm w w' ∧ (approve → r = 0)) w;
  law_callback_init k w : wp (env_callback_init k) (λ _ w', calm w w') w;
  law_flags_init k w : wp (env_flags_init k) (λ _ w', calm w w') w;
}.

(** ** Access *)

Lemma lookup_slot (t : list env_entry_node) p i :
  length t = Z.to_nat (p + 1) → 1 ≤ i ≤ p →
  ∃ n, t !! Z.to_nat i = Some n ∧ views t i = node_view n.
Proof.
  intros Hlen Hi. destruct (lookup_lt_is_Some_2 t (Z.to_nat i)) as [n Hn]; [lia|].
  exists n. split; [done|]. unfold views. by rewrite Hn.
Qed.

Lemma wp_slot w t p i (Q : env_entry_node → world → Prop) :
  table (tab w) = Some t → length t = Z.to_nat (p + 1) → 1 ≤ i ≤ p →
  (∀ n, t !! Z.to_nat i = Some n → views t i = node_view n → Q n w) → wp (slot i) Q w.
Proof.
  intros Ht Hlen Hi HQ. destruct (lookup_slot t p i Hlen Hi) as (n & Hn & Hv).
  unfold slot, get_htab. apply wp_bind, wp_gets, wp_bind. rewrite Ht. apply wp_deref.
  rewrite (proj2 (Z.leb_le _ _)) by lia. rewrite Hn. by apply wp_ret, HQ.
Qed.

Lemma wp_set_slot w t p i g (Q : unit → world → Prop) :
  table (tab w) = Some t → length t = Z.to_nat (p + 1) → 1 ≤ i ≤ p →
  Q tt (with_hw (hw w <| env_htab := tab w <| table := Some (alter g (Z.to_nat i) t) |> |>) w) →
  wp (set_slot i g) Q w.
Proof.
  intros Ht Hlen Hi HQ. unfold set_slot, set_htab. apply wp_bind. eapply wp_slot; [done..|].
  intros n Hn Hv. apply wp_hw_do. unfold update. simpl. rewrite Ht. exact HQ.
Qed.

Lemma views_alter t p i g n :
  length t = Z.to_nat (p + 1) → 1 ≤ i ≤ p → t !! Z.to_nat i = Some n →
  ∀ x, 0 ≤ x → views (alter g (Z.to_nat i) t) x = put i (node_view (g n)) (views t) x.
Proof.
  intros Hlen Hi Hn x Hx. unfold views, put. case_decide as He.
  - subst x. rewrite list_lookup_alter_eq, Hn. done.
  - rewrite list_lookup_alter_ne; [done|]. lia.
Qed.

Lemma strcmp_names k k' : no_nul k → no_nul k' → (strcmp k k' =? 0) = bool_decide (k = k').
Proof.
  unfold no_nul. intros Hk Hk'. apply Bool.eq_iff_eq_true.
  rewrite Z.eqb_eq, bool_decide_eq_true, <- nonzero_false, strcmp_zero. by rewrite Hk, Hk'.
Qed.

(** ** The search *)

Section search.
Context (w : world) (t : list env_entry_node) (p : Z) (m : gmap string string).
Context (Htab : table (tab w) = Some t) (Hp : Z.prime p) (Hr : 5 ≤ p < 2 ^ 31).
Context (Hlen : length t = Z.to_nat (p + 1)) (HL : layout p (views t) m).
Context (item : env_entry) (k : string) (Hitem : key item = Some k) (Hk : no_nul k).
Context (action : env_action) (flag : Z).

Notation hval := (first_hash p k).
Notation at_step j := (probe_at p hval j).

(** The search passes a slot that does not hold the key. *)
Lemma compare_passes i (Q : option (Z * option Z) → world → Prop) :
  1 ≤ i ≤ p → (∀ d, ¬ live p (views t) i k d) → Q None w →
  wp (_compare_and_overwrite_entry item action flag hval i) Q w.
Proof using Htab Hr Hlen HL Hitem Hk.
  intros Hi Hno HQ. unfold _compare_and_overwrite_entry. apply wp_bind.
  eapply wp_slot; [done..|]. intros n Hn Hv.
  destruct (used n =? hval) eqn:Hu; [|by apply wp_ret]. apply Z.eqb_eq in Hu.
  pose proof (first_hash_range p k ltac:(lia)) as Hh.
  destruct (layout_slot p _ m HL i Hi) as [H|[H|(k' & d' & Hl)]].
  1,2: rewrite Hv in H; simpl in H; lia.
  pose proof Hl as (_ & Hf & Hk' & _). rewrite Hv in Hf. injection Hf as _ Hkey _.
  rewrite Hitem, Hkey. apply wp_bind, wp_deref, wp_bind, wp_deref.
  rewrite strcmp_names by done. rewrite bool_decide_eq_false_2; [by apply wp_ret|].
  intros <-. by apply (Hno d').
Qed.

(** [first_deleted] after the steps [0 .. j]. *)
Definition tombstone (j fd : Z) : Prop :=
  (fd = 0 ∧ ∀ j', 0 ≤ j' ≤ j → used_at (views t) (at_step j') ≠ USED_DELETED) ∨
  (∃ jd, 0 ≤ jd ≤ j ∧ fd = at_step jd ∧ used_at (views t) fd = USED_DELETED).

(** The steps [0 .. j] found neither the key nor a free slot. *)
Definition passed (j fd : Z) : Prop :=
  0 ≤ j < p ∧ busy_before p (views t) k (j + 1) ∧ tombstone j fd ∧
  ∀ j' d, 0 ≤ j' ≤ j → ¬ live p (views t) (at_step j') k d.

(** Where the search for a key that is not there ends: where a new variable
    would go, or the table has no room. *)
Definition vacant (idx fd : Z) : Prop :=
  let i := if fd =? 0 then idx else fd in
  (∃ j, 0 ≤ j < p ∧ i = at_step j ∧ busy_before p (views t) k j ∧
    (used_at (views t) i = USED_FREE ∨ used_at (views t) i = USED_DELETED)) ∨
  (∀ i, 1 ≤ i ≤ p → ∃ k d, live p (views t) i k d).

Lemma tombstone_step j fd n :
  tombstone j fd → 0 ≤ j → views t (at_step (j + 1)) = node_view n →
  tombstone (j + 1) (mark_deleted n (at_step (j + 1)) fd).
Proof using Hr Hlen.
  intros Ht Hj Hv. pose proof (probe_at_range Hr hval (j + 1)) as Hx. unfold mark_deleted.
  destruct Ht as [[-> Hno]|(jd & Hjd & -> & Hd)].
  - rewrite Z.eqb_refl, andb_true_r. destruct (used n =? USED_DELETED) eqn:Hu.
    + right. exists (j + 1). rewrite Hv. apply Z.eqb_eq in Hu. split_and!; [lia|lia|done|done].
    + left. split; [done|]. intros j' Hj'. destruct (decide (j' = j + 1)) as [->|?].
      * rewrite Hv. simpl. by apply Z.eqb_neq.
      * apply Hno. lia.
  - right. exists jd. pose proof (probe_at_range Hr hval jd).
    rewrite (proj2 (Z.eqb_neq _ 0)), andb_false_r by lia. split_and!; [lia|lia|done|done].
Qed.

(** A free slot after slots without the key ends the search. *)
Lemma vacant_free j fd :
  0 ≤ j < p → busy_before p (views t) k j → used_at (views t) (at_step j) = USED_FREE →
  fd = 0 ∨ (∃ jd, 0 ≤ jd ≤ j ∧ fd = at_step jd ∧ used_at (views t) fd = USED_DELETED) →
  vacant (at_step j) fd.
Proof using Hr Hlen.
  intros Hj Hb Hf Hfd. left. destruct Hfd as [->|(jd & Hjd & -> & Hd)].
  - exists j. rewrite Z.eqb_refl. split_and!; [lia|lia|done|done|by left].
  - pose proof (probe_at_range Hr hval jd). exists jd. rewrite (proj2 (Z.eqb_neq _ 0)) by lia.
    split_and!; [lia|lia|done| |by right]. intros j' Hj'. apply Hb. lia.
Qed.

(** So does a search of all slots. *)
Lemma vacant_full idx fd : passed (p - 1) fd → vacant idx fd.
Proof using Hp Hr Hlen HL.
  intros (_ & Hb & Ht & _). destruct Ht as [[-> Hno]|(jd & Hjd & -> & Hd)].
  - right. intros i Hi. destruct (probe_at_surj Hp Hr hval i Hi) as (j & Hj & <-).
    destruct (layout_slot p _ m HL (at_step j) Hi) as [H|[H|H]]; [|by exfalso; apply (Hno j); [lia|]|done].
    exfalso. apply (Hb j); [lia|done].
  - left. exists jd. pose proof (probe_at_range Hr hval jd). rewrite (proj2 (Z.eqb_neq _ 0)) by lia.
    split_and!; [lia|lia|done| |by right]. intros j' Hj'. apply Hb. lia.
Qed.

(** The key is not in the map when the slots up to a free one do not hold it. *)
Lemma absent_free j :
  0 ≤ j → busy_before p (views t) k j → (∀ j' d, 0 ≤ j' < j → ¬ live p (views t) (at_step j') k d) →
  (j < p → used_at (views t) (at_step j) = USED_FREE) → m !! k = None.
Proof using Hr Hlen HL.
  intros Hj Hb Hno Hf. apply eq_None_not_Some. intros [d Hd].
  destruct (layout_found p _ m HL k d Hd) as (jk & Hjk & Hl & Hbk).
  destruct (decide (jk < j)) as [?|?]; [apply (Hno jk d); [lia|done]|].
  assert (used_at (views t) (at_step j) = USED_FREE) as Hu by (apply Hf; lia).
  destruct (decide (jk = j)) as [->|?].
  - apply live_used in Hl; [|done]. lia.
  - apply (Hbk j); [lia|done].
Qed.

(** What the search needs of its end: the slot of the key, where the entry is
    compared, or a vacant slot. *)
Context (Q : (Z * Z) + (Z * option Z) → world → Prop).
Context (Hfound : ∀ i d, live p (views t) i k d →
  wp (_compare_and_overwrite_entry item action flag hval i)
    (λ r w', ∃ r', r = Some r' ∧ Q (inr r') w') w).
Context (Hvacant : m !! k = None → ∀ idx fd, vacant idx fd → Q (inl (idx, fd)) w).

Lemma live_dec i : (∃ d, live p (views t) i k d) ∨ ∀ d, ¬ live p (views t) i k d.
Proof.
  unfold live. destruct (decide (1 ≤ i ≤ p)) as [Hi|Hi]; [|right; naive_solver].
  destruct (views t i) as [[u k'] d']. unfold no_nul.
  destruct (decide (u = first_hash p k ∧ k' = Some k)) as [[-> ->]|Hne]; [|right; naive_solver].
  destruct d' as [d'|]; [|right; naive_solver].
  destruct (decide (c_str d' = d')); [left; eauto|right; naive_solver].
Qed.

(** A slot on the way: its entry is compared. *)
Lemma wp_visit i (Q' : option (Z * option Z) → world → Prop) :
  1 ≤ i ≤ p → (∀ r w', Q (inr r) w' → Q' (Some r) w') →
  ((∀ d, ¬ live p (views t) i k d) → Q' None w) →
  wp (_compare_and_overwrite_entry item action flag hval i) Q' w.
Proof using Htab Hr Hlen HL Hitem Hk Hfound.
  intros Hi H1 H2. destruct (live_dec i) as [[d Hl]|Hno].
  - eapply wp_mono; [by apply (Hfound i d)|]. intros r w' (r' & -> & HQ). by apply H1.
  - apply compare_passes; [done|done|by apply H2].
Qed.

Lemma probe_loop fuel j fd :
  passed j fd → p - j ≤ Z.of_nat fuel →
  wp (for_loop fuel (λ _, true) id (probe_next item action flag p hval (second_hash p hval)) (at_step j, fd))
    Q w.
Proof using Htab Hp Hr Hlen HL Hitem Hk Hfound Hvacant.
  revert j fd. induction fuel as [|fuel IH]; intros j fd Hpass Hfuel.
  { destruct Hpass as (Hj & _). lia. }
  pose proof Hpass as (Hj & Hb & Ht & Hno). pose proof (first_hash_range p k ltac:(lia)) as Hh.
  simpl. apply wp_bind. unfold probe_next. rewrite next_index_probe by done.
  destruct (at_step (j + 1) =? hval) eqn:Hc.
  - apply Z.eqb_eq in Hc. rewrite <- (probe_at_0 Hr hval) in Hc at 2 by lia.
    apply probe_at_cycle in Hc as [q Hq]; [|done|done]. assert (j = p - 1) as -> by (clear - Hj Hq Hr; assert (q = 1) as -> by nia; lia).
    apply wp_ret, wp_ret, Hvacant; [|by apply vacant_full].
    apply (absent_free p); [lia| | |lia].
    + by replace p with (p - 1 + 1) at 2 by lia.
    + intros j' d Hj'. apply Hno. lia.
  - apply Z.eqb_neq in Hc.
    assert (j + 1 < p) as Hj1.
    { destruct (decide (j + 1 = p)) as [He|?]; [|lia]. exfalso. apply Hc.
      rewrite He. unfold probe_at. rewrite Z.mul_comm, <- Zminus_mod_idemp_r, Z.mod_mul, Z.sub_0_r by lia.
      rewrite Z.mod_small; lia. }
    pose proof (probe_at_range Hr hval (j + 1)) as Hx.
    apply wp_bind. eapply wp_slot; [done..|]. intros n Hn Hv. apply wp_bind. apply wp_visit; [done| |].
    { intros r w' HQ. by apply wp_ret, wp_ret. }
    intros Hnot. apply wp_bind. eapply wp_slot; [done..|]. intros n' Hn' Hv'.
    assert (n' = n) as -> by congruence. apply wp_ret.
    assert (∀ j' d, 0 ≤ j' ≤ j + 1 → ¬ live p (views t) (at_step j') k d) as Hno'.
    { intros j' d Hj'. destruct (decide (j' = j + 1)) as [->|?]; [done|]. apply Hno. lia. }
    pose proof (tombstone_step j fd n Ht ltac:(lia) Hv) as Ht'.
    destruct (used n =? USED_FREE) eqn:Hu; [apply Z.eqb_eq in Hu|apply Z.eqb_neq in Hu].
    + apply wp_ret, Hvacant.
      * apply (absent_free (j + 1)); [lia|done| |by rewrite Hv]. intros j' d Hj'. apply Hno'. lia.
      * apply vacant_free; [lia|done|by rewrite Hv|]. destruct Ht' as [[? _]|?]; [by left|by right].
    + apply IH; [|lia]. split_and!; [lia|lia| |done|done]. intros j' Hj'.
      destruct (decide (j' = j + 1)) as [->|?]; [by rewrite Hv|]. apply Hb. lia.
Qed.

Lemma wp_probe : wp (probe item action flag p hval) Q w.
Proof using Htab Hp Hr Hlen HL Hitem Hk Hfound Hvacant.
  pose proof (first_hash_range p k ltac:(lia)) as Hh. assert (1 ≤ hval ≤ p) as Hx by lia.
  pose proof (probe_at_0 Hr hval Hx) as H0.
  unfold probe. apply wp_bind. eapply wp_slot; [done..|]. intros n Hn Hv.
  destruct (used n =? USED_FREE) eqn:Hu; [apply Z.eqb_eq in Hu|apply Z.eqb_neq in Hu].
  - apply wp_ret, Hvacant.
    + apply (absent_free 0); [done| | |]; try (intros j'; lia). intros _. by rewrite H0, Hv.
    + rewrite <- H0 at 1. apply vacant_free; [lia| |by rewrite H0, Hv|by left]. intros j'; lia.
  - apply wp_bind. apply wp_visit; [done|by intros; apply wp_ret|]. intros Hno.
    rewrite <- H0 at 3. apply probe_loop; [|lia]. split_and!; [lia|lia| | |].
    + intros j' Hj'. assert (j' = 0) as -> by lia. by rewrite H0, Hv.
    + unfold mark_deleted. rewrite Z.eqb_refl, andb_true_r. destruct (used n =? USED_DELETED) eqn:Hd.
      * right. exists 0. rewrite H0, Hv. apply Z.eqb_eq in Hd. by split_and!; try lia.
      * left. split; [done|]. intros j' Hj'. assert (j' = 0) as -> by lia. rewrite H0, Hv. by apply Z.eqb_neq.
    + intros j' d Hj'. assert (j' = 0) as -> by lia. rewrite H0. done.
Qed.
End search.

(** ** Changes of one slot *)

Lemma wp_entry_at w m i k d (Q : env_entry_node → world → Prop) :
  holds (tab w) m → entry_at (tab w) i k d →
  (∀ n, node_view n = (first_hash (size (tab w)) k, Some k, Some d) → Q n w) → wp (slot i) Q w.
Proof.
  intros (t & Htab & Hp & Hr & Hlen & _) (t' & Htab' & Hi & Hv & _) HQ. simplify_eq.
  eapply wp_slot; [done|exact Hlen|done|]. intros n Hn Hvn. apply HQ. by rewrite <- Hvn.
Qed.

(** An assignment to the callback or the flags. *)
Lemma wp_set_quiet w m i k d g (Q : unit → world → Prop) :
  holds (tab w) m → entry_at (tab w) i k d → (∀ n, node_view (g n) = node_view n) →
  (∀ w', calm w w' → Q tt w') → wp (set_slot i g) Q w.
Proof.
  intros (t & Htab & Hp & Hr & Hlen & _) (t' & Htab' & Hi & _) Hg HQ. simplify_eq.
  eapply wp_set_slot; [done|exact Hlen|done|]. apply HQ. split; [|done].
  unfold shape, update. simpl. rewrite Htab. simpl. do 4 f_equal. apply list_eq. intros x.
  rewrite !list_lookup_fmap. destruct (decide (x = Z.to_nat i)) as [->|Hx].
  - rewrite list_lookup_alter_eq. destruct (t !! _); simpl; [by rewrite Hg|done].
  - by rewrite list_lookup_alter_ne.
Qed.

Lemma holds_alter h t m m' i g n :
  holds h m → table h = Some t → 1 ≤ i ≤ size h → t !! Z.to_nat i = Some n →
  base.size m' = base.size m → layout (size h) (put i (node_view (g n)) (views t)) m' →
  holds (h <| table := Some (alter g (Z.to_nat i) t) |>) m'.
Proof.
  intros (t' & Htab & Hp & Hr & Hlen & Hf & _) Ht Hi Hn Hsz HL'.
  rewrite Ht in Htab. injection Htab as <-.
  exists (alter g (Z.to_nat i) t). unfold update. simpl. split_and!; [done|done|lia|lia| |lia|lia|].
  - by rewrite length_alter.
  - eapply layout_ext; [lia| |exact HL']. intros x Hx. eapply views_alter; [done|done|done|lia].
Qed.

Lemma wp_overwrite w m i k d d' (Q : unit → world → Prop) :
  holds (tab w) m → entry_at (tab w) i k d → no_nul d' →
  (∀ w', holds (tab w') (<[k:=d']> m) → entry_at (tab w') i k d' → kept w w' → Q tt w') →
  wp (set_slot i (λ n, n <| entry := entry n <| data := Some d' |> |>)) Q w.
Proof.
  intros Hh (t & Htab & Hl) Hd' HQ. pose proof Hh as (t' & Htab' & Hp & Hr & Hlen & [Hf Hle] & HL).
  assert (t' = t) as -> by congruence. pose proof Hl as (Hi & Hv & Hk & Hd).
  destruct (lookup_slot t _ i Hlen Hi) as (n & Hn & Hvn).
  set (g := λ n, n <| entry := entry n <| data := Some d' |> |>).
  assert (node_view (g n) = (first_hash (size (tab w)) k, Some k, Some d')) as Hg.
  { rewrite Hvn in Hv. unfold g, node_view, update in *. simpl in *. by injection Hv as -> -> _. }
  pose proof (layout_sound _ _ m HL i k d Hl) as Hm.
  eapply wp_set_slot; [done|exact Hlen|done|]. apply HQ; try done.
  - eapply holds_alter; [done|done|done|done|by eapply map_size_insert_Some|]. rewrite Hg.
    destruct (layout_found _ _ m HL k d Hm) as (j & Hj & Hlj & Hb).
    pose proof (layout_once _ _ m HL i _ k d d Hl Hlj) as ->. eapply layout_write; try done.
    + intros k' d'' H. by destruct (live_eq _ _ _ _ _ _ Hl H).
    + intros x d'' H. by eapply (layout_once _ _ m HL).
  - eexists. unfold update. simpl. split; [done|]. split_and!; [lia|lia| |done|done].
    erewrite views_alter by (done || lia). by rewrite put_same.
Qed.

(** A variable leaves the table. *)
Lemma wp_hdelete w m i k d (Q : unit → world → Prop) :
  holds (tab w) m → entry_at (tab w) i k d →
  (∀ w', holds (tab w') (delete k m) → kept w w' → Q tt w') →
  wp (_hdelete i) Q w.
Proof.
  intros Hh (t & Htab & Hl) HQ. pose proof Hh as (t' & Htab' & Hp & Hr & Hlen & [Hf Hle] & HL).
  assert (t' = t) as -> by congruence. pose proof Hl as (Hi & Hv & _).
  destruct (lookup_slot t _ i Hlen Hi) as (n & Hn & Hvn).
  pose proof (layout_sound _ _ m HL i k d Hl) as Hm.
  assert (base.size m = S (base.size (delete k m))) as Hsz.
  { rewrite <- (insert_delete_id m k d Hm) at 1. apply map_size_insert_None, lookup_delete_eq. }
  unfold _hdelete. apply wp_bind. eapply wp_set_slot; [done|exact Hlen|done|].
  apply wp_hw_do, HQ; [|done]. eexists. unfold update. simpl.
  rewrite wrap32_small by lia. split_and!; [done|done|lia|lia|by rewrite length_alter|lia|lia|].
  eapply layout_ext; [lia| |eapply layout_erase; [lia|exact HL|exact Hl|]]; [|].
  - intros x Hx. by eapply views_alter; try done; lia.
  - done.
Qed.

Context {approve : Prop} `{Hlaw : !HooksLaw approve}.

Lemma wp_malloc_ok w n (Q : bool → world → Prop) :
  (∀ e, (env_inv (other (hw w)) → env_inv e) → Q true (with_hw (hw w <| other := e |>) w)) →
  wp (malloc_ok n) Q w.
Proof using Hlaw.
  intros HQ. unfold malloc_ok. apply wp_hw_call. destruct (law_malloc n (other (hw w))) as [Hm Hi].
  destruct (malloc _ _) as [ok e]. simpl in Hm, Hi. subst ok. by apply HQ.
Qed.

Lemma wp_strdup w s (Q : option string → world → Prop) :
  no_nul s → (∀ e, (env_inv (other (hw w)) → env_inv e) → Q (Some s) (with_hw (hw w <| other := e |>) w)) →
  wp (strdup (Some s)) Q w.
Proof using Hlaw.
  intros Hs HQ. unfold strdup. apply wp_bind, wp_malloc_ok. intros e Hi. apply wp_ret. rewrite Hs. by apply HQ.
Qed.

Lemma wp_change_rejected w m i k d v op fl (Q : bool → world → Prop) :
  holds (tab w) m → entry_at (tab w) i k d →
  (∀ b w', calm w w' → (approve → b = false) → Q b w') → wp (change_rejected i v op fl) Q w.
Proof using Hlaw.
  intros Hh He HQ. unfold change_rejected, get_htab. apply wp_bind, wp_gets.
  destruct (has_change_ok _); [|by apply wp_ret, HQ].
  apply wp_bind. eapply wp_entry_at; [done..|]. intros n _. apply wp_bind.
  eapply wp_mono; [apply law_validate|]. intros r w' [Hc Ha]. apply wp_ret, HQ; [done|].
  intros ?%Ha. by subst.
Qed.

Lemma wp_callback_rejected w m i k d name v op fl (Q : bool → world → Prop) :
  holds (tab w) m → entry_at (tab w) i k d → (op = env_op_delete ↔ v = None) → env_val v →
  (∀ b w', calm w w' → (approve → b = false) → Q b w') → wp (callback_rejected i name v op fl) Q w.
Proof using Hlaw.
  intros Hh He Hop Hv HQ. unfold callback_rejected. apply wp_bind. eapply wp_entry_at; [done..|]. intros n _.
  destruct (callback (entry n)) as [c|]; [|by apply wp_ret, HQ]. apply wp_bind.
  eapply wp_mono; [by apply law_callback|]. intros r w' [Hc Ha]. apply wp_ret, HQ; [done|].
  intros ?%Ha. by subst.
Qed.

Lemma calm_entry w w' m i k d :
  calm w w' → holds (tab w) m → entry_at (tab w) i k d →
  holds (tab w') m ∧ entry_at (tab w') i k d ∧ kept w w'.
Proof.
  intros [Hs Hg] Hh He. split_and!; [by eapply holds_shape|by eapply entry_at_shape|].
  split; [done|]. by injection Hs.
Qed.

(** ** [hsearch_r] *)

Lemma hsearch_probe w m item k action flag (Q : Z * option Z → world → Prop) :
  holds (tab w) m → key item = Some k → no_nul k →
  (∀ i d, entry_at (tab w) i k d → m !! k = Some d →
    wp (_compare_and_overwrite_entry item action flag (first_hash (size (tab w)) k) i)
      (λ r w', ∃ r', r = Some r' ∧ Q r' w') w) →
  (m !! k = None → ∀ t idx fd, table (tab w) = Some t → vacant t (size (tab w)) k idx fd →
    wp (match action with
        | ENV_ENTER =>
            h ← get_htab;
            if filled h =? size h then _ ← set_errno ENOMEM; mret (0, None)
            else hsearch_create item flag (first_hash (size (tab w)) k) (if fd =? 0 then idx else fd)
        | ENV_FIND => _ ← set_errno ESRCH; mret (0, None)
        end) Q w) →
  wp (hsearch_r item action flag) Q w.
Proof.
  intros (t & Htab & Hp & Hr & Hlen & _ & HL) Hitem Hk Hf Hv.
  unfold hsearch_r. rewrite Hitem. apply wp_bind, wp_deref, wp_bind, wp_gets.
  rewrite (proj2 (Z.eqb_neq _ _)) by lia. rewrite Hk. apply wp_bind.
  eapply wp_probe; try done.
  - intros i d Hl. eapply wp_mono; [apply (Hf i d)|].
    + by exists t.
    + by eapply layout_sound.
    + intros r w' (r' & -> & HQ). exists r'. split; [done|]. by apply wp_ret.
  - intros Hm idx fd Hvac. by apply (Hv Hm t).
Qed.

(** Looking a variable up. *)
Lemma hsearch_find w m item k flag :
  holds (tab w) m → key item = Some k → no_nul k →
  wp (hsearch_r item ENV_FIND flag) (λ r w',
    match m !! k with
    | Some d => ∃ i, 1 ≤ i ∧ r = (i, Some i) ∧ w' = w ∧ entry_at (tab w) i k d
    | None => r = (0, None) ∧ w' = with_hw (hw w <| errno := ESRCH |>) w
    end) w.
Proof.
  intros Hh Hitem Hk. eapply hsearch_probe; [done..| |].
  - intros i d He Hm. rewrite Hm. unfold _compare_and_overwrite_entry. apply wp_bind.
    eapply wp_entry_at; [done..|]. intros n [= Hu Hkey Hd]. rewrite Hu, Z.eqb_refl, Hitem, Hkey.
    apply wp_bind, wp_deref, wp_bind, wp_deref. rewrite strcmp_names, bool_decide_eq_true_2 by done.
    apply wp_ret. eexists. split; [done|]. exists i. destruct He as (t & Ht & Hl).
    split_and!; [by destruct Hl as [[??] _]|done|done|by exists t].
  - intros -> t idx fd Ht _. apply wp_bind, wp_hw_do, wp_ret. done.
Qed.

(** Entering a variable: it is there, or nothing has changed, because the
    change was refused or a new variable has no room. *)
Definition entered w m k d (r : Z * option Z) w' : Prop :=
  kept w w' ∧
  ((1 ≤ r.1 ∧ holds (tab w') (<[k:=d]> m) ∧ ∃ i, r.2 = Some i ∧ entry_at (tab w') i k d) ∨
   (r = (0, None) ∧ holds (tab w') m ∧
    ¬ (approve ∧ (m !! k = None → Z.of_nat (base.size m) < size (tab w))))).

Lemma wp_refuse {A} w w1 m k d e (r : A) (Q : A → world → Prop) b :
  kept w w1 → holds (tab w1) m → (approve → b = false) → b = true →
  (∀ w', entered w m k d (0, None) w' → Q r w') → wp (_ ← set_errno e; mret r) Q w1.
Proof.
  intros Hk Hh Ha Hb HQ. apply wp_bind, wp_hw_do, wp_ret, HQ. split; [done|]. right.
  split_and!; [done|done|]. intros [Happ _]. rewrite Ha in Hb; done.
Qed.

Lemma compare_overwrites w m item k d0 d flag i :
  holds (tab w) m → entry_at (tab w) i k d0 → key item = Some k → data item = Some d →
  no_nul k → no_nul d → env_val (Some d) →
  wp (_compare_and_overwrite_entry item ENV_ENTER flag (first_hash (size (tab w)) k) i)
    (λ r w', ∃ r', r = Some r' ∧ entered w m k d r' w') w.
Proof using Hlaw.
  intros Hh He Hitem Hdata Hk Hd Hval. unfold _compare_and_overwrite_entry. apply wp_bind.
  eapply wp_entry_at; [done..|]. intros n [= Hu Hkey Hd0]. rewrite Hu, Z.eqb_refl, Hitem, Hkey, Hdata.
  apply wp_bind, wp_deref, wp_bind, wp_deref. rewrite strcmp_names, bool_decide_eq_true_2 by done.
  apply wp_bind. eapply wp_change_rejected; [done..|]. intros b w1 H1 Hb.
  destruct (calm_entry w w1 m i k d0 H1 Hh He) as (Hh1 & He1 & Hk1).
  destruct b; [by eapply wp_refuse; eauto|].
  apply wp_bind. eapply wp_callback_rejected; [done..|]. intros b w2 H2 Hb2.
  destruct (calm_entry w1 w2 m i k d0 H2 Hh1 He1) as (Hh2 & He2 & Hk2).
  assert (kept w w2) as Hk02 by (by etrans).
  destruct b; [by eapply wp_refuse; eauto|].
  apply wp_bind, wp_strdup; [done|]. intros e Hinv. apply wp_bind.
  eapply (wp_overwrite _ m i k d0 d); [done..|]. intros w3 Hh3 He3 Hk3. apply wp_ret.
  eexists. split; [done|]. split; [etrans; [exact Hk02|]; etrans; [|exact Hk3]; by repeat split|]. left.
  destruct He3 as (t & Ht & Hl). pose proof Hl as ([Hi _] & _). split_and!; [done|done|].
  exists i. split; [done|]. by exists t.
Qed.

(** The slot that a new variable gets. *)
Lemma holds_new h t m i j k d g n :
  holds h m → table h = Some t → m !! k = None → filled h ≠ size h → no_nul k → no_nul d →
  0 ≤ j < size h → i = probe_at (size h) (first_hash (size h) k) j →
  busy_before (size h) (views t) k j → views t i = node_view n → t !! Z.to_nat i = Some n →
  used_at (views t) i = USED_FREE ∨ used_at (views t) i = USED_DELETED →
  node_view (g n) = (first_hash (size h) k, Some k, Some d) →
  let h' := h <| table := Some (alter g (Z.to_nat i) t) |> <| filled := wrap32 (filled h + 1) |> in
  holds h' (<[k:=d]> m) ∧ entry_at h' i k d.
Proof.
  intros (t' & Htab & Hp & Hr & Hlen & [Hf Hle] & HL) Ht Hm Hfill Hk Hd Hj Hi Hb Hv Hn Hu Hg h'.
  rewrite Ht in Htab. injection Htab as <-.
  assert (1 ≤ i ≤ size h) as Hir by (subst i; by apply probe_at_range).
  assert (∀ x, 1 ≤ x ≤ size h → views (alter g (Z.to_nat i) t) x =
    put i (first_hash (size h) k, Some k, Some d) (views t) x) as Hviews.
  { intros x Hx. rewrite <- Hg. eapply views_alter; [exact Hlen|done|done|lia]. }
  unfold h', update. split; exists (alter g (Z.to_nat i) t); simpl; cycle 1.
  { split; [done|]. split; [done|]. rewrite Hviews by done. by rewrite put_same. }
  rewrite wrap32_small by lia.
  split_and!; [done|done|lia|lia|by rewrite length_alter| |lia|].
  { rewrite map_size_insert_None by done. lia. }
  eapply layout_ext; [lia|exact Hviews|]. eapply layout_write; try done.
  - intros k' d' Hl. apply live_used in Hl; [|done]. lia.
  - intros x d' Hl. apply (layout_sound _ _ _ HL) in Hl. congruence.
Qed.

(** A new variable stands in slot [i]. *)
Definition standing w m k d (i : Z) w' : Prop :=
  kept w w' ∧ holds (tab w') (<[k:=d]> m) ∧ entry_at (tab w') i k d.

Lemma standing_calm w m k d i w1 w2 : calm w1 w2 → standing w m k d i w1 → standing w m k d i w2.
Proof.
  intros Hc (Hk & Hh & He). destruct (calm_entry w1 w2 _ i k d Hc Hh He) as (? & ? & ?).
  split; [|done]. by etrans.
Qed.

Lemma wp_retract w w1 m k d i e b :
  standing w m k d i w1 → m !! k = None → (approve → b = false) → b = true →
  wp (_ ← _hdelete i; _ ← set_errno e; mret (0, None)) (entered w m k d) w1.
Proof.
  intros (Hk & Hh & He) Hm Ha Hb. apply wp_bind. eapply wp_hdelete; [done..|]. intros w2 Hh2 Hk2.
  rewrite delete_insert_id in Hh2 by done. eapply wp_refuse; [|done|done|done|done]. by etrans.
Qed.

Lemma wp_set_standing w m k d i w1 g (Q : unit → world → Prop) :
  standing w m k d i w1 → (∀ n, node_view (g n) = node_view n) →
  (∀ w2, standing w m k d i w2 → Q tt w2) → wp (set_slot i g) Q w1.
Proof.
  intros Hst Hg HQ. pose proof Hst as (_ & Hh & He). eapply wp_set_quiet; [done..|].
  intros w2 Hc. apply HQ. by eapply standing_calm.
Qed.

Lemma wp_admit w w1 m item k d flag i :
  standing w m k d i w1 → m !! k = None → key item = Some k → data item = Some d → env_val (Some d) →
  wp (hsearch_admit item k flag i) (entered w m k d) w1.
Proof using Hlaw.
  intros H1 Hm Hitem Hdata Hval. unfold hsearch_admit. rewrite Hdata. apply wp_bind.
  eapply wp_mono; [apply law_callback_init|]. intros c w2 H2. eapply standing_calm in H2; [|done].
  apply wp_bind. apply (wp_mono _ (λ _, standing w m k d i)).
  { destruct c; [|by apply wp_ret]. by eapply wp_set_standing. }
  intros _ w3 H3. apply wp_bind.
  eapply wp_mono; [apply law_flags_init|]. intros fl w4 H4. eapply standing_calm in H4; [|done].
  apply wp_bind. apply (wp_mono _ (λ _, standing w m k d i)).
  { destruct fl; [|by apply wp_ret]. by eapply wp_set_standing. }
  intros _ w5 H5. apply wp_bind. pose proof H5 as (_ & Hh5 & He5).
  eapply wp_change_rejected; [done..|]. intros b w6 H6 Hb. eapply standing_calm in H6; [|done].
  destruct b; [by eapply wp_retract|]. rewrite Hitem. apply wp_bind, wp_deref, wp_bind.
  pose proof H6 as (_ & Hh6 & He6).
  eapply wp_callback_rejected; [done..|]. intros b w7 H7 Hb7. eapply standing_calm in H7; [|done].
  destruct b; [by eapply wp_retract|]. apply wp_ret. destruct H7 as (Hk7 & Hh7 & He7).
  split; [done|]. left. split_and!; [done|done|]. by exists i.
Qed.

Lemma wp_create w t m item k d flag idx fd :
  holds (tab w) m → table (tab w) = Some t → m !! k = None → filled (tab w) ≠ size (tab w) →
  key item = Some k → data item = Some d → no_nul k → no_nul d → env_val (Some d) →
  vacant t (size (tab w)) k idx fd →
  wp (hsearch_create item flag (first_hash (size (tab w)) k) (if fd =? 0 then idx else fd))
    (entered w m k d) w.
Proof using Hlaw.
  intros Hh Ht Hm Hfill Hitem Hdata Hk Hd Hval Hvac.
  pose proof Hh as (t' & Htab & Hp & Hr & Hlen & [Hf Hle] & HL). assert (t' = t) as -> by congruence.
  destruct Hvac as [(j & Hj & Hi & Hb & Hu)|Hall]; [|by destruct (layout_room Hr _ m HL ltac:(lia))].
  set (i := if fd =? 0 then idx else fd) in *.
  assert (1 ≤ i ≤ size (tab w)) as Hir by (rewrite Hi; by apply probe_at_range).
  destruct (lookup_slot t _ i Hlen Hir) as (n & Hn & Hv).
  unfold hsearch_create. rewrite Hitem, Hdata. apply wp_bind.
  eapply wp_set_slot; [done|exact Hlen|done|]. apply wp_bind, wp_strdup; [done|]. intros e1 Hi1. apply wp_bind.
  eapply wp_set_slot; [done|by rewrite length_alter|done|]. apply wp_bind, wp_strdup; [done|]. intros e2 Hi2.
  apply wp_bind. eapply wp_set_slot; [done|by rewrite !length_alter|done|]. apply wp_bind, wp_hw_do.
  apply wp_admit; [|done..]. unfold standing. split; [split; [split|]; [done|simpl in *; tauto|done]|].
  unfold update. simpl. rewrite !list_alter_alter_eq.
  eapply (holds_new (tab w) t); try done.
Qed.

Lemma hsearch_enter w m item k d flag :
  holds (tab w) m → key item = Some k → data item = Some d → no_nul k → no_nul d → env_val (Some d) →
  wp (hsearch_r item ENV_ENTER flag) (entered w m k d) w.
Proof using Hlaw.
  intros Hh Hitem Hdata Hk Hd Hval. eapply hsearch_probe; [done..| |].
  - intros i d0 He Hm. by eapply compare_overwrites.
  - intros Hm t idx fd Ht Hvac. apply wp_bind, wp_gets.
    destruct (filled (tab w) =? size (tab w)) eqn:Hf.
    + apply Z.eqb_eq in Hf. apply wp_bind, wp_hw_do, wp_ret. split; [done|]. right.
      split_and!; [done|done|]. intros [_ Hroom]. specialize (Hroom Hm).
      destruct Hh as (t' & _ & _ & _ & _ & [Hsz _] & _). lia.
    + apply Z.eqb_neq in Hf. by eapply wp_create.
Qed.

(** ** [hdelete_r] *)

(** Deleting a variable: it is gone, or nothing has changed, because there is
    none or the change was refused. *)
Definition deleted w m k (r : Z) w' : Prop :=
  kept w w' ∧
  ((r = 1 ∧ is_Some (m !! k) ∧ holds (tab w') (delete k m)) ∨
   (r = 0 ∧ holds (tab w') m ∧ ¬ (approve ∧ is_Some (m !! k)))).

Lemma hdelete_spec w m k flag :
  holds (tab w) m → no_nul k → env_val None → wp (hdelete_r k flag) (deleted w m k) w.
Proof using Hlaw.
  intros Hh Hk Hval. unfold hdelete_r. apply wp_bind. eapply wp_mono; [by eapply hsearch_find|].
  intros [i p] w1 H1. destruct (m !! k) as [d|] eqn:Hm.
  2:{ destruct H1 as [[= -> _] ->]. apply wp_bind, wp_hw_do, wp_ret. split; [done|]. right.
      split_and!; [done|done|]. intros [_ [? Hs]]. congruence. }
  destruct H1 as (i' & Hi & [= -> ->] & -> & He). rewrite (proj2 (Z.eqb_neq _ 0)) by lia.
  assert (∀ w1 e, calm w w1 → ¬ approve → wp (_ ← set_errno e; mret 0) (deleted w m k) w1) as Hno.
  { intros w1 e Hc Ha. destruct (calm_entry w w1 m i' k d Hc Hh He) as (? & ? & ?).
    apply wp_bind, wp_hw_do, wp_ret. split; [done|]. right. split_and!; [done|done|]. by intros [? _]. }
  apply wp_bind. eapply wp_change_rejected; [done..|]. intros b w1 H1 Hb.
  destruct b; [apply Hno; [done|]; intros ?%Hb; done|].
  destruct (calm_entry w w1 m i' k d H1 Hh He) as (Hh1 & He1 & Hk1).
  apply wp_bind. eapply wp_callback_rejected; [done..|]. intros b w2 H2 Hb2.
  destruct b; [apply Hno; [by etrans|]; intros ?%Hb2; done|].
  destruct (calm_entry w1 w2 m i' k d H2 Hh1 He1) as (Hh2 & He2 & Hk2).
  apply wp_bind. eapply wp_hdelete; [done..|]. intros w3 Hh3 Hk3. apply wp_ret.
  split; [etrans; [exact Hk1|]; by etrans|]. left. split_and!; [done|by eexists|done].
Qed.

(** ** [hcreate_r] and [hdestroy_r] *)

(** The sizes [himport_r] asks for have a prime soon after them. *)
Lemma sizes_found nel :
  4 ≤ nel ≤ 1024 → ∃ p, next_prime (Z.to_nat (Z.lor nel 1)) (Z.lor nel 1) = Some p.
Proof.
  intros H.
  assert (forallb (λ n, bool_decide (is_Some (next_prime (Z.to_nat (Z.lor n 1)) (Z.lor n 1)))) (seqZ 4 1021)
    = true) as Hall by (vm_compute; reflexivity).
  rewrite forallb_forall in Hall. specialize (Hall nel). rewrite bool_decide_eq_true in Hall.
  apply Hall, list_elem_of_In, elem_of_seqZ. lia.
Qed.

(** A new table is empty and has room for as many variables as were asked
    for. *)
Lemma hcreate_spec w nel :
  table (tab w) = None → 4 ≤ nel ≤ 1024 →
  wp (hcreate_r nel) (λ r w',
    r = 1 ∧ holds (tab w') ∅ ∧ nel ≤ size (tab w') ∧ gd_flags (hw w') = gd_flags (hw w)) w.
Proof using Hlaw.
  intros Ht Hn. unfold hcreate_r, get_htab. apply wp_bind, wp_gets. rewrite Ht.
  destruct (sizes_found nel Hn) as [p Hp]. rewrite Hp.
  destruct (lor_1 nel ltac:(lia)) as [Hodd Hle].
  apply next_prime_spec in Hp as (Hpn & Hprime & _); [|done|lia|lia].
  apply wp_bind, wp_hw_do, wp_bind, wp_malloc_ok. intros e _. apply wp_bind, wp_hw_do, wp_ret. unfold update. simpl. split_and!; [done| |lia|done].
  eexists. simpl. split_and!; [done|done|lia|lia|by rewrite length_replicate|done|lia|].
  eapply layout_ext; [lia| |apply layout_empty; lia]. intros i Hi. unfold views.
  by rewrite lookup_replicate_2 by lia.
Qed.

Lemma hdestroy_spec w m :
  holds (tab w) m →
  wp hdestroy_r (λ _ w', table (tab w') = None ∧ gd_flags (hw w') = gd_flags (hw w)) w.
Proof.
  intros (t & Htab & Hp & Hr & Hlen & _). unfold hdestroy_r, get_htab. apply wp_bind, wp_gets, wp_bind.
  apply (wp_for_loop (λ i w', 1 ≤ i ≤ size (tab w) + 1 ∧ w' = w) (λ i, Z.to_nat (size (tab w) + 1 - i)));
    [lia|split; [lia|done]| |].
  - intros i ? [Hi ->] Hc%Z.leb_le. apply wp_bind. eapply wp_slot; [done|exact Hlen|lia|].
    intros n _ _. apply wp_ret. split; [split; [lia|done]|lia].
  - intros i ? [Hi ->] _. by apply wp_hw_do.
Qed.

(** ** [hmatch_r] *)

(** The search stops one slot early: the entry found is never that of slot
    [size], which the probe sequence uses. *)
Lemma hmatch_below w m match_ last_idx :
  holds (tab w) m → 0 ≤ last_idx < size (tab w) →
  wp (hmatch_r match_ last_idx) (λ r w', r.1 < size (tab w) ∧ kept w w' ∧ holds (tab w') m) w.
Proof.
  intros Hh Hi. pose proof Hh as (t & Htab & Hp & Hr & Hlen & _ & HL). unfold hmatch_r, get_htab.
  rewrite (wrap32_small (last_idx + 1)) by lia. apply wp_bind, wp_gets, wp_bind.
  apply (wp_for_loop (λ i w', 1 ≤ i ≤ size (tab w) ∧ w' = w) (λ i, Z.to_nat (size (tab w) - i)));
    [lia|split; [lia|done]| |].
  - intros i ? [Hi' ->] Hc%Z.ltb_lt. apply wp_bind. eapply wp_slot; [done|exact Hlen|lia|]. intros n _ Hv.
    destruct (used n <=? 0) eqn:Hu; [apply wp_ret; split; [split; [lia|done]|lia]|]. apply Z.leb_gt in Hu.
    destruct (layout_slot _ _ _ HL i ltac:(lia)) as [H|[H|(k & d & _ & Hl & _)]].
    1,2: rewrite Hv in H; simpl in H; lia.
    rewrite Hv in Hl. injection Hl as _ Hkey _. rewrite Hkey. apply wp_bind, wp_deref.
    destruct (_ =? 0); apply wp_ret; [by apply wp_ret|]. split; [split; [lia|done]|lia].
  - intros i ? [Hi' ->] _. apply wp_bind, wp_hw_do, wp_ret. split_and!; [simpl; lia|done..].
Qed.
End hash_facts.
