(* ===== verification/HashText.v ===== *)
(** The environment as text, [hexport_r] and [himport_r] of
    [lib/hashtable.c]: the variables written as [name=value] entries with a
    separator, and read back. *)

From S2P Require Import Prelude CLib Vsprintf VsprintfFacts Machine QSort HashTable.

(** The regular expressions of [lib/slre.c]: a compiled expression or the
    message of the compiler, and whether it matches a text. *)
Class Slre := {
  slre : Type;
  slre_compile : string → slre + string;
  slre_match : slre → string → bool;
}.

(** [lib/string.c]: the text from the first occurrence of [s2] on.  The loop
    runs while as many characters are left as [s2] has. *)
Fixpoint strstr_from (s1 s2 : string) : option string :=
  if slen s1 <? slen s2 then None
  else if String.prefix s2 s1 then Some s1
  else match s1 with "" => None | String _ s1' => strstr_from s1' s2 end.

Definition strstr (s1 s2 : string) : option string :=
  if slen (c_str s2) =? 0 then Some s1 else strstr_from (c_str s1) (c_str s2).

(** * Characters *)

Definition backslash : ascii := "092"%char.
Definition equals : ascii := "061"%char.
Definition hash_sign : ascii := "035"%char.
Definition isblank (c : ascii) : bool := Ascii.eqb c "032"%char || Ascii.eqb c "009"%char.

(** * Export *)

Definition needs_escape (sep c : ascii) : bool := Ascii.eqb c sep || Ascii.eqb c backslash.

(** The room pass 1 reserves for a value. *)
Definition room_for (sep : ascii) (d : string) : Z :=
  if Ascii.eqb sep NUL then strlen d
  else foldr (λ c n, n + 1 + (if needs_escape sep c then 1 else 0)) 0 (list_of_str (c_str d)).

(** What pass 2 writes for a value and for an entry. *)
Definition escaped (sep : ascii) (d : list ascii) : list ascii :=
  d ≫= λ c, if needs_escape sep c then [backslash; c] else [c].

Definition entry_text (sep : ascii) (kd : string * string) : list ascii :=
  list_of_str (c_str kd.1) ++ [equals] ++ escaped sep (list_of_str (c_str kd.2)) ++ [sep].

Definition cmpkey (e1 e2 : string * string) : Z := strcmp e1.1 e2.1.

(** [memcpy] of [text] to the start of a buffer. *)
Definition copy_into {S} (text buf : list ascii) : M S (list ascii) :=
  if (length text <=? length buf)%nat then mret (text ++ drop (length text) buf)
  else crash OUT_OF_BOUNDS.

(** * Import *)

Definition carriage_return : ascii := "013"%char.
Definition line_feed : ascii := "010"%char.

(** The text up to the first character that satisfies [stop], and the rest
    from that character on. *)
Fixpoint span_until (stop : ascii → bool) (l : list ascii) : list ascii * list ascii :=
  match l with
  | [] => ([], [])
  | c :: l' => if stop c then ([], l) else let '(a, b) := span_until stop l' in (c :: a, b)
  end.

Fixpoint skip_blanks (l : list ascii) : list ascii :=
  match l with
  | c :: l' => if isblank c then skip_blanks l' else l
  | [] => []
  end.

(** The loop that reads a value: a backslash before a character other than
    NUL stands for that character. *)
Fixpoint parse_value (sep : ascii) (l : list ascii) : list ascii * list ascii :=
  match l with
  | [] => ([], [])
  | c :: l' =>
      if Ascii.eqb c NUL || Ascii.eqb c sep then ([], l)
      else
        match l' with
        | c' :: l'' =>
            if Ascii.eqb c backslash && negb (Ascii.eqb c' NUL)
            then let '(a, b) := parse_value sep l'' in (c' :: a, b)
            else let '(a, b) := parse_value sep l' in (c :: a, b)
        | [] => ([c], [])
        end
  end.

(** The carriage returns before line feeds are removed from the text up to
    the first NUL; what follows is left where it is. *)
Fixpoint strip_cr (l : list ascii) : list ascii :=
  match l with
  | c :: (c' :: _) as l' =>
      if Ascii.eqb c carriage_return && Ascii.eqb c' line_feed then strip_cr l' else c :: strip_cr l'
  | _ => l
  end.

Definition crlf_to_lf (size : Z) (data : list ascii) : list ascii * Z :=
  let text := (span_until (Ascii.eqb NUL) (take (Z.to_nat size) data)).1 in
  let text' := strip_cr text in
  (text' ++ drop (length text') data, size - Z.of_nat (length text - length text')).

(** Whether [name] is to be processed, and the list without it; a null
    pointer is [None]. *)
Fixpoint drop_from_vars (name : string) (vars : list (option string)) : bool * list (option string) :=
  match vars with
  | [] => (false, [])
  | v :: vars' =>
      let '(res, vars') := drop_from_vars name vars' in
      match v with
      | None => (res, None :: vars')
      | Some s => if strcmp name s =? 0 then (true, None :: vars') else (res, Some s :: vars')
      end
  end.

Definition drop_var_from_set (name : string) (vars : list (option string)) :
    bool * list (option string) :=
  match vars with
  | [] => (true, [])
  | _ => drop_from_vars name vars
  end.

Section hash_text.
Context {E : Type} `{!EnvHooks E} `{!Slre}.
Notation world := (world (env_globals E)).
Notation M := (M world).

Definition match_string (flag : Z) (str pat : string) (priv : slre) : M bool :=
  let how := Z.land flag H_MATCH_METHOD in
  if how =? H_MATCH_IDENT then mret (strcmp str pat =? 0)
  else if how =? H_MATCH_SUBSTR then mret (match strstr str pat with Some _ => true | None => false end)
  else if how =? H_MATCH_REGEX then mret (slre_match priv str)
  else
    _ ← printf ("## ERROR: unsupported match method: 0x%02x" +:+ newline) [VInt how];
    mret false.

Fixpoint match_entry (ep : env_entry) (flag : Z) (argv : list string) : M bool :=
  match argv with
  | [] => mret false
  | arg :: argv' =>
      match slre_compile arg with
      | inr err_str =>
          _ ← printf ("Error compiling regex: %s" +:+ newline) [VStr (Some err_str)];
          mret false
      | inl priv =>
          found ← (if nonzero (Z.land flag H_MATCH_KEY) then
                     k ← deref (key ep); match_string flag k arg priv
                   else mret false);
          if found : bool then mret true
          else
            found ← (if nonzero (Z.land flag H_MATCH_DATA) then
                       d ← deref (data ep); match_string flag d arg priv
                     else mret false);
            if found : bool then mret true else match_entry ep flag argv'
      end
  end.

(** A slot in pass 1; the loop variables are [i], [list] and [totlen]. *)
Definition export_slot (sep : ascii) (flag : Z) (argv : list string)
    (x : Z * list (string * string) * Z) : M (ctl (Z * list (string * string) * Z) unit) :=
  let '(i, list, totlen) := x in
  n ← slot i;
  if used n <=? 0 then mret (Continue x)
  else
    found ← match_entry (entry n) flag argv;
    if (0 <? Z.of_nat (length argv)) && negb found then mret (Continue x)
    else
      k ← deref (key (entry n));
      if nonzero (Z.land flag H_HIDE_DOT) && Ascii.eqb (default NUL (str_at k 0)) "046"%char
      then mret (Continue x)
      else
        d ← deref (data (entry n));
        mret (Continue (i, list ++ [(k, d)], wrap32 (totlen + (strlen k + room_for sep d + 2)))).

(** Pass 1: the entries to export and the length they are given. *)
Definition export_scan (sep : ascii) (flag : Z) (argv : list string) :
    M (list (string * string) * Z) :=
  h ← get_htab;
  r ← for_loop (S (Z.to_nat (size h))) (λ x : Z * list (string * string) * Z, x.1.1 <=? size h)
        (λ x, (x.1.1 + 1, x.1.2, x.2)) (export_slot sep flag argv) (1, [], 0);
  match r with
  | inl x => mret (x.1.2, x.2)
  | inr _ => mret ([], 0)
  end.

(** The result and the buffer at [*resp].  The caller's buffer is given with
    its contents; [None] is a null pointer. *)
Definition hexport_r (sep : ascii) (flag : Z) (resp : option (list ascii)) (size : Z)
    (argv : list string) : M (Z * option (list ascii)) :=
  '(list, totlen) ← export_scan sep flag argv;
  match qsort cmpkey list with
  | None => fun _ => NoFuel
  | Some list =>
      if nonzero size && (size <? wrap32 (totlen + 1)) then
        _ ← printf ("Env export buffer too small: %lu, but need %lu" +:+ newline)
              [VInt size; VInt (wrap32 (totlen + 1))];
        _ ← set_errno ENOMEM;
        mret (-1, resp)
      else
        let size := if nonzero size then size else wrap32 (totlen + 1) in
        res ← match resp with
              | Some buf =>
                  if Z.of_nat (length buf) <? size then crash OUT_OF_BOUNDS
                  else mret (Some (replicate (Z.to_nat size) NUL ++ drop (Z.to_nat size) buf))
              | None =>
                  ok ← malloc_ok size;
                  mret (if ok : bool then Some (replicate (Z.to_nat size) NUL) else None)
              end;
        match res with
        | None => _ ← set_errno ENOMEM; mret (-1, None)
        | Some res =>
            res ← copy_into ((list ≫= entry_text sep) ++ [NUL]) res;
            mret (size, Some res)
        end
  end.

(** [*dp] *)
Definition peek (dp : list ascii) : M ascii :=
  match dp with c :: _ => mret c | [] => crash OUT_OF_BOUNDS end.

(** One round of the parsing loop: the text left and the variables left, or
    [None] when the function returns 0.  The buffer is read from [dp] on; what
    the loop writes lies before it. *)
Definition import_entry (sep : ascii) (flag : Z) (dp : list ascii) (vars : list (option string)) :
    M (option (list ascii * list (option string))) :=
  let dp := skip_blanks dp in
  c ← peek dp;
  if Ascii.eqb c hash_sign then
    let dp := (span_until (λ c, Ascii.eqb c NUL || Ascii.eqb c sep) dp).2 in
    _ ← peek dp;
    mret (Some (drop 1 dp, vars))
  else
    let '(name, dp) :=
      span_until (λ c, Ascii.eqb c equals || Ascii.eqb c NUL || Ascii.eqb c sep) dp in
    let name := str_of_list name in
    c ← peek dp;
    c1 ← (if Ascii.eqb c NUL then mret NUL else peek (drop 1 dp));
    if Ascii.eqb c NUL || Ascii.eqb c1 NUL || Ascii.eqb c sep || Ascii.eqb c1 sep then
      let dp := if Ascii.eqb c equals then drop 2 dp else drop 1 dp in
      let '(listed, vars) := drop_var_from_set name vars in
      if listed : bool then
        _ ← hdelete_r name flag;
        mret (Some (dp, vars))
      else mret (Some (dp, vars))
    else
      let '(value, dp) := parse_value sep (drop 1 dp) in
      let value := str_of_list value in
      _ ← peek dp;
      let dp := drop 1 dp in
      if slen name =? 0 then _ ← set_errno EINVAL; mret None
      else
        let '(listed, vars) := drop_var_from_set name vars in
        if listed : bool then
          '(_, rv) ← hsearch_r (mkEntry (Some name) (Some value) None 0) ENV_ENTER flag;
          _ ← (match rv with
               | None =>
                   printf ("himport_r: can't insert " +:+ quote +:+ "%s=%s" +:+ quote +:+
                           " into hash table" +:+ newline) [VStr (Some name); VStr (Some value)]
               | Some _ => mret tt
               end);
          mret (Some (dp, vars))
        else mret (Some (dp, vars)).

(** The [do] loop.  [past] is the number of bytes of the buffer from
    [data + size] on; a round moves [dp] forward. *)
Fixpoint import_loop (fuel : nat) (past : Z) (sep : ascii) (flag : Z) (dp : list ascii)
    (vars : list (option string)) : M (option (list (option string))) :=
  match fuel with
  | O => fun _ => NoFuel
  | S fuel' =>
      r ← import_entry sep flag dp vars;
      match r with
      | None => mret None
      | Some (dp, vars) =>
          if past <? Z.of_nat (length dp) then
            c ← peek dp;
            if Ascii.eqb c NUL then mret (Some vars) else import_loop fuel' past sep flag dp vars
          else mret (Some vars)
      end
  end.

(** The variables that were listed and not in the text. *)
Fixpoint import_rest (flag : Z) (vars : list (option string)) : M unit :=
  match vars with
  | [] => mret tt
  | None :: vars' => import_rest flag vars'
  | Some v :: vars' =>
      r ← hdelete_r v flag;
      _ ← printf ((if r =? 0 then "WARNING: '%s' neither in running nor in imported env!"
                   else "WARNING: '%s' not in imported env, deleting it!") +:+ newline) [VStr (Some v)];
      import_rest flag vars'
  end.

Notation CONFIG_ENV_MIN_ENTRIES := 64 (only parsing).
Notation CONFIG_ENV_MAX_ENTRIES := 512 (only parsing).

Definition himport_r (env : list ascii) (size : Z) (sep : ascii) (flag crlf_is_lf : Z)
    (vars : list string) : M Z :=
  ok ← malloc_ok (wrap32 (size + 1));
  if negb ok then _ ← set_errno ENOMEM; mret 0
  else if Z.of_nat (length env) <? size then crash OUT_OF_BOUNDS
  else
    let data := take (Z.to_nat size) env ++ [NUL] in
    let nvars := Z.of_nat (length vars) in
    h ← get_htab;
    _ ← (if (Z.land flag H_NOCLEAR =? 0) && (nvars =? 0)
         then match table h with Some _ => hdestroy_r | None => mret tt end
         else mret tt);
    h ← get_htab;
    made ← match table h with
           | Some _ => mret 1
           | None =>
               let nent := CONFIG_ENV_MIN_ENTRIES + size / 8 in
               hcreate_r (if CONFIG_ENV_MAX_ENTRIES <? nent then CONFIG_ENV_MAX_ENTRIES else nent)
           end;
    if made =? 0 then mret 0
    else if size =? 0 then mret 1
    else
      let '(data, size') := if nonzero crlf_is_lf then crlf_to_lf size data else (data, size) in
      r ← import_loop (length data) (size + 1 - size') sep flag data (Some <$> vars);
      match r with
      | None => mret 0
      | Some localvars =>
          if nonzero (Z.land flag H_NOCLEAR) then mret 1
          else _ ← import_rest flag localvars; mret 1
      end.
End hash_text.
