(* ===== verification/HashTextFacts.v ===== *)
(** The text that [hexport_r] writes is what [himport_r] reads: the exported
    entries are those of the table, sorted by name, and importing them gives
    the table's variables back. *)

From stdpp Require Import sorting.
From S2P Require Import Prelude CLib Vsprintf VsprintfFacts Machine QSort HashTable HashFacts HashText.

(** * One entry *)

(** What the separator must not be. *)
Definition good_sep (sep : ascii) : Prop := sep ≠ backslash ∧ sep ≠ equals.

(** A name that the text can carry: not empty, without ['='] and separators,
    and not taken for white space or a comment at its start. *)
Definition good_name (sep : ascii) (k : string) : Prop :=
  no_nul k ∧ Forall (λ c, c ≠ equals ∧ c ≠ sep ∧ c ≠ NUL) (list_of_str k) ∧
  match k with "" => False | String c _ => isblank c = false ∧ c ≠ hash_sign end.

Definition good_value (d : string) : Prop := d ≠ "" ∧ Forall (λ c, c ≠ NUL) (list_of_str d).

Lemma no_nul_forall s : Forall (λ c, c ≠ NUL) (list_of_str s) → no_nul s.
Proof.
  unfold no_nul. induction s as [|c s IH]; [done|]. intros [Hc Hs]%Forall_cons. simpl.
  destruct (Ascii.eqb_spec c NUL); [done|]. by rewrite IH.
Qed.

Lemma good_name_nul sep k : good_name sep k → no_nul k.
Proof. by intros [? _]. Qed.

Lemma good_value_nul d : good_value d → no_nul d.
Proof. intros [_ H]. by apply no_nul_forall. Qed.

Lemma eqb_false a b : a ≠ b → Ascii.eqb a b = false.
Proof. by intros ?%Ascii.eqb_neq. Qed.

Lemma str_of_list_of_str s : str_of_list (list_of_str s) = s.
Proof. induction s as [|c s IH]; [done|]. simpl. by rewrite IH. Qed.

Lemma span_until_app stop l c rest :
  Forall (λ x, stop x = false) l → stop c = true → span_until stop (l ++ c :: rest) = (l, c :: rest).
Proof.
  intros Hl Hc. induction Hl as [|x l Hx Hl IH]; simpl; [by rewrite Hc|]. by rewrite Hx, IH.
Qed.

(** A value is read back from its escaped form. *)
Lemma parse_escaped sep d rest :
  good_sep sep → Forall (λ c, c ≠ NUL) d → parse_value sep (escaped sep d ++ sep :: rest) = (d, sep :: rest).
Proof.
  intros [Hb _] Hd. induction Hd as [|c d Hc Hd IH].
  { simpl. by rewrite Ascii.eqb_refl, orb_true_r. }
  unfold escaped in *. cbn [mbind list_bind] in *. unfold needs_escape at 1.
  destruct (Ascii.eqb c sep || Ascii.eqb c backslash) eqn:Hesc.
  - cbn [app parse_value]. rewrite (eqb_false backslash NUL), (eqb_false backslash sep) by done.
    rewrite Ascii.eqb_refl, (eqb_false c NUL) by done. simpl. by rewrite IH.
  - apply orb_false_iff in Hesc as [H1 H2]. cbn [app parse_value]. rewrite (eqb_false c NUL), H1 by done. simpl.
    set (r := _ ++ sep :: rest) in *. destruct r as [|c' r]; [done|]. by rewrite H2, IH.
Qed.

(** The first character of an escaped value ends neither name nor value. *)
Lemma escaped_head sep d :
  good_sep sep → good_value d → ∃ c l, escaped sep (list_of_str d) = c :: l ∧ c ≠ NUL ∧ c ≠ sep.
Proof.
  intros [Hb _] [Hne Hd]. destruct d as [|c d]; [done|]. apply Forall_cons in Hd as [Hc _].
  unfold escaped. simpl. unfold needs_escape. destruct (Ascii.eqb_spec c sep), (Ascii.eqb_spec c backslash);
    simpl; eexists _, _; (split; [done|]); done.
Qed.

Section text_facts.
#[local] Existing Instance any_inv.
Context {E : Type} `{!EnvHooks E} {Re : Slre} `{Hlaw : !HooksLaw True}.
Notation world := (world (env_globals E)).
Notation M := (M world).
Implicit Types w : world.
Implicit Types m : gmap string string.
Notation tab w := (env_htab (hw w)).

(** ** Import *)

(** Reading one exported entry enters the variable. *)
Lemma wp_import_entry w m sep flag k d rest :
  holds (tab w) m → good_sep sep → good_name sep k → good_value d →
  (m !! k = None → Z.of_nat (base.size m) < size (tab w)) →
  wp (import_entry sep flag (entry_text sep (k, d) ++ rest) [])
    (λ r w', r = Some (rest, []) ∧ kept w w' ∧ holds (tab w') (<[k:=d]> m)) w.
Proof using Hlaw.
  intros Hh Hsep Hk Hd Hroom. pose proof (good_name_nul _ _ Hk) as Hkn. pose proof (good_value_nul _ Hd) as Hdn.
  destruct (escaped_head sep d Hsep Hd) as (c1 & l1 & Hesc & Hc1n & Hc1s).
  pose proof Hk as (_ & Hchars & Hfirst). destruct k as [|c k]; [done|]. destruct Hfirst as [Hblank Hhash].
  assert (skip_blanks (entry_text sep (String c k, d) ++ rest)
    = list_of_str (String c k) ++ equals :: escaped sep (list_of_str d) ++ sep :: rest) as Hskip.
  { unfold entry_text. cbn [fst snd]. rewrite Hkn, Hdn, <- !app_assoc. simpl. by rewrite Hblank. }
  unfold import_entry. cbv zeta. rewrite Hskip.
  apply wp_bind. refine (wp_ret c _ w _). rewrite (eqb_false c hash_sign) by done.
  rewrite span_until_app; [|eapply Forall_impl; [exact Hchars|]|]; cycle 1.
  { intros x (H1 & H2 & H3). by rewrite !eqb_false. }
  { by rewrite Ascii.eqb_refl. }
  rewrite str_of_list_of_str. apply wp_bind, wp_ret. rewrite (eqb_false equals NUL) by done.
  apply wp_bind. cbn [drop]. rewrite !drop_0.
  assert (peek (escaped sep (list_of_str d) ++ sep :: rest) = (mret c1 : M ascii)) as -> by (by rewrite Hesc).
  apply wp_ret. pose proof Hsep as [Hsb Hse].
  rewrite (eqb_false c1 NUL), (eqb_false equals sep), (eqb_false c1 sep) by congruence. cbn [orb].
  rewrite parse_escaped; [|done|by apply Hd]. rewrite str_of_list_of_str.
  apply wp_bind, wp_ret. rewrite (proj2 (Z.eqb_neq _ 0)) by (unfold slen; simpl; lia).
  cbn [drop_var_from_set]. apply wp_bind. eapply wp_mono; [by eapply hsearch_enter|].
  intros [r rv] w' [Hkept [(_ & Hh' & i & Hrv & _)|(_ & _ & Hno)]]; [|by destruct Hno].
  simpl in Hrv. subst rv. by apply wp_bind, wp_ret, wp_ret.
Qed.

(** The variables entered one after the other. *)
Definition enter_all m (l : list (string * string)) : gmap string string :=
  foldl (λ m kd, <[kd.1:=kd.2]> m) m l.

Lemma enter_all_lookup l m k :
  NoDup l.*1 → enter_all m l !! k = match list_to_map (M:=gmap string string) l !! k with Some d => Some d | None => m !! k end.
Proof.
  revert m. induction l as [|[k' d'] l IH]; intros m Hnd; [done|].
  apply NoDup_cons in Hnd as [Hk' Hnd]. simpl in Hk'. unfold enter_all in *. simpl. rewrite IH by done.
  apply not_elem_of_list_to_map_1 in Hk'. destruct (decide (k = k')) as [->|Hne].
  - by rewrite Hk', !lookup_insert_eq.
  - by rewrite !lookup_insert_ne.
Qed.

Lemma enter_all_perm l m : l ≡ₚ map_to_list m → enter_all ∅ l = m.
Proof.
  intros Hp. assert (NoDup l.*1) as Hnd by (rewrite Hp; apply NoDup_fst_map_to_list).
  apply map_eq. intros k. rewrite enter_all_lookup, lookup_empty by done.
  rewrite (list_to_map_proper l (map_to_list m)), list_to_map_to_list by done. by destruct (m !! k).
Qed.

(** Reading the exported entries enters them all. *)
Lemma wp_import_loop fuel w m past sep flag l rest :
  holds (tab w) m → good_sep sep → Forall (λ kd, good_name sep kd.1 ∧ good_value kd.2) l → l ≠ [] →
  Z.of_nat (base.size m + length l) ≤ size (tab w) → (length l ≤ fuel)%nat →
  0 < past ≤ Z.of_nat (length rest) → default NUL (head rest) = NUL →
  wp (import_loop fuel past sep flag ((l ≫= entry_text sep) ++ rest) [])
    (λ r w', r = Some [] ∧ kept w w' ∧ holds (tab w') (enter_all m l)) w.
Proof using Hlaw.
  revert fuel w m. induction l as [|[k d] l IH]; intros fuel w m Hh Hsep Hl Hne Hroom Hf Hpast Hend; [done|].
  destruct fuel as [|fuel]; [simpl in Hf; lia|]. apply Forall_cons in Hl as [[Hk Hd] Hl]. simpl in Hroom, Hf.
  cbn [mbind list_bind import_loop]. rewrite <- app_assoc. apply wp_bind.
  eapply wp_mono; [apply (wp_import_entry w m); try done; lia|].
  intros r w1 (-> & Hk1 & Hh1). rewrite length_app.
  destruct (decide (l = [])) as [->|Hl0].
  { simpl. destruct (past <? _) eqn:Hc; [|by apply wp_ret]. apply wp_bind.
    destruct rest as [|c rest]; [simpl in *; lia|]. simpl in Hend. subst c. by apply wp_ret, wp_ret. }
  assert (∃ c r, (l ≫= entry_text sep) = c :: r ∧ c ≠ NUL) as (c & r & Hc & Hcn).
  { destruct l as [|[k' d'] l]; [done|]. apply Forall_cons in Hl as [[(Hn & Hch & Hfirst) _] _].
    simpl in *. unfold entry_text. simpl. rewrite Hn. destruct k' as [|c k']; [done|].
    apply Forall_cons in Hch as [(_ & _ & ?) _]. by eexists _, _. }
  rewrite (proj2 (Z.ltb_lt past _)) by (rewrite Hc; simpl; lia). apply wp_bind.
  assert (peek ((l ≫= entry_text sep) ++ rest) = (mret c : M ascii)) as -> by (by rewrite Hc).
  apply wp_ret. rewrite (eqb_false c NUL) by done.
  pose proof Hk1 as [_ Hs1].
  assert (base.size (<[k:=d]> m) ≤ S (base.size m))%nat as Hsz.
  { destruct (m !! k) eqn:Hm; [rewrite (map_size_insert_Some k d m (mk_is_Some _ _ Hm)); lia|].
    by rewrite map_size_insert_None. }
  eapply wp_mono; [apply (IH fuel w1 (<[k:=d]> m)); try done; lia|].
  intros r' w2 (-> & Hk2 & Hh2). split_and!; [done|by etrans|done].
Qed.

(** The text without entries: an empty name, which is deleted. *)
Lemma wp_import_none fuel w m past sep flag rest :
  holds (tab w) m → m !! "" = None → (0 < fuel)%nat → 0 < past ≤ Z.of_nat (length rest) → head rest = Some NUL →
  past = Z.of_nat (length rest) ∨ default NUL (head (drop 1 rest)) = NUL →
  wp (import_loop fuel past sep flag rest []) (λ r w', r = Some [] ∧ kept w w' ∧ holds (tab w') m) w.
Proof using Hlaw.
  intros Hh Hm Hf Hpast Hhead Hnext. destruct fuel as [|fuel]; [lia|]. destruct rest as [|c rest]; [done|].
  injection Hhead as ->. cbn [import_loop]. apply wp_bind. unfold import_entry. cbn [skip_blanks].
  apply wp_bind, wp_ret. simpl. apply wp_bind, wp_ret, wp_bind, wp_ret. apply wp_bind.
  eapply wp_mono; [by apply hdelete_spec|].
  intros r w1 [Hk [(_ & [? ?] & _)|(_ & Hh1 & _)]]; [congruence|]. apply wp_ret.
  simpl in *. rewrite drop_0 in *. destruct (past <? _) eqn:Hc; [|by apply wp_ret]. apply Z.ltb_lt in Hc.
  destruct Hnext as [Hn|Hn]; [lia|]. apply wp_bind. destruct rest as [|c rest]; [simpl in *; lia|].
  simpl in Hn. subst c. by apply wp_ret, wp_ret.
Qed.

(** A table, or none yet. *)
Definition some_table w : Prop := table (tab w) = None ∨ ∃ m, holds (tab w) m.

Lemma wp_clear w (Q : unit → world → Prop) :
  some_table w →
  (∀ w', table (tab w') = None → gd_flags (hw w') = gd_flags (hw w) → Q tt w') →
  wp (match table (tab w) with Some _ => hdestroy_r | None => mret tt end) Q w.
Proof.
  intros [Ht|[m Hh]] HQ.
  - rewrite Ht. by apply wp_ret, HQ.
  - pose proof Hh as (t & -> & _). eapply wp_mono; [by eapply hdestroy_spec|]. intros [] w' [? ?]. by apply HQ.
Qed.

Lemma entries_length sep l : (length l ≤ length (l ≫= entry_text sep))%nat.
Proof.
  induction l as [|kd l IH]; [done|]. rewrite bind_cons, length_app.
  assert (0 < length (entry_text sep kd))%nat by (unfold entry_text; rewrite !length_app; simpl; lia).
  simpl. lia.
Qed.

(** A table of its own size is made for the imported variables. *)
Lemma import_text w sep l n :
  let text := (l ≫= entry_text sep) ++ replicate (S n) NUL in
  let len := Z.of_nat (length text) in
  some_table w → good_sep sep → Forall (λ kd, good_name sep kd.1 ∧ good_value kd.2) l →
  Z.of_nat (length l) ≤ 512 → Z.of_nat (length l) ≤ 64 + len / 8 →
  wp (himport_r text len sep 0 0 [])
    (λ r w', r = 1 ∧ gd_flags (hw w') = gd_flags (hw w) ∧ holds (tab w') (enter_all ∅ l)) w.
Proof using Hlaw.
  intros text len Ht Hsep Hl Hmax Hroom. unfold himport_r. apply wp_bind, wp_malloc_ok. intros e _. cbn [negb].
  rewrite (proj2 (Z.ltb_ge _ _)) by lia. apply wp_bind, wp_gets. cbn [Z.land Z.eqb andb Z.of_nat length].
  apply wp_bind, wp_clear; [done|]. intros w1 Ht1 Hg1. apply wp_bind, wp_gets. rewrite Ht1. apply wp_bind.
  assert (0 < len) as Hpos by (unfold len, text; rewrite length_app; simpl; lia).
  eapply wp_mono; [apply hcreate_spec; [done|case_match eqn:Hc; [lia|apply Z.ltb_ge in Hc; lia]]|].
  intros r w2 (-> & Hh2 & Hs2 & Hg2). cbn [Z.eqb]. rewrite (proj2 (Z.eqb_neq len 0)) by lia.
  cbn [nonzero Z.eqb negb]. rewrite take_ge by (unfold len; lia). apply wp_bind.
  apply (wp_mono _ (λ r w', r = Some [] ∧ kept w2 w' ∧ holds (tab w') (enter_all ∅ l))).
  - replace (len + 1 - len) with 1 by lia. unfold text. rewrite <- app_assoc.
    assert (Z.of_nat (length l) ≤ size (tab w2)) as Hfit by (case_match; lia).
    destruct (decide (l = [])) as [->|Hne].
    + apply wp_import_none; try done.
      * simpl. lia.
      * simpl. rewrite length_app, length_replicate. simpl. lia.
      * right. simpl. rewrite drop_0. by destruct n.
    + apply wp_import_loop; try done.
      * rewrite length_app. pose proof (entries_length sep l). lia.
      * rewrite length_app, length_replicate. simpl. lia.
  - intros r w3 (-> & [[Hg3 _] _] & Hh3). cbn [fmap list_fmap]. apply wp_bind, wp_ret, wp_ret.
    split_and!; [done|simpl in *; congruence|done].
Qed.

(** ** Export *)

Definition slot_entry (v : view) : option (string * string) :=
  match v with
  | (u, Some k, Some d) => if 0 <? u then Some (k, d) else None
  | _ => None
  end.

(** The entries of the slots [1 .. n]. *)
Definition entries_upto (f : Z → view) (n : Z) : list (string * string) :=
  omap (λ i, slot_entry (f i)) (seqZ 1 n).

Lemma slot_entry_live p f m i kd :
  5 ≤ p < 2 ^ 31 → layout p f m → 1 ≤ i ≤ p → slot_entry (f i) = Some kd ↔ live p f i kd.1 kd.2.
Proof.
  intros Hr HL Hi. destruct kd as [k d]. split.
  - intros H. destruct (layout_slot p f m HL i Hi) as [Hu|[Hu|(k' & d' & Hl)]].
    1,2: unfold slot_entry in H; destruct (f i) as [[u [?|]] [?|]]; simpl in Hu; subst; done.
    pose proof Hl as (_ & Hf & _). pose proof (live_used Hr _ _ _ _ Hl) as Hpos. rewrite Hf in H, Hpos. simpl in *.
    rewrite (proj2 (Z.ltb_lt 0 _)) in H by lia. by injection H as <- <-.
  - intros Hl. pose proof Hl as (_ & Hf & _). pose proof (live_used Hr _ _ _ _ Hl) as Hpos.
    rewrite Hf in *. simpl in *. by rewrite (proj2 (Z.ltb_lt 0 _)) by lia.
Qed.

Lemma NoDup_omap_inj {A B} (g : A → option B) (l : list A) :
  NoDup l → (∀ x y b, x ∈ l → y ∈ l → g x = Some b → g y = Some b → x = y) → NoDup (omap g l).
Proof.
  induction 1 as [|x l Hx Hl IH]; intros Hinj; [apply NoDup_nil_2|]. simpl.
  assert (NoDup (omap g l)) as Hn.
  { apply IH. intros y z b Hy Hz. apply Hinj; by right. }
  destruct (g x) as [b|] eqn:Hb; [|done]. apply NoDup_cons. split; [|done].
  rewrite list_elem_of_omap. intros (y & Hy & Hgy). apply Hx.
  by rewrite (Hinj x y b); [|left|right| |].
Qed.

(** The slots hold the entries of the map, each once. *)
Lemma entries_perm p f m :
  5 ≤ p < 2 ^ 31 → layout p f m → entries_upto f p ≡ₚ map_to_list m.
Proof.
  intros Hr HL. apply NoDup_Permutation.
  - apply NoDup_omap_inj; [apply NoDup_seqZ|]. intros i i' [k d] Hi%elem_of_seqZ Hi'%elem_of_seqZ H1 H2.
    apply (slot_entry_live p f m) in H1, H2; try done; try lia. by eapply (layout_once p f m HL).
  - apply NoDup_map_to_list.
  - intros [k d]. rewrite elem_of_map_to_list. unfold entries_upto. rewrite list_elem_of_omap. split.
    + intros (i & Hi%elem_of_seqZ & H). apply (slot_entry_live p f m) in H; [|done|done|lia].
      by eapply layout_sound.
    + intros (j & Hj & Hl & _)%(layout_found p f m HL). eexists. split; [|by apply (slot_entry_live p f m); try done; apply Hl].
      apply elem_of_seqZ. destruct Hl as [? _]. lia.
Qed.

(** Names that start with a dot are hidden on request. *)
Definition hidden (flag : Z) (kd : string * string) : bool :=
  nonzero (Z.land flag H_HIDE_DOT) && Ascii.eqb (default NUL (str_at kd.1 0)) "046"%char.

Definition shown (flag : Z) (l : list (string * string)) : list (string * string) :=
  filter (λ kd, hidden flag kd = false) l.

Definition entry_room (sep : ascii) (kd : string * string) : Z := strlen kd.1 + room_for sep kd.2 + 2.
Definition total_room (sep : ascii) (l : list (string * string)) : Z := foldr (λ kd n, entry_room sep kd + n) 0 l.

Lemma room_for_pos sep d : 0 ≤ room_for sep d.
Proof.
  unfold room_for, strlen, slen. destruct (Ascii.eqb sep NUL); [lia|].
  induction (list_of_str (c_str d)) as [|c l IH]; simpl; [lia|]. destruct (needs_escape sep c); lia.
Qed.

Lemma total_room_app sep l l' : total_room sep (l ++ l') = total_room sep l + total_room sep l'.
Proof. induction l as [|kd l IH]; simpl; lia. Qed.

Lemma total_room_pos sep l : 0 ≤ total_room sep l.
Proof.
  induction l as [|[k d] l IH]; simpl; [lia|]. unfold entry_room, strlen, slen. pose proof (room_for_pos sep d). simpl. lia.
Qed.

Lemma entries_upto_S f i : 0 ≤ i → entries_upto f (i + 1) = entries_upto f i ++ option_list (slot_entry (f (i + 1))).
Proof.
  intros Hi. unfold entries_upto. rewrite seqZ_app, omap_app by lia. f_equal.
  change (seqZ (1 + i) 1) with [1 + i]. rewrite (Z.add_comm 1 i). simpl. by destruct (slot_entry _).
Qed.

Lemma wp_export_slot w m t sep flag i lst tot :
  holds (tab w) m → table (tab w) = Some t → 1 ≤ i ≤ size (tab w) →
  let e := shown flag (option_list (slot_entry (views t i))) in
  0 ≤ tot → tot + total_room sep e < 2 ^ 32 →
  wp (export_slot sep flag [] (i, lst, tot))
    (λ c w', c = Continue (i, lst ++ e, tot + total_room sep e) ∧ w' = w) w.
Proof.
  intros (t' & Htab & Hp & Hr & Hlen & _ & HL) Ht Hi e Htot Hroom. rewrite Ht in Htab. injection Htab as <-.
  unfold export_slot. apply wp_bind. eapply wp_slot; [done|exact Hlen|done|]. intros n Hn Hv.
  assert (e = [] → Continue (i, lst, tot) = Continue (R := ()) (i, lst ++ e, tot + total_room sep e)) as Hskip.
  { intros ->. by rewrite app_nil_r, Z.add_0_r. }
  destruct (layout_slot _ _ _ HL i Hi) as [Hu|[Hu|(k & d & Hl)]].
  1,2: rewrite Hv in Hu; simpl in Hu; rewrite (proj2 (Z.leb_le _ _)) by lia; apply wp_ret;
    (split; [|done]); apply Hskip; unfold e; rewrite Hv; unfold node_view, slot_entry;
    rewrite Hu; destruct (key (entry n)), (data (entry n)); done.
  pose proof (live_used Hr _ _ _ _ Hl) as Hpos.
  apply (slot_entry_live _ _ m i (k, d)) in Hl as Hent; [|done|done|done].
  destruct Hl as (_ & Hview & _). rewrite Hv in Hview, Hpos. injection Hview as Hused Hkey Hdata. simpl in Hpos.
  rewrite (proj2 (Z.leb_gt _ _)) by lia. apply wp_bind, wp_ret. cbn [length Z.of_nat Z.ltb Z.compare andb].
  rewrite Hkey. apply wp_bind, wp_deref. change (nonzero _ && _) with (hidden flag (k, d)).
  unfold e, shown in *. rewrite Hent in *. simpl in *. destruct (hidden flag (k, d)) eqn:Hhid.
  - apply wp_ret. split; [|done]. apply Hskip. by rewrite filter_cons_False by congruence.
  - rewrite filter_cons_True in * by done. rewrite Hdata. apply wp_bind, wp_deref, wp_ret. split; [|done]. simpl in *.
    unfold entry_room in *. simpl in *. pose proof (room_for_pos sep d). unfold strlen, slen in *.
    rewrite wrap32_small by lia. do 2 f_equal. lia.
Qed.

Lemma entries_split f i n :
  0 ≤ i ≤ n → entries_upto f n = entries_upto f i ++ omap (λ i, slot_entry (f i)) (seqZ (1 + i) (n - i)).
Proof.
  intros Hi. unfold entries_upto. rewrite <- omap_app, <- seqZ_app by lia. do 2 f_equal. lia.
Qed.

Lemma wp_export_scan w m t sep flag :
  holds (tab w) m → table (tab w) = Some t →
  let l := shown flag (entries_upto (views t) (size (tab w))) in
  total_room sep l < 2 ^ 32 →
  wp (export_scan sep flag []) (λ r w', r = (l, total_room sep l) ∧ w' = w) w.
Proof.
  intros Hh Ht l Hroom. pose proof Hh as (_ & _ & _ & Hr & _). set (p := size (tab w)) in *.
  unfold export_scan, get_htab. apply wp_bind, wp_gets, wp_bind. fold p.
  set (part i := shown flag (entries_upto (views t) i)).
  assert (∀ i, 0 ≤ i ≤ p → total_room sep (part i) < 2 ^ 32) as Hle.
  { intros i Hi. unfold l in Hroom. rewrite (entries_split _ i) in Hroom by done. unfold shown in Hroom.
    rewrite filter_app, total_room_app in Hroom. fold (shown flag (entries_upto (views t) i)) in Hroom. fold (part i) in Hroom.
    match type of Hroom with _ + total_room sep ?x < _ => pose proof (total_room_pos sep x) end. lia. }
  apply (wp_for_loop (λ x w', 1 ≤ x.1.1 ≤ p + 1 ∧ x.1.2 = part (x.1.1 - 1) ∧ x.2 = total_room sep x.1.2 ∧ w' = w)
    (λ x, Z.to_nat (p + 1 - x.1.1))); [simpl; lia| | |].
  - simpl. split_and!; [lia|lia|done|done|done].
  - intros [[i lst] tot] ? (Hi & Hlst & Htot & ->) Hc%Z.leb_le. simpl in *. subst lst tot.
    assert (part i = part (i - 1) ++ shown flag (option_list (slot_entry (views t i)))) as Hpart.
    { unfold part. replace i with (i - 1 + 1) at 1 by lia. rewrite entries_upto_S by lia. unfold shown.
      rewrite filter_app. by replace (i - 1 + 1) with i by lia. }
    specialize (Hle i ltac:(lia)). rewrite Hpart, total_room_app in Hle.
    eapply wp_mono; [apply (wp_export_slot w m t); [done|done|lia|apply total_room_pos|done]|].
    intros c ? [-> ->]. simpl. split; [|lia]. replace (i + 1 - 1) with i by lia. rewrite Hpart, total_room_app.
    split_and!; [lia|lia|done|done|done].
  - intros [[i lst] tot] ? (Hi & Hlst & Htot & ->) Hc%Z.leb_gt. simpl in *. subst lst tot. apply wp_ret.
    by replace (i - 1) with p by lia.
Qed.

#[global] Instance total_room_perm sep : Proper ((≡ₚ) ==> (=)) (total_room sep).
Proof. intros l l' Hp. unfold total_room. induction Hp; simpl; lia. Qed.

#[global] Instance shown_perm flag : Proper ((≡ₚ) ==> (≡ₚ)) (shown flag).
Proof. intros l l' Hp. unfold shown. by rewrite Hp. Qed.

(** [strcmp] orders the names of ASCII characters. *)
Definition plain (k : string) : Prop := Forall (λ c, 0 < ord c < 128) (list_of_str k).

Lemma sign8_small z : -128 < z < 128 → sign 8 z = z.
Proof. intros Hz. unfold sign. change (2 ^ 8) with 256. change (2 ^ (8 - 1)) with 128. destruct (_ <? _) eqn:Hc; lia. Qed.

Lemma strcmp_cons c d s t :
  0 < ord c < 128 → 0 < ord d < 128 →
  strcmp (String c s) (String d t) = if ord c =? ord d then strcmp s t else ord c - ord d.
Proof.
  intros Hc Hd. cbn [strcmp]. rewrite sign8_small by lia. unfold nonzero.
  rewrite (proj2 (Z.eqb_neq (ord c) 0)), orb_false_r by lia.
  destruct (Z.eqb_spec (ord c) (ord d)) as [->|Hne]; [by rewrite Z.sub_diag|].
  by rewrite (proj2 (Z.eqb_neq (ord c - ord d) 0)) by lia.
Qed.

Lemma strcmp_total s t : plain s → plain t → strcmp s t ≤ 0 ∨ strcmp t s ≤ 0.
Proof.
  revert t. induction s as [|c s IH]; intros [|d t] Hs Ht.
  - by left.
  - left. apply Forall_cons in Ht as [Hd _]. cbn [strcmp]. rewrite sign8_small; lia.
  - right. apply Forall_cons in Hs as [Hc _]. cbn [strcmp]. rewrite sign8_small; lia.
  - apply Forall_cons in Hs as [Hc Hs], Ht as [Hd Ht]. rewrite !strcmp_cons by done.
    rewrite (Z.eqb_sym (ord d)). destruct (Z.eqb_spec (ord c) (ord d)); [by apply IH|lia].
Qed.

Lemma strcmp_trans s t u :
  plain s → plain t → plain u → strcmp s t ≤ 0 → strcmp t u ≤ 0 → strcmp s u ≤ 0.
Proof.
  revert t u. induction s as [|c s IH]; intros [|d t] [|e u] Hs Ht Hu; try done.
  - intros _ _. apply Forall_cons in Hu as [He _]. cbn [strcmp]. rewrite sign8_small; lia.
  - apply Forall_cons in Hs as [Hc _]. cbn [strcmp]. rewrite (sign8_small (ord c - 0)); lia.
  - apply Forall_cons in Ht as [Hd _]. cbn [strcmp]. rewrite (sign8_small (ord d - 0)); lia.
  - apply Forall_cons in Hs as [Hc Hs], Ht as [Hd Ht], Hu as [He Hu]. rewrite !strcmp_cons by done.
    destruct (Z.eqb_spec (ord c) (ord d)), (Z.eqb_spec (ord d) (ord e)), (Z.eqb_spec (ord c) (ord e)); try lia.
    by apply IH.
Qed.

(** What is exported: the entries of the map, without hidden ones, in the
    order of their names. *)
Definition exported (flag : Z) m (l : list (string * string)) : Prop :=
  l ≡ₚ shown flag (map_to_list m) ∧
  (Forall (λ kd, plain kd.1) l → StronglySorted (λ e1 e2, strcmp e1.1 e2.1 ≤ 0) l).

Lemma qsort_exported flag m l0 :
  l0 ≡ₚ shown flag (map_to_list m) → ∃ l, qsort cmpkey l0 = Some l ∧ exported flag m l.
Proof.
  intros Hp. destruct (qsort_perm cmpkey l0) as (l & Hq & Hl). exists l. split; [done|].
  split; [by rewrite Hl|]. intros Hplain.
  destruct (qsort_sorts cmpkey (λ kd, plain kd.1)) with (l := l0) as (l' & Hq' & _ & Hs).
  - intros a b. apply strcmp_total.
  - intros a b c. apply strcmp_trans.
  - by rewrite <- Hl.
  - by simplify_eq.
Qed.

(** The buffer of the result: the caller's, cleared, or a new one. *)
Definition export_buffer (resp : option (list ascii)) (sz total : Z) (buf : list ascii) : Prop :=
  match resp with
  | None => sz = 0 ∧ buf = replicate (Z.to_nat (total + 1)) NUL
  | Some b => total + 1 ≤ sz ≤ Z.of_nat (length b) ∧ buf = replicate (Z.to_nat sz) NUL ++ drop (Z.to_nat sz) b
  end.

(** Up to the second pass. *)
Lemma hexport_writes w m sep flag resp sz buf :
  let total := total_room sep (shown flag (map_to_list m)) in
  holds (tab w) m → total + 1 < 2 ^ 32 → export_buffer resp sz total buf →
  ∃ l w1, exported flag m l ∧ calm w w1 ∧
    hexport_r sep flag resp sz [] w =
      (res ← copy_into ((l ≫= entry_text sep) ++ [NUL]) buf;
       mret (if sz =? 0 then total + 1 else sz, Some res)) w1.
Proof using Hlaw.
  intros total Hh Hroom Hbuf. pose proof (total_room_pos sep (shown flag (map_to_list m))) as Hpos. fold total in Hpos.
  pose proof Hh as (t & Ht & _ & Hr & _ & _ & HL).
  pose proof (entries_perm _ _ m Hr HL) as Hperm.
  destruct (qsort_exported flag m (shown flag (entries_upto (views t) (size (tab w))))) as (l & Hq & Hl);
    [by rewrite Hperm|].
  pose proof (wp_export_scan w m t sep flag Hh Ht) as Hscan. cbv zeta in Hscan.
  assert (total_room sep (shown flag (entries_upto (views t) (size (tab w)))) = total) as Htot by (by rewrite Hperm).
  rewrite Htot in Hscan. specialize (Hscan ltac:(lia)).
  apply wp_run in Hscan as (? & ? & Hrun & -> & ->).
  exists l. unfold hexport_r. rewrite (M_bind_Ret _ _ _ _ _ Hrun). cbv beta iota. rewrite Hq.
  rewrite (wrap32_small (total + 1)) by lia. destruct resp as [b|]; simpl in Hbuf.
  - destruct Hbuf as [Hsz ->]. exists w. split_and!; [done|done|].
    unfold nonzero. rewrite (proj2 (Z.eqb_neq sz 0)) by lia. cbn [negb andb].
    rewrite (proj2 (Z.ltb_ge sz (total + 1))), (proj2 (Z.ltb_ge _ sz)) by lia. done.
  - destruct Hbuf as [-> ->]. cbn [nonzero Z.eqb negb andb].
    assert (wp (malloc_ok (total + 1)) (λ ok w', ok = true ∧ calm w w') w) as Hm by (by apply wp_malloc_ok).
    apply wp_run in Hm as (? & w1 & Hm & -> & Hc). exists w1. split_and!; [done|done|].
    unfold mbind, M_bind. by rewrite Hm.
Qed.

(** ** Lengths *)

Lemma forall_no_nul s : no_nul s → Forall (λ c, c ≠ NUL) (list_of_str s).
Proof.
  unfold no_nul. induction s as [|c s IH]; [by constructor|]. simpl. destruct (Ascii.eqb_spec c NUL) as [->|Hc]; [done|].
  intros [= H]. constructor; [done|]. by apply IH.
Qed.

Lemma slen_list s : slen s = Z.of_nat (length (list_of_str s)).
Proof. unfold slen. f_equal. induction s as [|c s IH]; simpl; [done|]. by rewrite IH. Qed.

(** The backslashes in the values: pass 1 forgets them when the separator is
    NUL, pass 2 writes an escape for each. *)
Definition count_backslash (d : string) : Z :=
  Z.of_nat (length (filter (λ c, c = backslash) (list_of_str d))).
Definition backslashes (l : list (string * string)) : Z := foldr (λ kd n, count_backslash kd.2 + n) 0 l.

Lemma backslashes_pos l : 0 ≤ backslashes l.
Proof. induction l as [|kd l IH]; simpl; [done|]. unfold count_backslash. lia. Qed.

#[global] Instance backslashes_perm : Proper ((≡ₚ) ==> (=)) backslashes.
Proof. intros l l' Hp. unfold backslashes. induction Hp; simpl; lia. Qed.

Definition forgotten (sep : ascii) (l : list (string * string)) : Z :=
  if Ascii.eqb sep NUL then backslashes l else 0.

Lemma escaped_length sep d :
  no_nul d →
  Z.of_nat (length (escaped sep (list_of_str d))) =
  room_for sep d + (if Ascii.eqb sep NUL then count_backslash d else 0).
Proof.
  intros Hd. unfold room_for, strlen, count_backslash. rewrite Hd, slen_list. apply forall_no_nul in Hd.
  destruct (Ascii.eqb_spec sep NUL) as [->|Hsep].
  - induction Hd as [|c l Hc Hl IH]; [done|]. unfold escaped in *. rewrite bind_cons, length_app, filter_cons.
    unfold needs_escape at 1. rewrite (eqb_false c NUL) by done. cbn [orb].
    destruct (Ascii.eqb_spec c backslash); case_decide; try done; simpl; lia.
  - clear Hd. rewrite Z.add_0_r. induction (list_of_str d) as [|c l IH]; [done|].
    unfold escaped in *. rewrite bind_cons, length_app. cbn [foldr]. destruct (needs_escape sep c); simpl; lia.
Qed.

Lemma text_length sep l :
  Forall (λ kd, no_nul kd.1 ∧ no_nul kd.2) l →
  Z.of_nat (length (l ≫= entry_text sep)) = total_room sep l + forgotten sep l.
Proof.
  unfold forgotten. induction 1 as [|[k d] l [Hk Hd] Hl IH]; [by destruct (Ascii.eqb sep NUL)|].
  rewrite bind_cons, length_app. unfold entry_text at 1. rewrite !length_app. simpl in *. unfold entry_room, strlen. simpl.
  rewrite Hk, Hd, slen_list. pose proof (escaped_length sep d Hd). destruct (Ascii.eqb sep NUL); lia.
Qed.

Lemma holds_no_nul h m k d : holds h m → m !! k = Some d → no_nul k ∧ no_nul d.
Proof.
  intros (t & _ & _ & _ & _ & _ & HL) Hm. by destruct (layout_found _ _ _ HL k d Hm) as (j & _ & (_ & _ & ? & ?) & _).
Qed.

Lemma exported_entry flag m l kd : exported flag m l → kd ∈ l → m !! kd.1 = Some kd.2.
Proof.
  intros [Hp _]. rewrite Hp. unfold shown. destruct kd as [k d]. rewrite list_elem_of_filter, elem_of_map_to_list.
  by intros [_ H].
Qed.

Lemma exported_no_nul h flag m l :
  holds h m → exported flag m l → Forall (λ kd, no_nul kd.1 ∧ no_nul kd.2) l.
Proof.
  intros Hh Hl. apply Forall_forall. intros kd Hkd. eapply holds_no_nul; [done|]. by eapply exported_entry.
Qed.

Lemma shown_0 l : shown 0 l = l.
Proof. unfold shown. by induction l as [|kd l IH]; [|rewrite filter_cons_True, IH by done]. Qed.

(** The room reserved for the text, and the room it takes. *)
Definition room_of (sep : ascii) (flag : Z) m : Z := total_room sep (shown flag (map_to_list m)).
Definition text_size (sep : ascii) (flag : Z) m : Z :=
  room_of sep flag m + forgotten sep (shown flag (map_to_list m)).

Lemma exported_length h sep flag m l :
  holds h m → exported flag m l → Z.of_nat (length (l ≫= entry_text sep)) = text_size sep flag m.
Proof.
  intros Hh Hl. rewrite text_length by (by eapply exported_no_nul). destruct Hl as [Hp _].
  unfold text_size, room_of, forgotten. by rewrite Hp.
Qed.

(** The export into a buffer that the text fits. *)
Lemma wp_hexport w m sep flag resp sz buf :
  holds (tab w) m → room_of sep flag m + 1 < 2 ^ 32 → export_buffer resp sz (room_of sep flag m) buf →
  text_size sep flag m + 1 ≤ Z.of_nat (length buf) →
  wp (hexport_r sep flag resp sz []) (λ r w', calm w w' ∧ ∃ l, exported flag m l ∧
    let text := (l ≫= entry_text sep) ++ [NUL] in
    r = (if sz =? 0 then room_of sep flag m + 1 else sz, Some (text ++ drop (length text) buf))) w.
Proof using Hlaw.
  intros Hh Hroom Hbuf Hfit. destruct (hexport_writes w m sep flag resp sz buf Hh Hroom Hbuf) as (l & w1 & Hl & Hc & Hrun).
  pose proof (exported_length _ sep flag m l Hh Hl) as Hlen. unfold wp. rewrite Hrun. unfold copy_into.
  rewrite (proj2 (Nat.leb_le _ _)) by (rewrite length_app; simpl; lia).
  split; [done|]. by exists l.
Qed.

(** The export that overruns its buffer. *)
Lemma hexport_overruns w m sep flag resp sz buf :
  holds (tab w) m → room_of sep flag m + 1 < 2 ^ 32 → export_buffer resp sz (room_of sep flag m) buf →
  Z.of_nat (length buf) < text_size sep flag m + 1 →
  crashes (hexport_r sep flag resp sz []) OUT_OF_BOUNDS w.
Proof using Hlaw.
  intros Hh Hroom Hbuf Hfit. destruct (hexport_writes w m sep flag resp sz buf Hh Hroom Hbuf) as (l & w1 & Hl & Hc & Hrun).
  pose proof (exported_length _ sep flag m l Hh Hl) as Hlen. exists w1. rewrite Hrun. unfold copy_into.
  by rewrite (proj2 (Nat.leb_gt _ _)) by (rewrite length_app; simpl; lia).
Qed.
End text_facts.
