(* ===== verification/Environ.v ===== *)
(** The environment variables: the commands and the interface of
    [cmd/nvedit.c], and the import and export of [env/common.c]. *)

From S2P Require Import Prelude CLib Vsprintf VsprintfFacts Machine QSort HashTable HashText Crc32.

Notation GD_FLG_ENV_READY := 0x80%Z (only parsing).
Notation GD_FLG_ENV_DEFAULT := 0x2000%Z (only parsing).
Notation CMD_RET_USAGE := (-1)%Z (only parsing).
Notation ENOMSG := 42%Z (only parsing).
Notation EIO := 5%Z (only parsing).

(** The configuration and the memory the environment is read from before it
    is imported: what [env_get_char] gives, [default_environment] or the
    memory at [gd->env_addr]. *)
Class EnvConfig (E : Type) := {
  ENV_SIZE : Z;
  default_environment : list ascii;
  early_text : E → list ascii;
}.

(** [env_t], the stored form of the environment. *)
Record env_t := mkEnvT {
  env_crc : Z;
  env_data : list ascii;
}.

(** [lib/vsprintf.c]: the decimal digits of a number. *)
Fixpoint itoa_digits (fuel : nat) (i : Z) (tail : string) : string :=
  match fuel with
  | O => tail
  | S fuel' =>
      let s := String (chr (48 + i mod 10)) tail in
      if 0 <? i / 10 then itoa_digits fuel' (i / 10) s else s
  end.

Definition simple_itoa (i : Z) : string := itoa_digits 21 i "".

Section environ.
Context {E : Type} `{!EnvHooks E} {Re : Slre} `{!EnvConfig E}.
Notation world := (world (env_globals E)).
Notation M := (M world).

Definition env_ready (w : world) : bool := nonzero (Z.land (gd_flags (hw w)) GD_FLG_ENV_READY).

Definition set_gd_flags (bits : Z) : M unit := hw_do (λ h, h <| gd_flags := Z.lor (gd_flags h) bits |>).

(** ** Reading before the import *)

Definition env_get_char (index : Z) : M Z :=
  text ← gets (λ w, early_text (other (hw w)));
  match if 0 <=? index then text !! Z.to_nat index else None with
  | Some c => mret (ord c)
  | None => crash OUT_OF_BOUNDS
  end.

(** The index of the value when the entry at [i2] is that of [s1].  The name
    is compared up to its terminating NUL; a byte after it is not its own. *)
Fixpoint env_match_from (s1 : string) (i2 : Z) : M Z :=
  c ← env_get_char i2;
  match s1 with
  | String a s1' =>
      if ord a =? c then
        if Ascii.eqb a "061"%char then mret (i2 + 1) else env_match_from s1' (i2 + 1)
      else mret (-1)
  | "" => if c =? 0 then crash OUT_OF_BOUNDS else mret (if c =? 61 then i2 + 1 else -1)
  end.

Definition env_match (s1 : string) (i2 : Z) : M Z := env_match_from (c_str s1) i2.

(** The end of the entry at [i], or the code the search returns. *)
Fixpoint entry_end (fuel : nat) (nxt : Z) : M (Z + Z) :=
  match fuel with
  | O => fun _ => NoFuel
  | S fuel' =>
      c ← env_get_char nxt;
      if c =? 0 then mret (inl nxt)
      else if ENV_SIZE + 4 <=? nxt then mret (inr (-1))
      else entry_end fuel' (nxt + 1)
  end.

(** The value is copied to a buffer of [len] bytes: the buffer's text and the
    number of characters, [len] when the value does not fit. *)
Fixpoint copy_value (len : nat) (val : Z) : M (string * Z) :=
  match len with
  | O => mret ("", 0)
  | S len' =>
      c ← env_get_char val;
      if c =? 0 then mret ("", 0)
      else '(s, n) ← copy_value len' (val + 1); mret (String (chr c) s, n + 1)
  end.

Fixpoint env_get_f_from (fuel : nat) (name : string) (len : Z) (i : Z) : M (Z * string) :=
  match fuel with
  | O => fun _ => NoFuel
  | S fuel' =>
      c ← env_get_char i;
      if c =? 0 then mret (-1, "")
      else
        nxt ← entry_end (S (Z.to_nat (ENV_SIZE + 4))) i;
        match nxt with
        | inr r => mret (r, "")
        | inl nxt =>
            val ← env_match name i;
            if val <? 0 then env_get_f_from fuel' name len (nxt + 1)
            else
              '(s, n) ← copy_value (Z.to_nat len) val;
              if n <? len then mret (n, s)
              else
                _ ← printf ("env_buf [%u bytes] too small for value of " +:+ quote +:+ "%s" +:+ quote +:+ newline)
                      [VInt len; VStr (Some name)];
                mret (n, if 0 <? n then str_take (Z.to_nat (n - 1)) s else s)
        end
  end.

Definition env_get_f (name : string) (len : Z) : M (Z * string) :=
  env_get_f_from (S (Z.to_nat (ENV_SIZE + 4))) name len 0.

(** ** Variables *)

Definition find_variable (name : string) : M (option Z) :=
  '(_, ep) ← hsearch_r (mkEntry (Some name) None None 0) ENV_FIND 0; mret ep.

Definition env_get (name : string) : M (option string) :=
  ready ← gets env_ready;
  if ready : bool then
    ep ← find_variable name;
    match ep with
    | Some i => n ← slot i; mret (data (entry n))
    | None => mret None
    end
  else
    '(n, env_buf) ← env_get_f name 32;
    mret (if 0 <? n then Some env_buf else None).

Definition env_get_id : M Z := gets (λ w, env_id (hw w)).

(** The options of [_do_env_set]: [argc], [argv] and [env_flag] after them,
    or [None] for a usage error.  [argv] is the array from the pointer on. *)
Definition option_chars (arg : string) : bool :=
  forallb (Ascii.eqb "102"%char) (list_of_str (str_drop 1 (c_str arg))).

Fixpoint env_set_options (argv : list (option string)) (argc env_flag : Z) :
    M (option (list (option string) * Z * Z)) :=
  match argv with
  | [] => crash OUT_OF_BOUNDS
  | _ :: argv' =>
      if argc <=? 1 then mret (Some (argv, argc, env_flag))
      else
        match argv' with
        | [] => crash OUT_OF_BOUNDS
        | arg :: _ =>
            s ← deref arg;
            if Ascii.eqb (default NUL (str_at s 0)) "045"%char then
              if option_chars s then
                env_set_options argv' (argc - 1)
                  (if 1 <? strlen s then Z.lor env_flag H_FORCE else env_flag)
              else mret None
            else mret (Some (argv, argc, env_flag))
        end
  end.

(** The arguments joined by blanks. *)
Fixpoint join_args (args : list string) : string :=
  match args with
  | [] => ""
  | [a] => a
  | a :: args' => a +:+ " " +:+ join_args args'
  end.

Definition _do_env_set (argc : Z) (argv : list (option string)) (env_flag : Z) : M Z :=
  r ← env_set_options argv argc env_flag;
  match r with
  | None => mret CMD_RET_USAGE
  | Some (argv, argc, env_flag) =>
      name ← match argv !! 1%nat with Some name => deref name | None => crash OUT_OF_BOUNDS end;
      match strchr name "061"%char with
      | Some _ =>
          _ ← printf ("## Error: illegal character '='in variable name " +:+ quote +:+ "%s" +:+ quote +:+ newline)
                [VStr (Some name)];
          mret 1
      | None =>
          _ ← hw_do (λ h, h <| env_id := sign 32 (env_id h + 1) |>);
          second ← (if argc <? 3 then mret None
                    else match argv !! 2%nat with Some v => mret v | None => crash OUT_OF_BOUNDS end);
          match second with
          | None =>
              rc ← hdelete_r name env_flag;
              mret (if rc =? 0 then 1 else 0)
          | Some _ =>
              args ← (let args := take (Z.to_nat (argc - 2)) (drop 2 argv) in
                      if Z.of_nat (length args) <? argc - 2 then crash OUT_OF_BOUNDS
                      else match mapM id args with Some args => mret args | None => crash NULL_DEREF end);
              let len := foldr (λ a n, n + strlen a + 1) 0 args in
              ok ← malloc_ok len;
              if negb ok then
                _ ← printf ("## Can't malloc %d bytes" +:+ newline) [VInt len];
                mret 1
              else
                '(_, ep) ← hsearch_r (mkEntry (Some name) (Some (join_args (c_str <$> args))) None 0)
                             ENV_ENTER env_flag;
                match ep with
                | None =>
                    e ← gets (λ w, errno (hw w));
                    _ ← printf ("## Error inserting " +:+ quote +:+ "%s" +:+ quote +:+
                                " variable, errno=%d" +:+ newline) [VStr (Some name); VInt e];
                    mret 1
                | Some _ => mret 0
                end
          end
      end
  end.

Definition env_set (varname : string) (varvalue : option string) : M Z :=
  let argv := [Some "setenv"; Some varname; varvalue; None] in
  ready ← gets env_ready;
  if negb ready then mret 1
  else
    match varvalue with
    | Some v =>
        if Ascii.eqb (default NUL (str_at v 0)) NUL then _do_env_set 2 argv H_PROGRAMMATIC
        else _do_env_set 3 argv H_PROGRAMMATIC
    | None => _do_env_set 2 argv H_PROGRAMMATIC
    end.

Definition env_set_ulong (varname : string) (value : Z) : M Z := env_set varname (Some (simple_itoa value)).

Definition env_set_hex (varname : string) (value : Z) : M Z :=
  str ← sprintf_to 17 "%lx" [VInt value];
  env_set varname (Some str).

Definition env_get_hex (varname : string) (default_val : Z) : M Z :=
  s ← env_get varname;
  mret (match s with
        | None => default_val
        | Some s =>
            let '(value, endp) := simple_strtoul s 16 in
            if slen endp =? slen s then default_val else value
        end).

Definition env_get_ulong (name : string) (base default_val : Z) : M Z :=
  str ← env_get name;
  mret (match str with Some s => (simple_strtoul s base).1 | None => default_val end).

Definition env_get_yesno (var : string) : M Z :=
  s ← env_get var;
  mret (match s with
        | None => -1
        | Some s =>
            let c := default NUL (str_at s 0) in
            if existsb (Ascii.eqb c) ["1"; "y"; "Y"; "t"; "T"]%char then 1 else 0
        end).

Definition from_env (envvar : string) : M (option string) :=
  ret ← env_get envvar;
  _ ← match ret with
      | None => printf ("missing environment variable: %s" +:+ newline) [VStr (Some envvar)]
      | Some _ => mret tt
      end;
  mret ret.

(** ** Commands *)

(** The number of characters [printf] has printed. *)
Definition printed (fmt : string) (args : list va_arg) : Z :=
  match vscnprintf CONFIG_SYS_PBSIZE fmt args with Some (_, i) => i | None => 0 end.

Definition env_print (name : option string) (flag : Z) : M Z :=
  match name with
  | Some name =>
      '(_, ep) ← hsearch_r (mkEntry (Some name) None None 0) ENV_FIND flag;
      match ep with
      | None => mret 0
      | Some i =>
          n ← slot i;
          let fmt := "%s=%s" +:+ newline in
          let args := [VStr (key (entry n)); VStr (data (entry n))] in
          _ ← printf fmt args;
          mret (printed fmt args)
      end
  | None =>
      '(len, res) ← hexport_r line_feed flag None 0 [];
      match (if 0 <? len then res else None) with
      | Some res => _ ← puts (str_of_list res); mret len
      | None =>
          _ ← printf ("## Error: cannot export environment" +:+ newline) [];
          mret 0
      end
  end.

Fixpoint print_named (argv : list string) (env_flag rcode : Z) : M Z :=
  match argv with
  | [] => mret rcode
  | arg :: argv' =>
      rc ← env_print (Some arg) env_flag;
      if rc =? 0 then
        _ ← printf ("## Error: " +:+ quote +:+ "%s" +:+ quote +:+ " not defined" +:+ newline) [VStr (Some arg)];
        print_named argv' env_flag (rcode + 1)
      else print_named argv' env_flag rcode
  end.

(** [argv] without the name of the command. *)
Definition do_env_print (argv : list string) : M Z :=
  let '(argv, env_flag) :=
    match argv with
    | arg :: argv' =>
        if Ascii.eqb (default NUL (str_at arg 0)) "045"%char && Ascii.eqb (default NUL (str_at arg 1)) "097"%char
        then (argv', 0) else (argv, H_HIDE_DOT)
    | [] => (argv, H_HIDE_DOT)
    end in
  match argv with
  | [] =>
      rcode ← env_print None env_flag;
      if rcode =? 0 then mret 1
      else
        _ ← printf (newline +:+ "Environment size: %d/%ld bytes" +:+ newline) [VInt rcode; VInt ENV_SIZE];
        mret 0
  | _ => print_named argv (Z.land env_flag (Z.lnot H_HIDE_DOT)) 0
  end.

Definition do_env_set (argv : list string) : M Z :=
  let argc := Z.of_nat (length argv) + 1 in
  if argc <? 2 then mret CMD_RET_USAGE
  else _do_env_set argc (Some "setenv" :: (Some <$> argv)) H_INTERACTIVE.

(** The options and the names of [do_env_delete]. *)
Fixpoint env_delete_options (argv : list string) (env_flag : Z) : option (list string * Z) :=
  match argv with
  | arg :: argv' =>
      if Ascii.eqb (default NUL (str_at arg 0)) "045"%char then
        if option_chars arg then
          env_delete_options argv' (if 1 <? strlen arg then Z.lor env_flag H_FORCE else env_flag)
        else None
      else Some (argv, env_flag)
  | [] => Some ([], env_flag)
  end.

Fixpoint delete_named (argv : list string) (env_flag ret : Z) : M Z :=
  match argv with
  | [] => mret ret
  | name :: argv' =>
      r ← hdelete_r name env_flag;
      delete_named argv' env_flag (if r =? 0 then 1 else ret)
  end.

Definition do_env_delete (argv : list string) : M Z :=
  match env_delete_options argv H_INTERACTIVE with
  | None => mret CMD_RET_USAGE
  | Some (argv, env_flag) =>
      _ ← hw_do (λ h, h <| env_id := sign 32 (env_id h + 1) |>);
      delete_named argv env_flag 0
  end.

(** ** The stored environment *)

Definition env_bytes (l : list ascii) : list Z := ord <$> l.

(** [addr] is where [data] lies. *)
Definition env_checksum (addr : Z) (data : list ascii) : Z := crc32 0 addr (env_bytes data).

(** [CONFIG_LOGLEVEL] is 3: [pr_err] prints nothing. *)
Definition env_set_default (s : option string) (flags : Z) : M unit :=
  if ENV_SIZE <? Z.of_nat (length default_environment) then
    puts ("*** Error - default environment is too large" +:+ newline +:+ newline)
  else
    _ ← match s with
        | Some s =>
            if Z.land flags H_INTERACTIVE =? 0 then
              printf ("*** Warning - %s, using default environment" +:+ newline +:+ newline) [VStr (Some s)]
            else puts s
        | None => mret tt
        end;
    _ ← himport_r default_environment (Z.of_nat (length default_environment)) NUL flags 0 [];
    _ ← set_gd_flags GD_FLG_ENV_READY;
    set_gd_flags GD_FLG_ENV_DEFAULT.

Definition env_set_default_vars (vars : list string) (flags : Z) : M Z :=
  himport_r default_environment (Z.of_nat (length default_environment)) NUL (Z.lor flags H_NOCLEAR) 0 vars.

Definition env_import (addr : Z) (ep : env_t) (check : Z) : M Z :=
  if nonzero check && negb (env_checksum (addr + 4) (take (Z.to_nat ENV_SIZE) (env_data ep)) =? env_crc ep) then
    _ ← env_set_default (Some "bad CRC") 0;
    mret (- ENOMSG)
  else
    r ← himport_r (env_data ep) ENV_SIZE NUL 0 0 [];
    if r =? 0 then
      _ ← env_set_default (Some "import failed") 0;
      mret (- EIO)
    else
      _ ← set_gd_flags GD_FLG_ENV_READY;
      mret 0.

(** The code and [*env_out]. *)
Definition env_export (addr : Z) (env_out : env_t) : M (Z * env_t) :=
  '(len, res) ← hexport_r NUL 0 (Some (env_data env_out)) ENV_SIZE [];
  let data := default (env_data env_out) res in
  if len <? 0 then mret (1, mkEnvT (env_crc env_out) data)
  else mret (0, mkEnvT (env_checksum (addr + 4) (take (Z.to_nat ENV_SIZE) data)) data).
End environ.
