(* ===== verification/EnvironFacts.v ===== *)
(** What the environment promises: its interface behaves as a finite map of
    variables, what is exported is imported again, and a stored environment
    with a changed byte is not accepted. *)

From stdpp Require Import sorting.
From S2P Require Import Prelude CLib Vsprintf VsprintfFacts Machine QSort HashTable HashFacts HashText HashTextFacts Crc32 Environ.

Section environ_access.
Context {E : Type} `{!EnvHooks E} {Re : Slre} `{!EnvConfig E} `{!EnvInv E} `{Hlaw : !HooksLaw True}.
Notation world := (world (env_globals E)).
Notation M := (M world).
Implicit Types w : world.
Implicit Types m : gmap string string.
Implicit Types k d : string.
Notation tab w := (env_htab (hw w)).

(** The environment is imported and holds the variables [m]. *)
Definition env_holds w m : Prop := holds (tab w) m ∧ env_ready w = true.

Lemma env_holds_kept w w' m : kept w w' → env_ready w = true → holds (tab w') m → env_holds w' m.
Proof. intros [[Hg _] _] Hr Hh. split; [done|]. unfold env_ready in *. by rewrite Hg. Qed.

(** ** Reading *)

Lemma wp_env_get w m k :
  env_holds w m → no_nul k → wp (env_get k) (λ r w', r = m !! k ∧ env_holds w' m ∧ kept w w') w.
Proof.
  intros [Hh Hr] Hk. unfold env_get, find_variable. apply wp_bind, wp_gets. rewrite Hr.
  apply wp_bind, wp_bind. eapply wp_mono; [by eapply hsearch_find|]. intros [r ep] w'.
  destruct (m !! k) as [d|].
  - intros (i & _ & [= -> ->] & -> & He). apply wp_ret, wp_bind. eapply wp_entry_at; [done..|].
    intros n [= _ _ Hd]. apply wp_ret. by rewrite Hd.
  - intros [[= -> ->] ->]. by apply wp_ret, wp_ret.
Qed.

(** ** Writing *)

(** A name that [env_set] takes: without ['='], and not taken for an option. *)
Definition legal_name k : Prop :=
  no_nul k ∧ strchr k "061"%char = None ∧ default NUL (str_at k 0) ≠ "045"%char.

Lemma wp_set_options w k argv argc fl (Q : option (list (option string) * Z * Z) → world → Prop) :
  default NUL (str_at k 0) ≠ "045"%char → 1 < argc →
  Q (Some (Some "setenv" :: Some k :: argv, argc, fl)) w →
  wp (env_set_options (Some "setenv" :: Some k :: argv) argc fl) Q w.
Proof.
  intros Hk Hargc HQ. cbn [env_set_options]. rewrite (proj2 (Z.leb_gt argc 1)) by lia.
  apply wp_bind, wp_deref. rewrite eqb_false by done. by apply wp_ret.
Qed.

(** Deleting. *)
Lemma wp_env_unset w m k v :
  env_holds w m → legal_name k → v = None ∨ v = Some "" → env_val None →
  wp (env_set k v) (λ r w', r = (if m !! k then 0 else 1) ∧ env_holds w' (delete k m) ∧ kept w w') w.
Proof using Hlaw.
  intros [Hh Hr] (Hk & Heq & Hdash) Hv Hval. unfold env_set. apply wp_bind, wp_gets. rewrite Hr. cbn [negb].
  assert (wp (_do_env_set 2 [Some "setenv"; Some k; v; None] H_PROGRAMMATIC)
    (λ r w', r = (if m !! k then 0 else 1) ∧ env_holds w' (delete k m) ∧ kept w w') w) as Hgo;
    [|by destruct Hv as [-> | ->]].
  unfold _do_env_set. apply wp_bind, wp_set_options; [done|lia|]. cbn [lookup list_lookup].
  apply wp_bind, wp_deref. rewrite Heq. apply wp_bind, wp_hw_do, wp_bind, wp_ret, wp_bind.
  eapply wp_mono; [by eapply hdelete_spec|]. intros r w' [Hkept H]. apply wp_ret.
  assert (kept w w') as Hkw by exact Hkept.
  destruct H as [(-> & [d Hd] & Hh')|(-> & Hh' & Hno)].
  - rewrite Hd. split_and!; [done|by eapply env_holds_kept|done].
  - destruct (m !! k) as [d|] eqn:Hm; [by destruct Hno|]. rewrite delete_id by done.
    split_and!; [done|by eapply env_holds_kept|done].
Qed.

(** Setting: the variable is there, or it is new and the table is full. *)
Lemma wp_env_set w m k d :
  env_holds w m → legal_name k → no_nul d → d ≠ "" → env_val (Some d) →
  wp (env_set k (Some d)) (λ r w', kept w w' ∧
    if bool_decide (m !! k = None ∧ Z.of_nat (base.size m) = size (tab w))
    then r = 1 ∧ env_holds w' m else r = 0 ∧ env_holds w' (<[k:=d]> m)) w.
Proof using Hlaw.
  intros [Hh Hr] (Hk & Heq & Hdash) Hd Hne Hval. unfold env_set. apply wp_bind, wp_gets. rewrite Hr. cbn [negb].
  assert (Ascii.eqb (default NUL (str_at d 0)) NUL = false) as ->.
  { destruct d as [|c d]; [done|]. simpl. unfold no_nul in Hd. simpl in Hd.
    by destruct (Ascii.eqb c NUL). }
  unfold _do_env_set. apply wp_bind, wp_set_options; [done|lia|]. cbn [lookup list_lookup].
  apply wp_bind, wp_deref. rewrite Heq. apply wp_bind, wp_hw_do, wp_bind, wp_ret, wp_bind, wp_ret, wp_bind, wp_malloc_ok.
  intros e Hinv. cbn [negb]. apply wp_bind. cbn [fmap list_fmap join_args]. rewrite Hd.
  pose proof Hh as (_ & _ & _ & _ & _ & [Hf Hle] & _).
  eapply wp_mono; [by eapply (hsearch_enter _ m _ k d)|]. intros [r ep] w' [Hkept H].
  assert (kept w w') as Hkw by (etrans; [|exact Hkept]; by repeat split). cbn [fst snd] in H. simpl in Hkept.
  case_bool_decide as Hfull.
  - destruct Hfull as [Hm Hsz]. destruct H as [(_ & Hh' & _)|([= -> ->] & Hh' & _)].
    { exfalso. destruct Hh' as (_ & _ & _ & _ & _ & [Hf' Hle'] & _). rewrite map_size_insert_None in Hf' by done.
      destruct Hkw as [_ Hs]. lia. }
    apply wp_bind, wp_gets, wp_bind, wp_printf; [reflexivity|]. intros s. apply wp_ret.
    split_and!; [done|done|by eapply env_holds_kept].
  - destruct H as [(_ & Hh' & i & -> & _)|(_ & _ & Hno)].
    { apply wp_ret. split_and!; [done|done|by eapply env_holds_kept]. }
    exfalso. apply Hno. split; [done|]. intros Hm. simpl. destruct (decide (Z.of_nat (base.size m) = size (tab w))).
    + by destruct Hfull.
    + lia.
Qed.

End environ_access.

Section environ_facts.
#[local] Existing Instance any_inv.
Context {E : Type} `{!EnvHooks E} {Re : Slre} `{!EnvConfig E} `{Hlaw : !HooksLaw True}.
Notation world := (world (env_globals E)).
Notation M := (M world).
Implicit Types w : world.
Implicit Types m : gmap string string.
Implicit Types k d : string.
Notation tab w := (env_htab (hw w)).

(** ** The interface as a map *)

Inductive env_call := CallSet (k : string) (v : option string) | CallGet (k : string).
Inductive env_answer := Code (r : Z) | Value (v : option string).

Definition run_call (c : env_call) : M env_answer :=
  match c with
  | CallSet k v => r ← env_set k v; mret (Code r)
  | CallGet k => v ← env_get k; mret (Value v)
  end.

Fixpoint run_calls (cs : list env_call) : M (list env_answer) :=
  match cs with
  | [] => mret []
  | c :: cs' => a ← run_call c; l ← run_calls cs'; mret (a :: l)
  end.

(** The same calls on a map that takes [cap] variables. *)
Definition spec_call (cap : Z) m (c : env_call) : env_answer * gmap string string :=
  match c with
  | CallGet k => (Value (m !! k), m)
  | CallSet k (Some (String _ _ as d)) =>
      if bool_decide (m !! k = None ∧ Z.of_nat (base.size m) = cap) then (Code 1, m)
      else (Code 0, <[k:=d]> m)
  | CallSet k _ => (Code (if m !! k then 0 else 1), delete k m)
  end.

Fixpoint spec_calls (cap : Z) m (cs : list env_call) : list env_answer * gmap string string :=
  match cs with
  | [] => ([], m)
  | c :: cs' =>
      let '(a, m1) := spec_call cap m c in let '(l, m2) := spec_calls cap m1 cs' in (a :: l, m2)
  end.

Definition legal_call (c : env_call) : Prop :=
  match c with
  | CallSet k v => legal_name k ∧ no_nul (default "" v)
  | CallGet k => no_nul k
  end.

Lemma wp_run_call w m c :
  env_holds w m → legal_call c →
  wp (run_call c) (λ a w', kept w w' ∧ a = (spec_call (size (tab w)) m c).1 ∧
    env_holds w' (spec_call (size (tab w)) m c).2) w.
Proof using Hlaw.
  intros Hw Hc. destruct c as [k v|k]; simpl in Hc |- *; apply wp_bind.
  - destruct Hc as [Hk Hv]. destruct v as [[|c d]|].
    2:{ eapply wp_mono; [by apply (wp_env_set w m)|]. intros r w' [Hkept H]. apply wp_ret.
        case_bool_decide; destruct H as [-> H]; done. }
    all: eapply wp_mono; [apply (wp_env_unset w m); [done|done|by auto|done]|];
      intros r w' (-> & H & Hkept); by apply wp_ret.
  - eapply wp_mono; [by apply (wp_env_get w m)|]. intros r w' (-> & H & Hkept). by apply wp_ret.
Qed.

Lemma wp_run_calls w m cs :
  env_holds w m → Forall legal_call cs →
  wp (run_calls cs) (λ l w', kept w w' ∧ l = (spec_calls (size (tab w)) m cs).1 ∧
    env_holds w' (spec_calls (size (tab w)) m cs).2) w.
Proof using Hlaw.
  revert w m. induction cs as [|c cs IH]; intros w m Hw Hcs; [by apply wp_ret|].
  apply Forall_cons in Hcs as [Hc Hcs]. cbn [run_calls spec_calls]. apply wp_bind.
  eapply wp_mono; [by apply (wp_run_call w m)|]. intros a w1 (Hk1 & -> & H1).
  destruct (spec_call _ m c) as [a m1]. simpl in H1. apply wp_bind.
  eapply wp_mono; [by apply (IH w1 m1)|]. intros l w2 (Hk2 & -> & H2). apply wp_ret.
  pose proof Hk1 as [_ Hs1]. rewrite Hs1 in *. destruct (spec_calls _ m1 cs) as [l m2].
  split_and!; [by etrans|done|done].
Qed.

(** ** Export and import *)

Lemma bytes_of l : Forall is_byte (env_bytes l).
Proof. unfold env_bytes. apply Forall_fmap, Forall_true. intros c. apply ord_range. Qed.

(** The checksum does not depend on where the data lies. *)
Lemma checksum_anywhere addr addr' data : env_checksum addr data = env_checksum addr' data.
Proof. unfold env_checksum, crc32. by rewrite !crc32_no_comp_ref by apply bytes_of. Qed.

(** Variables that the stored text can carry. *)
Definition storable m : Prop := map_Forall (λ k d, good_name NUL k ∧ good_value d) m.

Definition fits_store m : Prop :=
  text_size NUL 0 m + 1 ≤ ENV_SIZE ∧ Z.of_nat (base.size m) ≤ 512 ∧
  Z.of_nat (base.size m) ≤ 64 + ENV_SIZE / 8.

Lemma good_sep_nul : good_sep NUL.
Proof. by split. Qed.

Lemma exported_storable m l : storable m → exported 0 m l → Forall (λ kd, good_name NUL kd.1 ∧ good_value kd.2) l.
Proof. intros Hm Hl. apply Forall_forall. intros kd Hkd. apply Hm. by eapply exported_entry. Qed.

Lemma room_le_text sep flag m : room_of sep flag m ≤ text_size sep flag m.
Proof.
  unfold text_size, forgotten. pose proof (backslashes_pos (shown flag (map_to_list m))).
  destruct (Ascii.eqb sep NUL); lia.
Qed.

Lemma wp_set_gd w m bits (Q : unit → world → Prop) :
  holds (tab w) m →
  (∀ w', holds (tab w') m → gd_flags (hw w') = Z.lor (gd_flags (hw w)) bits → Q tt w') → wp (set_gd_flags bits) Q w.
Proof. intros Hh HQ. unfold set_gd_flags. by apply wp_hw_do, HQ. Qed.

Lemma ready_lor a : nonzero (Z.land (Z.lor a GD_FLG_ENV_READY) GD_FLG_ENV_READY) = true.
Proof. rewrite (nonzero_land_pow2 _ 7), Z.lor_spec by lia. apply orb_true_r. Qed.

(** Importing a text of entries makes them the environment. *)
Lemma wp_env_import w addr ep l n check :
  some_table w → env_data ep = (l ≫= entry_text NUL) ++ replicate (S n) NUL →
  Z.of_nat (length (env_data ep)) = ENV_SIZE →
  Forall (λ kd, good_name NUL kd.1 ∧ good_value kd.2) l →
  Z.of_nat (length l) ≤ 512 → Z.of_nat (length l) ≤ 64 + ENV_SIZE / 8 →
  check = 0 ∨ env_crc ep = env_checksum 0 (env_data ep) →
  wp (env_import addr ep check) (λ r w', r = 0 ∧ env_holds w' (enter_all ∅ l)) w.
Proof using Hlaw.
  intros Ht Hdata Hlen Hl Hmax Hroom Hcrc. unfold env_import.
  assert (nonzero check && negb (env_checksum (addr + 4) (take (Z.to_nat ENV_SIZE) (env_data ep)) =? env_crc ep)
    = false) as ->.
  { destruct Hcrc as [-> | ->]; [done|]. rewrite take_ge, (checksum_anywhere _ 0), Z.eqb_refl by lia. apply andb_false_r. }
  apply wp_bind. rewrite Hdata in Hlen |- *. rewrite <- Hlen in Hroom |- *.
  eapply wp_mono; [apply import_text; try done; apply good_sep_nul|].
  intros r w1 (-> & Hg & Hh). cbn [Z.eqb]. apply wp_bind. eapply wp_set_gd; [done|]. intros w2 Hh2 Hg2. apply wp_ret.
  split; [done|]. split; [done|]. unfold env_ready. rewrite Hg2. apply ready_lor.
Qed.

Lemma wp_env_export w m addr env_out :
  holds (tab w) m → Z.of_nat (length (env_data env_out)) = ENV_SIZE → ENV_SIZE < 2 ^ 32 → text_size NUL 0 m + 1 ≤ ENV_SIZE →
  wp (env_export addr env_out) (λ r w', calm w w' ∧ ∃ l n, exported 0 m l ∧
    let data := (l ≫= entry_text NUL) ++ replicate (S n) NUL in
    r = (0, mkEnvT (env_checksum 0 data) data) ∧ Z.of_nat (length data) = ENV_SIZE) w.
Proof using Hlaw.
  intros Hh Hlen Hmax Hfit. pose proof (room_le_text NUL 0 m) as Hle. pose proof (total_room_pos NUL (shown 0 (map_to_list m))) as Hpos.
  fold (room_of NUL 0 m) in Hpos. unfold env_export. apply wp_bind.
  eapply wp_mono; [eapply (wp_hexport w m NUL 0 (Some (env_data env_out)) ENV_SIZE)|].
  - done.
  - lia.
  - simpl. split; [lia|done].
  - rewrite length_app, length_replicate. lia.
  - intros r w1 (Hc & l & Hl & ->). rewrite (proj2 (Z.eqb_neq ENV_SIZE 0)) by lia.
    rewrite (proj2 (Z.ltb_ge ENV_SIZE 0)) by lia. apply wp_ret. split; [done|]. cbn [from_option id].
    pose proof (exported_length _ NUL 0 m l Hh Hl) as Htext.
    set (text := l ≫= entry_text NUL) in *. rewrite (drop_ge (env_data env_out)), app_nil_r by lia.
    exists l, (Z.to_nat ENV_SIZE - S (length text))%nat.
    assert ((text ++ [NUL]) ++ drop (length (text ++ [NUL])) (replicate (Z.to_nat ENV_SIZE) NUL) =
      text ++ replicate (S (Z.to_nat ENV_SIZE - S (length text))) NUL) as ->.
    { rewrite drop_replicate, length_app, <- app_assoc. simpl. do 3 f_equal. f_equal. lia. }
    split; [done|]. rewrite take_ge by (rewrite length_app, length_replicate; lia).
    rewrite (checksum_anywhere _ 0). split; [done|]. rewrite length_app, length_replicate. fold text. lia.
Qed.

(** The exported environment is imported on any machine with this code. *)
Lemma export_import w m addr env_out :
  holds (tab w) m → storable m → fits_store m → Z.of_nat (length (env_data env_out)) = ENV_SIZE → ENV_SIZE < 2 ^ 32 →
  wp (env_export addr env_out) (λ r w', calm w w' ∧ r.1 = 0 ∧
    ∀ addr' w2, some_table w2 → wp (env_import addr' r.2 1) (λ r w3, r = 0 ∧ env_holds w3 m) w2) w.
Proof using Hlaw.
  intros Hh Hst (Hfit & Hmax & Hroom) Hlen HE.
  eapply wp_mono; [by apply (wp_env_export w m)|]. intros r w1 (Hc & l & n & Hl & -> & Hdl). split_and!; [done|done|].
  intros addr' w2 Hw2. pose proof Hl as [Hp _]. rewrite shown_0 in Hp.
  assert (length l = base.size m) as Hsz by (rewrite Hp; apply length_map_to_list).
  eapply wp_mono; [eapply (wp_env_import w2 addr' _ l n 1)|]; try done; try lia.
  - by eapply exported_storable.
  - by right.
  - intros r w3 [-> H]. split; [done|]. by rewrite (enter_all_perm l m Hp) in H.
Qed.

(** The default environment is a text of entries. *)
Definition default_text (l : list (string * string)) (n : nat) : Prop :=
  default_environment = (l ≫= entry_text NUL) ++ replicate (S n) NUL ∧
  Z.of_nat (length default_environment) ≤ ENV_SIZE ∧
  Forall (λ kd, good_name NUL kd.1 ∧ good_value kd.2) l ∧ Z.of_nat (length l) ≤ 512 ∧
  Z.of_nat (length l) ≤ 64 + Z.of_nat (length default_environment) / 8.

Lemma wp_env_set_default w s l n :
  some_table w → default_text l n →
  wp (env_set_default (Some s) 0) (λ _ w', env_holds w' (enter_all ∅ l)) w.
Proof using Hlaw.
  intros Ht (Hd & Hsz & Hl & Hmax & Hroom). unfold env_set_default. rewrite (proj2 (Z.ltb_ge _ _)) by lia.
  apply wp_bind. cbn [Z.land Z.eqb]. apply wp_printf; [reflexivity|]. intros text. apply wp_bind.
  rewrite Hd in Hroom |- *. eapply wp_mono; [apply import_text; try done; apply good_sep_nul|].
  intros r w1 (-> & Hg & Hh). apply wp_bind. eapply wp_set_gd; [done|]. intros w2 Hh2 Hg2.
  eapply wp_set_gd; [done|]. intros w3 Hh3 Hg3. split; [done|]. unfold env_ready. rewrite Hg3, Hg2.
  rewrite (nonzero_land_pow2 _ 7), !Z.lor_spec by lia. by rewrite orb_true_r.
Qed.

(** A byte of the stored data has changed since its checksum was made. *)
Lemma env_import_changed w addr crc pre x y post l n :
  some_table w → default_text l n → x ≠ y → Z.of_nat (length (pre ++ x :: post)) = ENV_SIZE →
  crc = env_checksum 0 (pre ++ x :: post) →
  wp (env_import addr (mkEnvT crc (pre ++ y :: post)) 1)
    (λ r w', r = - ENOMSG ∧ env_holds w' (enter_all ∅ l)) w.
Proof using Hlaw.
  intros Ht Hd Hxy Hlen ->. unfold env_import. cbn [env_data env_crc].
  rewrite take_ge by (rewrite !length_app in *; simpl in *; lia).
  assert (env_checksum (addr + 4) (pre ++ y :: post) ≠ env_checksum 0 (pre ++ x :: post)) as Hne.
  { unfold env_checksum, env_bytes. rewrite !fmap_app, !fmap_cons. apply crc32_detects.
    - done.
    - rewrite <- fmap_cons, <- fmap_app. apply bytes_of.
    - apply ord_range.
    - intros ?%(inj ord). by apply Hxy. }
  rewrite (proj2 (Z.eqb_neq _ _)) by done. cbn [nonzero Z.eqb negb andb].
  apply wp_bind. eapply wp_mono; [by apply (wp_env_set_default w _ l n)|]. intros u w' H. by apply wp_ret.
Qed.

(** The export of an environment whose values have backslashes that there is
    no room for. *)
Lemma env_export_overrun w m addr env_out :
  holds (tab w) m → Z.of_nat (length (env_data env_out)) = ENV_SIZE → ENV_SIZE < 2 ^ 32 →
  room_of NUL 0 m + 1 ≤ ENV_SIZE < text_size NUL 0 m + 1 →
  crashes (env_export addr env_out) OUT_OF_BOUNDS w.
Proof using Hlaw.
  intros Hh Hlen HE [Hroom Hover]. unfold env_export. pose proof (total_room_pos NUL (shown 0 (map_to_list m))) as Hpos.
  fold (room_of NUL 0 m) in Hpos.
  destruct (hexport_overruns w m NUL 0 (Some (env_data env_out)) ENV_SIZE
    (replicate (Z.to_nat ENV_SIZE) NUL ++ drop (Z.to_nat ENV_SIZE) (env_data env_out))) as [w1 Hrun].
  - done.
  - lia.
  - simpl. split; [lia|done].
  - rewrite drop_ge, app_nil_r, length_replicate by lia. lia.
  - by eapply crashes_first.
Qed.

(** * The properties *)




(** C26. The export of an environment writes past its buffer when the values
    have more backslashes than there is room left: [hexport_r] reserves no
    room for the escapes of a NUL-separated text, but writes them. *)
Theorem env_export_overruns w m addr env_out :
  holds (tab w) m → Z.of_nat (length (env_data env_out)) = ENV_SIZE → ENV_SIZE < 2 ^ 32 →
  room_of NUL 0 m + 1 ≤ ENV_SIZE < text_size NUL 0 m + 1 →
  crashes (env_export addr env_out) OUT_OF_BOUNDS w.
Proof using Hlaw. apply env_export_overrun. Qed.
End environ_facts.

(** * A machine *)

(** The globals but for the environment, with empty test buffers. *)
Definition idle_world {HW} (h : HW) : world HW :=
  mkWorld "" (mkLog 0 CONSOLE_LOG_MODE 0xFFFF) (mkI2c None ∅ ∅) (mkEeprom [] []) (mkNor None [] [])
    (mkMmc (mkMmcParam 0 0 0 0 None) [] []) (mkMiiState [] None) (mkBlkCache [] (mkStats 0 0 0 8 32))
    (mkEth None ∅ 0 None None 0 0)
    (mkNet 0 0 0 0 [] 0xFFFF 0xFFFF 0 0 None 0 None None 0 0 0 0 0 None None None None 0 0
       NETLOOP_CONTINUE 0 0 0 0 true 0 0 0 0)
    h.

(** Memory does not run out, no variable has a callback and every change is
    allowed; a store of 128 bytes and two default variables. *)
Module EnvSim.

#[global] Instance hooks : EnvHooks unit := {
  malloc _ e := (true, e);
  env_flags_validate _ _ _ _ := mret 0;
  env_callback _ _ _ _ _ := mret 0;
  env_callback_init _ := mret None;
  env_flags_init _ := mret None;
}.

#[local] Existing Instance any_inv.

#[global] Instance hooks_law : HooksLaw (E := unit) True.
Proof. split; intros; by try apply wp_ret. Qed.

#[global] Instance re : Slre := {
  slre := unit;
  slre_compile _ := inl tt;
  slre_match _ _ := false;
}.

Definition default_vars : list (string * string) := [("baudrate", "115200"); ("bootdelay", "2")].

#[global] Instance config : EnvConfig unit := {
  ENV_SIZE := 128;
  default_environment := (default_vars ≫= entry_text NUL) ++ replicate 1 NUL;
  early_text _ := (default_vars ≫= entry_text NUL) ++ replicate 1 NUL;
}.

Definition start : world (env_globals unit) :=
  idle_world (mkEnv (fresh_table 67) 0 1 GD_FLG_ENV_READY ()).

Lemma start_holds : env_holds start ∅.
Proof. split; [|done]. by apply holds_fresh; [apply isprime_prime|]. Qed.

Lemma default_vars_text : default_text default_vars 0.
Proof.
  unfold default_text. split_and!; [done|done| |done|done].
  repeat constructor; done.
Qed.

(** The machine after one variable was set. *)
Lemma set_one k d :
  legal_name k → no_nul d → d ≠ "" →
  wp (env_set k (Some d)) (λ r w, r = 0 ∧ env_holds w {[k := d]}) start.
Proof.
  intros Hk Hd Hne. eapply wp_mono; [by apply (wp_env_set start ∅); [apply start_holds|..]|].
  intros r w [_ H]. rewrite bool_decide_eq_false_2 in H by (intros [_ H']; discriminate H'). exact H.
Qed.
End EnvSim.

(** * Witnesses *)




Lemma env_export_overruns_witness :
  let d := str_repeat 100 backslash in
  wp (env_set "path" (Some d)) (λ r w, r = 0 ∧
    crashes (env_export 0 (mkEnvT 0 (replicate 128 NUL))) OUT_OF_BOUNDS w) EnvSim.start.
Proof.
  intros d. eapply wp_mono; [by apply EnvSim.set_one|]. intros r w [-> [Hh _]]. split; [done|].
  apply (env_export_overruns w {["path" := d]}).
  - exact Hh.
  - reflexivity.
  - reflexivity.
  - vm_compute. split; [congruence|reflexivity].
Defined.

(** * Defects *)

(** Four names with one hash: the last one lands in slot [size], where
    [hmatch_r], and with it the completion of names, does not look. *)
Example hmatch_misses_variable :
  wp (_ ← run_calls ((λ k, CallSet k (Some "1")) <$> ["var21"; "var55"; "var89"; "var190"]);
      v ← env_get "var190"; r ← hmatch_r "var190" 0; mret (v, r))
    (λ r _, r = (Some "1", (0, None))) EnvSim.start.
Proof. vm_compute. reflexivity. Qed.

(** A text with CR LF line ends and without one at its end: removing the CRs
    leaves stale bytes behind the text, which are read into the last value. *)
Example import_crlf_stale :
  let text := list_of_str "a=1" ++ [carriage_return; line_feed] ++ list_of_str "b=2" in
  wp (r ← himport_r text 8 line_feed 0 1 []; v ← env_get "b"; mret (r, v))
    (λ r _, r = (1, Some "22")) EnvSim.start.
Proof. vm_compute. reflexivity. Qed.

(** Memory for a given number of allocations. *)
Module Starved.
Definition hooks : EnvHooks Z := {|
  malloc _ e := (0 <? e, e - 1);
  env_flags_validate _ _ _ _ := mret 0;
  env_callback _ _ _ _ _ := mret 0;
  env_callback_init _ := mret None;
  env_flags_init _ := mret None;
|}.

Definition start (n : Z) : world (env_globals Z) :=
  idle_world (mkEnv (fresh_table 67) 0 1 GD_FLG_ENV_READY n).

(** A new variable for which there is no memory leaves its slot in use with a
    null key; looking the name up then dereferences the null pointer. *)
Example failed_entry_poisons :
  let item d := mkEntry (Some "bootcmd") d None 0 in
  wp (hsearch_r (EnvHooks0 := hooks) (item (Some "run")) ENV_ENTER 0) (λ r w, r = (0, None) ∧
    crashes (hsearch_r (EnvHooks0 := hooks) (item None) ENV_FIND 0) NULL_DEREF w) (start 0).
Proof. vm_compute. split; [reflexivity|]. eexists. reflexivity. Qed.
End Starved.
