(* ===== verification/EnvMac.v ===== *)
(** The Ethernet uclass over the environment: the variables that [EthUclass]
    and [EthMac] read and set are those of the hash table of [Environ], and a
    change of [ethaddr] runs the callback [on_ethaddr].  The law that [EthMac]
    relies on is proved of this composition. *)

From S2P Require Import Prelude CLib Vsprintf VsprintfFacts Machine.
From S2P Require Import HashTable HashFacts HashText HashTextFacts Environ EnvironFacts.
From S2P Require Import I2cUclass NetUtils EthUclass EthMac.

(** * The composition *)

Section env_eth.
Context {P : Type} `{!EthDriver P} `{!EthPlat P} (hooks : EnvHooks P) {Re : Slre} `{!EnvConfig P}.
Context (on_ethaddr_handle : Z).
Notation G := (env_globals P).
Notation M := (M (world G)).

(** A function of the drivers, on the machine with the environment. *)
Definition on_other {A} (f : P → A * P) (g : G) : A * G := let '(a, p) := f (other g) in (a, g <| other := p |>).
Definition do_other (f : P → P) (g : G) : G := g <| other := f (other g) |>.

#[export] Instance driver_with_env : EthDriver G := {|
  uclass_first_eth := on_other uclass_first_eth;
  uclass_next_eth d := on_other (uclass_next_eth d);
  uclass_eth_devs g := uclass_eth_devs (other g);
  eth_device_active d g := eth_device_active d (other g);
  eth_device_probe d := on_other (eth_device_probe d);
  eth_dev_name := eth_dev_name;
  eth_dev_seq d g := eth_dev_seq d (other g);
  enetaddr d g := enetaddr d (other g);
  eth_ops_start d := on_other (eth_ops_start d);
  eth_ops_stop d := do_other (eth_ops_stop d);
  eth_ops_send d l := on_other (eth_ops_send d l);
  eth_ops_recv d fl := on_other (eth_ops_recv d fl);
  eth_ops_free_pkt d := (λ f l n, do_other (f l n)) <$> eth_ops_free_pkt d;
|}.

#[export] Instance plat_with_env : EthPlat G := {|
  set_enetaddr d m := do_other (set_enetaddr d m);
  dev_read_u8_array_ptr d s n g := dev_read_u8_array_ptr d s n (other g);
  eth_ops_write_hwaddr d := (λ f, on_other f) <$> eth_ops_write_hwaddr d;
  eth_ops_read_rom_hwaddr d := (λ f, on_other f) <$> eth_ops_read_rom_hwaddr d;
  uclass_find_eth_by_seq k g := uclass_find_eth_by_seq k (other g);
  uclass_first_eth_check := on_other uclass_first_eth_check;
  uclass_next_eth_check d := on_other (uclass_next_eth_check d);
  phy_init := do_other phy_init;
|}.

(** A function of the environment, run on the machine; its text is not
    kept. *)
Definition env_run {A} (m : M A) (g : G) : option (A * G) :=
  match m (idle_world g) with Ret a w => Some (a, hw w) | _ => None end.

(** Reading calls no callback. *)
Definition read_variable (name : string) (g : G) : option string :=
  match env_run (Environ.env_get (EnvHooks0 := hooks) name) g with Some (v, _) => v | None => None end.

Definition env_reads : Env G := {|
  env_get := read_variable;
  env_set _ _ g := (1, g);
  env_get_id := env_id;
|}.

(** [ethaddr] and the like have the callback [on_ethaddr]. *)
Definition eth_hooks : EnvHooks P := {|
  malloc := malloc;
  env_flags_validate := env_flags_validate;
  env_callback c name value op flags :=
    if c =? on_ethaddr_handle then on_ethaddr (Env0 := env_reads) name value op flags
    else env_callback c name value op flags;
  env_callback_init := env_callback_init;
  env_flags_init := env_flags_init;
|}.

#[export] Instance env_table : Env G := {|
  env_get := read_variable;
  env_set name v g :=
    match env_run (Environ.env_set (EnvHooks0 := eth_hooks) name v) g with
    | Some (r, g') => (r, g')
    | None => (1, g)
    end;
  env_get_id := env_id;
|}.
End env_eth.

(** * The law *)

(** What is relied on of the drivers: the address in the platform data is an
    array of six bytes, the sequence numbers are small, and programming the
    hardware leaves the platform data alone. *)
Class PlatLaw {P} `{!EthDriver P} `{!EthPlat P} (d n : Z) : Prop := {
  plat_seq p : eth_dev_seq d p = n;
  plat_seqs d' p : 0 ≤ eth_dev_seq d' p < 100;
  plat_mac d' p : length (enetaddr d' p) = 6%nat ∧ bytes_ok (enetaddr d' p);
  plat_set d' m p : length m = 6%nat → bytes_ok m →
    enetaddr d (set_enetaddr d' m p) = (if d' =? d then m else enetaddr d p);
  plat_tree prop p l : dev_read_u8_array_ptr d prop 6 p = Some l → (6 ≤ length l)%nat ∧ bytes_ok l;
  plat_write d' f p : eth_ops_write_hwaddr d' = Some f → enetaddr d (f p).2 = enetaddr d p;
}.

(** The address is one of these. *)
Definition mac_inv {P} `{!EthDriver P} (d : Z) (macs : list (list Z)) (v : option string → Prop) : EnvInv P :=
  {| env_inv p := enetaddr d p ∈ macs; env_val := v |}.

Lemma elem_of_two {A} (x a b : A) : x ∈ [a; b] ↔ x = a ∨ x = b.
Proof. rewrite elem_of_cons, list_elem_of_singleton. done. Qed.

Section env_eth_facts.
Context {P : Type} `{!EthDriver P} `{!EthPlat P} {hooks : EnvHooks P} {Re : Slre} `{!EnvConfig P}
  {on_ethaddr_handle : Z} {d n : Z} `{!PlatLaw d n}.
Notation G := (env_globals P).
Notation M := (M (world G)).
Notation tab w := (env_htab (hw w)).
Implicit Types w : world G.
Implicit Types g : G.

(** A run of the drivers that leaves the address of [d] as it was. *)
Definition same_plat w w' : Prop :=
  ∃ p, hw w' = hw w <| other := p |> ∧ enetaddr d p = enetaddr d (other (hw w)).

Lemma same_plat_hw w w' : hw w' = hw w → same_plat w w'.
Proof. intros Hh. exists (other (hw w)). rewrite Hh. split; [|done]. by destruct (hw w). Qed.

Lemma wp_write_any dev w :
  wp (eth_write_hwaddr (Env0 := env_reads hooks) (Some dev)) (λ _ w', same_plat w w') w.
Proof using PlatLaw0.
  unfold eth_write_hwaddr, device_seq, pdata_enetaddr. apply wp_bind, wp_gets.
  destruct (eth_device_active _ _); cbn [negb]; [|by apply wp_ret, same_plat_hw].
  destruct (eth_ops_write_hwaddr dev) as [f|] eqn:Hf; [|by apply wp_ret, same_plat_hw].
  apply wp_bind, wp_gets, wp_bind, (wp_mac_skip (plat_seqs dev (other (hw w)))). intros [].
  { by apply wp_ret, same_plat_hw. }
  apply wp_bind, wp_gets. destruct (plat_mac dev (other (hw w))) as [Hl _]. destruct (is_valid_ethaddr _); cbn [negb].
  - cbn in Hf. destruct (EthMac.eth_ops_write_hwaddr dev) as [f0|] eqn:Hf0; [|done]. injection Hf as <-.
    apply wp_bind, wp_hw_call. set (r := if _ =? _ then _ else _). clearbody r. apply wp_bind.
    pose proof (plat_write dev f0 (other (hw w)) Hf0) as Hw. unfold on_other.
    destruct (f0 (other (hw w))) as [c p]. simpl in Hw.
    destruct (nonzero r); [apply wp_printf; [done|]; intros s|]; repeat apply wp_ret; by exists p.
  - apply wp_bind, wp_printf; [by cbn [kinds map kind_of]; cbn; rewrite Hl|]. intros s. by apply wp_ret, same_plat_hw.
Qed.

(** ** The callback *)

(** With a value, the callback sets the address of its device to it. *)
Lemma wp_on_ethaddr name v op fl w :
  wp (on_ethaddr (Env0 := env_reads hooks) name v op fl) (λ r w', r = 0 ∧ ∃ p, hw w' = hw w <| other := p |> ∧
    (op ≠ env_op_delete → enetaddr d p ∈ [enetaddr d (other (hw w)); string_to_enetaddr v])) w.
Proof using PlatLaw0.
  unfold on_ethaddr. apply wp_bind, wp_gets. destruct (uclass_find_eth_by_seq _ _) as [dev|].
  2:{ apply wp_ret. split; [done|]. exists (other (hw w)). split; [by destruct (hw w)|]. intros _.
      apply elem_of_two. by left. }
  destruct (enetaddr_bytes v) as [Hl Hb]. set (m := string_to_enetaddr v) in *. clearbody m.
  pose proof (plat_set dev m (other (hw w)) Hl Hb) as Hset.
  assert (wp (_ ← hw_do (set_enetaddr dev m); _ ← eth_write_hwaddr (Env0 := env_reads hooks) (Some dev); mret tt)
    (λ _ w', ∃ p, hw w' = hw w <| other := p |> ∧
      (op ≠ env_op_delete → enetaddr d p ∈ [enetaddr d (other (hw w)); m])) w) as Hgo.
  { apply wp_bind, wp_hw_do, wp_bind. eapply wp_mono; [apply wp_write_any|]. intros _ w' (p & Hw' & Hp).
    apply wp_ret. exists p. split; [by rewrite Hw'|]. intros _. rewrite Hp. cbn. unfold do_other, update. simpl.
    rewrite Hset. apply elem_of_two. destruct (dev =? d); [by right|by left]. }
  apply wp_bind. destruct op.
  2:{ apply wp_hw_do, wp_ret. split; [done|]. eexists. by split. }
  all: eapply wp_mono; [exact Hgo|]; intros [] w' Hw'; by apply wp_ret.
Qed.

Context (Hhooks : ∀ mac, HooksLaw (EnvInv0 := mac_inv d [mac] (λ _, True)) True).

(** The callbacks of all variables, while one value is set. *)
Lemma eth_hooks_law mac text :
  HooksLaw (EnvHooks0 := eth_hooks hooks on_ethaddr_handle)
    (EnvInv0 := mac_inv d [mac; string_to_enetaddr (Some text)] (λ v, v = Some text)) True.
Proof using Hhooks PlatLaw0.
  assert (∀ w w', calm (EnvInv0 := mac_inv d [enetaddr d (other (hw w))] (λ _, True)) w w' →
    calm (EnvInv0 := mac_inv d [mac; string_to_enetaddr (Some text)] (λ v, v = Some text)) w w') as Hcalm.
  { intros w w' (Hs & Hg & Hi). split; [done|]. split; [done|]. cbn in Hi |- *.
    rewrite !list_elem_of_singleton in Hi. by rewrite Hi. }
  split.
  - intros k e. destruct (law_malloc (HooksLaw := Hhooks (enetaddr d e)) k e) as [H1 H2]. split; [exact H1|].
    cbn in H2 |- *. rewrite !list_elem_of_singleton in H2. by rewrite H2.
  - intros e v op fl w.
    eapply wp_mono; [apply (law_validate (HooksLaw := Hhooks (enetaddr d (other (hw w)))))|].
    intros r w' [Hc Hr]. split; [|done]. by apply Hcalm.
  - intros c k v op fl w Hop Hv. cbn [env_val mac_inv] in Hv. subst v. cbn [env_callback eth_hooks].
    destruct (c =? on_ethaddr_handle).
    + eapply wp_mono; [apply wp_on_ethaddr|]. intros r w' (-> & p & Hw' & Hp).
      specialize (Hp ltac:(by intros ?%Hop)). split; [|done]. split; [by rewrite Hw'|]. split; [by rewrite Hw'|]. rewrite Hw'. cbn.
      apply elem_of_two in Hp as [-> | ->]; [done|]. intros _. apply elem_of_two. by right.
    + eapply wp_mono; [apply (law_callback (HooksLaw := Hhooks (enetaddr d (other (hw w))))); done|].
      intros r w' [Hc Hr]. split; [|done]. by apply Hcalm.
  - intros k w. eapply wp_mono; [apply (law_callback_init (HooksLaw := Hhooks (enetaddr d (other (hw w)))))|].
    intros r w' Hc. by apply Hcalm.
  - intros k w. eapply wp_mono; [apply (law_flags_init (HooksLaw := Hhooks (enetaddr d (other (hw w)))))|].
    intros r w' Hc. by apply Hcalm.
Qed.

(** Whatever is set, the variables are left to the table. *)
Lemma eth_hooks_any :
  HooksLaw (EnvHooks0 := eth_hooks hooks on_ethaddr_handle) (EnvInv0 := any_inv P) True.
Proof using Hhooks PlatLaw0.
  assert (∀ mac w w', calm (EnvInv0 := mac_inv d [mac] (λ _, True)) w w' → calm (EnvInv0 := any_inv P) w w') as Hcalm.
  { intros mac w w' (Hs & Hg & _). by split. }
  split.
  - intros k e. split; [apply (law_malloc (HooksLaw := Hhooks []))|done].
  - intros e v op fl w. eapply wp_mono; [apply (law_validate (HooksLaw := Hhooks []))|].
    intros r w' [Hc Hr]. split; [exact (Hcalm _ _ _ Hc)|done].
  - intros c k v op fl w Hop _. cbn [env_callback eth_hooks]. destruct (c =? on_ethaddr_handle).
    + eapply wp_mono; [apply wp_on_ethaddr|]. intros r w' (-> & p & Hw' & _). split; [|done].
      by split; [rewrite Hw'|split; [rewrite Hw'|]].
    + eapply wp_mono; [by apply (law_callback (HooksLaw := Hhooks []))|].
      intros r w' [Hc Hr]. split; [exact (Hcalm _ _ _ Hc)|done].
  - intros k w. eapply wp_mono; [apply (law_callback_init (HooksLaw := Hhooks []))|]. intros r w' Hc. exact (Hcalm _ _ _ Hc).
  - intros k w. eapply wp_mono; [apply (law_flags_init (HooksLaw := Hhooks []))|]. intros r w' Hc. exact (Hcalm _ _ _ Hc).
Qed.

(** ** The variable of the address *)

Lemma mac_var_legal : 0 ≤ n < 100 → legal_name (mac_var n).
Proof.
  intros Hn. assert (Forall (λ n, legal_name (mac_var n)) (seqZ 0 100)) as H.
  { change (seqZ 0 100) with (ltac:(let l := eval vm_compute in (seqZ 0 100) in exact l)).
    repeat (apply Forall_cons_2; [vm_compute; split_and!; [reflexivity|reflexivity|discriminate]|]). by apply Forall_nil_2. }
  rewrite Forall_forall in H. apply H, elem_of_seqZ. lia.
Qed.

(** The variables [m] are imported, and there is room for the address. *)
Definition env_has g (m : gmap string string) : Prop :=
  env_holds (idle_world g) m ∧
  (is_Some (m !! mac_var n) ∨ Z.of_nat (base.size m) < size (env_htab g)).

(** The variables [m0], with an address set or not. *)
Definition with_mac (m0 m : gmap string string) : Prop :=
  m = m0 ∨ ∃ text, no_nul text ∧ slen text = 17 ∧ m = <[mac_var n := text]> m0.

Definition env_sane m0 g : Prop := ∃ m, env_has g m ∧ with_mac m0 m.

Lemma with_mac_set m0 m text :
  with_mac m0 m → no_nul text → slen text = 17 → with_mac m0 (<[mac_var n := text]> m).
Proof.
  intros Hm Ht Hl. right. exists text. split_and!; [done|done|].
  destruct Hm as [->|(t & _ & _ & ->)]; [done|]. by rewrite insert_insert_eq.
Qed.

Lemma env_run_wp {A} (m : M A) g (Q : A → world G → Prop) :
  wp m Q (idle_world g) → ∃ a w, env_run m g = Some (a, hw w) ∧ Q a w.
Proof. intros (a & w & Hr & HQ)%wp_run. exists a, w. unfold env_run. by rewrite Hr. Qed.

Lemma read_found g m k : env_holds (idle_world g) m → no_nul k → read_variable hooks k g = m !! k.
Proof.
  intros Hg Hk. unfold read_variable.
  destruct (env_run_wp _ g _ (wp_env_get (EnvInv0 := any_inv P) (idle_world g) m k Hg Hk)) as (v & w & -> & -> & _).
  done.
Qed.

(** The rest of the machine does not matter. *)
Lemma env_has_other g m p : env_has g m → env_has (g <| other := p |>) m.
Proof. by intros [[Hh Hr] Hroom]. Qed.

Context (Hn : 0 ≤ n < 100).

Lemma read_other g m p : env_has g m → read_variable hooks (mac_var n) (g <| other := p |>) = read_variable hooks (mac_var n) g.
Proof using Hn.
  intros Hm. destruct (mac_var_legal Hn) as [Hk _].
  rewrite !(read_found _ m) by (done || by apply Hm || by apply (env_has_other g m p)). done.
Qed.

Lemma env_set_mac g m text :
  env_has g m → no_nul text → text ≠ "" →
  let g' := (env_set (Env := env_table hooks on_ethaddr_handle) (mac_var n) (Some text) g).2 in
  env_has g' (<[mac_var n := text]> m) ∧
  (enetaddr d g' = enetaddr d g ∨ enetaddr d g' = string_to_enetaddr (Some text)).
Proof using Hhooks Hn PlatLaw0.
  intros [Hg Hroom] Ht Hne. cbn [env_set env_table]. pose proof (mac_var_legal Hn) as Hk.
  destruct (env_run_wp _ g _ (wp_env_set (Hlaw := eth_hooks_law (enetaddr d (other g)) text) (idle_world g) m
    (mac_var n) text Hg Hk Ht Hne eq_refl)) as (r & w & -> & [[_ Hi] Hs] & H).
  rewrite bool_decide_eq_false_2 in H; [|intros [Hnone Hfull]; simpl in Hfull; destruct Hroom as [[? ?]|?]; [congruence|lia]].
  destruct H as [-> [Hh Hr]]. cbn [snd]. split.
  - split; [split; [exact Hh|exact Hr]|]. left. rewrite lookup_insert_eq. by eexists.
  - cbn in Hi. specialize (Hi ltac:(by apply elem_of_two; left)). by apply elem_of_two in Hi.
Qed.

(** The law of the store holds. *)
Lemma env_mac_store m0 : MacStore (Env0 := env_table hooks on_ethaddr_handle) (env_sane m0) d n.
Proof using Hhooks Hn PlatLaw0.
  assert (∀ g m p, env_has g m → with_mac m0 m → env_sane m0 (g <| other := p |>)) as Hother.
  { intros g m p Hg Hm. exists m. split; [by apply env_has_other|done]. }
  split; cbn [env_get env_table].
  - intros g _. apply (plat_seq (other g)).
  - intros g _. apply (plat_mac d (other g)).
  - intros mac g (m & Hg & Hm) Hl Hb. split; [by eapply Hother|]. cbn. rewrite plat_set by done.
    by rewrite Z.eqb_refl.
  - intros mac g (m & Hg & _). by eapply read_other.
  - intros prop g l _. apply (plat_tree prop (other g)).
  - intros f g (m & Hg & Hm) Hf. cbn in Hf. destruct (eth_ops_read_rom_hwaddr d) as [f0|]; [|done]. injection Hf as <-.
    unfold on_other. destruct (f0 (other g)) as [r p]. split; [by eapply Hother|]. by eapply read_other.
  - intros f g (m & Hg & Hm) Hf. cbn in Hf. destruct (eth_ops_write_hwaddr d) as [f0|] eqn:Hf0; [|done].
    injection Hf as <-. pose proof (plat_write d f0 (other g) Hf0) as Hw. unfold on_other.
    destruct (f0 (other g)) as [r p]. split_and!; [by eapply Hother|exact Hw|]. by eapply read_other.
  - intros text g (m & Hg & Hm) Ht Hlen. assert (text ≠ "") as Hne by (by intros ->).
    destruct (env_set_mac g m text Hg Ht Hne) as [Hg' Hmac]. split_and!; [|  |exact Hmac].
    + eexists. split; [exact Hg'|by apply with_mac_set].
    + rewrite (read_found _ _ _ (proj1 Hg')) by apply (mac_var_legal Hn). apply lookup_insert_eq.
Qed.

(** ** Over a reboot *)

Lemma no_nul_value text : no_nul text → slen text = 17 → good_value text.
Proof.
  intros Ht Hl. split; [by intros ->|by apply forall_no_nul].
Qed.

Lemma mac_var_good : good_name NUL (mac_var n).
Proof using Hn.
  assert (Forall (λ n, good_name NUL (mac_var n)) (seqZ 0 100)) as H.
  { change (seqZ 0 100) with (ltac:(let l := eval vm_compute in (seqZ 0 100) in exact l)).
    repeat (apply Forall_cons_2; [by vm_compute; split_and!; [reflexivity|repeat constructor; discriminate|reflexivity|discriminate]|]).
    by apply Forall_nil_2. }
  rewrite Forall_forall in H. apply H, elem_of_seqZ. lia.
Qed.

Lemma with_mac_storable m0 m : storable m0 → with_mac m0 m → storable m.
Proof using Hn.
  intros H0 [->|(text & Ht & Hl & ->)]; [done|]. apply map_Forall_insert_2; [|done].
  split; [apply mac_var_good|by apply no_nul_value].
Qed.

(** A probe that found an address has left it in the variable. *)
Lemma probed_var g g' :
  probed (Env0 := env_table hooks on_ethaddr_handle) (d := d) (n := n) g 0 g' →
  is_Some (read_variable hooks (mac_var n) g').
Proof.
  unfold probed. cbn [env_get env_table]. destruct (read_variable hooks (mac_var n) g') as [v|]; [by eexists|].
  set (e := string_to_enetaddr (read_variable hooks (mac_var n) g)).
  destruct (is_zero_ethaddr e) eqn:Hz; cbn [negb].
  - destruct (is_valid_ethaddr _) eqn:Hv; [|done]. intros (_ & _ & H). rewrite <- H in Hv. discriminate Hv.
  - intros (_ & _ & H). rewrite <- H in Hz. discriminate Hz.
Qed.

Notation probe := (eth_post_probe (Env0 := env_table hooks on_ethaddr_handle) d).
Notation export := (env_export (EnvHooks0 := eth_hooks hooks on_ethaddr_handle)).
Notation import := (env_import (EnvHooks0 := eth_hooks hooks on_ethaddr_handle)).

Lemma wp_probe_again w1 w3 m g0 :
  env_holds w3 m → env_holds (idle_world (hw w1)) m →
  probed (Env0 := env_table hooks on_ethaddr_handle) (d := d) (n := n) g0 0 (hw w1) →
  wp probe (λ r w4, r = 0 ∧ enetaddr d (hw w4) = enetaddr d (hw w1)) w3.
Proof using Hhooks Hn PlatLaw0.
  intros H3 H1 Hp. destruct (mac_var_legal Hn) as [Hk _]. pose proof (probed_var _ _ Hp) as Hsome.
  assert (env_holds (idle_world (hw w3)) m) as H3' by exact H3.
  rewrite (read_found _ _ _ H1 Hk) in Hsome.
  eapply wp_mono; [apply (wp_eth_post_probe (Hstore := env_mac_store m) Hn w3)|].
  - exists m. split; [|by left]. split; [done|by left].
  - intros r w4 [_ Hp4]. eapply probed_again; [exact Hp| |exact Hp4]. cbn [env_get env_table].
    by rewrite !(read_found _ m).
Qed.

Lemma mac_reboot w m addr env_out :
  env_has (hw w) m → storable m → (∀ m', with_mac m m' → fits_store m') →
  Z.of_nat (length (env_data env_out)) = ENV_SIZE → ENV_SIZE < 2 ^ 32 →
  wp probe (λ r w1, r = 0 → wp (export addr env_out) (λ img _, img.1 = 0 ∧
    ∀ addr' w2, some_table w2 → wp (import addr' img.2 1) (λ r w3, r = 0 ∧
      wp probe (λ r w4, r = 0 ∧ enetaddr d (hw w4) = enetaddr d (hw w1)) w3) w2) w1) w.
Proof using Hhooks Hn PlatLaw0.
  intros Hw Hst Hfit Hlen HE.
  eapply wp_mono; [apply (wp_eth_post_probe (Hstore := env_mac_store m) Hn w)|].
  { exists m. split; [done|by left]. }
  intros r w1 [(m' & [Hm' _] & Hwith) Hp] ->. pose proof Hm' as [Hh' _].
  eapply wp_mono; [apply (export_import (Hlaw := eth_hooks_any) w1 m' addr env_out Hh')|].
  - by eapply with_mac_storable.
  - by apply Hfit.
  - done.
  - done.
  - intros img w' (_ & Hok & Himp). split; [done|]. intros addr' w2 Hw2.
    eapply wp_mono; [by apply Himp|]. intros r w3 [-> H3]. split; [done|]. by eapply wp_probe_again.
Qed.

End env_eth_facts.

(** C13. The address of an Ethernet device survives a reboot: when a probe has
    found one, from the environment, the device tree or the ROM, the
    environment that is then exported is accepted by [env_import] on any later
    start, and the probe of the device gives the same address, whatever its
    hardware then says.  The variables are those of the hash table, with the
    callback of the address. *)
Theorem mac_survives_reboot {P} `{!EthDriver P} `{!EthPlat P} (hooks : EnvHooks P) {Re : Slre} `{!EnvConfig P}
    (on_ethaddr_handle d n addr : Z) (w : world (env_globals P)) m env_out :
  PlatLaw d n → 0 ≤ n < 100 →
  (∀ mac, HooksLaw (EnvInv0 := mac_inv d [mac] (λ _, True)) True) →
  env_has (n := n) (hw w) m → storable m → (∀ m', with_mac (n := n) m m' → fits_store m') →
  Z.of_nat (length (env_data env_out)) = ENV_SIZE → ENV_SIZE < 2 ^ 32 →
  wp (eth_post_probe (Env0 := env_table hooks on_ethaddr_handle) d) (λ r w1, r = 0 →
    wp (env_export (EnvHooks0 := eth_hooks hooks on_ethaddr_handle) addr env_out) (λ img _, img.1 = 0 ∧
      ∀ addr' w2, some_table w2 →
        wp (env_import (EnvHooks0 := eth_hooks hooks on_ethaddr_handle) addr' img.2 1) (λ r w3, r = 0 ∧
          wp (eth_post_probe (Env0 := env_table hooks on_ethaddr_handle) d)
            (λ r w4, r = 0 ∧ enetaddr d (hw w4) = enetaddr d (hw w1)) w3) w2) w1) w.
Proof. intros Hp Hn Hhooks. by apply mac_reboot. Qed.

(** * A platform with an address in its ROM *)

Module RebootSim.
(** The platform data, and the ROM. *)
Record platform := mkPlatform { plat_mac0 : list Z; plat_rom0 : list Z }.

#[global] Instance port : EthDriver platform := {|
  uclass_first_eth p := ((0, Some 0), p);
  uclass_next_eth _ p := ((0, None), p);
  uclass_eth_devs _ := [0];
  eth_device_active _ _ := true;
  eth_device_probe _ p := (0, p);
  eth_dev_name _ := "cpsw";
  eth_dev_seq _ _ := 0;
  enetaddr _ p := MacSim.six (plat_mac0 p);
  eth_ops_start _ p := (0, p);
  eth_ops_stop _ p := p;
  eth_ops_send _ _ p := (0, p);
  eth_ops_recv _ _ p := ((- EAGAIN, []), p);
  eth_ops_free_pkt _ := None;
|}.

#[global] Instance plat : EthPlat platform := {|
  set_enetaddr d m p := if d =? 0 then mkPlatform m (plat_rom0 p) else p;
  dev_read_u8_array_ptr _ _ _ _ := None;
  eth_ops_write_hwaddr _ := Some (λ p, (0, p));
  eth_ops_read_rom_hwaddr _ := Some (λ p, (0, mkPlatform (plat_rom0 p) (plat_rom0 p)));
  uclass_find_eth_by_seq k _ := if k =? 0 then Some 0 else None;
  uclass_first_eth_check p := (Some 0, p);
  uclass_next_eth_check _ p := (None, p);
  phy_init p := p;
|}.

Lemma law : PlatLaw 0 0.
Proof.
  split; try done; cbn.
  - intros _ p. apply MacSim.six_bytes.
  - intros d m p Hl Hb. destruct (d =? 0); [by apply MacSim.six_id|done].
  - by intros d f p [= <-].
Qed.

(** The callback 7 is the one of [ethaddr]. *)
Definition hooks : EnvHooks platform := {|
  malloc _ e := (true, e);
  env_flags_validate _ _ _ _ := mret 0;
  env_callback _ _ _ _ _ := mret 0;
  env_callback_init k := mret (if String.eqb k "ethaddr" then Some 7 else None);
  env_flags_init _ := mret None;
|}.

Lemma hooks_law mac : HooksLaw (EnvHooks0 := hooks) (EnvInv0 := mac_inv 0 [mac] (λ _, True)) True.
Proof. split; intros; by try apply wp_ret. Qed.

#[global] Instance config : EnvConfig platform := {
  ENV_SIZE := 128;
  default_environment := [NUL; NUL];
  early_text _ := [NUL; NUL];
}.

Definition start : world (env_globals platform) :=
  idle_world (mkEnv (fresh_table 67) 0 1 GD_FLG_ENV_READY (mkPlatform [] [0x64; 0x70; 0x60; 1; 2; 3])).

Lemma start_has : env_has (n := 0) (hw start) ∅.
Proof. split; [|by right]. split; [|done]. by apply holds_fresh; [apply isprime_prime|]. Qed.

Lemma fits m : with_mac (n := 0) ∅ m → fits_store m.
Proof.
  intros [->|(text & Ht & Hl & ->)]; [vm_compute; repeat split; congruence|].
  unfold fits_store, text_size, room_of, forgotten. rewrite insert_empty, map_to_list_singleton, map_size_singleton, shown_0.
  cbn [total_room foldr backslashes]. unfold entry_room, room_for, strlen. cbn [fst snd].
  change (Ascii.eqb NUL NUL) with true. change (slen (c_str (mac_var 0))) with 7. cbv iota. rewrite Ht, Hl.
  change ENV_SIZE with 128. assert (count_backslash text ≤ 17); [|lia].
  unfold count_backslash. rewrite slen_list in Hl. pose proof (length_filter (λ c, c = backslash) (list_of_str text)). lia.
Qed.
End RebootSim.

Lemma mac_survives_reboot_witness :
  let probe := eth_post_probe (Env0 := env_table RebootSim.hooks 7) 0 in
  wp probe (λ r w1, r = 0 → wp (env_export (EnvHooks0 := eth_hooks RebootSim.hooks 7) 0 (mkEnvT 0 (replicate 128 NUL)))
    (λ img _, img.1 = 0 ∧
      wp (env_import (EnvHooks0 := eth_hooks RebootSim.hooks 7) 0 img.2 1) (λ r w3, r = 0 ∧
        wp probe (λ r w4, r = 0 ∧ enetaddr 0 (hw w4) = enetaddr 0 (hw w1)) w3) RebootSim.start) w1)
    RebootSim.start.
Proof.
  intros probe. eapply wp_mono.
  { exact (mac_survives_reboot RebootSim.hooks 7 0 0 0 RebootSim.start ∅ (mkEnvT 0 (replicate 128 NUL)) RebootSim.law
      ltac:(lia) RebootSim.hooks_law RebootSim.start_has (map_Forall_empty _) RebootSim.fits eq_refl eq_refl). }
  intros r w1 H Hr. eapply wp_mono; [exact (H Hr)|]. intros img w2 [Hok Himp]. split; [exact Hok|].
  apply Himp. right. exists ∅. apply RebootSim.start_has.
Defined.
