(* ===== verification/Command.v ===== *)
(** The command table of the shell, [common/command.c]: how a word is matched
    with a command, how a command is called, and the help. *)

From stdpp Require Import sorting.
From S2P Require Import Prelude CLib Vsprintf VsprintfFacts Machine QSort HashTextFacts.
From S2P Require Import Events EthUclass NetCore DiagCore DiagCoreFacts BoardDiag BoardDiagFacts.

Notation CMD_FLAG_BOOTD := 2%Z (only parsing).
Notation CONFIG_SYS_MAXARGS := 64%Z (only parsing).
Notation CONFIG_SYS_HELP_CMD_WIDTH := 10%Z (only parsing).

(** * Sorting *)

(** A pass of the bubble sort over the elements [0 .. i], and the number of
    swaps. *)
Section bubble.
Context {A : Type} (comp : A → A → Z).

Fixpoint bubble_pass (i : nat) (l : list A) : list A * nat :=
  match i, l with
  | S i', x :: y :: l' =>
      if 0 <? comp x y
      then let '(l', swaps) := bubble_pass i' (x :: l') in (y :: l', S swaps)
      else let '(l', swaps) := bubble_pass i' (y :: l') in (x :: l', swaps)
  | _, _ => (l, O)
  end.

Fixpoint bubble_sort (i : nat) (l : list A) : list A :=
  match i with
  | O => l
  | S i' => let '(l, swaps) := bubble_pass i l in if (swaps =? 0)%nat then l else bubble_sort i' l
  end.
End bubble.

(** * The table *)

Section command.
Context {HW Arg : Type}.
Notation core := (@core HW Arg).
Notation M := (M core).

(** [struct cmd_tbl_s]; [cmd_rep] gives the result and [*repeatable], and
    [is_bootd] whether [cmd] is [do_bootd]. *)
Record cmd_tbl_t := mkCmd {
  cmd_name : string;
  maxargs : Z;
  cmd_rep : Z → Z → list string → M (Z * Z);
  is_bootd : bool;
  usage : option string;
  help : option string;
}.

Definition cmd_always_repeatable (cmd : Z → Z → list string → M Z) (flag argc : Z) (argv : list string) :
    M (Z * Z) :=
  r ← cmd flag argc argv; mret (r, 1).

Definition cmd_never_repeatable (cmd : Z → Z → list string → M Z) (flag argc : Z) (argv : list string) :
    M (Z * Z) :=
  r ← cmd flag argc argv; mret (r, 0).

(** A command declared with [U_BOOT_CMD]. *)
Definition U_BOOT_CMD (name : string) (maxargs : Z) (rep : bool) (cmd : Z → Z → list string → M Z)
    (usage help : string) : cmd_tbl_t :=
  mkCmd name maxargs (if rep then cmd_always_repeatable cmd else cmd_never_repeatable cmd) false
    (Some usage) (Some help).

(** ** Look-up *)

(** The part of the word before the first dot. *)
Definition word_len (cmd : string) : Z :=
  match strchr cmd "." with None => strlen cmd | Some p => slen cmd - slen p end.

Fixpoint find_loop (cmd : string) (len : Z) (table : list cmd_tbl_t) (cmdtp_temp : option cmd_tbl_t)
    (n_found : Z) : option cmd_tbl_t :=
  match table with
  | [] => if n_found =? 1 then cmdtp_temp else None
  | cmdtp :: table' =>
      if strncmp cmd (cmd_name cmdtp) (Z.to_nat len) =? 0 then
        if len =? strlen (cmd_name cmdtp) then Some cmdtp
        else find_loop cmd len table' (Some cmdtp) (n_found + 1)
      else find_loop cmd len table' cmdtp_temp n_found
  end.

Definition find_cmd_tbl (cmd : string) (table : list cmd_tbl_t) : option cmd_tbl_t :=
  find_loop cmd (word_len cmd) table (head table) 0.

(** ** Calling *)

(** With [CONFIG_SYS_LONGHELP]. *)
Definition cmd_usage (cmdtp : cmd_tbl_t) : M Z :=
  _ ← lift (printf ("%s - %s" +:+ newline +:+ newline) [VStr (Some (cmd_name cmdtp)); VStr (usage cmdtp)]);
  _ ← lift (printf ("Usage:" +:+ newline +:+ "%s ") [VStr (Some (cmd_name cmdtp))]);
  match help cmdtp with
  | None => _ ← lift (puts ("- No additional help available." +:+ newline)); mret 1
  | Some help => _ ← lift (puts help); _ ← lift (puts newline); mret 1
  end.

Definition cmd_call (cmdtp : cmd_tbl_t) (flag argc : Z) (argv : list string) : M (Z * Z) :=
  cmd_rep cmdtp flag argc argv.

Context `{!Timer HW} `{!Keyboard HW} `{!Env HW}.

Fixpoint trace_words (argv : list string) : M unit :=
  match argv with
  | [] => mret tt
  | word :: argv' => _ ← lift (puts " "); _ ← lift (puts word); trace_words argv'
  end.

(** The command line is printed when the variable [xtrace] is set
    ([CONFIG_SYS_XTRACE]). *)
Definition cmd_xtrace (argv : list string) : M unit :=
  xtrace ← lift (env_value "xtrace");
  match xtrace with
  | None => mret tt
  | Some _ => _ ← lift (puts "+"); _ ← trace_words argv; lift (puts newline)
  end.

(** The result, [*repeatable] and [*ticks]; [ticks] is [None] for a null
    pointer.  [argv] has [argc] words, and [find_cmd] looks in the linker list
    [table]. *)
Definition cmd_process (table : list cmd_tbl_t) (flag argc : Z) (argv : list string) (repeatable : Z)
    (ticks : option Z) : M (Z * Z * option Z) :=
  _ ← cmd_xtrace argv;
  word ← match argv with word :: _ => mret word | [] => crash OUT_OF_BOUNDS end;
  match find_cmd_tbl word table with
  | None =>
      _ ← lift (printf ("Unknown command '%s' - try 'help'" +:+ newline) [VStr (Some word)]);
      mret (1, repeatable, ticks)
  | Some cmdtp =>
      '(rc, flag) ←
        (if maxargs cmdtp <? argc then mret (CMD_RET_USAGE, flag)
         else if is_bootd cmdtp then
           if nonzero (Z.land flag CMD_FLAG_BOOTD) then
             _ ← lift (puts ("'bootd' recursion detected" +:+ newline));
             mret (CMD_RET_FAILURE, flag)
           else mret (CMD_RET_SUCCESS, Z.lor flag CMD_FLAG_BOOTD)
         else mret (CMD_RET_SUCCESS, flag));
      '(rc, repeatable, ticks) ←
        (if rc =? 0 then
           ticks ← match ticks with
                   | Some _ => t ← lift (hw_call (get_timer 0)); mret (Some t)
                   | None => mret None
                   end;
           '(rc, newrep) ← cmd_call cmdtp flag argc argv;
           ticks ← match ticks with
                   | Some t => t ← lift (hw_call (get_timer t)); mret (Some t)
                   | None => mret None
                   end;
           mret (rc, Z.land repeatable newrep, ticks)
         else mret (rc, repeatable, ticks));
      if rc =? CMD_RET_USAGE then
        rc ← cmd_usage cmdtp;
        mret (rc, repeatable, ticks)
      else mret (rc, repeatable, ticks)
  end.

(** ** Help *)

Definition compare_names (a b : cmd_tbl_t) : Z := strcmp (cmd_name a) (cmd_name b).

(** The lines of the sorted commands; [true] when a key has stopped them. *)
Fixpoint help_lines (cmds : list cmd_tbl_t) : M bool :=
  match cmds with
  | [] => mret false
  | c :: cmds' =>
      stop ← lift ctrlc;
      if stop : bool then mret true
      else
        match usage c with
        | None => help_lines cmds'
        | Some usage =>
            _ ← lift (printf ("%-*s- %s" +:+ newline)
                  [VInt CONFIG_SYS_HELP_CMD_WIDTH; VStr (Some (cmd_name c)); VStr (Some usage)]);
            help_lines cmds'
        end
  end.

Fixpoint help_words (table : list cmd_tbl_t) (argv : list string) (rcode : Z) : M Z :=
  match argv with
  | [] => mret rcode
  | word :: argv' =>
      match find_cmd_tbl word table with
      | Some cmdtp => r ← cmd_usage cmdtp; help_words table argv' (Z.lor rcode r)
      | None =>
          _ ← lift (printf ("Unknown command '%s' - try 'help' without arguments for list of all known commands"
                            +:+ newline +:+ newline) [VStr (Some word)]);
          help_words table argv' 1
      end
  end.

(** [argv] without the name of the command. *)
Definition _do_help (table : list cmd_tbl_t) (argv : list string) : M Z :=
  match argv with
  | [] =>
      stopped ← help_lines (bubble_sort compare_names (length table - 1) table);
      mret (if stopped : bool then 1 else 0)
  | _ => help_words table argv 0
  end.
End command.

(** ** The command of the framework *)

(** [U_BOOT_CMD(boarddiag, ...)] of [common/cmd_boarddiag.c].  [fuel] bounds
    the passes of a request. *)
Definition boarddiag_cmd {HW Arg : Type} (BOARD_DEFAULT : Z) (fuel : nat) : @cmd_tbl_t HW Arg :=
  U_BOOT_CMD "boarddiag" CONFIG_SYS_MAXARGS false (λ _ argc argv, do_boarddiag BOARD_DEFAULT fuel argc argv)
    "Board diagnostics Software"
    ("[args...]" +:+ newline +:+
     "   list           -- List available device tests" +:+ newline +:+
     "   run <test_num> -- Run individual test by test ID specified in the list" +:+ newline +:+
     "   runAll         -- Run all tests" +:+ newline +:+
     "          loop <times> -- Set loop to execute a test 'n' number of times. " +:+ newline).

(** * The bubble sort sorts *)

Section bubble_facts.
Context {A : Type} (comp : A → A → Z).

Lemma bubble_pass_perm i l : (bubble_pass comp i l).1 ≡ₚ l.
Proof.
  revert l. induction i as [|i IH]; intros [|x [|y l]]; try done. cbn [bubble_pass].
  destruct (0 <? comp x y).
  - specialize (IH (x :: l)). destruct (bubble_pass comp i (x :: l)) as [l' n].
    cbn [fst] in *. rewrite IH. by constructor.
  - specialize (IH (y :: l)). destruct (bubble_pass comp i (y :: l)) as [l' n].
    cbn [fst] in *. by rewrite IH.
Qed.

Lemma perm_last (P : A → Prop) zs m l : zs ++ [m] ≡ₚ l → Forall P l → P m.
Proof. intros Hp HP. rewrite <- Hp in HP. apply Forall_app in HP as [_ HP]. by inversion HP. Qed.

Context (P : A → Prop).
Context (comp_total : ∀ a b, P a → P b → comp a b ≤ 0 ∨ comp b a ≤ 0).
Context (comp_trans : ∀ a b c, P a → P b → P c → comp a b ≤ 0 → comp b c ≤ 0 → comp a c ≤ 0).
Notation ordered := (ordered comp).

(** A pass over a prefix puts its largest element last, and leaves the rest. *)
Lemma bubble_pass_max xs ys x :
  Forall P (x :: xs) →
  ∃ zs m, (bubble_pass comp (length xs) (x :: xs ++ ys)).1 = zs ++ m :: ys ∧
    zs ++ [m] ≡ₚ x :: xs ∧ Forall (λ z, ordered z m) (x :: xs).
Proof using comp_total comp_trans.
  revert x. induction xs as [|y xs IH]; intros x HP.
  - apply Forall_cons in HP as [HP _]. exists [], x. split_and!; [done|done|].
    apply Forall_singleton. unfold QSort.ordered. by destruct (comp_total x x HP HP).
  - apply Forall_cons in HP as [Hx HP']. pose proof HP' as [Hy HP]%Forall_cons.
    cbn [length app bubble_pass]. destruct (Z.ltb_spec 0 (comp x y)) as [Hc|Hc].
    + destruct (IH x) as (zs & m & H & Hp & Hm); [by constructor|].
      destruct (bubble_pass comp (length xs) (x :: xs ++ ys)) as [l' n]. cbn [fst] in *. subst l'.
      exists (y :: zs), m. split_and!; [done|cbn [app]; rewrite Hp; by constructor|].
      apply Forall_cons in Hm as [Hxm Hm]. constructor; [done|]. constructor; [|done].
      pose proof (perm_last _ _ _ _ Hp ltac:(by constructor)) as HPm.
      unfold QSort.ordered in *. apply (comp_trans y x m); try done. destruct (comp_total x y); [done..|lia|done].
    + destruct (IH y) as (zs & m & H & Hp & Hm); [by constructor|].
      destruct (bubble_pass comp (length xs) (y :: xs ++ ys)) as [l' n]. cbn [fst] in *. subst l'.
      exists (x :: zs), m. split_and!; [done|cbn [app]; by rewrite Hp|].
      constructor; [|done]. apply Forall_cons in Hm as [Hym _].
      pose proof (perm_last _ _ _ _ Hp ltac:(by constructor)) as HPm.
      by apply (comp_trans x y m).
Qed.

(** Without a swap the elements were in order already. *)
Lemma bubble_pass_still i l :
  (bubble_pass comp i l).2 = O →
  (bubble_pass comp i l).1 = l ∧ ∀ j x y, (j < i)%nat → l !! j = Some x → l !! S j = Some y → ordered x y.
Proof.
  revert l. induction i as [|i IH]; intros [|x [|y l]]; cbn [bubble_pass]; try (intros; split; [done|]; intros; lia || done).
  destruct (Z.ltb_spec 0 (comp x y)) as [Hc|Hc].
  - by destruct (bubble_pass comp i (x :: l)).
  - specialize (IH (y :: l)). destruct (bubble_pass comp i (y :: l)) as [l' n]. cbn [fst snd] in *.
    intros Hn. destruct (IH Hn) as [-> Ho]. split; [done|]. intros [|j] a b Hj Ha Hb.
    + by simplify_eq/=.
    + apply (Ho j); [lia|done|done].
Qed.

(** The order between the elements that can be compared. *)
Definition below (a b : A) : Prop := P a ∧ P b ∧ ordered a b.

#[local] Instance below_trans : Transitive below.
Proof using comp_trans. intros a b c (Ha & Hb & Hab) (_ & Hc & Hbc). split_and!; [done..|]. by apply (comp_trans a b c). Qed.

Lemma below_sorted l :
  Forall P l → (∀ j x y, l !! j = Some x → l !! S j = Some y → ordered x y) → StronglySorted ordered l.
Proof using comp_trans.
  intros HP Ho. cut (StronglySorted below l).
  { clear. induction 1 as [|x l _ IH Hx]; constructor; [done|]. by eapply Forall_impl; [exact Hx|intros y (_ & _ & ?)]. }
  apply Sorted_StronglySorted; [apply below_trans|]. induction HP as [|x l Hx HP IH]; constructor.
  - apply IH. intros j. apply (Ho (S j)).
  - destruct HP as [|y l Hy HP]; constructor. split_and!; [done..|]. by apply (Ho O).
Qed.

Lemma bubble_sort_prefix i xs ys :
  length xs = S i → Forall P xs → StronglySorted ordered ys →
  Forall (λ x, Forall (ordered x) ys) xs → StronglySorted ordered (bubble_sort comp i (xs ++ ys)).
Proof using comp_total comp_trans.
  revert xs ys. induction i as [|i IH]; intros xs ys Hlen HP Hys Hxy.
  - destruct xs as [|x [|? ?]]; try done. apply Forall_cons in Hxy as [Hxy _]. by constructor.
  - cbn [bubble_sort]. destruct (bubble_pass comp (S i) (xs ++ ys)) as [l n] eqn:Hb.
    destruct (Nat.eqb_spec n 0) as [->|_].
    + pose proof (bubble_pass_still (S i) (xs ++ ys)) as Hst. rewrite Hb in Hst. destruct (Hst eq_refl) as [Hl Ho].
      cbn [fst] in Hl. subst l. apply StronglySorted_app. split_and!; [| |done].
      * intros x y Hx Hy. rewrite Forall_forall in Hxy. specialize (Hxy x Hx).
        rewrite Forall_forall in Hxy. by apply Hxy.
      * apply below_sorted; [done|]. intros j x y Hx Hy. pose proof (lookup_lt_Some _ _ _ Hy).
        apply (Ho j); [lia|by apply lookup_app_l_Some..].
    + destruct xs as [|x xs]; [done|]. injection Hlen as Hlen.
      destruct (bubble_pass_max xs ys x HP) as (zs & m & Hz & Hp & Hm).
      rewrite Hlen in Hz. cbn [app] in Hb. rewrite Hb in Hz. cbn [fst] in Hz. subst l.
      apply IH.
      * apply Permutation_length in Hp. rewrite length_app in Hp. simpl in Hp. lia.
      * rewrite <- Hp in HP. by apply Forall_app in HP as [? _].
      * constructor; [done|]. exact (perm_last _ _ _ _ Hp Hxy).
      * rewrite <- Hp in Hm, Hxy. apply Forall_app in Hm as [Hm _], Hxy as [Hxy _].
        rewrite Forall_forall in Hm, Hxy |- *. intros z Hz. constructor; auto.
Qed.

Lemma bubble_sort_perm i l : bubble_sort comp i l ≡ₚ l.
Proof using Type.
  revert l. induction i as [|i IH]; intros l; [done|]. cbn [bubble_sort].
  pose proof (bubble_pass_perm (S i) l) as Hp. destruct (bubble_pass comp (S i) l) as [l' n]. cbn [fst] in Hp.
  destruct (n =? 0)%nat; by rewrite ?IH.
Qed.

Lemma bubble_sort_sorts l :
  Forall P l → StronglySorted ordered (bubble_sort comp (length l - 1) l).
Proof using comp_total comp_trans.
  intros HP. destruct l as [|x l]; [constructor|].
  rewrite <- (app_nil_r (x :: l)) at 2. apply bubble_sort_prefix; [simpl; lia|done|constructor|].
  apply Forall_forall. by constructor.
Qed.
End bubble_facts.

(** The help lists the commands once each, in the order of their names. *)
Lemma help_list_sorted {HW Arg} (table : list (@cmd_tbl_t HW Arg)) :
  Forall (λ c, plain (cmd_name c)) table →
  let l := bubble_sort compare_names (length table - 1) table in
  l ≡ₚ table ∧ StronglySorted (λ a b, strcmp (cmd_name a) (cmd_name b) ≤ 0) l.
Proof.
  intros HP. split; [apply bubble_sort_perm|].
  apply (bubble_sort_sorts _ (λ c, plain (cmd_name c))); [..|done]; unfold compare_names; intros *.
  - apply strcmp_total.
  - apply strcmp_trans.
Qed.

(** * Look-up *)

(** The word up to its first dot. *)
Fixpoint stem (word : string) : string :=
  match word with
  | "" => ""
  | String c word' => if Ascii.eqb c "." then "" else String c (stem word')
  end.

Lemma no_nul_inv c s : no_nul (String c s) → Ascii.eqb c NUL = false ∧ no_nul s.
Proof. unfold no_nul. cbn [c_str]. destruct (Ascii.eqb c NUL); [done|]. intros [= ?]. by split. Qed.

Lemma word_len_stem word : no_nul word → word_len word = slen (stem word).
Proof.
  unfold word_len, strlen, slen. induction word as [|c word IH]; intros Hn; [done|].
  rewrite Hn. destruct (no_nul_inv _ _ Hn) as [Hc Hn']. cbn [strchr stem]. rewrite Hc.
  destruct (Ascii.eqb c "."); [by rewrite Z.sub_diag|]. specialize (IH Hn'). rewrite Hn' in IH.
  destruct (strchr word "."); cbn [String.length] in *; lia.
Qed.

Lemma ord_nonzero c : Ascii.eqb c NUL = false → (ord c =? 0) = false.
Proof. intros Hc. apply Z.eqb_neq. intros H. rewrite (inj ord c NUL) in Hc; done. Qed.

(** Comparing as many characters as the stem has tests whether it begins the
    name. *)
Lemma strncmp_stem word nm :
  no_nul word → no_nul nm →
  (strncmp word nm (String.length (stem word)) =? 0) = String.prefix (stem word) nm.
Proof.
  revert nm. induction word as [|c word IH]; intros nm Hw Hn; [by destruct nm|].
  destruct (no_nul_inv _ _ Hw) as [Hc Hw']. cbn [stem]. destruct (Ascii.eqb c "."); [by destruct nm|].
  cbn [String.length]. destruct nm as [|d nm]; cbn [strncmp String.prefix].
  - rewrite sign8_nul, Hc. cbn [negb orb]. pose proof (sign8_nul c) as Hz. rewrite Hc in Hz. unfold nonzero in Hz.
    by destruct (sign 8 (ord c - 0) =? 0).
  - destruct (no_nul_inv _ _ Hn) as [Hd Hn']. rewrite sign8_diff.
    destruct (Ascii.eqb_spec c d) as [->|Hne]; cbn [negb orb].
    + rewrite (ord_nonzero d Hd), IH by done. by destruct (ascii_dec d d).
    + pose proof (sign8_diff c d) as Hz. destruct (ascii_dec c d); [done|].
      destruct (Ascii.eqb_spec c d); [done|]. unfold nonzero in Hz. by destruct (sign 8 (ord c - ord d) =? 0).
Qed.

Lemma prefix_same s t : String.prefix s t = true → String.length s = String.length t → s = t.
Proof.
  revert t. induction s as [|c s IH]; intros [|d t]; cbn; try done.
  destruct (ascii_dec c d) as [->|]; [|done]. intros Hp [= Hl]. by rewrite (IH t).
Qed.

Lemma prefix_refl s : String.prefix s s = true.
Proof. induction s as [|c s IH]; [done|]. cbn. by destruct (ascii_dec c c). Qed.

Section find_facts.
Context {HW Arg : Type}.
Notation cmd_tbl_t := (@cmd_tbl_t HW Arg).

(** The commands a word can stand for. *)
Definition named (word : string) (table : list cmd_tbl_t) : list cmd_tbl_t :=
  filter (λ c, cmd_name c = stem word) table.
Definition abbreviated (word : string) (table : list cmd_tbl_t) : list cmd_tbl_t :=
  filter (λ c, String.prefix (stem word) (cmd_name c) = true) table.

Definition clean_names (table : list cmd_tbl_t) : Prop := Forall (λ c, no_nul (cmd_name c)) table.

(** The rest of the loop when [n] abbreviations have been met, [temp] the
    last of them. *)
Lemma find_loop_spec word table temp n :
  no_nul word → clean_names table → 0 ≤ n →
  find_loop word (word_len word) table temp n =
    match named word table with
    | c :: _ => Some c
    | [] => match abbreviated word table with
            | [] => if n =? 1 then temp else None
            | [c] => if n =? 0 then Some c else None
            | _ => None
            end
    end.
Proof.
  intros Hw. rewrite (word_len_stem _ Hw). revert temp n.
  induction table as [|c table IH]; intros temp n Ht Hn; [done|].
  apply Forall_cons in Ht as [Hc Ht]. cbn [find_loop]. unfold slen at 1. rewrite Nat2Z.id.
  rewrite (strncmp_stem _ _ Hw Hc). unfold strlen. rewrite Hc. unfold named, abbreviated in *.
  rewrite !filter_cons. destruct (String.prefix (stem word) (cmd_name c)) eqn:Hp.
  - unfold slen. destruct (Z.eqb_spec (Z.of_nat (String.length (stem word))) (Z.of_nat (String.length (cmd_name c)))) as [Hl|Hl].
    + rewrite decide_True; [done|]. symmetry. apply prefix_same; [done|lia].
    + rewrite decide_False by (by intros He; rewrite He in Hl). rewrite decide_True by done.
      fold (slen (stem word)). rewrite (IH _ (n + 1)) by (done || lia).
      destruct (filter (λ c, cmd_name c = _) _); [|done].
      destruct (filter _ table) as [|? [|? ?]];
        destruct (Z.eqb_spec n 0), (Z.eqb_spec (n + 1) 1), (Z.eqb_spec (n + 1) 0); done || lia.
  - rewrite decide_False by (intros He; rewrite He, prefix_refl in Hp; done).
    rewrite decide_False by done. by apply IH.
Qed.

(** C28. A word selects the first command whose name is the part of the word
    before its first dot; when there is none, the only command whose name
    begins with it; and no command when there are several of these. *)
Theorem find_cmd_tbl_spec word (table : list cmd_tbl_t) :
  no_nul word → clean_names table →
  find_cmd_tbl word table =
    match named word table, abbreviated word table with
    | c :: _, _ => Some c
    | [], [c] => Some c
    | [], _ => None
    end.
Proof.
  intros Hw Ht. unfold find_cmd_tbl. rewrite (find_loop_spec _ _ _ _ Hw Ht) by done.
  destruct (named word table); [|done]. by destruct (abbreviated word table) as [|? [|? ?]].
Qed.
End find_facts.

(** * Calls *)

Section process_facts.
Context {HW Arg : Type}.
Notation core := (@core HW Arg).
Notation cmd_tbl_t := (@cmd_tbl_t HW Arg).

Lemma emits_puts s : emits (HW := HW) (puts s).
Proof. intros w. by exists (c_str s). Qed.

Lemma lift_bind_printed {A} m (k : M core A) (c : core) :
  emits m → ∃ c', (_ ← lift m; k) c = k c' ∧ printed c c'.
Proof.
  intros Hm. destruct (lift_printed m c Hm) as (c' & H & Hp). exists c'. split; [|done].
  by erewrite M_bind_Ret by exact H.
Qed.

(** Run the print the goal begins with. *)
#[local] Ltac print_step c' P :=
  match goal with
  | |- context [mbind (λ _, ?k) (lift ?m) ?c] =>
      destruct (lift_bind_printed m k c) as (c' & -> & P); [first [apply emits_puts|by apply emits_printf]|]
  end.

Lemma trace_words_prints argv (c : core) : ∃ c', trace_words argv c = Ret tt c' ∧ printed c c'.
Proof.
  revert c. induction argv as [|word argv IH]; intros c; cbn [trace_words].
  - exists c. split; [done|apply printed_refl].
  - print_step c1 P1. print_step c2 P2.
    destruct (IH c2) as (c3 & H & P3). exists c3. split; [done|]. by eapply printed_trans, printed_trans.
Qed.

Lemma cmd_usage_prints (cmdtp : cmd_tbl_t) (c : core) :
  ∃ c', cmd_usage cmdtp c = Ret 1 c' ∧ printed c c'.
Proof.
  unfold cmd_usage.
  print_step c1 P1. print_step c2 P2.
  assert (printed c c2) as P by by eapply printed_trans. destruct (help cmdtp) as [text|].
  - print_step c3 P3. print_step c4 P4.
    exists c4. split; [done|]. by eapply printed_trans, printed_trans.
  - print_step c3 P3. exists c3. split; [done|]. by eapply printed_trans.
Qed.

Context `{!Timer HW} `{!Env HW}.

Lemma cmd_xtrace_prints argv (c : core) : ∃ c', cmd_xtrace argv c = Ret tt c' ∧ printed c c'.
Proof.
  unfold cmd_xtrace. rewrite (M_bind_Ret _ _ _ (env_get "xtrace" (hw (wld c))) c) by by destruct c.
  destruct (env_get "xtrace" (hw (wld c))).
  - print_step c1 P1.
    destruct (trace_words_prints argv c1) as (c2 & H & P2). erewrite M_bind_Ret by exact H.
    destruct (lift_printed (puts newline) c2 (emits_puts _)) as (c3 & H3 & P3). exists c3.
    split; [done|]. by eapply printed_trans, printed_trans.
  - exists c. split; [done|apply printed_refl].
Qed.

(** The flag a command is called with. *)
Definition call_flag (cmdtp : cmd_tbl_t) (flag : Z) : Z :=
  if is_bootd cmdtp then Z.lor flag CMD_FLAG_BOOTD else flag.

(** When a call is refused. *)
Definition refused (cmdtp : cmd_tbl_t) (flag argc : Z) : bool :=
  (maxargs cmdtp <? argc) || is_bootd cmdtp && nonzero (Z.land flag CMD_FLAG_BOOTD).

Context (table : list cmd_tbl_t) (flag argc : Z) (word : string) (rest : list string) (rep : Z).

(** A line whose first word selects no command, that has more arguments
    than the command accepts, or that calls [bootd] from [bootd], only prints:
    no command is called, the result is 1, and neither the repeat flag nor the
    time is changed. *)
Theorem cmd_process_rejects ticks (c : core) :
  (∀ cmdtp, find_cmd_tbl word table = Some cmdtp → refused cmdtp flag argc = true) →
  ∃ c', cmd_process table flag argc (word :: rest) rep ticks c = Ret (1, rep, ticks) c' ∧ printed c c'.
Proof.
  intros Hf. unfold cmd_process. destruct (cmd_xtrace_prints (word :: rest) c) as (c0 & H0 & P0).
  erewrite M_bind_Ret by exact H0. erewrite M_bind_Ret by reflexivity.
  destruct (find_cmd_tbl word table) as [cmdtp|].
  - specialize (Hf _ eq_refl). unfold refused in Hf. destruct (maxargs cmdtp <? argc).
    + erewrite M_bind_Ret by reflexivity. cbn beta iota. erewrite M_bind_Ret by reflexivity. cbn beta iota.
      destruct (cmd_usage_prints cmdtp c0) as (c1 & H1 & P1). change (-1 =? -1) with true. cbn iota.
      erewrite M_bind_Ret by exact H1. exists c1. split; [done|]. by eapply printed_trans.
    + cbn [orb] in Hf. apply andb_true_iff in Hf as [-> ->].
      destruct (lift_printed (puts ("'bootd' recursion detected" +:+ newline)) c0 (emits_puts _)) as (c1 & H1 & P1).
      erewrite M_bind_Ret by (erewrite M_bind_Ret by exact H1; reflexivity). cbn beta iota.
      erewrite M_bind_Ret by reflexivity. exists c1. split; [done|]. by eapply printed_trans.
  - print_step c1 P1. exists c1. split; [done|]. by eapply printed_trans.
Qed.

(** A command that is called, without the time: its result, a usage error
    turned into the help text and 1. *)
Lemma cmd_process_calls (cmdtp : cmd_tbl_t) (c : core) :
  find_cmd_tbl word table = Some cmdtp → refused cmdtp flag argc = false →
  ∃ c0, printed c c0 ∧ ∀ rc newrep c1,
    cmd_rep cmdtp (call_flag cmdtp flag) argc (word :: rest) c0 = Ret (rc, newrep) c1 →
    ∃ c', cmd_process table flag argc (word :: rest) rep None c
            = Ret (if rc =? CMD_RET_USAGE then 1 else rc, Z.land rep newrep, None) c' ∧
          printed c1 c' ∧ (rc ≠ CMD_RET_USAGE → c' = c1).
Proof.
  intros Hf Hr. destruct (cmd_xtrace_prints (word :: rest) c) as (c0 & H0 & P0). exists c0. split; [done|].
  intros rc newrep c1 Hc. unfold cmd_process.
  erewrite M_bind_Ret by exact H0. erewrite M_bind_Ret by reflexivity. rewrite Hf.
  unfold refused in Hr. apply orb_false_iff in Hr as [-> Hb].
  rewrite (M_bind_Ret _ _ _ (0, call_flag cmdtp flag) c0)
    by (unfold call_flag; destruct (is_bootd cmdtp); [cbn [andb] in Hb; by rewrite Hb|done]).
  cbn beta iota.
  rewrite (M_bind_Ret _ _ _ (rc, Z.land rep newrep, None) c1).
  2: { change (0 =? 0) with true. cbn iota. erewrite M_bind_Ret by reflexivity.
       unfold cmd_call. erewrite M_bind_Ret by exact Hc. reflexivity. }
  cbn beta iota. destruct (Z.eqb_spec rc CMD_RET_USAGE) as [->|Hne].
  - destruct (cmd_usage_prints cmdtp c1) as (c2 & H2 & P2). erewrite M_bind_Ret by exact H2.
    exists c2. by split_and!.
  - exists c1. split_and!; [done|apply printed_refl|done].
Qed.
End process_facts.

(** The command of the framework, wherever it is in the list. *)
Lemma boarddiag_found {HW Arg} BOARD_DEFAULT fuel (l1 l2 : list (@cmd_tbl_t HW Arg)) :
  clean_names (l1 ++ l2) → Forall (λ c, cmd_name c ≠ "boarddiag") l1 →
  find_cmd_tbl "boarddiag" (l1 ++ boarddiag_cmd BOARD_DEFAULT fuel :: l2)
    = Some (boarddiag_cmd BOARD_DEFAULT fuel).
Proof.
  intros Hcl Hl1. apply Forall_app in Hcl as [Hc1 Hc2]. unfold find_cmd_tbl.
  rewrite find_loop_spec; [|done|apply Forall_app; by split; [|constructor]|done].
  unfold named. rewrite filter_app. change (stem "boarddiag") with "boarddiag".
  replace (filter (λ c, cmd_name c = "boarddiag") l1) with (@nil (@cmd_tbl_t HW Arg)); [done|].
  induction Hl1 as [|c l Hc Hl IH]; [done|]. rewrite filter_cons_False by done.
  apply IH. by apply Forall_cons in Hc1 as [_ ?].
Qed.

(** A line for it runs it, from the state with the trace printed. *)
Lemma boarddiag_dispatched {HW Arg} `{!Timer HW} `{!Env HW} BOARD_DEFAULT fuel (l1 l2 : list (@cmd_tbl_t HW Arg))
    flag argc rest rep (c : @core HW Arg) :
  clean_names (l1 ++ l2) → Forall (λ c, cmd_name c ≠ "boarddiag") l1 → argc ≤ CONFIG_SYS_MAXARGS →
  ∃ s, ∀ rc c1,
    do_boarddiag BOARD_DEFAULT fuel argc ("boarddiag" :: rest) (with_wld (emit s (wld c)) c) = Ret rc c1 →
    rc ≠ CMD_RET_USAGE →
    cmd_process (l1 ++ boarddiag_cmd BOARD_DEFAULT fuel :: l2) flag argc ("boarddiag" :: rest) rep None c
      = Ret (rc, 0, None) c1.
Proof.
  intros Hcl Hl1 Hargc. set (cmdtp := boarddiag_cmd BOARD_DEFAULT fuel).
  destruct (cmd_process_calls (l1 ++ cmdtp :: l2) flag argc "boarddiag" rest rep cmdtp c) as (c0 & [s ->] & Hrun).
  { by apply boarddiag_found. }
  { unfold refused. cbn [cmdtp boarddiag_cmd U_BOOT_CMD maxargs is_bootd andb]. rewrite orb_false_r.
    by apply Z.ltb_ge. }
  exists s. intros rc c1 H Hrc. destruct (Hrun rc 0 c1) as (c2 & H2 & _ & Hc2).
  { cbn [cmdtp boarddiag_cmd U_BOOT_CMD cmd_rep]. unfold cmd_never_repeatable.
    by erewrite M_bind_Ret by exact H. }
  rewrite H2, (Hc2 Hrc), Z.land_0_r. by rewrite (proj2 (Z.eqb_neq rc CMD_RET_USAGE)).
Qed.

(** * Witnesses *)

(** A table of three commands that do nothing. *)
Module ShellSim.
#[export] Instance clock : Timer unit := {| get_timer _ h := (0, h) |}.
#[export] Instance env : Env unit :=
  {| env_get _ _ := None; env_set _ _ h := (0, h); env_get_id _ := 0 |}.

Definition nothing (flag argc : Z) (argv : list string) : M (@core unit unit) Z := mret 0.
Definition commands : list (@cmd_tbl_t unit unit) :=
  [U_BOOT_CMD "boot" 1 true nothing "boot" ""; U_BOOT_CMD "bootd" 1 true nothing "boot" "";
   U_BOOT_CMD "cp" 4 true nothing "memory copy" ""].

Lemma commands_clean : clean_names commands.
Proof. by repeat constructor. Qed.

Definition start : @core unit unit := mkCore (boot_world tt) [] [] None 0 None 0 0.
End ShellSim.
#[local] Existing Instances ShellSim.clock ShellSim.env.

(** A full name wins over longer ones, a modifier is ignored, and an ambiguous
    abbreviation selects nothing. *)
Lemma find_cmd_tbl_spec_witness :
  let find word := cmd_name <$> find_cmd_tbl word ShellSim.commands in
  find "boot" = Some "boot" ∧ find "c.b" = Some "cp" ∧ find "bo" = None.
Proof.
  cbn zeta. split_and!; rewrite find_cmd_tbl_spec; reflexivity || apply ShellSim.commands_clean.
Defined.

Lemma cmd_process_rejects_witness :
  ∃ c', cmd_process ShellSim.commands 0 5 ["cp"; "a"; "b"; "c"; "d"] 1 None ShellSim.start = Ret (1, 1, None) c' ∧
    printed ShellSim.start c'.
Proof. apply cmd_process_rejects. intros cmdtp [= <-]. reflexivity. Defined.

Lemma help_list_example :
  cmd_name <$> bubble_sort compare_names 2 (reverse ShellSim.commands) = ["boot"; "bootd"; "cp"].
Proof. reflexivity. Qed.
