(* ===== verification/Safety.v ===== *)
(** No test of the suite faults or hangs on a sane board.  [SaneBoard] says
    what is asked of the hardware, [machine_ok] is the invariant of the
    program's own state, and every test keeps it. *)

From S2P Require Import Prelude CLib Vsprintf VsprintfFacts Machine Events Keeps.
From S2P Require Import Memory Gpio I2cUclass I2cUtils I2cFacts Eeprom Rtc I2cProbe PowerRail.
From S2P Require Import Mii Eth NetUtils EthUclass NetCore EthFacts NetFacts Ping.
From S2P Require Import BlkCache MmcCore Mmc SpiMem SpiNor SpiNorFacts NorFlash.

(** A flash description the core can work with. *)
Record nor_usable (nor : spi_nor) : Prop := {
  usable_erase : 0 < erasesize nor < 2 ^ 31;
  usable_page : 0 < page_size nor < 2 ^ 31;
  usable_addr : 0 ≤ addr_width nor;
  usable_dummy : 0 ≤ read_dummy nor;
  usable_max_read : 0 ≤ max_read_size nor;
  usable_max_write : 0 ≤ max_write_size nor;
}.

(** What the program relies on: every access leaves the board sane, transfers
    fill the buffers they are given, devices can be bound (there is memory
    for them), the MMC controllers do not move, a probed flash is usable, and
    the clock runs: [ticks] counts microseconds, the timer shows
    milliseconds, and a transfer on the SPI bus takes some time and returns
    zero or a negative code.  Nothing is said about the data read, nor that
    any transfer succeeds. *)
Record SaneBoard {HW} `{!MemBus HW} `{!I2cDriver HW} `{!Mdio HW} `{!Env HW} `{!EthDriver HW} `{!Timer HW}
    `{!Keyboard HW} `{!MmcHost HW}
    `{!SpiBus HW} (sane : HW → Prop) (base : Z → option Z) (ticks : HW → Z)
    (dev0 : option Z) : Prop := {
  sane_mem_read a h : sane h → sane (mem_read32 a h).2;
  sane_mem_write a v h : sane h → sane (mem_write32 a v h);
  sane_flush h : sane h → sane (flush_dcache_all h);
  sane_seq n h : sane h → sane (uclass_get_device_by_seq n h).2;
  sane_bind b h : sane h → sane (device_bind_driver b h).2 ∧ (device_bind_driver b h).1 = 0;
  sane_probe b c h : sane h → sane (device_probe b c h).2 ∧ (device_probe b c h).1 = 0;
  sane_malloc n h : sane h → sane (malloc_ok n h).2 ∧ (malloc_ok n h).1 = true;
  sane_xfer b f msgs h : xfer (i2c_get_ops b) = Some f → sane h →
    sane (f b msgs h).2 ∧ length <$> (f b msgs h).1.2 = length ∘ m_buf <$> msgs;
  sane_probe_chip b g a fl h : probe_chip (i2c_get_ops b) = Some g → sane h →
    sane (g b a fl h).2;
  sane_set_speed b g s h : set_bus_speed (i2c_get_ops b) = Some g → sane h → sane (g b s h).2;
  sane_get_speed b g h : get_bus_speed (i2c_get_ops b) = Some g → sane h → sane (g b h).2;
  sane_mdio_read b a d r h : sane h → sane (mdio_read b a d r h).2;
  sane_mdio_write b a d r v h : sane h → sane (mdio_write b a d r v h).2;
  sane_udelay n h : sane h → sane (udelay n h);
  sane_port peer : NetPort sane ticks dev0 peer anything;
  sane_base k h : sane h → priv_base <$> mmc_of k h = base k;
  sane_reinit k h : sane h → sane (mmc_reinit k h).2;
  sane_find b c h : sane h → sane (spi_find_bus_and_cs b c h).2;
  sane_remove h : sane h → sane (device_remove h);
  sane_spi_probe b c n h : sane h → sane (spi_get_bus_and_cs b c n h).2 ∧
    ∀ nor, (spi_get_bus_and_cs b c n h).1.2 = inl nor → nor_usable nor;
  sane_claim h : sane h →
    sane (spi_claim_bus h).2 ∧ takes 0 (ticks h) (ticks (spi_claim_bus h).2);
  sane_release h : sane h →
    sane (spi_release_bus h) ∧ takes 0 (ticks h) (ticks (spi_release_bus h));
  sane_send l f h : sane h → sane (spi_send l f h).2 ∧ (spi_send l f h).1 ≤ 0 ∧
    takes 1 (ticks h) (ticks (spi_send l f h).2);
  sane_receive n f h : sane h → sane (spi_receive n f h).2 ∧ (spi_receive n f h).1.1 ≤ 0 ∧
    takes 1 (ticks h) (ticks (spi_receive n f h).2);
}.

Section safety.
Context {HW : Type} `{!MemBus HW} `{!I2cDriver HW} `{!Mdio HW} `{!Env HW} `{!EthDriver HW} `{!Timer HW}
    `{!Keyboard HW} `{!MmcHost HW}
  `{!SpiBus HW} (sane : HW → Prop) (base : Z → option Z) (ticks : HW → Z) (dev0 : option Z)
  (Hsane : SaneBoard sane base ticks dev0).
Notation world := (world HW).
Notation M := (M world).
Implicit Types w : world.

(** * The invariant *)

(** The settings of a bound I2C chip. *)
Definition chip_ok (chip : dm_i2c_chip) : Prop :=
  0 ≤ offset_len chip ≤ 4 ∧ chip_addr_offset_mask chip = 0.

Definition mii_dev_ok (dev : mii_dev) : Prop := mii_has_read dev = true ∧ mii_has_write dev = true.

(** The program's state: the chips bound so far, the sizes of the static
    buffers, the MII devices and the index of the MMC controller. *)
Record machine_ok (w : world) : Prop := {
  ok_sane : sane (hw w);
  ok_chips : ∀ bus, Forall chip_ok (children bus w);
  ok_eeprom1 : length (i2c_eeprom_testbuf1 (eeprom w)) = 128%nat;
  ok_eeprom2 : length (i2c_eeprom_testbuf2 (eeprom w)) = 128%nat;
  ok_nor1 : Z.of_nat (length (data_test_buf1 (nor w))) = SPI_TEST_LEN;
  ok_nor2 : Z.of_nat (length (data_test_buf2 (nor w))) = SPI_TEST_LEN;
  ok_mii : Forall mii_dev_ok (mii_devs (mii w));
  ok_mii_current dev : current_mii (mii w) = Some dev → mii_dev_ok dev;
  ok_mmc : 0 ≤ curr_device (ommc_param (mmc w)) < 16;
  ok_eth : current_ok dev0 (eth w);
  ok_net : stack_ok (net w);
}.

#[export] Instance machine_quiet : Quiet machine_ok.
Proof. split; intros ? w []; by split. Qed.

Notation keeps := (keeps machine_ok).

Lemma machine_with_hw h w : machine_ok w → sane h → machine_ok (with_hw h w).
Proof. intros [] Hh. by split. Qed.

Lemma keeps_hw {A} (f : HW → A * HW) (P : A → Prop) :
  (∀ h, sane h → sane (f h).2 ∧ P (f h).1) → keeps (hw_call f) P.
Proof.
  intros Hf. apply keeps_hw_call. intros w Hw. destruct (Hf (hw w)) as [Hs HP]; [apply Hw|].
  split; [by apply machine_with_hw|done].
Qed.

Lemma keeps_hw' {A} (f : HW → A * HW) : (∀ h, sane h → sane (f h).2) → keeps (hw_call f) anything.
Proof. intros Hf. apply keeps_hw. auto. Qed.

Lemma keeps_hw_do' (f : HW → HW) : (∀ h, sane h → sane (f h)) → keeps (hw_do f) anything.
Proof. intros Hf. apply keeps_hw_do. intros w Hw. apply machine_with_hw; [done|]. apply Hf, Hw. Qed.

Lemma sane_timer b h :
  sane h → sane (get_timer b h).2 ∧ takes 0 (ticks h) (ticks (get_timer b h).2) ∧
  (get_timer b h).1 = wrap32 (ticks h / 1000 - b).
Proof using Hsane.
  intros Hh. destruct (port_timer (EthPort := port_eth (NetPort := sane_port _ _ _ _ Hsane 0)) b h Hh)
    as [(? & ? & _) ?]. done.
Qed.

(** * Memory and GPIO *)

Lemma keeps_load a : keeps (load a) anything.
Proof using Hsane. apply keeps_hw'. intros h. apply (sane_mem_read _ _ _ _ Hsane). Qed.

Lemma keeps_store a v : keeps (store a v) anything.
Proof using Hsane. apply keeps_hw_do'. intros h. apply (sane_mem_write _ _ _ _ Hsane). Qed.

Lemma keeps_flush : keeps flush anything.
Proof using Hsane. apply keeps_hw_do'. intros h. apply (sane_flush _ _ _ _ Hsane). Qed.

#[local] Hint Resolve keeps_load keeps_store keeps_flush : keeps.

(** A walking one, and how often it can still be shifted. *)
Definition one_bit (pat : Z) : Prop := pat = 0 ∨ ∃ k, 0 ≤ k < 32 ∧ pat = 2 ^ k.
Definition bits_left (pat : Z) : nat := if pat =? 0 then 0 else Z.to_nat (32 - Z.log2 pat).

Lemma one_bit_shift pat :
  one_bit pat → pat ≠ 0 →
  one_bit (wrap32 (Z.shiftl pat 1)) ∧ (bits_left (wrap32 (Z.shiftl pat 1)) < bits_left pat)%nat.
Proof.
  intros [->|(k & Hk & ->)] Hnz; [done|]. rewrite Z.shiftl_mul_pow2 by lia.
  rewrite <- Z.pow_add_r by lia. unfold bits_left at 2. rewrite (proj2 (Z.eqb_neq _ _) Hnz).
  rewrite Z.log2_pow2 by lia. destruct (Z.eq_dec k 31) as [->|Hne].
  - split; [by left|]. change (bits_left (wrap32 (2 ^ (31 + 1)))) with 0%nat. lia.
  - assert (2 ^ (k + 1) < 2 ^ 32) by (apply Z.pow_lt_mono_r; lia).
    rewrite wrap32_small by lia. split; [right; exists (k + 1); split; [lia|done]|].
    unfold bits_left. rewrite (proj2 (Z.eqb_neq (2 ^ (k + 1)) 0)) by lia.
    rewrite Z.log2_pow2 by lia. lia.
Qed.

Lemma keeps_data_line testId a : keeps (memory_data_line_test testId (Some a)) anything.
Proof using Hsane.
  unfold memory_data_line_test. do 2 keep_step.
  eapply keeps_bind.
  { apply (keeps_for_loop _ (λ x, one_bit x.1) anything anything (λ x, bits_left x.1));
      [vm_compute; lia| | |done].
    - right. by exists 0.
    - intros [pat status] Hb Hnz. apply nonzero_true in Hnz. simpl in Hb. keep_run; [done|].
      by apply one_bit_shift. }
  intros [[pat status]|[]] _. by keep_step.
Qed.

Lemma keeps_for_offsets {R} mask (body : Z → M (option R)) :
  (∀ o, keeps (body o) anything) → keeps (for_offsets mask body) anything.
Proof.
  intros Hbody. unfold for_offsets. eapply keeps_bind.
  { apply (keeps_for_loop _ one_bit anything anything bits_left); [vm_compute; lia| | |done].
    - right. by exists 0.
    - intros o Ho Hc. eapply keeps_bind; [apply Hbody|]. intros [r|] _; keep_step; [done|].
      apply one_bit_shift; [done|]. intros ->. by rewrite Z.land_0_l in Hc. }
  intros [o|r] _; by keep_step.
Qed.

Lemma keeps_report_mismatch ev addrs a : keeps (report_mismatch ev addrs a) anything.
Proof using Hsane. unfold report_mismatch. by keep_run. Qed.

#[local] Hint Resolve keeps_report_mismatch : keeps.

Lemma keeps_address_line testId a : keeps (memory_address_line_test testId (Some a)) anything.
Proof using Hsane.
  unfold memory_address_line_test. do 2 keep_step.
  eapply keeps_bind; [apply keeps_for_offsets; intros o; by keep_run|]. intros _ _. do 2 keep_step.
  eapply keeps_bind; [apply keeps_for_offsets; intros o; by keep_run|].
  intros [r|] _; [by keep_step|]. keep_step.
  eapply keeps_bind; [apply keeps_for_offsets; intros o; unfold address_line_pass2|].
  - do 4 keep_step; [keep_step|].
    eapply keeps_bind; [apply keeps_for_offsets; intros o'; by keep_run|].
    intros [r|] _; by keep_run.
  - intros [r|] _; by keep_step.
Qed.

(** A counter from 0 up to [n], in 32 bits. *)
Lemma counter_step n i :
  n < 2 ^ 32 → 0 ≤ i ≤ n → (i <? n) = true →
  0 ≤ wrap32 (i + 1) ≤ n ∧ (Z.to_nat (n - wrap32 (i + 1)) < Z.to_nat (n - i))%nat.
Proof. intros Hn Hi Hc. rewrite wrap32_small by lia. lia. Qed.

Lemma keeps_pattern testId a :
  0 ≤ pt_size a < 2 ^ 32 → keeps (memory_pattern_test testId (Some a)) anything.
Proof using Hsane.
  intros Hsize. unfold memory_pattern_test. set (n := pt_size a / 4).
  assert (0 ≤ n < 2 ^ 32) as Hn by (unfold n; lia). keep_step. eapply keeps_bind.
  { apply (keeps_for_loop _ (λ i, 0 ≤ i ≤ n) anything anything (λ i, Z.to_nat (n - i)));
      [lia|lia| |done].
    intros i Hi Hc. keep_run. apply counter_step; [lia|done..]. }
  intros _ _. eapply keeps_bind.
  { apply (keeps_for_loop _ (λ x, 0 ≤ x.1 ≤ n) anything anything (λ x, Z.to_nat (n - x.1)));
      [simpl; lia|simpl; lia| |done].
    intros [i status] Hi Hc. simpl in Hi. keep_run; [done|]. apply counter_step; [lia|done..]. }
  intros [[i status]|[]] _. by keep_step.
Qed.

Lemma keeps_GPIO testId a : gpio_pin a < 32 → keeps (GPIO_test testId (Some a)) anything.
Proof using Hsane.
  intros Hpin. unfold GPIO_test, __raw_writel, __raw_readl, shift_one.
  change (λ v a, hw_do (mem_write32 a v)) with (λ v a, store a v).
  rewrite (proj2 (Z.ltb_lt _ _) Hpin).
  assert (∀ P : Z → Prop, P (Z.shiftl 1 (gpio_pin a)) →
    keeps (mret (Z.shiftl 1 (gpio_pin a))) P) as Hp by (intros P HP; by apply keeps_ret).
  repeat (keep_step || (eapply keeps_bind; [by apply (Hp anything)|intros ? _])); done.
Qed.

(** * I2C *)

Lemma children_set_any bus bus' l w :
  children bus' (set_children bus l w) = if decide (bus' = bus) then l else children bus' w.
Proof.
  unfold children, set_children. simpl. destruct (decide (bus' = bus)) as [->|Hne].
  - by rewrite lookup_insert_eq.
  - by rewrite lookup_insert_ne.
Qed.

Lemma machine_set_children bus l w :
  machine_ok w → Forall chip_ok l → machine_ok (set_children bus l w).
Proof.
  intros [] Hl. split; try done. intros bus'. rewrite children_set_any. by destruct (decide _).
Qed.

(** A device handle that denotes a bound chip. *)
Definition valid (dev : udevice) (w : world) : Prop :=
  is_Some (children (dev_bus dev) w !! dev_index dev).

Lemma wp_chip_of dev w (Q : dm_i2c_chip → world → Prop) :
  machine_ok w → valid dev w → (∀ chip, chip_ok chip → Q chip w) → wp (chip_of dev) Q w.
Proof.
  intros Hw [chip Hc] HQ. unfold wp, chip_of. rewrite Hc. apply HQ.
  pose proof (ok_chips w Hw (dev_bus dev)) as Hall. rewrite Forall_lookup in Hall. by eapply Hall.
Qed.

Lemma wp_chip_update_ok dev g w (Q : unit → world → Prop) :
  machine_ok w → valid dev w → (∀ c, chip_ok c → chip_ok (g c)) →
  (∀ w', machine_ok w' → valid dev w' → Q tt w') → wp (chip_update dev g) Q w.
Proof.
  intros Hw Hv Hg HQ. unfold chip_update. apply wp_bind, wp_chip_of; [done|done|].
  intros chip Hc. apply wp_modify, HQ.
  - apply machine_set_children; [done|]. apply Forall_insert; [|by apply Hg].
    apply (ok_chips w Hw).
  - unfold valid. rewrite children_set_any, decide_True by done.
    rewrite list_lookup_insert_eq; [by eexists|]. by apply lookup_lt_is_Some_1.
Qed.

Lemma wp_set_chip_offset_len dev ol w (Q : Z → world → Prop) :
  machine_ok w → valid dev w → 0 ≤ ol ≤ 4 →
  (∀ w', machine_ok w' → valid dev w' → Q 0 w') → wp (i2c_set_chip_offset_len dev ol) Q w.
Proof.
  intros Hw Hv Hol HQ. unfold i2c_set_chip_offset_len, I2C_MAX_OFFSET_LEN.
  replace (ol >? 4) with false by lia. apply wp_bind. apply wp_chip_update_ok; [done|done| |].
  - intros c [_ Hm]. done.
  - intros w' Hw' Hv'. apply wp_ret. auto.
Qed.

(** Looking a chip up, or binding a device for it, gives a valid handle. *)
Lemma wp_get_chip_ok bus addr ol w (Q : udevice + Z → world → Prop) :
  machine_ok w → 0 ≤ ol ≤ 4 →
  (∀ dev w', machine_ok w' → valid dev w' → Q (inl dev) w') →
  wp (i2c_get_chip bus addr ol) Q w.
Proof using Hsane.
  intros Hw Hol HQ. unfold i2c_get_chip. apply wp_bind, wp_gets.
  destruct (list_find _ _) as [[i chip]|] eqn:Hf.
  - apply list_find_Some in Hf as (Hi & _ & _). apply wp_bind, wp_hw_call.
    destruct (sane_probe _ _ _ _ Hsane bus chip (hw w)) as [Hs ->]; [apply Hw|].
    apply wp_ret, HQ; [by apply machine_with_hw|]. by eexists.
  - unfold i2c_bind_driver.
    destruct (format_accepts "generic_%x" [VInt addr] eq_refl) as [s Hs].
    unfold snprintf, vsnprintf, vsnprintf_internal. rewrite Hs. cbn [mbind option_bind].
    apply wp_bind, wp_hw_call. destruct (sane_malloc _ _ _ _ Hsane
      (strlen (str_take (Z.to_nat (30 - 1)) s) + 1) (hw w)) as [Hs1 ->]; [apply Hw|].
    apply wp_bind, wp_hw_call. cbn [hw with_hw].
    destruct (sane_bind _ _ _ _ Hsane bus (malloc_ok (strlen (str_take (Z.to_nat (30 - 1)) s) + 1)
      (hw w)).2 Hs1) as [Hs2 ->]. change (nonzero 0) with false. cbv iota.
    apply wp_bind, wp_gets, wp_bind, wp_modify, wp_bind, wp_hw_call.
    match goal with |- wp _ _ (with_hw ?h ?w1) => assert (sane h ∧ machine_ok w1) as [Hs3 Hw1] end.
    { split; [by apply (sane_probe _ _ _ _ Hsane)|]. apply machine_set_children.
      - by repeat apply machine_with_hw.
      - apply Forall_app. split; [apply (ok_chips w Hw)|by constructor]. }
    match goal with |- context [(device_probe ?b ?c ?h).1] =>
      destruct (sane_probe _ _ _ _ Hsane b c h) as [_ ->]; [done|] end.
    apply wp_ret, HQ; [by apply machine_with_hw|]. unfold valid. cbn [dev_bus dev_index].
    change (children bus (with_hw ?h ?w)) with (children bus w).
    rewrite children_set_any, decide_True by done.
    apply (lookup_lt_is_Some_2 (children bus w ++ [mkChip addr ol 0 0]) (length (children bus w))).
    rewrite length_app. cbn [length]. lia.
Qed.

Lemma keeps_do_xfer bus f msgs :
  xfer (i2c_get_ops bus) = Some f →
  keeps (do_xfer bus msgs) (λ r, length <$> r.2 = length ∘ m_buf <$> msgs).
Proof using Hsane.
  intros Hf. unfold do_xfer. rewrite Hf. apply keeps_hw. intros h Hh.
  by apply (sane_xfer _ _ _ _ Hsane).
Qed.

Lemma keeps_setup_offset chip off : chip_ok chip → keeps (i2c_setup_offset chip off) anything.
Proof.
  intros [Hol Hm]. unfold i2c_setup_offset, I2C_MAX_OFFSET_LEN. rewrite Hm.
  change (nonzero 0) with false. cbv iota.
  eapply keeps_bind; [by apply (keeps_ret _ _ anything)|]. intros addr _.
  keep_step; [by keep_step|]. replace (offset_len chip >? 4) with false by lia. by keep_step.
Qed.

(** A counter from 0 up to [n]. *)
Lemma count_step n i :
  0 ≤ i ≤ n → (i <? n) = true →
  0 ≤ i + 1 ≤ n ∧ (Z.to_nat (n - (i + 1)) < Z.to_nat (n - i))%nat.
Proof. lia. Qed.

Lemma wp_read_bytewise dev off buf len w :
  machine_ok w → valid dev w → is_Some (xfer (i2c_get_ops (dev_bus dev))) →
  0 ≤ len ≤ Z.of_nat (length buf) →
  wp (i2c_read_bytewise dev off buf len)
    (λ r w', machine_ok w' ∧ length r.2 = length buf) w.
Proof using Hsane.
  intros Hw Hv [f Hf] Hlen. unfold i2c_read_bytewise.
  apply wp_bind, wp_chip_of; [done|done|]. intros chip Hc.
  revert w Hw Hv. intros w Hw _. revert w Hw.
  eapply (keeps_bind _ _ _ (λ r, match r with
    | inl x => length x.2 = length buf | inr r => length r.2 = length buf end)).
  { apply (keeps_for_loop _ (λ x, 0 ≤ x.1 ≤ len ∧ length x.2 = length buf)
      (λ x, length x.2 = length buf) (λ r, length r.2 = length buf) (λ x, Z.to_nat (len - x.1)));
      [simpl; lia|simpl; split; [lia|done]| |by intros [] []].
    intros [i b] [Hi Hb] Hcond. cbn [fst snd] in *.
    eapply keeps_bind; [by apply keeps_setup_offset|]. intros [ret msg] _.
    keep_step; [by keep_step|].
    destruct (lookup_lt_is_Some_2 b (Z.to_nat i)) as [x ->]; [lia|].
    eapply keeps_bind; [by eapply keeps_do_xfer|]. intros [ret' out] _.
    assert (length (match out with _ :: (b' :: _) :: _ => <[Z.to_nat i := b']> b | _ => b end)
      = length buf) as Hl.
    { destruct out as [|? [|[|] ?]]; try done. by rewrite length_insert. }
    keep_step; keep_step; [done|]. destruct (count_step len i Hi Hcond). done. }
  intros [[i b]|[r b]] Hb; by keep_step.
Qed.

Lemma wp_write_bytewise_ok dev off buf len w :
  machine_ok w → valid dev w → is_Some (xfer (i2c_get_ops (dev_bus dev))) →
  0 ≤ len ≤ Z.of_nat (length buf) →
  wp (i2c_write_bytewise dev off buf len) (λ _ w', machine_ok w' ∧ True) w.
Proof using Hsane.
  intros Hw Hv [f Hf] Hlen. unfold i2c_write_bytewise.
  apply wp_bind, wp_chip_of; [done|done|]. intros chip Hc.
  revert w Hw Hv. intros w Hw _. revert w Hw. eapply keeps_bind.
  { apply (keeps_for_loop _ (λ x, 0 ≤ x ≤ len) anything anything (λ x, Z.to_nat (len - x)));
      [lia|lia| |done].
    intros i Hi Hcond.
    eapply keeps_bind; [by apply keeps_setup_offset|]. intros [ret msg] _.
    keep_step; [by keep_step|].
    destruct (lookup_lt_is_Some_2 buf (Z.to_nat i)) as [x ->]; [lia|].
    eapply keeps_bind; [by eapply keeps_do_xfer|]. intros [ret' out] _.
    keep_step; keep_step; [done|]. by apply count_step. }
  intros [i|r] _; by keep_step.
Qed.

Lemma wp_dm_i2c_read dev off buf len w :
  machine_ok w → valid dev w → 0 ≤ len ≤ Z.of_nat (length buf) →
  wp (dm_i2c_read dev off buf len) (λ r w', machine_ok w' ∧ length r.2 = length buf) w.
Proof using Hsane.
  intros Hw Hv Hlen. unfold dm_i2c_read. apply wp_bind, wp_chip_of; [done|done|]. intros chip Hc.
  destruct (xfer (i2c_get_ops (dev_bus dev))) as [f|] eqn:Hf; [|by apply wp_ret].
  destruct (nonzero (Z.land (flags chip) DM_I2C_CHIP_RD_ADDRESS)); [by apply wp_read_bytewise|].
  revert w Hw Hv. intros w Hw _. revert w Hw.
  eapply keeps_bind; [by apply keeps_setup_offset|]. intros [ret msg] _.
  rewrite (proj2 (Nat.leb_le _ _)) by lia.
  eapply keeps_bind; [by eapply keeps_do_xfer|]. intros [ret' out] Hout. cbn [fst snd] in Hout.
  keep_step. cbn [fst snd]. set (hd := if nonzero ret then [] else [msg]) in *.
  destruct (drop (length hd) out) as [|b rest] eqn:Hd; [done|].
  assert (length b = Z.to_nat len) as Hb.
  { assert ((length <$> out) !! length hd = Some (length b)) as Hlk.
    { rewrite list_lookup_fmap, <- (Nat.add_0_r (length hd)), <- lookup_drop, Hd. done. }
    rewrite Hout, fmap_app, lookup_app_r in Hlk by (by rewrite length_fmap).
    rewrite length_fmap, Nat.sub_diag in Hlk. destruct (nonzero len) eqn:Hnz; [|done].
    simpl in Hlk. injection Hlk as <-. rewrite length_take. lia. }
  rewrite length_app, length_drop. lia.
Qed.

Lemma wp_dm_i2c_write dev off buf len w :
  machine_ok w → valid dev w → 0 ≤ len ≤ Z.of_nat (length buf) →
  wp (dm_i2c_write dev off buf len) (λ _ w', machine_ok w' ∧ True) w.
Proof using Hsane.
  intros Hw Hv Hlen. unfold dm_i2c_write. apply wp_bind, wp_chip_of; [done|done|]. intros chip Hc.
  destruct (xfer (i2c_get_ops (dev_bus dev))) as [f|] eqn:Hf; [|by apply wp_ret].
  destruct (nonzero (Z.land (flags chip) DM_I2C_CHIP_WR_ADDRESS)); [by apply wp_write_bytewise_ok|].
  revert w Hw Hv. intros w Hw _. revert w Hw.
  match goal with |- context [if len <? 64 then ?m else _] => assert (keeps m anything) as Hsend end.
  { eapply keeps_bind; [by apply keeps_setup_offset|]. intros [ret msg] _.
    rewrite (proj2 (Nat.leb_le _ _)) by lia.
    eapply keeps_bind; [by eapply keeps_do_xfer|]. intros [ret' out] _. by keep_step. }
  destruct (len <? 64); [exact Hsend|].
  eapply keeps_bind; [apply keeps_hw'; intros h Hh; by apply (sane_malloc _ _ _ _ Hsane)|].
  intros [] _; [exact Hsend|by apply (keeps_ret _ _ anything)].
Qed.

Lemma keeps_set_i2c_bus n : keeps (eBBTF_utils_set_i2c_bus n) anything.
Proof using Hsane.
  unfold eBBTF_utils_set_i2c_bus.
  eapply keeps_bind; [apply keeps_hw'; intros h; apply (sane_seq _ _ _ _ Hsane)|].
  intros [bus|ret] _; [|by keep_step].
  eapply keeps_bind; [apply keeps_modify; intros w []; by split|]. intros _ _. by keep_step.
Qed.

Lemma keeps_get_i2c_bus :
  keeps eBBTF_utils_get_i2c_bus (λ r, ∀ e, r = inr e → e = - ENODEV).
Proof.
  unfold eBBTF_utils_get_i2c_bus. keep_step. destruct a; keep_run; intros e; [done|].
  intros [= Heq]. by symmetry.
Qed.

Lemma keeps_report_bus_event type addrs : keeps (report_bus_event type addrs) anything.
Proof. unfold report_bus_event. by keep_run. Qed.

#[local] Hint Resolve keeps_set_i2c_bus keeps_report_bus_event : keeps.

Lemma keeps_select_bus n : keeps (select_bus n) anything.
Proof using Hsane.
  unfold select_bus. keep_step. keep_step; [by keep_run|].
  eapply keeps_bind; [apply keeps_get_i2c_bus|]. intros [bus|e] He; [by keep_step|].
  rewrite (He e eq_refl). by keep_step.
Qed.

(** The helpers neither fault nor lose the size of the caller's buffer. *)
Lemma keeps_i2c_write bus addr reg ol buf len :
  0 ≤ ol ≤ 4 → wrap8 len ≤ Z.of_nat (length buf) →
  keeps (eBBTF_utils_i2c_write bus addr reg ol buf len) anything.
Proof using Hsane.
  intros Hol Hlen. pose proof (wrap8_range len). unfold eBBTF_utils_i2c_write.
  rewrite (wrap32_small ol) by lia.
  eapply keeps_bind; [apply keeps_select_bus|]. intros [b|r] _; [|by keep_step].
  intros w Hw. apply wp_bind, wp_get_chip_ok; [done|done|]. intros dev w1 Hw1 Hv1.
  apply wp_bind, wp_set_chip_offset_len; [done|done|done|]. intros w2 Hw2 Hv2.
  apply wp_bind, wp_chip_update_ok; [done|done|by intros c []|]. intros w3 Hw3 Hv3.
  apply wp_bind. eapply wp_mono; [apply wp_dm_i2c_write; [done|done|lia]|].
  intros ret w4 [Hw4 _]. apply keeps_at; [done|]. by keep_run.
Qed.

Lemma keeps_i2c_read bus addr reg ol buf len :
  0 ≤ ol ≤ 4 → wrap8 len ≤ Z.of_nat (length buf) →
  keeps (eBBTF_utils_i2c_read bus addr reg ol buf len) (λ r, length r.2 = length buf).
Proof using Hsane.
  intros Hol Hlen. pose proof (wrap8_range len). unfold eBBTF_utils_i2c_read.
  rewrite (wrap32_small ol) by lia.
  eapply keeps_bind; [apply keeps_select_bus|]. intros [b|r] _; [|by keep_step].
  intros w Hw. apply wp_bind, wp_get_chip_ok; [done|done|]. intros dev w1 Hw1 Hv1.
  apply wp_bind, wp_bind, wp_set_chip_offset_len; [done|done|done|]. intros w2 Hw2 Hv2.
  change (nonzero 0) with false. cbv iota.
  eapply wp_mono; [apply wp_dm_i2c_read; [done|done|lia]|].
  intros [ret out] w4 [Hw4 Hout]. apply keeps_at; [done|]. by keep_run.
Qed.

(** ** EEPROM *)

Lemma keeps_pin_mux : keeps cfg_exp_i2c1_pin_mux anything.
Proof using Hsane.
  unfold cfg_exp_i2c1_pin_mux, writel.
  eapply keeps_bind; [apply keeps_store|]. intros _ _. apply keeps_store.
Qed.

Lemma keeps_for_pages page :
  (∀ off, 0 ≤ off ≤ 96 → keeps (page off) anything) → keeps (for_pages page) anything.
Proof.
  intros Hpage. unfold for_pages, TEST_BUFFER_LEN, EEPROM_PAGE_LEN. eapply keeps_bind.
  { apply (keeps_for_loop _ (λ x, ∃ k, 0 ≤ k ≤ 4 ∧ x.1 = 32 * k) anything anything
      (λ x, Z.to_nat ((128 - x.1) / 32))); [vm_compute; lia|by exists 0| |done].
    intros [off st] (k & Hk & Hoff) Hc. cbn [fst] in *. subst off.
    eapply keeps_bind; [apply Hpage; lia|]. intros st' _. keep_step; keep_step; [|done].
    cbn [fst]. split; [exists (k + 1); lia|]. lia. }
  intros [[off st]|[]] _. by keep_step.
Qed.

Lemma keeps_eeprom_report testId a type : keeps (eeprom_report testId a type) anything.
Proof. unfold eeprom_report. by keep_run. Qed.

#[local] Hint Resolve keeps_pin_mux keeps_eeprom_report : keeps.

Lemma memset_total buf v n :
  (n ≤ length buf)%nat → ∃ b, memset buf v n = Some b ∧ length b = length buf.
Proof.
  intros Hn. unfold memset. rewrite (proj2 (Nat.leb_le _ _) Hn). eexists. split; [done|].
  rewrite length_app, length_replicate, length_drop. lia.
Qed.

Lemma keeps_EEPROM testId a : keeps (EEPROM_Read_Write_test testId (Some a)) anything.
Proof using Hsane.
  unfold EEPROM_Read_Write_test. keep_step.
  eapply keeps_bind; [apply (keeps_gets _ _ (λ b, length b = 128%nat)); intros w Hw; apply Hw|].
  intros buf1 Hb1. cbv beta in Hb1. destruct (memset_total buf1 EEPROM_TEST_PATTERN (Z.to_nat TEST_BUFFER_LEN))
    as (buf & -> & Hb); [unfold TEST_BUFFER_LEN; lia|].
  eapply keeps_bind; [apply keeps_modify; intros w []; split; try done; simpl; congruence|].
  intros _ _. eapply keeps_bind.
  { apply keeps_for_pages. intros off Hoff. unfold eeprom_write_page.
    eapply keeps_bind; [apply (keeps_gets _ _ (λ b, length b = 128%nat)); intros w Hw; apply Hw|].
    intros b Hl. cbv beta in Hl. apply keeps_i2c_write; [done|]. rewrite length_drop.
    change (wrap8 EEPROM_PAGE_LEN) with 32. lia. }
  intros st _. keep_step; [by keep_run|]. eapply keeps_bind.
  { apply keeps_for_pages. intros off Hoff. unfold eeprom_read_page.
    eapply keeps_bind; [apply (keeps_gets _ _ (λ b, length b = 128%nat)); intros w Hw; apply Hw|].
    intros b Hl. cbv beta in Hl. eapply keeps_bind.
    { apply keeps_i2c_read; [done|]. rewrite length_drop.
      change (wrap8 EEPROM_PAGE_LEN) with 32. lia. }
    intros [st' page] Hp. cbn [snd] in Hp. rewrite length_drop in Hp.
    eapply keeps_bind; [|intros _ _; by apply (keeps_ret _ _ anything)].
    apply keeps_modify. intros w []. split; try done. cbn [i2c_eeprom_testbuf2 eeprom with_eeprom].
    rewrite length_app, length_take. lia. }
  intros st' _. keep_step; [by keep_run|].
  eapply keeps_bind; [apply (keeps_gets _ _ (λ b, length b = 128%nat)); intros w Hw; apply Hw|].
  intros b2 Hl2.
  eapply keeps_bind; [apply (keeps_gets _ _ (λ b, length b = 128%nat)); intros w Hw; apply Hw|].
  intros b1 Hl1. cbv beta in Hl1, Hl2. destruct (memcmp_zero b2 b1 (Z.to_nat TEST_BUFFER_LEN)) as (r & -> & _);
    [unfold TEST_BUFFER_LEN; lia..|]. by keep_run.
Qed.

(** ** The clock *)

Lemma keeps_get_speed bus : keeps (dm_i2c_get_bus_speed bus) anything.
Proof using Hsane.
  unfold dm_i2c_get_bus_speed. destruct (get_bus_speed _) as [g|] eqn:Hg; [|by keep_step].
  apply keeps_hw'. intros h. by apply (sane_get_speed _ _ _ _ Hsane).
Qed.

Lemma keeps_set_speed bus v : keeps (dm_i2c_set_bus_speed bus v) anything.
Proof using Hsane.
  assert (keeps (_ ← modify (set_speed_hz bus v); mret 0) anything) as Hset.
  { eapply keeps_bind; [apply keeps_modify; intros w []; by split|]. intros _ _. by keep_step. }
  unfold dm_i2c_set_bus_speed. destruct (set_bus_speed _) as [g|] eqn:Hg; [|done].
  eapply keeps_bind; [apply keeps_hw'; intros h; by apply (sane_set_speed _ _ _ _ Hsane)|].
  intros r _. keep_step; [by keep_step|done].
Qed.

#[local] Hint Resolve keeps_get_speed keeps_set_speed : keeps.

Lemma keeps_bus_speed v : keeps (eBBTF_utils_i2c_bus_speed v) anything.
Proof using Hsane.
  unfold eBBTF_utils_i2c_bus_speed. eapply keeps_bind; [apply keeps_get_i2c_bus|].
  intros [bus|e] _; [|by keep_step]. keep_step. keep_step. keep_step. keep_step.
  apply keeps_bind with (P := anything); [by keep_run|]. intros _ _. by keep_step.
Qed.

Lemma keeps_rtc_report testId type addrs : keeps (rtc_report testId type addrs) anything.
Proof. unfold rtc_report. by keep_run. Qed.

#[local] Hint Resolve keeps_bus_speed keeps_rtc_report : keeps.

Lemma keeps_rtc_init testId addr bus speed : keeps (ds2321_rtc_init testId addr bus speed) anything.
Proof using Hsane.
  unfold ds2321_rtc_init. keep_step. keep_step. keep_step; [by keep_step|]. keep_step.
  keep_step; [by keep_step|]. eapply keeps_bind; [by apply keeps_i2c_read|].
  intros [st val] Hl. keep_step; [by keep_step|].
  eapply keeps_bind; [apply keeps_i2c_write; [done|rewrite length_fmap; cbn [snd] in Hl; by rewrite Hl]|].
  intros st' _. by keep_run.
Qed.

Lemma bcd2bin_small v : 0 ≤ wrap8 (bcd2bin (Z.land v 0x7f)) < 100.
Proof.
  pose proof (land_ones_range v 7 ltac:(lia)) as H. change (Z.ones 7) with 0x7f in H.
  change (2 ^ 7) with (Z.of_nat 128) in H. revert H. generalize (Z.land v 0x7f).
  apply (forall_below 128). repeat (constructor; [vm_compute; split; congruence|]). constructor.
Qed.

Lemma keeps_rtc_read testId bus addr reg :
  keeps (rtc_read_reg testId bus addr reg) (λ r, ∀ v, r = inl v → 0 ≤ v < 100).
Proof using Hsane.
  unfold rtc_read_reg. eapply keeps_bind; [by apply keeps_i2c_read|]. intros [st val] _.
  keep_step.
  - keep_step. by keep_step.
  - keep_step. intros v [= <-]. apply bcd2bin_small.
Qed.

Lemma keeps_rtc_write testId bus addr reg v :
  keeps (rtc_write_reg testId bus addr reg v) anything.
Proof using Hsane.
  unfold rtc_write_reg. eapply keeps_bind; [by apply keeps_i2c_write|]. intros st _. by keep_run.
Qed.

Lemma keeps_print_time hour min sec :
  0 ≤ hour < 100 → 0 ≤ min < 100 → 0 ≤ sec < 100 → keeps (print_time hour min sec) anything.
Proof.
  intros Hh Hm Hs w Hw. unfold wp. rewrite print_time_exact by done.
  split; [by apply quiet_emit|done].
Qed.

#[local] Hint Resolve keeps_rtc_init keeps_rtc_write : keeps.

Lemma keeps_rtc_get testId a : keeps (ds2321_rtc_get_time_test testId (Some a)) anything.
Proof using Hsane.
  unfold ds2321_rtc_get_time_test. keep_step. keep_step; [by keep_step|].
  eapply keeps_bind; [apply keeps_rtc_read|]. intros [sec|r] Hsec; [|by keep_step].
  eapply keeps_bind; [apply keeps_rtc_read|]. intros [min|r] Hmin; [|by keep_step].
  eapply keeps_bind; [apply keeps_rtc_read|]. intros [hour|r] Hhour; [|by keep_step].
  eapply keeps_bind; [apply keeps_print_time; auto|]. intros _ _. by keep_step.
Qed.

Lemma keeps_rtc_set testId a :
  0 ≤ st_sec_value a → 0 ≤ st_min_value a → 0 ≤ st_hour_value a →
  keeps (ds2321_rtc_set_time_test testId (Some a)) anything.
Proof using Hsane.
  intros Hs Hm Hh. unfold ds2321_rtc_set_time_test. keep_step; [by keep_run|].
  apply orb_false_iff in H as [[Hsec Hmin]%orb_false_iff Hhour].
  keep_step. keep_step; [by keep_step|].
  do 3 (keep_step; match goal with |- context [match ?r with Some _ => _ | None => _ end] =>
          destruct r; [by keep_step|] end).
  eapply keeps_bind; [apply keeps_print_time; lia|]. intros _ _. by keep_step.
Qed.

(** ** The bus scan *)

Lemma keeps_dm_probe bus addr fl : keeps (dm_i2c_probe bus addr fl) anything.
Proof using Hsane.
  assert (keeps (i2c_probe_chip bus addr fl) anything) as Hp.
  { assert (keeps (match xfer (i2c_get_ops bus) with
      | None => mret (- ENOSYS)
      | Some _ => '(ret, _) ← do_xfer bus [mkMsg addr
          (if nonzero (Z.land fl DM_I2C_CHIP_10BIT) then I2C_M_TEN else 0) 0 []]; mret ret
      end) anything) as Hm.
    { destruct (xfer _) as [f|] eqn:Hf; [|by keep_step].
      eapply keeps_bind; [by eapply keeps_do_xfer|]. intros [ret out] _. by keep_step. }
    unfold i2c_probe_chip. destruct (probe_chip _) as [g|] eqn:Hg; [|exact Hm].
    eapply keeps_bind; [apply keeps_hw'; intros h; by apply (sane_probe_chip _ _ _ _ Hsane)|].
    intros ret _. keep_step; [by keep_step|exact Hm]. }
  unfold dm_i2c_probe. eapply keeps_bind; [exact Hp|]. intros ret _. keep_step; [by keep_step|].
  intros w Hw. by apply wp_get_chip_ok.
Qed.

Lemma keeps_probe_address testId a n dev_id status :
  args_ok a n → keeps (probe_address testId a dev_id status) anything.
Proof using Hsane.
  intros Ha w Hw. unfold probe_address. apply wp_bind. eapply wp_find_expected; [done|].
  intros chip Hchip. apply keeps_at; [done|]. cbv beta iota.
  eapply keeps_bind; [apply keeps_get_i2c_bus|]. intros [bus|e] _; [|by keep_step].
  eapply keeps_bind; [apply keeps_dm_probe|]. intros r _. keep_step; [by keep_run|].
  keep_step; [|by keep_step]. apply andb_true_iff in H0 as [_ Hexp].
  destruct Ha as (_ & _ & _ & Hnames). specialize (Hchip Hexp).
  destruct (Hnames (Z.to_nat chip)) as (name & -> & Hnul & Hlen); [lia|]. keep_step.
  eapply keeps_bind; [eapply keeps_sprintf|].
  { unfold format. simpl c_str. cbn [String.length]. by rewrite vformat_str. }
  { simpl. by rewrite str_app_nil_r. }
  { simpl. by rewrite str_app_nil_r. }
  { simpl. rewrite str_app_nil_r. unfold INT_MAX, DIAG_DIM_STRING_EVENT in *. lia. }
  intros s _. by keep_run.
Qed.

Lemma keeps_I2C_interface testId a n :
  args_ok a n → keeps (I2C_interface_test testId (Some a)) anything.
Proof using Hsane.
  intros Ha. unfold I2C_interface_test. keep_step. keep_step; [by keep_run|].
  unfold MAX_I2C_DEVICE. eapply keeps_bind.
  { apply (keeps_for_loop _ (λ x, 0 ≤ x.1 ≤ 128) anything anything (λ x, Z.to_nat (128 - x.1)));
      [vm_compute; lia|done| |done].
    intros [dev_id st] Hd Hc. cbn [fst] in *. eapply keeps_bind; [by eapply keeps_probe_address|].
    intros [st'|r] _; keep_step; [|done]. rewrite wrap8_small by lia. cbn [fst]. lia. }
  intros [[d st]|r] _; by keep_step.
Qed.

(** ** Power rails *)

Lemma keeps_PWR_railings testId a : keeps (PWR_railings_test testId (Some a)) anything.
Proof using Hsane.
  unfold PWR_railings_test, PMIC_REGULATION_REGS. keep_step; [by keep_step|]. eapply keeps_bind.
  { apply (keeps_for_loop _ (λ v, 0 ≤ reg_cnt v ≤ 7 ∧ length (i2c_read_resp v) = 1%nat ∧
      length (pwr_ok v) = 1%nat) anything anything (λ v, Z.to_nat (7 - reg_cnt v)));
      [vm_compute; lia|done| |done].
    intros v (Hcnt & Hr & Hp) Hc. unfold rail_body.
    destruct (lookup_lt_is_Some_2 pmic_regulation_regs (Z.to_nat (reg_cnt v))) as [reg Hreg];
      [cbn [length pmic_regulation_regs]; lia|]. rewrite Hreg.
    eapply keeps_bind; [apply keeps_i2c_read; [done|by rewrite Hr]|]. intros [st resp] Hresp.
    keep_step; [by keep_step|].
    eapply keeps_bind; [apply keeps_i2c_read; [done|by rewrite Hp]|]. intros [st' ok] Hok.
    keep_step; [by keep_step|]. cbn [snd] in *. intros w Hw. apply wp_bind.
    apply wp_show_rail; [by eapply list_elem_of_lookup_2|]. intros vdd s.
    apply (keeps_at _ _ _ _ (quiet_emit s w Hw)). keep_step. cbn [reg_cnt i2c_read_resp pwr_ok].
    rewrite wrap8_small by lia. split_and!; [lia..|congruence|congruence|lia]. }
  intros [v|st] _; by keep_run.
Qed.

(** ** Ethernet *)

Lemma find_mii_member devs name dev : find_mii devs name = Some dev → dev ∈ devs.
Proof.
  induction devs as [|d devs IH]; simpl; [done|]. destruct (_ =? 0).
  - intros [= ->]. apply list_elem_of_here.
  - intros H. apply list_elem_of_further. auto.
Qed.

Lemma keeps_active_dev name :
  keeps (miiphy_get_active_dev name) (λ r, ∀ dev, r = Some dev → mii_dev_ok dev).
Proof.
  unfold miiphy_get_active_dev, miiphy_set_current_dev, miiphy_get_dev_by_name.
  eapply keeps_bind.
  { apply (keeps_gets _ _ (λ r, ∀ dev, r = Some dev → mii_dev_ok dev)). intros w Hw. apply Hw. }
  intros cur Hcur. cbv beta in Hcur.
  assert (keeps (ret ← (dev ← gets (λ w, find_mii (mii_devs (mii w)) name);
      match dev with
      | Some dev => _ ← set_current (Some dev); mret 0
      | None => _ ← printf ("No such device: %s" +:+ newline) [VStr (Some name)]; mret 1
      end); if nonzero ret then mret None else gets (λ w, current_mii (mii w)))
    (λ r, ∀ dev, r = Some dev → mii_dev_ok dev)) as Hswitch.
  { apply keeps_bind with (P := anything).
    - eapply keeps_bind; [apply (keeps_gets _ _ (λ r, ∀ dev, r = Some dev → mii_dev_ok dev))|].
      { intros w Hw dev Hd. apply find_mii_member in Hd.
        eapply Forall_forall; [apply (ok_mii _ Hw)|done]. }
      intros [dev|] Hd; [|by keep_run].
      eapply keeps_bind; [|intros _ _; by apply (keeps_ret _ _ anything)].
      apply keeps_modify. intros w []. by split.
    - intros ret _. keep_step; [by keep_step|]. apply keeps_gets. intros w Hw. apply Hw. }
  destruct cur as [dev|]; [|exact Hswitch]. keep_step; [|exact Hswitch]. by keep_step.
Qed.

Lemma keeps_miiphy_read name addr reg v : keeps (miiphy_read name addr reg v) anything.
Proof using Hsane.
  unfold miiphy_read. eapply keeps_bind; [apply keeps_active_dev|].
  intros [dev|] Hd; [|by keep_step]. destruct (Hd dev eq_refl) as [-> _].
  eapply keeps_bind; [apply keeps_hw'; intros h; apply (sane_mdio_read _ _ _ _ Hsane)|].
  intros r _. by keep_run.
Qed.

Lemma keeps_miiphy_write name addr reg v : keeps (miiphy_write name addr reg v) anything.
Proof using Hsane.
  unfold miiphy_write. eapply keeps_bind; [apply keeps_active_dev|].
  intros [dev|] Hd; [|by keep_step]. destruct (Hd dev eq_refl) as [_ ->].
  apply keeps_hw'. intros h. apply (sane_mdio_write _ _ _ _ Hsane).
Qed.

Lemma keeps_wait_2s : keeps wait_2s anything.
Proof using Hsane.
  unfold wait_2s. eapply keeps_bind; [|intros _ _; by apply (keeps_ret _ _ anything)].
  apply (keeps_for_loop _ (λ d, 0 ≤ d ≤ 200) anything anything (λ d, Z.to_nat (200 - d)));
    [vm_compute; lia|done| |done].
  intros d Hd Hc. eapply keeps_bind.
  - apply keeps_hw_do'. intros h. apply (sane_udelay _ _ _ _ Hsane).
  - intros _ _. keep_step. lia.
Qed.

Lemma keeps_eth_event testId type : keeps (eth_event testId type) anything.
Proof. unfold eth_event. by keep_run. Qed.

#[local] Hint Resolve keeps_miiphy_read keeps_miiphy_write keeps_wait_2s keeps_eth_event : keeps.

Lemma keeps_eth_mode a title mode mismatch v :
  fmt_accepts title [] = true → keeps mismatch anything →
  keeps (eth_mode a title mode mismatch v) anything.
Proof using Hsane.
  intros Ht Hm. unfold eth_mode. eapply keeps_bind; [by apply keeps_printf; [apply _|]|]. intros _ _.
  do 5 keep_step. eapply keeps_bind; [apply keeps_miiphy_read|]. intros [? sts] _.
  keep_step; [|by keep_run]. eapply keeps_bind; [apply keeps_miiphy_read|]. intros [? adv] _.
  eapply keeps_bind; [apply keeps_miiphy_read|]. intros [? lp] _.
  keep_step; [by keep_run|]. eapply keeps_bind; [exact Hm|]. intros r _. by keep_step.
Qed.

Lemma keeps_only_print text : fmt_accepts text [] = true → keeps (only_print text) anything.
Proof.
  intros Ht. unfold only_print. eapply keeps_bind; [by apply keeps_printf; [apply _|]|]. intros _ _.
  by keep_step.
Qed.

Lemma keeps_print_and_fail testId text :
  fmt_accepts text [] = true → keeps (print_and_fail testId text) anything.
Proof.
  intros Ht. unfold print_and_fail. eapply keeps_bind; [by apply keeps_printf; [apply _|]|]. intros _ _.
  by keep_run.
Qed.

Lemma keeps_Ethernet testId a : keeps (Ethernet_test testId (Some a)) anything.
Proof using Hsane.
  unfold Ethernet_test. keep_step; [by keep_step|]. keep_step.
  eapply keeps_bind; [apply keeps_miiphy_read|]. intros [? sts] _.
  keep_step; [by keep_run|].
  eapply keeps_bind; [apply keeps_eth_mode; [done|by apply keeps_only_print]|].
  intros [v [r|]] _; [by keep_step|].
  do 3 (eapply keeps_bind; [apply keeps_eth_mode; [done|by apply keeps_print_and_fail]|];
        let v' := fresh in intros [v' [r'|]] _; [by keep_step|]).
  by keep_run.
Qed.

(** ** Ping *)

Lemma keeps_ping testId text :
  no_nul text → slen text < 200 → keeps (ping_test testId (Some (mkPingArgs (Some text)))) anything.
Proof using Hsane.
  intros Hn Hl w Hw. eapply wp_mono.
  { eapply wp_ping_test; [done|done|]. intros _.
    apply (wp_net_loop (Hport := sane_port _ _ _ _ Hsane (string_to_ip (Some text))) (rest w)); [|done].
    destruct Hw. split; try done. by apply stack_ping. }
  intros r w' [(s & _ & _ & ->)|(s & ret & w1 & _ & [Hi _] & -> & _)]; split; try done.
  - apply quiet_emit. destruct Hw. split; try done. by apply stack_ping.
  - apply quiet_emit. destruct Hw, Hi as [? [= Hi2c Hee Hnor Hmmc Hmii] ? ?].
    split; unfold children; rewrite ?Hi2c, ?Hee, ?Hnor, ?Hmmc, ?Hmii; done.
Qed.

(** ** MMC *)

(** Finding a controller: it has a base address. *)
Lemma keeps_find_mmc k : keeps (find_mmc_device k) (λ p, ∀ m, p = Some m → m = k ∧ is_Some (base k)).
Proof using Hsane.
  unfold find_mmc_device. eapply keeps_bind.
  { apply (keeps_gets _ _ (λ d, priv_base <$> d = base k)). intros w Hw.
    apply (sane_base _ _ _ _ Hsane), Hw. }
  intros [d|] Hd; cbv beta in Hd; keep_run; intros m; [|done]. intros [= <-]. rewrite <- Hd.
  split; [done|by eexists].
Qed.

Lemma keeps_mmc_struct m : is_Some (base m) → keeps (mmc_struct m) anything.
Proof using Hsane.
  intros Hm. unfold mmc_struct. eapply keeps_bind.
  { apply (keeps_gets _ _ is_Some). intros w Hw.
    rewrite <- (sane_base _ _ _ _ Hsane m (hw w)) in Hm by apply Hw.
    by rewrite fmap_is_Some in Hm. }
  intros d [d' ->]. by keep_step.
Qed.

Lemma keeps_set_pmmc p : keeps (set_pmmc p) anything.
Proof.
  intros w Hw. unfold set_pmmc, set_param. apply wp_bind, wp_gets, wp_modify.
  split; [|done]. destruct Hw. by split.
Qed.

Lemma keeps_set_curr_device k : 0 ≤ k < 16 → keeps (set_curr_device k) anything.
Proof.
  intros Hk w Hw. unfold set_curr_device, set_param. apply wp_bind, wp_gets, wp_modify.
  split; [|done]. destruct Hw. by split.
Qed.

Lemma keeps_find_port addr : keeps (find_port addr) (λ r, ∀ k, r = Some k → is_Some (base k)).
Proof using Hsane.
  unfold find_port, MAX_SDHC_CONTROLLERS. eapply keeps_bind.
  { apply (keeps_for_loop _ (λ k, 0 ≤ k ≤ 16) anything (λ k, is_Some (base k))
      (λ k, Z.to_nat (16 - k))); [vm_compute; lia|done| |done].
    intros k Hk Hc. cbv beta in Hc. eapply keeps_bind; [apply keeps_find_mmc|]. intros p Hp.
    eapply keeps_bind; [apply keeps_set_pmmc|]. intros _ _.
    destruct p as [m|]; [|keep_step; rewrite wrap8_small; lia].
    destruct (Hp m eq_refl) as [-> Hb].
    eapply keeps_bind; [by apply keeps_mmc_struct|]. intros d _. keep_step.
    - eapply keeps_bind; [apply keeps_set_curr_device|].
      { unfold sign. rewrite Z.mod_small by lia. change (2 ^ (8 - 1)) with 128.
        destruct (Z.ltb_spec k 128); lia. }
      intros _ _. keep_step. by keep_step.
    - keep_step. rewrite wrap8_small; lia. }
  intros [k|k] H; keep_step; [done|]. by intros k' [= <-].
Qed.

Lemma keeps_mmc_event testId type addrs s : keeps (mmc_event testId type addrs s) anything.
Proof. unfold mmc_event. by keep_run. Qed.

#[local] Hint Resolve keeps_mmc_event : keeps.

Lemma keeps_MMC_Detection testId a : keeps (MMC_Detection_Test testId (Some a)) anything.
Proof using Hsane.
  unfold MMC_Detection_Test, MMC_Dev_Init.
  eapply keeps_bind; [apply keeps_find_port|]. intros [k|] Hk; [|by keep_run].
  eapply keeps_bind; [apply keeps_hw'; intros h; apply (sane_reinit _ _ _ _ Hsane)|]. intros r _.
  keep_step; [by keep_run|]. keep_step.
  eapply keeps_bind; [by apply keeps_mmc_struct, Hk|]. intros d _.
  eapply keeps_bind; [apply (keeps_gets _ _ (λ q, 0 ≤ curr_device q < 16)); intros w Hw; apply Hw|].
  intros q Hq. destruct (detected_text (is_sd d) (curr_device q)) as (s & Hs & Hn & Hl);
    [cbv beta in Hq; lia|].
  eapply keeps_bind; [eapply keeps_sprintf; [exact Hs|done|done|]|intros ? _; by keep_run].
  unfold INT_MAX, DIAG_DIM_STRING_EVENT in *. lia.
Qed.

Lemma keeps_MMC_WRITE_READ testId a : keeps (MMC_WRITE_READ_Test testId (Some a)) anything.
Proof. by apply keeps_ret. Qed.

(** ** NOR flash *)

(** Code that keeps the machine sane; [P] speaks of the value and of the
    time spent. *)
Definition spends {A} (m : M A) (P : A → Z → Prop) : Prop :=
  ∀ w, machine_ok w →
  wp m (λ a w', machine_ok w' ∧ P a (ticks (hw w') - ticks (hw w))) w.

Lemma spends_ret {A} (a : A) (P : A → Z → Prop) : P a 0 → spends (mret a) P.
Proof. intros Ha w Hw. apply wp_ret. by rewrite Z.sub_diag. Qed.

Lemma spends_bind {A B} (m : M A) (f : A → M B) P Q :
  spends m P → (∀ a d, P a d → spends (f a) (λ b e, Q b (d + e))) → spends (m ≫= f) Q.
Proof.
  intros Hm Hf w Hw. apply wp_bind. eapply wp_mono; [by apply Hm|]. intros a w1 [Hw1 Ha].
  eapply wp_mono; [by eapply Hf|]. cbv beta. intros b w2 [Hw2 Hb]. split; [done|].
  by replace (_ - _ + _) with (ticks (hw w2) - ticks (hw w)) in Hb by lia.
Qed.

Lemma spends_if {A} (b : bool) (m m' : M A) P :
  (b = true → spends m P) → (b = false → spends m' P) → spends (if b then m else m') P.
Proof. destruct b; auto. Qed.

Lemma spends_hw {A} (f : HW → A * HW) P :
  (∀ h, sane h → sane (f h).2 ∧ P (f h).1 (ticks (f h).2 - ticks h)) → spends (hw_call f) P.
Proof.
  intros Hf w Hw. apply wp_hw_call. destruct (Hf (hw w)) as [Hs HP]; [apply Hw|].
  split; [by apply machine_with_hw|done].
Qed.

Lemma spends_keeps {A} (m : M A) P (Q : A → Prop) :
  spends m P → (∀ a d, P a d → Q a) → keeps m Q.
Proof. intros Hm HPQ w Hw. eapply wp_mono; [by apply Hm|]. intros a w' [Hw' Ha]. eauto. Qed.

(** An operation on the bus: the buffer keeps its size, and one that goes
    through takes time. *)
Lemma spends_exec_op nor op :
  data_nbytes op ≤ Z.of_nat (length (data_bytes op)) →
  spends (spi_mem_exec_op nor op) (λ r d, length r.2 = length (data_bytes op) ∧ r.1 ≤ 0 ∧
    0 ≤ d ≤ 8000000 ∧ (r.1 = 0 → 1 ≤ d)).
Proof using Hsane.
  intros Hn. unfold spi_mem_exec_op. apply spends_if; intros _; [by apply spends_ret|].
  eapply spends_bind.
  { apply (spends_hw _ (λ _ d, 0 ≤ d ≤ 2000000)). intros h Hh.
    destruct (sane_claim _ _ _ _ Hsane h Hh) as [Hs Ht]. unfold takes in Ht. split; [done|lia]. }
  intros c d1 Hd1. cbv beta in Hd1. apply spends_if; intros Hc; [apply spends_ret; cbn; lia|].
  eapply spends_bind.
  { apply (spends_hw _ (λ r d, r ≤ 0 ∧ 1 ≤ d ≤ 2000000)). intros h Hh.
    edestruct (sane_send _ _ _ _ Hsane) as (Hs & Hr & Ht); [done|]. unfold takes in Ht.
    split; [done|]. split; [done|lia]. }
  intros r d2 [Hr Hd2]. apply spends_if; intros _; [apply spends_ret; cbn; lia|].
  eapply spends_bind with (P := λ x d, length x.2 = length (data_bytes op) ∧ x.1 ≤ 0 ∧
    0 ≤ d ≤ 2000000).
  { apply spends_if; intros _; [|by apply spends_ret]. unfold spi_mem_data_phase.
    destruct (Nat.ltb_spec (length (data_bytes op)) (Z.to_nat (data_nbytes op))); [lia|].
    destruct (data_dir op).
    - eapply spends_bind.
      { apply (spends_hw _ (λ x d, x.1 ≤ 0 ∧ 0 ≤ d ≤ 2000000)). intros h Hh.
        edestruct (sane_receive _ _ _ _ Hsane) as (Hs & Hx & Ht); [done|]. unfold takes in Ht.
        split; [done|]. split; [done|lia]. }
      intros [x bytes] d [Hx Hd]. apply spends_ret. cbn [fst snd] in *. split; [|lia].
      rewrite length_app, length_drop, length_take. lia.
    - eapply spends_bind.
      { apply (spends_hw _ (λ x d, x ≤ 0 ∧ 0 ≤ d ≤ 2000000)). intros h Hh.
        edestruct (sane_send _ _ _ _ Hsane) as (Hs & Hx & Ht); [done|]. unfold takes in Ht.
        split; [done|]. split; [done|lia]. }
      intros x d [Hx Hd]. apply spends_ret. cbn [fst snd]. split; [done|lia]. }
  intros [x buf] d3 (Hl & Hx & Hd3). cbn [fst snd] in *.
  apply spends_if; intros _; [apply spends_ret; cbn; lia|].
  intros w Hw. apply wp_bind, wp_hw_do, wp_ret. cbn [hw with_hw fst snd].
  destruct (sane_release _ _ _ _ Hsane (hw w)) as [Hs Ht]; [apply Hw|]. unfold takes in Ht.
  split; [by apply machine_with_hw|]. split; [done|lia].
Qed.

Lemma spends_read_byte code nor :
  spends (read_byte_reg code nor) (λ r d, 0 ≤ d ≤ 8000000 ∧ (0 ≤ r → 1 ≤ d)).
Proof using Hsane.
  unfold read_byte_reg, spi_nor_read_reg. eapply spends_bind; [by apply spends_exec_op|].
  intros [ret val] d (Hl & Hr & Hd & Hp). cbn [fst snd data_bytes] in *.
  apply spends_if; intros Hneg; [apply spends_ret; lia|]. destruct val; [done|].
  apply spends_ret. lia.
Qed.

Lemma spends_write_reg nor code :
  spends (spi_nor_write_reg nor code [] 0) (λ _ d, 0 ≤ d ≤ 8000000).
Proof using Hsane.
  unfold spi_nor_write_reg. eapply spends_bind; [by apply spends_exec_op|].
  intros [ret val] d (Hl & Hr & Hd & Hp). apply spends_ret. lia.
Qed.

Lemma spends_ready nor :
  spends (spi_nor_ready nor) (λ r d, 0 ≤ d ≤ 32000000 ∧ (r = 0 → 1 ≤ d)).
Proof using Hsane.
  unfold spi_nor_ready, spi_nor_sr_ready, spi_nor_fsr_ready, read_sr, read_fsr.
  eapply spends_bind with (P := λ r d, 0 ≤ d ≤ 16000000 ∧ (0 ≤ r → 1 ≤ d)).
  { eapply spends_bind; [apply spends_read_byte|]. intros sr d [Hd Hp]. cbv beta in *.
    apply spends_if; intros Hsr; [apply spends_ret; lia|]. apply spends_if; intros _.
    - eapply spends_bind; [apply spends_write_reg|]. intros ? e He. cbv beta in He.
      apply spends_ret. unfold EIO. lia.
    - apply spends_ret. lia. }
  intros sr d [Hd Hp]. apply spends_if; intros Hsr; [apply spends_ret; lia|].
  eapply spends_bind with (P := λ _ d, 0 ≤ d ≤ 16000000).
  { apply spends_if; intros _; [|by apply spends_ret].
    eapply spends_bind; [apply spends_read_byte|]. intros fsr e [He _].
    apply spends_if; intros _; [apply spends_ret; lia|]. apply spends_if; intros _.
    - eapply spends_bind; [apply spends_write_reg|]. intros ? e' He'. cbv beta in He'.
      apply spends_ret. lia.
    - apply spends_ret. lia. }
  intros fsr e He. cbv beta in He. apply spends_if; intros _; apply spends_ret; lia.
Qed.

(** The timer against the time base taken at [t0]. *)
Lemma timer_elapsed t0 t :
  t0 ≤ t ≤ t0 + 2 ^ 40 → wrap32 (t / 1000 - wrap32 (t0 / 1000)) = t / 1000 - t0 / 1000.
Proof. intros Ht. unfold wrap32. rewrite Zminus_mod_idemp_r. apply Z.mod_small. lia. Qed.

(** Every poll takes time and the timer runs, so the flash is found ready or
    the time is out before [fuel] polls. *)
Lemma wp_ready_loop_ok nor t0 fuel w :
  machine_ok w → t0 ≤ ticks (hw w) ≤ t0 + 76000000 →
  100000000 ≤ Z.of_nat fuel + (ticks (hw w) - t0) →
  wp (ready_loop fuel nor (wrap32 (t0 / 1000)) DEFAULT_READY_WAIT_JIFFIES)
    (λ _ w', machine_ok w') w.
Proof using Hsane.
  unfold DEFAULT_READY_WAIT_JIFFIES. revert w. induction fuel as [|fuel IH]; intros w Hw Ht Hf; [lia|].
  cbn [ready_loop]. apply wp_bind, wp_hw_call.
  destruct (sane_timer (wrap32 (t0 / 1000)) (hw w)) as (Hs & Htk & Hv); [apply Hw|].
  rewrite Hv, timer_elapsed by lia. unfold takes in Htk.
  destruct (Z.ltb_spec (ticks (hw w) / 1000 - t0 / 1000) (40 * 1000)) as [Hlt|Hge];
    [|by apply wp_ret, machine_with_hw].
  apply wp_bind. eapply wp_mono; [by apply spends_ready, machine_with_hw|].
  cbn [hw with_hw]. intros r w2 (Hw2 & Hd & Hp).
  destruct (Z.ltb_spec r 0); [by apply wp_ret|]. destruct (nonzero r) eqn:Hr; [by apply wp_ret|].
  apply nonzero_false in Hr. specialize (Hp Hr). apply IH; [done|lia..].
Qed.

Lemma keeps_wait_ready nor : keeps (spi_nor_wait_till_ready nor) anything.
Proof using Hsane.
  intros w Hw. unfold spi_nor_wait_till_ready, spi_nor_wait_till_ready_with_timeout.
  generalize (Z.to_nat POLLS) POLLS_val. intros polls Hpolls. apply wp_bind, wp_hw_call.
  destruct (sane_timer 0 (hw w)) as (Hs & Ht & Hv); [apply Hw|].
  rewrite Hv, Z.sub_0_r. unfold takes in Ht.
  eapply wp_mono; [apply wp_ready_loop_ok; [by apply machine_with_hw|cbn [hw with_hw]; lia..]|].
  by intros r w' Hw'.
Qed.

Lemma keeps_exec_op nor op :
  data_nbytes op ≤ Z.of_nat (length (data_bytes op)) →
  keeps (spi_mem_exec_op nor op) (λ r, length r.2 = length (data_bytes op) ∧ r.1 ≤ 0).
Proof using Hsane.
  intros Hn. eapply spends_keeps; [by apply spends_exec_op|]. by intros a d (Hl & Hr & _).
Qed.

Lemma keeps_write_reg nor code : keeps (spi_nor_write_reg nor code [] 0) anything.
Proof using Hsane. by eapply spends_keeps; [apply spends_write_reg|]. Qed.

#[local] Hint Resolve keeps_wait_ready keeps_write_reg : keeps.

(** Fitting a read or a write to the controller leaves between one byte and
    what was asked for, or is refused. *)
Lemma adjust_bounds nor op :
  nor_usable nor → 0 < data_nbytes op →
  ((spi_mem_adjust_op_size nor op).1 < 0 ∨
   (spi_mem_adjust_op_size nor op).1 = 0 ∧
   ∃ n, (spi_mem_adjust_op_size nor op).2 = with_nbytes n op ∧ 1 ≤ n ≤ data_nbytes op) ∧
  data_bytes (spi_mem_adjust_op_size nor op).2 = data_bytes op.
Proof.
  intros Hu Hn. pose proof (usable_max_read _ Hu). pose proof (usable_max_write _ Hu).
  destruct op as [cb co an ab av dn db dw dd n bytes]. cbn in Hn.
  unfold spi_mem_adjust_op_size, nonzero, with_nbytes. cbn. unfold EINVAL.
  destruct (Z.eqb_spec (max_write_size nor) 0) as [Hw|Hw], (Z.eqb_spec (max_read_size nor) 0) as [Hr|Hr];
    cbn; try (destruct (Z.ltb_spec (max_write_size nor) (1 + an + dn)); cbn; [split; [left; lia|done]|]);
    destruct dd; cbn; match goal with |- context [?x =? 0] => destruct (Z.eqb_spec x 0) end; cbn;
    (split; [|done]); first [left; lia|right; split; [done|]; eexists; split; [done|lia]].
Qed.

(** Reading: all [len] bytes, or a code that is not positive; the buffer
    keeps its size. *)
Lemma keeps_read_data_loop nor fuel op remaining len done :
  nor_usable nor → data_dir op = SPI_MEM_DATA_IN → (Z.to_nat remaining < fuel)%nat →
  0 ≤ remaining ≤ Z.of_nat (length (data_bytes op)) →
  keeps (read_data_loop fuel nor op remaining len done)
    (λ r, length r.2 = (length done + length (data_bytes op))%nat ∧ (r.1 ≤ 0 ∨ r.1 = sign 32 len)).
Proof using Hsane.
  intros Hu. revert op remaining done. induction fuel as [|fuel IH]; intros op remaining done Hdir Hf Hr; [lia|].
  cbn [read_data_loop]. keep_step; [|keep_step; cbn [fst snd]; rewrite length_app; auto].
  apply nonzero_true in H.
  destruct (adjust_bounds nor (with_nbytes remaining op) Hu) as [Hadj Hbytes]; [cbn; lia|].
  destruct (spi_mem_adjust_op_size nor (with_nbytes remaining op)) as [ret op'].
  cbn [fst snd data_bytes with_nbytes data_nbytes] in *.
  destruct Hadj as [Hneg|(-> & n & -> & Hn)].
  { rewrite (proj2 (nonzero_true ret)) by lia. keep_step. cbn [fst snd].
    rewrite length_app, Hbytes. split; [done|lia]. }
  change (nonzero 0) with false. cbv iota.
  eapply keeps_bind; [apply keeps_exec_op; cbn; lia|]. intros [ret buf] [Hl Hle].
  cbn [fst snd data_bytes with_nbytes data_nbytes] in *. keep_step.
  - keep_step. cbn [fst snd]. rewrite length_app. lia.
  - eapply keeps_mono; [apply IH; [done|lia|cbn [data_bytes]; rewrite length_drop; lia]|].
    intros [r b] [Hlen Hcode]. cbn [fst snd data_bytes] in *. split; [|done].
    rewrite Hlen, length_app, length_take, length_drop. lia.
Qed.

Lemma keeps_spi_flash_read nor offset len buf :
  nor_usable nor → 0 ≤ len < 2 ^ 31 → len ≤ Z.of_nat (length buf) →
  keeps (spi_flash_read nor offset len buf) (λ r, length r.2 = length buf).
Proof using Hsane.
  intros Hu Hlen Hbuf. unfold spi_flash_read, spi_flash_read_dm, spi_flash_std_read, spi_nor_read.
  rewrite (wrap32_small len) by lia. cbn [read_loop]. keep_step; [|by keep_step].
  apply nonzero_true in H. eapply keeps_bind; [apply keeps_read_data_loop; [done|done|lia|cbn; lia]|].
  intros [ret b] [Hl Hcode]. cbn [fst snd data_bytes length app] in *. rewrite sign32_small in Hcode by lia.
  keep_step; [by keep_step|]. keep_step; [by keep_step|].
  destruct Hcode as [Hcode| ->]; [lia|]. rewrite Z.sub_diag. change (wrap32 0) with 0.
  destruct (Z.to_nat len) as [|k] eqn:Hk; [lia|]. cbn [read_loop]. change (nonzero 0) with false.
  cbv iota. keep_step. cbn [fst snd]. rewrite length_app, length_take, length_drop. lia.
Qed.

(** Erasing terminates: the length is a multiple of the sector size. *)
Lemma keeps_erase_loop nor fuel addr k ret :
  nor_usable nor → (Z.to_nat (k * erasesize nor) < fuel)%nat →
  0 ≤ k → k * erasesize nor < 2 ^ 32 →
  keeps (erase_loop fuel nor addr (k * erasesize nor) ret) anything.
Proof using Hsane.
  intros Hu. pose proof (usable_erase _ Hu) as He. revert addr k ret.
  induction fuel as [|fuel IH]; intros addr k ret Hf Hk Hlen; [lia|]. cbn [erase_loop].
  keep_step; [|by keep_step]. apply nonzero_true in H. unfold write_enable, spi_nor_erase_sector.
  assert (0 < k) by nia. keep_step.
  eapply keeps_bind; [eapply keeps_bind; [by apply keeps_exec_op|]|].
  { intros [r b] _. by apply (keeps_ret _ _ anything). }
  intros r _. keep_step; [by keep_step|]. keep_step. keep_step; [by keep_step|].
  replace (k * erasesize nor - erasesize nor) with ((k - 1) * erasesize nor) by lia.
  rewrite (wrap32_small ((k - 1) * _)) by nia. apply IH; lia.
Qed.

Lemma keeps_spi_flash_erase nor offset len :
  nor_usable nor → keeps (spi_flash_erase nor offset len) anything.
Proof using Hsane.
  intros Hu. pose proof (usable_erase _ Hu) as He.
  unfold spi_flash_erase, spi_flash_erase_dm, spi_flash_std_erase, spi_nor_erase, write_disable.
  pose proof (wrap32_range len) as Hl. set (n := wrap32 len) in *.
  rewrite (proj2 (Z.eqb_neq (erasesize nor) 0)) by lia. keep_step; [by keep_run|].
  keep_step; [by keep_step|]. keep_step; [by keep_step|].
  apply nonzero_false in H1. apply Z.mod_divide in H1 as [k Hk]; [|lia]. rewrite Hk in *.
  eapply keeps_bind; [apply keeps_erase_loop; [done|lia|nia|lia]|]. intros r _. by keep_run.
Qed.

(** An address is less than a page away from the start of its page. *)
Lemma keeps_page_offset nor addr :
  nor_usable nor → 0 ≤ addr → keeps (page_offset nor addr) (λ off, 0 ≤ off < page_size nor).
Proof.
  intros Hu Ha. pose proof (usable_page _ Hu) as Hp. unfold page_offset. keep_step.
  - keep_step. assert (Z.land addr (page_size nor - 1) ≤ page_size nor - 1).
    { rewrite <- (Z2N.id addr), <- (Z2N.id (page_size nor - 1)) by lia.
      rewrite <- N2Z.inj_land. apply N2Z.inj_le, N.land_le_r. }
    assert (0 ≤ Z.land addr (page_size nor - 1)) by (apply Z.land_nonneg; by left). lia.
  - rewrite (proj2 (Z.eqb_neq (page_size nor) 0)) by lia. keep_step. apply Z.mod_pos_bound. lia.
Qed.

(** Writing: between one and [len] bytes, or a negative code. *)
Lemma keeps_write_data nor to len buf :
  nor_usable nor → 0 < len < 2 ^ 31 → len ≤ Z.of_nat (length buf) →
  keeps (spi_nor_write_data nor to len buf) (λ r, r ≤ len ∧ r ≠ 0).
Proof using Hsane.
  intros Hu Hlen Hbuf. unfold spi_nor_write_data.
  match goal with |- context [spi_mem_adjust_op_size nor ?op] => set (o := op) end.
  destruct (adjust_bounds nor o Hu) as [Hadj Hbytes]; [unfold o; cbn; lia|].
  destruct (spi_mem_adjust_op_size nor o) as [ret op']. unfold o in *. clear o.
  cbn [fst snd data_bytes data_nbytes] in *.
  destruct Hadj as [Hneg|(-> & n & -> & Hn)].
  { rewrite (proj2 (nonzero_true ret)) by lia. keep_step. lia. }
  change (nonzero 0) with false. cbn [with_nbytes data_nbytes].
  replace (if len <? n then len else n) with n by (destruct (Z.ltb_spec len n); lia).
  eapply keeps_bind; [apply keeps_exec_op; cbn; lia|]. intros [ret b] [_ Hle]. cbn [fst] in Hle.
  keep_step; keep_step; [apply nonzero_true in H; lia|]. rewrite sign32_small; lia.
Qed.

Lemma keeps_write_loop nor fuel to i len buf ret :
  nor_usable nor → 0 ≤ to → (Z.to_nat (len - i) < fuel)%nat → 0 ≤ i ≤ len → len < 2 ^ 31 →
  len ≤ Z.of_nat (length buf) → keeps (write_loop fuel nor to i len buf ret) anything.
Proof using Hsane.
  intros Hu Hto. revert i ret. induction fuel as [|fuel IH]; intros i ret Hf Hi Hlen Hbuf; [lia|].
  pose proof (usable_page _ Hu) as Hp. cbn [write_loop]. unfold write_enable.
  keep_step; [|by keep_step]. eapply keeps_bind; [by apply keeps_page_offset; [|lia]|].
  intros off Hoff. cbv beta in Hoff. rewrite (wrap32_small (page_size nor - off)) by lia. keep_step.
  eapply keeps_bind; [apply keeps_write_data; [done|lia|rewrite length_drop; lia]|].
  intros n Hn. cbv beta in Hn. keep_step; [by keep_step|]. keep_step. keep_step; [by keep_step|].
  rewrite (wrap32_small (i + n)) by lia. apply IH; lia.
Qed.

Lemma keeps_spi_flash_write nor offset len buf :
  nor_usable nor → 0 ≤ len < 2 ^ 31 → len ≤ Z.of_nat (length buf) →
  keeps (spi_flash_write nor offset len buf) anything.
Proof using Hsane.
  intros Hu Hlen Hbuf. pose proof (wrap32_range offset).
  unfold spi_flash_write, spi_flash_write_dm, spi_flash_std_write, spi_nor_write.
  rewrite (wrap32_small len) by lia. keep_step; [by keep_step|].
  apply keeps_write_loop; [done|lia..].
Qed.

Lemma keeps_show_step fmt offset len ret :
  In fmt [read_fmt; erase_fmt; write_fmt; wipe_fmt] → keeps (show_step fmt offset len ret) anything.
Proof.
  intros Hin. apply keeps_printf; [apply _|]. by destruct Hin as [<-|[<-|[<-|[<-|[]]]]].
Qed.

#[local] Hint Extern 1 (keeps (show_step _ _ _ _) _) => apply keeps_show_step; cbn; tauto : keeps.

Lemma wp_erase_read_write_ok offset len w :
  machine_ok w → (∃ f, flash (nor w) = Some f ∧ nor_usable f) → 0 ≤ len ≤ SPI_TEST_LEN →
  wp (spi_flash_erase_read_write offset len) (λ _ w', machine_ok w' ∧ True) w.
Proof using Hsane.
  intros Hw (f & Hf & Hu) Hlen. assert (SPI_TEST_LEN < 2 ^ 31) as Hlt by (unfold SPI_TEST_LEN; lia).
  assert (∀ buf : list Z, Z.of_nat (length buf) = SPI_TEST_LEN →
    keeps (spi_flash_read f offset len buf) (λ r, Z.of_nat (length r.2) = SPI_TEST_LEN)) as Hread.
  { intros buf Hb. eapply keeps_mono; [by apply keeps_spi_flash_read; [|lia..]|].
    cbv beta. intros r ->. done. }
  assert (∀ b, Z.of_nat (length b) = SPI_TEST_LEN → keeps (set_nor_buf1 b) anything) as Hset1.
  { intros b Hb. apply keeps_modify. intros w' []. by split. }
  assert (∀ b, Z.of_nat (length b) = SPI_TEST_LEN → keeps (set_nor_buf2 b) anything) as Hset2.
  { intros b Hb. apply keeps_modify. intros w' []. by split. }
  assert (keeps (gets (λ w, data_test_buf1 (nor w))) (λ b, Z.of_nat (length b) = SPI_TEST_LEN)) as Hget1.
  { apply keeps_gets. intros w' []. done. }
  assert (keeps (gets (λ w, data_test_buf2 (nor w))) (λ b, Z.of_nat (length b) = SPI_TEST_LEN)) as Hget2.
  { apply keeps_gets. intros w' []. done. }
  unfold spi_flash_erase_read_write. apply wp_bind, wp_gets. rewrite Hf. apply wp_bind, wp_deref.
  apply keeps_at; [done|]. keep_step; [by keep_run|].
  eapply keeps_bind; [exact Hget1|]. intros b1 Hb1.
  eapply keeps_bind; [by apply Hread|]. intros [r1 b1'] Hb1'.
  eapply keeps_bind; [by apply Hset1|]. intros _ _. keep_step. keep_step; [by keep_step|].
  eapply keeps_bind; [by apply keeps_spi_flash_erase|]. intros r2 _. keep_step. keep_step; [by keep_step|].
  eapply keeps_bind; [exact Hget1|]. intros b2 Hb2. cbv beta in Hb2.
  eapply keeps_bind; [by apply keeps_spi_flash_write; [|lia..]|]. intros r3 _.
  keep_step. keep_step; [by keep_step|].
  eapply keeps_bind; [exact Hget2|]. intros b3 Hb3.
  eapply keeps_bind; [by apply Hread|]. intros [r4 b3'] Hb3'.
  eapply keeps_bind; [by apply Hset2|]. intros _ _. keep_step.
  eapply keeps_bind; [by apply keeps_spi_flash_erase|]. intros r5 _. keep_step. keep_step; [by keep_step|].
  eapply keeps_bind; [exact Hget1|]. intros b5 Hb5.
  eapply keeps_bind; [exact Hget2|]. intros b6 Hb6. cbv beta in Hb5, Hb6.
  destruct (memcmp_zero b5 b6 (Z.to_nat SPI_TEST_LEN)) as (r & -> & _); [lia..|]. by keep_run.
Qed.

Lemma keeps_spi_pins : keeps spi_pin_mux_cfg anything.
Proof using Hsane. unfold spi_pin_mux_cfg, writel. by keep_run. Qed.

Lemma keeps_nor_failed testId a : keeps (nor_failed testId a) anything.
Proof using Hsane.
  unfold nor_failed. keep_step. keep_step. eapply keeps_bind; [apply keeps_spi_pins|].
  intros _ _. by keep_step.
Qed.

(** Initialisation fails, or leaves a usable flash. *)
Lemma wp_nor_init_ok bus cs w (Q : Z → world → Prop) :
  machine_ok w → (∀ w', machine_ok w' → Q (-1) w') →
  (∀ f w', machine_ok w' → flash (nor w') = Some f → nor_usable f → Q 0 w') →
  wp (spi_nor_init bus cs) Q w.
Proof using Hsane.
  intros Hw Hbad Hgood.
  assert (∀ f, keeps (set_flash f) anything) as Hset.
  { intros f. apply keeps_modify. intros w' []. by split. }
  unfold spi_nor_init. apply wp_bind.
  eapply wp_mono; [apply (keeps_hw' (spi_find_bus_and_cs bus cs)); [|done]|].
  { intros h. apply (sane_find _ _ _ _ Hsane). }
  intros ret w1 [Hw1 _]. apply wp_bind.
  assert (keeps (if nonzero ret then mret tt else hw_do device_remove) anything) as Hrm.
  { keep_step; [by keep_step|]. apply keeps_hw_do'. intros h. apply (sane_remove _ _ _ _ Hsane). }
  eapply wp_mono; [by apply Hrm|]. intros _ w2 [Hw2 _]. apply wp_bind.
  eapply wp_mono; [by apply Hset|]. intros _ w3 [Hw3 _]. apply wp_bind.
  eapply wp_mono; [apply (keeps_printf _ "            " []); done|]. intros _ w4 [Hw4 _].
  apply wp_bind. unfold spi_flash_probe_bus_cs, snprintf, vsnprintf, vsnprintf_internal.
  destruct (format_accepts "spi_flash@%d:%d" [VInt bus; VInt cs] eq_refl) as [name ->].
  cbn [mbind option_bind]. apply wp_bind, wp_hw_call.
  match goal with |- context [spi_get_bus_and_cs bus cs ?n (hw w4)] =>
    destruct (sane_spi_probe _ _ _ _ Hsane bus cs n (hw w4)) as [Hs Hnor]; [apply Hw4|];
    destruct (spi_get_bus_and_cs bus cs n (hw w4)) as [[text r] h5] end.
  cbn [fst snd] in *. apply wp_bind, wp_modify, wp_ret.
  assert (machine_ok (emit text (with_hw h5 w4))) as Hw5 by by apply quiet_emit, machine_with_hw.
  destruct r as [f|code].
  - apply wp_bind, wp_modify, wp_ret. eapply Hgood; [|done|by apply Hnor]. destruct Hw5. by split.
  - apply wp_bind. eapply wp_mono; [apply keeps_printf; [apply _|done|done]|]. intros _ w6 [Hw6 _].
    by apply wp_ret, Hbad.
Qed.

Lemma keeps_NOR_Flash testId a :
  0 ≤ sign 32 (nf_spi_len a) ≤ SPI_TEST_LEN → keeps (NOR_Flash_test testId (Some a)) anything.
Proof using Hsane.
  intros Hlen. unfold NOR_Flash_test. keep_step; [|by keep_run].
  eapply keeps_bind; [apply keeps_spi_pins|]. intros _ _ w Hw.
  apply wp_bind, wp_nor_init_ok; [done|..].
  - intros w1 Hw1. by apply keeps_nor_failed.
  - intros f w1 Hw1 Hf Hu. cbn [Z.ltb Z.compare]. apply wp_bind.
    eapply wp_mono; [apply wp_erase_read_write_ok; eauto|]. intros r w2 [Hw2 _].
    apply keeps_at; [done|]. keep_step; [apply keeps_nor_failed|]. by keep_run.
Qed.

(** At power-up, before any driver has registered anything. *)
Lemma machine_ok_boot h : sane h → machine_ok (boot_world h).
Proof.
  intros Hh. split; [done|..]; unfold boot_world; cbn [eeprom nor mmc mii i2c_eeprom_testbuf1
    i2c_eeprom_testbuf2 data_test_buf1 data_test_buf2 mii_devs current_mii ommc_param curr_device].
  - intros bus. unfold children. cbn [i2c i2c_chips]. rewrite lookup_empty. by apply Forall_nil_2.
  - by rewrite length_replicate.
  - by rewrite length_replicate.
  - rewrite length_replicate. unfold SPI_TEST_LEN. lia.
  - rewrite length_replicate. unfold SPI_TEST_LEN. lia.
  - by apply Forall_nil_2.
  - done.
  - lia.
  - by left.
  - by split.
Qed.
End safety.
