(* ===== verification/Platforms.v ===== *)
(** The boards: the test tables of [supported-platforms/], the macros of
    [common/process_diagtest_cmds.h] that fill them, and the way the linker
    collects their entries.  Only the file of the board that is built is
    linked ([u-boot/Makefile]). *)

From stdpp Require Import sorting.
From S2P Require Import Prelude CLib Vsprintf VsprintfFacts Machine Events Keeps TestId DiagCore.
From S2P Require Import DiagCoreFacts BoardDiag BoardDiagFacts.
From S2P Require Import Memory Gpio I2cUclass I2cUtils Eeprom Rtc I2cProbe PowerRail.
From S2P Require Import Mii Eth NetUtils EthUclass NetCore Ping BlkCache MmcCore Mmc SpiMem SpiNor NorFlash.

(** What the [void *] of a table entry points at. *)
Inductive test_arg :=
| Arg_memory_data_line (a : A_memory_data_line_test)
| Arg_memory_address_line (a : A_memory_address_line_test)
| Arg_memory_pattern (a : A_memory_pattern_test)
| Arg_GPIO (a : A_GPIO_test)
| Arg_EEPROM (a : A_EEPROM_Read_Write_test)
| Arg_rtc_get_time (a : A_ds2321_rtc_get_time_test)
| Arg_rtc_set_time (a : A_ds2321_rtc_set_time_test)
| Arg_I2C_interface (a : A_I2C_interface_test)
| Arg_PWR_railings (a : A_PWR_railings_test)
| Arg_Ethernet (a : A_Ethernet_test)
| Arg_ping (a : A_ping_test)
| Arg_MMC_Detection (a : A_MMC_Detection_Test)
| Arg_MMC_WRITE_READ (a : A_MMC_WRITE_READ_Test)
| Arg_NOR_Flash (a : A_NOR_Flash_test).

Section boards.
Context {HW : Type} `{!MemBus HW} `{!I2cDriver HW} `{!Mdio HW} `{!Env HW} `{!EthDriver HW}
  `{!Timer HW} `{!Keyboard HW}  `{!Heap HW} `{!MmcHost HW} `{!SpiBus HW}.
Notation test_fn := (@TestFunction HW test_arg).
Notation test_entry := (@testParamEntry_s HW test_arg).

(** The cast of [arg] at the head of a test: a test reads its argument as the structure it expects. *)
Definition cast {A} (get : test_arg → option A)
    (f : Z → option A → M (world HW) TestResultTypes_e) : test_fn :=
  λ testId arg,
    match arg with
    | None => f testId None
    | Some x => match get x with Some a => f testId (Some a) | None => crash BAD_CAST end
    end.

Definition fn_memory_data_line_test : test_fn :=
  cast (λ x, match x with Arg_memory_data_line a => Some a | _ => None end) memory_data_line_test.
Definition fn_memory_address_line_test : test_fn :=
  cast (λ x, match x with Arg_memory_address_line a => Some a | _ => None end) memory_address_line_test.
Definition fn_memory_pattern_test : test_fn :=
  cast (λ x, match x with Arg_memory_pattern a => Some a | _ => None end) memory_pattern_test.
Definition fn_GPIO_test : test_fn :=
  cast (λ x, match x with Arg_GPIO a => Some a | _ => None end) GPIO_test.
Definition fn_EEPROM_Read_Write_test : test_fn :=
  cast (λ x, match x with Arg_EEPROM a => Some a | _ => None end) EEPROM_Read_Write_test.
Definition fn_ds2321_rtc_get_time_test : test_fn :=
  cast (λ x, match x with Arg_rtc_get_time a => Some a | _ => None end) ds2321_rtc_get_time_test.
Definition fn_ds2321_rtc_set_time_test : test_fn :=
  cast (λ x, match x with Arg_rtc_set_time a => Some a | _ => None end) ds2321_rtc_set_time_test.
Definition fn_I2C_interface_test : test_fn :=
  cast (λ x, match x with Arg_I2C_interface a => Some a | _ => None end) I2C_interface_test.
Definition fn_PWR_railings_test : test_fn :=
  cast (λ x, match x with Arg_PWR_railings a => Some a | _ => None end) PWR_railings_test.
Definition fn_Ethernet_test : test_fn :=
  cast (λ x, match x with Arg_Ethernet a => Some a | _ => None end) Ethernet_test.
Definition fn_ping_test : test_fn :=
  cast (λ x, match x with Arg_ping a => Some a | _ => None end) ping_test.
Definition fn_MMC_Detection_Test : test_fn :=
  cast (λ x, match x with Arg_MMC_Detection a => Some a | _ => None end) MMC_Detection_Test.
Definition fn_MMC_WRITE_READ_Test : test_fn :=
  cast (λ x, match x with Arg_MMC_WRITE_READ a => Some a | _ => None end) MMC_WRITE_READ_Test.
Definition fn_NOR_Flash_test : test_fn :=
  cast (λ x, match x with Arg_NOR_Flash a => Some a | _ => None end) NOR_Flash_test.

(** * Linker lists *)

(** An entry declared with [ll_entry_declare]: the section
    [.u_boot_list_2_<ll_list>_2_<ll_name>]. *)
Record ll_decl := mkDecl {
  ll_list : string;
  ll_name : string;
  ll_value : test_entry;
}.

(** A static variable: what the initialiser leaves out is zero. *)
Definition INVOKE_TEST_WITH_PARAM_ENTRY (description function argument : string) (f : test_fn)
    (a : test_arg) : test_entry :=
  mkEntry description (function +:+ "_" +:+ argument) (Some f) (Some a) 0
    (mkRequest DIAG_CONTROLRUN_IDLE DIAG_CONTROLRUN_IDLE)
    (mkStatus 0 0 0 DIAG_TEST_RESULT_NOT_STARTED DIAG_TEST_RESULT_NOT_STARTED 0).

Definition INVOKE_TEST_WITH_ADDITIONAL_PARAM (board description function argument : string)
    (f : test_fn) (a : test_arg) : ll_decl :=
  mkDecl ("testList_" +:+ board) (function +:+ "_" +:+ argument)
    (INVOKE_TEST_WITH_PARAM_ENTRY description function argument f a).

Definition INVOKE_TEST_WITH_PARAM (board description function argument : string)
    (f : test_fn) (a : test_arg) : ll_decl :=
  INVOKE_TEST_WITH_ADDITIONAL_PARAM board description function argument f a.

(** [KEEP( *(SORT(.u_boot_list* )))]: the sections between the start and the
    end marker of a list, by name. *)
Definition before (d d' : ll_decl) : Prop := String.leb (ll_name d) (ll_name d') = true.
#[global] Instance before_dec : RelDecision before.
Proof. intros d d'. unfold before. apply _. Defined.

Definition ll_entries (l : string) (decls : list ll_decl) : list test_entry :=
  ll_value <$> merge_sort before (filter (λ d, ll_list d = l) decls).

(** The image of a build from the given declarations, before any command. *)
Definition image (decls : list ll_decl) (w : world HW) : core :=
  mkCore w (ll_entries "testList_bcm2836_rpi2" decls) (ll_entries "testList_am335x_bbb" decls)
    None 0 None 0 0.

(** * The BeagleBone Black *)

(** The arrays of the argument have [MAX_I2C_DEVICE] elements. *)
Definition three_slaves (bus : Z) : A_I2C_interface_test :=
  mkI2cProbeArgs bus ([0x24; 0x34; 0x50] ++ replicate 125 0)
    ([Some "Slave 1"; Some "Slave 2"; Some "Slave 3"] ++ replicate 125 None) 3.

Definition ping_host : A_ping_test := mkPingArgs (Some "10.144.172.135").

Definition BBB_MMC_BASE_ADDR : Z := 0x481D8000.
Definition EMMC_TEST_BLOCK_START : Z := 583.
Definition EMMC_TEST_BLOCK_CNT : Z := 16.
Definition EMMC_TEST_DEVICE : Z := 0.

Definition PAD_CTRL_BASE_ADDR : Z := 0x44E10000.
Definition PAD_CTRL_OFFSET_1 : Z := 0x814.
Definition GPIO_BANK_BASE_ADDR : Z := 0x4804c000.
Definition GPIO_BANK_ENABLE_OFFSET : Z := 0x130.
Definition GPIO_BANK_OUTPUT_OFFSET : Z := 0x134.
Definition GPIO_BANK_DATAIN_OFFSET : Z := 0x138.
Definition GPIO_BANK_DATAOUT_OFFSET : Z := 0x13C.

Definition gpio0_output (on : Z) : A_GPIO_test :=
  mkGpio PAD_CTRL_BASE_ADDR PAD_CTRL_OFFSET_1 0x17 GPIO_BANK_BASE_ADDR GPIO_BANK_ENABLE_OFFSET 0 1
    GPIO_BANK_OUTPUT_OFFSET GPIO_BANK_DATAIN_OFFSET GPIO_BANK_DATAOUT_OFFSET 21 on.

Definition DS2321_RTC_SLAVE_ADDRESS : Z := 0x68.
Definition DS2321_RTC_SEC_VALUE : Z := 0x20.
Definition DS2321_RTC_MIN_VALUE : Z := 0x14.
Definition DS2321_RTC_HR_VALUE : Z := 0x05.

(** [supported-platforms/am335x_bbb/am335x_bbb.c], in file order. *)
Definition am335x_bbb_decls : list ll_decl := [
  INVOKE_TEST_WITH_PARAM "am335x_bbb" "I2C bus 0 probe" "I2C_interface_test" "I2C0_DEVICES"
    fn_I2C_interface_test (Arg_I2C_interface (three_slaves I2C_BUS_0));
  INVOKE_TEST_WITH_PARAM "am335x_bbb" "I2C bus 1 probe" "I2C_interface_test" "I2C1_DEVICES"
    fn_I2C_interface_test (Arg_I2C_interface (three_slaves I2C_BUS_1));
  INVOKE_TEST_WITH_PARAM "am335x_bbb" "Ping" "ping_test" "smsc95xx_eth"
    fn_ping_test (Arg_ping ping_host);
  INVOKE_TEST_WITH_PARAM "am335x_bbb" "eMMC presence" "MMC_Detection_Test" "eMMC_check"
    fn_MMC_Detection_Test (Arg_MMC_Detection (mkMmcDetArgs BBB_MMC_BASE_ADDR));
  INVOKE_TEST_WITH_PARAM "am335x_bbb" "eMMC Read, Write and Erase tests"
    "MMC_WRITE_READ_Test" "eMMC_Access_Check" fn_MMC_WRITE_READ_Test
    (Arg_MMC_WRITE_READ (mkMmcRwArgs BBB_MMC_BASE_ADDR EMMC_TEST_BLOCK_START
       EMMC_TEST_BLOCK_CNT EMMC_TEST_DEVICE));
  INVOKE_TEST_WITH_PARAM "am335x_bbb" "Memory Test" "memory_data_line_test" "Data_Line"
    fn_memory_data_line_test (Arg_memory_data_line (mkDataLine 0x88080000));
  INVOKE_TEST_WITH_PARAM "am335x_bbb" "Memory Test" "memory_address_line_test" "Address_Line"
    fn_memory_address_line_test (Arg_memory_address_line (mkAddressLine 0x88080000 2048));
  INVOKE_TEST_WITH_PARAM "am335x_bbb" "Memory Test" "memory_pattern_test" "Pattern"
    fn_memory_pattern_test (Arg_memory_pattern (mkPattern 0x88080000 2048 0x55555555));
  INVOKE_TEST_WITH_PARAM "am335x_bbb" "GPIO Output Enable" "GPIO_test" "GPIO0_OUTPUT_ENABLE"
    fn_GPIO_test (Arg_GPIO (gpio0_output 1));
  INVOKE_TEST_WITH_PARAM "am335x_bbb" "GPIO Output Disable" "GPIO_test" "GPIO0_OUTPUT_DISABLE"
    fn_GPIO_test (Arg_GPIO (gpio0_output 0));
  INVOKE_TEST_WITH_PARAM "am335x_bbb" "Ethernet Test" "Ethernet_test" "SPEED_DUPLEX_AUTONEGOTIATE"
    fn_Ethernet_test (Arg_Ethernet (mkEthArgs "ethernet@4a100000" 0x00 "LAN8710A"));
  INVOKE_TEST_WITH_PARAM "am335x_bbb" "PWR railings display" "PWR_railings_test" "REGISTER_READ"
    fn_PWR_railings_test (Arg_PWR_railings (mkPwrArgs I2C_BUS_0 0x24 "TPS65217C"));
  INVOKE_TEST_WITH_PARAM "am335x_bbb" "EEPROM Read Write" "EEPROM_Read_Write_test" "EEPROM"
    fn_EEPROM_Read_Write_test
    (Arg_EEPROM (mkEepromArgs I2C_BUS_1 0x50 EEPROM_TEST_OFFSET EEPROM_TEST_LEN));
  INVOKE_TEST_WITH_PARAM "am335x_bbb" "SPI NOR flash erase-Write-Read test " "NOR_Flash_test"
    "NOR_FLASH" fn_NOR_Flash_test (Arg_NOR_Flash (mkNorArgs 0 0 0 0x20000));
  INVOKE_TEST_WITH_PARAM "am335x_bbb" "RTC set time" "ds2321_rtc_set_time_test" "value"
    fn_ds2321_rtc_set_time_test
    (Arg_rtc_set_time (mkSetTime I2C_BUS_1 I2C_SPEED_100Khz DS2321_RTC_SLAVE_ADDRESS
       DS2321_RTC_SEC_VALUE DS2321_RTC_MIN_VALUE DS2321_RTC_HR_VALUE));
  INVOKE_TEST_WITH_PARAM "am335x_bbb" "RTC get time" "ds2321_rtc_get_time_test" "value"
    fn_ds2321_rtc_get_time_test
    (Arg_rtc_get_time (mkGetTime I2C_BUS_1 I2C_SPEED_100Khz DS2321_RTC_SLAVE_ADDRESS))
].

(** * The Raspberry Pi 2 *)

Definition RPI2_MMC_BASE_ADDR : Z := 0x3f300000.

(** [supported-platforms/bcm2836_rpi2/bcm2836_rpi2.c], in file order. *)
Definition bcm2836_rpi2_decls : list ll_decl := [
  INVOKE_TEST_WITH_PARAM "bcm2836_bbb" "Ping" "ping_test" "smsc95xx_eth"
    fn_ping_test (Arg_ping ping_host);
  INVOKE_TEST_WITH_PARAM "bcm2836_rpi2" "eMMC presence" "MMC_Detection_Test" "eMMC_check"
    fn_MMC_Detection_Test (Arg_MMC_Detection (mkMmcDetArgs RPI2_MMC_BASE_ADDR));
  INVOKE_TEST_WITH_PARAM "bcm2836_rpi2" "eMMC Read, Write and Erase tests"
    "MMC_WRITE_READ_Test" "eMMC_Access_Check" fn_MMC_WRITE_READ_Test
    (Arg_MMC_WRITE_READ (mkMmcRwArgs RPI2_MMC_BASE_ADDR EMMC_TEST_BLOCK_START
       EMMC_TEST_BLOCK_CNT EMMC_TEST_DEVICE));
  INVOKE_TEST_WITH_PARAM "am335x_bbb" "Memory Test" "memory_data_line_test" "Data_Line"
    fn_memory_data_line_test (Arg_memory_data_line (mkDataLine 0x88080000));
  INVOKE_TEST_WITH_PARAM "am335x_bbb" "Memory Test" "memory_address_line_test" "Address_Line"
    fn_memory_address_line_test (Arg_memory_address_line (mkAddressLine 0x88080000 2048));
  INVOKE_TEST_WITH_PARAM "am335x_bbb" "Memory Test" "memory_pattern_test" "Pattern"
    fn_memory_pattern_test (Arg_memory_pattern (mkPattern 0x88080000 2048 0x55555555))
].

(** * The tables *)

(** The function of the entry reads its argument as what it is. *)
Definition well_typed (e : test_entry) : Prop :=
  ∃ A (get : test_arg → option A) f x a,
    testFunction e = Some (cast get f) ∧ testArgs e = Some x ∧ get x = Some a.

Lemma leb_trans s1 s2 s3 :
  String.leb s1 s2 = true → String.leb s2 s3 = true → String.leb s1 s3 = true.
Proof.
  revert s2 s3. unfold String.leb. induction s1 as [|a s1 IH]; intros [|b s2] [|c s3]; try done.
  simpl. unfold Ascii.compare.
  destruct (N.compare_spec (N_of_ascii a) (N_of_ascii b)),
    (N.compare_spec (N_of_ascii b) (N_of_ascii c)),
    (N.compare_spec (N_of_ascii a) (N_of_ascii c)); try lia; try done.
  apply IH.
Qed.

#[local] Instance before_total : Total before.
Proof. intros d d'. apply String.leb_total. Qed.

#[local] Instance before_trans : Transitive before.
Proof. intros d1 d2 d3. apply leb_trans. Qed.

Lemma ll_entries_Permutation l decls :
  ll_entries l decls ≡ₚ ll_value <$> filter (λ d, ll_list d = l) decls.
Proof. unfold ll_entries. by rewrite merge_sort_Permutation. Qed.

(** The entries of a linker list are those declared for it, in the order of
    their symbols: the numbers [boarddiag list] shows do not depend on the
    order of the declarations in the file, as long as the symbols differ. *)
Theorem ll_entries_order l decls decls' :
  decls ≡ₚ decls' → NoDup (ll_name <$> filter (λ d, ll_list d = l) decls) →
  ll_entries l decls = ll_entries l decls'.
Proof.
  intros Hp Hnd. unfold ll_entries. f_equal. set (f := filter _) in *.
  assert (f decls ≡ₚ f decls') as Hpf by (unfold f; by rewrite Hp).
  eapply (StronglySorted_unique_strong before); [|apply StronglySorted_merge_sort; apply _..|].
  - intros d1 d2 H1 H2 H12 H21. rewrite merge_sort_Permutation in H1, H2. rewrite <- Hpf in H2.
    apply list_elem_of_lookup in H1 as [i1 H1], H2 as [i2 H2].
    assert (i1 = i2) as ->.
    { eapply (NoDup_lookup _ _ _ (ll_name d1) Hnd); rewrite list_lookup_fmap, ?H1, ?H2; [done|].
      simpl. f_equal. symmetry. by apply String.leb_antisym. }
    congruence.
  - by rewrite !merge_sort_Permutation.
Qed.

Definition bbb_names : list string :=
  ["EEPROM_Read_Write_test_EEPROM"; "Ethernet_test_SPEED_DUPLEX_AUTONEGOTIATE";
   "GPIO_test_GPIO0_OUTPUT_DISABLE"; "GPIO_test_GPIO0_OUTPUT_ENABLE";
   "I2C_interface_test_I2C0_DEVICES"; "I2C_interface_test_I2C1_DEVICES";
   "MMC_Detection_Test_eMMC_check"; "MMC_WRITE_READ_Test_eMMC_Access_Check";
   "NOR_Flash_test_NOR_FLASH"; "PWR_railings_test_REGISTER_READ";
   "ds2321_rtc_get_time_test_value"; "ds2321_rtc_set_time_test_value";
   "memory_address_line_test_Address_Line"; "memory_data_line_test_Data_Line";
   "memory_pattern_test_Pattern"; "ping_test_smsc95xx_eth"].

Lemma bbb_table_names : name <$> ll_entries "testList_am335x_bbb" am335x_bbb_decls = bbb_names.
Proof. by vm_compute. Qed.

Lemma bbb_table_ids :
  NoDup (CalculateTestIdHash ∘ name <$> ll_entries "testList_am335x_bbb" am335x_bbb_decls).
Proof.
  rewrite list_fmap_compose, bbb_table_names. apply (bool_decide_unpack _). by vm_compute.
Qed.

Lemma bbb_table_entries :
  ll_entries "testList_am335x_bbb" am335x_bbb_decls ≡ₚ ll_value <$> am335x_bbb_decls.
Proof. by rewrite ll_entries_Permutation. Qed.

(** The table of the BeagleBone Black: the sixteen tests its file declares, in
    the order of their symbols, each with the argument its function reads,
    and with ids that tell them apart. *)
Theorem bbb_table :
  name <$> ll_entries "testList_am335x_bbb" am335x_bbb_decls = bbb_names ∧
  NoDup (CalculateTestIdHash ∘ name <$> ll_entries "testList_am335x_bbb" am335x_bbb_decls) ∧
  Forall well_typed (ll_entries "testList_am335x_bbb" am335x_bbb_decls).
Proof.
  split; [apply bbb_table_names|]. split; [apply bbb_table_ids|]. rewrite bbb_table_entries.
  repeat (apply Forall_cons_2; [eexists _, _, _, _, _; split_and!; reflexivity|]).
  by apply Forall_nil_2.
Qed.

(** Of the six tests the Raspberry Pi 2 file declares, only the two MMC ones
    are in the list of that board: ping is declared for the list
    [bcm2836_bbb], which no board selects, and the memory tests for the list
    of the other board. *)
Theorem rpi2_table :
  name <$> ll_entries "testList_bcm2836_rpi2" bcm2836_rpi2_decls =
    ["MMC_Detection_Test_eMMC_check"; "MMC_WRITE_READ_Test_eMMC_Access_Check"] ∧
  Forall well_typed (ll_value <$> bcm2836_rpi2_decls).
Proof.
  split; [by vm_compute|].
  repeat (apply Forall_cons_2; [eexists _, _, _, _, _; split_and!; reflexivity|]). by apply Forall_nil_2.
Qed.

(** * The Raspberry Pi 2, from power-up *)

Section rpi2.
(** The controllers of the board are where the device tree says. *)
Context (base : Z → option Z) (Hbase : ∀ k h, priv_base <$> mmc_of k h = base k).

(** The controller of the test answers. *)
Definition mmc_answers : Prop :=
  ∃ k, port_at base RPI2_MMC_BASE_ADDR k ∧ ∀ h : HW, 0 ≤ (mmc_reinit k h).1.

(** What the two tests return. *)
Definition rpi2_results (nm : string) (r : TestResultTypes_e) : Prop :=
  if bool_decide (nm = "MMC_Detection_Test_eMMC_check")
  then (mmc_answers → r = DIAG_TEST_RESULT_PASS) ∧
       ((∀ k, ¬ port_at base RPI2_MMC_BASE_ADDR k) → r = DIAG_TEST_RESULT_FAIL)
  else r = DIAG_TEST_RESULT_PASS.

Definition rpi2_tests : list test_entry := ll_entries "testList_bcm2836_rpi2" bcm2836_rpi2_decls.

Lemma rpi2_tests_total : total_tests (λ _, True) rpi2_results rpi2_tests.
Proof using Hbase.
  unfold total_tests, rpi2_tests. rewrite ll_entries_Permutation.
  replace (filter _ bcm2836_rpi2_decls) with (take 2 (drop 1 bcm2836_rpi2_decls)) by done.
  repeat (apply Forall_cons_2); [intros fn [= <-] tid w _..|by apply Forall_nil_2].
  - cbn [fn_MMC_Detection_Test cast testArgs].
    destruct (mmc_detection_returns base Hbase tid RPI2_MMC_BASE_ADDR w) as [Hyes Hno].
    change (name _) with "MMC_Detection_Test_eMMC_check". unfold rpi2_results.
    rewrite bool_decide_true by done.
    destruct (port_at_search base RPI2_MMC_BASE_ADDR) as [[k Hk]|Hnone].
    + destruct (Hyes k Hk) as (w' & Hw & _). eexists _, w'. split_and!; [exact Hw|done| |].
      * intros (k' & Hk' & Hok). rewrite (port_at_unique base RPI2_MMC_BASE_ADDR k' k) in Hok by done.
        by rewrite (proj2 (Z.leb_le _ _) (Hok (hw w))).
      * intros Hn. by destruct (Hn k).
    + destruct (Hno Hnone) as (w' & Hw). eexists _, w'. split_and!; [exact Hw|done| |done].
      intros (k & Hk & _). by destruct (Hnone k).
  - eexists _, _. split; [reflexivity|]. by split.
Qed.

(** C33. From power-up of an image built for the Raspberry Pi 2, [boarddiag
    runAll] returns success, whatever the state of the machine: it runs the
    detection test once and the read/write test once.  The read/write test
    never counts a failure; the detection test counts none when the
    controller at the configured address answers, and one when there is no
    such controller. *)
Theorem rpi2_runAll_from_boot fuel (w : world HW) :
  (1 < fuel)%nat →
  ∃ c' det rw, do_boarddiag BCM2836_RPI2 fuel 2 ["boarddiag"; "runAll"]
                 (image bcm2836_rpi2_decls w) = Ret 0 c' ∧
    list_rpi2 c' !! 0%nat = Some det ∧ list_rpi2 c' !! 1%nat = Some rw ∧
    name det = "MMC_Detection_Test_eMMC_check" ∧
    name rw = "MMC_WRITE_READ_Test_eMMC_Access_Check" ∧
    wrap32 (runCount (status det)) = 1 ∧ wrap32 (runCount (status rw)) = 1 ∧
    wrap32 (totalFailCount (status rw)) = 0 ∧
    (mmc_answers → wrap32 (totalFailCount (status det)) = 0) ∧
    ((∀ k, ¬ port_at base RPI2_MMC_BASE_ADDR k) → wrap32 (totalFailCount (status det)) = 1).
Proof using Hbase.
  intros Hfuel. set (c := image bcm2836_rpi2_decls w).
  assert (table bcm2836_rpi2 c = ll_value <$> take 2 (drop 1 bcm2836_rpi2_decls)) as Ht by done.
  destruct (run_all_boot BCM2836_RPI2 bcm2836_rpi2 (λ _, True) rpi2_results fuel c)
    as (c' & H & Ha & Hran);
    [done|done|apply rpi2_tests_total|apply (bool_decide_unpack _); by vm_compute|by rewrite Ht|done|].
  rewrite Ht in Hran.
  destruct (Hran 0%nat _ eq_refl) as (det & fd & Hdet & ((_ & Hnd & _) & _ & Hrd & Htd & _) & Pd & Nd);
    [done|].
  destruct (Hran 1%nat _ eq_refl) as (rw & fr & Hrw & ((_ & Hnr & _) & _ & Hrr & Htr & _) & Pr & _);
    [done|].
  exists c', det, rw. split_and!;
    [exact H|exact Hdet|exact Hrw|exact Hnd|exact Hnr|exact Hrd|exact Hrr|..].
  - rewrite Htr, Pr; [done|]. by intros r.
  - intros Hok. rewrite Htd, Pd; [done|]. intros r [Hr _]. by apply Hr.
  - intros Hno. rewrite Htd, Nd; [done|]. intros [_ Hr]. by specialize (Hr Hno).
Qed.
End rpi2.
End boards.

(** * Witnesses *)

(** A machine with one MMC controller that answers, at the Raspberry Pi's
    address, and nothing else. *)
Module PiSim.
#[export] Instance mem : MemBus unit :=
  {| mem_read32 _ h := (0, h); mem_write32 _ _ h := h; flush_dcache_all h := h |}.
#[export] Instance env : Env unit :=
  {| env_get _ _ := None; env_set _ _ h := (0, h); env_get_id _ := 0 |}.
#[export] Instance port : EthDriver unit := {|
  uclass_first_eth h := ((- ENODEV, None), h);
  uclass_next_eth _ h := ((- ENODEV, None), h);
  uclass_eth_devs _ := [];
  eth_device_active _ _ := false;
  eth_device_probe _ h := (- ENODEV, h);
  eth_dev_name _ := "";
  eth_dev_seq _ _ := -1;
  enetaddr _ _ := replicate 6 0;
  eth_ops_start _ h := (- ENODEV, h);
  eth_ops_stop _ h := h;
  eth_ops_send _ _ h := (- ENODEV, h);
  eth_ops_recv _ _ h := ((- ENODEV, []), h);
  eth_ops_free_pkt _ := None;
|}.
#[export] Instance timer : Timer unit := {| get_timer b h := (wrap32 (- b), h) |}.
#[export] Instance keyboard : Keyboard unit := {| tstc h := (false, h); getc h := (0, h) |}.
#[export] Instance heap : Heap unit := {| heap_malloc _ h := (true, h) |}.

Definition card : mmc_dev :=
  mkMmcDev false 512 512 2 true 0 1 false 1 false 64 512 RPI2_MMC_BASE_ADDR.

#[export] Instance host : MmcHost unit := {|
  mmc_of n _ := if n =? 0 then Some card else None;
  mmc_send_cmd _ _ _ h := ((0, 0x900, []), h);
  mmc_wait_dat0 _ _ _ h := (0, h);
  mmc_select_hwpart _ h := (0, h);
  mmc_reinit _ h := (0, h);
  mmc_getwp _ h := (0, h);
  mmc_udelay _ h := h;
|}.

Definition base (k : Z) : option Z := if k =? 0 then Some RPI2_MMC_BASE_ADDR else None.

Lemma base_ok k h : priv_base <$> mmc_of k h = base k.
Proof. simpl. unfold base. by destruct (k =? 0). Qed.
End PiSim.

#[local] Existing Instances PiSim.mem PiSim.env PiSim.port PiSim.timer
  PiSim.keyboard PiSim.heap PiSim.host.

Lemma ll_entries_order_witness :
  ll_entries (HW := unit) "testList_bcm2836_rpi2" bcm2836_rpi2_decls =
  ll_entries "testList_bcm2836_rpi2" (reverse bcm2836_rpi2_decls).
Proof.
  apply (ll_entries_order "testList_bcm2836_rpi2"); [symmetry; apply reverse_Permutation|].
  by apply (bool_decide_unpack _).
Defined.

Lemma rpi2_runAll_from_boot_witness :
  ∃ c' det rw, do_boarddiag BCM2836_RPI2 2 2 ["boarddiag"; "runAll"]
                 (image bcm2836_rpi2_decls (boot_world tt)) = Ret 0 c' ∧
    list_rpi2 c' !! 0%nat = Some det ∧ list_rpi2 c' !! 1%nat = Some rw ∧
    wrap32 (totalFailCount (status rw)) = 0 ∧ wrap32 (totalFailCount (status det)) = 0.
Proof.
  destruct (rpi2_runAll_from_boot PiSim.base PiSim.base_ok 2 (boot_world tt))
    as (c' & det & rw & H & Hd & Hr & _ & _ & _ & _ & Hrw & Hok & _); [lia|].
  exists c', det, rw. split_and!; [done..|]. apply Hok. exists 0.
  split; [|by intros []]. split; [lia|]. split; [done|]. lia.
Defined.
