(* ===== verification/BeagleBone.v ===== *)
(** The BeagleBone Black from power-up: on a sane board the whole table runs
    to the end. *)

From S2P Require Import Prelude CLib Vsprintf VsprintfFacts Machine Events Keeps TestId DiagCore.
From S2P Require Import DiagCoreFacts BoardDiag BoardDiagFacts.
From S2P Require Import Memory Gpio I2cUclass I2cUtils Eeprom Rtc I2cProbe PowerRail.
From S2P Require Import Mii Eth NetUtils EthUclass NetCore EthFacts NetFacts Ping.
From S2P Require Import BlkCache MmcCore Mmc SpiMem SpiNor SpiNorFacts NorFlash.
From S2P Require Import Safety Platforms Command.

Section bbb.
Context {HW : Type} `{!MemBus HW} `{!I2cDriver HW} `{!Mdio HW} `{!Env HW} `{!EthDriver HW}
  `{!Timer HW} `{!Keyboard HW} `{!Heap HW} `{!MmcHost HW} `{!SpiBus HW} (sane : HW → Prop)
  (base : Z → option Z) (ticks : HW → Z) (dev0 : option Z) (Hsane : SaneBoard sane base ticks dev0).
Notation machine_ok := (machine_ok sane dev0).

(** The only result that does not depend on the hardware. *)
Definition bbb_results (nm : string) (r : TestResultTypes_e) : Prop :=
  nm = "MMC_WRITE_READ_Test_eMMC_Access_Check" → r = DIAG_TEST_RESULT_PASS.

Lemma slaves_ok bus : args_ok (three_slaves bus) 3.
Proof.
  split_and!; [done|lia|cbn; lia|]. intros [|[|[|i]]] Hi; [..|lia].
  - by exists "Slave 1".
  - by exists "Slave 2".
  - by exists "Slave 3".
Qed.

(** A test that keeps the machine sane returns. *)
Lemma keeps_returns (m : M (world HW) TestResultTypes_e) nm w :
  keeps machine_ok m (λ _, True) → nm ≠ "MMC_WRITE_READ_Test_eMMC_Access_Check" → machine_ok w →
  ∃ r w', m w = Ret r w' ∧ machine_ok w' ∧ bbb_results nm r.
Proof.
  intros Hm Hnm Hw. destruct (proj1 (wp_run _ _ _) (Hm w Hw)) as (r & w' & H & Hw' & _).
  exists r, w'. split_and!; [done|done|]. by intros ?.
Qed.

Lemma bbb_tests_total :
  total_tests machine_ok bbb_results (ll_entries "testList_am335x_bbb" am335x_bbb_decls).
Proof using Hsane.
  unfold total_tests. rewrite bbb_table_entries.
  repeat (apply Forall_cons_2); [intros fn [= <-] tid w Hw..|by apply Forall_nil_2].
  - apply keeps_returns; [|done|done]. exact (keeps_I2C_interface _ _ _ _ Hsane _ _ _ (slaves_ok _)).
  - apply keeps_returns; [|done|done]. exact (keeps_I2C_interface _ _ _ _ Hsane _ _ _ (slaves_ok _)).
  - apply keeps_returns; [|done|done]. by apply (keeps_ping _ _ _ _ Hsane).
  - apply keeps_returns; [|done|done]. apply (keeps_MMC_Detection _ _ _ _ Hsane).
  - eexists _, _. split; [reflexivity|]. by split.
  - apply keeps_returns; [|done|done]. apply (keeps_data_line _ _ _ _ Hsane).
  - apply keeps_returns; [|done|done]. apply (keeps_address_line _ _ _ _ Hsane).
  - apply keeps_returns; [|done|done]. by apply (keeps_pattern _ _ _ _ Hsane).
  - apply keeps_returns; [|done|done]. by apply (keeps_GPIO _ _ _ _ Hsane).
  - apply keeps_returns; [|done|done]. by apply (keeps_GPIO _ _ _ _ Hsane).
  - apply keeps_returns; [|done|done]. apply (keeps_Ethernet _ _ _ _ Hsane).
  - apply keeps_returns; [|done|done]. apply (keeps_PWR_railings _ _ _ _ Hsane).
  - apply keeps_returns; [|done|done]. apply (keeps_EEPROM _ _ _ _ Hsane).
  - apply keeps_returns; [|done|done]. by apply (keeps_NOR_Flash _ _ _ _ Hsane).
  - apply keeps_returns; [|done|done]. by apply (keeps_rtc_set _ _ _ _ Hsane).
  - apply keeps_returns; [|done|done]. apply (keeps_rtc_get _ _ _ _ Hsane).
Qed.

(** What the initialisation of the executive leaves in the entries. *)
Lemma bbb_entries_start :
  Forall (λ e, testFunction e ≠ None ∧ runCount (status (init_entry e)) = 0 ∧
    totalFailCount (status (init_entry e)) = 0) (ll_value (HW := HW) <$> am335x_bbb_decls).
Proof. repeat (apply Forall_cons_2; [by split_and!|]). by apply Forall_nil_2. Qed.

Lemma bbb_runAll_boot fuel w :
  machine_ok w → (1 < fuel)%nat →
  ∃ c', do_boarddiag AM335X_BBB fuel 2 ["boarddiag"; "runAll"] (image am335x_bbb_decls w) = Ret 0 c' ∧
    able machine_ok bbb_results am335x_bbb c' ∧
    ∀ d, d ∈ am335x_bbb_decls → ∃ e, e ∈ list_bbb c' ∧ name e = name (ll_value d) ∧
      wrap32 (runCount (status e)) = 1 ∧ 0 ≤ wrap32 (totalFailCount (status e)) ≤ 1 ∧
      (name e = "MMC_WRITE_READ_Test_eMMC_Access_Check" → wrap32 (totalFailCount (status e)) = 0).
Proof using Hsane.
  intros Hw Hfuel. set (c := image am335x_bbb_decls w).
  assert (length (table am335x_bbb c) = 16%nat) as Hlen.
  { rewrite <- (length_fmap name). change (table _ _) with (ll_entries "testList_am335x_bbb" am335x_bbb_decls).
    by rewrite bbb_table_names. }
  destruct (run_all_boot AM335X_BBB am335x_bbb machine_ok bbb_results fuel c)
    as (c' & H & Ha & Hran);
    [by split_and!; [..|rewrite Hlen]|done|by apply bbb_tests_total|apply bbb_table_ids
    |by intros Ht; rewrite Ht in Hlen|done|].
  exists c'. split_and!; [done|done|]. intros d Hd.
  assert (ll_value d ∈ ll_value <$> am335x_bbb_decls) as Hin by by apply list_elem_of_fmap_2.
  pose proof bbb_entries_start as Hs. rewrite Forall_forall in Hs.
  destruct (Hs _ Hin) as (Hfn & Hr0 & Hf0). rewrite <- bbb_table_entries in Hin.
  apply list_elem_of_lookup in Hin as [i Hi].
  destruct (Hran i _ Hi Hfn) as (e & f & He & ((_ & Hnm & _) & Hf & Hr & Ht & _) & Hp & _).
  exists e. rewrite Hr, Ht, Hr0, Hf0. clear Hr Ht Hr0 Hf0 Hs.
  rewrite (wrap32_small (0 + f)) by lia.
  split_and!; [by eapply list_elem_of_lookup_2|done|done|lia|lia|].
  intros Hname. rewrite Z.add_0_l. apply Hp. intros r Hres. apply Hres. by rewrite <- Hnm.
Qed.


(** C4. The same from the shell: with the command in the linker list, at any
    place and among any others of other names before it, the line
    [boarddiag runAll] is dispatched to it whatever the flags, runs every test
    of the board once and returns success; the line is not repeated by an
    empty one. *)
Theorem bbb_shell_runAll fuel (l1 l2 : list cmd_tbl_t) flag rep w :
  machine_ok w → (1 < fuel)%nat → clean_names (l1 ++ l2) → Forall (λ c, cmd_name c ≠ "boarddiag") l1 →
  ∃ c', cmd_process (l1 ++ boarddiag_cmd AM335X_BBB fuel :: l2) flag 2 ["boarddiag"; "runAll"] rep None
          (image am335x_bbb_decls w) = Ret (0, 0, None) c' ∧
    able machine_ok bbb_results am335x_bbb c' ∧
    ∀ d, d ∈ am335x_bbb_decls → ∃ e, e ∈ list_bbb c' ∧ name e = name (ll_value d) ∧
      wrap32 (runCount (status e)) = 1.
Proof using Hsane.
  intros Hw Hfuel Hcl Hl1.
  destruct (boarddiag_dispatched AM335X_BBB fuel l1 l2 flag 2 ["runAll"] rep (image am335x_bbb_decls w) Hcl Hl1)
    as [s Hrun]; [lia|].
  destruct (bbb_runAll_boot fuel (emit s w) (quiet_emit s w Hw) Hfuel) as (c' & H & Ha & Hall).
  exists c'. split; [apply Hrun; [exact H|discriminate]|]. split; [exact Ha|]. intros d Hd.
  destruct (Hall d Hd) as (e & He & Hn & Hr & _). exists e. split; [exact He|]. split; [exact Hn|exact Hr].
Qed.
End bbb.

(** * Witness *)

(** A board on which nothing answers but the SPI flash, one MMC controller, an
    Ethernet port that receives nothing, and the clock: the machine is the time
    in microseconds, and a transfer takes one. *)
Module QuietBoard.
#[export] Instance mem : MemBus Z :=
  {| mem_read32 _ h := (0, h); mem_write32 _ _ h := h; flush_dcache_all h := h |}.
#[export] Instance i2c_bus : I2cDriver Z := {|
  uclass_get_device_by_seq n h := (inl n, h);
  i2c_get_ops _ := mkOps None None None None None;
  device_bind_driver _ h := (0, h);
  device_probe _ _ h := (0, h);
  malloc_ok _ h := (true, h);
|}.
#[export] Instance mdio : Mdio Z :=
  {| mdio_read _ _ _ _ h := (-1, h); mdio_write _ _ _ _ _ h := (-1, h); udelay n h := h + n |}.
#[export] Instance env : Env Z :=
  {| env_get _ _ := None; env_set _ _ h := (0, h); env_get_id _ := 0 |}.
#[export] Instance port : EthDriver Z := {|
  uclass_first_eth h := ((0, Some 0), h);
  uclass_next_eth _ h := ((0, None), h);
  uclass_eth_devs _ := [0];
  eth_device_active _ _ := true;
  eth_device_probe _ h := (0, h);
  eth_dev_name _ := "eth0";
  eth_dev_seq _ _ := 0;
  enetaddr _ _ := [2; 0; 0; 0; 0; 1];
  eth_ops_start _ h := (0, h);
  eth_ops_stop _ h := h;
  eth_ops_send _ _ h := (0, h + 1);
  eth_ops_recv _ _ h := ((- EAGAIN, []), h);
  eth_ops_free_pkt _ := None;
|}.
#[export] Instance timer : Timer Z := {| get_timer b h := (wrap32 (h / 1000 - b), h) |}.
#[export] Instance keyboard : Keyboard Z := {| tstc h := (false, h + 1); getc h := (0, h) |}.
#[export] Instance heap : Heap Z := {| heap_malloc _ h := (true, h) |}.

Definition card : mmc_dev :=
  mkMmcDev false 512 512 2 true 0 1 false 1 false 64 512 BBB_MMC_BASE_ADDR.

#[export] Instance host : MmcHost Z := {|
  mmc_of n _ := if n =? 1 then Some card else None;
  mmc_send_cmd _ _ _ h := ((- EIO, 0, []), h);
  mmc_wait_dat0 _ _ _ h := (0, h);
  mmc_select_hwpart _ h := (0, h);
  mmc_reinit _ h := (-1, h);
  mmc_getwp _ h := (0, h);
  mmc_udelay n h := h + n;
|}.

(** The status register always reads as busy. *)
#[export] Instance spi : SpiBus Z := {|
  spi_find_bus_and_cs _ _ h := (0, h);
  device_remove h := h;
  spi_get_bus_and_cs _ _ _ h := (("", inl NorSim.w25q32), h);
  spi_claim_bus h := (0, h);
  spi_release_bus h := h;
  spi_send _ _ h := (0, h + 1);
  spi_receive n _ h := ((0, replicate (Z.to_nat n) 1), h + 1);
|}.

Definition base (k : Z) : option Z := if k =? 1 then Some BBB_MMC_BASE_ADDR else None.

Lemma sane_port peer : NetPort (λ _ : Z, True) (λ h, h) (Some 0) peer (λ _, True).
Proof. split; [split|..]; unfold moves, takes; cbn; intros; repeat split; done || lia || congruence. Qed.

Lemma sane : SaneBoard (λ _ : Z, True) base (λ h, h) (Some 0).
Proof.
  split; try done; unfold takes; cbn; try (intros; split_and!; try done; lia).
  - apply sane_port.
  - intros k h _. unfold base. by destruct (k =? 1).
  - intros b c n h _. split; [done|]. intros nor [= <-]. by split.
Qed.
End QuietBoard.

#[local] Existing Instances QuietBoard.mem QuietBoard.i2c_bus QuietBoard.mdio QuietBoard.env
  QuietBoard.port QuietBoard.timer QuietBoard.keyboard QuietBoard.heap QuietBoard.host QuietBoard.spi.


Lemma bbb_shell_runAll_witness :
  ∃ c', cmd_process [boarddiag_cmd AM335X_BBB 2] 0 2 ["boarddiag"; "runAll"] 1 None
          (image am335x_bbb_decls (boot_world 0)) = Ret (0, 0, None) c'.
Proof.
  destruct (bbb_shell_runAll (λ _, True) QuietBoard.base (λ h, h) (Some 0) QuietBoard.sane 2 [] [] 0 1
              (boot_world 0)) as (c' & H & _);
    [by apply machine_ok_boot|lia|constructor|constructor|]. exists c'. exact H.
Defined.
